(* ===== verification/_CoqProject ===== *)
-Q . S2P
Prelude.v
KgpuDefs.v
Log.v
HexDump.v
Layout.v
Slab.v
ListHead.v
Ranges.v
CudaRanges.v
UnitAlloc.v
MemPool.v
PoolLock.v
MmapArea.v
VmAccess.v
Device.v
QueueLock.v
Module.v
Wire.v
OpenClose.v
Lifecycle.v
FileOps.v
GpuOps.v
CudaInit.v
ItemList.v
Services.v
Helper.v
HelperInv.v
SrvTestCu.v
HelperLoop.v
HelperThms.v
HelperLive.v
HelperCodes.v
HelperTrace.v
HelperErase.v
HelperPtr.v
HelperSim.v
OpenCLInit.v
HelperMain.v
System.v
SystemThms.v
SystemCodes.v
SystemTrace.v
Clients.v
ClientInv.v
ClientLoad.v
Bench.v
BenchInv.v
BenchThms.v
ClientThms.v
Startup.v
