(* ===== verification/Prelude.v ===== *)
(** * A verification of KGPU, the Linux kernel's GPU call framework

    KGPU lets code in the Linux kernel run work on a GPU.  A client calls the
    kernel module (src/kgpu/src/kernelSpace/main.c), which queues the request
    behind a character device; a user-space helper
    (src/kgpu/src/userSpace/helper.c) reads requests from the device, finds
    the service of each (src/kgpu/src/userSpace/service.c), takes it through
    memory allocation, preparation, launch and result copy on a GPU back end
    (src/kgpu/src/gpuSpace/), and writes an answer to the device, which runs
    the client's callback.  Buffers are shared: the helper gives its pinned
    buffer to the module, which maps it in the kernel and allocates from it,
    and the helper maps an area of the module in which kernel pages appear.

    ** The files

    - Prelude: machine integers with their wrap-around, the [outcome] monad
      (a value, or the fault of undefined behaviour or [abort]), arrays, the
      tactics and the hint database [kgpu].
    - KgpuDefs: constants, the address and rounding macros and the structures
      of kgpu.h, kkgpu.h, kgpuConfiguration.h and dataType.h.
    - Log: kgpu_log.c, kgpu_log.h and errorOpenCl.c, with the conversions of
      [printf] that the messages use: the text that is printed.
    - HexDump: [dump_hex] of helper.c.
    - Layout: the layout of C structures in bytes, [offsetof] and
      [container_of], and the encoding of the structures that kernel and
      helper exchange (the class [CStruct]).
    - Slab: the constructors of the module's caches, on bytes.
    - ListHead: include/list.h, each function as loads and stores on a heap
      of [list_head] nodes.  [dll h head l] says that the nodes [l] form the
      circular list of [head]; the operations refine the operations on [l].
    - Ranges: [__merge_2ranges] and [__merge_ranges], the page ranges a
      request pins.
    - CudaRanges: the same two functions as cudaOperations.cu has them, on
      arrays whose indices are checked; they give the same ranges.
    - UnitAlloc: the interface to Linux's bitmap functions ([BitmapLib] with
      its laws, and an instance), the invariant of a bitmap with a table of
      block sizes, and the module FirstFit, the abstract allocator of
      disjoint blocks that both allocators of the module refine.
    - MemPool: the GPU memory pool of main.c ([kgpu_vmalloc], [kgpu_vfree],
      [set_gpu_mempool], [clear_gpu_mempool]) with [kgpu_v2page].
    - PoolLock: concurrent [kgpu_vmalloc] and [kgpu_vfree], whose parts inside
      and outside of the lock interleave.
    - MmapArea: the mapped area of main.c (allocation, mapping of pages and
      frames, unmapping, [kgpu_mmap]); [VmLib] is the interface to Linux's
      page insertion.
    - VmAccess: the operations of the mapped area, with its page-fault handler.
    - Device: the queues of main.c: identifiers, the request cache,
      asynchronous and synchronous calls, [kgpu_read], [kgpu_write],
      [kgpu_poll], and the translation of pointers.  A synchronous call is
      split at its wait, so that other steps can come in between.
    - QueueLock: the critical sections of [kgpu_call_async], [kgpu_read] and
      [kgpu_write] of any number of threads, interleaved.
    - Module: the module as a transition system, whose steps are the calls of
      any number of clients, of the helper, and the stop command; its invariant
      holds in every reachable state.
    - Wire: [kgpu_read] and [kgpu_write] on the bytes of the helper's buffer.
    - OpenClose: [kgpu_open] and [kgpu_release] as a step relation over the
      atomic accesses of any number of processes.
    - Lifecycle: [kgpu_ioctl] with the encoding of its commands, and
      [kgpu_init] and [kgpu_cleanup] with the resources they hold, and the
      entry points of the module.
    - FileOps: the table of file operations, and sessions of processes that
      open the device, its two accesses to the counter taken apart, use it
      through the table and close it.
    - GpuOps: openCLOperations.c and its CUDA twin, from the device pointers
      and pinned ranges of a request to the eight streams.  [GpuBackend] with
      [GpuLaws] is what the helper needs, for the requests that a back end
      takes ([be_takes]): OpenCL takes any; CUDA, whose driver is a parameter,
      those that can be freed without having been given device memory.
    - CudaInit: start and end of the CUDA back end over the interface
      [CudaRuntime], and the default operations of a service.
    - ItemList: lists of heap items as the user-space programs use them, with
      [list_for_each_safe] keeping its saved successor.
    - Services: service.c over the interface [DynLink] of the dynamic linker,
      and the test library src/services/test/libsrv_test/srv_test.c.
    - SrvTestCu: the functions of the test service in its CUDA version,
      srv_test.cu, and the bytes that they copy.
    - Helper: helper.c, one definition per function of the main loop, over
      the interfaces [DevFile] (poll, read, write), [GpuBackend],
      [ServiceCode] and [Malloc].
    - HelperInv, HelperLoop, HelperThms: the invariant of the helper, the
      effect of each operation and of a pass over a list, and the theorems.
    - HelperLive: back ends on which work ends ([patient]: a stream query may
      report unfinished work, but not for ever), and the measure that shows
      that the loop then answers all it has.
    - HelperCodes: the error code that each request is answered with, on a
      device that keeps a log of the answers.
    - HelperTrace, HelperErase: the helper on a back end and services that
      keep a trace of what is done for each request; the trace changes nothing.
    - HelperPtr, HelperSim: helper.c once more, on the [prev] and [next]
      pointers inside its items, and the simulation that shows that it refines
      Helper.
    - OpenCLInit: set-up and tear-down of the OpenCL runtime, [kh_init] and
      the course of [main] after the options.
    - HelperMain: the command line, the whole [main], and [kh_finit] with the
      live memory objects of OpenCL.
    - System, SystemThms: the module's device as the helper's [DevFile], with
      a schedule of clients that submit while the helper works; the
      callbacks of the clients are a parameter with an invariant of memory
      and requests that they keep ([CallbackLaws]).  The properties of the
      whole, and an example system that runs.
    - SystemCodes: the answers that the module gets for its requests.
    - SystemTrace: what is done for each request, on the module's device.
    - Clients: the client modules callgpu.c, calg2.c and sysbm.c under
      src/services/test, and what requests lease of an allocator.
    - ClientInv, ClientLoad: who holds each block, page and request object
      while clients run; the callbacks as an instance of [CallbackLaws], and
      the entry points as sequences of the steps of Module.
    - Bench, BenchInv, BenchThms: the measurements of sysbm as a machine that
      runs from one wait to the next while the helper reads and answers, its
      invariant, and its course from the preparation to the clean-up.
    - ClientThms: any sequence of loads of the client modules, and then the
      helper.
    - Startup: [kgpu_init], and the [mmap] and [ioctl] of [kh_init] on the
      module; the whole run from there.

    ** What the theorems show

    Whole system: on a back end on which work ends ([patient]), for requests
    that it takes, and when [malloc] succeeds, every request is answered
    exactly once, for any clients that submit meanwhile and from any state
    that clients can bring the module to, and with the code that its service
    deserves; for each, the back end and its service are used in the order of
    the pipeline, and what was taken is given back; the translations of
    kernel, helper and back end compose to a change of base.  CUDA is patient
    when its stream queries stop reporting unfinished work; OpenCL, which
    never reports the end of a launched request, is so only for requests
    without a service.
    Start: loading the module and starting the helper give pool, area, queues
    and streams as the other theorems assume them, but for the part of the
    table of sizes that the driver does not clear: the invariant of the pool
    holds exactly when that part was zero.  Clients: with the OpenCL back end
    and without the services they ask for, which no library of the repository
    has, callgpu and calg2 get all their requests answered and give back all
    memory and all requests they took, as long as no queue item and no page
    insertion is refused; the benchmark gives all back and returns when its
    buffers do not fit in the pool, and otherwise, when no item is refused, no
    signal comes and the clock advances, ends after a fixed number of events
    in any order of reads and answers.
    Helper: the loop never faults and keeps its invariant, what the device
    gives to a read is what is admitted, every request follows its state
    machine one transition per round, streams are exclusive and do not leak,
    unknown services are answered with an error; the code on linked nodes
    refines the code on sequences; the command line is read back.  Module: in
    every reachable state, reads of no bytes and interrupted waits included,
    identifiers differ, no request is queued twice, and reads and answers do
    not fault; both allocators refine first fit, and a free undoes its
    allocation; mapping and unmapping of pages change their own run only and
    report the first insertion that fails; the queues are first in first out,
    an answer completes exactly its request, the bytes exchanged are where the
    structures have them, a synchronous call returns with its request
    restored; identifiers do not repeat before the counter wraps; commands do
    what they name; the resources of a loaded module are released once; the
    calls of a session never fault, and one process has the device as long as
    no close meets an open that is about to fail.  Concurrent threads: the
    calls of the pool are linearizable when no pointer is freed twice at once,
    and the queues neither double a request nor lose one except to a read of
    no bytes.  Back ends: pinned ranges are the rounded ranges, disjoint, and
    unpinned for requests in the helper's buffers, device pointers keep their
    offset, copies stay inside the buffers, the objects of a run on CUDA are
    all released, the test service copies its input.  Lists and registry:
    loops end and visit every element, the registry refines an association
    list.  Log: a line determines where it comes from, the table of messages
    is searched to its end and no further.

    Further theorems state where the code departs from this: truncated sizes,
    uncleared tables, null tables after a failed allocation, an interrupted
    synchronous call, the race of release with open, ranges that miss the end
    of a buffer, ranges outside of the buffers that stay pinned, pointers
    inside a block that free nothing, freed registry items, the OpenCL back end that never reports
    completion, dangling runtime data after a failed start, resources left
    behind by a failed load, unpinning for requests that never were pinned,
    padding that is copied to the helper, the pinned buffer that is not
    released, two frees of one pointer that race, a request queued after the
    stop command, an answer refused because it comes too early, and clients
    that leak a refused request, wait for one forever, or ask for a service
    that no library has.

    ** Modelling choices

    Functions of the source keep their names.  State that the code keeps in
    globals is passed explicitly.  Results of allocation are arguments or an
    oracle with the law that it returns unused addresses.  Code outside the
    repository (Linux, the C library, OpenCL, CUDA, service libraries,
    clients' callbacks) is a parameter whose laws are a type class; each has
    an instance that the examples evaluate.  The text of messages is in Log
    only: the other components leave their calls of [printf] and of the log
    functions out, since nothing depends on them.  The calls of MemPool
    and Device are atomic steps; PoolLock and QueueLock take them apart at
    their locks.  The loops over lists get one round of fuel per element of
    the list at the start; the theorems show that this is enough, as the body
    never adds to the list it runs over.  Loops with a fixed number of rounds
    have that number.  [kh_main_loop n] is the first [n] rounds of a loop
    that the program never leaves.

    ** Not modelled

    The linked nodes of the module's own two queues, which use the list
    functions of Linux (sequences of items stand for them in Device); calls
    that only print, outside of Log; build and load scripts. *)

From stdpp Require Export prelude gmap list sorting.
From Stdlib Require Export ZArith Lia.

#[global] Open Scope Z_scope.

(** ** Machine integers

    A C integer of [w] bits is a [Z]; each conversion to a [w]-bit type is a
    call to one of these functions, so a value that wraps is visible in the
    definition that computes it.  [unsigned long] and pointers are 64 bits
    wide (the driver only supports x86_64, src/README.md), [u32] and
    [unsigned int] 32, [int] is 32 bits in two's complement. *)

Definition wrap64 (z : Z) : Z := z mod 2 ^ 64.

Definition wrap32 (z : Z) : Z := z mod 2 ^ 32.

Definition swrap32 (z : Z) : Z := (z + 2 ^ 31) mod 2 ^ 32 - 2 ^ 31.

Definition u64_range (z : Z) : Prop := 0 <= z < 2 ^ 64.

Definition u32_range (z : Z) : Prop := 0 <= z < 2 ^ 32.

Definition s32_range (z : Z) : Prop := - 2 ^ 31 <= z < 2 ^ 31.

Declare Scope kgpu_scope.
Delimit Scope kgpu_scope with kgpu.
Notation "x +64 y" := (wrap64 (x + y)) (at level 50, left associativity) : kgpu_scope.
Notation "x -64 y" := (wrap64 (x - y)) (at level 50, left associativity) : kgpu_scope.
#[global] Open Scope kgpu_scope.

(** The NULL pointer. *)
Definition NULL : Z := 0.

(** ** Faults

    A C expression whose behaviour is undefined, or a call of [abort()],
    ends the computation with a fault; every other path returns a value.
    [NoFuel] is not a behaviour of the code: it marks a loop of the model
    that was given too few iterations, and the theorems exclude it. *)

Inductive fault : Type :=
  | NullDeref
  | WildPointer
  | OutOfBounds
  | DoubleFree
  | NoFuel
  | DivByZero
  | Abort.

Inductive outcome (A : Type) : Type :=
  | Ok (a : A)
  | Fault (f : fault).
Arguments Ok {A} a.
Arguments Fault {A} f.

#[global] Instance outcome_ret : MRet outcome := fun A a => Ok a.

#[global] Instance outcome_bind : MBind outcome := fun A B k m =>
  match m with
  | Ok a => k a
  | Fault f => Fault f
  end.

Definition is_ok {A} (m : outcome A) : bool :=
  match m with Ok _ => true | Fault _ => false end.

Definition of_option {A} (f : fault) (o : option A) : outcome A :=
  match o with Some a => Ok a | None => Fault f end.

(** A pointer to a block from [kmalloc] that one variable owns: NULL, live
    with its contents, or already passed to [kfree]. *)
Inductive kptr (A : Type) : Type :=
  | KNull
  | KLive (a : A)
  | KFreed.
Arguments KNull {A}.
Arguments KLive {A} a.
Arguments KFreed {A}.

Definition deref {A} (p : kptr A) : outcome A :=
  match p with
  | KNull => Fault NullDeref
  | KLive a => Ok a
  | KFreed => Fault WildPointer
  end.

Definition kfree {A} (p : kptr A) : outcome (kptr A) :=
  match p with
  | KNull => Ok KNull
  | KLive _ => Ok KFreed
  | KFreed => Fault DoubleFree
  end.

(** The test [!p] of the code. *)
Definition is_null {A} (p : kptr A) : bool :=
  match p with KNull => true | _ => false end.

Definition of_kmalloc {A} (o : option A) : kptr A :=
  match o with Some a => KLive a | None => KNull end.

(** C truth values: an [int] used as a condition. *)
Definition truth (z : Z) : bool := negb (z =? 0).

(** ** Arrays

    [a[i]] with an index that is a C integer.  Reading outside the array is
    a fault, and so is writing. *)

Definition array_get {A} (l : list A) (i : Z) : outcome A :=
  if bool_decide (0 <= i) then of_option OutOfBounds (l !! Z.to_nat i)
  else Fault OutOfBounds.

Definition array_set {A} (l : list A) (i : Z) (v : A) : outcome (list A) :=
  if bool_decide (0 <= i < Z.of_nat (length l))
  then Ok (<[Z.to_nat i := v]> l) else Fault OutOfBounds.

(** Total reads, for specifications. *)
Definition nthZ (l : list Z) (i : Z) : Z := default 0 (l !! Z.to_nat i).

(** ** Generic lemmas *)

Lemma wrap64_range z : u64_range (wrap64 z).
Proof. unfold wrap64, u64_range. apply Z.mod_pos_bound. lia. Qed.

Lemma wrap32_range z : u32_range (wrap32 z).
Proof. unfold wrap32, u32_range. apply Z.mod_pos_bound. lia. Qed.

Lemma swrap32_range z : s32_range (swrap32 z).
Proof.
  unfold swrap32, s32_range.
  pose proof (Z.mod_pos_bound (z + 2 ^ 31) (2 ^ 32) ltac:(lia)). lia.
Qed.

Lemma wrap64_id z : u64_range z -> wrap64 z = z.
Proof. apply Z.mod_small. Qed.

Lemma wrap32_id z : u32_range z -> wrap32 z = z.
Proof. apply Z.mod_small. Qed.

Lemma swrap32_id z : s32_range z -> swrap32 z = z.
Proof. unfold s32_range, swrap32. intros. rewrite Z.mod_small; lia. Qed.

Lemma wrap64_add_l a b : wrap64 (wrap64 a + b) = wrap64 (a + b).
Proof. unfold wrap64. apply Zplus_mod_idemp_l. Qed.

Lemma wrap64_add_r a b : wrap64 (a + wrap64 b) = wrap64 (a + b).
Proof. unfold wrap64. apply Zplus_mod_idemp_r. Qed.

Lemma wrap64_sub_l a b : wrap64 (wrap64 a - b) = wrap64 (a - b).
Proof. unfold wrap64. apply Zminus_mod_idemp_l. Qed.

Lemma truth_true z : truth z = true <-> z <> 0.
Proof. unfold truth. destruct (Z.eqb_spec z 0); simpl; naive_solver. Qed.

Lemma truth_false z : truth z = false <-> z = 0.
Proof. unfold truth. destruct (Z.eqb_spec z 0); simpl; naive_solver. Qed.

Lemma bind_ok {A B} (m : outcome A) (k : A -> outcome B) b :
  m ≫= k = Ok b -> exists a, m = Ok a /\ k a = Ok b.
Proof. destruct m; simpl; [eauto | discriminate]. Qed.

Lemma array_get_ok {A} (l : list A) i x :
  0 <= i -> l !! Z.to_nat i = Some x -> array_get l i = Ok x.
Proof.
  intros Hi Hx. unfold array_get.
  by rewrite bool_decide_eq_true_2, Hx.
Qed.

Lemma array_set_ok {A} (l : list A) i x :
  0 <= i < Z.of_nat (length l) -> array_set l i x = Ok (<[Z.to_nat i := x]> l).
Proof. intros Hi. unfold array_set. by rewrite bool_decide_eq_true_2. Qed.

Lemma array_get_nthZ (l : list Z) i :
  0 <= i < Z.of_nat (length l) -> array_get l i = Ok (nthZ l i).
Proof.
  intros Hi. destruct (lookup_lt_is_Some_2 l (Z.to_nat i)) as [x Hx]; [lia|].
  unfold nthZ. rewrite Hx. apply array_get_ok; [lia | done].
Qed.

Lemma nthZ_insert (l : list Z) i j v :
  0 <= i < Z.of_nat (length l) -> 0 <= j ->
  nthZ (<[Z.to_nat i := v]> l) j = if bool_decide (i = j) then v else nthZ l j.
Proof.
  intros Hi Hj. unfold nthZ. case_bool_decide as E.
  - subst j. rewrite list_lookup_insert_eq; [done | lia].
  - rewrite list_lookup_insert_ne; [done | lia].
Qed.

Lemma nthZ_ge (l : list Z) i : Z.of_nat (length l) <= i -> nthZ l i = 0.
Proof. intros. unfold nthZ. rewrite lookup_ge_None_2; [done | lia]. Qed.

(** ** Automation

    [word_lia] closes goals of linear arithmetic that mention the wrap
    functions; [wsimp] removes a wrap whose argument is in range. *)

Create HintDb kgpu.
#[export] Hint Resolve wrap64_range wrap32_range swrap32_range : kgpu.
#[export] Hint Rewrite wrap64_add_l wrap64_add_r wrap64_sub_l : kgpu.

Ltac wunfold := unfold wrap64, wrap32, swrap32, u64_range, u32_range, s32_range in *.

Ltac word_lia := wunfold; Z.to_euclidean_division_equations; lia.

Ltac wsimp :=
  repeat match goal with
  | |- context [wrap64 ?z] => rewrite (wrap64_id z) by (unfold u64_range in *; lia)
  | |- context [wrap32 ?z] => rewrite (wrap32_id z) by (unfold u32_range in *; lia)
  | H : context [wrap64 ?z] |- _ =>
      rewrite (wrap64_id z) in H by (unfold u64_range in *; lia)
  | H : context [wrap32 ?z] |- _ =>
      rewrite (wrap32_id z) in H by (unfold u32_range in *; lia)
  end.

(** Case analysis on the boolean tests of the code. *)
Ltac case_bool :=
  match goal with
  | |- context [Z.ltb ?a ?b] => destruct (Z.ltb_spec a b)
  | |- context [Z.leb ?a ?b] => destruct (Z.leb_spec a b)
  | |- context [Z.eqb ?a ?b] => destruct (Z.eqb_spec a b)
  | H : context [Z.ltb ?a ?b] |- _ => destruct (Z.ltb_spec a b)
  | H : context [Z.leb ?a ?b] |- _ => destruct (Z.leb_spec a b)
  | H : context [Z.eqb ?a ?b] |- _ => destruct (Z.eqb_spec a b)
  end.

(** Splits a computation that is known to return. *)
Ltac inv_ok :=
  repeat match goal with
  | H : Ok _ = Ok _ |- _ => injection H as H
  | H : Fault _ = Ok _ |- _ => discriminate H
  | H : Ok _ = Fault _ |- _ => discriminate H
  | H : mbind _ _ = Ok _ |- _ => apply bind_ok in H; destruct H as (? & ? & H)
  end.
