(* ===== verification/KgpuDefs.v ===== *)
(** * Shared definitions: src/kgpu/include/kgpu.h and the headers it includes

    The constants, the address macros, the rounding macros and the structures
    that the kernel module and the userspace helper exchange.  Pointers are
    64-bit integers ([TO_UL] is the identity on them), an array of characters
    is the list of its characters' codes. *)

From S2P Require Import Prelude.

(** ** Constants *)

Definition PAGE_SHIFT : Z := 12.

Definition PAGE_SIZE : Z := 4096.

Definition KGPU_SERVICE_NAME_SIZE : Z := 32.

Definition KGPU_OK : Z := 0.

Definition KGPU_NO_RESPONSE : Z := 1.

Definition KGPU_NO_SERVICE : Z := 2.

Definition KGPU_TERMINATED : Z := 3.

Definition KGPU_BUF_SIZE : Z := 128 * 128 * 128.

Definition KGPU_MMAP_SIZE : Z := KGPU_BUF_SIZE.

Definition KGPU_BUF_UNIT_SIZE : Z := 1024 * 1024.

Definition KGPU_BUF_NR_FRAMES_PER_UNIT : Z := KGPU_BUF_UNIT_SIZE / PAGE_SIZE.

(** The error numbers the driver returns, of Linux's errno-base.h. *)
Definition EAGAIN : Z := 11.

Definition ENOMEM : Z := 12.

Definition EFAULT : Z := 14.

Definition EBUSY : Z := 16.

Definition EINVAL : Z := 22.

Definition ENOTTY : Z := 25.

Definition ERESTARTSYS : Z := 512.

(** ** The macros *)

Definition ADDR_WITHIN (pointer base size : Z) : bool :=
  (base <=? pointer) && (pointer <? base +64 size).

Definition ADDR_REBASE (dst_base src_base pointer : Z) : Z :=
  dst_base +64 (pointer -64 src_base).

(** [DIV_ROUND_UP] on [unsigned long], as the comment at main.c:301 gives it. *)
Definition DIV_ROUND_UP (x len : Z) : Z := wrap64 (x + len - 1) / len.

(** [round_mask], [round_up] and [round_down] of dataType.h on
    [unsigned long]; [~m] on 64 bits is [2^64 - 1 - m]. *)
Definition round_mask (y : Z) : Z := wrap64 (y - 1).

Definition round_up (x y : Z) : Z := wrap64 (Z.lor (x -64 1) (round_mask y) + 1).

Definition round_down (x y : Z) : Z := Z.land x (2 ^ 64 - 1 - round_mask y).

(** ** The structures *)

Record kgpu_gpu_mem_info : Type := mk_mem_info {
  mi_uva : Z;
  mi_size : Z
}.

(** The request that the kernel hands to the helper. *)
Record kgpu_ku_request : Type := mk_ku_request {
  kr_id : Z;
  kr_service_name : list Z;
  kr_in : Z;
  kr_out : Z;
  kr_data : Z;
  kr_insize : Z;
  kr_outsize : Z;
  kr_datasize : Z
}.

(** The helper's answer. *)
Record kgpu_ku_response : Type := mk_ku_response {
  ks_id : Z;
  ks_errcode : Z
}.

#[global] Instance ku_request_eq_dec : EqDecision kgpu_ku_request.
Proof. solve_decision. Defined.

#[global] Instance ku_response_eq_dec : EqDecision kgpu_ku_response.
Proof. solve_decision. Defined.

(** ** Lemmas on the macros *)

(** A buffer that does not wrap around the address space. *)
Definition buffer_ok (base size : Z) : Prop :=
  0 <= base /\ 0 <= size /\ base + size < 2 ^ 64.

Lemma ADDR_WITHIN_spec p base size :
  buffer_ok base size ->
  ADDR_WITHIN p base size = true <-> base <= p < base + size.
Proof.
  intros (?&?&?). unfold ADDR_WITHIN. wsimp.
  rewrite andb_true_iff, Z.leb_le, Z.ltb_lt. lia.
Qed.

Lemma ADDR_REBASE_range dst src p : u64_range (ADDR_REBASE dst src p).
Proof. apply wrap64_range. Qed.

Lemma ADDR_REBASE_within dst src size p :
  buffer_ok src size -> buffer_ok dst size ->
  ADDR_WITHIN p src size = true -> ADDR_REBASE dst src p = dst + (p - src).
Proof.
  intros Hs Hd Hp. apply ADDR_WITHIN_spec in Hp; [|done].
  unfold ADDR_REBASE, buffer_ok in *. by wsimp.
Qed.

Lemma DIV_ROUND_UP_exact x len :
  0 < len -> 0 <= x -> x + len - 1 < 2 ^ 64 ->
  len * (DIV_ROUND_UP x len - 1) < x <= len * DIV_ROUND_UP x len \/ (x = 0 /\ DIV_ROUND_UP x len = 0).
Proof.
  intros Hl Hx Hb. unfold DIV_ROUND_UP. wsimp.
  pose proof (Z.div_mod (x + len - 1) len ltac:(lia)) as E.
  pose proof (Z.mod_pos_bound (x + len - 1) len ltac:(lia)).
  destruct (decide (x = 0)) as [->|].
  - right. split; [done|]. apply Z.div_small. lia.
  - left. nia.
Qed.

Lemma round_mask_page : round_mask PAGE_SIZE = Z.ones 12.
Proof. reflexivity. Qed.

Lemma low_bits_disjoint a b : 0 <= b < 2 ^ 12 -> Z.land (Z.shiftl a 12) b = 0.
Proof.
  intros Hb. apply Z.bits_inj'. intros n Hn.
  rewrite Z.land_spec, Z.bits_0, Z.shiftl_spec by lia.
  destruct (decide (n < 12)).
  - by rewrite Z.testbit_neg_r by lia.
  - rewrite (Z.bits_above_log2 b n), andb_false_r; [done | lia |].
    destruct (decide (b = 0)) as [->|]; [simpl; lia|].
    apply Z.log2_lt_pow2; [lia|].
    apply Z.lt_le_trans with (2 ^ 12); [lia|]. apply Z.pow_le_mono_r; lia.
Qed.

Lemma add_low_bits a b : 0 <= b < 2 ^ 12 -> Z.shiftl a 12 + b = Z.lor (Z.shiftl a 12) b.
Proof.
  intros Hb. pose proof (low_bits_disjoint a b Hb).
  rewrite Z.add_nocarry_lxor by done. by apply Z.lxor_lor.
Qed.

Lemma lor_ones_12 x : 0 <= x -> Z.lor x (Z.ones 12) = x / 4096 * 4096 + 4095.
Proof.
  intros Hx. change 4096 with (2 ^ 12). change 4095 with (Z.ones 12).
  assert (0 <= Z.ones 12 < 2 ^ 12) by (split; reflexivity || discriminate).
  rewrite <- Z.shiftr_div_pow2, <- Z.shiftl_mul_pow2, add_low_bits by lia.
  apply Z.bits_inj'. intros n Hn.
  rewrite !Z.lor_spec, Z.testbit_ones_nonneg, Z.shiftl_spec by lia.
  destruct (Z.ltb_spec n 12); [by rewrite !orb_true_r|].
  rewrite !orb_false_r, Z.shiftr_spec by lia. f_equal. lia.
Qed.

Lemma land_high_bits x : u64_range x -> Z.land x (2 ^ 64 - 1 - 4095) = x / 4096 * 4096.
Proof.
  intros Hx. change 4096 with (2 ^ 12).
  rewrite <- Z.shiftr_div_pow2, <- Z.shiftl_mul_pow2 by lia.
  replace (2 ^ 64 - 1 - 4095) with (Z.shiftl (Z.ones 52) 12) by reflexivity.
  apply Z.bits_inj'. intros n Hn. rewrite Z.land_spec, !Z.shiftl_spec by lia.
  destruct (decide (n < 12)).
  - rewrite !(Z.testbit_neg_r _ (n - 12)) by lia. by rewrite andb_false_r.
  - rewrite Z.shiftr_spec, Z.testbit_ones_nonneg by lia.
    replace (n - 12 + 12) with n by lia.
    destruct (Z.ltb_spec (n - 12) 52); [by rewrite andb_true_r|].
    rewrite (Z.bits_above_log2 x n); [done | unfold u64_range in Hx; lia |].
    unfold u64_range in Hx. destruct (decide (x = 0)) as [->|]; [simpl; lia|].
    apply Z.log2_lt_pow2; [lia|].
    apply Z.lt_le_trans with (2 ^ 64); [lia|]. apply Z.pow_le_mono_r; lia.
Qed.

(** [round_down] on pages is the start of the page. *)
Lemma round_down_page x : u64_range x -> round_down x PAGE_SIZE = x / 4096 * 4096.
Proof. intros. unfold round_down. rewrite round_mask_page. by apply land_high_bits. Qed.

(** [round_up] on pages is the smallest multiple of the page size that is not
    smaller; it is 0 at 0, where the subtraction wraps. *)
Lemma round_up_page x :
  0 <= x <= 2 ^ 64 - 4096 -> round_up x PAGE_SIZE = (x + 4095) / 4096 * 4096.
Proof.
  intros Hx. unfold round_up. rewrite round_mask_page.
  destruct (decide (x = 0)) as [->|]; [reflexivity|].
  rewrite (wrap64_id (x - 1)) by (unfold u64_range; lia).
  rewrite lor_ones_12 by lia. word_lia.
Qed.

#[export] Hint Resolve ADDR_REBASE_range : kgpu.
