(* ===== verification/Log.v ===== *)
(** * Log and error messages
      (src/kgpu/include/kgpu_log.h, src/kgpu/src/kgpu_log.c,
      src/kgpu/include/utils/error.h, src/kgpu/src/utils/errorOpenCl.c)

    The text that [kgpu_generic_log] and [printErrorMessage] print.  The
    format strings go through [vprintf], with the conversions that the
    messages of the program use.  The status codes of OpenCL come from its
    header: they are the class [ClStatus]. *)

From Stdlib Require Import Ascii String.
From S2P Require Import Prelude.

(** Characters in order, without the terminator. *)
Definition text : Type := list ascii.

Definition lit (s : string) : text := list_ascii_of_string s.
Arguments lit s%_string.

#[global] Instance ascii_eqdec : EqDecision ascii := ascii_dec.

(** ** Formatted output *)

(** Digits of a number, lowest first, in at most [fuel] places. *)
Definition digit (d : Z) : ascii :=
  ascii_of_nat (Z.to_nat (if d <? 10 then 48 + d else 55 + d)).

Fixpoint digits_rev (base : Z) (fuel : nat) (z : Z) : text :=
  match fuel with
  | O => []
  | S fuel => digit (z mod base) :: (if z <? base then [] else digits_rev base fuel (z / base))
  end.

(** 64 places are enough for 64 bits in any base. *)
Definition print_unsigned (base z : Z) : text := reverse (digits_rev base 64 z).

Definition print_signed (z : Z) : text :=
  if z <? 0 then "-"%char :: print_unsigned 10 (- z) else print_unsigned 10 z.

(** The conversions [%s], [%d], [%u], [%ld], [%lu], [%lX] and [%%]. *)
Inductive conversion : Type :=
  | ConvString
  | ConvInt
  | ConvUInt
  | ConvLong
  | ConvULong
  | ConvHexLong
  | ConvPercent.

(** A format string is literal characters and conversions; [PBad] is a
    conversion that is not one of these. *)
Inductive piece : Type :=
  | PChar (c : ascii)
  | PConv (k : conversion)
  | PBad.

Inductive format_state : Type :=
  | Plain
  | AfterPercent
  | AfterLong.

Fixpoint format_pieces (st : format_state) (fmt : text) : list piece :=
  match fmt with
  | [] => match st with Plain => [] | _ => [PBad] end
  | c :: fmt =>
      match st with
      | Plain =>
          if decide (c = "%"%char) then format_pieces AfterPercent fmt
          else PChar c :: format_pieces Plain fmt
      | AfterPercent =>
          if decide (c = "s"%char) then PConv ConvString :: format_pieces Plain fmt
          else if decide (c = "d"%char) then PConv ConvInt :: format_pieces Plain fmt
          else if decide (c = "u"%char) then PConv ConvUInt :: format_pieces Plain fmt
          else if decide (c = "%"%char) then PConv ConvPercent :: format_pieces Plain fmt
          else if decide (c = "l"%char) then format_pieces AfterLong fmt
          else PBad :: format_pieces Plain fmt
      | AfterLong =>
          if decide (c = "d"%char) then PConv ConvLong :: format_pieces Plain fmt
          else if decide (c = "u"%char) then PConv ConvULong :: format_pieces Plain fmt
          else if decide (c = "X"%char) then PConv ConvHexLong :: format_pieces Plain fmt
          else PBad :: format_pieces Plain fmt
      end
  end.

(** A variadic argument. *)
Inductive va_arg : Type :=
  | VInt (z : Z)
  | VString (s : text).

Definition swrap64 (z : Z) : Z := (z + 2 ^ 63) mod 2 ^ 64 - 2 ^ 63.

Definition print_int (k : conversion) (z : Z) : outcome text :=
  match k with
  | ConvInt => mret (print_signed (swrap32 z))
  | ConvUInt => mret (print_unsigned 10 (wrap32 z))
  | ConvLong => mret (print_signed (swrap64 z))
  | ConvULong => mret (print_unsigned 10 (wrap64 z))
  | ConvHexLong => mret (print_unsigned 16 (wrap64 z))
  | _ => Fault WildPointer
  end.

(** A missing argument, and an argument of the wrong kind, are undefined;
    arguments that are left over are ignored. *)
Fixpoint print_pieces (ps : list piece) (args : list va_arg) : outcome text :=
  match ps with
  | [] => mret []
  | PChar c :: ps => r ← print_pieces ps args; mret (c :: r)
  | PConv ConvPercent :: ps => r ← print_pieces ps args; mret ("%"%char :: r)
  | PConv k :: ps =>
      match args with
      | [] => Fault OutOfBounds
      | VString s :: args =>
          s ← (match k with ConvString => mret s | _ => Fault WildPointer end);
          r ← print_pieces ps args; mret (s ++ r)
      | VInt z :: args =>
          s ← print_int k z;
          r ← print_pieces ps args; mret (s ++ r)
      end
  | PBad :: _ => Fault WildPointer
  end.

Definition vprintf (fmt : text) (args : list va_arg) : outcome text :=
  print_pieces (format_pieces Plain fmt) args.

(** ** kgpu_log.h and kgpu_log.c *)

Definition KGPU_LOG_INFO : Z := 1.
Definition KGPU_LOG_DEBUG : Z := 2.
Definition KGPU_LOG_ALERT : Z := 3.
Definition KGPU_LOG_ERROR : Z := 4.
Definition KGPU_LOG_PRINT : Z := 5.

(** The initial value of the global of the same name, without the build
    option [__KGPU_LOG_LEVEL__]. *)
Definition kgpu_log_level_default : Z := KGPU_LOG_DEBUG.

(** [strrchr]: the index of the last occurrence, from one pass. *)
Fixpoint strrchr_from (i : nat) (last : option nat) (s : text) (c : ascii) : option nat :=
  match s with
  | [] => last
  | d :: s => strrchr_from (S i) (if decide (d = c) then Some i else last) s c
  end.

Definition strrchr (s : text) (c : ascii) : option nat := strrchr_from 0 None s c.

(** [__FILE_NAME__], from the path of [__FILE__]. *)
Definition FILE_NAME (file : text) : text :=
  match strrchr file "/"%char with
  | Some i => drop (i + 1) file
  | None => file
  end.

(** The format of the text before the message, by level. *)
Definition log_prefix (pLevel : Z) : option text :=
  if pLevel =? KGPU_LOG_INFO then Some (lit "[%s] %s::%d %s() INFO: ")
  else if pLevel =? KGPU_LOG_DEBUG then Some (lit "[%s] %s::%d %s() DEBUG: ")
  else if pLevel =? KGPU_LOG_ALERT then Some (lit "[%s] %s::%d %s() ALERT: ")
  else if pLevel =? KGPU_LOG_ERROR then Some (lit "[%s] %s::%d %s() ERROR: ")
  else if pLevel =? KGPU_LOG_PRINT then Some (lit "[%s] %s::%d %s(): ")
  else None.

(** The text that one call prints when the global has the value [level]. *)
Definition kgpu_generic_log (level pLevel : Z) (pModule pFilename : text) (pLineno : Z)
    (pFunction pFormat : text) (args : list va_arg) : outcome text :=
  if pLevel <? level then mret []
  else
    head ← match log_prefix pLevel with
           | Some fmt =>
               vprintf fmt [VString pModule; VString pFilename; VInt pLineno; VString pFunction]
           | None => mret []
           end;
    body ← vprintf pFormat args;
    mret (head ++ body).

(** The macro; [file], [line] and [func] are the place of the call. *)
Definition kgpu_do_log (level pLevel : Z) (module file : text) (line : Z)
    (func fmt : text) (args : list va_arg) : outcome text :=
  kgpu_generic_log level pLevel module (FILE_NAME file) line func fmt args.

Definition kgpu_log (level pLevel : Z) (file : text) (line : Z) (func fmt : text)
    (args : list va_arg) : outcome text :=
  kgpu_do_log level pLevel (lit "kgpu") file line func fmt args.

Definition kh_log (level pLevel : Z) (file : text) (line : Z) (func fmt : text)
    (args : list va_arg) : outcome text :=
  kgpu_do_log level pLevel (lit "helper") file line func fmt args.

(** ** errorOpenCl.c *)

(** The status codes of the OpenCL header that the table names. *)
Class ClStatus : Type := {
  CL_INVALID_PLATFORM : Z;
  CL_DEVICE_NOT_FOUND : Z;
  CL_INVALID_DEVICE_TYPE : Z;
  CL_INVALID_CONTEXT : Z;
  CL_INVALID_VALUE : Z;
  CL_INVALID_COMMAND_QUEUE : Z;
  CL_OUT_OF_RESOURCES : Z;
  CL_INVALID_BUFFER_SIZE : Z;
  CL_INVALID_HOST_PTR : Z;
  CL_INVALID_MEM_OBJECT : Z;
  CL_MEM_OBJECT_ALLOCATION_FAILURE : Z;
  CL_OUT_OF_HOST_MEMORY : Z
}.

Definition NO_SPACE_ON_HOST : Z := -999.

(** [ERROR]; the message is a pointer that may be NULL. *)
Record ERROR : Type := mk_error {
  errorCode : Z;
  errorMessage : option text
}.

Definition errorMessages `{ClStatus} : list ERROR :=
  [mk_error NO_SPACE_ON_HOST (Some (lit "No space on host for allocate the basic structure."));
   mk_error CL_INVALID_PLATFORM (Some (lit "Not a valid platform."));
   mk_error CL_DEVICE_NOT_FOUND (Some (lit "No OpenCL devices that matched device were found"));
   mk_error CL_INVALID_DEVICE_TYPE (Some (lit "Is not a valid value."));
   mk_error CL_INVALID_CONTEXT (Some (lit "The context is invalid."));
   mk_error CL_INVALID_VALUE (Some (lit "Invalid value."));
   mk_error CL_INVALID_COMMAND_QUEUE (Some (lit "Not a valid command queue"));
   mk_error CL_OUT_OF_RESOURCES (Some (lit "Failure to allocate resources required by the OpenCLimplementation on the device"));
   mk_error CL_INVALID_BUFFER_SIZE (Some (lit "Invalid buffer size."));
   mk_error CL_INVALID_HOST_PTR (Some (lit "Invalid host pointer."));
   mk_error CL_INVALID_MEM_OBJECT (Some (lit "Not a valid memory object."));
   mk_error CL_MEM_OBJECT_ALLOCATION_FAILURE (Some (lit "Problem when try to allocate memory."));
   mk_error CL_OUT_OF_HOST_MEMORY (Some (lit "Out of host memory."));
   mk_error 0 None].

(** The newline that ends both formats. *)
Definition newline : text := [ascii_of_nat 10].

(** The loop from index [i], on any table; the code of the message is the
    argument. *)
Fixpoint print_matching (fuel : nat) (table : list ERROR) (pCode i : Z) : outcome text :=
  match fuel with
  | O => Fault NoFuel
  | S fuel =>
      e ← array_get table i;
      match errorMessage e with
      | None => mret []
      | Some m =>
          out ← (if errorCode e =? pCode
                 then vprintf (lit " %s (%d) " ++ newline) [VString m; VInt pCode] else mret []);
          rest ← print_matching fuel table pCode (i + 1);
          mret (out ++ rest)
      end
  end.

(** What goes to [stderr]; the function has no [return]. *)
Definition printErrorMessage `{ClStatus} (fuel : nat) (pCode : Z) : outcome text :=
  head ← vprintf (lit "Error code: %d" ++ newline) [VInt pCode];
  rest ← print_matching fuel errorMessages pCode 0;
  mret (head ++ rest).

(** ** Numbers

    [read_digits] reads a number back; printing in a base from 2 to 16
    loses nothing. *)

Definition digit_value (c : ascii) : Z :=
  let n := Z.of_nat (nat_of_ascii c) in if n <? 58 then n - 48 else n - 55.

Definition read_digits (base : Z) (s : text) : Z :=
  foldl (fun acc c => acc * base + digit_value c) 0 s.

Definition read_signed (s : text) : Z :=
  match s with
  | c :: r => if decide (c = "-"%char) then - read_digits 10 r else read_digits 10 s
  | [] => 0
  end.

(** A property of the numbers of a small range, by evaluation. *)
Lemma forallb_range (P : Z -> bool) lo n d :
  forallb P (seqZ lo n) = true -> lo <= d < lo + n -> P d = true.
Proof. rewrite forallb_forall. intros HP Hd. apply HP, list_elem_of_In, elem_of_seqZ. lia. Qed.

Lemma digit_value_digit d : 0 <= d < 16 -> digit_value (digit d) = d.
Proof.
  intros Hd. apply Z.eqb_eq.
  by apply (forallb_range (fun d => digit_value (digit d) =? d) 0 16).
Qed.

Lemma digit_not_sign d c :
  0 <= d < 16 -> In c [" "; ":"; "-"]%char -> digit d <> c.
Proof.
  intros Hd Hc E. subst c. apply list_elem_of_In in Hc.
  pose proof (forallb_range (fun d => forallb (fun c => negb (Ascii.eqb (digit d) c)) [" "; ":"; "-"]%char)
    0 16 d eq_refl Hd) as Hf.
  rewrite forallb_forall in Hf. specialize (Hf (digit d)). rewrite Ascii.eqb_refl in Hf.
  discriminate Hf. by apply list_elem_of_In.
Qed.

Lemma read_digits_rev base fuel z :
  2 <= base <= 16 -> 0 <= z < base ^ Z.of_nat fuel ->
  read_digits base (reverse (digits_rev base fuel z)) = z.
Proof.
  intros Hb. revert z. induction fuel as [|fuel IH]; intros z Hz.
  { simpl in Hz. unfold read_digits. simpl. lia. }
  assert (0 <= z mod base < base) by (apply Z.mod_pos_bound; lia).
  simpl. rewrite reverse_cons. unfold read_digits. rewrite foldl_app. simpl.
  rewrite digit_value_digit by lia.
  destruct (Z.ltb_spec z base).
  - cbn. rewrite Z.mod_small; lia.
  - fold (read_digits base (reverse (digits_rev base fuel (z / base)))).
    rewrite IH.
    + rewrite Z.mul_comm. symmetry. apply Z.div_mod. lia.
    + rewrite Nat2Z.inj_succ, Z.pow_succ_r in Hz by lia.
      split; [apply Z.div_pos; lia|]. apply Z.div_lt_upper_bound; lia.
Qed.

Lemma digits_rev_not_sign base fuel z c :
  2 <= base <= 16 -> In c [" "; ":"; "-"]%char -> c ∉ digits_rev base fuel z.
Proof.
  intros Hb Hc. revert z. induction fuel as [|fuel IH]; intros z; simpl; [apply not_elem_of_nil|].
  apply not_elem_of_cons. split.
  - intros E. refine (digit_not_sign (z mod base) c _ Hc (eq_sym E)).
    pose proof (Z.mod_pos_bound z base). lia.
  - case_match; [apply not_elem_of_nil | apply IH].
Qed.

Lemma print_unsigned_not_sign base z c :
  2 <= base <= 16 -> In c [" "; ":"; "-"]%char -> c ∉ print_unsigned base z.
Proof. intros. unfold print_unsigned. rewrite elem_of_reverse. by apply digits_rev_not_sign. Qed.

Lemma read_print_unsigned base z :
  2 <= base <= 16 -> u64_range z -> read_digits base (print_unsigned base z) = z.
Proof.
  intros Hb Hz. apply read_digits_rev; [done|]. unfold u64_range in Hz.
  pose proof (Z.pow_le_mono_l 2 base (Z.of_nat 64)). lia.
Qed.

Lemma read_print_signed z : s32_range z -> read_signed (print_signed z) = z.
Proof.
  intros Hz. unfold s32_range in Hz. unfold print_signed. destruct (Z.ltb_spec z 0).
  - cbn [read_signed]. rewrite decide_True by done.
    rewrite read_print_unsigned by (unfold u64_range; lia). lia.
  - pose proof (read_print_unsigned 10 z ltac:(lia) ltac:(unfold u64_range; lia)) as Hr.
    pose proof (print_unsigned_not_sign 10 z "-"%char ltac:(lia) ltac:(simpl; auto)) as Hm.
    destruct (print_unsigned 10 z) as [|c r]; [done|].
    cbn [read_signed]. rewrite decide_False; [done|]. intros ->. apply Hm. left.
Qed.

Lemma print_signed_no_space z : " "%char ∉ print_signed z.
Proof.
  unfold print_signed. case_match.
  - apply not_elem_of_cons. split; [discriminate|]. apply print_unsigned_not_sign; simpl; auto; lia.
  - apply print_unsigned_not_sign; simpl; auto; lia.
Qed.

(** ** File names *)

Lemma strrchr_from_spec s c i last :
  strrchr_from i last s c =
    match strrchr_from 0 None s c with Some k => Some (i + k)%nat | None => last end.
Proof.
  revert i last. induction s as [|d s IH]; intros i last; simpl; [done|].
  rewrite (IH (S i)), (IH 1%nat). destruct (strrchr_from 0 None s c) as [k|].
  - f_equal. lia.
  - destruct (decide (d = c)); [|done]. f_equal. lia.
Qed.

Lemma strrchr_none s c : strrchr s c = None -> c ∉ s.
Proof.
  unfold strrchr. induction s as [|d s IH]; simpl; [intros _; apply not_elem_of_nil|].
  rewrite strrchr_from_spec. destruct (strrchr_from 0 None s c); [done|].
  case_decide; [done|]. intros _. apply not_elem_of_cons. auto.
Qed.

Lemma strrchr_some s c i :
  strrchr s c = Some i -> s !! i = Some c /\ c ∉ drop (i + 1) s.
Proof.
  unfold strrchr. revert i. induction s as [|d s IH]; intros i; simpl; [done|].
  rewrite strrchr_from_spec. destruct (strrchr_from 0 None s c) as [k|] eqn:E.
  - intros [= <-]. destruct (IH k eq_refl). simpl. auto.
  - case_decide; [|done]. intros [= <-]. subst. split; [done|]. simpl. rewrite drop_0.
    by apply strrchr_none.
Qed.

Lemma FILE_NAME_spec file :
  "/"%char ∉ FILE_NAME file /\
  (file = FILE_NAME file \/ exists dir, file = dir ++ "/"%char :: FILE_NAME file).
Proof.
  unfold FILE_NAME. destruct (strrchr file "/"%char) as [i|] eqn:E.
  - apply strrchr_some in E as [Hi Hn]. split; [done|]. right. exists (take i file).
    rewrite Nat.add_1_r. symmetry. by apply take_drop_middle.
  - split; [by apply strrchr_none | by left].
Qed.

(** ** Reading a line of the log

    What a person does with a line: the module up to the bracket, the file
    up to the colons, the line number, the function, the level. *)

Definition split_first (c : ascii) (s : text) : option (text * text) :=
  i ← fst <$> list_find (fun d => d = c) s;
  Some (take i s, drop (S i) s).

Definition expect (w s : text) : option text :=
  if decide (take (length w) s = w) then Some (drop (length w) s) else None.

Definition levels : list (Z * text) :=
  [(KGPU_LOG_INFO, lit ") INFO: "); (KGPU_LOG_DEBUG, lit ") DEBUG: ");
   (KGPU_LOG_ALERT, lit ") ALERT: "); (KGPU_LOG_ERROR, lit ") ERROR: ");
   (KGPU_LOG_PRINT, lit "): ")].

Fixpoint read_level (ls : list (Z * text)) (s : text) : option (Z * text) :=
  match ls with
  | [] => None
  | (l, w) :: ls => match expect w s with Some r => Some (l, r) | None => read_level ls s end
  end.

Record log_line : Type := mk_log_line {
  ll_module : text;
  ll_file : text;
  ll_line : Z;
  ll_function : text;
  ll_level : Z;
  ll_message : text
}.

Definition read_log_line (s : text) : option log_line :=
  s ← expect (lit "[") s;
  '(m, s) ← split_first "]"%char s;
  s ← expect (lit " ") s;
  '(f, s) ← split_first ":"%char s;
  s ← expect (lit ":") s;
  '(n, s) ← split_first " "%char s;
  '(fn, s) ← split_first "("%char s;
  '(l, s) ← read_level levels s;
  Some (mk_log_line m f (read_signed n) fn l s).

Lemma split_first_app c s r : c ∉ s -> split_first c (s ++ c :: r) = Some (s, r).
Proof.
  intros Hs. unfold split_first.
  assert (list_find (fun d => d = c) (s ++ c :: r) = Some (length s, c)) as ->.
  { apply list_find_Some. split_and!; [by apply list_lookup_middle | done|].
    intros j d Hj Hlt ->. apply Hs. rewrite lookup_app_l in Hj by done.
    by eapply list_elem_of_lookup_2. }
  simpl. rewrite take_app_length. by rewrite (drop_app_ge s), Nat.sub_succ_l, Nat.sub_diag by lia.
Qed.

Lemma expect_app w s : expect w (w ++ s) = Some s.
Proof. unfold expect. by rewrite take_app_length, decide_True, drop_app_length. Qed.

Lemma read_level_app l w s :
  (l, w) ∈ levels -> read_level levels (w ++ s) = Some (l, s).
Proof.
  intros Hl. unfold levels in Hl. rewrite !elem_of_cons, elem_of_nil in Hl.
  destruct_or!; simplify_eq; reflexivity.
Qed.

(** The text before the message. *)
Definition log_head (m f : text) (n : Z) (fn w : text) : text :=
  lit "[" ++ m ++ "]"%char :: lit " " ++ f ++ ":"%char :: lit ":" ++
  print_signed (swrap32 n) ++ " "%char :: fn ++ "("%char :: w.

Lemma read_log_head m f n fn l w s :
  (l, w) ∈ levels -> "]"%char ∉ m -> ":"%char ∉ f -> "("%char ∉ fn -> s32_range n ->
  read_log_line (log_head m f n fn w ++ s) = Some (mk_log_line m f n fn l s).
Proof.
  intros Hl Hm Hf Hfn Hn. pose proof (print_signed_no_space (swrap32 n)).
  unfold read_log_line, log_head.
  repeat (rewrite <- ?(assoc_L (++)), <- ?app_comm_cons;
    first [rewrite expect_app | rewrite split_first_app by done
          | rewrite (read_level_app l w s) by done]; cbn [mbind option_bind]).
  by rewrite swrap32_id, read_print_signed.
Qed.

Lemma level_known l : 1 <= l <= 5 -> exists w, (l, w) ∈ levels.
Proof.
  intros Hl. assert (Hin : l ∈ levels.*1).
  { change (levels.*1) with (seqZ 1 5). apply elem_of_seqZ. lia. }
  apply list_elem_of_fmap in Hin as ([l' w] & -> & Hin). eauto.
Qed.

Lemma log_prefix_text l w m f n fn :
  (l, w) ∈ levels ->
  exists fmt, log_prefix l = Some fmt /\
    vprintf fmt [VString m; VString f; VInt n; VString fn] = Ok (log_head m f n fn w).
Proof.
  intros Hl. unfold levels in Hl. rewrite !elem_of_cons, elem_of_nil in Hl.
  destruct_or!; simplify_eq; eexists; split; reflexivity.
Qed.

(** C29: A call of the log macro with a level below [kgpu_log_level] prints
    nothing.  With one of the five levels, at or above [kgpu_log_level], and
    a message that is well formed, it prints one line from which the module,
    the name of the file without its directories, the line number, the
    function, the level and the message can all be read back. *)
Theorem log_line_reads_back level pLevel module file line func fmt args body :
  1 <= pLevel <= 5 -> vprintf fmt args = Ok body ->
  "]"%char ∉ module -> ":"%char ∉ file -> "("%char ∉ func -> s32_range line ->
  exists out, kgpu_do_log level pLevel module file line func fmt args = Ok out /\
    (pLevel < level -> out = []) /\
    (level <= pLevel ->
     exists base, read_log_line out = Some (mk_log_line module base line func pLevel body) /\
       "/"%char ∉ base /\ (file = base \/ exists dir, file = dir ++ "/"%char :: base)).
Proof.
  intros Hl Hbody Hm Hf Hfn Hn. unfold kgpu_do_log, kgpu_generic_log.
  destruct (Z.ltb_spec pLevel level); [by exists []; split_and!; [|done|lia]|].
  destruct (level_known pLevel Hl) as [w Hw].
  destruct (log_prefix_text pLevel w module (FILE_NAME file) line func Hw) as (pf & -> & ->).
  cbn [mbind outcome_bind]. rewrite Hbody. cbn [mbind outcome_bind].
  eexists. split; [done|]. split; [lia|]. intros _.
  destruct (FILE_NAME_spec file) as [Hb Hd]. exists (FILE_NAME file). split; [|done].
  apply read_log_head; try done.
  destruct Hd as [E | [dir E]]; rewrite E in Hf; [done|].
  apply not_elem_of_app in Hf as [_ Hf]. by apply not_elem_of_cons in Hf as [_ Hf].
Qed.

(** A message of the module at the default level. *)
Lemma log_line_reads_back_witness :
  exists out,
    kgpu_do_log kgpu_log_level_default KGPU_LOG_ERROR (lit "kgpu") (lit "/kgpu/src/main.c") 328
      (lit "kgpu_vmalloc") (lit "Out of GPU memory for malloc %lu") [VInt 4096] = Ok out /\
    exists base, read_log_line out = Some (mk_log_line (lit "kgpu") base 328 (lit "kgpu_vmalloc")
      KGPU_LOG_ERROR (lit "Out of GPU memory for malloc 4096")).
Proof.
  destruct (log_line_reads_back kgpu_log_level_default KGPU_LOG_ERROR (lit "kgpu")
    (lit "/kgpu/src/main.c") 328 (lit "kgpu_vmalloc") (lit "Out of GPU memory for malloc %lu")
    [VInt 4096] (lit "Out of GPU memory for malloc 4096")) as (out & Ho & _ & Hr).
  - unfold KGPU_LOG_ERROR. lia.
  - vm_compute. reflexivity.
  - apply (bool_decide_unpack _). vm_compute. exact I.
  - apply (bool_decide_unpack _). vm_compute. exact I.
  - apply (bool_decide_unpack _). vm_compute. exact I.
  - unfold s32_range. lia.
  - exists out. split; [exact Ho|].
    destruct Hr as (base & Hb & _); [unfold kgpu_log_level_default, KGPU_LOG_ERROR, KGPU_LOG_DEBUG; lia|].
    exists base. exact Hb.
Defined.

(** A level that is none of the five is printed without anything in front. *)
Lemma log_other_level level pLevel module file line func fmt args :
  level <= pLevel -> ~ (1 <= pLevel <= 5) ->
  kgpu_do_log level pLevel module file line func fmt args = vprintf fmt args.
Proof.
  intros Hge Hl. unfold kgpu_do_log, kgpu_generic_log, log_prefix.
  unfold KGPU_LOG_INFO, KGPU_LOG_DEBUG, KGPU_LOG_ALERT, KGPU_LOG_ERROR, KGPU_LOG_PRINT.
  repeat (case_bool; [lia|]). simpl. by destruct (vprintf fmt args).
Qed.

(** The alert of [kgpu_mmap] for an area of the wrong size has [$] in place
    of a percent sign: it shows the start as the end, and the end as the
    number of bytes. *)
Lemma mmap_alert_shifted start finish size :
  vprintf (lit "mmap size incorrect from 0x$lX to 0x%lX with %lu bytes")
    [VInt start; VInt finish; VInt size] =
  Ok (lit "mmap size incorrect from 0x$lX to 0x" ++ print_unsigned 16 (wrap64 start) ++
      lit " with " ++ print_unsigned 10 (wrap64 finish) ++ lit " bytes").
Proof. reflexivity. Qed.

(** ** Error messages *)

(** The messages of a code, in the order of the table. *)
Definition messages_of (table : list ERROR) (pCode : Z) : list text :=
  omap errorMessage (filter (fun e => errorCode e = pCode) table).

Definition message_line (pCode : Z) (m : text) : text :=
  lit " " ++ m ++ lit " (" ++ print_signed (swrap32 pCode) ++ lit ") " ++ newline.

Lemma print_matching_table msgs rest pCode pre fuel :
  (length msgs < fuel)%nat -> Forall (fun e => is_Some (errorMessage e)) msgs ->
  print_matching fuel (pre ++ msgs ++ mk_error 0 None :: rest) pCode (Z.of_nat (length pre)) =
  Ok (concat (message_line pCode <$> messages_of msgs pCode)).
Proof.
  revert pre fuel. induction msgs as [|e msgs IH]; intros pre [|fuel] Hf Hall; simpl in Hf; try lia.
  - cbn [print_matching].
    by erewrite array_get_ok by (rewrite ?Nat2Z.id; try apply list_lookup_middle; done || lia).
  - apply Forall_cons in Hall as [[m Hm] Hall]. cbn [print_matching].
    erewrite array_get_ok by (rewrite ?Nat2Z.id; try apply list_lookup_middle; done || lia).
    cbn [mbind outcome_bind]. rewrite Hm.
    specialize (IH (pre ++ [e]) fuel ltac:(lia) Hall).
    rewrite length_app, Nat2Z.inj_add, <- (assoc_L (++)) in IH.
    change (Z.of_nat (length [e])) with 1 in IH. simpl app in *.
    rewrite IH. unfold messages_of. rewrite filter_cons.
    destruct (Z.eqb_spec (errorCode e) pCode).
    + rewrite decide_True by done. simpl omap. rewrite Hm. simpl.
      by rewrite <- !(assoc_L (++)).
    + by rewrite decide_False.
Qed.

(** What [printErrorMessage] relies on: the header gives its codes different
    values, and none of them is the program's own code. *)
Class ClStatusLaws `{ClStatus} : Prop := {
  status_distinct : NoDup (NO_SPACE_ON_HOST ::
    [CL_INVALID_PLATFORM; CL_DEVICE_NOT_FOUND; CL_INVALID_DEVICE_TYPE; CL_INVALID_CONTEXT;
     CL_INVALID_VALUE; CL_INVALID_COMMAND_QUEUE; CL_OUT_OF_RESOURCES; CL_INVALID_BUFFER_SIZE;
     CL_INVALID_HOST_PTR; CL_INVALID_MEM_OBJECT; CL_MEM_OBJECT_ALLOCATION_FAILURE;
     CL_OUT_OF_HOST_MEMORY])
}.

Lemma messages_of_none table c : c ∉ (errorCode <$> table) -> messages_of table c = [].
Proof.
  unfold messages_of. induction table as [|d table IH]; [done|].
  rewrite fmap_cons, not_elem_of_cons, filter_cons. intros [Hd Hc].
  rewrite decide_False by done. auto.
Qed.

Lemma messages_of_unique table e m :
  NoDup (errorCode <$> table) -> e ∈ table -> errorMessage e = Some m ->
  messages_of table (errorCode e) = [m].
Proof.
  intros Hnd He Hm. induction table as [|d table IH]; [by apply elem_of_nil in He|].
  rewrite fmap_cons in Hnd. apply NoDup_cons in Hnd as [Hd Hnd].
  unfold messages_of. rewrite filter_cons. apply elem_of_cons in He as [<- | He].
  - rewrite decide_True by done. simpl. rewrite Hm. f_equal. by apply messages_of_none.
  - rewrite decide_False; [by apply IH|].
    intros E. apply Hd. rewrite E. by apply list_elem_of_fmap_2.
Qed.

(** For every code, [printErrorMessage] stops at the sentinel of its
    table after one round per entry, without reading past the table.  It
    prints the code, and then the message of the table for it and no other;
    for a code that is not in the table it prints nothing more. *)
Theorem printErrorMessage_terminates `{ClStatusLaws} fuel pCode :
  (length errorMessages <= fuel)%nat ->
  exists msgs,
    printErrorMessage fuel pCode =
      Ok (lit "Error code: " ++ print_signed (swrap32 pCode) ++ newline ++
          concat (message_line pCode <$> msgs)) /\
    (forall e m, e ∈ errorMessages -> errorMessage e = Some m -> errorCode e = pCode -> msgs = [m]) /\
    ((forall e m, e ∈ errorMessages -> errorMessage e = Some m -> errorCode e <> pCode) -> msgs = []).
Proof.
  intros Hf. set (table := take 13 errorMessages).
  assert (Ht : errorMessages = table ++ [mk_error 0 None]) by reflexivity.
  exists (messages_of table pCode). split_and!.
  - pose proof (print_matching_table table [] pCode [] fuel) as Hp.
    change (Z.of_nat (length [])) with 0 in Hp. rewrite app_nil_l, <- Ht in Hp.
    unfold printErrorMessage. rewrite Hp.
    + change (vprintf (lit "Error code: %d" ++ newline) [VInt pCode])
        with (Ok (lit "Error code: " ++ print_signed (swrap32 pCode) ++ newline)).
      cbn [mbind outcome_bind]. by rewrite <- !(assoc_L (++)).
    + rewrite Ht, length_app in Hf. simpl length in Hf at 2. lia.
    + unfold table. simpl. repeat constructor; eauto.
  - intros e m He Hm <-. rewrite Ht in He. apply elem_of_app in He as [He | He].
    + apply messages_of_unique; [|done..]. exact status_distinct.
    + apply list_elem_of_singleton in He as ->. done.
  - intros Hno. apply messages_of_none. intros Hin.
    apply list_elem_of_fmap in Hin as (e & -> & He).
    assert (is_Some (errorMessage e)) as [m Hm].
    { clear Hno. revert e He. apply Forall_forall. unfold table. simpl. repeat constructor; eauto. }
    apply (Hno e m); [|done..]. rewrite Ht. apply elem_of_app. by left.
Qed.

(** The values of the OpenCL header. *)
#[global] Instance cl_status : ClStatus :=
  Build_ClStatus (-32) (-1) (-31) (-34) (-30) (-36) (-5) (-61) (-37) (-38) (-4) (-6).

#[global] Instance cl_status_laws : ClStatusLaws.
Proof. constructor. apply (bool_decide_unpack _). vm_compute. exact I. Qed.

Lemma printErrorMessage_terminates_witness :
  printErrorMessage 14 CL_OUT_OF_HOST_MEMORY =
    Ok (lit "Error code: -6" ++ newline ++ lit " Out of host memory. (-6) " ++ newline).
Proof.
  destruct (printErrorMessage_terminates 14 CL_OUT_OF_HOST_MEMORY) as (msgs & -> & Hin & _).
  - vm_compute. lia.
  - rewrite (Hin (mk_error CL_OUT_OF_HOST_MEMORY (Some (lit "Out of host memory.")))
               (lit "Out of host memory.")); [vm_compute; reflexivity | | reflexivity | reflexivity].
    unfold errorMessages. repeat (first [apply list_elem_of_here | apply list_elem_of_further]).
Defined.
