(* ===== verification/HexDump.v ===== *)
(** * The hex dump of the helper ([dump_hex], src/kgpu/src/userSpace/helper.c)

    A table of [rs] rows of [cs] bytes in hexadecimal, printed after an empty
    line.  The text loses nothing: the rows are read back from it. *)

From Stdlib Require Import Ascii String.
From S2P Require Import Prelude Log.

(** [%02x] of a byte. *)
Definition hex_digit (d : Z) : ascii :=
  ascii_of_nat (Z.to_nat (if d <? 10 then 48 + d else 87 + d)).

Definition print_02x (b : Z) : text := [hex_digit (b / 16); hex_digit (b mod 16)].

(** [p[r*cs+c]], with the index in an [int]. *)
Definition dump_cell (p : list Z) (cs r c : Z) : outcome text :=
  let i := r * cs + c in
  if (- 2 ^ 31 <=? i) && (i <? 2 ^ 31) then
    b ← array_get p i; mret (print_02x b ++ lit " ")
  else Fault OutOfBounds.

(** The loops over [c] and [r], from there on with [k] rounds left. *)
Fixpoint dump_row (p : list Z) (cs r : Z) (k : nat) (c : Z) : outcome text :=
  match k with
  | O => mret newline
  | S k => s ← dump_cell p cs r c; t ← dump_row p cs r k (c + 1); mret (s ++ t)
  end.

Fixpoint dump_rows (p : list Z) (cs : Z) (k : nat) (r : Z) : outcome text :=
  match k with
  | O => mret []
  | S k => s ← dump_row p cs r (Z.to_nat cs) 0; t ← dump_rows p cs k (r + 1); mret (s ++ t)
  end.

Definition dump_hex (p : list Z) (rs cs : Z) : outcome text :=
  t ← dump_rows p cs (Z.to_nat rs) 0; mret (newline ++ t).

(** ** Reading a dump *)

Definition hex_value (c : ascii) : Z :=
  let n := Z.of_nat (nat_of_ascii c) in if n <? 58 then n - 48 else n - 87.

(** The rows of a dump after its first line; [row] is the row read so far. *)
Fixpoint read_rows (t : text) (row : list Z) : list (list Z) :=
  match t with
  | [] => []
  | c :: t =>
      if decide (c = ascii_of_nat 10) then row :: read_rows t []
      else match t with
           | d :: _ :: t => read_rows t (row ++ [16 * hex_value c + hex_value d])
           | _ => []
           end
  end.

Definition is_byte (b : Z) : Prop := 0 <= b < 256.

Lemma hex_value_digit d : 0 <= d < 16 -> hex_value (hex_digit d) = d /\ hex_digit d <> ascii_of_nat 10.
Proof.
  intros Hd.
  pose proof (forallb_range (fun d => (hex_value (hex_digit d) =? d) &&
    negb (Ascii.eqb (hex_digit d) (ascii_of_nat 10))) 0 16 d eq_refl Hd) as Hf.
  apply andb_true_iff in Hf as [Hv Hn]. split; [by apply Z.eqb_eq|].
  intros E. rewrite E, Ascii.eqb_refl in Hn. done.
Qed.

Lemma read_rows_cell b t row :
  is_byte b -> read_rows (print_02x b ++ lit " " ++ t) row = read_rows t (row ++ [b]).
Proof.
  unfold is_byte. intros Hb.
  destruct (hex_value_digit (b / 16)) as [H1 H2]; [word_lia|].
  destruct (hex_value_digit (b mod 16)) as [H3 _]; [word_lia|].
  simpl. rewrite decide_False by done. rewrite H1, H3. do 3 f_equal. word_lia.
Qed.

(** The text of one row, and of the rows of [p] from row [r] on. *)
Lemma dump_row_spec p cs r k c :
  Forall is_byte p -> 0 <= c -> 0 <= r * cs -> r * cs + c + Z.of_nat k <= Z.of_nat (length p) ->
  Z.of_nat (length p) <= 2 ^ 31 ->
  exists t, dump_row p cs r k c = Ok t /\
    forall u row, read_rows (t ++ u) row =
      (row ++ take k (drop (Z.to_nat (r * cs + c)) p)) :: read_rows u [].
Proof.
  intros Hp. revert c. induction k as [|k IH]; intros c Hc Hr Hk Hl.
  { exists newline. split; [done|]. intros u row. simpl. by rewrite app_nil_r. }
  destruct (lookup_lt_is_Some_2 p (Z.to_nat (r * cs + c))) as [b Hb]; [lia|].
  destruct (IH (c + 1)) as (t & Et & Hread); [lia..|].
  cbn [dump_row]. unfold dump_cell.
  rewrite (proj2 (Z.leb_le _ _)), (proj2 (Z.ltb_lt _ _)) by lia. cbn [andb].
  rewrite (array_get_ok p _ b) by (lia || done). cbn [mbind outcome_bind]. rewrite Et.
  cbn [mbind outcome_bind]. eexists. split; [done|]. intros u row.
  rewrite <- !app_assoc, read_rows_cell, Hread by (by eapply (Forall_lookup_1 _ _ _ _ Hp)).
  rewrite (drop_S p b (Z.to_nat (r * cs + c)) Hb), firstn_cons, <- app_assoc.
  by replace (Z.to_nat (r * cs + (c + 1))) with (S (Z.to_nat (r * cs + c))) by lia.
Qed.

(** The rows of the table: [cs] bytes each, from row [r] on. *)
Definition table_rows (p : list Z) (cs : Z) (r k : nat) : list (list Z) :=
  (fun i : nat => take (Z.to_nat cs) (drop (i * Z.to_nat cs) p)) <$> seq r k.

Lemma dump_rows_spec p cs k r :
  Forall is_byte p -> 0 <= cs -> (Z.of_nat r + Z.of_nat k) * cs <= Z.of_nat (length p) ->
  Z.of_nat (length p) <= 2 ^ 31 ->
  exists t, dump_rows p cs k (Z.of_nat r) = Ok t /\ read_rows t [] = table_rows p cs r k.
Proof.
  intros Hp Hcs. revert r. induction k as [|k IH]; intros r Hk Hl; [by exists []|].
  destruct (IH (S r)) as (t & Et & Hread); [lia..|].
  destruct (dump_row_spec p cs (Z.of_nat r) (Z.to_nat cs) 0) as (s & Es & Hs); [done|lia..|].
  cbn [dump_rows]. rewrite Es. cbn [mbind outcome_bind].
  replace (Z.of_nat r + 1) with (Z.of_nat (S r)) by lia. rewrite Et. cbn [mbind outcome_bind].
  exists (s ++ t). split; [done|]. rewrite Hs, Hread. unfold table_rows. simpl.
  by replace (Z.to_nat (Z.of_nat r * cs + 0)) with (r * Z.to_nat cs)%nat by lia.
Qed.

(** [dump_hex] of [rs] rows of [cs] bytes, for a buffer that holds them, reads
    inside the buffer and prints an empty line and then text from which
    exactly these rows of bytes are read back. *)
Theorem dump_hex_reads_back p rs cs :
  Forall is_byte p -> 0 <= rs -> 0 <= cs -> rs * cs <= Z.of_nat (length p) <= 2 ^ 31 ->
  exists t, dump_hex p rs cs = Ok (newline ++ t) /\ read_rows t [] = table_rows p cs 0 (Z.to_nat rs).
Proof.
  intros Hp Hr Hc [Hl Hm]. destruct (dump_rows_spec p cs (Z.to_nat rs) 0) as (t & Et & Ht); [done|lia..|].
  exists t. unfold dump_hex. change 0 with (Z.of_nat 0). by rewrite Et.
Qed.

(** A buffer that is too short is read behind its end. *)
Example dump_hex_example :
  dump_hex [0; 255; 16; 10] 2 2 =
    Ok (newline ++ lit "00 ff " ++ newline ++ lit "10 0a " ++ newline) /\
  dump_hex [0; 255; 16] 2 2 = Fault OutOfBounds.
Proof. split; reflexivity. Qed.

Lemma dump_hex_reads_back_witness :
  exists t, dump_hex [0; 255; 16; 10] 2 2 = Ok (newline ++ t) /\ read_rows t [] = [[0; 255]; [16; 10]].
Proof.
  apply (dump_hex_reads_back [0; 255; 16; 10] 2 2);
    [repeat constructor; discriminate | lia | lia | simpl; lia].
Defined.
