(* ===== verification/Layout.v ===== *)
(** * Layout of structures in memory

    The kernel module and the helper exchange structures as bytes
    ([kgpu_read] and [kgpu_write] copy [struct kgpu_ku_request] and
    [struct kgpu_ku_response], the ioctl copies [struct kgpu_gpu_mem_info]),
    and the lists of src/kgpu/include/list.h go from a member to its structure
    with [container_of].  This file has the layout rules of the x86_64 ABI,
    the bytes of a structure, and the three exchanged structures as instances
    of one interface, [CStruct]. *)

From S2P Require Import Prelude KgpuDefs.

(** ** Layout *)

Record c_type : Type := mk_ctype {
  ct_size : Z;
  ct_align : Z
}.

Definition c_int : c_type := mk_ctype 4 4.

Definition c_ulong : c_type := mk_ctype 8 8.

Definition c_pointer : c_type := mk_ctype 8 8.

Definition c_chars (n : Z) : c_type := mk_ctype n 1.

Definition align_up (off a : Z) : Z := (off + a - 1) / a * a.

(** The offsets of the members from [off] on, and the end of the last one. *)
Fixpoint field_offsets (off : Z) (fs : list c_type) : list Z :=
  match fs with
  | [] => []
  | f :: fs =>
      let o := align_up off (ct_align f) in o :: field_offsets (o + ct_size f) fs
  end.

Fixpoint fields_end (off : Z) (fs : list c_type) : Z :=
  match fs with
  | [] => off
  | f :: fs => fields_end (align_up off (ct_align f) + ct_size f) fs
  end.

Definition struct_align (fs : list c_type) : Z := foldr (fun f => Z.max (ct_align f)) 1 fs.

Definition sizeof (fs : list c_type) : Z := align_up (fields_end 0 fs) (struct_align fs).

(** [offsetof], the member given by its position. *)
Definition offsetof (fs : list c_type) (i : nat) : Z := default 0 (field_offsets 0 fs !! i).

(** [container_of] on 64-bit pointers. *)
Definition container_of (ptr : Z) (fs : list c_type) (i : nat) : Z := ptr -64 offsetof fs i.

Definition list_entry (ptr : Z) (fs : list c_type) (i : nat) : Z := container_of ptr fs i.

(** A member type of the ABI: not negative, and aligned to a positive size. *)
Definition type_ok (f : c_type) : Prop := 0 <= ct_size f /\ 0 < ct_align f.

Lemma align_up_spec off a : 0 < a -> off <= align_up off a < off + a /\ (a | align_up off a).
Proof.
  intros Ha. unfold align_up. split; [|by exists ((off + a - 1) / a)].
  pose proof (Z.div_mod (off + a - 1) a ltac:(lia)).
  pose proof (Z.mod_pos_bound (off + a - 1) a ltac:(lia)). nia.
Qed.

Lemma struct_align_pos fs : 0 < struct_align fs.
Proof. induction fs as [|f fs IH]; simpl; [lia|]. unfold struct_align in *. simpl. lia. Qed.

Lemma fields_end_ge off fs : Forall type_ok fs -> off <= fields_end off fs.
Proof.
  intros Hf. revert off. induction Hf as [|f fs [Hs Ha] Hf IH]; intros off; simpl; [lia|].
  pose proof (align_up_spec off (ct_align f) Ha). specialize (IH (align_up off (ct_align f) + ct_size f)). lia.
Qed.

Lemma length_field_offsets off fs : length (field_offsets off fs) = length fs.
Proof. revert off. induction fs as [|f fs IH]; intros off; simpl; [done | by rewrite IH]. Qed.

(** A member that comes after [off] is aligned and ends before the end. *)
Lemma field_offsets_bound off fs i f o :
  Forall type_ok fs -> fs !! i = Some f -> field_offsets off fs !! i = Some o ->
  off <= o /\ o + ct_size f <= fields_end off fs /\ (ct_align f | o).
Proof.
  intros Hf. revert off i. induction Hf as [|g fs [Hs Ha] Hf IH]; intros off i Hi Ho; [done|].
  pose proof (align_up_spec off (ct_align g) Ha) as [Hr Hd].
  destruct i as [|i]; simpl in *.
  - injection Hi as ->. injection Ho as <-.
    pose proof (fields_end_ge (align_up off (ct_align f) + ct_size f) fs Hf). split_and!; [lia..|done].
  - destruct (IH _ _ Hi Ho) as (? & ? & ?). split_and!; [lia..|done].
Qed.

(** Members do not overlap: they come in the order of their declaration. *)
Lemma field_offsets_ordered off fs i j f o p :
  Forall type_ok fs -> (i < j)%nat -> fs !! i = Some f ->
  field_offsets off fs !! i = Some o -> field_offsets off fs !! j = Some p -> o + ct_size f <= p.
Proof.
  intros Hf. revert off i j. induction Hf as [|g fs Hg Hf IH]; intros off i j Hij Hi Ho Hp; [done|].
  destruct j as [|j]; [lia|]. destruct i as [|i]; simpl in *.
  - injection Hi as ->. injection Ho as <-.
    destruct (lookup_lt_is_Some_2 fs j) as [f' Hf'].
    { apply lookup_lt_Some in Hp. by rewrite length_field_offsets in Hp. }
    by destruct (field_offsets_bound _ fs j f' p Hf Hf' Hp).
  - eapply (IH _ i j); eauto; lia.
Qed.

(** ** Bytes *)

Definition byte_range (b : Z) : Prop := 0 <= b < 256.

(** The [n] low bytes of an integer, the lowest first; the integer may be
    negative (two's complement). *)
Fixpoint le_bytes (n : nat) (z : Z) : list Z :=
  match n with
  | O => []
  | S n => z mod 256 :: le_bytes n (z / 256)
  end.

Definition le_value (l : list Z) : Z := foldr (fun b v => b + 256 * v) 0 l.

Lemma length_le_bytes n z : length (le_bytes n z) = n.
Proof. revert z. induction n as [|n IH]; intros z; simpl; [done | by rewrite IH]. Qed.

Lemma le_bytes_range n z : Forall byte_range (le_bytes n z).
Proof.
  revert z. induction n as [|n IH]; intros z; constructor; [|done].
  apply Z.mod_pos_bound. lia.
Qed.

Lemma le_value_bytes n z : le_value (le_bytes n z) = z mod 256 ^ Z.of_nat n.
Proof.
  revert z. induction n as [|n IH]; intros z; simpl; [by rewrite Z.mod_1_r|].
  rewrite IH, Nat2Z.inj_succ, Z.pow_succ_r by lia.
  rewrite Z.rem_mul_r by lia. done.
Qed.

Lemma le_value_u64 z : u64_range z -> le_value (le_bytes 8 z) = z.
Proof. intros Hz. rewrite le_value_bytes. by apply Z.mod_small. Qed.

Lemma le_value_s32 z : s32_range z -> swrap32 (le_value (le_bytes 4 z)) = z.
Proof.
  intros Hz. rewrite le_value_bytes. change (256 ^ Z.of_nat 4) with (2 ^ 32).
  rewrite <- (swrap32_id z) at 2 by done. unfold swrap32. by rewrite Zplus_mod_idemp_l.
Qed.

(** Bytes of a block of memory: reading and writing [n] of them at [off]. *)
Definition get_bytes (mem : list Z) (off n : Z) : list Z :=
  take (Z.to_nat n) (drop (Z.to_nat off) mem).

Definition put_bytes (mem : list Z) (off : Z) (bs : list Z) : list Z :=
  take (Z.to_nat off) mem ++ bs ++ drop (Z.to_nat off + length bs) mem.

Lemma length_put_bytes mem off bs :
  (Z.to_nat off + length bs <= length mem)%nat -> length (put_bytes mem off bs) = length mem.
Proof. intros Hl. unfold put_bytes. rewrite !length_app, length_take, length_drop. lia. Qed.

Lemma get_put_same mem off bs n :
  (Z.to_nat off + length bs <= length mem)%nat -> Z.to_nat n = length bs ->
  get_bytes (put_bytes mem off bs) off n = bs.
Proof.
  intros Hl Hn. unfold get_bytes, put_bytes.
  rewrite drop_app_length' by (rewrite length_take; lia). by rewrite Hn, take_app_length.
Qed.

Lemma get_put_other mem off bs o n :
  0 <= off -> 0 <= o -> 0 <= n -> (Z.to_nat off + length bs <= length mem)%nat ->
  o + n <= off \/ off + Z.of_nat (length bs) <= o ->
  get_bytes (put_bytes mem off bs) o n = get_bytes mem o n.
Proof.
  intros Hoff Ho Hn Hl Hd. apply list_eq. intros k. unfold get_bytes.
  destruct (decide (k < Z.to_nat n)%nat); [|by rewrite !lookup_take_ge by lia].
  rewrite !lookup_take_lt, !lookup_drop by lia. unfold put_bytes.
  destruct Hd as [Hd|Hd].
  - rewrite lookup_app_l by (rewrite length_take; lia). apply lookup_take_lt. lia.
  - rewrite lookup_app_r by (rewrite length_take; lia). rewrite length_take.
    rewrite lookup_app_r by lia. rewrite lookup_drop. f_equal. lia.
Qed.

Lemma put_bytes_range mem off bs :
  Forall byte_range mem -> Forall byte_range bs -> Forall byte_range (put_bytes mem off bs).
Proof.
  intros Hm Hb. unfold put_bytes. rewrite !Forall_app.
  split_and!; [by apply Forall_take | done | by apply Forall_drop].
Qed.

(** ** Structures as bytes *)

(** Assigning the members one after the other to a variable whose bytes were
    [mem]; the padding keeps them. *)
Fixpoint put_fields (mem : list Z) (offs : list Z) (vals : list (list Z)) : list Z :=
  match offs, vals with
  | o :: offs, v :: vals => put_fields (put_bytes mem o v) offs vals
  | _, _ => mem
  end.

Definition get_fields (mem : list Z) (fs : list c_type) : list (list Z) :=
  zip_with (fun o f => get_bytes mem o (ct_size f)) (field_offsets 0 fs) fs.

(** The members' bytes fit their types. *)
Definition vals_ok (fs : list c_type) (vals : list (list Z)) : Prop :=
  Forall2 (fun f v => Z.of_nat (length v) = ct_size f) fs vals.

Lemma put_fields_spec off fs vals mem :
  0 <= off -> Forall type_ok fs -> vals_ok fs vals -> fields_end off fs <= Z.of_nat (length mem) ->
  length (put_fields mem (field_offsets off fs) vals) = length mem /\
  (forall o n, 0 <= o -> 0 <= n -> o + n <= off ->
     get_bytes (put_fields mem (field_offsets off fs) vals) o n = get_bytes mem o n) /\
  zip_with (fun o f => get_bytes (put_fields mem (field_offsets off fs) vals) o (ct_size f))
    (field_offsets off fs) fs = vals.
Proof.
  intros Hoff Hf Hv. revert off mem Hoff.
  induction Hv as [|f v fs vals Hlen Hv IH]; intros off mem Hoff Hend; [done|].
  apply Forall_cons in Hf as [[Hs Ha] Hf]. cbn [field_offsets fields_end put_fields zip_with] in *.
  pose proof (align_up_spec off (ct_align f) Ha) as [Hr _].
  set (o := align_up off (ct_align f)) in *.
  pose proof (fields_end_ge (o + ct_size f) fs Hf).
  assert (Hl : (Z.to_nat o + length v <= length mem)%nat) by lia.
  destruct (IH Hf (o + ct_size f) (put_bytes mem o v)) as (L & G & Z0);
    [lia | by rewrite length_put_bytes|].
  rewrite length_put_bytes in L by done. split_and!; [done | |].
  - intros o' n Ho' Hn Hlt. rewrite G by lia. apply get_put_other; lia || done.
  - f_equal; [|done]. rewrite G by lia. apply get_put_same; lia || done.
Qed.

Lemma put_fields_range mem offs vals :
  Forall byte_range mem -> Forall (Forall byte_range) vals ->
  Forall byte_range (put_fields mem offs vals).
Proof.
  intros Hm Hv. revert mem offs Hm. induction Hv as [|v vals Hv Hvs IH]; intros mem [|o offs] Hm;
    simpl; try done. apply IH. by apply put_bytes_range.
Qed.

(** A structure that is copied as bytes: its members, the bytes of each, the
    value that given bytes stand for, and the values that fit the C types of
    the members. *)
Class CStruct (A : Type) : Type := {
  cs_fields : list c_type;
  cs_vals : A -> list (list Z);
  cs_value : list (list Z) -> option A;
  cs_typed : A -> Prop;
  cs_fields_ok : Forall type_ok cs_fields;
  cs_vals_ok a : cs_typed a -> vals_ok cs_fields (cs_vals a);
  cs_vals_range a : cs_typed a -> Forall (Forall byte_range) (cs_vals a);
  cs_value_vals a : cs_typed a -> cs_value (cs_vals a) = Some a
}.

Section copies.
Context {A : Type} `{CStruct A}.

Definition cs_sizeof : Z := sizeof cs_fields.

(** The bytes of a variable that held [mem] after its members are assigned. *)
Definition to_bytes (mem : list Z) (a : A) : list Z :=
  put_fields mem (field_offsets 0 cs_fields) (cs_vals a).

Definition of_bytes (mem : list Z) : option A := cs_value (get_fields mem cs_fields).

(** [memcpy] of the whole structure to the start of a buffer. *)
Definition memcpy_out (buf mem : list Z) : list Z := put_bytes buf 0 mem.

Lemma fields_fit : fields_end 0 cs_fields <= cs_sizeof.
Proof.
  unfold cs_sizeof, sizeof.
  pose proof (align_up_spec (fields_end 0 cs_fields) _ (struct_align_pos cs_fields)). lia.
Qed.

Lemma to_bytes_spec mem a :
  cs_typed a -> Z.of_nat (length mem) = cs_sizeof ->
  length (to_bytes mem a) = length mem /\ of_bytes (to_bytes mem a) = Some a.
Proof.
  intros Ha Hl. pose proof fields_fit.
  destruct (put_fields_spec 0 cs_fields (cs_vals a) mem) as (L & _ & G);
    [lia | apply cs_fields_ok | by apply cs_vals_ok | lia|].
  split; [done|]. unfold of_bytes, get_fields, to_bytes. rewrite G. by apply cs_value_vals.
Qed.

Lemma get_fields_put buf mem fs :
  (length mem <= length buf)%nat -> Forall type_ok fs -> fields_end 0 fs <= Z.of_nat (length mem) ->
  get_fields (put_bytes buf 0 mem) fs = get_fields mem fs.
Proof.
  intros Hl Hf He. unfold get_fields. apply list_eq. intros i. rewrite !lookup_zip_with.
  destruct (field_offsets 0 fs !! i) as [o|] eqn:Ho; [|done]. simpl.
  destruct (fs !! i) as [f|] eqn:Hi; [|done]. simpl. f_equal.
  destruct (field_offsets_bound 0 fs i f o Hf Hi Ho) as (? & ? & _).
  destruct (Forall_lookup_1 _ _ _ _ Hf Hi) as [? _].
  unfold get_bytes, put_bytes. simpl. rewrite drop_app_le by lia.
  rewrite take_app_le; [done|]. rewrite length_drop. lia.
Qed.

(** What one side copies out of a typed value, the other side reads. *)
Lemma copy_roundtrip buf mem a :
  cs_typed a -> Z.of_nat (length mem) = cs_sizeof -> (length mem <= length buf)%nat ->
  of_bytes (memcpy_out buf (to_bytes mem a)) = Some a.
Proof.
  intros Ha Hm Hb. destruct (to_bytes_spec mem a Ha Hm) as [L E].
  unfold of_bytes, memcpy_out. rewrite get_fields_put; [exact E | lia | apply cs_fields_ok |].
  pose proof fields_fit. lia.
Qed.

Lemma to_bytes_range mem a :
  cs_typed a -> Forall byte_range mem -> Forall byte_range (to_bytes mem a).
Proof. intros Ha Hm. apply put_fields_range; [done | by apply cs_vals_range]. Qed.

End copies.

(** ** The exchanged structures *)

Definition int_bytes (z : Z) : list Z := le_bytes 4 z.

Definition long_bytes (z : Z) : list Z := le_bytes 8 z.

Definition int_value (l : list Z) : Z := swrap32 (le_value l).

Definition long_value (l : list Z) : Z := le_value l.

Definition name_typed (l : list Z) : Prop :=
  Z.of_nat (length l) = KGPU_SERVICE_NAME_SIZE /\ Forall byte_range l.

Definition ku_request_fields : list c_type :=
  [c_int; c_chars KGPU_SERVICE_NAME_SIZE; c_pointer; c_pointer; c_pointer; c_ulong; c_ulong; c_ulong].

Record ku_request_typed (r : kgpu_ku_request) : Prop := {
  krt_id : s32_range (kr_id r);
  krt_name : name_typed (kr_service_name r);
  krt_in : u64_range (kr_in r);
  krt_out : u64_range (kr_out r);
  krt_data : u64_range (kr_data r);
  krt_insize : u64_range (kr_insize r);
  krt_outsize : u64_range (kr_outsize r);
  krt_datasize : u64_range (kr_datasize r)
}.

Definition ku_request_vals (r : kgpu_ku_request) : list (list Z) :=
  [int_bytes (kr_id r); kr_service_name r; long_bytes (kr_in r); long_bytes (kr_out r);
   long_bytes (kr_data r); long_bytes (kr_insize r); long_bytes (kr_outsize r);
   long_bytes (kr_datasize r)].

Definition ku_request_value (l : list (list Z)) : option kgpu_ku_request :=
  match l with
  | [i; n; a; b; c; x; y; z] =>
      Some (mk_ku_request (int_value i) n (long_value a) (long_value b) (long_value c)
              (long_value x) (long_value y) (long_value z))
  | _ => None
  end.

Definition ku_response_fields : list c_type := [c_int; c_int].

Definition ku_response_typed (r : kgpu_ku_response) : Prop :=
  s32_range (ks_id r) /\ s32_range (ks_errcode r).

Definition ku_response_vals (r : kgpu_ku_response) : list (list Z) :=
  [int_bytes (ks_id r); int_bytes (ks_errcode r)].

Definition ku_response_value (l : list (list Z)) : option kgpu_ku_response :=
  match l with
  | [i; e] => Some (mk_ku_response (int_value i) (int_value e))
  | _ => None
  end.

Definition mem_info_fields : list c_type := [c_pointer; c_ulong].

Definition mem_info_typed (i : kgpu_gpu_mem_info) : Prop :=
  u64_range (mi_uva i) /\ u64_range (mi_size i).

Definition mem_info_vals (i : kgpu_gpu_mem_info) : list (list Z) :=
  [long_bytes (mi_uva i); long_bytes (mi_size i)].

Definition mem_info_value (l : list (list Z)) : option kgpu_gpu_mem_info :=
  match l with
  | [a; s] => Some (mk_mem_info (long_value a) (long_value s))
  | _ => None
  end.

(** The values of members in range, and the other obligations of an instance. *)
Ltac cvalues :=
  unfold int_bytes, long_bytes, int_value, long_value;
  rewrite ?le_value_s32, ?le_value_u64 by done.

Ltac cstruct :=
  unfold vals_ok;
  repeat (assumption || apply le_bytes_range || apply Forall_cons_2 || apply Forall_nil_2 ||
          apply Forall2_cons_2 || apply Forall2_nil_2);
  unfold int_bytes, long_bytes; rewrite ?length_le_bytes; try done; by vm_compute.

#[global, refine] Instance ku_request_struct : CStruct kgpu_ku_request := {
  cs_fields := ku_request_fields; cs_vals := ku_request_vals; cs_value := ku_request_value;
  cs_typed := ku_request_typed;
  cs_fields_ok := _; cs_vals_ok := _; cs_vals_range := _; cs_value_vals := _ }.
Proof.
  - cstruct.
  - intros r [? [Hn ?] ? ? ? ? ? ?]. cstruct.
  - intros r [? [Hn ?] ? ? ? ? ? ?]. cstruct.
  - intros r [? [Hn ?] ? ? ? ? ? ?]. unfold ku_request_value, ku_request_vals. cvalues. by destruct r.
Defined.

#[global, refine] Instance ku_response_struct : CStruct kgpu_ku_response := {
  cs_fields := ku_response_fields; cs_vals := ku_response_vals; cs_value := ku_response_value;
  cs_typed := ku_response_typed;
  cs_fields_ok := _; cs_vals_ok := _; cs_vals_range := _; cs_value_vals := _ }.
Proof.
  - cstruct.
  - intros r [? ?]. cstruct.
  - intros r [? ?]. cstruct.
  - intros r [? ?]. unfold ku_response_value, ku_response_vals. cvalues. by destruct r.
Defined.

#[global, refine] Instance mem_info_struct : CStruct kgpu_gpu_mem_info := {
  cs_fields := mem_info_fields; cs_vals := mem_info_vals; cs_value := mem_info_value;
  cs_typed := mem_info_typed;
  cs_fields_ok := _; cs_vals_ok := _; cs_vals_range := _; cs_value_vals := _ }.
Proof.
  - cstruct.
  - intros i [? ?]. cstruct.
  - intros i [? ?]. cstruct.
  - intros i [? ?]. unfold mem_info_value, mem_info_vals. cvalues. by destruct i.
Defined.

(** The sizes that the system calls and the ioctl commands use. *)
Example exchanged_sizes :
  sizeof ku_request_fields = 88 /\ sizeof ku_response_fields = 8 /\ sizeof mem_info_fields = 16.
Proof. by vm_compute. Qed.
