(* ===== verification/Slab.v ===== *)
(** * The constructors of the slab caches (src/kgpu/src/kernelSpace/main.c)

    [kgpu_init] gives each cache a constructor that Linux runs on the bytes
    of a new object.  That of requests, which draws an identifier, is in
    Device; the other two only write the object.  The object is the bytes
    [mem] at address [data]. *)

From S2P Require Import Prelude KgpuDefs Layout.

(** [struct _kgpu_request_item]: the two pointers of its list head and [r]. *)
Definition request_item_fields : list c_type := [c_pointer; c_pointer; c_pointer].

(** [struct _kgpu_sync_call_data]; the wait queue is a type of Linux. *)
Definition sync_call_data_fields (wait_queue_head_t : c_type) : list c_type :=
  [wait_queue_head_t; c_pointer; c_pointer; c_int].

Definition memset_zero (mem : list Z) (n : Z) : list Z := put_bytes mem 0 (replicate (Z.to_nat n) 0).

Definition put_pointer (mem : list Z) (off p : Z) : list Z := put_bytes mem off (long_bytes p).

Definition kgpu_request_item_constructor (data : Z) (mem : list Z) : list Z :=
  if bool_decide (data = NULL) then mem
  else
    let mem := memset_zero mem (sizeof request_item_fields) in
    let mem := put_pointer mem (offsetof request_item_fields 0) data in
    let mem := put_pointer mem (offsetof request_item_fields 1) data in
    put_pointer mem (offsetof request_item_fields 2) NULL.

Definition kgpu_sync_call_data_constructor (wait_queue_head_t : c_type) (data : Z) (mem : list Z) :
    list Z :=
  if bool_decide (data = NULL) then mem
  else memset_zero mem (sizeof (sync_call_data_fields wait_queue_head_t)).

Lemma memset_zero_spec mem n :
  0 <= n <= Z.of_nat (length mem) ->
  length (memset_zero mem n) = length mem /\
  (forall o k, 0 <= o -> 0 <= k -> o + k <= n -> get_bytes (memset_zero mem n) o k = replicate (Z.to_nat k) 0) /\
  (forall o k, n <= o -> 0 <= k -> get_bytes (memset_zero mem n) o k = get_bytes mem o k).
Proof.
  intros Hn. unfold memset_zero. split_and!.
  - apply length_put_bytes. rewrite length_replicate. lia.
  - intros o k Ho Hk Hok. unfold get_bytes, put_bytes. rewrite take_0, app_nil_l, length_replicate.
    rewrite drop_app_le by (rewrite length_replicate; lia).
    rewrite take_app_le by (rewrite length_drop, length_replicate; lia).
    apply list_eq. intros i. destruct (decide (i < Z.to_nat k)%nat).
    + rewrite lookup_take_lt, lookup_drop by done.
      rewrite !lookup_replicate_2 by lia. done.
    + rewrite lookup_take_ge by lia. symmetry. apply lookup_ge_None_2. rewrite length_replicate. lia.
  - intros o k Ho Hk. apply get_put_other; rewrite ?length_replicate; lia.
Qed.

Lemma put_pointer_spec mem off p :
  0 <= off -> off + 8 <= Z.of_nat (length mem) ->
  length (put_pointer mem off p) = length mem /\
  (forall o k, off + 8 <= o -> 0 <= k -> get_bytes (put_pointer mem off p) o k = get_bytes mem o k).
Proof.
  intros Ho Hl. assert (H8 : length (long_bytes p) = 8%nat) by apply (length_le_bytes 8).
  unfold put_pointer. split; [apply length_put_bytes; lia|].
  intros o k Hok Hk. apply get_put_other; lia.
Qed.

(** A new item is the empty list at its own address and has no request,
    whatever the memory held; nothing past the object is written. *)
Theorem item_constructor_clears data mem :
  data <> NULL -> 24 <= Z.of_nat (length mem) ->
  get_fields (kgpu_request_item_constructor data mem) request_item_fields =
    [long_bytes data; long_bytes data; long_bytes NULL] /\
  length (kgpu_request_item_constructor data mem) = length mem /\
  (forall o k, 24 <= o -> 0 <= k ->
     get_bytes (kgpu_request_item_constructor data mem) o k = get_bytes mem o k).
Proof.
  intros Hd Hm. unfold kgpu_request_item_constructor. rewrite bool_decide_eq_false_2 by done.
  change (sizeof request_item_fields) with 24.
  destruct (memset_zero_spec mem 24) as (Hl & _ & Hout); [lia|].
  set (mem0 := memset_zero mem 24) in *.
  destruct (put_fields_spec 0 request_item_fields
    [long_bytes data; long_bytes data; long_bytes NULL] mem0) as (L & _ & F).
  - lia.
  - repeat constructor; simpl; lia.
  - repeat constructor; apply f_equal, (length_le_bytes 8).
  - rewrite Hl. exact Hm.
  - split_and!; [exact F | rewrite <- Hl; exact L |].
    change (offsetof request_item_fields 0) with 0. change (offsetof request_item_fields 1) with 8.
    change (offsetof request_item_fields 2) with 16.
    destruct (put_pointer_spec mem0 0 data) as [L1 G1]; [lia..|].
    destruct (put_pointer_spec (put_pointer mem0 0 data) 8 data) as [L2 G2]; [lia..|].
    destruct (put_pointer_spec (put_pointer (put_pointer mem0 0 data) 8 data) 16 NULL) as [_ G3]; [lia..|].
    intros o k Ho Hk. rewrite G3, G2, G1 by lia. by apply Hout.
Qed.
