(* ===== verification/ListHead.v ===== *)
(** * The intrusive doubly linked list: src/kgpu/include/list.h

    The model is at the level of pointers: a heap maps the address of each
    [struct list_head] to its two fields, and the operations are the
    sequences of loads and stores of the source.  [dll] says that a heap holds
    a circular list with a given head and given nodes; the theorems show that
    the pointer operations implement the operations on sequences that the
    other components use for their queues. *)

From S2P Require Import Prelude.

Record list_head : Type := mk_list_head {
  lh_prev : Z;
  lh_next : Z
}.

Definition load (h : gmap Z list_head) (p : Z) : outcome list_head :=
  if bool_decide (p = NULL) then Fault NullDeref
  else of_option WildPointer (h !! p).

Definition store_prev (h : gmap Z list_head) (p v : Z) : outcome (gmap Z list_head) :=
  n ← load h p; mret (<[p := mk_list_head v (lh_next n)]> h).

Definition store_next (h : gmap Z list_head) (p v : Z) : outcome (gmap Z list_head) :=
  n ← load h p; mret (<[p := mk_list_head (lh_prev n) v]> h).

Definition INIT_LIST_HEAD (h : gmap Z list_head) (list : Z) : outcome (gmap Z list_head) :=
  h ← store_next h list list;
  store_prev h list list.

Definition __list_add (h : gmap Z list_head) (new prev next : Z) : outcome (gmap Z list_head) :=
  h ← store_prev h next new;
  h ← store_next h new next;
  h ← store_prev h new prev;
  store_next h prev new.

Definition list_add (h : gmap Z list_head) (new head : Z) : outcome (gmap Z list_head) :=
  n ← load h head;
  __list_add h new head (lh_next n).

Definition list_add_tail (h : gmap Z list_head) (new head : Z) : outcome (gmap Z list_head) :=
  n ← load h head;
  __list_add h new (lh_prev n) head.

Definition __list_del (h : gmap Z list_head) (prev next : Z) : outcome (gmap Z list_head) :=
  h ← store_prev h next prev;
  store_next h prev next.

Definition list_del (h : gmap Z list_head) (entry : Z) : outcome (gmap Z list_head) :=
  e ← load h entry;
  h ← __list_del h (lh_prev e) (lh_next e);
  h ← store_next h entry NULL;
  store_prev h entry NULL.

Definition list_empty (h : gmap Z list_head) (head : Z) : outcome bool :=
  n ← load h head; mret (lh_next n =? head).

(** [list_for_each] over a body that changes a state [S]; the body returns
    [true] to leave the loop. *)
Fixpoint list_for_each_loop {S} (heap_of : S -> gmap Z list_head)
    (body : Z -> S -> outcome (S * bool)) (fuel : nat) (pos head : Z) (s : S) : outcome S :=
  match fuel with
  | O => Fault NoFuel
  | Datatypes.S fuel =>
      if pos =? head then Ok s
      else
        '(s, stop) ← body pos s;
        if stop : bool then Ok s
        else
          n ← load (heap_of s) pos;
          list_for_each_loop heap_of body fuel (lh_next n) head s
  end.

Definition list_for_each {S} (heap_of : S -> gmap Z list_head)
    (body : Z -> S -> outcome (S * bool)) (fuel : nat) (head : Z) (s : S) : outcome S :=
  n ← load (heap_of s) head;
  list_for_each_loop heap_of body fuel (lh_next n) head s.

(** [list_for_each_safe]: the successor is read before the body runs. *)
Fixpoint list_for_each_safe_loop {S} (heap_of : S -> gmap Z list_head)
    (body : Z -> S -> outcome (S * bool)) (fuel : nat) (pos n head : Z) (s : S) : outcome S :=
  match fuel with
  | O => Fault NoFuel
  | Datatypes.S fuel =>
      if pos =? head then Ok s
      else
        '(s, stop) ← body pos s;
        if stop : bool then Ok s
        else
          m ← load (heap_of s) n;
          list_for_each_safe_loop heap_of body fuel n (lh_next m) head s
  end.

Definition list_for_each_safe {S} (heap_of : S -> gmap Z list_head)
    (body : Z -> S -> outcome (S * bool)) (fuel : nat) (head : Z) (s : S) : outcome S :=
  p ← load (heap_of s) head;
  n ← load (heap_of s) (lh_next p);
  list_for_each_safe_loop heap_of body fuel (lh_next p) (lh_next n) head s.

Definition list_size (h : gmap Z list_head) (fuel : nat) (head : Z) : outcome Z :=
  '(_, s) ← list_for_each fst (fun _ '(h, s) => Ok ((h, swrap32 (s + 1)), false))
              fuel head (h, 0);
  mret s.

(** ** The abstraction *)

Definition next_of (h : gmap Z list_head) (p : Z) : option Z := lh_next <$> h !! p.

Definition prev_of (h : gmap Z list_head) (p : Z) : option Z := lh_prev <$> h !! p.

Definition linked (h : gmap Z list_head) (a b : Z) : Prop :=
  next_of h a = Some b /\ prev_of h b = Some a.

Fixpoint path (h : gmap Z list_head) (a : Z) (l : list Z) (b : Z) : Prop :=
  match l with
  | [] => linked h a b
  | x :: l => linked h a x /\ path h x l b
  end.

(** [dll h head l]: the circular list at [head] has the nodes [l] in order. *)
Definition dll (h : gmap Z list_head) (head : Z) (l : list Z) : Prop :=
  NoDup (head :: l) /\ NULL ∉ head :: l /\ path h head l head.

(** A node that is allocated and can be linked. *)
Definition node_at (h : gmap Z list_head) (p : Z) : Prop :=
  p <> NULL /\ is_Some (h !! p).

(** The fold that the loops implement: the body on each element in order,
    until it asks to leave. *)
Fixpoint fold_break {S} (body : Z -> S -> outcome (S * bool)) (l : list Z) (s : S) : outcome S :=
  match l with
  | [] => Ok s
  | x :: l =>
      '(s, stop) ← body x s;
      if stop : bool then Ok s else fold_break body l s
  end.

(** ** Loads and stores *)

Lemma load_ok h p n : p <> NULL -> h !! p = Some n -> load h p = Ok n.
Proof. intros Hp Hn. unfold load. by rewrite bool_decide_eq_false_2, Hn. Qed.

Lemma load_at h p : node_at h p -> exists n, load h p = Ok n /\ h !! p = Some n.
Proof. intros [Hp [n Hn]]. exists n. split; [by apply load_ok | done]. Qed.

Lemma next_of_store h p n v q :
  next_of (<[p := mk_list_head n v]> h) q = if decide (p = q) then Some v else next_of h q.
Proof. unfold next_of. rewrite lookup_insert. by case_decide. Qed.

Lemma prev_of_store h p n v q :
  prev_of (<[p := mk_list_head n v]> h) q = if decide (p = q) then Some n else prev_of h q.
Proof. unfold prev_of. rewrite lookup_insert. by case_decide. Qed.

(** The effect of one store on the two fields of every node. *)
Lemma store_next_spec h p v :
  node_at h p -> exists h', store_next h p v = Ok h' /\
    (forall q, next_of h' q = if decide (p = q) then Some v else next_of h q) /\
    (forall q, prev_of h' q = prev_of h q) /\
    (forall q, node_at h q -> node_at h' q) /\
    (forall q, q <> p -> h' !! q = h !! q).
Proof.
  intros (n & Hl & Hn)%load_at. unfold store_next. rewrite Hl. simpl.
  eexists; split_and!; [done|..]; intros q.
  - apply next_of_store.
  - rewrite prev_of_store. case_decide; [subst|done]. unfold prev_of. by rewrite Hn.
  - intros [Hq Hs]. split; [done|]. rewrite lookup_insert. case_decide; eauto.
  - intros Hq. by rewrite lookup_insert_ne.
Qed.

Lemma store_prev_spec h p v :
  node_at h p -> exists h', store_prev h p v = Ok h' /\
    (forall q, prev_of h' q = if decide (p = q) then Some v else prev_of h q) /\
    (forall q, next_of h' q = next_of h q) /\
    (forall q, node_at h q -> node_at h' q) /\
    (forall q, q <> p -> h' !! q = h !! q).
Proof.
  intros (n & Hl & Hn)%load_at. unfold store_prev. rewrite Hl. simpl.
  eexists; split_and!; [done|..]; intros q.
  - apply prev_of_store.
  - rewrite next_of_store. case_decide; [subst|done]. unfold next_of. by rewrite Hn.
  - intros [Hq Hs]. split; [done|]. rewrite lookup_insert. case_decide; eauto.
  - intros Hq. by rewrite lookup_insert_ne.
Qed.

(** The heap changed by linking [x] between [a] and [b]. *)
Definition linked_between (h h' : gmap Z list_head) (x a b : Z) : Prop :=
  (forall q, next_of h' q = if decide (a = q) then Some x
                            else if decide (x = q) then Some b else next_of h q) /\
  (forall q, prev_of h' q = if decide (x = q) then Some a
                            else if decide (b = q) then Some x else prev_of h q) /\
  (forall q, q ∉ [x; a; b] -> h' !! q = h !! q) /\
  (forall q, node_at h q -> node_at h' q).

Lemma __list_add_spec h x a b :
  node_at h x -> node_at h a -> node_at h b -> x <> a -> x <> b ->
  exists h', __list_add h x a b = Ok h' /\ linked_between h h' x a b.
Proof.
  intros Hx Ha Hb Hxa Hxb. unfold __list_add.
  destruct (store_prev_spec h b x) as (h1 & -> & P1 & N1 & M1 & F1); [done|]. cbn.
  destruct (store_next_spec h1 x b) as (h2 & -> & N2 & P2 & M2 & F2); [auto|]. cbn.
  destruct (store_prev_spec h2 x a) as (h3 & -> & P3 & N3 & M3 & F3); [auto|]. cbn.
  destruct (store_next_spec h3 a x) as (h4 & -> & N4 & P4 & M4 & F4); [auto|].
  eexists; split; [done|]. split_and!; [intros q .. | auto].
  - rewrite N4, N3, N2, N1. done.
  - rewrite P4, P3, P2, P1. done.
  - rewrite !not_elem_of_cons. intros (?&?&?&_). rewrite F4, F3, F2, F1 by done. done.
Qed.

(** The heap changed by unlinking [x], which was between [a] and [b]. *)
Definition unlinked_between (h h' : gmap Z list_head) (x a b : Z) : Prop :=
  (forall q, next_of h' q = if decide (x = q) then Some NULL
                            else if decide (a = q) then Some b else next_of h q) /\
  (forall q, prev_of h' q = if decide (x = q) then Some NULL
                            else if decide (b = q) then Some a else prev_of h q) /\
  (forall q, q ∉ [x; a; b] -> h' !! q = h !! q) /\
  (forall q, node_at h q -> node_at h' q).

Lemma list_del_spec h x a b :
  node_at h x -> node_at h a -> node_at h b ->
  prev_of h x = Some a -> next_of h x = Some b ->
  exists h', list_del h x = Ok h' /\ unlinked_between h h' x a b.
Proof.
  intros Hx Ha Hb Hpx Hnx. unfold list_del, __list_del.
  destruct (load_at h x Hx) as (n & -> & Hn). cbn.
  unfold prev_of, next_of in Hpx, Hnx. rewrite Hn in Hpx, Hnx. simpl in *.
  injection Hpx as ->. injection Hnx as ->.
  destruct (store_prev_spec h b a) as (h1 & -> & P1 & N1 & M1 & F1); [done|]. cbn.
  destruct (store_next_spec h1 a b) as (h2 & -> & N2 & P2 & M2 & F2); [auto|]. cbn.
  destruct (store_next_spec h2 x NULL) as (h3 & -> & N3 & P3 & M3 & F3); [auto|]. cbn.
  destruct (store_prev_spec h3 x NULL) as (h4 & -> & P4 & N4 & M4 & F4); [auto|].
  eexists; split; [done|]. split_and!; [intros q .. | auto].
  - rewrite N4, N3, N2, N1. done.
  - rewrite P4, P3, P2, P1. done.
  - rewrite !not_elem_of_cons. intros (?&?&?&_). rewrite F4, F3, F2, F1 by done. done.
Qed.

(** ** Paths *)

Lemma path_app h a l1 x l2 b :
  path h a (l1 ++ x :: l2) b <-> path h a l1 x /\ path h x l2 b.
Proof.
  revert a. induction l1 as [|y l1 IH]; intros a; simpl; [done|].
  rewrite IH. tauto.
Qed.

Lemma path_frame h h' a l b :
  path h a l b ->
  (forall q, q ∈ a :: l -> next_of h' q = next_of h q) ->
  (forall q, q ∈ l ++ [b] -> prev_of h' q = prev_of h q) ->
  path h' a l b.
Proof.
  revert a. induction l as [|x l IH]; intros a; simpl.
  - intros [Hn Hp] Fn Fp. split; [rewrite Fn | rewrite Fp]; done || set_solver.
  - intros [[Hn Hp] Hl] Fn Fp. split; [split|].
    + rewrite Fn; [done | set_solver].
    + rewrite Fp; [done | set_solver].
    + apply IH; [done | intros; apply Fn; set_solver | intros; apply Fp; set_solver].
Qed.

Lemma path_next h a l b : path h a l b -> next_of h a = Some (default b (head l)).
Proof. destruct l; simpl; [intros [? _]; done | intros [[? _] _]; done]. Qed.

Lemma path_prev h a l b : path h a l b -> prev_of h b = Some (default a (last l)).
Proof.
  destruct l as [|x l _] using rev_ind; simpl; [intros [_ ?]; done|].
  rewrite path_app, last_snoc. intros [_ [_ ?]]. done.
Qed.

Lemma next_of_mapped h p v : next_of h p = Some v -> is_Some (h !! p).
Proof. unfold next_of. destruct (h !! p); [eauto | done]. Qed.

Lemma path_mapped h a l b q : path h a l b -> q ∈ a :: l -> is_Some (h !! q).
Proof.
  revert a. induction l as [|x l IH]; intros a; simpl.
  - intros [Hn _] ->%list_elem_of_singleton. by eapply next_of_mapped.
  - intros [[Hn _] Hl] [->|Hq]%elem_of_cons; [by eapply next_of_mapped | eauto].
Qed.

Lemma dll_node h head l q : dll h head l -> q ∈ head :: l -> node_at h q.
Proof.
  intros (_ & Hnull & Hp) Hq. split; [intros ->; done|]. by eapply path_mapped.
Qed.

(** Another list that shares no node with the changed ones is untouched. *)
Lemma dll_frame h h' (changed : list Z) head l :
  dll h head l -> (forall q, q ∉ changed -> h' !! q = h !! q) ->
  (forall q, q ∈ head :: l -> q ∉ changed) -> dll h' head l.
Proof.
  intros (Hnd & Hnull & Hp) Hf Hd. split_and!; [done..|].
  eapply path_frame; [done|..]; intros q Hq; unfold next_of, prev_of;
    rewrite Hf; [done | | done |]; apply Hd; set_solver.
Qed.

(** ** The operations on lists *)

(** Decides a goal on the fields of a node after a change of the heap. *)
Ltac field_cases :=
  repeat case_decide; subst; try done; try congruence;
  repeat rewrite ?NoDup_app, ?NoDup_cons in *; set_solver.

Lemma default_last_elem (a : Z) l : default a (last l) ∈ a :: l.
Proof. destruct l as [|z l _] using rev_ind; simpl; [|rewrite last_snoc]; set_solver. Qed.

Lemma default_head_elem (a : Z) l : default a (head l) ∈ a :: l.
Proof. destruct l; set_solver. Qed.

Lemma path_link_tail h h' hd l x :
  path h hd l hd -> NoDup (hd :: l) -> x ∉ hd :: l ->
  linked_between h h' x (default hd (last l)) hd ->
  path h' hd (l ++ [x]) hd.
Proof.
  intros Hp Hnd Hx (Hn & Hv & _). apply path_app.
  assert (x <> default hd (last l)) by (pose proof (default_last_elem hd l); set_solver).
  rewrite not_elem_of_cons in Hx.
  apply NoDup_cons in Hnd as [Hhd Hnd].
  split; [|split; [rewrite Hn | rewrite Hv]; field_cases].
  destruct l as [|z l _] using rev_ind; simpl in *.
  { split; [rewrite Hn | rewrite Hv]; field_cases. }
  rewrite last_snoc in *. simpl in *. apply path_app in Hp as [Hp1 Hp2].
  apply NoDup_app in Hnd as (Hnl & Hnz & _).
  apply path_app. split.
  - eapply path_frame; [exact Hp1|..]; intros q Hq; [rewrite Hn | rewrite Hv];
      field_cases.
  - split; [rewrite Hn | rewrite Hv]; field_cases.
Qed.

Lemma path_link_head h h' hd l x :
  path h hd l hd -> NoDup (hd :: l) -> x ∉ hd :: l ->
  linked_between h h' x hd (default hd (head l)) ->
  path h' hd (x :: l) hd.
Proof.
  intros Hp Hnd Hx (Hn & Hv & _). rewrite not_elem_of_cons in Hx.
  apply NoDup_cons in Hnd as [Hhd Hnd].
  split; [split; [rewrite Hn | rewrite Hv]; field_cases|].
  destruct l as [|y l]; simpl in *.
  { split; [rewrite Hn | rewrite Hv]; field_cases. }
  apply NoDup_cons in Hnd as [Hy Hnd]. destruct Hp as [Hl Hp]. split.
  - split; [rewrite Hn | rewrite Hv]; field_cases.
  - eapply path_frame; [exact Hp|..]; intros q Hq; [rewrite Hn | rewrite Hv];
      field_cases.
Qed.

Lemma path_join h h' a x l q :
  path h x l q -> NoDup (l ++ [q]) -> a ∉ l -> x ∉ a :: l ++ [q] ->
  unlinked_between h h' x a (default q (head l)) -> path h' a l q.
Proof.
  intros Hp Hnd Ha Hx (Hn & Hv & _). destruct l as [|y l]; simpl in *.
  - split; [rewrite Hn | rewrite Hv]; field_cases.
  - destruct Hp as [_ Hp]. split; [split; [rewrite Hn | rewrite Hv]; field_cases|].
    eapply path_frame; [exact Hp|..]; intros r Hr; [rewrite Hn | rewrite Hv]; field_cases.
Qed.

Lemma path_unlink h h' p l1 x l2 q :
  path h p l1 x -> path h x l2 q ->
  NoDup (p :: l1 ++ l2) -> NoDup (l1 ++ l2 ++ [q]) -> x ∉ p :: l1 ++ l2 ++ [q] ->
  unlinked_between h h' x (default p (last l1)) (default q (head l2)) ->
  path h' p (l1 ++ l2) q.
Proof.
  intros H1 H2 Hnp Hnq Hx Hu.
  destruct l1 as [|z l1 _] using rev_ind; simpl.
  - apply NoDup_cons in Hnp as [Hp Hnp].
    eapply path_join; [exact H2| done | done | set_solver | done].
  - rewrite last_snoc in Hu. simpl in *. apply path_app in H1 as [H1 _].
    rewrite <- app_assoc in *. apply path_app. split.
    + pose proof (default_head_elem q l2) as Hb. destruct Hu as (Hn & Hv & _).
      eapply path_frame; [exact H1|..]; intros r Hr; [rewrite Hn | rewrite Hv]; field_cases.
    + eapply path_join; [exact H2 | field_cases.. | done].
Qed.

(** The four operations of the list, on a heap that holds the list [l] at
    [hd].  Each one returns, and its effect outside the list and the node it
    is given is nil. *)

Lemma list_add_tail_dll h hd l x :
  dll h hd l -> node_at h x -> x ∉ hd :: l ->
  exists h', list_add_tail h x hd = Ok h' /\ dll h' hd (l ++ [x]) /\
    (forall q, q ∉ x :: hd :: l -> h' !! q = h !! q) /\
    (forall q, node_at h q -> node_at h' q).
Proof.
  intros Hd Hx Hnx. pose proof (dll_node _ _ _ hd Hd ltac:(set_solver)) as Hh.
  pose proof (default_last_elem hd l) as Hl. destruct (Hd) as (Hnd & Hnull & Hp).
  unfold list_add_tail. destruct (load_at h hd Hh) as (n & -> & Hn). cbn.
  pose proof (path_prev _ _ _ _ Hp) as Hv. unfold prev_of in Hv. rewrite Hn in Hv.
  injection Hv as ->.
  destruct (__list_add_spec h x (default hd (last l)) hd) as (h' & E & Hlk);
    [done | by eapply dll_node | done | set_solver.. |].
  exists h'. split; [exact E|]. destruct Hlk as (?&?&Hf&Hm).
  split_and!; [|intros q Hq; apply Hf; set_solver | done].
  split_and!; [| destruct Hx; set_solver | by eapply path_link_tail].
  rewrite app_comm_cons. apply NoDup_app. split_and!; [done | set_solver | apply NoDup_singleton].
Qed.

Lemma list_add_dll h hd l x :
  dll h hd l -> node_at h x -> x ∉ hd :: l ->
  exists h', list_add h x hd = Ok h' /\ dll h' hd (x :: l) /\
    (forall q, q ∉ x :: hd :: l -> h' !! q = h !! q) /\
    (forall q, node_at h q -> node_at h' q).
Proof.
  intros Hd Hx Hnx. pose proof (dll_node _ _ _ hd Hd ltac:(set_solver)) as Hh.
  pose proof (default_head_elem hd l) as Hl. destruct (Hd) as (Hnd & Hnull & Hp).
  unfold list_add. destruct (load_at h hd Hh) as (n & -> & Hn). cbn.
  pose proof (path_next _ _ _ _ Hp) as Hv. unfold next_of in Hv. rewrite Hn in Hv.
  injection Hv as ->.
  destruct (__list_add_spec h x hd (default hd (head l))) as (h' & E & Hlk);
    [done | done | by eapply dll_node | set_solver.. |].
  exists h'. split; [exact E|]. destruct Hlk as (?&?&Hf&Hm).
  split_and!; [|intros q Hq; apply Hf; set_solver | done].
  split_and!; [| destruct Hx; set_solver | by eapply path_link_head].
  rewrite !NoDup_cons in *. set_solver.
Qed.

Lemma list_del_dll h hd l1 x l2 :
  dll h hd (l1 ++ x :: l2) ->
  exists h', list_del h x = Ok h' /\ dll h' hd (l1 ++ l2) /\
    h' !! x = Some (mk_list_head NULL NULL) /\
    (forall q, q ∉ hd :: l1 ++ x :: l2 -> h' !! q = h !! q) /\
    (forall q, node_at h q -> node_at h' q).
Proof.
  intros Hd. pose proof (dll_node _ _ _ x Hd ltac:(set_solver)) as Hx.
  pose proof (default_last_elem hd l1) as Hl1. pose proof (default_head_elem hd l2) as Hl2.
  destruct (Hd) as (Hnd & Hnull & [Hp1 Hp2]%path_app).
  destruct (list_del_spec h x (default hd (last l1)) (default hd (head l2))) as (h' & E & Hu).
  { done. } { eapply dll_node; [done | set_solver]. } { eapply dll_node; [done | set_solver]. }
  { by apply path_prev. } { by apply path_next. }
  exists h'. split; [exact E|]. assert (Hu' := Hu). destruct Hu' as (Hn & Hv & Hf & Hm).
  split_and!; [| | intros q Hq; apply Hf; set_solver | done].
  - rewrite NoDup_cons, NoDup_app, NoDup_cons in Hnd. split_and!.
    + rewrite NoDup_cons, NoDup_app. set_solver.
    + set_solver.
    + eapply (path_unlink h); [done.. | | | | done].
      * rewrite NoDup_cons, NoDup_app. set_solver.
      * rewrite !NoDup_app. pose proof (NoDup_singleton hd). set_solver.
      * set_solver.
  - specialize (Hn x). specialize (Hv x). rewrite decide_True in Hn, Hv by done.
    unfold next_of, prev_of in *. destruct (h' !! x) as [[]|]; naive_solver.
Qed.

Lemma INIT_LIST_HEAD_dll h hd : node_at h hd -> exists h',
  INIT_LIST_HEAD h hd = Ok h' /\ dll h' hd [] /\
  (forall q, q <> hd -> h' !! q = h !! q).
Proof.
  intros Hh. unfold INIT_LIST_HEAD.
  destruct (store_next_spec h hd hd Hh) as (h1 & -> & N1 & P1 & M1 & F1). cbn.
  destruct (store_prev_spec h1 hd hd) as (h2 & -> & P2 & N2 & M2 & F2); [auto|].
  exists h2. split; [done|]. split; [|intros q Hq; by rewrite F2, F1].
  split_and!; [apply NoDup_singleton | destruct Hh; set_solver |].
  split; [rewrite N2, N1 | rewrite P2]; by rewrite decide_True.
Qed.

Lemma list_empty_dll h hd l :
  dll h hd l -> list_empty h hd = Ok (bool_decide (l = [])).
Proof.
  intros Hd. destruct (load_at h hd (dll_node _ _ _ hd Hd ltac:(set_solver))) as (n & E & Hn).
  destruct Hd as (Hnd & _ & Hp). unfold list_empty. rewrite E. cbn.
  apply path_next in Hp. unfold next_of in Hp. rewrite Hn in Hp. injection Hp as ->.
  destruct l as [|x l]; simpl; [by rewrite Z.eqb_refl|].
  destruct (Z.eqb_spec x hd); [|done]. rewrite NoDup_cons in Hnd. set_solver.
Qed.

(** The successor of a node, as the loops read it. *)
Lemma dll_load_next h hd l1 x l2 : dll h hd (l1 ++ x :: l2) -> exists n,
  load h x = Ok n /\ lh_next n = default hd (head l2).
Proof.
  intros Hd. destruct (load_at h x (dll_node _ _ _ x Hd ltac:(set_solver))) as (n & E & Hn).
  destruct Hd as (_ & _ & [_ Hp]%path_app). apply path_next in Hp.
  unfold next_of in Hp. rewrite Hn in Hp. injection Hp as Hp. eauto.
Qed.

Lemma dll_load_first h hd l : dll h hd l -> exists n,
  load h hd = Ok n /\ lh_next n = default hd (head l).
Proof.
  intros Hd. destruct (load_at h hd (dll_node _ _ _ hd Hd ltac:(set_solver))) as (n & E & Hn).
  destruct Hd as (_ & _ & Hp). apply path_next in Hp.
  unfold next_of in Hp. rewrite Hn in Hp. injection Hp as Hp. eauto.
Qed.

Lemma dll_elem_ne h hd l1 x l2 : dll h hd (l1 ++ x :: l2) -> (x =? hd) = false.
Proof. intros (Hnd & _ & _). apply Z.eqb_neq. intros ->. rewrite NoDup_cons in Hnd. set_solver. Qed.

(** ** The loops *)

Section loops.
Context {S : Type} (heap_of : S -> gmap Z list_head).
Context (body : Z -> S -> outcome (S * bool)) (hd : Z).

(** A body that may change anything, the visited part of the list and the
    node it is called on included, but not the nodes still to visit. *)
Definition keeps_rest : Prop :=
  forall pre x post s s' stop, dll (heap_of s) hd (pre ++ x :: post) ->
    body x s = Ok (s', stop) -> exists pre', dll (heap_of s') hd (pre' ++ post).

(** The value of [n] in the loop when [post] is still to visit after [pos]. *)
Lemma list_for_each_safe_loop_spec fuel pre x post s :
  keeps_rest -> dll (heap_of s) hd (pre ++ x :: post) -> (length post + 1 < fuel)%nat ->
  list_for_each_safe_loop heap_of body fuel x (default hd (head post)) hd s =
  fold_break body (x :: post) s.
Proof.
  intros Hb. revert pre x post s. induction fuel as [|fuel IH]; intros pre x post s Hd Hf; [lia|].
  cbn [list_for_each_safe_loop fold_break]. rewrite (dll_elem_ne _ _ _ _ _ Hd).
  destruct (body x s) as [[s' [|]]|] eqn:E; cbn; [done | | done].
  destruct (Hb _ _ _ _ _ _ Hd E) as [pre' Hd'].
  destruct post as [|y post]; cbn [head from_option id].
  - destruct (dll_load_first _ _ _ Hd') as (n & -> & _).
    destruct fuel; [lia|]. cbn. by rewrite Z.eqb_refl.
  - destruct (dll_load_next _ _ _ _ _ Hd') as (n & -> & Hn). cbn. rewrite Hn.
    apply (IH pre'); [done|]. simpl in *. lia.
Qed.

Lemma list_for_each_safe_spec fuel l s :
  keeps_rest -> dll (heap_of s) hd l -> (length l < fuel)%nat ->
  list_for_each_safe heap_of body fuel hd s = fold_break body l s.
Proof.
  intros Hb Hd Hf. unfold list_for_each_safe.
  destruct (dll_load_first _ _ _ Hd) as (n & E & Hn). rewrite E. cbn. rewrite Hn.
  destruct l as [|x l]; cbn [head from_option id].
  - rewrite E. cbn. destruct fuel; [lia|]. cbn. by rewrite Z.eqb_refl.
  - destruct (dll_load_next _ _ [] _ _ Hd) as (m & -> & Hm). cbn. rewrite Hm.
    apply (list_for_each_safe_loop_spec fuel []); [done..|]. simpl in *. lia.
Qed.

End loops.

Lemma list_for_each_loop_count h hd l1 l2 fuel s :
  dll h hd (l1 ++ l2) -> (length l2 < fuel)%nat ->
  list_for_each_loop fst (fun _ '(h, s) => Ok ((h, swrap32 (s + 1)), false))
    fuel (default hd (head l2)) hd (h, swrap32 s) =
  Ok (h, swrap32 (s + Z.of_nat (length l2))).
Proof.
  revert l1 fuel s. induction l2 as [|x l2 IH]; intros l1 fuel s Hd Hf;
    (destruct fuel as [|fuel]; [simpl in Hf; lia|]); cbn [head from_option id list_for_each_loop].
  - rewrite Z.eqb_refl. simpl. by rewrite Z.add_0_r.
  - rewrite (dll_elem_ne _ _ _ _ _ Hd). cbn.
    destruct (dll_load_next _ _ _ _ _ Hd) as (n & -> & Hn). cbn. rewrite Hn.
    replace (swrap32 (swrap32 s + 1)) with (swrap32 (s + 1)) by word_lia.
    rewrite (IH (l1 ++ [x])); [do 3 f_equal; lia | by rewrite <- app_assoc | simpl in Hf; lia].
Qed.

(** A heap with two lists, [1 : 2; 3] and [5 : 6], for the examples. *)
Definition two_lists : gmap Z list_head :=
  list_to_map [(1, mk_list_head 3 2); (2, mk_list_head 1 3); (3, mk_list_head 2 1);
               (5, mk_list_head 6 6); (6, mk_list_head 5 5)].

Lemma two_lists_fst : dll two_lists 1 [2; 3].
Proof. split_and!; [| set_solver by done | by vm_compute]. repeat constructor; set_solver. Qed.

Lemma two_lists_snd : dll two_lists 5 [6].
Proof. split_and!; [| set_solver by done | by vm_compute]. repeat constructor; set_solver. Qed.

(** Moving a node to the tail of another queue by [list_del] followed by
    [list_add_tail], which is how the helper changes the state of a request,
    never faults; it removes exactly that node from the first list, puts it
    last in the second one, and changes no node outside these two lists. *)
Theorem list_move_tail_refines h src dst l1 x l2 l :
  dll h src (l1 ++ x :: l2) -> dll h dst l ->
  (forall q, q ∈ src :: l1 ++ x :: l2 -> q ∉ dst :: l) ->
  exists h1 h2, list_del h x = Ok h1 /\ list_add_tail h1 x dst = Ok h2 /\
    dll h2 src (l1 ++ l2) /\ dll h2 dst (l ++ [x]) /\
    (forall q, q ∉ src :: l1 ++ x :: l2 -> q ∉ dst :: l -> h2 !! q = h !! q).
Proof.
  intros Hs Ht Hdisj. pose proof (dll_node _ _ _ x Hs ltac:(set_solver)) as Hx.
  destruct (list_del_dll _ _ _ _ _ Hs) as (h1 & E1 & Hs1 & _ & F1 & M1).
  assert (Ht1 : dll h1 dst l).
  { eapply (dll_frame h h1 (src :: l1 ++ x :: l2)); [done | done | set_solver]. }
  destruct (list_add_tail_dll h1 dst l x) as (h2 & E2 & Ht2 & F2 & M2); [set_solver..|].
  exists h1, h2. split_and!; [done.. | | done |].
  - eapply (dll_frame h1 h2 (x :: dst :: l)); [done | done |].
    destruct Hs as (Hnd & _ & _). rewrite NoDup_cons, NoDup_app, NoDup_cons in Hnd. set_solver.
  - intros q Hq1 Hq2. rewrite F2, F1; set_solver.
Qed.

Lemma list_move_tail_refines_witness :
  dll two_lists 1 [2; 3] /\ exists h1 h2, list_del two_lists 2 = Ok h1 /\
    list_add_tail h1 2 5 = Ok h2 /\ dll h2 1 [3] /\ dll h2 5 [6; 2].
Proof.
  split; [apply two_lists_fst|].
  destruct (list_move_tail_refines two_lists 1 5 [] 2 [3] [6]) as (h1 & h2 & ?&?&?&?&_);
    [apply two_lists_fst | apply two_lists_snd | set_solver by done | eauto 10].
Defined.

(** C31: [list_for_each_safe] over a list of [l] nodes terminates after at most
    [length l] rounds and runs its body on exactly the nodes of [l], in order
    and until the body asks to leave, even when the body unlinks or moves
    the node it is called on; it is enough that the body leaves the nodes
    still to visit linked. *)
Theorem list_for_each_safe_visits {S} (heap_of : S -> gmap Z list_head) body hd l s fuel :
  keeps_rest heap_of body hd -> dll (heap_of s) hd l -> (length l < fuel)%nat ->
  list_for_each_safe heap_of body fuel hd s = fold_break body l s.
Proof. apply list_for_each_safe_spec. Qed.

Lemma list_for_each_safe_visits_witness :
  exists h', list_for_each_safe id (fun x h => h ← list_del h x; Ok (h, false)) 3 1 two_lists =
             Ok h' /\ list_empty h' 1 = Ok true.
Proof.
  eexists. split.
  - rewrite (list_for_each_safe_visits id _ 1 [2; 3]); [by vm_compute | | apply two_lists_fst | simpl; lia].
    intros pre x post s s' stop Hd E. destruct (list_del_dll _ _ _ _ _ Hd) as (h' & E' & Hd' & _).
    unfold id in *. simpl in E. rewrite E' in E. cbn in E. injection E as <- _. by exists pre.
  - by vm_compute.
Defined.

(** [list_size] terminates on every well-formed list and returns its
    length as an [int]. *)
Theorem list_size_correct h hd l fuel :
  dll h hd l -> (length l < fuel)%nat ->
  list_size h fuel hd = Ok (swrap32 (Z.of_nat (length l))).
Proof.
  intros Hd Hf. unfold list_size, list_for_each. cbn [fst].
  destruct (dll_load_first _ _ _ Hd) as (n & -> & Hn). cbn. rewrite Hn.
  change 0 with (swrap32 0). by rewrite (list_for_each_loop_count _ _ []).
Qed.

Lemma list_size_correct_witness : list_size two_lists 3 1 = Ok 2.
Proof. rewrite (list_size_correct _ _ [2; 3]); [done | apply two_lists_fst | simpl; lia]. Defined.

(** A node that was taken off its list has NULL links, so deleting it a
    second time dereferences NULL instead of silently corrupting the list. *)
Theorem list_del_twice_faults h hd l1 x l2 :
  dll h hd (l1 ++ x :: l2) ->
  exists h', list_del h x = Ok h' /\ list_del h' x = Fault NullDeref.
Proof.
  intros Hd. pose proof (dll_node _ _ _ x Hd ltac:(set_solver)) as [Hx _].
  destruct (list_del_dll _ _ _ _ _ Hd) as (h' & E & _ & Hh' & _).
  exists h'. split; [done|]. unfold list_del. by rewrite (load_ok h' x _ Hx Hh').
Qed.

Lemma list_del_twice_faults_witness :
  exists h', list_del two_lists 2 = Ok h' /\ list_del h' 2 = Fault NullDeref.
Proof. apply (list_del_twice_faults _ 1 [] 2 [3]), two_lists_fst. Defined.
