(* ===== verification/Ranges.v ===== *)
(** * Merging the ranges to pin: [__merge_2ranges] and [__merge_ranges]
      (src/kgpu/src/gpuSpace/openCLOperations.c)

    Up to three ranges of user memory (the input, output and data buffers of
    a request) are rounded to pages and merged where they overlap or touch,
    so that no page is pinned twice.  Arrays of three [unsigned long] are
    lists of length three; addition wraps at 64 bits as in the code. *)

From S2P Require Import Prelude KgpuDefs.

Definition max (a b : Z) : Z := if b <? a then a else b.

(** The result of a merge that succeeds is the pair the code stores through
    its two pointers; [None] is the return value 0, which stores nothing. *)
Definition __merge_2ranges (r1 s1 r2 s2 : Z) : option (Z * Z) :=
  if r1 <? r2 then
    if r2 <=? r1 +64 s1 then Some (r1, max (r1 +64 s1) (r2 +64 s2) -64 r1)
    else None
  else if r1 =? r2 then Some (r1, max s1 s2)
  else
    if r1 <=? r2 +64 s2 then Some (r2, max (r1 +64 s1) (r2 +64 s2) -64 r2)
    else None.

(** [__merge_2ranges(ad[i], sz[i], ad[j], sz[j], &ad[k], &sz[k])] *)
Definition merge_at (i j k : nat) (a : list Z * list Z) : option (list Z * list Z) :=
  let '(ad, sz) := a in
  match __merge_2ranges (ad !!! i) (sz !!! i) (ad !!! j) (sz !!! j) with
  | Some (e, s) => Some (<[k := e]> ad, <[k := s]> sz)
  | None => None
  end.

(** The loop that rounds the first [n] entries. *)
Definition round_ranges (a : list Z * list Z) (n : Z) : list Z * list Z :=
  (imap (fun i x => if Z.of_nat i <? n then round_down x PAGE_SIZE else x) a.1,
   imap (fun i x => if Z.of_nat i <? n then round_up x PAGE_SIZE else x) a.2).

Definition __merge_ranges (ad sz : list Z) (n : Z) : (list Z * list Z) * Z :=
  let a := round_ranges (ad, sz) n in
  if n =? 0 then (a, 0)
  else if n =? 1 then (a, 1)
  else if n =? 2 then
    match merge_at 0 1 0 a with
    | Some a => (a, 1)
    | None => (a, 2)
    end
  else if n =? 3 then
    match merge_at 0 1 0 a with
    | Some a =>
        match merge_at 0 2 0 a with
        | Some a => (a, 1)
        | None => let '(ad, sz) := a in
                  ((<[1%nat := ad !!! 2%nat]> ad, <[1%nat := sz !!! 2%nat]> sz), 2)
        end
    | None =>
        match merge_at 0 2 0 a with
        | Some a =>
            match merge_at 0 1 0 a with
            | Some a => (a, 1)
            | None => (a, 2)
            end
        | None =>
            match merge_at 2 1 1 a with
            | Some a =>
                match merge_at 0 1 0 a with
                | Some a => (a, 1)
                | None => (a, 2)
                end
            | None => (a, 3)
            end
        end
    end
  else (a, 0).

(** ** Specification *)

(** The bytes of the first [k] ranges. *)
Definition covered (a : list Z * list Z) (k : Z) (x : Z) : Prop :=
  exists i : nat, Z.of_nat i < k /\ a.1 !!! i <= x < a.1 !!! i + a.2 !!! i.

(** No two of the first [k] ranges overlap or touch. *)
Definition separated (a : list Z * list Z) (k : Z) : Prop :=
  forall i j : nat, Z.of_nat i < k -> Z.of_nat j < k -> i <> j ->
    a.1 !!! i + a.2 !!! i < a.1 !!! j \/ a.1 !!! j + a.2 !!! j < a.1 !!! i.

(** A range that does not wrap. *)
Definition range_ok (r s : Z) : Prop := 0 <= r /\ 0 <= s /\ r + s < 2 ^ 64.

(** ** Lemmas *)

Lemma or_both (A B C D : Prop) : (A <-> C) -> (B <-> D) -> (A \/ B <-> C \/ D).
Proof. tauto. Qed.

Lemma and_l (A B C : Prop) : (A -> (B <-> C)) -> (A /\ B <-> A /\ C).
Proof. tauto. Qed.

Lemma __merge_2ranges_spec r1 s1 r2 s2 :
  range_ok r1 s1 -> range_ok r2 s2 ->
  match __merge_2ranges r1 s1 r2 s2 with
  | Some (e, s) =>
      range_ok e s /\
      (forall x, e <= x < e + s <-> r1 <= x < r1 + s1 \/ r2 <= x < r2 + s2)
  | None => r1 + s1 < r2 \/ r2 + s2 < r1
  end.
Proof.
  intros (?&?&?) (?&?&?). unfold __merge_2ranges, max, range_ok.
  rewrite !(wrap64_id (_ + _)) by (unfold u64_range; lia).
  repeat case_bool; simpl; rewrite ?wrap64_id by (unfold u64_range; lia); try lia;
    (split; [lia | intros x; lia]).
Qed.

Lemma covered_3 a0 a1 a2 s0 s1 s2 k x : k <= 3 ->
  covered ([a0; a1; a2], [s0; s1; s2]) k x <->
  (0 < k /\ a0 <= x < a0 + s0) \/ (1 < k /\ a1 <= x < a1 + s1) \/ (2 < k /\ a2 <= x < a2 + s2).
Proof.
  intros Hk. unfold covered. simpl. split.
  - intros (i & Hi & Hx). destruct i as [|[|[|i]]]; simpl in *; lia.
  - intros [[]|[[]|[]]]; [exists 0%nat | exists 1%nat | exists 2%nat]; simpl; lia.
Qed.

Lemma separated_3 a0 a1 a2 s0 s1 s2 k : k <= 3 ->
  (1 < k -> a0 + s0 < a1 \/ a1 + s1 < a0) ->
  (2 < k -> a0 + s0 < a2 \/ a2 + s2 < a0) ->
  (2 < k -> a1 + s1 < a2 \/ a2 + s2 < a1) ->
  separated ([a0; a1; a2], [s0; s1; s2]) k.
Proof.
  intros Hk H01 H02 H12 i j Hi Hj Hij.
  destruct i as [|[|[|i]]], j as [|[|[|j]]]; simpl in *; lia.
Qed.

(** What a merge of three rounded ranges promises about its result. *)
Definition merge_result (a0 a1 a2 s0 s1 s2 n : Z) (r : (list Z * list Z) * Z) : Prop :=
  Z.min 1 n <= r.2 <= n /\ separated r.1 r.2 /\
  forall x, covered r.1 r.2 x <-> covered ([a0; a1; a2], [s0; s1; s2]) n x.

(** Destructs the merge of two ranges and records what it computed. *)
Ltac merge_case :=
  match goal with
  | |- context [__merge_2ranges ?r1 ?s1 ?r2 ?s2] =>
      let H := fresh "Hm" in
      pose proof (__merge_2ranges_spec r1 s1 r2 s2) as H;
      destruct (__merge_2ranges r1 s1 r2 s2) as [[? ?]|];
      specialize (H ltac:(tauto) ltac:(tauto)); simpl
  end.

(** Closes a leaf: at most three ranges, whose bounds are in the context. *)
Ltac merge_leaf :=
  split_and!; simpl; [lia | lia | apply separated_3; lia |];
  let x := fresh "x" in intros x;
  repeat match goal with H : _ /\ (forall y, _ <= y < _ <-> _) |- _ =>
    destruct H as [? H]; specialize (H x) end;
  rewrite !covered_3 by lia; lia.

Lemma __merge_ranges_rounded ad sz n a0 a1 a2 s0 s1 s2 :
  0 <= n <= 3 ->
  round_ranges (ad, sz) n = ([a0; a1; a2], [s0; s1; s2]) ->
  (0 < n -> range_ok a0 s0) -> (1 < n -> range_ok a1 s1) -> (2 < n -> range_ok a2 s2) ->
  merge_result a0 a1 a2 s0 s1 s2 n (__merge_ranges ad sz n).
Proof.
  intros Hn Hr H0 H1 H2. unfold __merge_ranges. rewrite Hr. unfold merge_result.
  assert (n = 0 \/ n = 1 \/ n = 2 \/ n = 3) as [-> | [-> | [-> | ->]]] by lia; simpl;
    repeat match goal with H : ?a < ?b -> _ |- _ =>
      first [specialize (H ltac:(lia)) | clear H] end;
    repeat merge_case; merge_leaf.
Qed.

(** A range of user memory that stays inside the address space when it is
    rounded to pages. *)
Definition raw_range_ok (a s : Z) : Prop := 0 <= a /\ 0 <= s /\ a + s + PAGE_SIZE < 2 ^ 64.

Lemma rounded_range_ok a s :
  raw_range_ok a s -> range_ok (round_down a PAGE_SIZE) (round_up s PAGE_SIZE).
Proof.
  unfold raw_range_ok, PAGE_SIZE. intros (?&?&?).
  rewrite round_down_page, round_up_page by (unfold u64_range; lia).
  unfold range_ok. word_lia.
Qed.

Lemma round_ranges_3 a0 a1 a2 s0 s1 s2 n :
  round_ranges ([a0; a1; a2], [s0; s1; s2]) n =
  ([if 0 <? n then round_down a0 PAGE_SIZE else a0;
    if 1 <? n then round_down a1 PAGE_SIZE else a1;
    if 2 <? n then round_down a2 PAGE_SIZE else a2],
   [if 0 <? n then round_up s0 PAGE_SIZE else s0;
    if 1 <? n then round_up s1 PAGE_SIZE else s1;
    if 2 <? n then round_up s2 PAGE_SIZE else s2]).
Proof. reflexivity. Qed.

(** The pages of a buffer of [s] bytes at [a] as the code counts them: from
    the first byte's page, one page for each started 4096 bytes of the size. *)
Definition page_span (a s x : Z) : Prop :=
  a / 4096 * 4096 <= x < a / 4096 * 4096 + (s + 4095) / 4096 * 4096.

Lemma rounded_page_span a s x : raw_range_ok a s ->
  round_down a PAGE_SIZE <= x < round_down a PAGE_SIZE + round_up s PAGE_SIZE <-> page_span a s x.
Proof.
  unfold raw_range_ok, PAGE_SIZE. intros (?&?&?).
  rewrite round_down_page, round_up_page by (unfold u64_range; lia). done.
Qed.

(** C32: for up to three ranges that do not wrap around the address space,
    [__merge_ranges] returns between one and [n] ranges (none for [n = 0]);
    the bytes they cover are exactly those of the input ranges after each was
    rounded: its start down to a multiple of 4096, its size up to one.  No two
    of the ranges returned overlap or touch, so that no page is pinned twice.
    (When an unaligned buffer ends on one page more than its rounded size
    has, that last page is not covered: [pinned_in_full_iff].) *)
Theorem merge_ranges_exact a0 a1 a2 s0 s1 s2 n :
  0 <= n <= 3 -> (0 < n -> raw_range_ok a0 s0) -> (1 < n -> raw_range_ok a1 s1) ->
  (2 < n -> raw_range_ok a2 s2) ->
  let '(r, k) := __merge_ranges [a0; a1; a2] [s0; s1; s2] n in
  Z.min 1 n <= k <= n /\ separated r k /\
  forall x, covered r k x <->
    (0 < n /\ page_span a0 s0 x) \/ (1 < n /\ page_span a1 s1 x) \/ (2 < n /\ page_span a2 s2 x).
Proof.
  intros Hn H0 H1 H2.
  pose proof (__merge_ranges_rounded _ _ n _ _ _ _ _ _ Hn (round_ranges_3 a0 a1 a2 s0 s1 s2 n)) as H.
  destruct (__merge_ranges _ _ _) as [r k].
  destruct H as (Hk & Hs & Hc); [intros Hlt;
    repeat (case_bool; [|lia]); apply rounded_range_ok; auto..|].
  split; [exact Hk|]. split; [exact Hs|]. intros x. simpl in Hc. rewrite Hc, covered_3 by lia.
  apply or_both; [|apply or_both]; apply and_l; intros Hlt;
    repeat (case_bool; [|lia]); apply rounded_page_span; auto.
Qed.

(** Three buffers on adjacent pages become one range of three pages. *)
Lemma merge_ranges_exact_witness :
  exists r, __merge_ranges [8192; 100; 4096] [10; 1; 4096] 3 = (r, 1) /\ separated r 1 /\
    covered r 1 12287 /\ ~ covered r 1 12288.
Proof.
  pose proof (merge_ranges_exact 8192 100 4096 10 1 4096 3) as H.
  eexists. split; [reflexivity|].
  specialize (H ltac:(lia)). unfold raw_range_ok in H.
  specialize (H ltac:(unfold PAGE_SIZE; lia) ltac:(unfold PAGE_SIZE; lia) ltac:(unfold PAGE_SIZE; lia)).
  vm_compute __merge_ranges in H.
  destruct H as (_ & Hs & Hc). split; [exact Hs|]. rewrite !Hc.
  split; [left; vm_compute; intuition congruence|].
  intros [[_ Hx]|[[_ Hx]|[_ Hx]]]; vm_compute in Hx; intuition congruence.
Defined.

(** C40: for one buffer of [s] bytes at [a], [__merge_ranges] returns the one
    range that starts at the buffer's first page and has as many pages as the
    size fills, rounded up; every byte of the buffer is in it exactly when
    the buffer does not touch more pages than that, as an unaligned buffer
    can. *)
Theorem pinned_in_full_iff a a1 a2 s s1 s2 :
  raw_range_ok a s -> 0 < s ->
  exists r, __merge_ranges [a; a1; a2] [s; s1; s2] 1 = (r, 1) /\
    r.1 !!! 0%nat = a / 4096 * 4096 /\ r.2 !!! 0%nat = (s + 4095) / 4096 * 4096 /\
    ((forall x, a <= x < a + s -> covered r 1 x) <->
     (a + s - 1) / 4096 - a / 4096 + 1 <= (s + 4095) / 4096).
Proof.
  unfold raw_range_ok. intros (?&?&?) Hs. eexists. split; [reflexivity|].
  unfold PAGE_SIZE in *. simpl.
  rewrite round_down_page, round_up_page by (unfold u64_range; lia).
  split; [done|]. split; [done|]. unfold covered. split.
  - intros Hx. destruct (Hx (a + s - 1) ltac:(lia)) as ([|i] & Hi & Hc); [|lia].
    simpl in Hc. rewrite round_down_page, round_up_page in Hc by (unfold u64_range; lia). word_lia.
  - intros Hp x Hx. exists 0%nat. simpl.
    rewrite round_down_page, round_up_page by (unfold u64_range; lia). word_lia.
Qed.

(** At offset 4095 a buffer of two bytes is on two pages and one is pinned. *)
Lemma pinned_in_full_iff_witness :
  exists r, __merge_ranges [8191; 0; 0] [2; 0; 0] 1 = (r, 1) /\
    ~ (forall x, 8191 <= x < 8193 -> covered r 1 x).
Proof.
  destruct (pinned_in_full_iff 8191 0 0 2 0 0) as (r & E & _ & _ & H);
    [unfold raw_range_ok, PAGE_SIZE; lia | lia |].
  exists r. split; [exact E|]. rewrite H. vm_compute. intuition congruence.
Defined.
