(* ===== verification/CudaRanges.v ===== *)
(** * Merging the ranges to pin in the CUDA back end
      (src/kgpu/src/gpuSpace/cudaOperations.cu)

    The CUDA file has its own copies of [__merge_2ranges] and
    [__merge_ranges].  Here they are statement by statement: every access of
    the arrays [ad] and [sz] is checked against their length, and the results
    are stored through the pointers [&ad[e]] and [&sz[s]].  For the arrays of
    three entries that both callers have, no access is out of bounds and the
    result is the one of the functions of Ranges. *)

From S2P Require Import Prelude KgpuDefs Ranges.

(** The macro [max] of the file. *)
Definition cuda_max (a b : Z) : Z := if b <? a then a else b.

(** The two arrays and the value a function returns. *)
Definition arrays_ret : Type := list Z * list Z * Z.

(** [*e = a; *s = b; return 1] with [e] and [s] pointing at entry [k]. *)
Definition store_range (k a b : Z) (ad sz : list Z) : outcome arrays_ret :=
  ad ← array_set ad k a;
  sz ← array_set sz k b;
  mret (ad, sz, 1).

Definition cuda_merge_2ranges (r1 s1 r2 s2 k : Z) (ad sz : list Z) : outcome arrays_ret :=
  if r1 <? r2 then
    if r2 <=? r1 +64 s1 then store_range k r1 (cuda_max (r1 +64 s1) (r2 +64 s2) -64 r1) ad sz
    else mret (ad, sz, 0)
  else if r1 =? r2 then store_range k r1 (cuda_max s1 s2) ad sz
  else
    if r1 <=? r2 +64 s2 then store_range k r2 (cuda_max (r1 +64 s1) (r2 +64 s2) -64 r2) ad sz
    else mret (ad, sz, 0).

(** [__merge_2ranges(ad[i], sz[i], ad[j], sz[j], &ad[k], &sz[k])] *)
Definition merge_entries (i j k : Z) (ad sz : list Z) : outcome arrays_ret :=
  r1 ← array_get ad i;
  s1 ← array_get sz i;
  r2 ← array_get ad j;
  s2 ← array_get sz j;
  cuda_merge_2ranges r1 s1 r2 s2 k ad sz.

(** The loop that rounds the entries from [i] on, with [k] rounds left. *)
Fixpoint round_entries (k : nat) (i : Z) (ad sz : list Z) : outcome (list Z * list Z) :=
  match k with
  | O => mret (ad, sz)
  | S k =>
      a ← array_get ad i;
      ad ← array_set ad i (round_down a PAGE_SIZE);
      s ← array_get sz i;
      sz ← array_set sz i (round_up s PAGE_SIZE);
      round_entries k (i + 1) ad sz
  end.

Definition cuda_merge_ranges (ad sz : list Z) (n : Z) : outcome arrays_ret :=
  '(ad, sz) ← round_entries (Z.to_nat n) 0 ad sz;
  if n =? 0 then mret (ad, sz, 0)
  else if n =? 1 then mret (ad, sz, 1)
  else if n =? 2 then
    '(ad, sz, r) ← merge_entries 0 1 0 ad sz;
    if truth r then mret (ad, sz, 1) else mret (ad, sz, 2)
  else if n =? 3 then
    '(ad, sz, r) ← merge_entries 0 1 0 ad sz;
    if truth r then
      '(ad, sz, r) ← merge_entries 0 2 0 ad sz;
      if truth r then mret (ad, sz, 1)
      else
        a ← array_get ad 2;
        ad ← array_set ad 1 a;
        s ← array_get sz 2;
        sz ← array_set sz 1 s;
        mret (ad, sz, 2)
    else
      '(ad, sz, r) ← merge_entries 0 2 0 ad sz;
      if truth r then
        '(ad, sz, r) ← merge_entries 0 1 0 ad sz;
        if truth r then mret (ad, sz, 1) else mret (ad, sz, 2)
      else
        '(ad, sz, r) ← merge_entries 2 1 1 ad sz;
        if truth r then
          '(ad, sz, r) ← merge_entries 0 1 0 ad sz;
          if truth r then mret (ad, sz, 1) else mret (ad, sz, 2)
        else mret (ad, sz, 3)
  else mret (ad, sz, 0).

(** ** Equivalence with the functions of Ranges *)

(** What a merge into entry [k] leaves, by the value of [merge_at]. *)
Definition stored (a : list Z * list Z) (m : option (list Z * list Z)) : arrays_ret :=
  match m with Some b => (b, 1) | None => (a, 0) end.

Definition three (a : list Z * list Z) : Prop := length a.1 = 3%nat /\ length a.2 = 3%nat.

Lemma array_get_3 (l : list Z) (i : nat) :
  length l = 3%nat -> (i < 3)%nat -> array_get l (Z.of_nat i) = Ok (l !!! i).
Proof.
  intros Hl Hi. apply array_get_ok; [lia|]. rewrite Nat2Z.id. apply list_lookup_lookup_total_lt. lia.
Qed.

Lemma array_set_3 (l : list Z) (i : nat) x :
  length l = 3%nat -> (i < 3)%nat -> array_set l (Z.of_nat i) x = Ok (<[i := x]> l).
Proof. intros Hl Hi. rewrite array_set_ok by lia. by rewrite Nat2Z.id. Qed.

Lemma merge_entries_3 (i j k : nat) a :
  three a -> (i < 3)%nat -> (j < 3)%nat -> (k < 3)%nat ->
  merge_entries (Z.of_nat i) (Z.of_nat j) (Z.of_nat k) a.1 a.2 = Ok (stored a (merge_at i j k a)).
Proof.
  destruct a as [ad sz]. intros [Ha Hs] Hi Hj Hk. simpl in Ha, Hs. unfold merge_entries, merge_at.
  cbn [fst snd]. rewrite !array_get_3 by done. cbn [mbind outcome_bind].
  unfold cuda_merge_2ranges, __merge_2ranges, store_range. change cuda_max with max.
  rewrite !array_set_3 by done. cbn [mbind outcome_bind]. by repeat case_match; simplify_eq.
Qed.

Lemma merge_at_three i j k a b : three a -> merge_at i j k a = Some b -> three b.
Proof.
  destruct a as [ad sz]. unfold three, merge_at. intros [Ha Hs] E.
  destruct (__merge_2ranges _ _ _ _) as [[e s]|]; simplify_eq. simpl. by rewrite !length_insert.
Qed.

Lemma round_entries_3 a0 a1 a2 s0 s1 s2 n :
  0 <= n <= 3 ->
  round_entries (Z.to_nat n) 0 [a0; a1; a2] [s0; s1; s2] =
  Ok (round_ranges ([a0; a1; a2], [s0; s1; s2]) n).
Proof. intros Hn. by assert (n = 0 \/ n = 1 \/ n = 2 \/ n = 3) as [-> | [-> | [-> | ->]]] by lia. Qed.

(** The next merge of the CUDA function is the next one of [__merge_ranges]. *)
Lemma merge_step (i j k : nat) ad sz (f : arrays_ret -> outcome arrays_ret) (r1 : list Z * list Z -> arrays_ret) r2 :
  three (ad, sz) -> (i < 3)%nat -> (j < 3)%nat -> (k < 3)%nat ->
  (forall ad' sz', three (ad', sz') -> f (ad', sz', 1) = Ok (r1 (ad', sz'))) ->
  f (ad, sz, 0) = Ok r2 ->
  (r ← merge_entries (Z.of_nat i) (Z.of_nat j) (Z.of_nat k) ad sz; f r) =
  Ok (match merge_at i j k (ad, sz) with Some a => r1 a | None => r2 end).
Proof.
  intros Ha Hi Hj Hk H1 H2. pose proof (merge_entries_3 i j k (ad, sz) Ha Hi Hj Hk) as E.
  cbn [fst snd] in E. rewrite E. cbn [mbind outcome_bind]. unfold stored.
  destruct (merge_at i j k (ad, sz)) as [[ad' sz']|] eqn:Em; [|done].
  apply H1. by eapply merge_at_three.
Qed.

Ltac merge_step i j k :=
  apply (merge_step i j k); [assumption | lia | lia | lia | intros; cbn [truth] | cbn [truth]].

(** [ad[1] = ad[2]; sz[1] = sz[2]; return 2] *)
Lemma copy_entry ad sz :
  three (ad, sz) ->
  (a ← array_get ad 2; ad ← array_set ad 1 a; s ← array_get sz 2; sz ← array_set sz 1 s; mret (ad, sz, 2)) =
  Ok ((<[1%nat := ad !!! 2%nat]> ad, <[1%nat := sz !!! 2%nat]> sz), 2).
Proof.
  intros [Ha Hs]. simpl in Ha, Hs.
  destruct ad as [|a0 [|a1 [|a2 []]]]; try discriminate Ha.
  by destruct sz as [|s0 [|s1 [|s2 []]]]; try discriminate Hs.
Qed.

(** For arrays of three entries, of which up to three are in use, the CUDA
    function makes no access outside of the arrays and computes what
    [__merge_ranges] of the OpenCL file does. *)
Lemma cuda_merge_ranges_eq ad sz n :
  three (ad, sz) -> 0 <= n <= 3 -> cuda_merge_ranges ad sz n = Ok (__merge_ranges ad sz n).
Proof.
  intros [Ha Hs] Hn. simpl in Ha, Hs.
  destruct ad as [|a0 [|a1 [|a2 []]]]; try discriminate Ha.
  destruct sz as [|s0 [|s1 [|s2 []]]]; try discriminate Hs.
  unfold cuda_merge_ranges, __merge_ranges. rewrite round_entries_3 by done.
  assert (Hr : three (round_ranges ([a0; a1; a2], [s0; s1; s2]) n)) by done.
  destruct (round_ranges _ n) as [rd rz]. cbn [mbind outcome_bind].
  assert (n = 0 \/ n = 1 \/ n = 2 \/ n = 3) as [-> | [-> | [-> | ->]]] by lia; try reflexivity.
  - merge_step 0%nat 1%nat 0%nat; reflexivity.
  - merge_step 0%nat 1%nat 0%nat.
    + merge_step 0%nat 2%nat 0%nat; [reflexivity|]. by apply copy_entry.
    + merge_step 0%nat 2%nat 0%nat.
      * merge_step 0%nat 1%nat 0%nat; reflexivity.
      * merge_step 2%nat 1%nat 1%nat; [|reflexivity]. merge_step 0%nat 1%nat 0%nat; reflexivity.
Qed.
