(* ===== verification/UnitAlloc.v ===== *)
(** * Allocation of contiguous units with a bitmap

    The GPU memory pool (units of 1 MB) and the mmap area (pages) of the
    kernel module are managed in the same way: a Linux bitmap has a bit per
    unit, and [alloc_sz[i]] is the length of the block that starts at unit
    [i], or 0.  This file holds what the two share: the interface of the
    kernel's bitmap functions, which are not part of this repository and are
    therefore a parameter; the invariant that ties the bitmap to [alloc_sz];
    and an abstract first-fit allocator, a finite map from the start of a
    block to its length, that both components are proved to implement. *)

From S2P Require Import Prelude.

(** ** The bitmap functions of the Linux kernel (lib/bitmap.c) *)

Definition test_bit (bm : list bool) (i : Z) : bool := default false (bm !! Z.to_nat i).

(** The [nr] bits from [i] on are zero. *)
Definition area_free (bm : list bool) (i nr : Z) : Prop :=
  forall j, i <= j < i + nr -> test_bit bm j = false.

Class BitmapLib : Type := {
  bitmap_find_next_zero_area : list bool -> Z -> Z -> Z -> Z -> Z;
  bitmap_set : list bool -> Z -> Z -> list bool;
  bitmap_clear : list bool -> Z -> Z -> list bool;
  bitmap_zero : list bool -> Z -> list bool
}.

(** Their documented behaviour, for the arguments the driver passes (no
    alignment, an area inside the bitmap).  The search returns the first area
    at or after [start] that is free and ends within [size]; when there is
    none the result is not below [size]. *)
Class BitmapLaws (L : BitmapLib) : Prop := {
  find_sound : forall bm size start nr,
    0 <= start -> 0 <= nr -> size <= Z.of_nat (length bm) ->
    let r := bitmap_find_next_zero_area bm size start nr 0 in
    start <= r /\ (r < size -> r + nr <= size /\ area_free bm r nr);
  find_first : forall bm size start nr i,
    0 <= start -> 0 < nr -> size <= Z.of_nat (length bm) ->
    start <= i -> i + nr <= size -> area_free bm i nr ->
    bitmap_find_next_zero_area bm size start nr 0 <= i;
  set_bits : forall bm start nr j,
    0 <= start -> 0 <= nr -> start + nr <= Z.of_nat (length bm) -> 0 <= j ->
    test_bit (bitmap_set bm start nr) j =
    bool_decide (start <= j < start + nr) || test_bit bm j;
  set_length : forall bm start nr,
    length (bitmap_set bm start nr) = length bm;
  clear_bits : forall bm start nr j,
    0 <= start -> 0 <= nr -> start + nr <= Z.of_nat (length bm) -> 0 <= j ->
    test_bit (bitmap_clear bm start nr) j =
    negb (bool_decide (start <= j < start + nr)) && test_bit bm j;
  clear_length : forall bm start nr,
    length (bitmap_clear bm start nr) = length bm;
  zero_bits : forall bm nbits j,
    0 <= nbits <= Z.of_nat (length bm) -> 0 <= j < nbits ->
    test_bit (bitmap_zero bm nbits) j = false;
  zero_length : forall bm nbits, length (bitmap_zero bm nbits) = length bm
}.

(** ** A reference implementation, to run the model *)

Definition area_freeb (bm : list bool) (i nr : nat) : bool :=
  forallb (fun j => negb (default false (bm !! j))) (seq i nr).

Definition ref_find (bm : list bool) (size start nr align_mask : Z) : Z :=
  match list_find (fun i => Is_true (area_freeb bm i (Z.to_nat nr) && (Z.of_nat i + nr <=? size)))
          (seq (Z.to_nat start) (Z.to_nat (size - start))) with
  | Some (_, i) => Z.of_nat i
  | None => Z.max start size
  end.

Definition ref_fill (v : bool) (bm : list bool) (start nr : Z) : list bool :=
  imap (fun i b => if bool_decide (start <= Z.of_nat i < start + nr) then v else b) bm.

#[global] Instance ref_bitmap : BitmapLib := {|
  bitmap_find_next_zero_area := ref_find;
  bitmap_set := ref_fill true;
  bitmap_clear := ref_fill false;
  bitmap_zero bm nbits := ref_fill false bm 0 nbits
|}.

Lemma ref_fill_bits v bm start nr j :
  0 <= j < Z.of_nat (length bm) ->
  test_bit (ref_fill v bm start nr) j =
  if bool_decide (start <= j < start + nr) then v else test_bit bm j.
Proof.
  intros Hj. unfold test_bit, ref_fill. rewrite list_lookup_imap.
  destruct (lookup_lt_is_Some_2 bm (Z.to_nat j)) as [b Hb]; [lia|]. rewrite Hb. simpl.
  by rewrite Z2Nat.id by lia.
Qed.

Lemma test_bit_ge bm j : Z.of_nat (length bm) <= j -> test_bit bm j = false.
Proof. intros. unfold test_bit. rewrite lookup_ge_None_2; [done | lia]. Qed.

Lemma ref_fill_length v bm start nr : length (ref_fill v bm start nr) = length bm.
Proof. apply length_imap. Qed.

Lemma area_freeb_spec bm i nr :
  Is_true (area_freeb bm i nr) <-> area_free bm (Z.of_nat i) (Z.of_nat nr).
Proof.
  unfold area_freeb, area_free, test_bit. rewrite Is_true_true, forallb_forall. split.
  - intros H j Hj. specialize (H (Z.to_nat j)).
    rewrite in_seq in H. specialize (H ltac:(lia)). by apply negb_true_iff in H.
  - intros H j Hj. rewrite in_seq in Hj. apply negb_true_iff.
    specialize (H (Z.of_nat j) ltac:(lia)). by rewrite Nat2Z.id in H.
Qed.

Lemma ref_find_cond bm i nr size : 0 <= nr ->
  Is_true (area_freeb bm i (Z.to_nat nr) && (Z.of_nat i + nr <=? size)) <->
  area_free bm (Z.of_nat i) nr /\ Z.of_nat i + nr <= size.
Proof.
  intros Hnr. rewrite andb_True, area_freeb_spec, Is_true_true, Z.leb_le.
  by rewrite Z2Nat.id by lia.
Qed.

Lemma ref_find_sound bm size start nr : 0 <= start -> 0 <= nr ->
  let r := ref_find bm size start nr 0 in
  start <= r /\ (r < size -> r + nr <= size /\ area_free bm r nr).
Proof.
  intros Hs Hn. unfold ref_find. destruct (list_find _ _) as [[k i]|] eqn:E; simpl; [|lia].
  apply list_find_Some in E as (Hk & Hp & _). apply lookup_seq in Hk.
  apply ref_find_cond in Hp; [|done]. split; [lia | tauto].
Qed.

Lemma ref_find_first bm size start nr i : 0 <= start -> 0 < nr ->
  start <= i -> i + nr <= size -> area_free bm i nr -> ref_find bm size start nr 0 <= i.
Proof.
  intros Hs Hn Hi He Hf. unfold ref_find.
  assert (Hin : seq (Z.to_nat start) (Z.to_nat (size - start)) !! Z.to_nat (i - start) =
                Some (Z.to_nat i)) by (apply lookup_seq; lia).
  assert (Hc : Is_true (area_freeb bm (Z.to_nat i) (Z.to_nat nr) &&
                        (Z.of_nat (Z.to_nat i) + nr <=? size))).
  { apply ref_find_cond; [lia|]. by rewrite Z2Nat.id by lia. }
  destruct (list_find _ _) as [[k j]|] eqn:E.
  - apply list_find_Some in E as (Hk & _ & Hmin). apply lookup_seq in Hk.
    destruct (decide (Z.to_nat i < j)%nat); [|lia].
    exfalso. eapply Hmin; [exact Hin | lia | exact Hc].
  - apply list_find_None in E. rewrite Forall_lookup in E. exfalso. exact (E _ _ Hin Hc).
Qed.

#[global] Instance ref_bitmap_laws : BitmapLaws ref_bitmap.
Proof.
  split; cbn [bitmap_find_next_zero_area bitmap_set bitmap_clear bitmap_zero ref_bitmap].
  - intros. by apply ref_find_sound.
  - intros. by apply ref_find_first.
  - intros bm start nr j ?? Hl Hj. destruct (decide (j < Z.of_nat (length bm))) as [Hlt|].
    + rewrite ref_fill_bits by lia. by case_bool_decide.
    + rewrite !test_bit_ge by (rewrite ?ref_fill_length; lia).
      rewrite bool_decide_eq_false_2 by lia. done.
  - intros. apply ref_fill_length.
  - intros bm start nr j ?? Hl Hj. destruct (decide (j < Z.of_nat (length bm))) as [Hlt|].
    + rewrite ref_fill_bits by lia. by case_bool_decide.
    + rewrite !test_bit_ge by (rewrite ?ref_fill_length; lia). by rewrite andb_false_r.
  - intros. apply ref_fill_length.
  - intros bm nbits j Hn Hj. rewrite ref_fill_bits by lia. by rewrite bool_decide_eq_true_2 by lia.
  - intros. apply ref_fill_length.
Qed.

(** ** The invariant of a bitmap and its table of sizes *)

Record units_wf (bm : list bool) (sz : list Z) (n : Z) : Prop := {
  uw_n : u32_range n;
  uw_len_sz : n <= Z.of_nat (length sz);
  uw_len_bm : n <= Z.of_nat (length bm);
  uw_block : forall i, 0 <= i < n -> 0 <= nthZ sz i /\ i + nthZ sz i <= n;
  uw_disj : forall i j, 0 <= i < j -> j < n -> 0 < nthZ sz j -> i + nthZ sz i <= j;
  uw_bits : forall b, 0 <= b < n ->
    test_bit bm b = true <-> exists i, 0 <= i < n /\ i <= b < i + nthZ sz i
}.

(** All units are free. *)
Lemma units_wf_fresh bm sz n :
  u32_range n -> n <= Z.of_nat (length sz) -> n <= Z.of_nat (length bm) ->
  (forall i, 0 <= i < n -> nthZ sz i = 0) -> (forall i, 0 <= i < n -> test_bit bm i = false) ->
  units_wf bm sz n.
Proof.
  intros Hn Hs Hb Hz Hf. split; try done.
  - intros i Hi. rewrite Hz by lia. lia.
  - intros i j Hi Hj. rewrite !Hz by lia. lia.
  - intros b Hbn. rewrite Hf by lia. split; [done|]. intros (i & Hi & Hx).
    rewrite Hz in Hx by lia. lia.
Qed.

(** A free unit starts no block. *)
Lemma units_wf_free_start bm sz n i :
  units_wf bm sz n -> 0 <= i < n -> test_bit bm i = false -> nthZ sz i = 0.
Proof.
  intros H Hi Hb. pose proof (uw_block _ _ _ H i Hi).
  destruct (decide (nthZ sz i = 0)) as [|Hne]; [done|]. exfalso.
  apply not_true_iff_false in Hb. apply Hb. apply (uw_bits _ _ _ H i Hi). exists i. lia.
Qed.

(** A free area meets no block. *)
Lemma units_wf_free_area bm sz n i k j :
  units_wf bm sz n -> 0 <= i -> 0 < k -> i + k <= n -> area_free bm i k ->
  0 <= j < n -> 0 < nthZ sz j -> j + nthZ sz j <= i \/ i + k <= j.
Proof.
  intros H Hi Hk He Hf Hj Hjk. pose proof (uw_block _ _ _ H j Hj).
  destruct (decide (j + nthZ sz j <= i)); [by left|].
  destruct (decide (i + k <= j)); [by right|]. exfalso.
  assert (test_bit bm (Z.max i j) = false) as Hb by (apply Hf; lia).
  apply not_true_iff_false in Hb. apply Hb.
  apply (uw_bits _ _ _ H); [lia|]. exists j. lia.
Qed.

Section units.
Context `{L : BitmapLib} {LL : BitmapLaws L}.

(** Taking a free area keeps the invariant. *)
Lemma units_wf_claim bm sz n i k :
  units_wf bm sz n -> 0 <= i -> 0 < k -> i + k <= n -> area_free bm i k ->
  units_wf (bitmap_set bm i k) (<[Z.to_nat i := k]> sz) n.
Proof.
  intros H Hi Hk He Hf. pose proof (uw_len_sz _ _ _ H). pose proof (uw_len_bm _ _ _ H).
  assert (Hnth : forall j, 0 <= j -> nthZ (<[Z.to_nat i := k]> sz) j =
                           if bool_decide (i = j) then k else nthZ sz j)
    by (intros; apply nthZ_insert; lia).
  pose proof (units_wf_free_start _ _ _ i H ltac:(lia) (Hf i ltac:(lia))) as Hi0.
  split; [apply H | rewrite length_insert; lia | rewrite set_length; lia | | |].
  - intros j Hj. rewrite Hnth by lia. pose proof (uw_block _ _ _ H j Hj).
    case_bool_decide; lia.
  - intros a b Ha Hb. rewrite !Hnth by lia. intros Hbk.
    pose proof (uw_disj _ _ _ H a b Ha Hb). repeat case_bool_decide; subst; try lia.
    + destruct (decide (nthZ sz a = 0)); [lia|]. pose proof (uw_block _ _ _ H a ltac:(lia)).
      pose proof (units_wf_free_area _ _ _ b k a H ltac:(lia) Hk He Hf ltac:(lia) ltac:(lia)). lia.
    + pose proof (units_wf_free_area _ _ _ a k b H ltac:(lia) Hk He Hf ltac:(lia) ltac:(lia)). lia.
  - intros b Hb. rewrite set_bits by lia. case_bool_decide as Hin; simpl.
    + split; [|done]. intros _. exists i. rewrite Hnth by lia.
      rewrite bool_decide_eq_true_2 by done. lia.
    + rewrite (uw_bits _ _ _ H b Hb). split; intros (j & Hj & Hjb); exists j;
        (split; [done|]); rewrite Hnth in * by lia; case_bool_decide; subst; lia.
Qed.

(** Giving a block back keeps the invariant. *)
Lemma units_wf_release bm sz n i :
  units_wf bm sz n -> 0 <= i < n ->
  units_wf (bitmap_clear bm i (nthZ sz i)) (<[Z.to_nat i := 0]> sz) n.
Proof.
  intros H Hi. pose proof (uw_len_sz _ _ _ H). pose proof (uw_len_bm _ _ _ H).
  pose proof (uw_block _ _ _ H i Hi).
  assert (Hnth : forall j, 0 <= j -> nthZ (<[Z.to_nat i := 0]> sz) j =
                           if bool_decide (i = j) then 0 else nthZ sz j)
    by (intros; apply nthZ_insert; lia).
  split; [apply H | rewrite length_insert; lia | rewrite clear_length; lia | | |].
  - intros j Hj. rewrite Hnth by lia. pose proof (uw_block _ _ _ H j Hj).
    case_bool_decide; lia.
  - intros a b Ha Hb. rewrite !Hnth by lia. intros Hbk.
    pose proof (uw_disj _ _ _ H a b Ha Hb). repeat case_bool_decide; subst; lia.
  - intros b Hb. rewrite clear_bits by lia. case_bool_decide as Hin; simpl.
    + split; [done|]. intros (j & Hj & Hjb). exfalso. rewrite Hnth in Hjb by lia.
      case_bool_decide; [lia|]. pose proof (uw_block _ _ _ H j Hj).
      destruct (decide (i < j)).
      * pose proof (uw_disj _ _ _ H i j ltac:(lia) ltac:(lia) ltac:(lia)). lia.
      * destruct (decide (nthZ sz i = 0)); [lia|].
        pose proof (uw_disj _ _ _ H j i ltac:(lia) ltac:(lia) ltac:(lia)). lia.
    + rewrite (uw_bits _ _ _ H b Hb). split; intros (j & Hj & Hjb); exists j;
        (split; [done|]); rewrite Hnth in * by lia; case_bool_decide; subst; lia.
Qed.

End units.

(** ** The abstract allocator *)

Module FirstFit.

(** The live blocks: start to length. *)
Definition fits (m : gmap Z Z) (n i k : Z) : Prop :=
  0 <= i /\ i + k <= n /\
  forall j kj, m !! j = Some kj -> j + kj <= i \/ i + k <= j.

Inductive event : Type :=
  | Alloc (k : Z) (r : option Z)
  | Free (i : Z).

(** Allocation takes the lowest place that fits and fails only when there is
    none; a free of an address that starts no live block does nothing. *)
Inductive step (n : Z) : gmap Z Z -> event -> gmap Z Z -> Prop :=
  | step_alloc m i k :
      0 < k -> fits m n i k -> (forall i', 0 <= i' < i -> ~ fits m n i' k) ->
      step n m (Alloc k (Some i)) (<[i := k]> m)
  | step_full m k :
      0 < k -> (forall i, ~ fits m n i k) -> step n m (Alloc k None) m
  | step_free m i k :
      m !! i = Some k -> step n m (Free i) (delete i m)
  | step_free_none m i :
      m !! i = None -> step n m (Free i) m.

(** Live blocks are inside the area and pairwise disjoint. *)
Definition inv (n : Z) (m : gmap Z Z) : Prop :=
  (forall i k, m !! i = Some k -> 0 < k /\ 0 <= i /\ i + k <= n) /\
  (forall i k j kj, m !! i = Some k -> m !! j = Some kj -> i <> j ->
     i + k <= j \/ j + kj <= i).

Lemma step_inv n m e m' : step n m e m' -> inv n m -> inv n m'.
Proof.
  intros Hs [Hin Hd]. destruct Hs as [m i k Hk (Hi & He & Hf) _ | | m i k Hm | ]; try done.
  - split.
    + intros j kj. rewrite lookup_insert. case_decide; [intros [= <-]; subst; lia | apply Hin].
    + intros a ka b kb. rewrite !lookup_insert. repeat case_decide; subst; try congruence.
      * intros [= <-] Hb _. specialize (Hf _ _ Hb). lia.
      * intros Ha [= <-] _. apply (Hf _ _ Ha).
      * apply Hd.
  - split.
    + intros j kj. rewrite lookup_delete. case_decide; [done | apply Hin].
    + intros a ka b kb. rewrite !lookup_delete. repeat case_decide; [done.. | apply Hd].
Qed.

End FirstFit.

(** The live blocks of a table of sizes. *)
Definition blocks (sz : list Z) (n : Z) : gmap Z Z :=
  list_to_map (filter (fun p => 0 < p.2)
    ((fun i => (Z.of_nat i, nthZ sz (Z.of_nat i))) <$> seq 0 (Z.to_nat n))).

Lemma lookup_blocks sz n i k :
  blocks sz n !! i = Some k <-> 0 <= i < n /\ nthZ sz i = k /\ 0 < k.
Proof.
  unfold blocks. rewrite <- elem_of_list_to_map.
  - rewrite list_elem_of_filter, list_elem_of_fmap. simpl. split.
    + intros (Hk & j & [= -> ->] & Hj). rewrite elem_of_seq in Hj. lia.
    + intros (Hi & <- & Hk). split; [done|]. exists (Z.to_nat i).
      rewrite Z2Nat.id by lia. rewrite elem_of_seq. split; [done | lia].
  - apply (sublist_NoDup _ ((fun i => (Z.of_nat i, nthZ sz (Z.of_nat i))) <$> seq 0 (Z.to_nat n)).*1).
    + rewrite <- list_fmap_compose. apply NoDup_fmap_2; [|apply NoDup_seq].
      intros x y. simpl. lia.
    + apply fmap_sublist, sublist_filter.
Qed.

Lemma lookup_blocks_None sz n i :
  blocks sz n !! i = None <-> ~ (0 <= i < n /\ 0 < nthZ sz i).
Proof.
  rewrite eq_None_not_Some. unfold is_Some. setoid_rewrite lookup_blocks. naive_solver.
Qed.

Lemma blocks_insert sz n i k :
  0 <= i < n -> n <= Z.of_nat (length sz) -> 0 < k ->
  blocks (<[Z.to_nat i := k]> sz) n = <[i := k]> (blocks sz n).
Proof.
  intros Hi Hl Hk. apply map_eq. intros j. apply option_eq. intros v.
  rewrite lookup_blocks, lookup_insert. case_decide as E.
  - subst j. rewrite nthZ_insert by lia. rewrite bool_decide_eq_true_2 by done. naive_solver.
  - rewrite lookup_blocks. split; intros (Hj & Hv & ?);
      rewrite nthZ_insert, bool_decide_eq_false_2 in * by (done || lia); done.
Qed.

Lemma blocks_delete sz n i :
  0 <= i < n -> n <= Z.of_nat (length sz) ->
  blocks (<[Z.to_nat i := 0]> sz) n = delete i (blocks sz n).
Proof.
  intros Hi Hl. apply map_eq. intros j. apply option_eq. intros v.
  rewrite lookup_blocks, lookup_delete. case_decide as E.
  - subst j. rewrite nthZ_insert by lia. rewrite bool_decide_eq_true_2 by done.
    split; [lia | done].
  - rewrite lookup_blocks. split; intros (Hj & Hv & ?);
      rewrite nthZ_insert, bool_decide_eq_false_2 in * by (done || lia); done.
Qed.

(** A free area of the bitmap is a place that fits. *)
Lemma area_free_fits bm sz n i k :
  units_wf bm sz n -> 0 < k ->
  (0 <= i /\ i + k <= n /\ area_free bm i k) <-> FirstFit.fits (blocks sz n) n i k.
Proof.
  intros H Hk. unfold FirstFit.fits. split.
  - intros (Hi & He & Hf). split_and!; [done..|]. intros j kj. rewrite lookup_blocks.
    intros (Hj & <- & Hjk). by eapply units_wf_free_area.
  - intros (Hi & He & Hf). split_and!; [done..|]. intros b Hb.
    apply not_true_iff_false. intros (j & Hj & Hjb)%(uw_bits _ _ _ H b); [|lia].
    specialize (Hf j (nthZ sz j)). rewrite lookup_blocks in Hf. lia.
Qed.

Lemma blocks_fits_new sz n i k : 0 < k -> FirstFit.fits (blocks sz n) n i k -> blocks sz n !! i = None.
Proof.
  intros Hk (Hi & He & Hf). destruct (blocks sz n !! i) as [j|] eqn:E; [|done].
  pose proof (Hf _ _ E). apply lookup_blocks in E. lia.
Qed.

Lemma blocks_inv bm sz n : units_wf bm sz n -> FirstFit.inv n (blocks sz n).
Proof.
  intros H. split.
  - intros i k (Hi & <- & Hk)%lookup_blocks. pose proof (uw_block _ _ _ H i Hi). lia.
  - intros i k j kj (Hi & <- & Hk)%lookup_blocks (Hj & <- & Hkj)%lookup_blocks Hne.
    destruct (decide (i < j)).
    + pose proof (uw_disj _ _ _ H i j). lia.
    + pose proof (uw_disj _ _ _ H j i). lia.
Qed.

Section unit_steps.
Context `{L : BitmapLib} {LL : BitmapLaws L}.

(** The search followed by the reservation is a step of the abstract
    allocator. *)
Lemma find_claim_step bm sz n k :
  units_wf bm sz n -> 0 < k ->
  let idx := bitmap_find_next_zero_area bm n 0 k 0 in
  0 <= idx /\
  if bool_decide (idx < n) then
    idx + k <= n /\ area_free bm idx k /\
    units_wf (bitmap_set bm idx k) (<[Z.to_nat idx := k]> sz) n /\
    FirstFit.step n (blocks sz n) (FirstFit.Alloc k (Some idx))
      (blocks (<[Z.to_nat idx := k]> sz) n)
  else FirstFit.step n (blocks sz n) (FirstFit.Alloc k None) (blocks sz n).
Proof.
  intros H Hk idx. pose proof (uw_len_sz _ _ _ H). pose proof (uw_len_bm _ _ _ H).
  pose proof (find_sound bm n 0 k ltac:(lia) ltac:(lia) (uw_len_bm _ _ _ H)) as [Hs He].
  pose proof (find_first bm n 0 k) as Hfirst. fold idx in Hs, He.
  assert (Hmin : forall i, FirstFit.fits (blocks sz n) n i k -> idx <= i).
  { intros i (Hi & Hie & Hif)%(area_free_fits bm sz); [|done..]. by apply Hfirst; try lia. }
  split; [done|]. case_bool_decide as Hc.
  - destruct (He Hc) as [Hend Hfree]. split_and!; [done | done | by apply units_wf_claim |].
    rewrite blocks_insert by lia. apply FirstFit.step_alloc; [done | by apply (area_free_fits bm) |].
    intros i Hi Hf. apply Hmin in Hf. lia.
  - apply FirstFit.step_full; [done|]. intros i Hf. pose proof (Hmin i Hf).
    destruct Hf as (?&?&?). lia.
Qed.

(** A release through the table of sizes is a step of the abstract
    allocator, whatever the unit. *)
Lemma release_step bm sz n idx :
  units_wf bm sz n -> 0 <= idx ->
  if bool_decide (idx < n /\ 0 < nthZ sz idx) then
    units_wf (bitmap_clear bm idx (nthZ sz idx)) (<[Z.to_nat idx := 0]> sz) n /\
    FirstFit.step n (blocks sz n) (FirstFit.Free idx) (blocks (<[Z.to_nat idx := 0]> sz) n)
  else FirstFit.step n (blocks sz n) (FirstFit.Free idx) (blocks sz n).
Proof.
  intros H Hi. pose proof (uw_len_sz _ _ _ H). case_bool_decide as Hc.
  - split; [apply units_wf_release; [done | lia]|]. rewrite blocks_delete by lia.
    eapply FirstFit.step_free. apply lookup_blocks. split; [lia|]. split; [done | lia].
  - apply FirstFit.step_free_none. apply lookup_blocks_None. lia.
Qed.

Lemma list_eq_bits (b1 b2 : list bool) :
  length b1 = length b2 ->
  (forall j, 0 <= j < Z.of_nat (length b1) -> test_bit b1 j = test_bit b2 j) -> b1 = b2.
Proof.
  intros Hl Hb. apply (list_eq_same_length b1 b2 (length b1)); [done..|].
  intros i x y Hi Hx Hy. specialize (Hb (Z.of_nat i) ltac:(lia)).
  unfold test_bit in Hb. rewrite Nat2Z.id, Hx, Hy in Hb. done.
Qed.

(** Releasing a block that was just taken gives the old state back. *)
Lemma claim_release_same bm sz n i k :
  units_wf bm sz n -> 0 <= i -> 0 < k -> i + k <= n -> area_free bm i k ->
  bitmap_clear (bitmap_set bm i k) i k = bm /\
  <[Z.to_nat i := 0]> (<[Z.to_nat i := k]> sz) = sz.
Proof.
  intros H Hi Hk He Hf. pose proof (uw_len_bm _ _ _ H). pose proof (uw_len_sz _ _ _ H). split.
  - apply list_eq_bits; [by rewrite clear_length, set_length|].
    rewrite clear_length, set_length. intros j Hj.
    rewrite clear_bits, set_bits by (rewrite ?set_length; lia).
    case_bool_decide; simpl; [|done]. symmetry. apply Hf. lia.
  - rewrite list_insert_insert_eq. apply list_insert_id.
    pose proof (units_wf_free_start _ _ _ i H ltac:(lia) (Hf i ltac:(lia))) as Hz.
    unfold nthZ in Hz. destruct (lookup_lt_is_Some_2 sz (Z.to_nat i)) as [x Hx]; [lia|].
    rewrite Hx in *. simpl in Hz. congruence.
Qed.

End unit_steps.
