(* ===== verification/MemPool.v ===== *)
(** * The GPU memory pool of the kernel module
      (src/kgpu/src/kernelSpace/main.c, src/kgpu/src/kgpu_kutils.c)

    [struct _kgpu_mempool] with the operations on it: the setup by the ioctl
    of the helper ([set_gpu_mempool]), allocation and release of units of 1 MB
    by the clients in the kernel ([kgpu_vmalloc], [kgpu_vfree]) and the
    release at module exit ([clear_gpu_mempool]).  Logging is left out; the
    spinlock makes each operation atomic.  [kmalloc], [vmap] and the page
    tables belong to Linux: what they return is an argument. *)

From S2P Require Import Prelude KgpuDefs UnitAlloc.

Record kgpu_mempool : Type := mk_mempool {
  uva : Z;
  kva : Z;
  pages : kptr (list Z);
  npages : Z;
  nunits : Z;
  bitmap : kptr (list bool);
  alloc_sz : kptr (list Z)
}.

(** [memset(&kgpudev.gmpool, 0, ...)] of [kgpu_init]. *)
Definition mempool_zero : kgpu_mempool := mk_mempool 0 0 KNull 0 0 KNull KNull.

(** The page-table accessors of Linux that [kgpu_v2page] walks. *)
Record page_tables : Type := mk_page_tables {
  pgd_none : Z -> bool;
  pud_none : Z -> bool;
  pmd_none : Z -> bool;
  pte_present : Z -> bool;
  pte_page : Z -> Z
}.

(** The page that backs a user address, or NULL. *)
Definition kgpu_v2page (pt : page_tables) (v : Z) : Z :=
  if negb (pgd_none pt v) then
    if negb (pud_none pt v) then
      if negb (pmd_none pt v) then
        if pte_present pt v then pte_page pt v else NULL
      else NULL
    else NULL
  else NULL.

(** What the Linux allocator and [vmap] answer during one [set_gpu_mempool]:
    [None] is a failed [kmalloc], a block comes with its old contents. *)
Record setup_env : Type := mk_setup_env {
  km_pages : option (list Z);
  km_bitmap : option (list bool);
  km_alloc_sz : option (list Z);
  vmap_result : Z
}.

(** The loop that fills [pages[i]], from [i] on for [n] rounds. *)
Fixpoint fill_pages (pt : page_tables) (gb_uva i : Z) (n : nat) (pg : list Z) : outcome (list Z) :=
  match n with
  | O => Ok pg
  | S n =>
      pg ← array_set pg i (kgpu_v2page pt (gb_uva +64 i * PAGE_SIZE));
      fill_pages pt gb_uva (i + 1) n pg
  end.

(** [memset(a, 0, nbytes)] on an array of [u32], which are stored with the
    low byte first: the first [nbytes] bytes become 0. *)
Definition memset_u32 (a : list Z) (nbytes : Z) : outcome (list Z) :=
  if bool_decide (nbytes <= 4 * Z.of_nat (length a)) then
    Ok (imap (fun i v =>
          let k := nbytes - 4 * Z.of_nat i in
          if 4 <=? k then 0
          else if k <=? 0 then v
          else v / 2 ^ (8 * k) * 2 ^ (8 * k)) a)
  else Fault OutOfBounds.

(** A pool that did not get as far as a state with its arrays. *)
Definition set_arrays (p : kgpu_mempool) (pg : kptr (list Z)) (nu : Z)
    (bm : kptr (list bool)) (sz : kptr (list Z)) : kgpu_mempool :=
  mk_mempool (uva p) (kva p) pg (npages p) nu bm sz.

Section pool.
Context `{L : BitmapLib}.

(** [bitmap_find_next_zero_area] through the pointer: with no units the
    function does not look at the bitmap. *)
Definition find_area (bm : kptr (list bool)) (size nr : Z) : outcome Z :=
  if size =? 0 then Ok (bitmap_find_next_zero_area [] 0 0 nr 0)
  else b ← deref bm; mret (bitmap_find_next_zero_area b size 0 nr 0).

Definition kgpu_vmalloc (pool : kgpu_mempool) (nbytes : Z) : outcome (kgpu_mempool * Z) :=
  let req_nunits := wrap32 (DIV_ROUND_UP nbytes KGPU_BUF_UNIT_SIZE) in
  idx ← find_area (bitmap pool) (nunits pool) req_nunits;
  if idx <? nunits pool then
    b ← deref (bitmap pool);
    let b := bitmap_set b idx req_nunits in
    let p := kva pool +64 idx * KGPU_BUF_UNIT_SIZE in
    a ← deref (alloc_sz pool);
    a ← array_set a idx req_nunits;
    mret (set_arrays pool (pages pool) (nunits pool) (KLive b) (KLive a), p)
  else mret (pool, NULL).

Definition kgpu_vfree (pool : kgpu_mempool) (p : Z) : outcome kgpu_mempool :=
  let idx := (p -64 kva pool) / KGPU_BUF_UNIT_SIZE in
  if nunits pool <=? idx then mret pool
  else
    a ← deref (alloc_sz pool);
    n ← array_get a idx;
    if n =? 0 then mret pool
    else if (nunits pool -64 idx) <? n then mret pool
    else
      b ← deref (bitmap pool);
      let b := bitmap_clear b idx n in
      a ← array_set a idx 0;
      mret (set_arrays pool (pages pool) (nunits pool) (KLive b) (KLive a)).

(** The ioctl [KGPU_IOC_SET_GPU_BUFS]: the new pool and the error code. *)
Definition set_gpu_mempool (pt : page_tables) (env : setup_env) (gb : kgpu_gpu_mem_info)
    (pool : kgpu_mempool) : outcome (kgpu_mempool * Z) :=
  let np := wrap32 (mi_size gb / PAGE_SIZE) in
  let pool := mk_mempool (mi_uva gb) (kva pool) (pages pool) np (nunits pool)
                (bitmap pool) (alloc_sz pool) in
  let pg := if is_null (pages pool) then of_kmalloc (km_pages env) else pages pool in
  let pool := set_arrays pool pg (nunits pool) (bitmap pool) (alloc_sz pool) in
  if is_null pg then mret (pool, - ENOMEM)
  else
    pgs ← deref pg;
    pgs ← fill_pages pt (mi_uva gb) 0 (Z.to_nat np) pgs;
    let nu := np / KGPU_BUF_NR_FRAMES_PER_UNIT in
    let bm := if is_null (bitmap pool) then of_kmalloc (km_bitmap env) else bitmap pool in
    let pool := set_arrays pool (KLive pgs) nu bm (alloc_sz pool) in
    if is_null bm then mret (pool, - ENOMEM)
    else
      b ← deref bm;
      b ← (if bool_decide (nu <= Z.of_nat (length b)) then Ok (bitmap_zero b nu)
           else Fault OutOfBounds);
      let sz := if is_null (alloc_sz pool) then of_kmalloc (km_alloc_sz env)
                else alloc_sz pool in
      let pool := set_arrays pool (KLive pgs) nu (KLive b) sz in
      if is_null sz then mret (pool, - ENOMEM)
      else
        a ← deref sz;
        a ← memset_u32 a nu;
        let pool := mk_mempool (uva pool) (vmap_result env) (KLive pgs) np nu
                      (KLive b) (KLive a) in
        if vmap_result env =? NULL then mret (pool, - EFAULT)
        else mret (pool, 0).

(** At module exit; the pointers stay in the structure. *)
Definition clear_gpu_mempool (pool : kgpu_mempool) : outcome kgpu_mempool :=
  pg ← kfree (pages pool);
  bm ← kfree (bitmap pool);
  sz ← kfree (alloc_sz pool);
  mret (set_arrays pool pg (nunits pool) bm sz).

End pool.

(** ** The invariant of a pool that is set up *)

Record pool_wf (pool : kgpu_mempool) : Prop := {
  pw_kva : 0 < kva pool;
  pw_room : kva pool + nunits pool * KGPU_BUF_UNIT_SIZE < 2 ^ 64;
  pw_units : exists bm sz, bitmap pool = KLive bm /\ alloc_sz pool = KLive sz /\
    units_wf bm sz (nunits pool)
}.

(** The live blocks of the pool: first unit to number of units. *)
Definition pool_blocks (pool : kgpu_mempool) : gmap Z Z :=
  match alloc_sz pool with KLive sz => blocks sz (nunits pool) | _ => ∅ end.

(** The unit that an address of the pool is in. *)
Definition unit_of (pool : kgpu_mempool) (p : Z) : Z :=
  (p -64 kva pool) / KGPU_BUF_UNIT_SIZE.

(** The largest request whose number of units fits in 32 bits. *)
Definition vmalloc_max : Z := (2 ^ 32 - 1) * KGPU_BUF_UNIT_SIZE.

Lemma unit_size_eq : KGPU_BUF_UNIT_SIZE = 1048576.
Proof. reflexivity. Qed.

Lemma req_units_spec nbytes : 0 < nbytes <= vmalloc_max ->
  let k := DIV_ROUND_UP nbytes KGPU_BUF_UNIT_SIZE in
  wrap32 k = k /\ 0 < k /\ (k - 1) * KGPU_BUF_UNIT_SIZE < nbytes <= k * KGPU_BUF_UNIT_SIZE.
Proof.
  unfold vmalloc_max. rewrite unit_size_eq. intros Hn. simpl.
  destruct (DIV_ROUND_UP_exact nbytes 1048576) as [H|H]; [lia..| |lia].
  split; [apply wrap32_id; unfold u32_range; lia | lia].
Qed.

Lemma unit_of_block pool i :
  pool_wf pool -> 0 <= i < nunits pool ->
  let p := kva pool +64 i * KGPU_BUF_UNIT_SIZE in
  p = kva pool + i * KGPU_BUF_UNIT_SIZE /\ p <> NULL /\ unit_of pool p = i.
Proof.
  intros H Hi. pose proof (pw_kva _ H). pose proof (pw_room _ H) as Hr.
  unfold unit_of. rewrite unit_size_eq in *. simpl.
  rewrite !wrap64_id by (rewrite ?wrap64_id; unfold u64_range; lia).
  split_and!; [done | unfold NULL; lia |].
  replace (kva pool + i * 1048576 - kva pool) with (i * 1048576) by lia.
  apply Z.div_mul. lia.
Qed.

Section pool_proofs.
Context `{L : BitmapLib} {LL : BitmapLaws L}.

(** What [kgpu_vmalloc] does with the number of units it computed. *)
Lemma kgpu_vmalloc_cases pool nbytes bm sz :
  bitmap pool = KLive bm -> alloc_sz pool = KLive sz -> units_wf bm sz (nunits pool) ->
  let k := wrap32 (DIV_ROUND_UP nbytes KGPU_BUF_UNIT_SIZE) in
  let idx := bitmap_find_next_zero_area bm (nunits pool) 0 k 0 in
  kgpu_vmalloc pool nbytes =
    if bool_decide (0 < nunits pool /\ idx < nunits pool) then
      Ok (set_arrays pool (pages pool) (nunits pool) (KLive (bitmap_set bm idx k))
            (KLive (<[Z.to_nat idx := k]> sz)),
          kva pool +64 idx * KGPU_BUF_UNIT_SIZE)
    else Ok (pool, NULL).
Proof.
  intros Hb Ha H. simpl. set (k := wrap32 _). pose proof (wrap32_range (DIV_ROUND_UP nbytes KGPU_BUF_UNIT_SIZE)) as Hk.
  pose proof (uw_n _ _ _ H) as Hn. unfold u32_range in *.
  unfold kgpu_vmalloc. rewrite Hb, Ha. unfold find_area. fold k. fold k in Hk.
  destruct (Z.eqb_spec (nunits pool) 0) as [E|E]; cbn [mbind outcome_bind deref].
  - rewrite bool_decide_eq_false_2 by lia.
    pose proof (find_sound [] 0 0 k ltac:(lia) ltac:(lia) ltac:(simpl; lia)) as [Hs _].
    rewrite (proj2 (Z.ltb_ge _ _)) by lia. done.
  - pose proof (find_sound bm (nunits pool) 0 k ltac:(lia) ltac:(lia) (uw_len_bm _ _ _ H)) as [Hs He].
    cbn. case_bool_decide as Hc.
    + rewrite (proj2 (Z.ltb_lt _ _)) by lia.
      pose proof (uw_len_sz _ _ _ H). rewrite array_set_ok by lia. done.
    + rewrite (proj2 (Z.ltb_ge _ _)) by lia. done.
Qed.

Lemma kgpu_vfree_cases pool p bm sz :
  bitmap pool = KLive bm -> alloc_sz pool = KLive sz -> units_wf bm sz (nunits pool) ->
  let idx := unit_of pool p in
  0 <= idx /\
  kgpu_vfree pool p =
    if bool_decide (idx < nunits pool /\ 0 < nthZ sz idx) then
      Ok (set_arrays pool (pages pool) (nunits pool) (KLive (bitmap_clear bm idx (nthZ sz idx)))
            (KLive (<[Z.to_nat idx := 0]> sz)))
    else Ok pool.
Proof.
  intros Hb Ha H. simpl.
  assert (0 <= unit_of pool p) as Hi.
  { unfold unit_of. pose proof (wrap64_range (p - kva pool)) as Hr. unfold u64_range in Hr.
    apply Z.div_pos; [lia | rewrite unit_size_eq; lia]. }
  split; [done|]. unfold kgpu_vfree. rewrite Hb, Ha. fold (unit_of pool p).
  set (idx := unit_of pool p) in *.
  destruct (Z.leb_spec (nunits pool) idx) as [E|E].
  { rewrite bool_decide_eq_false_2 by lia. done. }
  pose proof (uw_len_sz _ _ _ H). cbn. rewrite array_get_nthZ by lia. cbn.
  pose proof (uw_block _ _ _ H idx ltac:(lia)). pose proof (uw_n _ _ _ H) as Hn.
  destruct (Z.eqb_spec (nthZ sz idx) 0) as [E0|E0].
  { rewrite bool_decide_eq_false_2 by lia. done. }
  rewrite bool_decide_eq_true_2 by lia.
  rewrite wrap64_id by (unfold u32_range, u64_range in *; lia).
  rewrite (proj2 (Z.ltb_ge _ _)) by lia. rewrite array_set_ok by lia. done.
Qed.

Lemma set_arrays_wf pool bm sz :
  pool_wf pool -> units_wf bm sz (nunits pool) ->
  pool_wf (set_arrays pool (pages pool) (nunits pool) (KLive bm) (KLive sz)).
Proof. intros H Hu. split; simpl; [apply H | apply H | eauto]. Qed.

Lemma pool_blocks_live pool sz :
  alloc_sz pool = KLive sz -> pool_blocks pool = blocks sz (nunits pool).
Proof. intros H. unfold pool_blocks. by rewrite H. Qed.

(** The step of the abstract allocator behind a [kgpu_vmalloc]. *)
Lemma kgpu_vmalloc_step pool nbytes :
  pool_wf pool -> 0 < nbytes <= vmalloc_max ->
  let k := DIV_ROUND_UP nbytes KGPU_BUF_UNIT_SIZE in
  exists pool' r, kgpu_vmalloc pool nbytes =
      Ok (pool', from_option (fun i => kva pool + i * KGPU_BUF_UNIT_SIZE) NULL r) /\
    pool_wf pool' /\ FirstFit.step (nunits pool) (pool_blocks pool) (FirstFit.Alloc k r)
                       (pool_blocks pool').
Proof.
  intros Hw Hn. destruct (req_units_spec nbytes Hn) as (Hk & Hk0 & Hkb). simpl in *.
  set (k := DIV_ROUND_UP nbytes KGPU_BUF_UNIT_SIZE) in *.
  destruct (pw_units _ Hw) as (bm & sz & Hb & Ha & Hu).
  rewrite (kgpu_vmalloc_cases _ _ _ _ Hb Ha Hu). fold k. rewrite Hk.
  destruct (find_claim_step bm sz (nunits pool) k Hu Hk0) as [Hs Hstep].
  set (idx := bitmap_find_next_zero_area bm (nunits pool) 0 k 0) in *.
  rewrite (pool_blocks_live _ _ Ha). destruct (decide (idx < nunits pool)) as [Hc|Hc].
  - rewrite bool_decide_eq_true_2 in Hstep by lia. destruct Hstep as (_ & _ & Hwf & Hstep).
    rewrite bool_decide_eq_true_2 by lia.
    eexists _, (Some idx). simpl. destruct (unit_of_block pool idx Hw ltac:(lia)) as [-> _].
    split; [done|]. split; [by apply set_arrays_wf | exact Hstep].
  - rewrite bool_decide_eq_false_2 in Hstep by lia. rewrite bool_decide_eq_false_2 by lia.
    exists pool, None. split; [done|]. split; [done|]. by rewrite (pool_blocks_live _ _ Ha).
Qed.

Lemma kgpu_vfree_step pool p :
  pool_wf pool -> exists pool', kgpu_vfree pool p = Ok pool' /\ pool_wf pool' /\
    FirstFit.step (nunits pool) (pool_blocks pool) (FirstFit.Free (unit_of pool p))
      (pool_blocks pool').
Proof.
  intros Hw. destruct (pw_units _ Hw) as (bm & sz & Hb & Ha & Hu).
  destruct (kgpu_vfree_cases _ p _ _ Hb Ha Hu) as [Hi ->]. set (idx := unit_of pool p) in *.
  rewrite (pool_blocks_live _ _ Ha). pose proof (release_step bm sz (nunits pool) idx Hu Hi) as Hstep.
  case_bool_decide as Hc.
  - destruct Hstep as [Hwf Hstep]. eexists. split; [done|].
    split; [by apply set_arrays_wf | exact Hstep].
  - exists pool. split; [done|]. split; [done|]. by rewrite (pool_blocks_live _ _ Ha).
Qed.

(** Neither operation moves the pool. *)
Definition same_pool (pool pool' : kgpu_mempool) : Prop :=
  uva pool' = uva pool /\ kva pool' = kva pool /\ npages pool' = npages pool /\
  nunits pool' = nunits pool.

Lemma kgpu_vmalloc_same pool nbytes pool' p :
  kgpu_vmalloc pool nbytes = Ok (pool', p) -> same_pool pool pool'.
Proof.
  unfold kgpu_vmalloc. intros E. inv_ok. case_match; inv_ok; by injection E as <- _.
Qed.

Lemma kgpu_vfree_same pool p pool' : kgpu_vfree pool p = Ok pool' -> same_pool pool pool'.
Proof.
  unfold kgpu_vfree. intros E.
  repeat (case_match; inv_ok); by injection E as <-.
Qed.

(** Freeing the first address of a live block removes it. *)
Lemma kgpu_vfree_block pool i k :
  pool_wf pool -> pool_blocks pool !! i = Some k ->
  exists pool', kgpu_vfree pool (kva pool + i * KGPU_BUF_UNIT_SIZE) = Ok pool' /\ pool_wf pool' /\
    same_pool pool pool' /\ pool_blocks pool' = delete i (pool_blocks pool).
Proof.
  intros Hw Hi. pose proof (pw_units _ Hw) as (bm & sz & Hb & Ha & Hu).
  pose proof Hi as Hi'. rewrite (pool_blocks_live _ _ Ha) in Hi'. apply lookup_blocks in Hi' as (Hr & _).
  destruct (unit_of_block pool i Hw Hr) as (Ep & _ & Eu). cbv zeta in *. rewrite Ep in Eu.
  destruct (kgpu_vfree_step pool (kva pool + i * KGPU_BUF_UNIT_SIZE) Hw) as (pool' & E & Hw' & Hs).
  exists pool'. split; [done|]. split; [done|]. split; [by eapply kgpu_vfree_same|].
  rewrite Eu in Hs. inversion Hs; subst; [done | congruence].
Qed.

(** A pointer into a block past its first unit, as a field of a request can
    be, frees nothing. *)
Theorem vfree_inside_block_keeps pool i k j :
  pool_wf pool -> pool_blocks pool !! i = Some k -> i < j < i + k ->
  kgpu_vfree pool (kva pool + j * KGPU_BUF_UNIT_SIZE) = Ok pool.
Proof.
  intros Hw Hi Hj. pose proof (pw_units _ Hw) as (bm & sz & Hb & Ha & Hu).
  rewrite (pool_blocks_live _ _ Ha) in Hi. apply lookup_blocks in Hi as (Hr & Hk & _).
  pose proof (uw_block _ _ _ Hu i Hr). pose proof (uw_disj _ _ _ Hu i j).
  destruct (unit_of_block pool j Hw ltac:(lia)) as (Ep & _ & Eu). cbv zeta in *. rewrite Ep in Eu.
  destruct (kgpu_vfree_cases _ (kva pool + j * KGPU_BUF_UNIT_SIZE) _ _ Hb Ha Hu) as [_ ->].
  rewrite Eu, bool_decide_eq_false_2 by lia. done.
Qed.

End pool_proofs.

(** A pool of two units at 16 MB, all free, for the examples. *)
Definition pool_example : kgpu_mempool :=
  mk_mempool 4096 (2 ^ 24) (KLive (repeat 1 512)) 512 2
    (KLive (repeat false 64)) (KLive [0; 0]).

Lemma pool_example_wf : pool_wf pool_example.
Proof.
  split; [simpl; lia | rewrite unit_size_eq; simpl; lia |].
  exists (repeat false 64), [0; 0]. split; [done|]. split; [done|].
  apply units_wf_fresh; simpl; [unfold u32_range; lia | lia | lia | |].
  - intros i Hi. assert (i = 0 \/ i = 1) as [-> | ->] by lia; done.
  - intros i Hi. assert (i = 0 \/ i = 1) as [-> | ->] by lia; done.
Qed.

Section pool_claims.
Context `{L : BitmapLib} {LL : BitmapLaws L}.

(** C9: for every request of at most [2^32 - 1] units, [kgpu_vmalloc] on a pool
    that is set up neither faults nor breaks the pool's invariant, and
    it implements the abstract first-fit allocator: it reserves the lowest
    place where the requested size rounded up to whole units fits, which
    overlaps no live block, and returns its kernel address; it returns NULL
    and changes nothing exactly when there is no such place.  Any bitmap
    library with the documented behaviour is allowed. *)
Theorem vmalloc_refines_first_fit pool nbytes :
  pool_wf pool -> 0 < nbytes <= vmalloc_max ->
  let k := DIV_ROUND_UP nbytes KGPU_BUF_UNIT_SIZE in
  nbytes <= k * KGPU_BUF_UNIT_SIZE /\
  exists pool' r, kgpu_vmalloc pool nbytes =
      Ok (pool', from_option (fun i => kva pool + i * KGPU_BUF_UNIT_SIZE) NULL r) /\
    pool_wf pool' /\
    FirstFit.step (nunits pool) (pool_blocks pool) (FirstFit.Alloc k r) (pool_blocks pool').
Proof.
  intros Hw Hn. split; [|by apply kgpu_vmalloc_step].
  destruct (req_units_spec nbytes Hn) as (_ & _ & Hb). lia.
Qed.

(** C14: freeing the pointer that a successful [kgpu_vmalloc] returned
    restores the pool exactly as it was before the allocation, bitmap and
    table of sizes included, whatever other blocks are live. *)
Theorem vmalloc_vfree_roundtrip pool nbytes pool' p :
  pool_wf pool -> 0 < nbytes <= vmalloc_max ->
  kgpu_vmalloc pool nbytes = Ok (pool', p) -> p <> NULL -> kgpu_vfree pool' p = Ok pool.
Proof.
  intros Hw Hn Hm Hp. destruct (req_units_spec nbytes Hn) as (Hk & Hk0 & _). simpl in *.
  destruct (pw_units _ Hw) as (bm & sz & Hb & Ha & Hu).
  rewrite (kgpu_vmalloc_cases _ _ _ _ Hb Ha Hu), Hk in Hm.
  set (k := DIV_ROUND_UP nbytes KGPU_BUF_UNIT_SIZE) in *.
  destruct (find_claim_step bm sz (nunits pool) k Hu Hk0) as [Hs Hstep].
  set (idx := bitmap_find_next_zero_area bm (nunits pool) 0 k 0) in *.
  destruct (decide (0 < nunits pool /\ idx < nunits pool)) as [Hc|Hc];
    [rewrite bool_decide_eq_true_2 in Hm by done | rewrite bool_decide_eq_false_2 in Hm by done];
    injection Hm as <- <-; [|done].
  rewrite bool_decide_eq_true_2 in Hstep by lia. destruct Hstep as (Hend & Hfree & Hwf & _).
  pose proof (uw_len_sz _ _ _ Hu).
  destruct (unit_of_block pool idx Hw ltac:(lia)) as (_ & _ & Hunit).
  set (pool' := set_arrays _ _ _ _ _).
  destruct (kgpu_vfree_cases pool' (kva pool +64 idx * KGPU_BUF_UNIT_SIZE) (bitmap_set bm idx k)
              (<[Z.to_nat idx := k]> sz)) as [_ E];
    [done | done | done |].
  rewrite E. change (unit_of pool') with (unit_of pool). rewrite Hunit. simpl.
  rewrite nthZ_insert, (bool_decide_eq_true_2 (idx = idx)) by (done || lia).
  rewrite bool_decide_eq_true_2 by lia.
  destruct (claim_release_same _ _ _ idx k Hu) as [E1 E2]; [lia..|done|].
  rewrite E1, E2. unfold pool', set_arrays. simpl. rewrite <- Hb, <- Ha. by destruct pool.
Qed.

End pool_claims.

Lemma vmalloc_refines_first_fit_witness :
  exists pool', kgpu_vmalloc pool_example (3 * 2 ^ 19) = Ok (pool', 2 ^ 24) /\ pool_wf pool' /\
    FirstFit.step 2 ∅ (FirstFit.Alloc 2 (Some 0)) (pool_blocks pool').
Proof.
  destruct (vmalloc_refines_first_fit pool_example (3 * 2 ^ 19) pool_example_wf)
    as (_ & pool' & r & E & Hw & Hs); [unfold vmalloc_max; rewrite unit_size_eq; lia|].
  assert (Hc : exists q, kgpu_vmalloc pool_example (3 * 2 ^ 19) = Ok (q, 2 ^ 24))
    by (eexists; vm_compute; reflexivity).
  destruct Hc as [q Hc]. rewrite Hc in E. injection E as -> E. exists pool'.
  destruct r as [i|]; cbn [from_option] in E; [|discriminate E].
  assert (i = 0) as -> by (rewrite unit_size_eq in E; simpl in E; lia).
  split; [exact Hc|]. split; [exact Hw | exact Hs].
Defined.

Lemma vmalloc_vfree_roundtrip_witness :
  exists pool' p, kgpu_vmalloc pool_example 1 = Ok (pool', p) /\ p <> NULL /\
    kgpu_vfree pool' p = Ok pool_example.
Proof.
  eexists _, _. split; [vm_compute; reflexivity|]. split; [discriminate|].
  eapply (vmalloc_vfree_roundtrip pool_example 1 _ _ pool_example_wf);
    [unfold vmalloc_max; rewrite unit_size_eq; lia | vm_compute; reflexivity | discriminate].
Defined.

(** ** Requests whose number of units does not fit in 32 bits *)

(** The number of units is truncated to 32 bits, so that [kgpu_vmalloc] of
    any multiple of [2^52] bytes (zero included) that succeeds returns an
    address at which it has reserved nothing: no live block starts there, no
    bit is set, and no other block is created. *)
Theorem vmalloc_truncated_reserves_nothing `{L : BitmapLib} {LL : BitmapLaws L} pool j pool' p :
  pool_wf pool -> 0 <= j < 2 ^ 12 -> kgpu_vmalloc pool (j * 2 ^ 52) = Ok (pool', p) -> p <> NULL ->
  bitmap pool' = bitmap pool /\ pool_blocks pool' !! unit_of pool p = None /\
  pool_blocks pool' ⊆ pool_blocks pool.
Proof.
  intros Hw Hj Hm Hp. destruct (pw_units _ Hw) as (bm & sz & Hb & Ha & Hu).
  rewrite (kgpu_vmalloc_cases _ _ _ _ Hb Ha Hu) in Hm.
  assert (wrap32 (DIV_ROUND_UP (j * 2 ^ 52) KGPU_BUF_UNIT_SIZE) = 0) as Hz.
  { unfold DIV_ROUND_UP. rewrite unit_size_eq. word_lia. }
  rewrite Hz in Hm. set (idx := bitmap_find_next_zero_area bm (nunits pool) 0 0 0) in *.
  pose proof (find_sound bm (nunits pool) 0 0 ltac:(lia) ltac:(lia) (uw_len_bm _ _ _ Hu)) as [Hs _].
  fold idx in Hs. pose proof (uw_len_sz _ _ _ Hu). pose proof (uw_len_bm _ _ _ Hu).
  case_bool_decide as Hc; injection Hm as <- <-; [|done].
  destruct (unit_of_block pool idx Hw ltac:(lia)) as (_ & _ & Hunit). simpl.
  unfold pool_blocks at 1 2. simpl. rewrite blocks_delete, Hunit by lia.
  rewrite (pool_blocks_live _ _ Ha). split_and!; [|apply lookup_delete_eq | apply delete_subseteq].
  rewrite Hb. f_equal. apply list_eq_bits; [apply set_length|]. rewrite set_length.
  intros b Hbn. rewrite set_bits by lia. by rewrite bool_decide_eq_false_2 by lia.
Qed.

(** Two requests, the first of 2^52 bytes, get the same address. *)
Lemma vmalloc_truncated_reserves_nothing_witness :
  exists pool1 pool2 p, kgpu_vmalloc pool_example (1 * 2 ^ 52) = Ok (pool1, p) /\
    p <> NULL /\ bitmap pool1 = bitmap pool_example /\
    kgpu_vmalloc pool1 1 = Ok (pool2, p).
Proof.
  eexists _, _, _. split; [vm_compute; reflexivity|]. split; [discriminate|].
  split; [|vm_compute; reflexivity].
  eapply (vmalloc_truncated_reserves_nothing pool_example 1);
    [exact pool_example_wf | lia | vm_compute; reflexivity | discriminate].
Defined.

(** ** Setting the pool up *)

Lemma fill_pages_spec pt gb_uva i n pg :
  0 <= i -> i + Z.of_nat n <= Z.of_nat (length pg) ->
  exists pg', fill_pages pt gb_uva i n pg = Ok pg' /\ length pg' = length pg /\
    forall j, 0 <= j ->
      nthZ pg' j = if bool_decide (i <= j < i + Z.of_nat n)
                   then kgpu_v2page pt (gb_uva +64 j * PAGE_SIZE) else nthZ pg j.
Proof.
  revert i pg. induction n as [|n IH]; intros i pg Hi Hl; cbn [fill_pages].
  - exists pg. split_and!; [done..|]. intros j Hj. by rewrite bool_decide_eq_false_2 by lia.
  - rewrite array_set_ok by lia. cbn.
    destruct (IH (i + 1) (<[Z.to_nat i := kgpu_v2page pt (gb_uva +64 i * PAGE_SIZE)]> pg))
      as (pg' & E & Hlen & Hnth); [lia | rewrite length_insert; lia|].
    exists pg'. split; [exact E|]. split; [by rewrite Hlen, length_insert|].
    intros j Hj. rewrite Hnth, nthZ_insert by lia.
    repeat case_bool_decide; subst; done || lia.
Qed.

Lemma memset_u32_spec a nbytes :
  nbytes <= 4 * Z.of_nat (length a) ->
  exists a', memset_u32 a nbytes = Ok a' /\ length a' = length a /\
    (forall i, 0 <= i -> nbytes <= 4 * i -> nthZ a' i = nthZ a i) /\
    (forall i, 0 <= i -> 4 * i + 4 <= nbytes -> nthZ a' i = 0) /\
    (forall i, 0 <= i -> nbytes < 4 * i + 4 ->
       nthZ a' i = 0 <-> nthZ a i / 2 ^ (8 * Z.max 0 (nbytes - 4 * i)) = 0).
Proof.
  intros Hl. unfold memset_u32. rewrite bool_decide_eq_true_2 by done.
  eexists. split; [done|]. rewrite length_imap. split; [done|].
  unfold nthZ. setoid_rewrite list_lookup_imap. split_and!; intros i Hi H.
  all: destruct (a !! Z.to_nat i) as [v|] eqn:E; simpl in *; [|done]; rewrite Z2Nat.id by lia.
  - repeat case_bool; lia || done.
  - repeat case_bool; lia || done.
  - repeat case_bool; [lia | |].
    + by rewrite Z.max_l, Z.mul_0_r, Z.pow_0_r, Z.div_1_r by lia.
    + rewrite Z.max_r by lia. pose proof (Z.pow_pos_nonneg 2 (8 * (nbytes - 4 * i))). nia.
Qed.

(** What [memset] of [nu] bytes leaves of a table of [nu] sizes is zero. *)
Definition rest_clear (sz : list Z) (nu : Z) : Prop :=
  forall i, 0 <= i < nu -> nu < 4 * i + 4 ->
    nthZ sz i / 2 ^ (8 * Z.max 0 (nu - 4 * i)) = 0.

Lemma memset_clears_iff sz nu sz' :
  memset_u32 sz nu = Ok sz' ->
  (forall i, 0 <= i < nu -> nthZ sz' i = 0) <-> rest_clear sz nu.
Proof.
  intros E. destruct (memset_u32_spec sz nu) as (sz2 & Em & _ & _ & Hcl & Hr).
  { revert E. unfold memset_u32. by case_bool_decide. }
  rewrite Em in E. injection E as ->. unfold rest_clear. split.
  - intros H i Hi Hm. apply Hr; [lia | done | by apply H].
  - intros H i Hi. destruct (decide (4 * i + 4 <= nu)); [apply Hcl; lia|].
    apply Hr; [lia | lia | apply H; lia].
Qed.

Section setup.
Context `{L : BitmapLib} {LL : BitmapLaws L} (pt : page_tables).

(** The arrays that the setup works on: those of the pool, or new ones. *)
Definition array_of {A} (cur : kptr A) (fresh : option A) : kptr A :=
  if is_null cur then of_kmalloc fresh else cur.

(** [set_gpu_mempool] when the three arrays are there and large enough. *)
Lemma set_gpu_mempool_spec env gb pool pg bm sz :
  let np := wrap32 (mi_size gb / PAGE_SIZE) in
  let nu := np / KGPU_BUF_NR_FRAMES_PER_UNIT in
  array_of (pages pool) (km_pages env) = KLive pg -> np <= Z.of_nat (length pg) ->
  array_of (bitmap pool) (km_bitmap env) = KLive bm -> nu <= Z.of_nat (length bm) ->
  array_of (alloc_sz pool) (km_alloc_sz env) = KLive sz -> nu <= Z.of_nat (length sz) ->
  exists pg' sz', set_gpu_mempool pt env gb pool =
      Ok (mk_mempool (mi_uva gb) (vmap_result env) (KLive pg') np nu
            (KLive (bitmap_zero bm nu)) (KLive sz'),
          if vmap_result env =? NULL then - EFAULT else 0) /\
    length pg' = length pg /\
    (forall j, 0 <= j < np -> nthZ pg' j = kgpu_v2page pt (mi_uva gb +64 j * PAGE_SIZE)) /\
    memset_u32 sz nu = Ok sz'.
Proof.
  intros np nu Hpg Hnp Hbm Hnb Hsz Hns.
  assert (u32_range np) as Hr by apply wrap32_range. unfold u32_range in Hr.
  assert (0 <= nu) by (apply Z.div_pos; [lia | reflexivity]).
  destruct (fill_pages_spec pt (mi_uva gb) 0 (Z.to_nat np) pg) as (pg' & Ef & Hlen & Hnth); [lia..|].
  destruct (memset_u32_spec sz nu) as (sz' & Em & _); [lia|].
  exists pg', sz'. split_and!; [|done| |done].
  - unfold set_gpu_mempool. unfold array_of in *. simpl. rewrite Hpg. simpl. fold np.
    rewrite Ef. cbn [mbind outcome_bind]. fold nu. rewrite Hbm. simpl.
    rewrite bool_decide_eq_true_2 by done. cbn. rewrite Hsz. simpl. rewrite Em. cbn.
    by destruct (vmap_result env =? NULL).
  - intros j Hj. rewrite Hnth by lia. by rewrite bool_decide_eq_true_2 by lia.
Qed.

End setup.

Section setup_claims.
Context `{L : BitmapLib} {LL : BitmapLaws L} (pt : page_tables).

(** The pool after a setup whose [vmap] succeeded is in order exactly when
    what the [memset] left of the table of sizes is zero. *)
Lemma setup_wf_iff gb v pg' bm sz sz' :
  let np := wrap32 (mi_size gb / PAGE_SIZE) in
  let nu := np / KGPU_BUF_NR_FRAMES_PER_UNIT in
  nu <= Z.of_nat (length bm) -> nu <= Z.of_nat (length sz) ->
  0 < v -> v + nu * KGPU_BUF_UNIT_SIZE < 2 ^ 64 -> memset_u32 sz nu = Ok sz' ->
  let pool' := mk_mempool (mi_uva gb) v (KLive pg') np nu (KLive (bitmap_zero bm nu)) (KLive sz') in
  pool_wf pool' /\ pool_blocks pool' = ∅ <-> rest_clear sz nu.
Proof.
  intros np nu Hnb Hns Hv Hroom Hm pool'. rewrite <- (memset_clears_iff _ _ _ Hm). subst pool'.
  assert (u32_range np) as Hr by apply wrap32_range. unfold u32_range in Hr.
  assert (0 <= nu < 2 ^ 32) as Hnu.
  { unfold nu, KGPU_BUF_NR_FRAMES_PER_UNIT. rewrite unit_size_eq. unfold PAGE_SIZE. word_lia. }
  assert (length sz' = length sz) as Hlen.
  { destruct (memset_u32_spec sz nu) as (x & Em & Hx & _); [lia|]. congruence. }
  split.
  - intros [Hw _] i Hi. destruct (pw_units _ Hw) as (bm' & sz3 & Hb' & Ha' & Hu'). simpl in *.
    injection Hb' as <-. injection Ha' as <-. apply (units_wf_free_start _ _ _ i Hu'); [done|].
    apply zero_bits; lia.
  - intros Hz. split.
    + split; [done | done |]. eexists _, _. split; [done|]. split; [done|]. simpl.
      apply units_wf_fresh; [done | lia | rewrite zero_length; lia | done |].
      intros i Hi. apply zero_bits; lia.
    + unfold pool_blocks. simpl. apply map_empty. intros i. apply lookup_blocks_None.
      intros [Hi Hi']. rewrite Hz in Hi' by lia. lia.
Qed.

Lemma set_gpu_mempool_ok env gb pool pg bm sz :
  let np := wrap32 (mi_size gb / PAGE_SIZE) in
  let nu := np / KGPU_BUF_NR_FRAMES_PER_UNIT in
  array_of (pages pool) (km_pages env) = KLive pg -> np <= Z.of_nat (length pg) ->
  array_of (bitmap pool) (km_bitmap env) = KLive bm -> nu <= Z.of_nat (length bm) ->
  array_of (alloc_sz pool) (km_alloc_sz env) = KLive sz -> nu <= Z.of_nat (length sz) ->
  0 < vmap_result env -> vmap_result env + nu * KGPU_BUF_UNIT_SIZE < 2 ^ 64 ->
  exists pool', set_gpu_mempool pt env gb pool = Ok (pool', 0) /\
    uva pool' = mi_uva gb /\ kva pool' = vmap_result env /\ npages pool' = np /\
    nunits pool' = nu /\
    (exists pg', pages pool' = KLive pg' /\
      forall j, 0 <= j < np -> nthZ pg' j = kgpu_v2page pt (mi_uva gb +64 j * PAGE_SIZE)) /\
    (exists bm', bitmap pool' = KLive bm' /\ forall i, 0 <= i < nu -> test_bit bm' i = false) /\
    (pool_wf pool' /\ pool_blocks pool' = ∅ <-> rest_clear sz nu).
Proof.
  intros np nu Hpg Hnp Hbm Hnb Hsz Hns Hv Hroom.
  destruct (set_gpu_mempool_spec pt env gb pool pg bm sz Hpg Hnp Hbm Hnb Hsz Hns)
    as (pg' & sz' & E & _ & Hpages & Hm). fold np nu in E, Hm.
  rewrite (proj2 (Z.eqb_neq _ _)) in E by (unfold NULL; lia).
  eexists. split; [exact E|]. do 4 (split; [done|]). split; [eauto|]. split.
  - eexists. split; [done|]. intros i Hi. apply zero_bits; lia.
  - by apply setup_wf_iff.
Qed.

(** C30: what the ioctl [KGPU_IOC_SET_GPU_BUFS] leaves, when the three arrays
    are there and large enough and [vmap] succeeds: it returns 0; the pool has
    the helper's buffer, [size / 4096] pages, each recorded with the page that
    backs it, and one unit per 1 MB, all marked free in the bitmap.  The table
    of sizes is cleared in its first [nunits] bytes only, so that the pool's
    invariant holds (with no live block) if and only if all its other bytes
    were zero before. *)
Theorem set_gpu_mempool_result env gb pool pg bm sz :
  let np := wrap32 (mi_size gb / PAGE_SIZE) in
  let nu := np / KGPU_BUF_NR_FRAMES_PER_UNIT in
  array_of (pages pool) (km_pages env) = KLive pg -> np <= Z.of_nat (length pg) ->
  array_of (bitmap pool) (km_bitmap env) = KLive bm -> nu <= Z.of_nat (length bm) ->
  array_of (alloc_sz pool) (km_alloc_sz env) = KLive sz -> nu <= Z.of_nat (length sz) ->
  0 < vmap_result env -> vmap_result env + nu * KGPU_BUF_UNIT_SIZE < 2 ^ 64 ->
  exists pool', set_gpu_mempool pt env gb pool = Ok (pool', 0) /\
    uva pool' = mi_uva gb /\ kva pool' = vmap_result env /\ npages pool' = np /\
    nunits pool' = nu /\
    (exists pg', pages pool' = KLive pg' /\
      forall j, 0 <= j < np -> nthZ pg' j = kgpu_v2page pt (mi_uva gb +64 j * PAGE_SIZE)) /\
    (exists bm', bitmap pool' = KLive bm' /\ forall i, 0 <= i < nu -> test_bit bm' i = false) /\
    (pool_wf pool' /\ pool_blocks pool' = ∅ <-> rest_clear sz nu).
Proof. apply set_gpu_mempool_ok. Qed.

(** The [memset] of [set_gpu_mempool] clears [nunits] bytes of a table of
    [nunits] four-byte entries.  When the helper is restarted and sets the
    pool up again, the size of every block that was live in the last three
    quarters of the table survives while its bit is cleared: the new pool
    violates the invariant. *)
Theorem set_gpu_mempool_keeps_stale_sizes env gb pool pool' i :
  pool_wf pool -> set_gpu_mempool pt env gb pool = Ok (pool', 0) ->
  (exists pg, pages pool = KLive pg /\ wrap32 (mi_size gb / PAGE_SIZE) <= Z.of_nat (length pg)) ->
  nunits pool = wrap32 (mi_size gb / PAGE_SIZE) / KGPU_BUF_NR_FRAMES_PER_UNIT ->
  is_Some (pool_blocks pool !! i) -> nunits pool <= 4 * i ->
  pool_blocks pool' !! i = pool_blocks pool !! i /\ ~ pool_wf pool'.
Proof.
  intros Hw E (pg & Hpg & Hnp) Hnu [k Hk] Hi.
  destruct (pw_units _ Hw) as (bm & sz & Hb & Ha & Hu).
  pose proof (uw_len_sz _ _ _ Hu) as Hls. pose proof (uw_len_bm _ _ _ Hu) as Hlb.
  rewrite (pool_blocks_live _ _ Ha) in *. pose proof Hk as Hk'. rewrite Hk.
  apply lookup_blocks in Hk as (Hin & Hik & Hk0). rewrite Hnu in Hls, Hlb.
  destruct (set_gpu_mempool_spec pt env gb pool pg bm sz) as (pg' & sz' & E' & _ & _ & Hm);
    [unfold array_of; by rewrite ?Hpg, ?Hb, ?Ha | done.. |
     unfold array_of; by rewrite Hb | done | unfold array_of; by rewrite Ha | done |].
  rewrite E in E'. rewrite <- Hnu in *. injection E' as -> _.
  destruct (memset_u32_spec sz (nunits pool)) as (sz'' & Em & Hlen & Hkeep & _ & _);
    [rewrite Hnu; lia|]. rewrite Em in Hm. injection Hm as ->.
  assert (nthZ sz' i = k) as Hst by (rewrite Hkeep by lia; done).
  split; [unfold pool_blocks; simpl; apply lookup_blocks; split_and!; done || lia|].
  intros Hw'. destruct (pw_units _ Hw') as (bm' & sz3 & Hb' & Ha' & Hu'). simpl in *.
  injection Hb' as <-. injection Ha' as <-.
  pose proof (proj2 (uw_bits _ _ _ Hu' i Hin)) as Hbit.
  rewrite zero_bits in Hbit by lia. discriminate Hbit. exists i. lia.
Qed.

(** When the last [kmalloc] of [set_gpu_mempool] fails the ioctl returns
    [-ENOMEM] but leaves the number of units and the bitmap of the pool set,
    so that the next [kgpu_vmalloc] of any client that finds room in the
    bitmap dereferences the NULL sizes table. *)
Theorem set_gpu_mempool_enomem_then_fault env gb pg bm nbytes :
  let np := wrap32 (mi_size gb / PAGE_SIZE) in
  let nu := np / KGPU_BUF_NR_FRAMES_PER_UNIT in
  km_pages env = Some pg -> np <= Z.of_nat (length pg) ->
  km_bitmap env = Some bm -> nu <= Z.of_nat (length bm) ->
  km_alloc_sz env = None -> 0 < nbytes <= nu * KGPU_BUF_UNIT_SIZE ->
  exists pool', set_gpu_mempool pt env gb mempool_zero = Ok (pool', - ENOMEM) /\
    kgpu_vmalloc pool' nbytes = Fault NullDeref.
Proof.
  intros np nu Hpg Hnp Hbm Hnb Hsz Hn.
  assert (u32_range np) as Hr by apply wrap32_range. unfold u32_range in Hr.
  assert (0 <= nu < 2 ^ 32 - 1) as Hnu.
  { unfold nu, KGPU_BUF_NR_FRAMES_PER_UNIT. rewrite unit_size_eq. unfold PAGE_SIZE. word_lia. }
  destruct (fill_pages_spec pt (mi_uva gb) 0 (Z.to_nat np) pg) as (pg' & Ef & _); [lia..|].
  eexists. split.
  - unfold set_gpu_mempool. simpl. rewrite Hpg. simpl. fold np. rewrite Ef.
    cbn [mbind outcome_bind]. fold nu. rewrite Hbm. simpl.
    rewrite bool_decide_eq_true_2 by done. cbn. rewrite Hsz. simpl. reflexivity.
  - rewrite unit_size_eq in Hn. unfold kgpu_vmalloc, find_area. simpl.
    rewrite (proj2 (Z.eqb_neq nu 0)) by lia. cbn.
    destruct (req_units_spec nbytes) as (-> & Hk0 & Hkb);
      [unfold vmalloc_max; rewrite unit_size_eq; lia|]. rewrite unit_size_eq in *.
    rewrite (proj2 (Z.ltb_lt _ _)); [done|].
    eapply Z.le_lt_trans; [apply (find_first _ nu 0 _ 0); try lia|lia].
    + rewrite zero_length. done.
    + intros j Hj. apply zero_bits; lia.
Qed.

End setup_claims.

(** Page tables in which every address is mapped, and the answers of an
    allocator that succeeds, for the helper's buffer of [KGPU_BUF_SIZE]. *)
Definition pt_example : page_tables :=
  mk_page_tables (fun _ => false) (fun _ => false) (fun _ => false) (fun _ => true)
    (fun v => v / PAGE_SIZE + 1).

Definition env_example (sz : option (list Z)) : setup_env :=
  mk_setup_env (Some (repeat 0 512)) (Some (repeat true 64)) sz (2 ^ 24).

Definition hostbuf_example : kgpu_gpu_mem_info := mk_mem_info 4096 KGPU_BUF_SIZE.

(** With the helper's buffer of two units and a table of two entries: zeros
    give a pool in order, an old 7 in the second entry does not. *)
Lemma set_gpu_mempool_result_witness :
  (exists pool', set_gpu_mempool pt_example (env_example (Some [9; 0])) hostbuf_example mempool_zero =
      Ok (pool', 0) /\ pool_wf pool' /\ pool_blocks pool' = ∅) /\
  exists pool', set_gpu_mempool pt_example (env_example (Some [0; 7])) hostbuf_example mempool_zero =
      Ok (pool', 0) /\ ~ (pool_wf pool' /\ pool_blocks pool' = ∅).
Proof.
  split.
  - destruct (set_gpu_mempool_result pt_example (env_example (Some [9; 0])) hostbuf_example
      mempool_zero (repeat 0 512) (repeat true 64) [9; 0]) as (pool' & E & _ & _ & _ & _ & _ & _ & Hi);
      try reflexivity; try (vm_compute; congruence).
    exists pool'. split; [exact E|]. apply Hi. intros i Hn _. change (0 <= i < 2) in Hn.
    assert (i = 0 \/ i = 1) as [-> | ->] by lia; vm_compute; reflexivity.
  - destruct (set_gpu_mempool_result pt_example (env_example (Some [0; 7])) hostbuf_example
      mempool_zero (repeat 0 512) (repeat true 64) [0; 7]) as (pool' & E & _ & _ & _ & _ & _ & _ & Hi);
      try reflexivity; try (vm_compute; congruence).
    exists pool'. split; [exact E|]. rewrite Hi. intros Hc.
    assert (nthZ [0; 7] 1 / 2 ^ (8 * Z.max 0 (2 - 4 * 1)) = 0) as Hn
      by (apply (Hc 1); [change (0 <= 1 < 2); lia | change (2 < 4 * 1 + 4); lia]).
    vm_compute in Hn. discriminate Hn.
Defined.

(** The pool of [pool_example] after both units were taken, one by one. *)
Definition pool_full : kgpu_mempool :=
  mk_mempool 4096 (2 ^ 24) (KLive (repeat 1 512)) 512 2
    (KLive (true :: true :: repeat false 62)) (KLive [1; 1]).

Lemma pool_full_wf : pool_wf pool_full.
Proof.
  destruct (kgpu_vmalloc_step pool_example 1 pool_example_wf) as (p1 & r1 & E1 & W1 & _);
    [unfold vmalloc_max; rewrite unit_size_eq; lia|].
  destruct (kgpu_vmalloc_step p1 1 W1) as (p2 & r2 & E2 & W2 & _);
    [unfold vmalloc_max; rewrite unit_size_eq; lia|].
  assert (E : (kgpu_vmalloc pool_example 1 ≫= fun r => kgpu_vmalloc r.1 1) =
              Ok (pool_full, 2 ^ 24 + 2 ^ 20)) by (vm_compute; reflexivity).
  rewrite E1 in E. cbn in E. rewrite E2 in E. injection E as -> _. exact W2.
Qed.

Lemma set_gpu_mempool_keeps_stale_sizes_witness :
  exists pool', set_gpu_mempool pt_example (env_example None) hostbuf_example pool_full =
      Ok (pool', 0) /\ pool_blocks pool' !! 1 = Some 1 /\ ~ pool_wf pool'.
Proof.
  eexists. split; [vm_compute; reflexivity|].
  eapply (set_gpu_mempool_keeps_stale_sizes pt_example (env_example None) hostbuf_example
            pool_full _ 1 pool_full_wf); [vm_compute; reflexivity | | reflexivity | | ].
  - exists (repeat 1 512). split; [reflexivity | vm_compute; congruence].
  - exists 1. reflexivity.
  - vm_compute. congruence.
Defined.

Lemma set_gpu_mempool_enomem_then_fault_witness :
  exists pool', set_gpu_mempool pt_example (env_example None) hostbuf_example mempool_zero =
      Ok (pool', - ENOMEM) /\ kgpu_vmalloc pool' 1024 = Fault NullDeref.
Proof.
  apply (set_gpu_mempool_enomem_then_fault pt_example (env_example None) hostbuf_example
           (repeat 0 512) (repeat true 64) 1024);
    try reflexivity; try (vm_compute; congruence).
  rewrite unit_size_eq. vm_compute. intuition congruence.
Defined.
