(* ===== verification/PoolLock.v ===== *)
(** * The pool under concurrent calls
      ([kgpu_vmalloc] and [kgpu_vfree], src/kgpu/src/kernelSpace/main.c)

    [kgpu_vmalloc] works under [gmpool_lock] from its search to the end, but
    [kgpu_vfree] looks up the size of the block before it takes the lock.
    [pool_step] interleaves the calls of any number of clients at these
    points.  As long as a block is freed by the client that holds it, every
    interleaving is a sequence of whole calls; two calls of [kgpu_vfree] for
    the same pointer at the same time can free the block of a third client. *)

From S2P Require Import Prelude KgpuDefs UnitAlloc MemPool.

(** ** The two parts of [kgpu_vfree] *)

Section parts.
Context `{L : BitmapLib}.

(** The tests before the lock: the unit and the size it reads, if any. *)
Definition vfree_check (pool : kgpu_mempool) (p : Z) : outcome (option (Z * Z)) :=
  let idx := (p -64 kva pool) / KGPU_BUF_UNIT_SIZE in
  if nunits pool <=? idx then mret None
  else
    a ← deref (alloc_sz pool);
    n ← array_get a idx;
    if n =? 0 then mret None
    else if (nunits pool -64 idx) <? n then mret None
    else mret (Some (idx, n)).

(** The part under the lock. *)
Definition vfree_clear (pool : kgpu_mempool) (idx n : Z) : outcome kgpu_mempool :=
  b ← deref (bitmap pool);
  let b := bitmap_clear b idx n in
  a ← deref (alloc_sz pool);
  a ← array_set a idx 0;
  mret (set_arrays pool (pages pool) (nunits pool) (KLive b) (KLive a)).

(** The two parts in sequence are the function. *)
Lemma kgpu_vfree_parts pool p :
  kgpu_vfree pool p =
    (o ← vfree_check pool p;
     match o with Some (idx, n) => vfree_clear pool idx n | None => mret pool end).
Proof.
  unfold kgpu_vfree, vfree_check, vfree_clear.
  destruct (nunits pool <=? _); [done|]. destruct (deref (alloc_sz pool)) as [a|]; [|done].
  cbn [mbind outcome_bind]. destruct (array_get a _) as [n|]; [|done]. cbn [mbind outcome_bind].
  destruct (n =? 0); [done|]. by destruct (_ <? n).
Qed.

(** ** Interleaved calls *)

(** The pool, the client that holds each pointer, and for the clients inside
    [kgpu_vfree] the pointer and what they have read. *)
Record pool_sys : Type := mk_pool_sys {
  py_pool : kgpu_mempool;
  py_own : gmap Z Z;
  py_freeing : gmap Z (Z * Z * Z)
}.

Inductive pool_step (s : pool_sys) : pool_sys -> Prop :=
  | PS_malloc t nbytes pool p :
      py_freeing s !! t = None -> 0 < nbytes <= vmalloc_max ->
      kgpu_vmalloc (py_pool s) nbytes = Ok (pool, p) ->
      pool_step s (mk_pool_sys pool (if p =? NULL then py_own s else <[p := t]> (py_own s)) (py_freeing s))
  | PS_check t p idx n :
      py_freeing s !! t = None -> py_own s !! p = Some t ->
      vfree_check (py_pool s) p = Ok (Some (idx, n)) ->
      pool_step s (mk_pool_sys (py_pool s) (delete p (py_own s)) (<[t := (p, idx, n)]> (py_freeing s)))
  | PS_clear t p idx n pool :
      py_freeing s !! t = Some (p, idx, n) -> vfree_clear (py_pool s) idx n = Ok pool ->
      pool_step s (mk_pool_sys pool (py_own s) (delete t (py_freeing s))).

Definition pool_start (pool : kgpu_mempool) : pool_sys := mk_pool_sys pool ∅ ∅.

(** Whole calls, one after the other. *)
Inductive pool_call : Type :=
  | Malloc (nbytes : Z)
  | Free (p : Z).

Fixpoint run_calls (cs : list pool_call) (pool : kgpu_mempool) : outcome kgpu_mempool :=
  match cs with
  | [] => mret pool
  | Malloc n :: cs => '(pool, _) ← kgpu_vmalloc pool n; run_calls cs pool
  | Free p :: cs => pool ← kgpu_vfree pool p; run_calls cs pool
  end.

Lemma run_calls_snoc cs c pool pool1 :
  run_calls cs pool = Ok pool1 -> run_calls (cs ++ [c]) pool = run_calls [c] pool1.
Proof.
  revert pool. induction cs as [|[n|p] cs IH]; intros pool E; simpl in *; [by injection E as <-| |].
  - apply bind_ok in E as ([pool2 q] & -> & E). simpl. by apply IH.
  - apply bind_ok in E as (pool2 & -> & E). simpl. by apply IH.
Qed.

End parts.

(** ** The invariant *)

Section proofs.
Context `{L : BitmapLib} {LL : BitmapLaws L} (pool0 : kgpu_mempool).

Definition addr (i : Z) : Z := kva pool0 + i * KGPU_BUF_UNIT_SIZE.

(** The live blocks are those that a client holds or is freeing, once each. *)
Record pool_sys_inv (s : pool_sys) : Prop := {
  pi_wf : pool_wf (py_pool s);
  pi_same : same_pool pool0 (py_pool s);
  pi_own p t : py_own s !! p = Some t -> exists i k, p = addr i /\ pool_blocks (py_pool s) !! i = Some k;
  pi_freeing t p i n : py_freeing s !! t = Some (p, i, n) ->
    p = addr i /\ pool_blocks (py_pool s) !! i = Some n /\ py_own s !! p = None;
  pi_inj t t' p i n p' n' : py_freeing s !! t = Some (p, i, n) -> py_freeing s !! t' = Some (p', i, n') ->
    t = t';
  pi_blocks i k : pool_blocks (py_pool s) !! i = Some k ->
    is_Some (py_own s !! addr i) \/ exists t, py_freeing s !! t = Some (addr i, i, k);
  pi_linear : exists cs, run_calls cs pool0 = Ok (py_pool s)
}.

Lemma addr_inj i j : addr i = addr j -> i = j.
Proof. unfold addr. rewrite unit_size_eq. lia. Qed.

(** What [kgpu_vfree] reads for the first address of a block, and that its
    second part is then the whole call. *)
Lemma vfree_check_block pool i k :
  pool_wf pool -> same_pool pool0 pool -> pool_blocks pool !! i = Some k ->
  vfree_check pool (addr i) = Ok (Some (i, k)) /\ kgpu_vfree pool (addr i) = vfree_clear pool i k.
Proof.
  intros Hw (_ & Ek & _) Hi. pose proof (pw_units _ Hw) as (bm & sz & Hb & Ha & Hu).
  pose proof Hi as Hi'. rewrite (pool_blocks_live _ _ Ha) in Hi'. apply lookup_blocks in Hi' as (Hr & Hn & Hk).
  destruct (unit_of_block pool i Hw Hr) as (Ep & _ & Eu). cbv zeta in *. rewrite Ep, Ek in Eu. fold (addr i) in Eu.
  assert (E : vfree_check pool (addr i) = Ok (Some (i, k))).
  { unfold vfree_check. fold (unit_of pool (addr i)). rewrite Eu, (proj2 (Z.leb_gt _ _)) by lia.
    rewrite Ha. cbn [deref mbind outcome_bind]. pose proof (uw_len_sz _ _ _ Hu).
    rewrite array_get_nthZ by lia. cbn [mbind outcome_bind]. rewrite Hn, (proj2 (Z.eqb_neq k 0)) by lia.
    pose proof (uw_block _ _ _ Hu i ltac:(lia)) as Hblk. pose proof (uw_n _ _ _ Hu) as Hnn.
    rewrite wrap64_id by (unfold u32_range, u64_range in *; lia).
    by rewrite (proj2 (Z.ltb_ge _ _)) by lia. }
  split; [done|]. by rewrite kgpu_vfree_parts, E.
Qed.

Lemma same_pool_trans pool pool' : same_pool pool0 pool -> same_pool pool pool' -> same_pool pool0 pool'.
Proof. unfold same_pool. intros (?&?&?&?) (?&?&?&?). split_and!; congruence. Qed.

(** An allocation: nothing, or a new block with its address. *)
Lemma vmalloc_result pool nbytes :
  pool_wf pool -> same_pool pool0 pool -> 0 < nbytes <= vmalloc_max ->
  exists pool' p, kgpu_vmalloc pool nbytes = Ok (pool', p) /\ pool_wf pool' /\ same_pool pool0 pool' /\
    ((p = NULL /\ pool_blocks pool' = pool_blocks pool) \/
     exists i k, p = addr i /\ p <> NULL /\ pool_blocks pool !! i = None /\
       pool_blocks pool' = <[i := k]> (pool_blocks pool)).
Proof.
  intros Hw Hs Hn. destruct (kgpu_vmalloc_step pool nbytes Hw Hn) as (pool' & r & E & Hw' & Hstep).
  exists pool', (from_option (fun i => kva pool + i * KGPU_BUF_UNIT_SIZE) NULL r).
  split; [done|]. split; [done|].
  split; [by eapply same_pool_trans, kgpu_vmalloc_same|].
  pose proof (pw_units _ Hw) as (bm & sz & Hb & Ha & Hu). pose proof (pw_kva _ Hw) as Hkva.
  inversion Hstep as [m i k Hk Hf _ Em Ee Em' | | |]; subst; [right|by left].
  exists i, (DIV_ROUND_UP nbytes KGPU_BUF_UNIT_SIZE). simpl. destruct Hs as (_ & Ek & _).
  unfold addr. rewrite Ek. split; [done|]. pose proof (proj1 Hf).
  split; [rewrite Ek in Hkva; unfold NULL; rewrite unit_size_eq; lia|]. split; [|done].
  rewrite (pool_blocks_live _ _ Ha) in *. by eapply blocks_fits_new.
Qed.

Lemma malloc_inv s t nbytes pool p :
  pool_sys_inv s -> 0 < nbytes <= vmalloc_max -> kgpu_vmalloc (py_pool s) nbytes = Ok (pool, p) ->
  pool_sys_inv (mk_pool_sys pool (if p =? NULL then py_own s else <[p := t]> (py_own s)) (py_freeing s)).
Proof.
  intros [Iw Is Io If Ii Ib (cs & Il)] Hn E.
  destruct (vmalloc_result (py_pool s) nbytes Iw Is Hn) as (pool' & p' & E' & Hw & Hs & Hcase).
  rewrite E in E'. injection E' as <- <-.
  assert (Hl : exists cs, run_calls cs pool0 = Ok pool).
  { exists (cs ++ [Malloc nbytes]). rewrite (run_calls_snoc _ _ _ _ Il). simpl. by rewrite E. }
  destruct Hcase as [[-> Eb]|(i & k & -> & Hne & Hnew & Eb)].
  { split; simpl; try done; rewrite Eb; done. }
  rewrite (proj2 (Z.eqb_neq _ _) Hne).
  assert (Hfresh : forall x q, pool_blocks (py_pool s) !! x = Some q -> x <> i) by (intros ? ? ? ->; congruence).
  split; simpl; try done; rewrite ?Eb.
  - intros p u [[<- <-]|[_ Hp]]%lookup_insert_Some; [exists i, k; by rewrite lookup_insert_eq|].
    destruct (Io _ _ Hp) as (j & kj & -> & Hj). exists j, kj.
    by rewrite lookup_insert_ne by (intros <-; by apply (Hfresh i kj)).
  - intros u p j n Hu. destruct (If _ _ _ _ Hu) as (-> & Hj & Hno). pose proof (Hfresh _ _ Hj).
    split_and!; [done | by rewrite lookup_insert_ne |].
    rewrite lookup_insert_ne; [done|]. intros ?%addr_inj. congruence.
  - intros j kj [[<- <-]|[Hj Hb]]%lookup_insert_Some.
    + left. by rewrite lookup_insert_eq.
    + destruct (Ib _ _ Hb) as [Ho|?]; [left | by right].
      rewrite lookup_insert_ne; [done|]. intros ?%addr_inj. congruence.
Qed.

Lemma check_inv s t p idx n :
  pool_sys_inv s -> py_freeing s !! t = None -> py_own s !! p = Some t ->
  vfree_check (py_pool s) p = Ok (Some (idx, n)) ->
  pool_sys_inv (mk_pool_sys (py_pool s) (delete p (py_own s)) (<[t := (p, idx, n)]> (py_freeing s))).
Proof.
  intros [Iw Is Io If Ii Ib Il] Ht Hp E. destruct (Io _ _ Hp) as (i & k & -> & Hi).
  destruct (vfree_check_block _ i k Iw Is Hi) as [E' _]. rewrite E in E'. injection E' as -> ->.
  assert (Hno : forall u q m, py_freeing s !! u <> Some (q, i, m)).
  { intros u q m Hu. destruct (If _ _ _ _ Hu) as (-> & _ & Hn). congruence. }
  split; simpl; try done.
  - intros q u [_ Hq]%lookup_delete_Some. eauto.
  - intros u q j m [[<- [= <- <- <-]]|[Hne Hu]]%lookup_insert_Some; [by rewrite lookup_delete_eq|].
    destruct (If _ _ _ _ Hu) as (-> & Hj & Hn). split_and!; [done..|].
    apply lookup_delete_None. by right.
  - intros u u' q j m q' m' [[<- [= <- <- <-]]|[_ Hu]]%lookup_insert_Some
      [[<- [= <- <-]]|[_ Hu']]%lookup_insert_Some; try done.
    + by apply Hno in Hu'.
    + subst. by apply Hno in Hu.
    + by eapply Ii.
  - intros j m Hj. destruct (decide (j = i)) as [->|Hne].
    + right. exists t. rewrite Hi in Hj. injection Hj as <-. by rewrite lookup_insert_eq.
    + destruct (Ib _ _ Hj) as [Ho|[u Hu]].
      * left. rewrite lookup_delete_ne; [done|]. intros ?%addr_inj. congruence.
      * right. exists u. rewrite lookup_insert_ne; [done|]. intros ->. congruence.
Qed.

Lemma clear_inv s t p idx n pool :
  pool_sys_inv s -> py_freeing s !! t = Some (p, idx, n) -> vfree_clear (py_pool s) idx n = Ok pool ->
  pool_sys_inv (mk_pool_sys pool (py_own s) (delete t (py_freeing s))).
Proof.
  intros [Iw Is Io If Ii Ib (cs & Il)] Ht E. destruct (If _ _ _ _ Ht) as (-> & Hi & Hno).
  destruct (vfree_check_block _ idx n Iw Is Hi) as [_ Ef].
  destruct (kgpu_vfree_block (py_pool s) idx n Iw Hi) as (pool' & E' & Hw & Hs & Eb).
  assert (Ek : kva (py_pool s) = kva pool0) by apply Is. rewrite Ek in E'. fold (addr idx) in E'.
  pose proof E' as E2. rewrite Ef, E in E2. injection E2 as <-.
  split; simpl; try done; rewrite ?Eb.
  - by eapply same_pool_trans.
  - intros q u Hq. destruct (Io _ _ Hq) as (j & k & -> & Hj). exists j, k. split; [done|].
    rewrite lookup_delete_ne; [done|]. intros <-. congruence.
  - intros u q j m [Hne Hu]%lookup_delete_Some. destruct (If _ _ _ _ Hu) as (-> & Hj & Hn).
    split_and!; [done | | done]. rewrite lookup_delete_ne; [done|]. intros <-.
    by apply Hne, (Ii t u _ _ _ _ _ Ht Hu).
  - intros u u' q j m q' m' [_ Hu]%lookup_delete_Some [_ Hu']%lookup_delete_Some. by eapply Ii.
  - intros j k [Hne Hj]%lookup_delete_Some. destruct (Ib _ _ Hj) as [?|[u Hu]]; [by left|].
    right. exists u. rewrite lookup_delete_ne; [done|]. intros <-. congruence.
  - exists (cs ++ [Free (addr idx)]). rewrite (run_calls_snoc _ _ _ _ Il). simpl. by rewrite E'.
Qed.

Lemma pool_sys_inv_start : pool_wf pool0 -> pool_blocks pool0 = ∅ -> pool_sys_inv (pool_start pool0).
Proof.
  intros Hw He. split; simpl; try done.
  - intros i k. by rewrite He.
  - by exists [].
Qed.

Lemma pool_steps_inv s :
  pool_wf pool0 -> pool_blocks pool0 = ∅ -> rtc pool_step (pool_start pool0) s -> pool_sys_inv s.
Proof.
  intros Hw He. refine (rtc_ind_r pool_sys_inv (pool_start pool0) _ _ s).
  - by apply pool_sys_inv_start.
  - intros x y _ Hxy Hx. destruct Hxy.
    + by eapply malloc_inv.
    + by eapply check_inv.
    + by eapply clear_inv.
Qed.

(** The bytes of two blocks. *)
Definition apart (pool : kgpu_mempool) (p p' : Z) : Prop :=
  exists i k j kj, p = addr i /\ p' = addr j /\
    pool_blocks pool !! i = Some k /\ pool_blocks pool !! j = Some kj /\
    (p + k * KGPU_BUF_UNIT_SIZE <= p' \/ p' + kj * KGPU_BUF_UNIT_SIZE <= p).

Lemma held_apart s p p' t t' :
  pool_sys_inv s -> py_own s !! p = Some t -> py_own s !! p' = Some t' -> p <> p' ->
  apart (py_pool s) p p'.
Proof.
  intros [Iw _ Io _ _ _ _] Hp Hp' Hne. destruct (Io _ _ Hp) as (i & k & -> & Hi).
  destruct (Io _ _ Hp') as (j & kj & -> & Hj). exists i, k, j, kj. split_and!; try done.
  pose proof (pw_units _ Iw) as (bm & sz & _ & Ha & Hu). rewrite (pool_blocks_live _ _ Ha) in Hi, Hj.
  destruct (blocks_inv _ _ _ Hu) as [_ Hd].
  assert (Hij : i <> j) by (intros ->; done).
  unfold addr. rewrite unit_size_eq. destruct (Hd _ _ _ _ Hi Hj Hij); lia.
Qed.

(** C12: clients that call [kgpu_vmalloc] and [kgpu_vfree] at the same time, in
    any interleaving of the code inside and outside of the lock, and free
    only what they hold: the pool is in a state that whole calls in some
    order lead to, no two clients hold overlapping blocks, no call can fault
    at any point, a free finds its block, and when everything is freed no
    block is left. *)
Theorem pool_calls_linearizable s :
  pool_wf pool0 -> pool_blocks pool0 = ∅ -> rtc pool_step (pool_start pool0) s ->
  (exists cs, run_calls cs pool0 = Ok (py_pool s)) /\
  (forall p p' t t', py_own s !! p = Some t -> py_own s !! p' = Some t' -> p <> p' ->
     apart (py_pool s) p p') /\
  (forall nbytes, 0 < nbytes <= vmalloc_max -> is_ok (kgpu_vmalloc (py_pool s) nbytes) = true) /\
  (forall p t, py_own s !! p = Some t -> exists i n, vfree_check (py_pool s) p = Ok (Some (i, n))) /\
  (forall t p i n, py_freeing s !! t = Some (p, i, n) ->
     vfree_clear (py_pool s) i n = kgpu_vfree (py_pool s) p /\ is_ok (kgpu_vfree (py_pool s) p) = true) /\
  (py_own s = ∅ -> py_freeing s = ∅ -> pool_blocks (py_pool s) = ∅).
Proof.
  intros Hw He Hs. pose proof (pool_steps_inv s Hw He Hs) as Hi. pose proof Hi as [Iw Is Io If _ Ib Il].
  split_and!; [done | by intros; eapply held_apart | | | |].
  - intros nbytes Hn. by destruct (vmalloc_result _ nbytes Iw Is Hn) as (? & ? & -> & _).
  - intros p t Hp. destruct (Io _ _ Hp) as (i & k & -> & Hik). exists i, k.
    by apply (vfree_check_block _ i k Iw Is Hik).
  - intros t p i n Ht. destruct (If _ _ _ _ Ht) as (-> & Hin & _).
    split; [symmetry; by apply vfree_check_block|].
    by destruct (kgpu_vfree_step (py_pool s) (addr i) Iw) as (? & -> & _).
  - intros Ho Hf. apply map_empty. intros i. destruct (_ !! i) as [k|] eqn:E; [|done].
    destruct (Ib _ _ E) as [[? Hx]|[t Hx]]; [by rewrite Ho in Hx | by rewrite Hf in Hx].
Qed.

End proofs.

(** Two clients have a block each, and one of them is inside [kgpu_vfree]. *)
Definition pool_after (pool : kgpu_mempool) : kgpu_mempool :=
  match kgpu_vmalloc pool 1 with Ok (pool, _) => pool | Fault _ => pool end.

Definition two_clients : pool_sys :=
  mk_pool_sys (pool_after (pool_after pool_example)) (delete 16777216 (<[17825792 := 2]> {[16777216 := 1]}))
    {[1 := (16777216, 0, 1)]}.

Lemma two_clients_reached : rtc pool_step (pool_start pool_example) two_clients.
Proof.
  eapply rtc_l; [exact (PS_malloc (pool_start pool_example) 1 1 (pool_after pool_example) 16777216
    eq_refl ltac:(unfold vmalloc_max; rewrite unit_size_eq; lia) eq_refl)|].
  eapply rtc_l; [exact (PS_malloc (mk_pool_sys (pool_after pool_example) {[16777216 := 1]} ∅) 2 1
    (pool_after (pool_after pool_example)) 17825792 eq_refl
    ltac:(unfold vmalloc_max; rewrite unit_size_eq; lia) eq_refl)|].
  apply rtc_once. exact (PS_check (mk_pool_sys (pool_after (pool_after pool_example))
    (<[17825792 := 2]> {[16777216 := 1]}) ∅) 1 16777216 0 1 eq_refl eq_refl eq_refl).
Qed.

Lemma pool_calls_linearizable_witness :
  (exists cs, run_calls cs pool_example = Ok (py_pool two_clients)) /\
  vfree_clear (py_pool two_clients) 0 1 = kgpu_vfree (py_pool two_clients) 16777216.
Proof.
  destruct (pool_calls_linearizable pool_example two_clients) as (Hl & _ & _ & _ & Hf & _).
  - exact pool_example_wf.
  - by vm_compute.
  - exact two_clients_reached.
  - split; [exact Hl|]. apply (Hf 1 16777216 0 1). reflexivity.
Defined.

(** Two calls of [kgpu_vfree] for one pointer: the second one finds the size
    before the first one clears it, and goes on when the block belongs to
    another client, whose memory is then given out again.  In sequence the
    second call has no effect. *)
Lemma vfree_race_shares_block :
  exists pool1 pool2 pool3 pool4 pool5 p,
    kgpu_vmalloc pool_example 1 = Ok (pool1, p) /\
    vfree_check pool1 p = Ok (Some (0, 1)) /\
    kgpu_vfree pool1 p = Ok pool2 /\ kgpu_vfree pool2 p = Ok pool2 /\
    kgpu_vmalloc pool2 1 = Ok (pool3, p) /\
    vfree_clear pool3 0 1 = Ok pool4 /\
    kgpu_vmalloc pool4 1 = Ok (pool5, p).
Proof. eexists _, _, _, _, _, _. repeat (split; [by vm_compute|]). by vm_compute. Qed.
