(* ===== verification/MmapArea.v ===== *)
(** * The mmap area of the kernel module
      (src/kgpu/src/kernelSpace/main.c)

    [struct _kgpu_vma] and its operations: the helper maps the device
    ([kgpu_mmap], [set_vm]); clients in the kernel take runs of pages of that
    area ([kgpu_alloc_mmap_area]), insert their own pages into the helper's
    address space ([map_page_units], [kgpu_map_page]) and give them back
    ([kgpu_free_mmap_area], [kgpu_unmap_area]).  The virtual-memory functions
    of Linux ([vm_insert_page], [zap_vma_ptes], [pfn_to_page]) are a
    parameter; a memory area is its bounds, its flags and its page-table
    entries. *)

From S2P Require Import Prelude KgpuDefs UnitAlloc MemPool.

Record vm_area_struct : Type := mk_vm_area {
  vm_start : Z;
  vm_end : Z;
  vm_flags : Z;
  vm_ptes : gmap Z Z
}.

Record kgpu_vma : Type := mk_vma {
  vma : option vm_area_struct;
  v_start : Z;
  v_end : Z;
  v_npages : Z;
  v_alloc_sz : kptr (list Z);
  v_bitmap : kptr (list bool)
}.

(** [memset(&kgpudev.vm, 0, ...)] of [kgpu_init]. *)
Definition vma_zero : kgpu_vma := mk_vma None 0 0 0 KNull KNull.

(** The flags of linux/mm.h that the driver uses. *)
Definition VM_PFNMAP : Z := 2 ^ 10.

Definition VM_LOCKED : Z := 2 ^ 13.

Definition VM_IO : Z := 2 ^ 14.

Definition VM_DONTEXPAND : Z := 2 ^ 18.

Definition VM_DONTDUMP : Z := 2 ^ 26.

(** Linux's functions on an area: the new area and the return value. *)
Class VmLib : Type := {
  vm_insert_page : vm_area_struct -> Z -> Z -> vm_area_struct * Z;
  zap_vma_ptes : vm_area_struct -> Z -> Z -> vm_area_struct * Z;
  pfn_to_page : Z -> Z
}.

(** Their documented behaviour: an insertion maps the page at the address, or
    fails with a negative code and maps nothing; zapping a range of a PFNMAP
    area removes exactly its entries; bounds and flags are not changed
    otherwise. *)
Class VmLaws (V : VmLib) : Prop := {
  insert_ok : forall a addr pg, 0 <= (vm_insert_page a addr pg).2 ->
    (vm_insert_page a addr pg).1 =
    mk_vm_area (vm_start a) (vm_end a) (vm_flags a) (<[addr := pg]> (vm_ptes a));
  insert_fail : forall a addr pg, (vm_insert_page a addr pg).2 < 0 ->
    (vm_insert_page a addr pg).1 = a;
  zap_keeps : forall a addr size,
    vm_start (zap_vma_ptes a addr size).1 = vm_start a /\
    vm_end (zap_vma_ptes a addr size).1 = vm_end a /\
    vm_flags (zap_vma_ptes a addr size).1 = vm_flags a;
  zap_range : forall a addr size q,
    Z.land (vm_flags a) VM_PFNMAP = VM_PFNMAP ->
    vm_start a <= addr -> addr + size <= vm_end a ->
    vm_ptes (zap_vma_ptes a addr size).1 !! q =
    if bool_decide (addr <= q < addr + size) then None else vm_ptes a !! q
}.

(** The allocator part of the structure. *)
Definition set_v_arrays (vm : kgpu_vma) (a : kptr (list Z)) (b : kptr (list bool)) : kgpu_vma :=
  mk_vma (vma vm) (v_start vm) (v_end vm) (v_npages vm) a b.

Definition set_vma (vm : kgpu_vma) (a : vm_area_struct) : kgpu_vma :=
  mk_vma (Some a) (v_start vm) (v_end vm) (v_npages vm) (v_alloc_sz vm) (v_bitmap vm).

Definition set_vm_flags (a : vm_area_struct) (f : Z) : vm_area_struct :=
  mk_vm_area (vm_start a) (vm_end a) f (vm_ptes a).

Section area.
Context `{L : BitmapLib} `{V : VmLib}.

Definition kgpu_alloc_mmap_area (vm : kgpu_vma) (size : Z) : outcome (kgpu_vma * Z) :=
  let n := wrap32 (DIV_ROUND_UP size PAGE_SIZE) in
  idx ← find_area (v_bitmap vm) (v_npages vm) n;
  if idx <? v_npages vm then
    b ← deref (v_bitmap vm);
    let b := bitmap_set b idx n in
    let p := v_start vm +64 PAGE_SIZE * idx in
    a ← deref (v_alloc_sz vm);
    a ← array_set a idx n;
    mret (set_v_arrays vm (KLive a) (KLive b), p)
  else mret (vm, 0).

Definition kgpu_free_mmap_area (vm : kgpu_vma) (start : Z) : outcome kgpu_vma :=
  let idx := Z.shiftr (start -64 v_start vm) PAGE_SHIFT in
  if v_npages vm <=? idx then mret vm
  else
    a ← deref (v_alloc_sz vm);
    n ← array_get a idx;
    if (v_npages vm -64 idx) <? n then mret vm
    else if 0 <? n then
      b ← deref (v_bitmap vm);
      let b := bitmap_clear b idx n in
      a ← array_set a idx 0;
      mret (set_v_arrays vm (KLive a) (KLive b))
    else mret vm.

Definition kgpu_unmap_area (vm : kgpu_vma) (addr : Z) : outcome kgpu_vma :=
  let idx := Z.shiftr (addr -64 v_start vm) PAGE_SHIFT in
  if v_npages vm <=? idx then mret vm
  else
    a ← deref (v_alloc_sz vm);
    n ← array_get a idx;
    if (v_npages vm -64 idx) <? n then mret vm
    else if 0 <? n then
      b ← deref (v_bitmap vm);
      let b := bitmap_clear b idx n in
      a ← array_set a idx 0;
      let vm := set_v_arrays vm (KLive a) (KLive b) in
      v ← of_option NullDeref (vma vm);
      let v := set_vm_flags v (Z.lor (vm_flags v) VM_PFNMAP) in
      let v := (zap_vma_ptes v addr (wrap32 (Z.shiftl n PAGE_SHIFT))).1 in
      let v := set_vm_flags v (Z.land (vm_flags v) (Z.lnot VM_PFNMAP)) in
      mret (set_vma vm v)
    else mret vm.

Definition kgpu_map_page (vm : kgpu_vma) (p addr : Z) : outcome (kgpu_vma * Z) :=
  v ← of_option NullDeref (vma vm);
  let '(v, ret) := vm_insert_page v addr p in
  mret (set_vma vm v, ret).

(** The loop of [map_page_units] from [i] on, for [n] rounds; the flag says
    whether every insertion succeeded. *)
Fixpoint insert_pages (v : vm_area_struct) (addr : Z) (units : list Z) (is_page : bool)
    (i : Z) (n : nat) : outcome (vm_area_struct * bool) :=
  match n with
  | O => Ok (v, true)
  | S n =>
      u ← array_get units i;
      let '(v, ret) := vm_insert_page v (addr +64 i * PAGE_SIZE)
                         (if is_page then u else pfn_to_page u) in
      if ret <? 0 then Ok (v, false)
      else insert_pages v addr units is_page (i + 1) n
  end.

Definition map_page_units (vm : kgpu_vma) (units : list Z) (n : Z) (is_page : bool) :
    outcome (kgpu_vma * Z) :=
  '(vm, addr) ← kgpu_alloc_mmap_area vm (wrap64 (swrap32 (Z.shiftl n PAGE_SHIFT)));
  if addr =? 0 then mret (vm, NULL)
  else
    v ← of_option NullDeref (vma vm);
    '(v, ok) ← insert_pages v addr units is_page 0 (Z.to_nat n);
    if ok : bool then mret (set_vma vm v, addr) else mret (set_vma vm v, NULL).

Definition kgpu_map_pages (vm : kgpu_vma) (pages : list Z) (n : Z) : outcome (kgpu_vma * Z) :=
  map_page_units vm pages n true.

Definition kgpu_map_pfns (vm : kgpu_vma) (pfns : list Z) (n : Z) : outcome (kgpu_vma * Z) :=
  map_page_units vm pfns n false.

(** [set_vm]; the two [kmalloc] results are arguments. *)
Definition set_vm (km_alloc_sz : option (list Z)) (km_bitmap : option (list bool))
    (v : vm_area_struct) (vm : kgpu_vma) : outcome kgpu_vma :=
  let np := wrap32 (Z.shiftr (vm_end v -64 vm_start v) PAGE_SHIFT) in
  let a := of_kmalloc km_alloc_sz in
  let b := of_kmalloc km_bitmap in
  '(a, b) ← (if is_null a || is_null b then
               _ ← kfree a; _ ← kfree b; Ok (KNull, KNull)
             else Ok (a, b));
  bits ← deref b;
  bits ← (if bool_decide (np <= Z.of_nat (length bits)) then Ok (bitmap_zero bits np)
          else Fault OutOfBounds);
  sizes ← deref a;
  sizes ← memset_u32 sizes (4 * np);
  mret (mk_vma (Some v) (vm_start v) (vm_end v) np (KLive sizes) (KLive bits)).

Definition clean_vm (vm : kgpu_vma) : outcome kgpu_vma :=
  a ← kfree (v_alloc_sz vm);
  b ← kfree (v_bitmap vm);
  mret (set_v_arrays vm a b).

Definition kgpu_mmap (km_alloc_sz : option (list Z)) (km_bitmap : option (list bool))
    (v : vm_area_struct) (vm : kgpu_vma) : outcome (kgpu_vma * Z) :=
  if negb ((vm_end v -64 vm_start v) =? KGPU_MMAP_SIZE) then mret (vm, - EINVAL)
  else
    let v := set_vm_flags v
      (Z.lor (vm_flags v) (Z.lor (Z.lor VM_IO VM_LOCKED) (Z.lor VM_DONTEXPAND VM_DONTDUMP))) in
    vm ← set_vm km_alloc_sz km_bitmap v vm;
    mret (vm, 0).

End area.

(** ** The invariant of an area that is set up *)

Record area_wf (vm : kgpu_vma) : Prop := {
  aw_start : 0 < v_start vm;
  aw_page : v_start vm mod PAGE_SIZE = 0;
  aw_room : v_start vm + v_npages vm * PAGE_SIZE < 2 ^ 64;
  aw_vma : exists v, vma vm = Some v /\ vm_start v = v_start vm /\
    vm_end v = v_start vm + v_npages vm * PAGE_SIZE;
  aw_units : exists bm sz, v_bitmap vm = KLive bm /\ v_alloc_sz vm = KLive sz /\
    units_wf bm sz (v_npages vm)
}.

(** The live runs of pages. *)
Definition area_blocks (vm : kgpu_vma) : gmap Z Z :=
  match v_alloc_sz vm with KLive sz => blocks sz (v_npages vm) | _ => ∅ end.

(** The page of the area that an address is in. *)
Definition page_of (vm : kgpu_vma) (addr : Z) : Z :=
  Z.shiftr (addr -64 v_start vm) PAGE_SHIFT.

Lemma page_of_div vm addr : page_of vm addr = (addr -64 v_start vm) / 4096.
Proof. unfold page_of, PAGE_SHIFT. by rewrite Z.shiftr_div_pow2 by lia. Qed.

Lemma page_of_nonneg vm addr : 0 <= page_of vm addr.
Proof. rewrite page_of_div. pose proof (wrap64_range (addr - v_start vm)). word_lia. Qed.

Lemma page_of_block vm i :
  area_wf vm -> 0 <= i < v_npages vm ->
  let p := v_start vm +64 PAGE_SIZE * i in
  p = v_start vm + i * PAGE_SIZE /\ p <> NULL /\ page_of vm p = i.
Proof.
  intros H Hi. pose proof (aw_start _ H). pose proof (aw_room _ H) as Hr.
  unfold PAGE_SIZE, NULL in *. simpl. rewrite page_of_div.
  rewrite !wrap64_id by (rewrite ?wrap64_id; unfold u64_range; lia).
  split_and!; [lia | lia |].
  replace (v_start vm + 4096 * i - v_start vm) with (i * 4096) by lia.
  apply Z.div_mul. lia.
Qed.

Lemma area_blocks_live vm sz :
  v_alloc_sz vm = KLive sz -> area_blocks vm = blocks sz (v_npages vm).
Proof. intros H. unfold area_blocks. by rewrite H. Qed.

Lemma set_v_arrays_wf vm bm sz :
  area_wf vm -> units_wf bm sz (v_npages vm) ->
  area_wf (set_v_arrays vm (KLive sz) (KLive bm)).
Proof. intros [] Hu. split; simpl; eauto. Qed.

Lemma set_vma_wf vm v :
  area_wf vm -> vm_start v = v_start vm -> vm_end v = v_start vm + v_npages vm * PAGE_SIZE ->
  area_wf (set_vma vm v).
Proof. intros [] Hs He. split; simpl; eauto. Qed.

(** The largest request whose number of pages fits in 32 bits. *)
Definition mmap_max : Z := (2 ^ 32 - 1) * PAGE_SIZE.

Lemma req_pages_spec size : 0 < size <= mmap_max ->
  let k := DIV_ROUND_UP size PAGE_SIZE in
  wrap32 k = k /\ 0 < k /\ (k - 1) * PAGE_SIZE < size <= k * PAGE_SIZE.
Proof.
  unfold mmap_max, PAGE_SIZE. intros Hn. simpl.
  destruct (DIV_ROUND_UP_exact size 4096) as [H|H]; [lia..| |lia].
  split; [apply wrap32_id; unfold u32_range; lia | lia].
Qed.

Section area_proofs.
Context `{L : BitmapLib} {LL : BitmapLaws L} `{V : VmLib} {VL : VmLaws V}.

Lemma kgpu_alloc_mmap_area_step vm size :
  area_wf vm -> 0 < size <= mmap_max ->
  let k := DIV_ROUND_UP size PAGE_SIZE in
  exists vm' r, kgpu_alloc_mmap_area vm size =
      Ok (vm', from_option (fun i => v_start vm + i * PAGE_SIZE) 0 r) /\
    area_wf vm' /\ vma vm' = vma vm /\ v_start vm' = v_start vm /\ v_npages vm' = v_npages vm /\ (r = None -> vm' = vm) /\
    FirstFit.step (v_npages vm) (area_blocks vm) (FirstFit.Alloc k r) (area_blocks vm').
Proof.
  intros Hw Hn. destruct (req_pages_spec size Hn) as (Hk & Hk0 & _). simpl in *.
  set (k := DIV_ROUND_UP size PAGE_SIZE) in *.
  destruct (aw_units _ Hw) as (bm & sz & Hb & Ha & Hu). pose proof (uw_len_sz _ _ _ Hu).
  unfold kgpu_alloc_mmap_area, find_area. fold k. rewrite Hk, Hb, Ha, (area_blocks_live _ _ Ha).
  destruct (find_claim_step bm sz (v_npages vm) k Hu Hk0) as [Hs Hstep].
  destruct (Z.eqb_spec (v_npages vm) 0) as [E|E]; cbn.
  { pose proof (find_sound [] 0 0 k ltac:(lia) ltac:(lia) ltac:(simpl; lia)) as [Hs0 _].
    rewrite (proj2 (Z.ltb_ge _ _)) by lia. rewrite bool_decide_eq_false_2 in Hstep by lia.
    exists vm, None. by rewrite (area_blocks_live _ _ Ha). }
  set (idx := bitmap_find_next_zero_area bm (v_npages vm) 0 k 0) in *.
  destruct (Z.ltb_spec idx (v_npages vm)) as [Hc|Hc].
  - rewrite bool_decide_eq_true_2 in Hstep by lia. destruct Hstep as (_ & _ & Hwf & Hstep).
    rewrite array_set_ok by lia. cbn. eexists _, (Some idx). simpl.
    destruct (page_of_block vm idx Hw ltac:(lia)) as [-> _].
    split; [done|]. split; [by apply set_v_arrays_wf | done].
  - rewrite bool_decide_eq_false_2 in Hstep by lia.
    exists vm, None. by rewrite (area_blocks_live _ _ Ha).
Qed.

(** The part that [kgpu_free_mmap_area] and [kgpu_unmap_area] share. *)
Lemma kgpu_free_mmap_area_cases vm addr bm sz :
  v_bitmap vm = KLive bm -> v_alloc_sz vm = KLive sz -> units_wf bm sz (v_npages vm) ->
  let idx := page_of vm addr in
  kgpu_free_mmap_area vm addr =
    if bool_decide (idx < v_npages vm /\ 0 < nthZ sz idx) then
      Ok (set_v_arrays vm (KLive (<[Z.to_nat idx := 0]> sz))
            (KLive (bitmap_clear bm idx (nthZ sz idx))))
    else Ok vm.
Proof.
  intros Hb Ha H idx. pose proof (page_of_nonneg vm addr) as Hi. fold idx in Hi.
  unfold kgpu_free_mmap_area. fold (page_of vm addr). fold idx. rewrite Hb, Ha.
  destruct (Z.leb_spec (v_npages vm) idx); [by rewrite bool_decide_eq_false_2 by lia|].
  pose proof (uw_len_sz _ _ _ H). pose proof (uw_block _ _ _ H idx ltac:(lia)).
  pose proof (uw_n _ _ _ H). cbn. rewrite array_get_nthZ by lia. cbn.
  rewrite wrap64_id by (unfold u32_range, u64_range in *; lia).
  rewrite (proj2 (Z.ltb_ge _ _)) by lia.
  destruct (Z.ltb_spec 0 (nthZ sz idx)); [|by rewrite bool_decide_eq_false_2 by lia].
  rewrite array_set_ok by lia. by rewrite bool_decide_eq_true_2 by lia.
Qed.

Lemma kgpu_free_mmap_area_step vm addr :
  area_wf vm -> exists vm', kgpu_free_mmap_area vm addr = Ok vm' /\ area_wf vm' /\
    FirstFit.step (v_npages vm) (area_blocks vm) (FirstFit.Free (page_of vm addr))
      (area_blocks vm').
Proof.
  intros Hw. destruct (aw_units _ Hw) as (bm & sz & Hb & Ha & Hu).
  rewrite (kgpu_free_mmap_area_cases _ addr _ _ Hb Ha Hu).
  rewrite (area_blocks_live _ _ Ha).
  pose proof (release_step bm sz (v_npages vm) _ Hu (page_of_nonneg vm addr)) as Hstep.
  case_bool_decide as Hc.
  - destruct Hstep as [Hwf Hstep]. eexists. split; [done|].
    split; [by apply set_v_arrays_wf | exact Hstep].
  - exists vm. split; [done|]. split; [done|]. by rewrite (area_blocks_live _ _ Ha).
Qed.

(** [kgpu_unmap_area] releases the run as [kgpu_free_mmap_area] does and zaps
    its entries with the PFNMAP flag raised for the call. *)
Definition zapped (v : vm_area_struct) (addr n : Z) : vm_area_struct :=
  let v := set_vm_flags v (Z.lor (vm_flags v) VM_PFNMAP) in
  let v := (zap_vma_ptes v addr (wrap32 (Z.shiftl n PAGE_SHIFT))).1 in
  set_vm_flags v (Z.land (vm_flags v) (Z.lnot VM_PFNMAP)).

Lemma kgpu_unmap_area_cases vm addr bm sz v :
  v_bitmap vm = KLive bm -> v_alloc_sz vm = KLive sz -> units_wf bm sz (v_npages vm) ->
  vma vm = Some v ->
  let idx := page_of vm addr in
  kgpu_unmap_area vm addr =
    if bool_decide (idx < v_npages vm /\ 0 < nthZ sz idx) then
      Ok (set_vma (set_v_arrays vm (KLive (<[Z.to_nat idx := 0]> sz))
                     (KLive (bitmap_clear bm idx (nthZ sz idx))))
            (zapped v addr (nthZ sz idx)))
    else Ok vm.
Proof.
  intros Hb Ha H Hv idx. pose proof (page_of_nonneg vm addr) as Hi. fold idx in Hi.
  unfold kgpu_unmap_area. fold (page_of vm addr). fold idx. rewrite Hb, Ha.
  destruct (Z.leb_spec (v_npages vm) idx); [by rewrite bool_decide_eq_false_2 by lia|].
  pose proof (uw_len_sz _ _ _ H). pose proof (uw_block _ _ _ H idx ltac:(lia)).
  pose proof (uw_n _ _ _ H). cbn. rewrite array_get_nthZ by lia. cbn.
  rewrite wrap64_id by (unfold u32_range, u64_range in *; lia).
  rewrite (proj2 (Z.ltb_ge _ _)) by lia.
  destruct (Z.ltb_spec 0 (nthZ sz idx)); [|by rewrite bool_decide_eq_false_2 by lia].
  rewrite array_set_ok by lia. cbn. rewrite Hv. by rewrite bool_decide_eq_true_2 by lia.
Qed.

Lemma land_lor_mask a m : Z.land (Z.lor a m) m = m.
Proof. rewrite Z.land_comm. apply Z.bits_inj'. intros n Hn.
  rewrite Z.land_spec, Z.lor_spec. destruct (Z.testbit m n), (Z.testbit a n); done. Qed.

Lemma ldiff_lor_mask a m : Z.land (Z.lor a m) (Z.lnot m) = Z.land a (Z.lnot m).
Proof. apply Z.bits_inj'. intros n Hn. rewrite !Z.land_spec, Z.lor_spec, Z.lnot_spec by lia.
  destruct (Z.testbit m n), (Z.testbit a n); done. Qed.

Lemma zapped_spec v addr n :
  0 <= n < 2 ^ 20 -> vm_start v <= addr -> addr + n * PAGE_SIZE <= vm_end v ->
  vm_start (zapped v addr n) = vm_start v /\ vm_end (zapped v addr n) = vm_end v /\
  vm_flags (zapped v addr n) = Z.land (vm_flags v) (Z.lnot VM_PFNMAP) /\
  forall q, vm_ptes (zapped v addr n) !! q =
    if bool_decide (addr <= q < addr + n * PAGE_SIZE) then None else vm_ptes v !! q.
Proof.
  intros Hn Hs He. unfold zapped, PAGE_SHIFT, PAGE_SIZE in *.
  rewrite Z.shiftl_mul_pow2, wrap32_id by (unfold u32_range; lia).
  change (n * 2 ^ 12) with (n * 4096).
  set (w := set_vm_flags v (Z.lor (vm_flags v) VM_PFNMAP)).
  cbn [vm_start vm_end vm_flags vm_ptes set_vm_flags].
  destruct (zap_keeps w addr (n * 4096)) as (-> & -> & ->). simpl.
  split_and!; [done | done | apply ldiff_lor_mask |].
  intros q. apply (zap_range w addr (n * 4096) q); [apply land_lor_mask | done | done].
Qed.

(** The page that the loop inserts for entry [j] of the array. *)
Definition unit_page (units : list Z) (is_page : bool) (j : Z) : Z :=
  if is_page then nthZ units j else pfn_to_page (nthZ units j).

(** The area after the first [k] insertions of the loop, and the result of
    the next one. *)
Fixpoint inserted_ptes (addr : Z) (units : list Z) (is_page : bool) (k : nat) (m : gmap Z Z) : gmap Z Z :=
  match k with
  | O => m
  | S k => <[addr + Z.of_nat k * PAGE_SIZE := unit_page units is_page (Z.of_nat k)]>
             (inserted_ptes addr units is_page k m)
  end.

Definition inserted (v : vm_area_struct) (addr : Z) (units : list Z) (is_page : bool) (k : nat) :
    vm_area_struct :=
  mk_vm_area (vm_start v) (vm_end v) (vm_flags v) (inserted_ptes addr units is_page k (vm_ptes v)).

Definition insert_result (v : vm_area_struct) (addr : Z) (units : list Z) (is_page : bool) (k : nat) : Z :=
  (vm_insert_page (inserted v addr units is_page k) (addr + Z.of_nat k * PAGE_SIZE)
     (unit_page units is_page (Z.of_nat k))).2.

Lemma inserted_in v addr units is_page k j :
  0 <= j < Z.of_nat k ->
  vm_ptes (inserted v addr units is_page k) !! (addr + j * PAGE_SIZE) = Some (unit_page units is_page j).
Proof.
  unfold PAGE_SIZE. induction k as [|k IH]; intros Hj; [lia|]. simpl.
  destruct (decide (j = Z.of_nat k)) as [-> |]; [apply lookup_insert_eq|].
  rewrite lookup_insert_ne; [apply IH; lia | unfold PAGE_SIZE; lia].
Qed.

Lemma inserted_out v addr units is_page k q :
  ~ addr <= q < addr + Z.of_nat k * PAGE_SIZE ->
  vm_ptes (inserted v addr units is_page k) !! q = vm_ptes v !! q.
Proof.
  unfold PAGE_SIZE. induction k as [|k IH]; intros Hq; [done|]. simpl.
  rewrite lookup_insert_ne; [apply IH; lia | unfold PAGE_SIZE; lia].
Qed.

(** The loop inserts page after page up to the first insertion that fails. *)
Lemma insert_pages_cases v addr units is_page i n :
  Z.of_nat (i + n) <= Z.of_nat (length units) ->
  0 <= addr -> addr + Z.of_nat (i + n) * PAGE_SIZE < 2 ^ 64 ->
  (insert_pages (inserted v addr units is_page i) addr units is_page (Z.of_nat i) n =
     Ok (inserted v addr units is_page (i + n), true) /\
   forall j, (i <= j < i + n)%nat -> 0 <= insert_result v addr units is_page j) \/
  exists j, (i <= j < i + n)%nat /\
    insert_pages (inserted v addr units is_page i) addr units is_page (Z.of_nat i) n =
      Ok (inserted v addr units is_page j, false) /\ insert_result v addr units is_page j < 0.
Proof.
  revert i. induction n as [|n IH]; intros i Hl Ha Hr; cbn [insert_pages].
  { left. rewrite Nat.add_0_r. split; [done | lia]. }
  rewrite array_get_nthZ by lia. cbn [mbind outcome_bind]. fold (unit_page units is_page (Z.of_nat i)).
  unfold PAGE_SIZE in Hr.
  assert (addr +64 Z.of_nat i * PAGE_SIZE = addr + Z.of_nat i * PAGE_SIZE) as ->
    by (apply wrap64_id; unfold u64_range, PAGE_SIZE; lia).
  pose proof (insert_ok (inserted v addr units is_page i) (addr + Z.of_nat i * PAGE_SIZE)
    (unit_page units is_page (Z.of_nat i))) as Hok.
  pose proof (insert_fail (inserted v addr units is_page i) (addr + Z.of_nat i * PAGE_SIZE)
    (unit_page units is_page (Z.of_nat i))) as Hfail.
  assert (Er : insert_result v addr units is_page i = (vm_insert_page (inserted v addr units is_page i)
    (addr + Z.of_nat i * PAGE_SIZE) (unit_page units is_page (Z.of_nat i))).2) by done.
  destruct (vm_insert_page _ _ _) as [v1 ret]. simpl in Hok, Hfail, Er.
  destruct (Z.ltb_spec ret 0) as [Hret|Hret].
  { right. exists i. rewrite Hfail by done. split; [lia|]. split; [done | lia]. }
  rewrite Hok by done. change (mk_vm_area _ _ _ _) with (inserted v addr units is_page (S i)).
  replace (Z.of_nat i + 1) with (Z.of_nat (S i)) by lia. replace (i + S n)%nat with (S i + n)%nat by lia.
  destruct (IH (S i)) as [[E Hall]|(j & Hj & E & Hneg)]; [lia | lia | unfold PAGE_SIZE; lia | |].
  - left. split; [done|]. intros j Hj. destruct (decide (j = i)) as [->|]; [lia | apply Hall; lia].
  - right. exists j. split; [lia | done].
Qed.

(** All outcomes of [map_page_units]. *)
Definition lowest_fit (m : gmap Z Z) (np i n : Z) : Prop :=
  FirstFit.fits m np i n /\ forall i', 0 <= i' < i -> ~ FirstFit.fits m np i' n.

Lemma map_page_units_spec vm v units n is_page :
  area_wf vm -> vma vm = Some v -> 0 < n < 2 ^ 19 -> n <= Z.of_nat (length units) ->
  exists vm' p, map_page_units vm units n is_page = Ok (vm', p) /\ area_wf vm' /\
    v_start vm' = v_start vm /\ v_npages vm' = v_npages vm /\
    ((p = NULL /\ vm' = vm /\ forall i, ~ FirstFit.fits (area_blocks vm) (v_npages vm) i n) \/
     exists i k, lowest_fit (area_blocks vm) (v_npages vm) i n /\
       area_blocks vm' = <[i := n]> (area_blocks vm) /\
       let a := v_start vm + i * PAGE_SIZE in
       vma vm' = Some (inserted v a units is_page k) /\ 0 < a /\
       (p = a /\ Z.of_nat k = n /\
          (forall j, Z.of_nat j < n -> 0 <= insert_result v a units is_page j) \/
        p = NULL /\ Z.of_nat k < n /\ insert_result v a units is_page k < 0)).
Proof.
  intros Hw Hv Hn Hl. unfold map_page_units.
  assert (Hsz : wrap64 (swrap32 (Z.shiftl n PAGE_SHIFT)) = n * PAGE_SIZE).
  { unfold PAGE_SHIFT, PAGE_SIZE. rewrite Z.shiftl_mul_pow2 by lia.
    rewrite swrap32_id, wrap64_id; [done | unfold u64_range | unfold s32_range]; lia. }
  rewrite Hsz. assert (Hmax : 0 < n * PAGE_SIZE <= mmap_max) by (unfold mmap_max, PAGE_SIZE; lia).
  assert (DIV_ROUND_UP (n * PAGE_SIZE) PAGE_SIZE = n) as Hk.
  { destruct (req_pages_spec _ Hmax) as (_ & _ & H). unfold PAGE_SIZE in *. lia. }
  destruct (kgpu_alloc_mmap_area_step vm _ Hw Hmax) as (vm1 & r & -> & Hw1 & Hvma & Hst & Hnp & Hnone & Hstep).
  rewrite Hk in Hstep. cbn [mbind outcome_bind]. destruct r as [i|]; cbn [from_option].
  - assert (lowest_fit (area_blocks vm) (v_npages vm) i n /\
            area_blocks vm1 = <[i := n]> (area_blocks vm)) as [Hfit Hbl] by (inversion Hstep; done).
    destruct (proj1 Hfit) as (Hi0 & Hend & _). pose proof (aw_start _ Hw). pose proof (aw_room _ Hw).
    unfold PAGE_SIZE in *. rewrite (proj2 (Z.eqb_neq _ _)) by lia. rewrite Hvma, Hv. cbn [mbind outcome_bind of_option].
    assert (Hw2 : forall k, area_wf (set_vma vm1 (inserted v (v_start vm + i * 4096) units is_page k))).
    { intros k. destruct (aw_vma _ Hw1) as (w & Hw1v & Hws & Hwe). rewrite Hvma, Hv in Hw1v.
      injection Hw1v as <-. by apply set_vma_wf. }
    assert (Ev : v = inserted v (v_start vm + i * 4096) units is_page 0) by by destruct v.
    replace (insert_pages v (v_start vm + i * 4096) units is_page 0) with
      (insert_pages (inserted v (v_start vm + i * 4096) units is_page 0) (v_start vm + i * 4096)
         units is_page (Z.of_nat 0)) by (by rewrite <- Ev).
    destruct (insert_pages_cases v (v_start vm + i * 4096) units is_page 0 (Z.to_nat n))
      as [[-> Hall]|(j & Hj & -> & Hneg)]; [unfold PAGE_SIZE; lia..| |];
      cbn [mbind outcome_bind mret outcome_ret]; eexists _, _;
      (split; [done|]); (split; [apply Hw2|]); (split; [done|]); (split; [done|]); right.
    + exists i, (Z.to_nat n). do 3 (split; [done|]). split; [lia|]. left. split; [done|].
      split; [lia|]. intros j Hj. apply Hall. lia.
    + exists i, j. do 3 (split; [done|]). split; [lia|]. right. split; [done|]. split; [lia | done].
  - exists vm, NULL. rewrite Hnone by done. split_and!; [done..|]. left.
    split; [done|]. split; [done|]. by inversion Hstep.
Qed.

(** Unmapping the first address of a live run removes it. *)
Lemma kgpu_unmap_block vm i k :
  area_wf vm -> v_npages vm < 2 ^ 20 -> area_blocks vm !! i = Some k ->
  exists vm', kgpu_unmap_area vm (v_start vm + i * PAGE_SIZE) = Ok vm' /\ area_wf vm' /\
    v_start vm' = v_start vm /\ v_npages vm' = v_npages vm /\
    area_blocks vm' = delete i (area_blocks vm).
Proof.
  intros Hw Hnp Hi. destruct (aw_units _ Hw) as (bm & sz & Hb & Ha & Hu).
  destruct (aw_vma _ Hw) as (v & Hv & Hs & He).
  rewrite (area_blocks_live _ _ Ha) in *. pose proof Hi as Hi'. apply lookup_blocks in Hi' as (Hr & Hk & Hk0).
  pose proof (proj1 (blocks_inv _ _ _ Hu) _ _ Hi) as Hin.
  destruct (page_of_block vm i Hw Hr) as (Ep & _ & Eu). cbv zeta in *. rewrite Ep in Eu.
  rewrite (kgpu_unmap_area_cases _ _ _ _ v Hb Ha Hu Hv), Eu.
  rewrite bool_decide_eq_true_2 by lia. pose proof (uw_len_sz _ _ _ Hu).
  destruct (zapped_spec v (v_start vm + i * PAGE_SIZE) (nthZ sz i)) as (Z1 & Z2 & _);
    [unfold PAGE_SIZE in *; lia..|].
  eexists. split; [done|]. split; [|split; [done | split; [done|]]].
  - apply set_vma_wf; [apply set_v_arrays_wf; [done | apply units_wf_release; lia || done]|..].
    + by rewrite Z1.
    + by rewrite Z2.
  - unfold area_blocks. simpl. apply blocks_delete; lia.
Qed.

(** Where Linux never refuses a page, NULL means that nothing was taken. *)
Definition inserts_ok : Prop := forall v addr p, 0 <= (vm_insert_page v addr p).2.

Lemma insert_pages_ok v addr units is_page i n v' ok :
  inserts_ok -> insert_pages v addr units is_page i n = Ok (v', ok) -> ok = true.
Proof.
  intros Hok. revert v i. induction n as [|n IH]; intros v i E; cbn [insert_pages] in E; [congruence|].
  apply bind_ok in E as (u & _ & E).
  pose proof (Hok v (addr +64 i * PAGE_SIZE) (if is_page then u else pfn_to_page u)) as Hr.
  destruct (vm_insert_page _ _ _) as [v1 ret]. simpl in Hr.
  rewrite (proj2 (Z.ltb_ge _ _)) in E by done. by apply IH in E.
Qed.

Lemma map_null_unchanged vm units n is_page vm' :
  inserts_ok -> area_wf vm -> 0 < n < 2 ^ 19 ->
  map_page_units vm units n is_page = Ok (vm', NULL) -> vm' = vm.
Proof.
  intros Hok Hw Hn E. unfold map_page_units in E.
  assert (Hmax : 0 < wrap64 (swrap32 (Z.shiftl n PAGE_SHIFT)) <= mmap_max).
  { unfold PAGE_SHIFT, mmap_max, PAGE_SIZE. rewrite Z.shiftl_mul_pow2 by lia.
    rewrite swrap32_id, wrap64_id; unfold u64_range, s32_range; lia. }
  destruct (kgpu_alloc_mmap_area_step vm _ Hw Hmax)
    as (vm1 & r & E1 & Hw1 & _ & Hst & _ & Hnone & Hstep).
  rewrite E1 in E. cbn [mbind outcome_bind] in E. destruct r as [i|]; cbn [from_option] in E.
  - assert (0 <= i) by (inversion Hstep as [? ? ? ? (? & _)| | |]; done).
    pose proof (aw_start _ Hw). unfold PAGE_SIZE in E.
    rewrite (proj2 (Z.eqb_neq _ _)) in E by lia.
    apply bind_ok in E as (v & _ & E). apply bind_ok in E as ([v' ok] & Ei & E).
    rewrite (insert_pages_ok _ _ _ _ _ _ _ _ Hok Ei) in E. injection E as _ E. unfold NULL in E. lia.
  - injection E as <-. by apply Hnone.
Qed.

End area_proofs.

Section area_claims.
Context `{L : BitmapLib} {LL : BitmapLaws L} `{V : VmLib} {VL : VmLaws V}.

(** C26: [kgpu_alloc_mmap_area] and [kgpu_free_mmap_area] implement the abstract
    first-fit allocator on the pages of the mapped area, and keep its
    invariant: an allocation returns the address of the lowest free run that
    is large enough, or 0 when there is none; a free of any address releases
    the run that starts at that page, if there is one, and nothing else. *)
Theorem mmap_area_refines_first_fit vm size addr :
  area_wf vm -> 0 < size <= mmap_max ->
  (exists vm' r, kgpu_alloc_mmap_area vm size =
      Ok (vm', from_option (fun i => v_start vm + i * PAGE_SIZE) 0 r) /\ area_wf vm' /\
    FirstFit.step (v_npages vm) (area_blocks vm)
      (FirstFit.Alloc (DIV_ROUND_UP size PAGE_SIZE) r) (area_blocks vm')) /\
  (exists vm', kgpu_free_mmap_area vm addr = Ok vm' /\ area_wf vm' /\
    FirstFit.step (v_npages vm) (area_blocks vm) (FirstFit.Free (page_of vm addr))
      (area_blocks vm')).
Proof.
  intros Hw Hn. split; [|by apply kgpu_free_mmap_area_step].
  destruct (kgpu_alloc_mmap_area_step vm size Hw Hn) as (vm' & r & ?&?&_&_&_&_&?). eauto.
Qed.

(** [kgpu_unmap_area] leaves the allocator in exactly the state in which
    [kgpu_free_mmap_area] leaves it; on the first address of a live run it
    also removes the page-table entries of that run and no others, and it
    leaves the PFNMAP flag clear. *)
Theorem unmap_equiv_free vm addr :
  area_wf vm -> v_npages vm < 2 ^ 20 ->
  exists vm1 vm2, kgpu_free_mmap_area vm addr = Ok vm1 /\ kgpu_unmap_area vm addr = Ok vm2 /\
    v_bitmap vm2 = v_bitmap vm1 /\ v_alloc_sz vm2 = v_alloc_sz vm1 /\
    forall i k v, area_blocks vm !! i = Some k -> addr = v_start vm + i * PAGE_SIZE ->
      vma vm = Some v -> exists v', vma vm2 = Some v' /\
        vm_flags v' = Z.land (vm_flags v) (Z.lnot VM_PFNMAP) /\
        forall q, vm_ptes v' !! q =
          if bool_decide (addr <= q < addr + k * PAGE_SIZE) then None else vm_ptes v !! q.
Proof.
  intros Hw Hnp. destruct (aw_units _ Hw) as (bm & sz & Hb & Ha & Hu).
  destruct (aw_vma _ Hw) as (w & Hv & Hs & He).
  rewrite (kgpu_free_mmap_area_cases _ addr _ _ Hb Ha Hu),
    (kgpu_unmap_area_cases _ addr _ _ w Hb Ha Hu Hv), (area_blocks_live _ _ Ha).
  assert (Hpage : forall i k, blocks sz (v_npages vm) !! i = Some k ->
    addr = v_start vm + i * PAGE_SIZE ->
    page_of vm addr = i /\ nthZ sz i = k /\ 0 <= i /\ 0 < k /\ i + k <= v_npages vm).
  { intros i k (Hi & Hk & Hk0)%lookup_blocks Haddr.
    destruct (page_of_block vm i Hw Hi) as (E1 & _ & E2). rewrite E1 in E2. rewrite Haddr, E2.
    pose proof (uw_block _ _ _ Hu i Hi). lia. }
  case_bool_decide as Hc; eexists _, _; (split; [done|]); (split; [done|]); (split; [done|]);
    (split; [done|]); intros i k v Hik Haddr Hvv; destruct (Hpage i k Hik Haddr) as (Hi & Hk & Hi0 & Hk0 & Hend).
  - rewrite Hvv in Hv. injection Hv as ->. eexists. split; [done|]. rewrite Hi, Hk.
    destruct (zapped_spec w addr k) as (_ & _ & Hf & Hp);
      [lia | rewrite Hs; unfold PAGE_SIZE in *; lia | rewrite He; unfold PAGE_SIZE in *; lia |].
    split; [exact Hf | exact Hp].
  - exfalso. rewrite Hi, Hk in Hc. lia.
Qed.

(** C27: [map_page_units] of [n] pages: when no run of [n] pages of the area
    is free it returns NULL and changes nothing.  Otherwise it reserves the
    lowest such run and inserts page [j] of the array at the [j]-th page of the
    run, in order, until an insertion fails; it returns the run's address
    exactly when no insertion failed, and all [n] pages are then mapped.  When
    insertion [k] fails it returns NULL, the [k] pages before it stay mapped
    and the run stays reserved.  Page-table entries outside the run do not
    change. *)
Theorem map_page_units_result vm v units n is_page :
  area_wf vm -> vma vm = Some v -> 0 < n < 2 ^ 19 -> n <= Z.of_nat (length units) ->
  exists vm' p, map_page_units vm units n is_page = Ok (vm', p) /\ area_wf vm' /\
    ((p = NULL /\ vm' = vm /\ forall i, ~ FirstFit.fits (area_blocks vm) (v_npages vm) i n) \/
     exists i k v', lowest_fit (area_blocks vm) (v_npages vm) i n /\
       area_blocks vm' = <[i := n]> (area_blocks vm) /\ vma vm' = Some v' /\
       let a := v_start vm + i * PAGE_SIZE in
       0 < a /\
       (forall q, ~ a <= q < a + Z.of_nat k * PAGE_SIZE -> vm_ptes v' !! q = vm_ptes v !! q) /\
       (forall j, 0 <= j < Z.of_nat k ->
          vm_ptes v' !! (a + j * PAGE_SIZE) = Some (unit_page units is_page j)) /\
       (p = a /\ Z.of_nat k = n /\
          (forall j, Z.of_nat j < n -> 0 <= insert_result v a units is_page j) \/
        p = NULL /\ Z.of_nat k < n /\ insert_result v a units is_page k < 0)).
Proof.
  intros Hw Hv Hn Hl.
  destruct (map_page_units_spec vm v units n is_page Hw Hv Hn Hl)
    as (vm' & p & E & Hw' & _ & _ & [H|(i & k & Hfit & Hbl & Hv' & Ha & H)]); eexists _, _;
    (split; [done|]); (split; [done|]); [by left|right].
  exists i, k. eexists. do 3 (split; [done|]). cbv zeta in *. split; [done|]. split_and!; [| |done].
  - intros q Hq. by apply inserted_out.
  - intros j Hj. by apply inserted_in.
Qed.

(** C28: after a successful [map_page_units] the [j]-th page of the array is
    mapped at the [j]-th page of the returned address and every other entry
    of the area, other clients' pages included, is as before; and
    [kgpu_unmap_area] of that address keeps the invariant, gives the run back
    (the live runs are again those from before), removes the run's entries
    and leaves all others. *)
Theorem map_unmap_roundtrip vm v units n is_page vm' p :
  area_wf vm -> vma vm = Some v -> v_npages vm < 2 ^ 20 ->
  0 < n < 2 ^ 19 -> n <= Z.of_nat (length units) ->
  map_page_units vm units n is_page = Ok (vm', p) -> p <> NULL ->
  exists v' vm'' v'', vma vm' = Some v' /\ kgpu_unmap_area vm' p = Ok vm'' /\ vma vm'' = Some v'' /\
    area_wf vm'' /\ area_blocks vm'' = area_blocks vm /\
    (forall j, 0 <= j < n -> vm_ptes v' !! (p + j * PAGE_SIZE) = Some (unit_page units is_page j)) /\
    (forall q, ~ p <= q < p + n * PAGE_SIZE -> vm_ptes v' !! q = vm_ptes v !! q) /\
    (forall q, vm_ptes v'' !! q =
       if bool_decide (p <= q < p + n * PAGE_SIZE) then None else vm_ptes v !! q).
Proof.
  intros Hw Hv Hnp Hn Hl E Hp.
  destruct (map_page_units_spec vm v units n is_page Hw Hv Hn Hl)
    as (vm1 & p1 & E1 & Hw1 & Hst & Hnpages & Hcase).
  rewrite E1 in E. injection E as -> ->.
  destruct Hcase as [[? _]|(i & k & Hfit & Hbl & Hv' & _ & [(-> & Hk & _)|[? _]])]; [done| |done].
  cbv zeta in *. set (a := v_start vm + i * PAGE_SIZE) in *.
  destruct (proj1 Hfit) as (Hi0 & Hend & Hdis).
  assert (Hnone : area_blocks vm !! i = None).
  { destruct (aw_units _ Hw) as (bm0 & sz0 & _ & Ha0 & Hu0). rewrite (area_blocks_live _ _ Ha0) in *.
    destruct (blocks sz0 (v_npages vm) !! i) as [x|] eqn:Hx; [|done]. exfalso.
    pose proof (Hdis _ _ Hx). pose proof (proj1 (blocks_inv _ _ _ Hu0) _ _ Hx). lia. }
  assert (Hin : area_blocks vm' !! i = Some n) by (rewrite Hbl; apply lookup_insert_eq).
  destruct (kgpu_unmap_block vm' i n Hw1 ltac:(lia) Hin) as (vm2 & E2 & Hw2 & _ & _ & Hb2).
  destruct (unmap_equiv_free vm' a Hw1 ltac:(lia)) as (vm3 & vm4 & _ & E4 & _ & _ & Hz).
  rewrite Hst in E2. fold a in E2. rewrite E2 in E4. injection E4 as <-.
  destruct (Hz i n (inserted v a units is_page k) Hin) as (v'' & Hv'' & _ & Hptes); [by rewrite Hst | exact Hv'|].
  eexists _, vm2, v''. split; [exact Hv'|]. split; [exact E2|]. split; [exact Hv''|].
  split; [exact Hw2|]. split; [by rewrite Hb2, Hbl, delete_insert_id|]. split_and!.
  - intros j Hj. apply inserted_in. lia.
  - intros q Hq. apply inserted_out. by rewrite Hk.
  - intros q. rewrite Hptes. case_bool_decide; [done|]. apply inserted_out. by rewrite Hk.
Qed.

End area_claims.

(** ** Mapping the device *)

Section mmap_claims.
Context `{L : BitmapLib} {LL : BitmapLaws L}.

Lemma kgpu_mmap_ok vm v sz bm :
  0 < vm_start v -> vm_start v mod PAGE_SIZE = 0 -> vm_start v < vm_end v < 2 ^ 64 ->
  length sz = 512%nat -> length bm = 512%nat -> vm_end v - vm_start v = KGPU_MMAP_SIZE ->
  exists vm', kgpu_mmap (Some sz) (Some bm) v vm = Ok (vm', 0) /\ area_wf vm' /\
    v_npages vm' = 512 /\ area_blocks vm' = ∅ /\ v_start vm' = vm_start v.
Proof.
  intros Hs Hal He Hsz Hbm Hsize. unfold kgpu_mmap.
  rewrite wrap64_id by (unfold u64_range; lia). rewrite Hsize, Z.eqb_refl. cbn [negb]. unfold set_vm.
  cbn [vm_end vm_start set_vm_flags of_kmalloc is_null orb].
  rewrite wrap64_id, Hsize by (unfold u64_range; lia).
  change (wrap32 (Z.shiftr KGPU_MMAP_SIZE PAGE_SHIFT)) with 512.
  cbn [mbind outcome_bind deref]. rewrite bool_decide_eq_true_2 by lia. cbn [mbind outcome_bind].
  destruct (memset_u32_spec sz (4 * 512)) as (sz' & -> & Hlen & _ & Hz & _); [lia|].
  cbn [mbind outcome_bind mret outcome_ret]. eexists. split; [done|].
  change KGPU_MMAP_SIZE with (512 * 4096) in Hsize. unfold PAGE_SIZE in *.
  assert (Hz' : forall i, 0 <= i < 512 -> nthZ sz' i = 0) by (intros; apply Hz; lia).
  split_and!; [split; cbn -[Z.mul] | done | | done].
  - done.
  - done.
  - unfold PAGE_SIZE. lia.
  - eexists. split; [done|]. split; [done|]. cbn -[Z.mul]. unfold PAGE_SIZE. lia.
  - eexists _, _. split; [done|]. split; [done|]. apply units_wf_fresh.
    + unfold u32_range. lia.
    + lia.
    + rewrite zero_length. lia.
    + done.
    + intros i Hi. apply zero_bits; lia.
  - unfold area_blocks. cbn. apply map_empty. intros i. apply lookup_blocks_None.
    intros [Hi Hi']. rewrite Hz' in Hi' by lia. lia.
Qed.

(** [kgpu_mmap] refuses with [-EINVAL] and without any effect every area
    that is not exactly [KGPU_MMAP_SIZE] bytes long; on a page-aligned area of
    that size, when both tables can be allocated, it establishes the
    invariant of the mmap area with its 512 pages all free. *)
Theorem kgpu_mmap_establishes vm v sz bm :
  0 < vm_start v -> vm_start v mod PAGE_SIZE = 0 -> vm_start v < vm_end v < 2 ^ 64 ->
  length sz = 512%nat -> length bm = 512%nat ->
  (vm_end v - vm_start v <> KGPU_MMAP_SIZE ->
     kgpu_mmap (Some sz) (Some bm) v vm = Ok (vm, - EINVAL)) /\
  (vm_end v - vm_start v = KGPU_MMAP_SIZE ->
     exists vm', kgpu_mmap (Some sz) (Some bm) v vm = Ok (vm', 0) /\ area_wf vm' /\
       v_npages vm' = 512 /\ area_blocks vm' = ∅).
Proof.
  intros Hs Hal He Hsz Hbm. split; intros Hsize.
  - unfold kgpu_mmap. rewrite wrap64_id by (unfold u64_range; lia).
    by rewrite (proj2 (Z.eqb_neq _ _)) by done.
  - destruct (kgpu_mmap_ok vm v sz bm Hs Hal He Hsz Hbm Hsize) as (vm' & E & Hw & Hn & Hb & _). eauto.
Qed.

(** When one of the two allocations of [set_vm] fails, the code frees the
    other one, sets both pointers to NULL and then clears them through these
    NULL pointers: mapping the device faults instead of failing. *)
Theorem kgpu_mmap_nomem_faults vm v sz bm :
  vm_end v -64 vm_start v = KGPU_MMAP_SIZE -> sz = None \/ bm = None ->
  kgpu_mmap sz bm v vm = Fault NullDeref.
Proof.
  intros Hsize Hnone. unfold kgpu_mmap, set_vm. rewrite Hsize, Z.eqb_refl. cbn.
  destruct Hnone as [-> | ->]; [by destruct bm | by destruct sz].
Qed.

End mmap_claims.

(** ** Examples *)

(** Linux's functions when every insertion succeeds. *)
#[global] Instance ref_vm : VmLib := {|
  vm_insert_page a addr pg :=
    (mk_vm_area (vm_start a) (vm_end a) (vm_flags a) (<[addr := pg]> (vm_ptes a)), 0);
  zap_vma_ptes a addr size :=
    (mk_vm_area (vm_start a) (vm_end a) (vm_flags a)
       (filter (fun p => ~ addr <= p.1 < addr + size) (vm_ptes a)), 0);
  pfn_to_page pfn := pfn * 64
|}.

#[global] Instance ref_vm_laws : VmLaws ref_vm.
Proof.
  split; simpl; [done | intros; lia | done |].
  intros a addr size q _ _ _. case_bool_decide as H.
  - apply map_lookup_filter_None. right. intros x _ Hx. by apply Hx.
  - destruct (vm_ptes a !! q) as [x|] eqn:E.
    + by apply map_lookup_filter_Some.
    + apply map_lookup_filter_None. by left.
Qed.

Definition area_example : vm_area_struct :=
  mk_vm_area (2 ^ 30) (2 ^ 30 + KGPU_MMAP_SIZE) 0 ∅.

Definition vm_example : kgpu_vma :=
  mk_vma (Some area_example) (2 ^ 30) (2 ^ 30 + KGPU_MMAP_SIZE) 512
    (KLive (repeat 0 512)) (KLive (repeat false 512)).

Lemma nthZ_repeat_0 n i : nthZ (repeat 0 n) i = 0.
Proof.
  unfold nthZ. destruct (repeat 0 n !! Z.to_nat i) as [x|] eqn:E; [|done].
  apply list_elem_of_lookup_2, list_elem_of_In, repeat_spec in E. by subst.
Qed.

Lemma test_bit_repeat_false n i : test_bit (repeat false n) i = false.
Proof.
  unfold test_bit. destruct (repeat false n !! Z.to_nat i) as [x|] eqn:E; [|done].
  apply list_elem_of_lookup_2, list_elem_of_In, repeat_spec in E. by subst.
Qed.

Lemma vm_example_wf : area_wf vm_example.
Proof.
  split; [reflexivity | reflexivity | reflexivity | |].
  - exists area_example. split_and!; reflexivity.
  - exists (repeat false 512), (repeat 0 512). split; [reflexivity|]. split; [reflexivity|].
    apply units_wf_fresh; [unfold u32_range; simpl; lia | rewrite repeat_length; simpl; lia |
      rewrite repeat_length; simpl; lia | |].
    + intros i _. apply nthZ_repeat_0.
    + intros i _. apply test_bit_repeat_false.
Qed.

Lemma mmap_area_refines_first_fit_witness :
  exists vm', kgpu_alloc_mmap_area vm_example 5000 = Ok (vm', 2 ^ 30) /\ area_wf vm'.
Proof.
  destruct (mmap_area_refines_first_fit vm_example 5000 0 vm_example_wf) as [(vm' & r & E & Hw & _) _];
    [unfold mmap_max, PAGE_SIZE; lia|].
  assert (Hc : exists q, kgpu_alloc_mmap_area vm_example 5000 = Ok (q, 2 ^ 30))
    by (eexists; vm_compute; reflexivity).
  destruct Hc as [q Hc]. rewrite Hc in E. injection E as -> _. exists vm'.
  split; [exact Hc | exact Hw].
Defined.

Lemma unmap_equiv_free_witness :
  exists vm1 vm2, kgpu_free_mmap_area vm_example (2 ^ 30) = Ok vm1 /\
    kgpu_unmap_area vm_example (2 ^ 30) = Ok vm2 /\ v_bitmap vm2 = v_bitmap vm1.
Proof.
  destruct (unmap_equiv_free vm_example (2 ^ 30) vm_example_wf) as (vm1 & vm2 & E1 & E2 & E3 & _);
    [reflexivity|]. exists vm1, vm2. split; [exact E1|]. split; [exact E2 | exact E3].
Defined.

(** Three frames at the start of the free area; and with an entry of another
    client in the area, which survives both calls. *)
Lemma map_page_units_result_witness :
  exists vm', map_page_units vm_example [11; 12; 13] 3 false = Ok (vm', 2 ^ 30) /\ area_wf vm' /\
    (0 < 3 /\ 0 <= insert_result area_example (2 ^ 30) [11; 12; 13] false 2).
Proof.
  destruct (map_page_units_result vm_example area_example [11; 12; 13] 3 false)
    as (vm' & p & E & Hw & _); [exact vm_example_wf | reflexivity | lia | simpl; lia |].
  assert (p = 2 ^ 30) as ->.
  { assert (exists q, map_page_units vm_example [11; 12; 13] 3 false = Ok (q, 2 ^ 30)) as [q Hq]
      by (eexists; vm_compute; reflexivity). congruence. }
  exists vm'. split; [exact E|]. split; [exact Hw|]. vm_compute. intuition congruence.
Defined.

Definition area_shared : vm_area_struct :=
  mk_vm_area (2 ^ 30) (2 ^ 30 + KGPU_MMAP_SIZE) 0 {[2 ^ 30 + 9 * PAGE_SIZE := 77]}.

Lemma map_unmap_roundtrip_witness :
  exists vm' p vm'' v'', map_page_units (set_vma vm_example area_shared) [11; 12; 13] 3 false = Ok (vm', p) /\
    p <> NULL /\ kgpu_unmap_area vm' p = Ok vm'' /\ vma vm'' = Some v'' /\
    area_blocks vm'' = area_blocks vm_example /\ vm_ptes v'' !! (2 ^ 30 + 9 * PAGE_SIZE) = Some 77.
Proof.
  assert (Hc : exists q, map_page_units (set_vma vm_example area_shared) [11; 12; 13] 3 false = Ok (q, 2 ^ 30))
    by (eexists; vm_compute; reflexivity).
  destruct Hc as [q Hc].
  destruct (map_unmap_roundtrip (set_vma vm_example area_shared) area_shared [11; 12; 13] 3 false q (2 ^ 30))
    as (v' & vm'' & v'' & _ & E1 & E2 & _ & E3 & _ & _ & E4);
    [apply set_vma_wf; [exact vm_example_wf | reflexivity..] | reflexivity | reflexivity | lia | simpl; lia |
     exact Hc | discriminate |].
  exists q, (2 ^ 30), vm'', v''. split; [exact Hc|]. split; [discriminate|].
  split; [exact E1|]. split; [exact E2|]. split; [exact E3|]. rewrite E4. vm_compute. reflexivity.
Defined.

Lemma kgpu_mmap_establishes_witness :
  exists vm', kgpu_mmap (Some (repeat 5 512)) (Some (repeat true 512)) area_example vma_zero =
    Ok (vm', 0) /\ area_wf vm'.
Proof.
  destruct (kgpu_mmap_establishes vma_zero area_example (repeat 5 512) (repeat true 512))
    as [_ H]; try reflexivity; [split; reflexivity|].
  destruct (H eq_refl) as (vm' & E & Hw & _). exists vm'. split; [exact E | exact Hw].
Defined.

Lemma kgpu_mmap_nomem_faults_witness :
  kgpu_mmap None (Some (repeat true 512)) area_example vma_zero = Fault NullDeref.
Proof. apply kgpu_mmap_nomem_faults; [reflexivity | left; reflexivity]. Defined.
