(* ===== verification/VmAccess.v ===== *)
(** * The operations of the mapped area (src/kgpu/src/kernelSpace/main.c)

    The table of operations that [kgpu_mmap] installs in the area: opening and
    closing do nothing, and a fault at an address without a page-table entry
    is answered with SIGBUS.  The codes of linux/mm.h are a parameter. *)

From S2P Require Import Prelude KgpuDefs UnitAlloc MemPool MmapArea.

Class FaultCodes : Type := {
  VM_FAULT_SIGBUS : Z;
  VM_FAULT_NOPAGE : Z;
  VM_FAULT_ERROR : Z
}.

(** The fields of [struct vm_fault] that the handler uses. *)
Record vm_fault : Type := mk_vm_fault {
  virtual_address : Z;
  vf_flags : Z
}.

Definition kgpu_vm_open (v : vm_area_struct) : vm_area_struct := v.

Definition kgpu_vm_close (v : vm_area_struct) : vm_area_struct := v.

(** The new [vmf] and the return value. *)
Definition kgpu_vm_fault `{FaultCodes} (v : vm_area_struct) (vmf : vm_fault) : vm_fault * Z :=
  (mk_vm_fault (virtual_address vmf)
     (Z.lor (vf_flags vmf) (Z.lor VM_FAULT_NOPAGE VM_FAULT_ERROR)), VM_FAULT_SIGBUS).

Record vm_operations_struct : Type := mk_vm_ops {
  vmo_open : vm_area_struct -> vm_area_struct;
  vmo_close : vm_area_struct -> vm_area_struct;
  vmo_fault : vm_area_struct -> vm_fault -> vm_fault * Z
}.

Definition kgpu_vm_ops `{FaultCodes} : vm_operations_struct :=
  mk_vm_ops kgpu_vm_open kgpu_vm_close kgpu_vm_fault.

(** The codes of Linux. *)
#[global] Instance linux_fault_codes : FaultCodes := {|
  VM_FAULT_SIGBUS := 2; VM_FAULT_NOPAGE := 256; VM_FAULT_ERROR := 51 |}.

(** The handler never resolves a fault: it keeps the faulting address and its
    result is the code of a SIGBUS, whatever the area has mapped. *)
Lemma faults_end_in_sigbus `{FaultCodes} v vmf :
  (vmo_fault kgpu_vm_ops v vmf).2 = VM_FAULT_SIGBUS /\
  virtual_address (vmo_fault kgpu_vm_ops v vmf).1 = virtual_address vmf.
Proof. done. Qed.
