(* ===== verification/Device.v ===== *)
(** * The request queues of the kernel module
      (src/kgpu/src/kernelSpace/main.c)

    The state is the global [kgpudev] together with the objects it points to:
    requests live in a heap because clients keep pointers to them, and a
    queue item holds the address of its request.  Results of the slab
    allocator are arguments; a client's callback, which is code of another
    module, is a parameter.  Each call is one step; QueueLock takes the calls
    apart at their locks. *)

From S2P Require Import Prelude KgpuDefs UnitAlloc MemPool MmapArea.

(** ** Data *)

(** A function pointer of type [kgpu_callback]. *)
Inductive kgpu_callback : Type :=
  | CB_NULL
  | CB_sync
  | CB_client (f : Z).

Record kgpu_request : Type := mk_request {
  rq_id : Z;
  rq_in : Z;
  rq_out : Z;
  rq_udata : Z;
  rq_kdata : Z;
  rq_insize : Z;
  rq_outsize : Z;
  rq_udatasize : Z;
  rq_kdatasize : Z;
  rq_service_name : list Z;
  rq_callback : kgpu_callback;
  rq_errcode : Z
}.

#[global] Instance callback_eq_dec : EqDecision kgpu_callback.
Proof. solve_decision. Defined.

#[global] Instance request_eq_dec : EqDecision kgpu_request.
Proof. solve_decision. Defined.

(** [struct _kgpu_request_item]: its address and the request. *)
Record request_item : Type := mk_item {
  it_addr : Z;
  it_r : Z
}.

#[global] Instance item_eq_dec : EqDecision request_item.
Proof. solve_decision. Defined.

(** [struct _kgpu_sync_call_data] *)
Record sync_call_data : Type := mk_sync {
  sd_oldkdata : Z;
  sd_oldcallback : kgpu_callback;
  sd_done : Z
}.

Record kgpu_dev : Type := mk_dev {
  d_state : Z;
  rid_sequence : Z;
  reqs : list request_item;
  rtdreqs : list request_item;
  gmpool : kgpu_mempool;
  vm : kgpu_vma;
  requests : gmap Z kgpu_request;
  req_free : list Z;
  sync_data : gmap Z sync_call_data
}.

(** Assignments to one field. *)
Definition set_state (d : kgpu_dev) (s : Z) : kgpu_dev :=
  mk_dev s (rid_sequence d) (reqs d) (rtdreqs d) (gmpool d) (vm d) (requests d) (req_free d)
    (sync_data d).

Definition set_rid (d : kgpu_dev) (n : Z) : kgpu_dev :=
  mk_dev (d_state d) n (reqs d) (rtdreqs d) (gmpool d) (vm d) (requests d) (req_free d)
    (sync_data d).

Definition set_reqs (d : kgpu_dev) (l : list request_item) : kgpu_dev :=
  mk_dev (d_state d) (rid_sequence d) l (rtdreqs d) (gmpool d) (vm d) (requests d) (req_free d)
    (sync_data d).

Definition set_rtdreqs (d : kgpu_dev) (l : list request_item) : kgpu_dev :=
  mk_dev (d_state d) (rid_sequence d) (reqs d) l (gmpool d) (vm d) (requests d) (req_free d)
    (sync_data d).

Definition set_gmpool (d : kgpu_dev) (p : kgpu_mempool) : kgpu_dev :=
  mk_dev (d_state d) (rid_sequence d) (reqs d) (rtdreqs d) p (vm d) (requests d) (req_free d)
    (sync_data d).

Definition set_area (d : kgpu_dev) (v : kgpu_vma) : kgpu_dev :=
  mk_dev (d_state d) (rid_sequence d) (reqs d) (rtdreqs d) (gmpool d) v (requests d) (req_free d)
    (sync_data d).

Definition set_requests (d : kgpu_dev) (m : gmap Z kgpu_request) : kgpu_dev :=
  mk_dev (d_state d) (rid_sequence d) (reqs d) (rtdreqs d) (gmpool d) (vm d) m (req_free d)
    (sync_data d).

Definition set_req_free (d : kgpu_dev) (l : list Z) : kgpu_dev :=
  mk_dev (d_state d) (rid_sequence d) (reqs d) (rtdreqs d) (gmpool d) (vm d) (requests d) l
    (sync_data d).

Definition set_sync (d : kgpu_dev) (m : gmap Z sync_call_data) : kgpu_dev :=
  mk_dev (d_state d) (rid_sequence d) (reqs d) (rtdreqs d) (gmpool d) (vm d) (requests d)
    (req_free d) m.

(** Reading and writing a request through a pointer. *)
Definition load_req (d : kgpu_dev) (r : Z) : outcome kgpu_request :=
  if bool_decide (r = NULL) then Fault NullDeref else of_option WildPointer (requests d !! r).

Definition update_req (f : kgpu_request -> kgpu_request) (d : kgpu_dev) (r : Z) : outcome kgpu_dev :=
  q ← load_req d r; mret (set_requests d (<[r := f q]> (requests d))).

Definition with_errcode (e : Z) (q : kgpu_request) : kgpu_request :=
  mk_request (rq_id q) (rq_in q) (rq_out q) (rq_udata q) (rq_kdata q) (rq_insize q) (rq_outsize q)
    (rq_udatasize q) (rq_kdatasize q) (rq_service_name q) (rq_callback q) e.

Definition with_callback (k : Z) (cb : kgpu_callback) (q : kgpu_request) : kgpu_request :=
  mk_request (rq_id q) (rq_in q) (rq_out q) (rq_udata q) k (rq_insize q) (rq_outsize q)
    (rq_udatasize q) (rq_kdatasize q) (rq_service_name q) cb (rq_errcode q).

(** ** Request identifiers and the request cache *)

Definition kgpu_next_request_id (d : kgpu_dev) : kgpu_dev * Z :=
  let s := swrap32 (rid_sequence d + 1) in
  let s := if s <? 0 then 0 else s in
  (set_rid d s, s).

(** The constructor of the slab cache, on the object at [a]. *)
Definition kgpu_request_constructor (d : kgpu_dev) (a : Z) : kgpu_dev :=
  if bool_decide (a = NULL) then d
  else
    let '(d, i) := kgpu_next_request_id d in
    set_requests d (<[a := mk_request i 0 0 0 0 0 0 0 0 (repeat 0 32) CB_NULL 0]> (requests d)).

(** What the slab allocator does for one allocation: fail, hand out an object
    of its free list as it is, or construct the objects of a new slab and
    hand out one of them. *)
Inductive slab_answer : Type :=
  | SlabNull
  | SlabReuse (a : Z)
  | SlabGrow (objs : list Z) (a : Z).

Definition slab_ok (d : kgpu_dev) (ans : slab_answer) : Prop :=
  match ans with
  | SlabNull => True
  | SlabReuse a => a ∈ req_free d
  | SlabGrow objs a =>
      a ∈ objs /\ NoDup objs /\ NULL ∉ objs /\ (forall o, o ∈ objs -> requests d !! o = None)
  end.

Definition kgpu_alloc_request (d : kgpu_dev) (ans : slab_answer) : kgpu_dev * Z :=
  match ans with
  | SlabNull => (d, NULL)
  | SlabReuse a => (set_req_free d (filter (fun o => o <> a) (req_free d)), a)
  | SlabGrow objs a =>
      let d := foldl kgpu_request_constructor d objs in
      (set_req_free d (req_free d ++ filter (fun o => o <> a) objs), a)
  end.

Definition kgpu_free_request (d : kgpu_dev) (a : Z) : kgpu_dev :=
  set_req_free d (a :: req_free d).

(** ** Submitting a request *)

Definition kgpu_call_async (d : kgpu_dev) (req : Z) (item : option Z) : kgpu_dev * Z :=
  if d_state d =? KGPU_TERMINATED then (d, KGPU_TERMINATED)
  else
    match item with
    | None => (d, - ENOMEM)
    | Some item => (set_reqs d (reqs d ++ [mk_item item req]), 0)
    end.

(** [kgpu_call_sync] up to its wait: it has returned, or it waits on the
    synchronisation record at the given address. *)
Inductive sync_result : Type :=
  | SyncReturn (code : Z)
  | SyncWait (data : Z).

Definition kgpu_call_sync_submit (d : kgpu_dev) (req : Z) (data item : option Z) :
    outcome (kgpu_dev * sync_result) :=
  if d_state d =? KGPU_TERMINATED then mret (d, SyncReturn KGPU_TERMINATED)
  else
    match data with
    | None => mret (d, SyncReturn (- ENOMEM))
    | Some data =>
        let d := set_sync d (<[data := mk_sync 0 CB_NULL 0]> (sync_data d)) in
        match item with
        | None => mret (d, SyncReturn (- ENOMEM))
        | Some item =>
            q ← load_req d req;
            let d := set_sync d
              (<[data := mk_sync (rq_kdata q) (rq_callback q) 0]> (sync_data d)) in
            d ← update_req (with_callback data CB_sync) d req;
            mret (set_reqs d (reqs d ++ [mk_item item req]), SyncWait data)
        end
    end.

(** The wait ends when the record is done or a signal is pending. *)
Definition sync_may_resume (d : kgpu_dev) (data : Z) (signal : bool) : bool :=
  signal || bool_decide (sd_done <$> sync_data d !! data = Some 1).

(** The rest of [kgpu_call_sync], after the wait. *)
Definition kgpu_call_sync_resume (d : kgpu_dev) (req data : Z) : outcome (kgpu_dev * Z) :=
  s ← of_option WildPointer (sync_data d !! data);
  d ← update_req (with_callback (sd_oldkdata s) (sd_oldcallback s)) d req;
  mret (set_sync d (delete data (sync_data d)), 0).

Definition sync_callback (d : kgpu_dev) (req : Z) : outcome kgpu_dev :=
  q ← load_req d req;
  s ← of_option WildPointer (sync_data d !! rq_kdata q);
  mret (set_sync d (<[rq_kdata q := mk_sync (sd_oldkdata s) (sd_oldcallback s) 1]> (sync_data d))).

(** ** The device file: read, write and poll *)

(** One pointer of a request as the helper sees it. *)
Definition ku_pointer (pool : kgpu_mempool) (p : Z) : Z :=
  if ADDR_WITHIN p (kva pool) (wrap32 (Z.shiftl (npages pool) PAGE_SHIFT))
  then ADDR_REBASE (uva pool) (kva pool) p else p.

Definition fill_ku_request (pool : kgpu_mempool) (req : kgpu_request) : kgpu_ku_request :=
  mk_ku_request (rq_id req) (rq_service_name req)
    (ku_pointer pool (rq_in req)) (ku_pointer pool (rq_out req)) (ku_pointer pool (rq_udata req))
    (rq_insize req) (rq_outsize req) (rq_udatasize req).

(** [sizeof(struct kgpu_ku_request)] and [sizeof(struct kgpu_ku_response)] *)
Definition sizeof_ku_request : Z := 88.

Definition sizeof_ku_response : Z := 8.

(** A [size_t] stored in a [ssize_t]. *)
Definition ssize (c : Z) : Z := if c <? 2 ^ 63 then c else c - 2 ^ 64.

(** The outcome of one pass through the loop of [kgpu_read]: a return value,
    with what was copied to the user buffer and how many bytes were stored
    there, or the process sleeps until a request is queued. *)
Inductive read_result : Type :=
  | ReadReturn (ret : Z) (copied : option kgpu_ku_request) (stored : Z)
  | ReadSleep.

Definition kgpu_read (d : kgpu_dev) (c : Z) (nonblock signal : bool) :
    outcome (kgpu_dev * read_result) :=
  match reqs d with
  | [] =>
      if nonblock then mret (d, ReadReturn (- EAGAIN) None 0)
      else if signal then mret (d, ReadReturn (- ERESTARTSYS) None 0)
      else mret (d, ReadSleep)
  | item :: rest =>
      let d := set_reqs d rest in
      q ← load_req d (it_r item);
      let kureq := fill_ku_request (gmpool d) q in
      let ret := ssize c in
      let d := if 0 <? ret then set_rtdreqs d (rtdreqs d ++ [item]) else d in
      mret (d, ReadReturn ret (Some kureq) sizeof_ku_request)
  end.

(** [find_request(id, 1)]: the first item of [rtdreqs] whose request has this
    identifier, and the list without it. *)
Fixpoint find_request (d : kgpu_dev) (id : Z) (l : list request_item) :
    outcome (option (request_item * list request_item)) :=
  match l with
  | [] => Ok None
  | pos :: l =>
      q ← load_req d (it_r pos);
      if rq_id q =? id then Ok (Some (pos, l))
      else
        r ← find_request d id l;
        mret (match r with Some (i, l) => Some (i, pos :: l) | None => None end)
  end.

Section callbacks.
(** What a client's callback does to the module's state. *)
Context (client_callback : Z -> Z -> kgpu_dev -> outcome kgpu_dev).

Definition run_callback (d : kgpu_dev) (req : Z) : outcome kgpu_dev :=
  q ← load_req d req;
  match rq_callback q with
  | CB_NULL => Fault NullDeref
  | CB_sync => sync_callback d req
  | CB_client f => client_callback f req d
  end.

Definition kgpu_write (d : kgpu_dev) (count : Z) (kuresp : kgpu_ku_response) :
    outcome (kgpu_dev * Z) :=
  if count <? sizeof_ku_response then mret (d, - EINVAL)
  else
    found ← find_request d (ks_id kuresp) (rtdreqs d);
    match found with
    | None => mret (d, - EFAULT)
    | Some (item, rest) =>
        let d := set_rtdreqs d rest in
        d ← update_req (with_errcode (ks_errcode kuresp)) d (it_r item);
        d ← run_callback d (it_r item);
        mret (d, ssize count)
    end.

End callbacks.

(** The event bits of poll.h. *)
Definition POLLIN : Z := 1.

Definition POLLOUT : Z := 4.

Definition POLLRDNORM : Z := 64.

Definition POLLWRNORM : Z := 256.

Definition kgpu_poll (d : kgpu_dev) : Z :=
  let mask := 0 in
  let mask := match reqs d with
              | [] => mask
              | _ => Z.lor mask (Z.lor POLLIN POLLRDNORM)
              end in
  Z.lor mask (Z.lor POLLOUT POLLWRNORM).

(** [KGPU_IOC_SET_STOP] *)
Definition terminate_all_requests (d : kgpu_dev) : kgpu_dev * Z :=
  (set_state d KGPU_TERMINATED, 0).

Definition dump_gpu_bufs (d : kgpu_dev) : kgpu_dev * Z := (d, 0).

(** ** Lemmas *)

Lemma load_req_ok d r q : r <> NULL -> requests d !! r = Some q -> load_req d r = Ok q.
Proof. intros Hr Hq. unfold load_req. by rewrite bool_decide_eq_false_2, Hq. Qed.

Lemma load_req_inv d r q : load_req d r = Ok q -> r <> NULL /\ requests d !! r = Some q.
Proof.
  unfold load_req, of_option. case_bool_decide; [done|].
  destruct (requests d !! r); [|done]. by intros [= ->].
Qed.

(** A live request: its address is not NULL and its object is there. *)
Definition req_at (d : kgpu_dev) (r : Z) (q : kgpu_request) : Prop :=
  r <> NULL /\ requests d !! r = Some q.

Lemma find_request_first d id l1 item l2 q :
  Forall (fun i => exists q', req_at d (it_r i) q' /\ rq_id q' <> id) l1 ->
  req_at d (it_r item) q -> rq_id q = id ->
  find_request d id (l1 ++ item :: l2) = Ok (Some (item, l1 ++ l2)).
Proof.
  intros Hl [Hr Hq] Hid. induction Hl as [|i l1 (q' & [Hr' Hq'] & Hne) _ IH]; cbn [find_request app].
  - rewrite (load_req_ok _ _ _ Hr Hq). cbn. by rewrite Hid, Z.eqb_refl.
  - rewrite (load_req_ok _ _ _ Hr' Hq'). cbn. rewrite (proj2 (Z.eqb_neq _ _)) by done.
    by rewrite IH.
Qed.

Lemma find_request_none d id l :
  Forall (fun i => exists q', req_at d (it_r i) q' /\ rq_id q' <> id) l ->
  find_request d id l = Ok None.
Proof.
  intros Hl. induction Hl as [|i l (q' & [Hr' Hq'] & Hne) _ IH]; cbn [find_request]; [done|].
  rewrite (load_req_ok _ _ _ Hr' Hq'). cbn. rewrite (proj2 (Z.eqb_neq _ _)) by done.
  by rewrite IH.
Qed.

(** Every list whose requests are all live is searched without a fault; the
    item found is the first with the identifier, and it is removed. *)
Lemma find_request_cases d id l :
  Forall (fun i => exists q, req_at d (it_r i) q) l ->
  (find_request d id l = Ok None /\
     Forall (fun i => exists q, req_at d (it_r i) q /\ rq_id q <> id) l) \/
  (exists l1 item l2 q, l = l1 ++ item :: l2 /\ req_at d (it_r item) q /\ rq_id q = id /\
     Forall (fun i => exists q, req_at d (it_r i) q /\ rq_id q <> id) l1 /\
     find_request d id l = Ok (Some (item, l1 ++ l2))).
Proof.
  induction l as [|i l IH]; intros Hl; [by left|].
  apply Forall_cons in Hl as [[q Hq] Hl]. destruct (decide (rq_id q = id)) as [E|E].
  - right. exists [], i, l, q. split_and!; [done..|]. by eapply (find_request_first _ _ []).
  - destruct (IH Hl) as [[H1 H2]|(l1 & item & l2 & q' & -> & H2 & H3 & H4 & H5)].
    + left. assert (Forall (fun i => exists q, req_at d (it_r i) q /\ rq_id q <> id) (i :: l)) as H
        by (constructor; eauto). split; [by apply find_request_none | done].
    + right. exists (i :: l1), item, l2, q'.
      assert (Forall (fun i => exists q, req_at d (it_r i) q /\ rq_id q <> id) (i :: l1)) as H
        by (constructor; eauto).
      split_and!; [done..|]. by apply (find_request_first d id (i :: l1) item l2 q').
Qed.

Lemma ssize_small c : c < 2 ^ 63 -> ssize c = c.
Proof. intros. unfold ssize. by rewrite (proj2 (Z.ltb_lt _ _)). Qed.

(** ** Identifiers *)

Lemma next_request_id_spec d :
  0 <= rid_sequence d < 2 ^ 31 ->
  (kgpu_next_request_id d).2 = (rid_sequence d + 1) mod 2 ^ 31 /\
  rid_sequence (kgpu_next_request_id d).1 = (rid_sequence d + 1) mod 2 ^ 31.
Proof.
  intros H. unfold kgpu_next_request_id. simpl.
  assert ((if swrap32 (rid_sequence d + 1) <? 0 then 0 else swrap32 (rid_sequence d + 1)) =
          (rid_sequence d + 1) mod 2 ^ 31) as E; [|by rewrite E].
  destruct (decide (rid_sequence d + 1 = 2 ^ 31)) as [E|E].
  - rewrite E. reflexivity.
  - rewrite swrap32_id by (unfold s32_range; lia).
    rewrite (proj2 (Z.ltb_ge _ _)) by lia. by rewrite Z.mod_small by lia.
Qed.

(** The identifiers of [n] consecutive calls. *)
Fixpoint take_ids (n : nat) (d : kgpu_dev) : list Z :=
  match n with
  | O => []
  | S n => (kgpu_next_request_id d).2 :: take_ids n (kgpu_next_request_id d).1
  end.

Lemma take_ids_lookup n d i :
  0 <= rid_sequence d < 2 ^ 31 -> (i < n)%nat ->
  take_ids n d !! i = Some ((rid_sequence d + 1 + Z.of_nat i) mod 2 ^ 31).
Proof.
  revert d i. induction n as [|n IH]; intros d i Hd Hi; [lia|]. cbn [take_ids].
  destruct (next_request_id_spec d Hd) as [E1 E2].
  generalize dependent (kgpu_next_request_id d). intros nx E1 E2. destruct i as [|i]; simpl.
  - rewrite E1. do 2 f_equal. lia.
  - rewrite IH; [|rewrite E2; apply Z.mod_pos_bound; lia | lia].
    rewrite E2. f_equal. rewrite <- Z.add_assoc, Zplus_mod_idemp_l. f_equal. lia.
Qed.

Lemma take_ids_length n d : length (take_ids n d) = n.
Proof. revert d. induction n; intros; simpl; [done | by rewrite IHn]. Qed.

(** C37: the sequence of request identifiers never leaves [0, 2^31): when the
    signed counter overflows it restarts at 0, and any [2^31] consecutive
    calls of [kgpu_next_request_id] return pairwise different identifiers. *)
Theorem request_ids_distinct d n :
  0 <= rid_sequence d < 2 ^ 31 -> Z.of_nat n <= 2 ^ 31 ->
  Forall (fun i => 0 <= i < 2 ^ 31) (take_ids n d) /\ NoDup (take_ids n d).
Proof.
  intros Hd Hn. split.
  - apply Forall_lookup. intros i x Hx. pose proof (lookup_lt_Some _ _ _ Hx) as Hi.
    rewrite take_ids_length in Hi. rewrite take_ids_lookup in Hx by done.
    injection Hx as <-. apply Z.mod_pos_bound. lia.
  - apply NoDup_alt. intros i j x Hx Hy.
    pose proof (lookup_lt_Some _ _ _ Hx) as Hi. pose proof (lookup_lt_Some _ _ _ Hy) as Hj.
    rewrite take_ids_length in Hi, Hj. rewrite take_ids_lookup in Hx, Hy by done.
    rewrite <- Hx in Hy. injection Hy as Hy. word_lia.
Qed.

(** A device as [kgpu_init] leaves it, before the helper connects. *)
Definition dev_init : kgpu_dev :=
  mk_dev KGPU_OK 0 [] [] mempool_zero vma_zero ∅ [] ∅.

Lemma request_ids_distinct_witness :
  take_ids 3 (set_rid dev_init (2 ^ 31 - 2)) = [2 ^ 31 - 1; 0; 1] /\
  NoDup (take_ids 3 (set_rid dev_init (2 ^ 31 - 2))).
Proof.
  split; [reflexivity|].
  apply (request_ids_distinct (set_rid dev_init (2 ^ 31 - 2)) 3); [simpl; lia | simpl; lia].
Defined.

(** ** Addresses *)

(** The pool's buffer is mapped at [kva] in the kernel and at [uva] in the
    helper, and neither mapping wraps. *)
Definition pool_mapped (pool : kgpu_mempool) : Prop :=
  0 <= npages pool < 2 ^ 20 /\
  buffer_ok (kva pool) (npages pool * PAGE_SIZE) /\ buffer_ok (uva pool) (npages pool * PAGE_SIZE).

Lemma ku_pointer_spec pool p :
  pool_mapped pool ->
  ku_pointer pool p =
    if bool_decide (kva pool <= p < kva pool + npages pool * PAGE_SIZE)
    then uva pool + (p - kva pool) else p.
Proof.
  intros (Hn & Hk & Hu). unfold ku_pointer, PAGE_SHIFT.
  rewrite Z.shiftl_mul_pow2 by lia. change (npages pool * 2 ^ 12) with (npages pool * PAGE_SIZE).
  rewrite wrap32_id by (unfold u32_range, PAGE_SIZE; lia).
  pose proof (ADDR_WITHIN_spec p _ _ Hk) as Hw. case_bool_decide as E.
  - rewrite (proj2 Hw E). by eapply ADDR_REBASE_within; [exact Hk | exact Hu | apply Hw].
  - destruct (ADDR_WITHIN _ _ _); [|done]. exfalso. by apply E, Hw.
Qed.

(** Every pointer of a request that lies in the GPU memory pool reaches the
    helper as the address at the same offset in the helper's own mapping of the
    buffer, and every other pointer reaches it unchanged; identifier, service
    name and sizes are copied. *)
Theorem fill_ku_request_rebases pool req :
  pool_mapped pool ->
  let kr := fill_ku_request pool req in
  let rebased p q := if bool_decide (kva pool <= p < kva pool + npages pool * PAGE_SIZE)
                     then q - uva pool = p - kva pool /\
                          ADDR_WITHIN q (uva pool) (npages pool * PAGE_SIZE) = true
                     else q = p in
  kr_id kr = rq_id req /\ kr_service_name kr = rq_service_name req /\
  rebased (rq_in req) (kr_in kr) /\ rebased (rq_out req) (kr_out kr) /\
  rebased (rq_udata req) (kr_data kr) /\ kr_insize kr = rq_insize req /\
  kr_outsize kr = rq_outsize req /\ kr_datasize kr = rq_udatasize req.
Proof.
  intros Hp kr rebased.
  assert (forall p, rebased p (ku_pointer pool p)) as H.
  { intros p. unfold rebased. rewrite ku_pointer_spec by done. case_bool_decide; [|done].
    split; [lia|]. destruct Hp as (_ & _ & Hu). apply ADDR_WITHIN_spec; [done | lia]. }
  split_and!; try apply H; done.
Qed.

Lemma fill_ku_request_rebases_witness :
  kr_in (fill_ku_request pool_example
           (mk_request 1 (2 ^ 24 + 100) 7 0 0 0 0 0 0 [] CB_NULL 0)) = 4196 /\
  kr_out (fill_ku_request pool_example
            (mk_request 1 (2 ^ 24 + 100) 7 0 0 0 0 0 0 [] CB_NULL 0)) = 7.
Proof.
  destruct (fill_ku_request_rebases pool_example
    (mk_request 1 (2 ^ 24 + 100) 7 0 0 0 0 0 0 [] CB_NULL 0)) as (_ & _ & H1 & H2 & _).
  - split; [simpl; lia|]. split; unfold buffer_ok, PAGE_SIZE; simpl; lia.
  - rewrite bool_decide_eq_true_2 in H1 by (unfold PAGE_SIZE; simpl; lia).
    rewrite bool_decide_eq_false_2 in H2 by (unfold PAGE_SIZE; simpl; lia).
    destruct H1 as [H1 _]. simpl uva in H1. simpl rq_in in H1. simpl kva in H1.
    split; [lia | exact H2].
Defined.

(** ** Reading *)

(** C19: with a buffer size between 1 and [2^63 - 1], [kgpu_read] on a non-empty
    queue takes the oldest request, returns its translation, and appends it to
    the list of requests in flight: no request is lost, duplicated or
    overtaken.  On an empty queue it changes nothing and returns [-EAGAIN],
    is interrupted, or sleeps. *)
Theorem kgpu_read_fifo d c nonblock signal :
  0 < c < 2 ^ 63 ->
  match reqs d with
  | [] => kgpu_read d c nonblock signal =
            Ok (d, if nonblock then ReadReturn (- EAGAIN) None 0
                   else if signal then ReadReturn (- ERESTARTSYS) None 0 else ReadSleep)
  | item :: rest => forall q, req_at d (it_r item) q ->
      exists d', kgpu_read d c nonblock signal =
          Ok (d', ReadReturn c (Some (fill_ku_request (gmpool d) q)) sizeof_ku_request) /\
        reqs d' = rest /\ rtdreqs d' = rtdreqs d ++ [item] /\
        rtdreqs d' ++ reqs d' = rtdreqs d ++ reqs d /\ requests d' = requests d
  end.
Proof.
  intros Hc. unfold kgpu_read. destruct (reqs d) as [|item rest] eqn:E.
  - by destruct nonblock, signal.
  - intros q [Hr Hq]. change (requests d) with (requests (set_reqs d rest)) in Hq.
    rewrite (load_req_ok _ _ _ Hr Hq). cbn. rewrite ssize_small by lia.
    rewrite (proj2 (Z.ltb_lt _ _)) by lia. eexists. split; [done|]. simpl.
    by rewrite <- app_assoc.
Qed.

(** A device with one queued request, a client's, for the examples. *)
Definition req_example : kgpu_request :=
  mk_request 5 (2 ^ 24) (2 ^ 24 + 1024) 0 77 1024 1024 0 0 (repeat 65 32) (CB_client 1) 0.

Definition dev_example : kgpu_dev :=
  mk_dev KGPU_OK 5 [mk_item 2000 1000] [] pool_example vm_example {[1000 := req_example]} [] ∅.

Lemma kgpu_read_fifo_witness :
  exists d', kgpu_read dev_example 88 false false =
      Ok (d', ReadReturn 88 (Some (fill_ku_request pool_example req_example)) 88) /\
    reqs d' = [] /\ rtdreqs d' = [mk_item 2000 1000].
Proof.
  destruct (kgpu_read_fifo dev_example 88 false false ltac:(lia) req_example)
    as (d' & E & H1 & H2 & _); [split; [discriminate | reflexivity]|].
  exists d'. split; [exact E|]. split; [exact H1 | exact H2].
Defined.

(** A [read] with a zero count takes the oldest request off the queue
    without putting it on the list of requests in flight, so that no response
    can ever complete it; and whatever the count, 88 bytes are stored through
    the user's pointer. *)
Theorem kgpu_read_zero_loses_request d item rest nonblock signal q :
  reqs d = item :: rest -> req_at d (it_r item) q ->
  exists d' kureq, kgpu_read d 0 nonblock signal = Ok (d', ReadReturn 0 (Some kureq) 88) /\
    reqs d' = rest /\ rtdreqs d' = rtdreqs d.
Proof.
  intros E [Hr Hq]. unfold kgpu_read. rewrite E.
  change (requests d) with (requests (set_reqs d rest)) in Hq.
  rewrite (load_req_ok _ _ _ Hr Hq). cbn. eauto.
Qed.

Lemma kgpu_read_zero_loses_request_witness :
  exists d' kureq, kgpu_read dev_example 0 false false = Ok (d', ReadReturn 0 (Some kureq) 88) /\
    reqs d' = [] /\ rtdreqs d' = [].
Proof.
  apply (kgpu_read_zero_loses_request dev_example (mk_item 2000 1000) [] false false req_example);
    [reflexivity | split; [discriminate | reflexivity]].
Defined.

(** The poll mask always reports the device as writable, and as readable
    exactly when a read would hand out a request at once. *)
Theorem kgpu_poll_readable d c signal :
  0 < c < 2 ^ 63 -> Forall (fun i => exists q, req_at d (it_r i) q) (reqs d) ->
  Z.testbit (kgpu_poll d) 2 = true /\
  (Z.testbit (kgpu_poll d) 0 = true <->
   exists d' kr, kgpu_read d c true signal = Ok (d', ReadReturn c (Some kr) sizeof_ku_request)).
Proof.
  intros Hc Hl. unfold kgpu_poll, kgpu_read. destruct (reqs d) as [|item rest]; simpl.
  - split; [done|]. split; [done|]. intros (d1 & kr & E). inversion E.
  - apply Forall_cons in Hl as [[q [Hr Hq]] _]. split; [done|]. split; [|done]. intros _.
    change (requests d) with (requests (set_reqs d rest)) in Hq.
    rewrite (load_req_ok _ _ _ Hr Hq). cbn. rewrite ssize_small by lia. eauto.
Qed.

Lemma kgpu_poll_readable_witness :
  kgpu_poll dev_example = 325 /\ (Z.testbit (kgpu_poll dev_example) 0 = true <->
    exists d' kr, kgpu_read dev_example 88 true false =
                  Ok (d', ReadReturn 88 (Some kr) sizeof_ku_request)).
Proof.
  split; [reflexivity|]. apply (kgpu_poll_readable dev_example 88 false); [lia|].
  constructor; [|constructor]. exists req_example. split; [discriminate | reflexivity].
Defined.

(** ** Writing a response *)

Section write_proofs.
Context (client_callback : Z -> Z -> kgpu_dev -> outcome kgpu_dev).

(** The device when the callback of the completed request starts. *)
Definition completed (d : kgpu_dev) (rest : list request_item) (r : Z) (q : kgpu_request) (e : Z) :
    kgpu_dev :=
  set_requests (set_rtdreqs d rest) (<[r := with_errcode e q]> (requests d)).

Lemma kgpu_write_found d count resp item rest q :
  sizeof_ku_response <= count < 2 ^ 63 ->
  find_request d (ks_id resp) (rtdreqs d) = Ok (Some (item, rest)) ->
  req_at d (it_r item) q ->
  kgpu_write client_callback d count resp =
    (d' ← run_callback client_callback (completed d rest (it_r item) q (ks_errcode resp)) (it_r item);
     Ok (d', count)).
Proof.
  intros Hc Hf [Hr Hq]. unfold kgpu_write. rewrite (proj2 (Z.ltb_ge _ _)) by lia.
  rewrite Hf. cbn. unfold update_req.
  rewrite (load_req_ok _ _ q); [|done|done]. cbn. by rewrite ssize_small by lia.
Qed.

(** The callback of a completed request starts with the error code of the
    response stored in the request. *)
Lemma run_callback_completed d rest r q e :
  req_at d r q ->
  run_callback client_callback (completed d rest r q e) r =
    match rq_callback q with
    | CB_NULL => Fault NullDeref
    | CB_sync => sync_callback (completed d rest r q e) r
    | CB_client f => client_callback f r (completed d rest r q e)
    end.
Proof.
  intros [Hr Hq]. unfold run_callback.
  rewrite (load_req_ok _ r (with_errcode e q)); [done | done |].
  apply lookup_insert_eq.
Qed.

(** C18: [kgpu_write] rejects a response that is too short with [-EINVAL], and
    one whose identifier is not in flight with [-EFAULT], changing nothing.
    Otherwise it takes exactly the oldest request in flight with that
    identifier off the list, stores the error code in it, runs its callback
    once in that state, and returns [count]. *)
Theorem kgpu_write_completes d count resp :
  Forall (fun i => exists q, req_at d (it_r i) q) (rtdreqs d) -> count < 2 ^ 63 ->
  let r := kgpu_write client_callback d count resp in
  if count <? sizeof_ku_response then r = Ok (d, - EINVAL)
  else
    (r = Ok (d, - EFAULT) /\
     Forall (fun i => exists q, req_at d (it_r i) q /\ rq_id q <> ks_id resp) (rtdreqs d)) \/
    exists l1 item l2 q, rtdreqs d = l1 ++ item :: l2 /\ req_at d (it_r item) q /\
      rq_id q = ks_id resp /\
      Forall (fun i => exists q, req_at d (it_r i) q /\ rq_id q <> ks_id resp) l1 /\
      r = (d' ← match rq_callback q with
                | CB_NULL => Fault NullDeref
                | CB_sync => sync_callback (completed d (l1 ++ l2) (it_r item) q (ks_errcode resp))
                               (it_r item)
                | CB_client f => client_callback f (it_r item)
                                   (completed d (l1 ++ l2) (it_r item) q (ks_errcode resp))
                end;
           Ok (d', count)).
Proof.
  intros Hl Hc r. destruct (Z.ltb_spec count sizeof_ku_response) as [E|E].
  { unfold r, kgpu_write. by rewrite (proj2 (Z.ltb_lt _ _)). }
  destruct (find_request_cases d (ks_id resp) (rtdreqs d) Hl)
    as [[Hn Hall]|(l1 & item & l2 & q & Hsplit & Hq & Hid & Hl1 & Hf)].
  - left. split; [|done]. unfold r, kgpu_write. rewrite (proj2 (Z.ltb_ge _ _)) by lia.
    by rewrite Hn.
  - right. exists l1, item, l2, q. split_and!; [done..|].
    unfold r. rewrite (kgpu_write_found _ _ _ _ _ q) by done.
    by rewrite run_callback_completed.
Qed.

(** The device after the first part of a synchronous call. *)
Definition submitted (d : kgpu_dev) (req : Z) (q : kgpu_request) (data item : Z) : kgpu_dev :=
  mk_dev (d_state d) (rid_sequence d) (reqs d ++ [mk_item item req]) (rtdreqs d) (gmpool d) (vm d)
    (<[req := with_callback data CB_sync q]> (requests d)) (req_free d)
    (<[data := mk_sync (rq_kdata q) (rq_callback q) 0]> (sync_data d)).

Lemma call_sync_submit_ok d req q data item :
  d_state d <> KGPU_TERMINATED -> req_at d req q ->
  kgpu_call_sync_submit d req (Some data) (Some item) =
    Ok (submitted d req q data item, SyncWait data).
Proof.
  intros Hst [Hr Hq]. unfold kgpu_call_sync_submit. rewrite (proj2 (Z.eqb_neq _ _)) by done.
  rewrite (load_req_ok _ req q) by done. cbn. unfold update_req.
  rewrite (load_req_ok _ req q) by done. cbn. by rewrite insert_insert_eq.
Qed.

Lemma call_sync_resume_ok d req q data s :
  req_at d req q -> sync_data d !! data = Some s ->
  kgpu_call_sync_resume d req data =
    Ok (set_sync (set_requests d (<[req := with_callback (sd_oldkdata s) (sd_oldcallback s) q]>
                                    (requests d)))
          (delete data (sync_data d)), 0).
Proof.
  intros [Hr Hq] Hs. unfold kgpu_call_sync_resume. rewrite Hs. cbn. unfold update_req.
  by rewrite (load_req_ok _ req q).
Qed.

(** Reading the only queued request. *)
Lemma kgpu_read_single d c item q :
  0 < c < 2 ^ 63 -> reqs d = [item] -> req_at d (it_r item) q ->
  kgpu_read d c false false =
    Ok (set_rtdreqs (set_reqs d []) (rtdreqs d ++ [item]),
        ReadReturn c (Some (fill_ku_request (gmpool d) q)) sizeof_ku_request).
Proof.
  intros Hc E [Hr Hq]. unfold kgpu_read. rewrite E. rewrite (load_req_ok _ _ q) by done.
  cbn. rewrite ssize_small by lia. by rewrite (proj2 (Z.ltb_lt _ _)) by lia.
Qed.

(** A response to the last item in flight, whose identifier no other has. *)
Lemma kgpu_write_last d count e l item q :
  rtdreqs d = l ++ [item] -> req_at d (it_r item) q ->
  sizeof_ku_response <= count < 2 ^ 63 ->
  Forall (fun i => exists q', req_at d (it_r i) q' /\ rq_id q' <> rq_id q) l ->
  kgpu_write client_callback d count (mk_ku_response (rq_id q) e) =
    (d' ← match rq_callback q with
          | CB_NULL => Fault NullDeref
          | CB_sync => sync_callback (completed d l (it_r item) q e) (it_r item)
          | CB_client f => client_callback f (it_r item) (completed d l (it_r item) q e)
          end; Ok (d', count)).
Proof.
  intros Hl Hq Hc Hne.
  rewrite (kgpu_write_found _ _ _ item l q); [| done | | done].
  - by rewrite run_callback_completed.
  - rewrite Hl. rewrite <- (app_nil_r l) at 2. by apply (find_request_first _ _ _ _ _ q).
Qed.

(** C25: A complete synchronous call.  When the queue is empty and the
    request's identifier is not already in flight, submitting the request,
    the helper's read and its response make the waiting caller runnable
    without a signal; when it resumes, the call returns 0, the request has
    its own callback and data again and the error code of the response, and
    queues and synchronisation records are as before. *)
Theorem sync_call_roundtrip d req q data item c count e :
  d_state d <> KGPU_TERMINATED -> req_at d req q -> reqs d = [] ->
  sync_data d !! data = None -> 0 < c < 2 ^ 63 -> sizeof_ku_response <= count < 2 ^ 63 ->
  Forall (fun i => it_r i <> req /\ exists q', req_at d (it_r i) q' /\ rq_id q' <> rq_id q) (rtdreqs d) ->
  exists d1 d2 d3 d4 kr,
    kgpu_call_sync_submit d req (Some data) (Some item) = Ok (d1, SyncWait data) /\
    sync_may_resume d1 data false = false /\
    kgpu_read d1 c false false = Ok (d2, ReadReturn c (Some kr) sizeof_ku_request) /\
    kgpu_write client_callback d2 count (mk_ku_response (kr_id kr) e) = Ok (d3, count) /\
    sync_may_resume d3 data false = true /\
    kgpu_call_sync_resume d3 req data = Ok (d4, 0) /\
    d4 = set_requests d (<[req := with_errcode e q]> (requests d)).
Proof.
  intros Hst Hq Hqs Hd Hc Hcount Hl. set (q1 := with_callback data CB_sync q).
  assert (Hat : req_at (submitted d req q data item) req q1)
    by (destruct Hq; split; [done | apply lookup_insert_eq]).
  eexists _, _, _, _, _. split; [by apply call_sync_submit_ok|].
  split; [unfold sync_may_resume; simpl; by rewrite lookup_insert_eq|].
  split; [apply (kgpu_read_single _ _ (mk_item item req) q1); [done | simpl; by rewrite Hqs | done]|].
  split; [|split; [|split; [|reflexivity]]].
  - change (kr_id _) with (rq_id q1). rewrite (kgpu_write_last _ _ _ (rtdreqs d) (mk_item item req) q1);
      [| done | done | done |].
    + cbn [rq_callback q1 with_callback it_r]. unfold sync_callback.
      rewrite (load_req_ok _ req (with_errcode e q1)); [|apply Hq | apply lookup_insert_eq].
      cbn. rewrite lookup_insert_eq. reflexivity.
    + eapply Forall_impl; [exact Hl|]. intros i (Hne & q' & [Hr' Hq'] & Hid).
      exists q'. split; [|done]. split; [done|]. simpl. by rewrite lookup_insert_ne.
  - unfold sync_may_resume. simpl. by rewrite lookup_insert_eq.
  - rewrite (call_sync_resume_ok _ req (with_errcode e q1) data (mk_sync (rq_kdata q) (rq_callback q) 1));
      [| destruct Hq; split; [done | apply lookup_insert_eq] | apply lookup_insert_eq].
    destruct d. unfold set_requests, set_sync, set_reqs, set_rtdreqs. cbn in *. subst.
    rewrite !insert_insert_eq, delete_insert_id by done. by destruct q.
Qed.

(** [kgpu_call_sync] ignores the result of its interruptible wait.  When a
    signal ends the wait before the helper has read the request, the call
    still returns 0, as for a completed request, although the request is
    queued, not executed, and its error code is untouched; if the request had
    no callback of its own, the later response to it calls through NULL. *)
Theorem sync_interrupted_returns_success d req q data item c count e :
  d_state d <> KGPU_TERMINATED -> req_at d req q -> reqs d = [] -> rtdreqs d = [] ->
  sync_data d !! data = None -> 0 < c < 2 ^ 63 -> sizeof_ku_response <= count < 2 ^ 63 ->
  exists d1 d2,
    kgpu_call_sync_submit d req (Some data) (Some item) = Ok (d1, SyncWait data) /\
    sync_may_resume d1 data true = true /\
    kgpu_call_sync_resume d1 req data = Ok (d2, 0) /\
    reqs d2 = [mk_item item req] /\ requests d2 !! req = Some q /\
    (rq_callback q = CB_NULL -> exists d3 kr,
       kgpu_read d2 c false false = Ok (d3, ReadReturn c (Some kr) sizeof_ku_request) /\
       kgpu_write client_callback d3 count (mk_ku_response (kr_id kr) e) = Fault NullDeref).
Proof.
  intros Hst Hq Hqs Hrt Hd Hc Hcount. set (q1 := with_callback data CB_sync q).
  assert (Hat : req_at (submitted d req q data item) req q1)
    by (destruct Hq; split; [done | apply lookup_insert_eq]).
  eexists _, _. split; [by apply call_sync_submit_ok|]. split; [done|].
  split; [apply (call_sync_resume_ok _ _ q1 data (mk_sync (rq_kdata q) (rq_callback q) 0));
          [done | apply lookup_insert_eq]|].
  assert (Hback : with_callback (rq_kdata q) (rq_callback q) q1 = q) by (by destruct q).
  cbn [reqs requests set_sync set_requests submitted sd_oldkdata sd_oldcallback].
  rewrite Hqs, Hback, insert_insert_eq. split; [done|]. split; [apply lookup_insert_eq|].
  intros Hcb. eexists _, _.
  split; [apply (kgpu_read_single _ _ (mk_item item req) q); [done | simpl; by rewrite Hqs |]|].
  - destruct Hq; split; [done | apply lookup_insert_eq].
  - change (kr_id _) with (rq_id q). rewrite (kgpu_write_last _ _ _ [] (mk_item item req) q);
      [by rewrite Hcb | simpl; by rewrite Hrt | | done | done].
    destruct Hq; split; [done | apply lookup_insert_eq].
Qed.

End write_proofs.

(** ** Examples *)

(** A callback that only returns, as that of the benchmark module does to
    this state. *)
Definition quiet_callback (f r : Z) (d : kgpu_dev) : outcome kgpu_dev := Ok d.

Definition dev_flight : kgpu_dev := set_rtdreqs (set_reqs dev_example []) [mk_item 2000 1000].

Lemma kgpu_write_completes_witness :
  kgpu_write quiet_callback dev_flight 8 (mk_ku_response 5 2) =
    Ok (completed dev_flight [] 1000 req_example 2, 8).
Proof.
  destruct (kgpu_write_completes quiet_callback dev_flight 8 (mk_ku_response 5 2))
    as [[_ Hn]|(l1 & item & l2 & q & Hl & Hq & Hid & _ & E)].
  - constructor; [|constructor]. exists req_example. split; [discriminate | reflexivity].
  - lia.
  - apply Forall_cons in Hn as [(q & [_ Hq] & Hne) _]. vm_compute in Hq. injection Hq as <-.
    exfalso. by apply Hne.
  - destruct l1 as [|i l1]; [|destruct l1; discriminate Hl]. simpl in Hl.
    injection Hl as <- <-. destruct Hq as [_ Hq]. vm_compute in Hq. injection Hq as <-.
    exact E.
Defined.

Definition dev_idle : kgpu_dev := set_reqs dev_example [].

Lemma sync_call_roundtrip_witness :
  exists d1 d2 d3 d4 kr,
    kgpu_call_sync_submit dev_idle 1000 (Some 3000) (Some 2000) = Ok (d1, SyncWait 3000) /\
    sync_may_resume d1 3000 false = false /\
    kgpu_read d1 88 false false = Ok (d2, ReadReturn 88 (Some kr) sizeof_ku_request) /\
    kgpu_write quiet_callback d2 8 (mk_ku_response (kr_id kr) 0) = Ok (d3, 8) /\
    sync_may_resume d3 3000 false = true /\
    kgpu_call_sync_resume d3 1000 3000 = Ok (d4, 0) /\
    d4 = set_requests dev_idle (<[1000 := with_errcode 0 req_example]> (requests dev_idle)).
Proof.
  apply (sync_call_roundtrip quiet_callback dev_idle 1000 req_example 3000 2000 88 8 0);
    [discriminate | split; [discriminate | reflexivity] | reflexivity | reflexivity | lia |
     unfold sizeof_ku_response; lia | constructor].
Defined.

Lemma sync_interrupted_returns_success_witness :
  exists d1 d2,
    kgpu_call_sync_submit dev_idle 1000 (Some 3000) (Some 2000) = Ok (d1, SyncWait 3000) /\
    kgpu_call_sync_resume d1 1000 3000 = Ok (d2, 0) /\ reqs d2 = [mk_item 2000 1000].
Proof.
  destruct (sync_interrupted_returns_success quiet_callback dev_idle 1000 req_example 3000 2000 88 8 0)
    as (d1 & d2 & E1 & _ & E2 & E3 & _);
    [discriminate | split; [discriminate | reflexivity] | reflexivity | reflexivity | reflexivity |
     lia | unfold sizeof_ku_response; lia |].
  exists d1, d2. split; [exact E1|]. split; [exact E2 | exact E3].
Defined.
