(* ===== verification/QueueLock.v ===== *)
(** * The queues under concurrent calls
      ([kgpu_call_async], [kgpu_read] and [kgpu_write],
      src/kgpu/src/kernelSpace/main.c)

    Each of these functions changes a queue under its lock, but none of them
    is one critical section: [kgpu_call_async] tests the state before it
    takes [reqlock], [kgpu_read] takes a request off [reqs] under [reqlock]
    and appends it to [rtdreqs] under [rtdreqlock], and [kgpu_write] runs the
    callback after [find_request] has given up [rtdreqlock].  [queue_step]
    interleaves the calls of any number of threads at these points. *)

From S2P Require Import Prelude KgpuDefs UnitAlloc MemPool MmapArea Device.

(** ** The parts of the functions *)

Definition async_check (d : kgpu_dev) (item : option Z) : Z + Z :=
  if d_state d =? KGPU_TERMINATED then inl KGPU_TERMINATED
  else match item with None => inl (- ENOMEM) | Some item => inr item end.

Definition async_queue (d : kgpu_dev) (item : request_item) : kgpu_dev :=
  set_reqs d (reqs d ++ [item]).

(** The section under [reqlock], when the list is not empty: the request is
    copied to the user buffer there, and [ret] becomes the count [c]. *)
Definition read_take (d : kgpu_dev) (item : request_item) (rest : list request_item) (c : Z) :
    outcome (kgpu_dev * kgpu_ku_request * Z) :=
  let d := set_reqs d rest in
  q ← load_req d (it_r item);
  mret (d, fill_ku_request (gmpool d) q, ssize c).

(** The section under [rtdreqlock], which is entered only if [ret > 0]. *)
Definition read_file (d : kgpu_dev) (item : request_item) (ret : Z) : kgpu_dev :=
  if 0 <? ret then set_rtdreqs d (rtdreqs d ++ [item]) else d.

Definition write_find (d : kgpu_dev) (id : Z) : outcome (option (kgpu_dev * request_item)) :=
  found ← find_request d id (rtdreqs d);
  mret (match found with Some (item, rest) => Some (set_rtdreqs d rest, item) | None => None end).

Section calls.
Context (client_callback : Z -> Z -> kgpu_dev -> outcome kgpu_dev).

Definition write_finish (d : kgpu_dev) (item : request_item) (errcode : Z) : outcome kgpu_dev :=
  d ← update_req (with_errcode errcode) d (it_r item);
  run_callback client_callback d (it_r item).

(** In sequence the parts are the functions. *)
Lemma kgpu_call_async_parts d req item :
  kgpu_call_async d req item =
    match async_check d item with
    | inl code => (d, code)
    | inr a => (async_queue d (mk_item a req), 0)
    end.
Proof. unfold kgpu_call_async, async_check. by destruct (_ =? _), item. Qed.

Lemma kgpu_read_parts d c nonblock signal item rest :
  reqs d = item :: rest ->
  kgpu_read d c nonblock signal =
    ('(d, kureq, ret) ← read_take d item rest c;
     mret (read_file d item ret, ReadReturn ret (Some kureq) sizeof_ku_request)).
Proof.
  intros E. unfold kgpu_read, read_take. rewrite E. by destruct (load_req _ _).
Qed.

Lemma kgpu_write_parts d count resp :
  kgpu_write client_callback d count resp =
    if count <? sizeof_ku_response then mret (d, - EINVAL)
    else
      o ← write_find d (ks_id resp);
      match o with
      | None => mret (d, - EFAULT)
      | Some (d, item) => d ← write_finish d item (ks_errcode resp); mret (d, ssize count)
      end.
Proof.
  unfold kgpu_write, write_find, write_finish. destruct (count <? _); [done|].
  destruct (find_request _ _ _) as [[[item rest]|]|]; [|done..]. cbn [mbind outcome_bind mret outcome_ret].
  by destruct (update_req _ _ _).
Qed.

(** ** Interleaved calls *)

(** The device, the items that threads inside of the three functions hold
    (a reader with its [ret], an answering thread with its code), and the
    history: the requests in the order of submission, of queueing and of
    taking, those that are answered, the counts of the reads that took a
    request, and the requests that a read dropped because its [ret] was not
    positive. *)
Record queue_sys : Type := mk_qsys {
  qs_dev : kgpu_dev;
  qs_sub : gmap Z request_item;
  qs_read : gmap Z (request_item * Z);
  qs_write : gmap Z (request_item * Z);
  h_submitted : list Z;
  h_queued : list Z;
  h_taken : list Z;
  h_answered : list Z;
  h_counts : list Z;
  h_lost : list Z
}.

Definition hands {A} (f : A -> request_item) (m : gmap Z A) : list Z :=
  (fun p => it_r (f p.2)) <$> map_to_list m.

(** Where the requests are that the module has to answer. *)
Definition handed_out (s : queue_sys) : list Z :=
  hands fst (qs_read s) ++ (it_r <$> rtdreqs (qs_dev s)) ++ hands fst (qs_write s).

Definition places (s : queue_sys) : list Z :=
  hands id (qs_sub s) ++ (it_r <$> reqs (qs_dev s)) ++ handed_out s.

Definition idle (s : queue_sys) (t : Z) : Prop :=
  qs_sub s !! t = None /\ qs_read s !! t = None /\ qs_write s !! t = None.

(** A client submits a request object that is in no place. *)
Inductive queue_step (s : queue_sys) : queue_sys -> Prop :=
  | QS_check t r q f a item :
      idle s t -> r ∉ places s -> r <> NULL -> requests (qs_dev s) !! r = Some q ->
      rq_callback q = CB_client f -> async_check (qs_dev s) a = inr item ->
      queue_step s (mk_qsys (qs_dev s) (<[t := mk_item item r]> (qs_sub s)) (qs_read s) (qs_write s)
        (h_submitted s ++ [r]) (h_queued s) (h_taken s) (h_answered s) (h_counts s) (h_lost s))
  | QS_queue t item :
      qs_sub s !! t = Some item ->
      queue_step s (mk_qsys (async_queue (qs_dev s) item) (delete t (qs_sub s)) (qs_read s) (qs_write s)
        (h_submitted s) (h_queued s ++ [it_r item]) (h_taken s) (h_answered s) (h_counts s) (h_lost s))
  | QS_take t c item rest d kureq ret :
      idle s t -> u64_range c -> reqs (qs_dev s) = item :: rest ->
      read_take (qs_dev s) item rest c = Ok (d, kureq, ret) ->
      queue_step s (mk_qsys d (qs_sub s) (<[t := (item, ret)]> (qs_read s)) (qs_write s)
        (h_submitted s) (h_queued s) (h_taken s ++ [it_r item]) (h_answered s) (h_counts s ++ [c]) (h_lost s))
  | QS_file t item ret :
      qs_read s !! t = Some (item, ret) ->
      queue_step s (mk_qsys (read_file (qs_dev s) item ret) (qs_sub s) (delete t (qs_read s)) (qs_write s)
        (h_submitted s) (h_queued s) (h_taken s) (h_answered s) (h_counts s)
        (h_lost s ++ if 0 <? ret then [] else [it_r item]))
  | QS_find t resp d item :
      idle s t -> write_find (qs_dev s) (ks_id resp) = Ok (Some (d, item)) ->
      queue_step s (mk_qsys d (qs_sub s) (qs_read s) (<[t := (item, ks_errcode resp)]> (qs_write s))
        (h_submitted s) (h_queued s) (h_taken s) (h_answered s) (h_counts s) (h_lost s))
  | QS_finish t item code d :
      qs_write s !! t = Some (item, code) -> write_finish (qs_dev s) item code = Ok d ->
      queue_step s (mk_qsys d (qs_sub s) (qs_read s) (delete t (qs_write s))
        (h_submitted s) (h_queued s) (h_taken s) (h_answered s ++ [it_r item]) (h_counts s) (h_lost s))
  | QS_stop :
      queue_step s (mk_qsys (terminate_all_requests (qs_dev s)).1 (qs_sub s) (qs_read s) (qs_write s)
        (h_submitted s) (h_queued s) (h_taken s) (h_answered s) (h_counts s) (h_lost s)).

Definition queue_start (d : kgpu_dev) : queue_sys := mk_qsys d ∅ ∅ ∅ [] [] [] [] [] [].

End calls.

(** ** The invariant *)

Lemma hands_insert {A} (f : A -> request_item) (m : gmap Z A) t a :
  m !! t = None -> hands f (<[t := a]> m) ≡ₚ it_r (f a) :: hands f m.
Proof. intros Ht. unfold hands. by rewrite map_to_list_insert. Qed.

Lemma hands_delete {A} (f : A -> request_item) (m : gmap Z A) t a :
  m !! t = Some a -> hands f m ≡ₚ it_r (f a) :: hands f (delete t m).
Proof. intros Ht. unfold hands. by rewrite <- (map_to_list_delete m t a Ht). Qed.

Section proofs.
Context (client_callback : Z -> Z -> kgpu_dev -> outcome kgpu_dev).

(** The callbacks leave the queues and the requests. *)
Definition callbacks_ok : Prop :=
  forall f r d, is_Some (requests d !! r) -> exists d', client_callback f r d = Ok d' /\
    reqs d' = reqs d /\ rtdreqs d' = rtdreqs d /\ requests d' = requests d.

Definition ids_distinct (d : kgpu_dev) : Prop :=
  forall r r' q q', requests d !! r = Some q -> requests d !! r' = Some q' -> rq_id q = rq_id q' -> r = r'.

Definition live (d : kgpu_dev) (r : Z) : Prop :=
  r <> NULL /\ exists q f, requests d !! r = Some q /\ rq_callback q = CB_client f.

(** Every submitted request is in one place, answered or dropped; requests
    are taken in the order in which they were queued; those that were taken
    are with the helper, answered or dropped; only a read whose count is not
    positive as [ssize_t] drops one. *)
Record queue_inv (s : queue_sys) : Prop := {
  qi_nodup : NoDup (places s);
  qi_live r : r ∈ places s -> live (qs_dev s) r;
  qi_ids : ids_distinct (qs_dev s);
  qi_submitted : h_submitted s ≡ₚ places s ++ h_answered s ++ h_lost s;
  qi_queued : h_queued s = h_taken s ++ (it_r <$> reqs (qs_dev s));
  qi_taken : h_taken s ≡ₚ handed_out s ++ h_answered s ++ h_lost s;
  qi_counts : (forall c, c ∈ h_counts s -> 0 < ssize c) ->
    h_lost s = [] /\ forall t i ret, qs_read s !! t = Some (i, ret) -> 0 < ret
}.

(** The requests stay where the places are, in another order. *)
Lemma places_moved s s' :
  queue_inv s -> places s' ≡ₚ places s -> requests (qs_dev s') = requests (qs_dev s) ->
  h_submitted s' = h_submitted s -> h_answered s' = h_answered s -> h_lost s' = h_lost s ->
  h_queued s' = h_taken s' ++ (it_r <$> reqs (qs_dev s')) ->
  h_taken s' ≡ₚ handed_out s' ++ h_answered s' ++ h_lost s' ->
  ((forall c, c ∈ h_counts s' -> 0 < ssize c) -> (forall c, c ∈ h_counts s -> 0 < ssize c) /\
    forall t i ret, qs_read s' !! t = Some (i, ret) -> 0 < ret \/ qs_read s !! t = Some (i, ret)) ->
  queue_inv s'.
Proof.
  intros [In Il Ii Is _ _ Ic] Ep Er Es Ea El Eq Et Ec. split; try done.
  - by rewrite Ep.
  - intros r. rewrite Ep. unfold live. rewrite Er. apply Il.
  - unfold ids_distinct. by rewrite Er.
  - by rewrite Es, Ea, El, Ep, Is.
  - intros Hp. destruct (Ec Hp) as [Hc Hr]. destruct (Ic Hc) as [E0 Hr0]. rewrite El. split; [done|].
    intros t i ret Ht. destruct (Hr _ _ _ Ht); eauto.
Qed.

Lemma check_keeps s t r q f item :
  queue_inv s -> qs_sub s !! t = None -> r ∉ places s -> r <> NULL ->
  requests (qs_dev s) !! r = Some q -> rq_callback q = CB_client f ->
  queue_inv (mk_qsys (qs_dev s) (<[t := mk_item item r]> (qs_sub s)) (qs_read s) (qs_write s)
    (h_submitted s ++ [r]) (h_queued s) (h_taken s) (h_answered s) (h_counts s) (h_lost s)).
Proof.
  intros [In Il Ii Is Iq It Ic] Ht Hr Hnull Hq Hf.
  set (s' := mk_qsys _ _ _ _ _ _ _ _ _ _).
  assert (Ep : places s' ≡ₚ r :: places s).
  { unfold places, handed_out. simpl. rewrite (hands_insert id _ _ _ Ht). simpl. done. }
  split; try done.
  - rewrite Ep. by apply NoDup_cons.
  - intros x. rewrite Ep. intros [->|Hx]%elem_of_cons; [|by apply Il]. split; [done|]. by exists q, f.
  - simpl. rewrite Ep, Is. simpl. solve_Permutation.
Qed.

Lemma queue_keeps s t item :
  queue_inv s -> qs_sub s !! t = Some item ->
  queue_inv (mk_qsys (async_queue (qs_dev s) item) (delete t (qs_sub s)) (qs_read s) (qs_write s)
    (h_submitted s) (h_queued s ++ [it_r item]) (h_taken s) (h_answered s) (h_counts s) (h_lost s)).
Proof.
  intros Hi Ht. apply (places_moved s); try done; simpl.
  - unfold places, handed_out. simpl. rewrite (hands_delete id _ _ _ Ht), fmap_app. simpl. solve_Permutation.
  - by rewrite (qi_queued _ Hi), fmap_app, <- app_assoc.
  - apply (qi_taken _ Hi).
  - auto.
Qed.

Lemma take_keeps s t c item rest d kureq ret :
  queue_inv s -> qs_read s !! t = None -> reqs (qs_dev s) = item :: rest ->
  read_take (qs_dev s) item rest c = Ok (d, kureq, ret) ->
  queue_inv (mk_qsys d (qs_sub s) (<[t := (item, ret)]> (qs_read s)) (qs_write s)
    (h_submitted s) (h_queued s) (h_taken s ++ [it_r item]) (h_answered s) (h_counts s ++ [c]) (h_lost s)).
Proof.
  intros Hi Ht Hr E. apply bind_ok in E as (q & _ & E). injection E as <- _ <-.
  apply (places_moved s); try done; simpl.
  - unfold places, handed_out. simpl. rewrite (hands_insert fst _ _ _ Ht), Hr. simpl. solve_Permutation.
  - by rewrite (qi_queued _ Hi), Hr, <- app_assoc.
  - pose proof (qi_taken _ Hi) as Hk. unfold handed_out in *. simpl. rewrite Hk, (hands_insert fst _ _ _ Ht). simpl.
    solve_Permutation.
  - intros Hp. split; [intros x Hx; apply Hp; apply elem_of_app; by left|].
    intros t' i ret [[_ [= <- <-]]|[_ Hx]]%lookup_insert_Some; [left|by right].
    apply Hp. apply elem_of_app. right. by left.
Qed.

Lemma file_keeps s t item ret :
  queue_inv s -> qs_read s !! t = Some (item, ret) ->
  queue_inv (mk_qsys (read_file (qs_dev s) item ret) (qs_sub s) (delete t (qs_read s)) (qs_write s)
    (h_submitted s) (h_queued s) (h_taken s) (h_answered s) (h_counts s)
    (h_lost s ++ if 0 <? ret then [] else [it_r item])).
Proof.
  intros Hi Ht. unfold read_file. destruct (Z.ltb_spec 0 ret) as [Hr|Hr].
  - rewrite app_nil_r. apply (places_moved s); try done; simpl.
    + unfold places, handed_out. simpl. rewrite (hands_delete fst _ _ _ Ht), fmap_app. simpl. solve_Permutation.
    + apply (qi_queued _ Hi).
    + pose proof (qi_taken _ Hi) as Hk. unfold handed_out in *. simpl.
      rewrite Hk, (hands_delete fst _ _ _ Ht), fmap_app. simpl. solve_Permutation.
    + intros Hp. split; [done|]. intros t' i r [_ Hx]%lookup_delete_Some. by right.
  - destruct Hi as [In Il Ii Is Iq It Ic]. set (s' := mk_qsys _ _ _ _ _ _ _ _ _ _).
    assert (Ep : places s ≡ₚ it_r item :: places s').
    { unfold places, handed_out. simpl. rewrite (hands_delete fst _ _ _ Ht). simpl. solve_Permutation. }
    rewrite Ep in In. apply NoDup_cons in In as [Hno In]. split; try done; simpl.
    + intros r Hin. apply Il. rewrite Ep. by right.
    + rewrite Is, Ep. solve_Permutation.
    + unfold handed_out in *. simpl. rewrite It, (hands_delete fst _ _ _ Ht). simpl. solve_Permutation.
    + intros Hp. destruct (Ic Hp) as [_ H2]. specialize (H2 _ _ _ Ht). lia.
Qed.

(** [find_request] removes the item that it returns. *)
Lemma find_request_removes d id l item rest :
  find_request d id l = Ok (Some (item, rest)) ->
  l ≡ₚ item :: rest /\ exists q, requests d !! it_r item = Some q /\ rq_id q = id.
Proof.
  revert item rest. induction l as [|pos l IH]; intros item rest E; [done|]. simpl in E.
  apply bind_ok in E as (q & Hq & E). destruct (Z.eqb_spec (rq_id q) id) as [Ei|Ei].
  - injection E as <- <-. split; [done|]. exists q. split; [|done]. by apply load_req_inv in Hq as [_ ?].
  - apply bind_ok in E as ([[i k]|] & E1 & E); [|done]. injection E as <- <-.
    destruct (IH _ _ E1) as [Hp Hex]. split; [|done]. rewrite Hp. solve_Permutation.
Qed.

Lemma find_keeps s t id code d item :
  queue_inv s -> qs_write s !! t = None -> write_find (qs_dev s) id = Ok (Some (d, item)) ->
  queue_inv (mk_qsys d (qs_sub s) (qs_read s) (<[t := (item, code)]> (qs_write s))
    (h_submitted s) (h_queued s) (h_taken s) (h_answered s) (h_counts s) (h_lost s)).
Proof.
  intros Hi Ht E. apply bind_ok in E as ([[it rest]|] & E1 & E); [|done]. injection E as <- <-.
  apply find_request_removes in E1 as [Hp _].
  apply (places_moved s); try done; simpl.
  - unfold places, handed_out. simpl. rewrite (hands_insert fst _ _ _ Ht), Hp. simpl. solve_Permutation.
  - apply (qi_queued _ Hi).
  - pose proof (qi_taken _ Hi) as Hk. unfold handed_out in *. simpl. rewrite Hk, (hands_insert fst _ _ _ Ht), Hp. simpl.
    solve_Permutation.
  - auto.
Qed.

Context (Hcb : callbacks_ok).

(** The end of an answer: the error code is stored, the queues stay. *)
Lemma write_finish_ok d item code q f :
  it_r item <> NULL -> requests d !! it_r item = Some q -> rq_callback q = CB_client f ->
  exists d', write_finish client_callback d item code = Ok d' /\ reqs d' = reqs d /\ rtdreqs d' = rtdreqs d /\
    requests d' = <[it_r item := with_errcode code q]> (requests d).
Proof using Hcb.
  intros Hn Hq Hf. unfold write_finish, update_req. rewrite (load_req_ok _ _ q) by done.
  cbn [mbind outcome_bind mret outcome_ret]. unfold run_callback.
  rewrite (load_req_ok _ _ (with_errcode code q)) by (done || apply lookup_insert_eq).
  cbn [mbind outcome_bind]. simpl. rewrite Hf.
  destruct (Hcb f (it_r item) (set_requests d (<[it_r item := with_errcode code q]> (requests d))))
    as (d' & E & E1 & E2 & E3); [simpl; by rewrite lookup_insert_eq|]. by exists d'.
Qed.

Lemma answer_keeps s t item code d :
  queue_inv s -> qs_write s !! t = Some (item, code) ->
  write_finish client_callback (qs_dev s) item code = Ok d ->
  queue_inv (mk_qsys d (qs_sub s) (qs_read s) (delete t (qs_write s))
    (h_submitted s) (h_queued s) (h_taken s) (h_answered s ++ [it_r item]) (h_counts s) (h_lost s)).
Proof using Hcb.
  intros [In Il Ii Is Iq It Ic] Ht E. set (s' := mk_qsys _ _ _ _ _ _ _ _ _ _).
  assert (Hpl : forall Q T, hands id (qs_sub s) ++ Q ++ hands fst (qs_read s) ++ T ++ hands fst (qs_write s) ≡ₚ
    it_r item :: hands id (qs_sub s) ++ Q ++ hands fst (qs_read s) ++ T ++ hands fst (delete t (qs_write s))).
  { intros Q T. rewrite (hands_delete fst _ _ _ Ht). simpl. solve_Permutation. }
  assert (Hin : it_r item ∈ places s) by (unfold places, handed_out; rewrite Hpl; left).
  destruct (Il _ Hin) as (Hn & q & f & Hq & Hf).
  destruct (write_finish_ok (qs_dev s) item code q f Hn Hq Hf) as (d' & E' & E1 & E2 & E3).
  rewrite E in E'. injection E' as <-.
  assert (Ep : places s ≡ₚ it_r item :: places s').
  { unfold places, handed_out. simpl. rewrite E1, E2. apply Hpl. }
  assert (Hreq : forall r z, requests d !! r = Some z -> exists z', requests (qs_dev s) !! r = Some z' /\
    rq_id z = rq_id z' /\ rq_callback z = rq_callback z').
  { intros r z. rewrite E3. intros [[<- <-]|[_ Hz]]%lookup_insert_Some; eauto. }
  rewrite Ep in In. apply NoDup_cons in In as [Hno In]. split; try done; simpl.
  - intros r Hr. destruct (Il r) as (Hr0 & z & fz & Hz & Hfz); [rewrite Ep; by right|].
    split; [done|]. exists z, fz. split; [|done]. simpl. rewrite E3, lookup_insert_ne; [done|].
    intros <-. done.
  - intros r r' z z' Hz Hz' Eid. destruct (Hreq _ _ Hz) as (y & Hy & Ey & _).
    destruct (Hreq _ _ Hz') as (y' & Hy' & Ey' & _). apply (Ii r r' y y'); try done. congruence.
  - rewrite Is, Ep. solve_Permutation.
  - by rewrite E1.
  - unfold handed_out in *. simpl. rewrite It, E2, (hands_delete fst _ _ _ Ht). simpl. solve_Permutation.
Qed.

Lemma queue_step_keeps s s' : queue_inv s -> queue_step client_callback s s' -> queue_inv s'.
Proof using Hcb.
  intros Hi Hs. destruct Hs as [t r q f a item (H1 & _) Hr Hn Hq Hf _ | t item Ht
    | t c item rest d kureq ret (_ & H2 & _) _ Hr E | t item ret Ht | t resp d item (_ & _ & H3) E | t item code d Ht E |].
  - by eapply check_keeps.
  - by apply queue_keeps.
  - by eapply take_keeps.
  - by apply file_keeps.
  - by eapply find_keeps.
  - by eapply answer_keeps.
  - destruct Hi. by split.
Qed.

Lemma queue_inv_start d : reqs d = [] -> rtdreqs d = [] -> ids_distinct d -> queue_inv (queue_start d).
Proof.
  intros E1 E2 Hi. unfold queue_start.
  assert (Ep : places (queue_start d) = []) by (unfold places, handed_out; simpl; by rewrite E1, E2).
  split; try done; simpl.
  - change (NoDup (places (queue_start d))). rewrite Ep. apply NoDup_nil_2.
  - intros r. change (r ∈ places (queue_start d) -> live d r). rewrite Ep. intros Hr. by apply not_elem_of_nil in Hr.
  - change ([] ≡ₚ places (queue_start d) ++ [] ++ []). by rewrite Ep.
  - by rewrite E1.
  - unfold handed_out. simpl. by rewrite E2.
Qed.

Lemma queue_steps_keep d s :
  reqs d = [] -> rtdreqs d = [] -> ids_distinct d ->
  rtc (queue_step client_callback) (queue_start d) s -> queue_inv s.
Proof using Hcb.
  intros E1 E2 Hi. refine (rtc_ind_r queue_inv (queue_start d) _ _ s).
  - by apply queue_inv_start.
  - intros x y _ Hxy Hx. by eapply queue_step_keeps.
Qed.

Lemma rtd_live s :
  queue_inv s -> Forall (fun i => exists q, req_at (qs_dev s) (it_r i) q) (rtdreqs (qs_dev s)).
Proof.
  intros Hi. apply Forall_forall. intros i Hr. destruct (qi_live _ Hi (it_r i)) as (Hn & q & _ & Hq & _).
  - unfold places, handed_out. rewrite !elem_of_app. right. right. right. left. apply list_elem_of_fmap. eauto.
  - exists q. by split.
Qed.

(** An answer to a request of [rtdreqs] finds it. *)
Lemma write_find_request s r q :
  queue_inv s -> r ∈ it_r <$> rtdreqs (qs_dev s) -> requests (qs_dev s) !! r = Some q ->
  exists d item, write_find (qs_dev s) (rq_id q) = Ok (Some (d, item)) /\ it_r item = r.
Proof.
  intros Hi Hr Hq. unfold write_find.
  destruct (find_request_cases (qs_dev s) (rq_id q) (rtdreqs (qs_dev s)) (rtd_live s Hi))
    as [[_ Hno]|(l1 & item & l2 & q' & _ & [_ Hq'] & Eid & _ & ->)].
  - apply list_elem_of_fmap in Hr as (i & -> & Hin). rewrite Forall_forall in Hno.
    destruct (Hno i Hin) as (z & [_ Hz] & Hne). congruence.
  - eexists _, item. split; [done|]. by apply (qi_ids _ Hi _ _ q' q).
Qed.

(** C11: threads that submit, read and answer requests at the same time, in any
    interleaving of the locked sections, with clients that submit a request
    again only after its answer and whose callbacks return and leave the
    queues and requests alone ([callbacks_ok]).  Every submitted request is in
    exactly one place (with a thread inside of a call, in [reqs], in
    [rtdreqs]), answered, or was dropped by a read whose count is not
    positive as [ssize_t]; when all reads ask for a positive count, as the
    helper does, none is dropped.  Requests are taken in the order in which
    they were queued, no section can fault, and a finished answer has stored
    its code.  A request that was handed out is found by its answer whenever
    no other read or answer is in progress. *)
Theorem queues_conserve_requests d s :
  reqs d = [] -> rtdreqs d = [] -> ids_distinct d ->
  rtc (queue_step client_callback) (queue_start d) s ->
  h_submitted s ≡ₚ places s ++ h_answered s ++ h_lost s /\ NoDup (places s) /\
  ((forall c, c ∈ h_counts s -> 0 < ssize c) -> h_lost s = []) /\
  h_queued s = h_taken s ++ (it_r <$> reqs (qs_dev s)) /\
  (forall item rest c, reqs (qs_dev s) = item :: rest -> is_ok (read_take (qs_dev s) item rest c) = true) /\
  (forall id, is_ok (write_find (qs_dev s) id) = true) /\
  (forall t item code, qs_write s !! t = Some (item, code) ->
     exists d' q, write_finish client_callback (qs_dev s) item code = Ok d' /\
       requests d' !! it_r item = Some q /\ rq_errcode q = code) /\
  (forall r q, qs_read s = ∅ -> qs_write s = ∅ -> r ∈ handed_out s -> requests (qs_dev s) !! r = Some q ->
     exists d' item, write_find (qs_dev s) (rq_id q) = Ok (Some (d', item)) /\ it_r item = r).
Proof using Hcb.
  intros E1 E2 Hd Hs. pose proof (queue_steps_keep d s E1 E2 Hd Hs) as Hi.
  split_and!; [apply Hi | apply Hi | apply Hi | apply Hi | | | |].
  - intros item rest c Er. destruct (qi_live _ Hi (it_r item)) as (Hn & q & _ & Hq & _).
    { unfold places. rewrite Er, !elem_of_app. right. left. left. }
    unfold read_take. by rewrite (load_req_ok _ _ q).
  - intros id. unfold write_find.
    destruct (find_request_cases (qs_dev s) id _ (rtd_live s Hi)) as [[-> _]|(? & ? & ? & ? & _ & _ & _ & _ & ->)]; done.
  - intros t item code Ht. destruct (qi_live _ Hi (it_r item)) as (Hn & q & f & Hq & Hf).
    { unfold places, handed_out. rewrite (hands_delete fst _ _ _ Ht), !elem_of_app. simpl. do 4 right. left. }
    destruct (write_finish_ok (qs_dev s) item code q f Hn Hq Hf) as (d' & E & _ & _ & Er).
    exists d', (with_errcode code q). split; [done|]. by rewrite Er, lookup_insert_eq.
  - intros r q Er Ew Hr Hq. apply write_find_request; [done | | done].
    unfold handed_out in Hr. rewrite Er, Ew in Hr. unfold hands in Hr.
    rewrite !map_to_list_empty, app_nil_r in Hr. exact Hr.
Qed.

End proofs.

(** ** Examples *)

Lemma quiet_callbacks_ok : callbacks_ok quiet_callback.
Proof. intros f r d _. by exists d. Qed.

(** The thread 1 submits the request at 1000, and the thread 2 reads [c] bytes,
    which takes it: after the test, after the queueing, and between the two sections of the read. *)
Definition item_1000 : request_item := mk_item 2000 1000.

Definition checked : queue_sys :=
  mk_qsys dev_idle {[1 := item_1000]} ∅ ∅ [1000] [] [] [] [] [].

Definition submitted : queue_sys :=
  mk_qsys (async_queue dev_idle item_1000) (delete 1 {[1 := item_1000]}) ∅ ∅ [1000] [1000] [] [] [] [].

Definition reading (c : Z) : queue_sys :=
  mk_qsys (set_reqs (async_queue dev_idle item_1000) []) (delete 1 {[1 := item_1000]})
    {[2 := (item_1000, ssize c)]} ∅ [1000] [1000] [1000] [] [c] [].

Lemma checked_reached : queue_step quiet_callback (queue_start dev_idle) checked.
Proof.
  eapply (QS_check quiet_callback (queue_start dev_idle) 1 1000 req_example 1 (Some 2000) 2000);
    [by split_and! | apply not_elem_of_nil | discriminate | reflexivity..].
Qed.

Lemma reading_reached c : u64_range c ->
  rtc (queue_step quiet_callback) (queue_start dev_idle) (reading c).
Proof.
  intros Hc. eapply rtc_l; [exact checked_reached|].
  eapply rtc_l; [exact (QS_queue quiet_callback checked 1 item_1000 eq_refl)|]. apply rtc_once.
  exact (QS_take quiet_callback submitted 2 c item_1000 [] _ _ _
    (conj eq_refl (conj eq_refl eq_refl)) Hc eq_refl eq_refl).
Qed.

Lemma queues_conserve_requests_witness :
  h_submitted (reading 88) ≡ₚ places (reading 88) /\ places (reading 88) = [1000] /\
  h_lost (reading 88) = [] /\ is_ok (write_find (qs_dev (reading 88)) 5) = true.
Proof.
  destruct (queues_conserve_requests quiet_callback quiet_callbacks_ok dev_idle (reading 88))
    as (Hs & _ & Hl & _ & _ & Hf & _).
  - reflexivity.
  - reflexivity.
  - unfold ids_distinct. simpl.
    intros r r' q q' [<- _]%lookup_singleton_Some [<- _]%lookup_singleton_Some _. reflexivity.
  - apply reading_reached. vm_compute. intuition congruence.
  - split; [rewrite Hs; simpl; by rewrite app_nil_r|]. split; [reflexivity|]. split; [|apply Hf].
    apply Hl. intros c [->|Hc]%elem_of_cons; [reflexivity | by apply not_elem_of_nil in Hc].
Defined.

(** A read of 0 bytes takes the request and drops it. *)
Lemma zero_read_drops_request :
  exists s, rtc (queue_step quiet_callback) (queue_start dev_idle) s /\
    places s = [] /\ h_answered s = [] /\ h_lost s = [1000].
Proof.
  eexists. split.
  - eapply rtc_r; [apply (reading_reached 0); vm_compute; intuition congruence|].
    exact (QS_file quiet_callback (reading 0) 2 item_1000 0 eq_refl).
  - done.
Qed.

(** Between the two sections of the read the request has been copied to the
    helper, but an answer to it is refused. *)
Lemma early_answer_refused :
  rtc (queue_step quiet_callback) (queue_start dev_idle) (reading 88) /\
  (exists d kureq, read_take (qs_dev submitted) item_1000 [] 88 = Ok (d, kureq, 88) /\ kr_id kureq = 5) /\
  kgpu_write quiet_callback (qs_dev (reading 88)) 8 (mk_ku_response 5 0) =
    Ok (qs_dev (reading 88), - EFAULT) /\
  is_ok (kgpu_write quiet_callback (read_file (qs_dev (reading 88)) item_1000 88) 8 (mk_ku_response 5 0)) = true.
Proof.
  split; [apply reading_reached; vm_compute; intuition congruence|].
  split; [by eexists _, _|]. by split.
Qed.

(** The state is tested outside of the lock: a request is queued after the
    stop command has returned. *)
Lemma stop_race_queues_request :
  exists s, rtc (queue_step quiet_callback) (queue_start dev_idle) s /\
    d_state (qs_dev s) = KGPU_TERMINATED /\ reqs (qs_dev s) = [item_1000].
Proof.
  eexists. split; [|split].
  - eapply rtc_l; [exact checked_reached|]. eapply rtc_l; [exact (QS_stop quiet_callback checked)|].
    apply rtc_once. by apply (QS_queue quiet_callback _ 1 item_1000).
  - reflexivity.
  - reflexivity.
Qed.
