(* ===== verification/Module.v ===== *)
(** * The kernel module as a transition system

    The operations of Device in any order: clients allocate requests, fill
    them in, submit them with and without waiting, draw new identifiers and
    free them, while the helper reads and answers.  A client only touches
    requests that it owns: allocated, not freed, and not in the module's
    queues.  (After a wait that a signal ended the request is still queued:
    the client must leave it until its answer.)
    The invariant of the reachable states gives the safety of the module, and
    with it the assumptions under which System runs the helper. *)

From S2P Require Import Prelude KgpuDefs Layout UnitAlloc MemPool MmapArea Device.

(** The module, the synchronous calls that wait (the request of each and its
    synchronisation record), and the number of identifiers drawn so far. *)
Record module : Type := mk_module {
  m_dev : kgpu_dev;
  m_waiting : gmap Z Z;
  m_drawn : Z
}.

(** The requests in flight and queued, the oldest first. *)
Definition queued (d : kgpu_dev) : list Z := it_r <$> rtdreqs d ++ reqs d.

Definition owned (m : module) (r : Z) (q : kgpu_request) : Prop :=
  requests (m_dev m) !! r = Some q /\ r ∉ req_free (m_dev m) /\ r ∉ queued (m_dev m) /\
  m_waiting m !! r = None.

(** The fields of a request are values of their C types; the identifier is
    treated below. *)
Record fields_typed (q : kgpu_request) : Prop := {
  ft_in : u64_range (rq_in q);
  ft_out : u64_range (rq_out q);
  ft_udata : u64_range (rq_udata q);
  ft_kdata : u64_range (rq_kdata q);
  ft_insize : u64_range (rq_insize q);
  ft_outsize : u64_range (rq_outsize q);
  ft_udatasize : u64_range (rq_udatasize q);
  ft_kdatasize : u64_range (rq_kdatasize q);
  ft_name : name_typed (rq_service_name q);
  ft_errcode : s32_range (rq_errcode q)
}.

(** What a client writes to its request: everything but the identifier. *)
Definition client_update (q q' : kgpu_request) : Prop :=
  rq_id q' = rq_id q /\ fields_typed q' /\ rq_callback q' <> CB_sync.

Definition with_id (i : Z) (q : kgpu_request) : kgpu_request :=
  mk_request i (rq_in q) (rq_out q) (rq_udata q) (rq_kdata q) (rq_insize q) (rq_outsize q)
    (rq_udatasize q) (rq_kdatasize q) (rq_service_name q) (rq_callback q) (rq_errcode q).

(** The number of objects that an allocation constructs. *)
Definition constructed (ans : slab_answer) : Z :=
  match ans with SlabGrow objs _ => Z.of_nat (length objs) | _ => 0 end.

Definition set_mdev (m : module) (d : kgpu_dev) : module := mk_module d (m_waiting m) (m_drawn m).

(** The request of a synchronous call had a callback of its own, which the
    call saved in its record. *)
Definition had_callback (d : kgpu_dev) (data : Z) : Prop :=
  exists s, sync_data d !! data = Some s /\ sd_oldcallback s <> CB_NULL.

(** A call that waits ends when it is done or at a signal; at a signal its
    request stays queued and gets its own callback back, which must not be
    NULL, since the answer runs it.  What a client's callback does to the
    module are further steps. *)
Inductive step (m : module) : module -> Prop :=
  | S_alloc ans :
      slab_ok (m_dev m) ans ->
      step m (mk_module (kgpu_alloc_request (m_dev m) ans).1 (m_waiting m)
                (m_drawn m + constructed ans))
  | S_free r q :
      owned m r q -> step m (set_mdev m (kgpu_free_request (m_dev m) r))
  | S_update r q q' :
      owned m r q -> client_update q q' ->
      step m (set_mdev m (set_requests (m_dev m) (<[r := q']> (requests (m_dev m)))))
  | S_renew r q d i :
      owned m r q -> kgpu_next_request_id (m_dev m) = (d, i) ->
      step m (mk_module (set_requests d (<[r := with_id i q]> (requests d))) (m_waiting m)
                (m_drawn m + 1))
  | S_async r q item d ret :
      owned m r q -> rq_callback q <> CB_NULL -> kgpu_call_async (m_dev m) r item = (d, ret) ->
      step m (set_mdev m d)
  | S_sync r q data item d res :
      owned m r q -> (forall a, data = Some a -> u64_range a /\ sync_data (m_dev m) !! a = None) ->
      kgpu_call_sync_submit (m_dev m) r data item = Ok (d, res) ->
      step m (mk_module d (match res with
                           | SyncWait a => <[r := a]> (m_waiting m)
                           | SyncReturn _ => m_waiting m
                           end) (m_drawn m))
  | S_resume r data signal d ret :
      m_waiting m !! r = Some data -> sync_may_resume (m_dev m) data signal = true ->
      (r ∈ queued (m_dev m) -> had_callback (m_dev m) data) ->
      kgpu_call_sync_resume (m_dev m) r data = Ok (d, ret) ->
      step m (mk_module d (delete r (m_waiting m)) (m_drawn m))
  | S_read c nonblock signal d res :
      0 <= c < 2 ^ 63 -> kgpu_read (m_dev m) c nonblock signal = Ok (d, res) ->
      step m (set_mdev m d)
  | S_write count resp d ret :
      count < 2 ^ 63 -> ku_response_typed resp ->
      kgpu_write quiet_callback (m_dev m) count resp = Ok (d, ret) ->
      step m (set_mdev m d)
  | S_stop : step m (set_mdev m (terminate_all_requests (m_dev m)).1)
  | S_memory p v :
      step m (set_mdev m (set_area (set_gmpool (m_dev m) p) v)).

(** The states reached from [kgpu_init] before the 31-bit counter of the
    identifiers wraps. *)
Inductive reachable : module -> Prop :=
  | R_init : reachable (mk_module dev_init ∅ 0)
  | R_step m m' : reachable m -> step m m' -> m_drawn m' < 2 ^ 31 -> reachable m'.

(** ** The invariant *)

(** The identifiers: drawn in sequence, and no two objects share one. *)
Record ids_ok (d : kgpu_dev) (n : Z) : Prop := {
  io_seq : rid_sequence d = n;
  io_pos : 0 <= n < 2 ^ 31;
  io_null : requests d !! NULL = None;
  io_range r q : requests d !! r = Some q -> 1 <= rq_id q <= n /\ fields_typed q;
  io_inj r r' q q' : requests d !! r = Some q -> requests d !! r' = Some q' ->
    rq_id q = rq_id q' -> r = r'
}.

(** A synchronous call that waits: its request carries the record, and the
    record is not done while the request is queued. *)
Definition waiting_ok (d : kgpu_dev) (r data : Z) : Prop :=
  exists q s, requests d !! r = Some q /\ rq_callback q = CB_sync /\ rq_kdata q = data /\
    sync_data d !! data = Some s /\ sd_oldcallback s <> CB_sync /\ u64_range (sd_oldkdata s) /\
    (r ∈ queued d -> sd_done s = 0).

Record module_inv (m : module) : Prop := {
  mi_ids : ids_ok (m_dev m) (m_drawn m);
  mi_free r : r ∈ req_free (m_dev m) ->
    is_Some (requests (m_dev m) !! r) /\ r ∉ queued (m_dev m) /\ m_waiting m !! r = None;
  mi_free_nodup : NoDup (req_free (m_dev m));
  mi_queued r : r ∈ queued (m_dev m) ->
    exists q, requests (m_dev m) !! r = Some q /\ rq_callback q <> CB_NULL;
  mi_nodup : NoDup (queued (m_dev m));
  mi_sync r q : requests (m_dev m) !! r = Some q -> rq_callback q = CB_sync ->
    m_waiting m !! r = Some (rq_kdata q);
  mi_wait r data : m_waiting m !! r = Some data -> waiting_ok (m_dev m) r data;
  mi_wait_inj r r' data : m_waiting m !! r = Some data -> m_waiting m !! r' = Some data -> r = r'
}.

(** ** Identifiers *)

Lemma next_id_ids d n : rid_sequence d = n -> 0 <= n -> n + 1 < 2 ^ 31 ->
  kgpu_next_request_id d = (set_rid d (n + 1), n + 1).
Proof.
  intros <- Hn Hlt. unfold kgpu_next_request_id.
  rewrite swrap32_id by (unfold s32_range; lia). by rewrite (proj2 (Z.ltb_ge _ _)) by lia.
Qed.

Lemma ids_ext d d' n :
  ids_ok d n -> rid_sequence d' = rid_sequence d -> requests d' = requests d -> ids_ok d' n.
Proof. intros [H1 H2 H3 H4 H5] E1 E2. split; rewrite ?E1, ?E2; done. Qed.

(** A request with a new identifier, in place of an object or as a new one. *)
Lemma ids_insert d n r q :
  ids_ok d n -> n + 1 < 2 ^ 31 -> r <> NULL -> rq_id q = n + 1 -> fields_typed q ->
  ids_ok (set_requests (set_rid d (n + 1)) (<[r := q]> (requests d))) (n + 1).
Proof.
  intros [H1 H2 H3 H4 H5] Hlt Hr Hid Hlen. split; simpl; [done | lia | by rewrite lookup_insert_ne | |].
  - intros r' q' [[<- <-]|[_ Hq]]%lookup_insert_Some; [split; [lia | done]|].
    destruct (H4 _ _ Hq). split; [lia | done].
  - intros x y qx qy [[<- <-]|[Hx Hqx]]%lookup_insert_Some [[<- <-]|[Hy Hqy]]%lookup_insert_Some E;
      [done | | | by eapply H5].
    + destruct (H4 _ _ Hqy). lia.
    + destruct (H4 _ _ Hqx). lia.
Qed.

Lemma ids_update d n r q q' :
  ids_ok d n -> requests d !! r = Some q -> rq_id q' = rq_id q -> fields_typed q' ->
  ids_ok (set_requests d (<[r := q']> (requests d))) n.
Proof.
  intros [H1 H2 H3 H4 H5] Hr Hid Hlen. split; simpl; [done | done | | |].
  - rewrite lookup_insert_ne; [done|]. intros ->. congruence.
  - intros r' q0 [[<- <-]|[_ Hq]]%lookup_insert_Some; [rewrite Hid; split; [by apply (H4 r) | done]|].
    by apply (H4 r').
  - intros x y qx qy [[<- <-]|[Hx Hqx]]%lookup_insert_Some [[<- <-]|[Hy Hqy]]%lookup_insert_Some E;
      [done | | | by eapply H5]; rewrite Hid in E; by eapply H5.
Qed.

Definition new_object (i : Z) : kgpu_request :=
  mk_request i 0 0 0 0 0 0 0 0 (repeat 0 32) CB_NULL 0.

Lemma construct_one d n a :
  ids_ok d n -> n + 1 < 2 ^ 31 -> a <> NULL ->
  kgpu_request_constructor d a =
    set_requests (set_rid d (n + 1)) (<[a := new_object (n + 1)]> (requests d)).
Proof.
  intros [Hs Hp _ _ _] Hlt Ha. unfold kgpu_request_constructor.
  rewrite bool_decide_eq_false_2 by done. by rewrite (next_id_ids d n) by (done || lia).
Qed.

Lemma new_object_typed i : fields_typed (new_object i).
Proof.
  split; simpl; try (unfold u64_range, s32_range; lia). split; [done|].
  repeat constructor; discriminate.
Qed.

(** The construction of the objects of a new slab. *)
Lemma construct_all d n objs :
  ids_ok d n -> NoDup objs -> NULL ∉ objs -> n + Z.of_nat (length objs) < 2 ^ 31 ->
  let d' := foldl kgpu_request_constructor d objs in
  ids_ok d' (n + Z.of_nat (length objs)) /\
  (forall r, r ∉ objs -> requests d' !! r = requests d !! r) /\
  (forall r, r ∈ objs -> exists q, requests d' !! r = Some q /\ rq_callback q = CB_NULL) /\
  reqs d' = reqs d /\ rtdreqs d' = rtdreqs d /\ req_free d' = req_free d /\
  sync_data d' = sync_data d.
Proof.
  revert d n. induction objs as [|a objs IH]; intros d n Hi Hnd Hnull Hlt d'.
  { simpl in *. rewrite Z.add_0_r. split_and!; try done. set_solver. }
  apply NoDup_cons in Hnd as [Ha Hnd]. apply not_elem_of_cons in Hnull as [Hna Hnull].
  simpl length in *. subst d'. cbn [foldl]. pose proof (io_pos _ _ Hi).
  rewrite (construct_one d n a) by (done || lia).
  destruct (IH _ _ (ids_insert d n a (new_object (n + 1)) Hi ltac:(lia) ltac:(done) eq_refl
    (new_object_typed _)))
    as (I1 & I2 & I3 & I4); [done | done | lia|].
  split; [replace (n + Z.of_nat (S (length objs))) with (n + 1 + Z.of_nat (length objs)) by lia; exact I1|].
  split; [|split; [|exact I4]].
  - intros r [Hra Hr]%not_elem_of_cons. rewrite I2 by done. simpl. by rewrite lookup_insert_ne.
  - intros r [->|Hr]%elem_of_cons; [|by apply I3]. exists (new_object (n + 1)). split; [|done].
    rewrite I2 by done. apply lookup_insert_eq.
Qed.

(** ** Preservation *)

Lemma waiting_frame d d' r data :
  waiting_ok d r data -> requests d' !! r = requests d !! r ->
  sync_data d' !! data = sync_data d !! data -> (r ∈ queued d' -> r ∈ queued d) ->
  waiting_ok d' r data.
Proof.
  intros (q & s & H1 & H2 & H3 & H4 & H5 & H6 & H7) Er Es Eq. exists q, s.
  rewrite Er, Es. split_and!; auto.
Qed.

(** A client changes its own request. *)
Lemma inv_owned m d n r q q' :
  module_inv m -> owned m r q -> rq_callback q' <> CB_sync -> ids_ok d n ->
  requests d = <[r := q']> (requests (m_dev m)) -> req_free d = req_free (m_dev m) ->
  queued d = queued (m_dev m) -> sync_data d = sync_data (m_dev m) ->
  module_inv (mk_module d (m_waiting m) n).
Proof.
  intros Hm (Hq & Hf & Hnq & Hw) Hcb Hi Er Ef Eq Es.
  assert (Hne : forall x, x <> r -> requests d !! x = requests (m_dev m) !! x).
  { intros x Hx. by rewrite Er, lookup_insert_ne. }
  split; simpl; rewrite ?Ef, ?Eq; try done; [| apply Hm | | apply Hm | | | apply Hm].
  - intros x Hx. rewrite Hne by (intros ->; done). by apply (mi_free _ Hm).
  - intros x Hx. rewrite Hne by (intros ->; done). by apply (mi_queued _ Hm).
  - intros x qx Hx Hs. destruct (decide (x = r)) as [->|Hxr].
    + rewrite Er, lookup_insert_eq in Hx. congruence.
    + rewrite Hne in Hx by done. by apply (mi_sync _ Hm).
  - intros x data Hx. assert (x <> r) by (intros ->; congruence).
    eapply waiting_frame; [by apply (mi_wait _ Hm) | by apply Hne | by rewrite Es | by rewrite Eq].
Qed.

Lemma inv_alloc m ans :
  module_inv m -> slab_ok (m_dev m) ans -> m_drawn m + constructed ans < 2 ^ 31 ->
  module_inv (mk_module (kgpu_alloc_request (m_dev m) ans).1 (m_waiting m) (m_drawn m + constructed ans)).
Proof.
  intros Hm Hok Hlt. destruct ans as [|a|objs a]; simpl in *; rewrite ?Z.add_0_r.
  - by destruct m.
  - destruct Hm as [Hi Hfr Hnd ? ? ? ? ?].
    split; simpl; try done; [by eapply ids_ext | | by apply NoDup_filter].
    intros r [_ Hr]%list_elem_of_filter. by apply Hfr.
  - destruct Hok as (Ha & Hnd & Hnull & Hfresh).
    destruct (construct_all (m_dev m) (m_drawn m) objs (mi_ids _ Hm) Hnd Hnull Hlt)
      as (I1 & I2 & I3 & I4 & I5 & I6 & I7).
    set (d := foldl kgpu_request_constructor (m_dev m) objs) in *.
    assert (Hold : forall r q, requests (m_dev m) !! r = Some q -> r ∉ objs).
    { intros r q Hr Hin. rewrite (Hfresh r Hin) in Hr. done. }
    assert (Eq : queued d = queued (m_dev m)) by (unfold queued; by rewrite I4, I5).
    assert (Hnq : forall r, r ∈ objs -> r ∉ queued (m_dev m) /\ m_waiting m !! r = None).
    { intros r Hr. split.
      - intros (q & Hq & _)%(mi_queued _ Hm). by apply (Hold r q).
      - destruct (m_waiting m !! r) eqn:E; [|done].
        apply (mi_wait _ Hm) in E as (q & s & Hq & _). by destruct (Hold r q). }
    split; simpl; change (queued (set_req_free d _)) with (queued d); rewrite ?I6, ?Eq.
    + by eapply ids_ext.
    + intros r [Hr|[_ Hr]%list_elem_of_filter]%elem_of_app.
      * destruct (mi_free _ Hm r Hr) as ([q Hq] & ? & ?). split_and!; [|done..].
        rewrite I2 by eauto. eauto.
      * destruct (I3 r Hr) as (q & Hq & _). split; [eauto | by apply Hnq].
    + apply NoDup_app. split_and!; [apply Hm | | by apply NoDup_filter].
      intros r Hr [_ Hin]%list_elem_of_filter. destruct (mi_free _ Hm r Hr) as ([q Hq] & _).
      by apply (Hold r q).
    + intros r Hr. destruct (mi_queued _ Hm r Hr) as (q & Hq & Hcb). exists q.
      rewrite I2 by eauto. done.
    + apply Hm.
    + intros r q Hr Hcb. destruct (decide (r ∈ objs)) as [Hin|Hin].
      * destruct (I3 r Hin) as (q' & Hq' & Hc). congruence.
      * rewrite I2 in Hr by done. by apply (mi_sync _ Hm).
    + intros r data Hr. pose proof (mi_wait _ Hm r data Hr) as Hw.
      eapply waiting_frame; [exact Hw | | simpl; by rewrite I7 | simpl; by rewrite <- Eq].
      destruct Hw as (q & s & Hq & _). simpl. apply I2. by apply (Hold r q).
    + apply Hm.
Qed.

Lemma inv_free m r q :
  module_inv m -> owned m r q -> module_inv (set_mdev m (kgpu_free_request (m_dev m) r)).
Proof.
  intros [Hi Hfr Hnd ? ? ? ? ?] (Hq & Hf & Hnq & Hw).
  split; simpl; try done; [by eapply ids_ext | | by constructor].
  intros x [->|Hx]%elem_of_cons; [|by apply Hfr]. split; [eauto | done].
Qed.

(** Submitting: the request goes to the end of the queue. *)
Lemma queued_submit d item r : queued (set_reqs d (reqs d ++ [mk_item item r])) = queued d ++ [r].
Proof. unfold queued. simpl. by rewrite !fmap_app, app_assoc. Qed.

Lemma inv_async m r q item d ret :
  module_inv m -> owned m r q -> rq_callback q <> CB_NULL ->
  kgpu_call_async (m_dev m) r item = (d, ret) -> module_inv (set_mdev m d).
Proof.
  intros Hm (Hq & Hf & Hnq & Hw) Hcb E. unfold kgpu_call_async in E.
  destruct (d_state (m_dev m) =? KGPU_TERMINATED); [injection E as <- _; by destruct m|].
  destruct item as [item|]; injection E as <- _; [|by destruct m].
  pose proof Hm as [Hi ? ? ? ? ? ? ?].
  split; simpl; rewrite ?queued_submit; try done; [by eapply ids_ext | | | | ].
  - intros x Hx. destruct (mi_free _ Hm x Hx) as (? & ? & ?). split_and!; [done| |done].
    rewrite elem_of_app, list_elem_of_singleton. intros [?| ->]; done.
  - intros x [Hx| ->%list_elem_of_singleton]%elem_of_app; [by apply (mi_queued _ Hm) | eauto].
  - apply NoDup_app. split_and!; [done | | apply NoDup_singleton].
    intros x Hx ->%list_elem_of_singleton. done.
  - intros x data Hx. eapply waiting_frame; [by apply (mi_wait _ Hm) | done | done|].
    rewrite queued_submit, elem_of_app, list_elem_of_singleton. intros [?| ->]; [done | congruence].
Qed.

(** A new synchronisation record does not disturb the calls that wait. *)
Lemma waiting_fresh_record d d' r data a s :
  waiting_ok d r data -> sync_data d !! a = None ->
  requests d' !! r = requests d !! r -> sync_data d' = <[a := s]> (sync_data d) ->
  (r ∈ queued d' -> r ∈ queued d) -> waiting_ok d' r data.
Proof.
  intros Hw Ha Er Es Eq. eapply waiting_frame; [exact Hw | done | | done].
  destruct Hw as (q & s0 & _ & _ & _ & Hs & _). rewrite Es, lookup_insert_ne; [done|].
  intros ->. congruence.
Qed.

Lemma with_callback_typed k cb q : fields_typed q -> u64_range k -> fields_typed (with_callback k cb q).
Proof. intros [] Hk. by split. Qed.

Lemma with_errcode_typed e q : fields_typed q -> s32_range e -> fields_typed (with_errcode e q).
Proof. intros [] He. by split. Qed.

Lemma with_id_typed i q : fields_typed q -> fields_typed (with_id i q).
Proof. intros []. by split. Qed.

Lemma owned_not_null m r q : module_inv m -> owned m r q -> r <> NULL.
Proof. intros Hm (Hq & _) ->. pose proof (io_null _ _ (mi_ids _ Hm)). congruence. Qed.

(** The request is queued with the callback of the module, and its call
    waits. *)
Lemma inv_submitted m r q a item :
  module_inv m -> owned m r q -> u64_range a -> sync_data (m_dev m) !! a = None ->
  module_inv (mk_module (submitted (m_dev m) r q a item) (<[r := a]> (m_waiting m)) (m_drawn m)).
Proof.
  intros Hm (Hq & Hf & Hnq & Hw) Hrange Ha. pose proof Hm as [Hi Hfr Hnd Hqu Hqn Hsy Hwa Hinj].
  set (d' := submitted (m_dev m) r q a item). destruct (io_range _ _ Hi r q Hq) as [_ Hft].
  assert (Eq : queued d' = queued (m_dev m) ++ [r]).
  { unfold queued. simpl. by rewrite !fmap_app, app_assoc. }
  assert (Hne : forall x, x <> r -> requests d' !! x = requests (m_dev m) !! x).
  { intros x Hx. simpl. by rewrite lookup_insert_ne. }
  split; simpl; rewrite ?Eq; try done.
  - eapply ids_ext; [eapply (ids_update _ _ r q (with_callback a CB_sync q) Hi Hq eq_refl) | done..].
    by apply with_callback_typed.
  - intros x Hx. destruct (Hfr x Hx) as (? & ? & ?). assert (x <> r) by (intros ->; done).
    fold d'. rewrite Hne, lookup_insert_ne, elem_of_app, list_elem_of_singleton by done. naive_solver.
  - intros x [Hx| ->%list_elem_of_singleton]%elem_of_app.
    + rewrite lookup_insert_ne by (intros ->; done). by apply Hqu.
    + rewrite lookup_insert_eq. by eexists.
  - apply NoDup_app. split_and!; [done | | apply NoDup_singleton].
    intros x Hx ->%list_elem_of_singleton. done.
  - intros x qx [[<- <-]|[Hx Hqx]]%lookup_insert_Some Hcb; [by rewrite lookup_insert_eq|].
    rewrite lookup_insert_ne by done. by apply Hsy.
  - intros x data [[<- <-]|[Hx Hdata]]%lookup_insert_Some.
    + exists (with_callback a CB_sync q), (mk_sync (rq_kdata q) (rq_callback q) 0). simpl.
      rewrite !lookup_insert_eq, Eq. split_and!; [done..| | apply Hft | done].
      simpl. intros Hcb. rewrite (Hsy r q Hq Hcb) in Hw. done.
    + eapply waiting_fresh_record; [by apply Hwa | exact Ha | by apply Hne | done|].
      rewrite Eq. set_solver.
  - assert (Hna : forall x, m_waiting m !! x <> Some a).
    { intros x Hx. apply Hwa in Hx as (? & ? & _ & _ & _ & Hs & _). congruence. }
    intros x y data [[<- <-]|[Hx Hdx]]%lookup_insert_Some [[<- Hy]|[Hy Hdy]]%lookup_insert_Some;
      [done | by apply Hna in Hdy | subst; by apply Hna in Hdx | by eapply Hinj].
Qed.

Lemma inv_sync m r q data item d res :
  module_inv m -> owned m r q ->
  (forall a, data = Some a -> u64_range a /\ sync_data (m_dev m) !! a = None) ->
  kgpu_call_sync_submit (m_dev m) r data item = Ok (d, res) ->
  module_inv (mk_module d (match res with
                           | SyncWait a => <[r := a]> (m_waiting m)
                           | SyncReturn _ => m_waiting m
                           end) (m_drawn m)).
Proof.
  intros Hm Ho Hd E. destruct (decide (d_state (m_dev m) = KGPU_TERMINATED)) as [Ht|Ht].
  { unfold kgpu_call_sync_submit in E. rewrite Ht in E. injection E as <- <-. by destruct m. }
  destruct data as [a|], item as [i|];
    [|unfold kgpu_call_sync_submit in E; rewrite (proj2 (Z.eqb_neq _ _) Ht) in E;
      injection E as <- <-..]; [| | by destruct m..].
  - rewrite (call_sync_submit_ok _ _ q) in E; [| done | split; [by eapply owned_not_null | apply Ho]].
    injection E as <- <-. by apply inv_submitted; [|done|apply Hd..].
  - pose proof Hm as [Hi ? ? ? ? ? Hwa ?]. split; simpl; try done; [by eapply ids_ext|].
    intros x data Hx. by eapply waiting_fresh_record; [apply Hwa | apply (Hd a) | ..].
Qed.

Lemma inv_resume m r data d ret :
  module_inv m -> m_waiting m !! r = Some data ->
  (r ∈ queued (m_dev m) -> had_callback (m_dev m) data) ->
  kgpu_call_sync_resume (m_dev m) r data = Ok (d, ret) ->
  module_inv (mk_module d (delete r (m_waiting m)) (m_drawn m)).
Proof.
  intros Hm Hr Hcall E. pose proof Hm as [Hi Hfr Hnd Hqu Hqn Hsy Hwa Hinj].
  destruct (Hwa r data Hr) as (q & s & Hq & Hcb & Hk & Hs & Hold & Hok & Hst).
  assert (Hnull : r <> NULL) by (intros ->; pose proof (io_null _ _ Hi); congruence).
  rewrite (call_sync_resume_ok _ _ q data s) in E; [|done|done]. injection E as <- _.
  set (q' := with_callback (sd_oldkdata s) (sd_oldcallback s) q).
  split; simpl; try done.
  - eapply ids_ext; [eapply (ids_update _ _ r q q' Hi Hq eq_refl) | done..].
    apply with_callback_typed; [apply (io_range _ _ Hi r q Hq) | done].
  - intros x Hx. destruct (Hfr x Hx) as (? & ? & Hnw). assert (x <> r) by congruence.
    rewrite lookup_insert_ne, lookup_delete_ne by done. done.
  - intros x Hx. destruct (decide (x = r)) as [->|Hxr]; [|rewrite lookup_insert_ne by done; by apply Hqu].
    rewrite lookup_insert_eq. exists q'. split; [done|]. simpl.
    destruct (Hcall Hx) as (s' & Hs' & Hn). congruence.
  - intros x qx [[<- <-]|[Hx Hqx]]%lookup_insert_Some Hc; [by destruct Hold|].
    rewrite lookup_delete_ne by done. by apply Hsy.
  - intros x a [Hx Ha]%lookup_delete_Some. assert (a <> data) by (intros ->; by apply Hx, (Hinj r x data)).
    eapply waiting_frame; [by apply Hwa | simpl; by rewrite lookup_insert_ne |
      simpl; by rewrite lookup_delete_ne | done].
  - intros x y a [_ Hx]%lookup_delete_Some [_ Hy]%lookup_delete_Some. by eapply Hinj.
Qed.

(** Changes that leave requests, records and the order of the queue. *)
Lemma inv_same m d :
  module_inv m -> requests d = requests (m_dev m) -> rid_sequence d = rid_sequence (m_dev m) ->
  req_free d = req_free (m_dev m) -> queued d = queued (m_dev m) ->
  sync_data d = sync_data (m_dev m) -> module_inv (set_mdev m d).
Proof.
  intros [Hi Hfr Hnd Hqu Hqn Hsy Hwa Hinj] Er Es Ef Eq Ed.
  split; simpl; rewrite ?Er, ?Ef, ?Eq; try done; [by eapply ids_ext|].
  intros x data Hx. eapply waiting_frame; [by apply Hwa | by rewrite Er | by rewrite Ed | by rewrite Eq].
Qed.

(** The first request leaves [reqs] without being filed. *)
Lemma inv_dropped m item rest :
  module_inv m -> reqs (m_dev m) = item :: rest -> module_inv (set_mdev m (set_reqs (m_dev m) rest)).
Proof.
  intros [Hi Hfr Hnd Hqu Hqn Hsy Hwa Hinj] Er.
  assert (Eq : queued (m_dev m) ≡ₚ it_r item :: queued (set_reqs (m_dev m) rest)).
  { unfold queued. rewrite Er. simpl. rewrite !fmap_app. simpl. solve_Permutation. }
  assert (Hsub : forall x, x ∈ queued (set_reqs (m_dev m) rest) -> x ∈ queued (m_dev m)).
  { intros x Hx. rewrite Eq. by right. }
  split; simpl; try done.
  - by eapply ids_ext.
  - intros x Hx. destruct (Hfr x Hx) as (? & ? & ?). split_and!; auto.
  - intros x Hx. auto.
  - rewrite Eq in Hqn. by apply NoDup_cons in Hqn as [_ ?].
  - intros x data Hx. eapply waiting_frame; [by apply Hwa | done | done | apply Hsub].
Qed.

Lemma inv_read m c nonblock signal d res :
  module_inv m -> 0 <= c < 2 ^ 63 -> kgpu_read (m_dev m) c nonblock signal = Ok (d, res) ->
  module_inv (set_mdev m d).
Proof.
  intros Hm Hc E. unfold kgpu_read in E. destruct (reqs (m_dev m)) as [|item rest] eqn:Eq.
  - destruct nonblock; [|destruct signal]; injection E as <- _; by destruct m.
  - apply bind_ok in E as (q & _ & E). rewrite ssize_small in E by lia.
    destruct (0 <? c); injection E as <- _; [|by eapply inv_dropped].
    apply inv_same; try done. unfold queued. simpl.
    rewrite Eq, !fmap_app, <- app_assoc. done.
Qed.

(** A request leaves the queues: its error code is stored, and a record that
    waits for it is done. *)
Lemma inv_complete m d r q e A B :
  module_inv m -> s32_range e -> requests (m_dev m) !! r = Some q ->
  queued (m_dev m) = A ++ r :: B -> queued d = A ++ B ->
  requests d = <[r := with_errcode e q]> (requests (m_dev m)) ->
  rid_sequence d = rid_sequence (m_dev m) -> req_free d = req_free (m_dev m) ->
  sync_data d =
    match rq_callback q with
    | CB_sync => alter (fun s => mk_sync (sd_oldkdata s) (sd_oldcallback s) 1) (rq_kdata q)
                   (sync_data (m_dev m))
    | _ => sync_data (m_dev m)
    end -> module_inv (set_mdev m d).
Proof.
  intros Hm He Hq EA EB Er Es Ef Ed. pose proof Hm as [Hi Hfr Hnd Hqu Hqn Hsy Hwa Hinj].
  assert (Hin : r ∈ queued (m_dev m)) by (rewrite EA; set_solver).
  assert (Hmem : forall x, x ∈ queued d <-> x ∈ queued (m_dev m) /\ x <> r).
  { rewrite EA in Hqn. apply NoDup_app in Hqn as (_ & H1 & [H2 _]%NoDup_cons).
    rewrite EA, EB. intros x. set_unfold. split; [intros Hx | naive_solver].
    split; [naive_solver|]. intros ->. destruct Hx; [by apply (H1 r); [|left] | done]. }
  assert (Hne : forall x, x <> r -> requests d !! x = requests (m_dev m) !! x).
  { intros x Hx. by rewrite Er, lookup_insert_ne. }
  split; simpl; rewrite ?Ef; try done.
  - eapply ids_ext; [eapply (ids_update _ _ r q (with_errcode e q) Hi Hq eq_refl) | done..].
    apply with_errcode_typed; [apply (io_range _ _ Hi r q Hq) | done].
  - intros x Hx. destruct (Hfr x Hx) as (? & Hnq & ?). assert (x <> r) by (intros ->; done).
    rewrite Hne, Hmem by done. naive_solver.
  - intros x [Hx Hxr]%Hmem. rewrite Hne by done. by apply Hqu.
  - rewrite EB. rewrite EA in Hqn. apply NoDup_app in Hqn as (? & H1 & [H2 ?]%NoDup_cons).
    apply NoDup_app. split_and!; [done | | done]. intros x Hx Hx'. apply (H1 x Hx). by right.
  - intros x qx Hx Hcb. destruct (decide (x = r)) as [->|Hxr].
    + rewrite Er, lookup_insert_eq in Hx. injection Hx as <-. by apply (Hsy r q).
    + rewrite Hne in Hx by done. by apply Hsy.
  - intros x data Hx. destruct (Hwa x data Hx) as (qx & s & Hqx & Hcb & Hk & Hs & Hold & Hok & Hst).
    destruct (decide (x = r)) as [->|Hxr].
    + assert (qx = q) as -> by congruence. subst data.
      exists (with_errcode e q), (mk_sync (sd_oldkdata s) (sd_oldcallback s) 1).
      rewrite Er, lookup_insert_eq, Ed, Hcb, Hmem. simpl. rewrite lookup_alter_eq, Hs. naive_solver.
    + eapply waiting_frame; [by apply Hwa | by apply Hne | | rewrite Hmem; naive_solver].
      rewrite Ed. destruct (rq_callback q) eqn:Hc; [done| |done]. rewrite lookup_alter_ne; [done|].
      intros <-. apply Hxr. eapply Hinj; [exact Hx|]. by apply Hsy.
Qed.

Lemma queued_live m :
  module_inv m -> Forall (fun i => exists q, req_at (m_dev m) (it_r i) q) (rtdreqs (m_dev m)).
Proof.
  intros Hm. apply Forall_forall. intros i Hi.
  assert (it_r i ∈ queued (m_dev m)) as (q & Hq & _)%(mi_queued _ Hm).
  { apply list_elem_of_fmap_2. set_solver. }
  exists q. split; [|done]. intros E. rewrite E in Hq. pose proof (io_null _ _ (mi_ids _ Hm)). congruence.
Qed.

(** The queue before and after the request of the item [i] is completed. *)
Lemma queued_split d l1 i l2 :
  rtdreqs d = l1 ++ i :: l2 ->
  queued d = (it_r <$> l1) ++ it_r i :: (it_r <$> l2 ++ reqs d) /\
  forall q e, queued (completed d (l1 ++ l2) (it_r i) q e) = (it_r <$> l1) ++ (it_r <$> l2 ++ reqs d).
Proof.
  intros El. unfold queued. split; [by rewrite El, !fmap_app, <- app_assoc|].
  intros q e. simpl. by rewrite <- app_assoc, fmap_app.
Qed.

(** The callback of a completed request. *)
Lemma completed_inv m l1 i l2 q e :
  module_inv m -> s32_range e -> rtdreqs (m_dev m) = l1 ++ i :: l2 -> req_at (m_dev m) (it_r i) q ->
  let d1 := completed (m_dev m) (l1 ++ l2) (it_r i) q e in
  exists d, run_callback quiet_callback d1 (it_r i) = Ok d /\ queued d = queued d1 /\
    requests d = requests d1 /\ module_inv (set_mdev m d).
Proof.
  intros Hm He El Hq d1. destruct (queued_split _ _ _ _ El) as [EA EB]. specialize (EB q e).
  unfold d1. rewrite run_callback_completed by done. fold d1 in EB |- *.
  pose proof (fun d (Eq : queued d = queued d1) =>
    inv_complete m d (it_r i) q e _ _ Hm He (proj2 Hq) EA (eq_trans Eq EB)) as Hcomp.
  destruct (rq_callback q) eqn:Hcb.
  - assert (it_r i ∈ queued (m_dev m)) as (q' & Hq' & Hn)%(mi_queued _ Hm) by (rewrite EA; set_solver).
    destruct Hq as [_ Hq]. congruence.
  - pose proof (mi_sync _ Hm _ _ (proj2 Hq) Hcb) as Hw.
    destruct (mi_wait _ Hm _ _ Hw) as (q' & s & Hq' & _ & _ & Hsd & _).
    unfold sync_callback. rewrite (load_req_ok d1 (it_r i) (with_errcode e q));
      [|apply Hq | apply lookup_insert_eq]. cbn. rewrite Hsd. cbn.
    eexists. split_and!; [done..|]. apply Hcomp; try done.
    simpl. apply map_eq. intros k. rewrite lookup_insert, lookup_alter.
    case_decide as Hk; [subst k; by rewrite Hsd | done].
  - exists d1. split_and!; [done..|]. by apply Hcomp.
Qed.

(** The effect of an answer in the module: an error code, or the request of
    that identifier is completed. *)
Lemma write_effect m count resp :
  module_inv m -> count < 2 ^ 63 -> ku_response_typed resp -> exists d ret,
    kgpu_write quiet_callback (m_dev m) count resp = Ok (d, ret) /\ module_inv (set_mdev m d) /\
    (ret < 0 /\ d = m_dev m \/
     ret = count /\ exists r q, r ∈ it_r <$> rtdreqs (m_dev m) /\ rq_id q = ks_id resp /\
       requests (m_dev m) !! r = Some q /\ requests d !! r = Some (with_errcode (ks_errcode resp) q) /\
       r ∉ queued d).
Proof.
  intros Hm Hc [_ He]. destruct (Z.ltb_spec count sizeof_ku_response) as [Hs|Hs].
  { exists (m_dev m), (- EINVAL). unfold kgpu_write. rewrite (proj2 (Z.ltb_lt _ _)) by done.
    split; [done|]. split; [by destruct m | left; done]. }
  destruct (find_request_cases _ (ks_id resp) _ (queued_live m Hm))
    as [[Hn _]|(l1 & i & l2 & q & El & Hq & Hid & _ & Hf)].
  { exists (m_dev m), (- EFAULT). unfold kgpu_write. rewrite (proj2 (Z.ltb_ge _ _)), Hn by done.
    split; [done|]. split; [by destruct m | left; done]. }
  destruct (completed_inv m l1 i l2 q (ks_errcode resp) Hm He El Hq) as (d & Hrun & Eq & Er & Hinv).
  destruct (queued_split _ _ _ _ El) as [EA EB].
  exists d, count. rewrite (kgpu_write_found _ _ _ _ i (l1 ++ l2) q) by done. rewrite Hrun.
  split; [done|]. split; [done|]. right. split; [done|]. exists (it_r i), q.
  rewrite Er, Eq, EB. split_and!; [| done | apply Hq | apply lookup_insert_eq |].
  - rewrite El. set_solver.
  - pose proof (mi_nodup _ Hm) as Hnd. rewrite EA in Hnd.
    apply NoDup_app in Hnd as (_ & H1 & [H2 _]%NoDup_cons).
    intros [Hx|Hx]%elem_of_app; [by apply (H1 _ Hx); left | done].
Qed.

Lemma inv_init : module_inv (mk_module dev_init ∅ 0).
Proof.
  split; simpl; try done; try (intros; set_solver); by constructor.
Qed.

Lemma module_step_inv m m' : module_inv m -> step m m' -> m_drawn m' < 2 ^ 31 -> module_inv m'.
Proof.
  intros Hm Hs Hlt. destruct Hs.
  - by apply inv_alloc.
  - by eapply inv_free.
  - destruct H0 as (Hid & Hlen & Hcb). eapply (inv_owned m); try done.
    apply (ids_update _ _ r q q'); [apply Hm | apply H | done..].
  - pose proof (mi_ids _ Hm) as Hi. pose proof (io_pos _ _ Hi). simpl in Hlt.
    rewrite (next_id_ids _ (m_drawn m)) in H0; [|apply Hi | lia | lia]. injection H0 as <- <-.
    eapply (inv_owned m _ _ r q); try done.
    + simpl. intros Hcb. destruct H as (Hq & _ & _ & Hw). rewrite (mi_sync _ Hm r q Hq Hcb) in Hw. done.
    + apply (ids_insert (m_dev m)); [done | lia | by eapply owned_not_null | done|].
      by apply with_id_typed, (io_range _ _ Hi r q), H.
  - by eapply inv_async.
  - by eapply inv_sync.
  - by eapply inv_resume.
  - by eapply inv_read.
  - destruct (write_effect m count resp Hm H H0) as (d' & ret' & E & Hi & _). rewrite H1 in E.
    by injection E as <- <-.
  - by apply inv_same.
  - by apply inv_same.
Qed.

Lemma reachable_inv m : reachable m -> module_inv m.
Proof. intros Hr. induction Hr as [|m m' _ IH Hs Hlt]; [apply inv_init | by eapply module_step_inv]. Qed.

Lemma inv_no_fault m :
  module_inv m ->
  (forall c nonblock signal, is_ok (kgpu_read (m_dev m) c nonblock signal) = true) /\
  (forall count resp, count < 2 ^ 63 -> ku_response_typed resp ->
     is_ok (kgpu_write quiet_callback (m_dev m) count resp) = true).
Proof.
  intros Hm. split.
  - intros c nonblock signal. unfold kgpu_read. destruct (reqs (m_dev m)) as [|i rest] eqn:E;
      [by destruct nonblock, signal|].
    assert (it_r i ∈ queued (m_dev m)) as (q & Hq & _)%(mi_queued _ Hm).
    { unfold queued. rewrite E. set_solver. }
    rewrite (load_req_ok _ _ q); [done | | done]. intros En. rewrite En in Hq.
    pose proof (io_null _ _ (mi_ids _ Hm)). simpl in *. congruence.
  - intros count resp Hc Ht. by destruct (write_effect m count resp Hm Hc Ht) as (d & ret & -> & _).
Qed.

(** C13: in every state that clients and helper can bring the module to, in
    any order of their calls, reads of 0 bytes and synchronous calls ended by
    a signal included, before [2^31] identifiers are drawn: provided clients
    touch a request only when it is in no queue, and submit it with a callback
    (a synchronous call without one is not ended by a signal), no two
    request objects have the same identifier, a queued request is queued once,
    is not free and has a callback, and neither a read nor an answer can
    fault: a read gives a request or an error code, and an answer is refused
    without effect or stores its error code in the one request it names,
    which then is in no queue. *)
Theorem module_safe m :
  reachable m ->
  (forall r r' q q', requests (m_dev m) !! r = Some q -> requests (m_dev m) !! r' = Some q' ->
     rq_id q = rq_id q' -> r = r') /\
  NoDup (queued (m_dev m)) /\
  (forall r, r ∈ queued (m_dev m) -> r ∉ req_free (m_dev m) /\
     exists q, requests (m_dev m) !! r = Some q /\ rq_callback q <> CB_NULL) /\
  (forall c nonblock signal, is_ok (kgpu_read (m_dev m) c nonblock signal) = true) /\
  (forall count resp, count < 2 ^ 63 -> ku_response_typed resp -> exists d ret,
     kgpu_write quiet_callback (m_dev m) count resp = Ok (d, ret) /\
     (ret < 0 /\ d = m_dev m \/
      ret = count /\ exists r q, r ∈ it_r <$> rtdreqs (m_dev m) /\ rq_id q = ks_id resp /\
        requests (m_dev m) !! r = Some q /\ requests d !! r = Some (with_errcode (ks_errcode resp) q) /\
        r ∉ queued d)).
Proof.
  intros Hm%reachable_inv. split_and!.
  - apply (mi_ids _ Hm).
  - apply (mi_nodup _ Hm).
  - intros r Hr. split; [|by apply (mi_queued _ Hm)]. intros Hf. by destruct (mi_free _ Hm r Hf) as (_ & ? & _).
  - apply (inv_no_fault _ Hm).
  - intros count resp Hc Ht.
    destruct (write_effect m count resp Hm Hc Ht) as (d & ret & ? & _ & ?). eauto.
Qed.

(** A client allocates a request from a new slab, fills it in, submits it,
    and the helper reads it. *)
Definition filled_request : kgpu_request :=
  mk_request 1 4096 8192 0 0 1024 1024 0 0 (repeat 65 32) (CB_client 1) 0.

Lemma filled_request_typed : fields_typed filled_request.
Proof.
  split; simpl; try (unfold u64_range, s32_range; lia). split; [done|].
  repeat constructor; discriminate.
Qed.

Definition module_queued : module :=
  mk_module (mk_dev KGPU_OK 2 [mk_item 2000 1000] [] mempool_zero vma_zero
    (<[1000 := filled_request]> (<[1100 := new_object 2]> (<[1000 := new_object 1]> ∅))) [1100] ∅) ∅ 2.

Definition module_flight : module :=
  set_mdev module_queued (set_rtdreqs (set_reqs (m_dev module_queued) []) [mk_item 2000 1000]).

Lemma module_queued_reachable : reachable module_queued.
Proof.
  pose (d1 := mk_dev KGPU_OK 2 [] [] mempool_zero vma_zero
    (<[1100 := new_object 2]> (<[1000 := new_object 1]> ∅)) [1100] ∅).
  pose (d2 := set_requests d1 (<[1000 := filled_request]> (requests d1))).
  assert (R1 : reachable (mk_module d1 ∅ 2)).
  { apply (R_step (mk_module dev_init ∅ 0)); [constructor | | simpl; lia].
    apply (S_alloc (mk_module dev_init ∅ 0) (SlabGrow [1000; 1100] 1000)).
    split_and!; [left | by apply (bool_decide_unpack _) | set_solver by done | done]. }
  assert (O1 : forall d q, d = d1 \/ d = d2 -> requests d !! 1000 = Some q ->
                 owned (mk_module d ∅ 2) 1000 q).
  { intros d q Hd Hq. split; [done|]. destruct Hd as [-> | ->]; (split_and!; [| |done]); simpl;
      set_solver by done. }
  assert (R2 : reachable (mk_module d2 ∅ 2)).
  { apply (R_step (mk_module d1 ∅ 2)); [done | | simpl; lia].
    apply (S_update (mk_module d1 ∅ 2) 1000 (new_object 1)); [by apply O1; [left|]|].
    split_and!; [done | | done]. apply filled_request_typed. }
  apply (R_step (mk_module d2 ∅ 2)); [done | | simpl; lia].
  by apply (S_async (mk_module d2 ∅ 2) 1000 filled_request (Some 2000) _ 0); [apply O1; [right|] |..].
Qed.

Lemma module_flight_reachable : reachable module_flight.
Proof.
  apply (R_step module_queued); [apply module_queued_reachable | | simpl; lia].
  eapply (S_read module_queued 88 false false); [lia | reflexivity].
Qed.

Lemma module_safe_witness :
  reachable module_flight /\
  exists d ret, kgpu_write quiet_callback (m_dev module_flight) 8 (mk_ku_response 1 0) = Ok (d, ret).
Proof.
  split; [exact module_flight_reachable|].
  destruct (module_safe module_flight module_flight_reachable) as (_ & _ & _ & _ & Hw).
  destruct (Hw 8 (mk_ku_response 1 0)) as (d & ret & E & _);
    [lia | split; unfold s32_range; simpl; lia|]. exists d, ret. exact E.
Defined.
