(* ===== verification/Wire.v ===== *)
(** * The device file as bytes

    [kgpu_read] and [kgpu_write] of main.c exchange structures with the
    helper through buffers of bytes.  The structure variable of [kgpu_read]
    is not initialised, so its bytes before the assignments are an argument;
    a buffer is the bytes at the user's pointer. *)

From S2P Require Import Prelude KgpuDefs Layout UnitAlloc MemPool MmapArea Device Module.

(** ** The copies *)

(** [kgpu_read] with the [memcpy] to the user's buffer. *)
Definition kgpu_read_user (d : kgpu_dev) (c : Z) (nonblock signal : bool) (stack buf : list Z) :
    outcome (kgpu_dev * read_result * list Z) :=
  '(d, r) ← kgpu_read d c nonblock signal;
  match r with
  | ReadReturn _ (Some kureq) n =>
      if Z.of_nat (length buf) <? n then Fault OutOfBounds
      else mret (d, r, memcpy_out buf (to_bytes stack kureq))
  | _ => mret (d, r, buf)
  end.

(** [kgpu_write] with the [memcpy] from the user's buffer. *)
Definition kgpu_write_user (client_callback : Z -> Z -> kgpu_dev -> outcome kgpu_dev)
    (d : kgpu_dev) (count : Z) (buf : list Z) : outcome (kgpu_dev * Z) :=
  if count <? sizeof_ku_response then mret (d, - EINVAL)
  else if Z.of_nat (length buf) <? sizeof_ku_response then Fault OutOfBounds
  else
    kuresp ← of_option OutOfBounds (of_bytes buf);
    kgpu_write client_callback d count kuresp.

(** ** Lemmas *)

Lemma ku_pointer_range pool p : u64_range p -> u64_range (ku_pointer pool p).
Proof. intros Hp. unfold ku_pointer. destruct (ADDR_WITHIN _ _ _); [apply ADDR_REBASE_range | done]. Qed.

Lemma fill_ku_request_typed pool q n :
  fields_typed q -> 1 <= rq_id q <= n -> n < 2 ^ 31 -> ku_request_typed (fill_ku_request pool q).
Proof.
  intros [] Hid Hn. split; simpl; try done; try by apply ku_pointer_range. unfold s32_range. lia.
Qed.

(** The queue's first request, in a reachable state. *)
Lemma reachable_first m item rest :
  module_inv m -> reqs (m_dev m) = item :: rest -> exists q, req_at (m_dev m) (it_r item) q /\
    ku_request_typed (fill_ku_request (gmpool (m_dev m)) q).
Proof.
  intros Hm E. pose proof (mi_ids _ Hm) as Hi.
  assert (it_r item ∈ queued (m_dev m)) as (q & Hq & _)%(mi_queued _ Hm).
  { unfold queued. rewrite E. set_solver. }
  exists q. split.
  - split; [|done]. intros En. rewrite En in Hq. pose proof (io_null _ _ Hi). congruence.
  - destruct (io_range _ _ Hi _ _ Hq). by eapply fill_ku_request_typed; [| |apply Hi].
Qed.

Lemma get_put_after (mem bs : list Z) o n :
  0 <= o -> 0 <= n -> (length bs <= length mem)%nat -> Z.of_nat (length bs) <= o ->
  get_bytes (put_bytes mem 0 bs) o n = get_bytes mem o n.
Proof. intros. apply get_put_other; simpl; lia. Qed.

(** The members of a structure that was copied to a buffer. *)
Lemma copied_fields {A} `{CStruct A} buf mem (a : A) :
  cs_typed a -> Z.of_nat (length mem) = cs_sizeof -> (length mem <= length buf)%nat ->
  get_fields (memcpy_out buf (to_bytes mem a)) cs_fields = cs_vals a.
Proof.
  intros Ha Hm Hb. pose proof fields_fit. destruct (to_bytes_spec mem a Ha Hm) as [L _].
  destruct (put_fields_spec 0 cs_fields (cs_vals a) mem) as (_ & _ & G);
    [lia | apply cs_fields_ok | by apply cs_vals_ok | lia|].
  unfold memcpy_out. rewrite get_fields_put; [exact G | lia | apply cs_fields_ok | lia].
Qed.

(** ** Theorems *)

(** The address at which the helper sees a pointer of a request: at the same
    offset in its own mapping of the pool, or unchanged outside of the pool. *)
Definition helper_address (pool : kgpu_mempool) (p : Z) : Z :=
  if bool_decide (kva pool <= p < kva pool + npages pool * 4096) then uva pool + (p - kva pool) else p.

(** C20: a read of 88 bytes in any state of the module that clients can reach,
    with a pool whose mappings do not wrap, copies the first queued request
    [q] to the helper's buffer: the identifier in bytes 0 to 3, the service
    name in bytes 4 to 35, the addresses of input, output and data, moved to
    the helper's mapping of the pool where they point into it, at 40, 48 and
    56, and their sizes at 64, 72 and 80, all with the low byte first; the
    buffer past byte 88 is untouched. *)
Theorem read_hands_over_request m item rest nonblock signal stack buf :
  reachable m -> pool_mapped (gmpool (m_dev m)) -> reqs (m_dev m) = item :: rest ->
  Z.of_nat (length stack) = sizeof_ku_request -> (length stack <= length buf)%nat ->
  exists d q kureq buf',
    kgpu_read_user (m_dev m) 88 nonblock signal stack buf =
      Ok (d, ReadReturn 88 (Some kureq) 88, buf') /\
    requests (m_dev m) !! it_r item = Some q /\ length buf' = length buf /\
    let addr := helper_address (gmpool (m_dev m)) in
    get_bytes buf' 0 4 = le_bytes 4 (rq_id q) /\ get_bytes buf' 4 32 = rq_service_name q /\
    get_bytes buf' 40 8 = le_bytes 8 (addr (rq_in q)) /\
    get_bytes buf' 48 8 = le_bytes 8 (addr (rq_out q)) /\
    get_bytes buf' 56 8 = le_bytes 8 (addr (rq_udata q)) /\
    get_bytes buf' 64 8 = le_bytes 8 (rq_insize q) /\
    get_bytes buf' 72 8 = le_bytes 8 (rq_outsize q) /\
    get_bytes buf' 80 8 = le_bytes 8 (rq_udatasize q) /\
    (forall o n, 88 <= o -> 0 <= n -> get_bytes buf' o n = get_bytes buf o n).
Proof.
  intros Hm%reachable_inv Hpool E Hs Hb. destruct (reachable_first m item rest Hm E) as (q & Hq & Ht).
  change sizeof_ku_request with 88 in Hs.
  set (kureq := fill_ku_request (gmpool (m_dev m)) q) in *.
  assert (Hc : cs_typed kureq) by exact Ht.
  destruct (to_bytes_spec stack kureq Hc Hs) as [Hl _].
  eexists _, q, kureq, (memcpy_out buf (to_bytes stack kureq)). split.
  { unfold kgpu_read_user, kgpu_read. rewrite E. rewrite (load_req_ok _ _ q) by apply Hq.
    cbn [mbind outcome_bind mret outcome_ret]. change (ssize 88) with 88. cbn [mbind outcome_bind].
    change sizeof_ku_request with 88. rewrite (proj2 (Z.ltb_ge _ _)) by lia. reflexivity. }
  split; [apply Hq|].
  assert (Hf : get_fields (memcpy_out buf (to_bytes stack kureq)) ku_request_fields = ku_request_vals kureq).
  { exact (copied_fields buf stack kureq Hc Hs Hb). }
  assert (Htail : length (memcpy_out buf (to_bytes stack kureq)) = length buf /\
    forall o n, 88 <= o -> 0 <= n ->
      get_bytes (memcpy_out buf (to_bytes stack kureq)) o n = get_bytes buf o n).
  { split; [unfold memcpy_out; rewrite length_put_bytes; lia|]. intros. apply get_put_after; lia. }
  revert Hf Htail. generalize (memcpy_out buf (to_bytes stack kureq)). intros buf' Hf [Hlen Htail].
  assert (Hk : forall k : nat, default [] (get_fields buf' ku_request_fields !! k) =
    default [] (ku_request_vals kureq !! k)) by (intros k; by rewrite Hf).
  assert (Ha : forall p, ku_pointer (gmpool (m_dev m)) p = helper_address (gmpool (m_dev m)) p)
    by (intros p; by apply ku_pointer_spec).
  cbv zeta. rewrite <- !Ha. split; [done|].
  split; [exact (Hk 0%nat)|]. split; [exact (Hk 1%nat)|]. split; [exact (Hk 2%nat)|].
  split; [exact (Hk 3%nat)|]. split; [exact (Hk 4%nat)|]. split; [exact (Hk 5%nat)|].
  split; [exact (Hk 6%nat)|]. split; [exact (Hk 7%nat) | exact Htail].
Qed.

(** The value of four bytes as a C [int], the low byte first. *)
Definition int_of (b0 b1 b2 b3 : Z) : Z := swrap32 (b0 + 256 * b1 + 65536 * b2 + 16777216 * b3).

Lemma response_of_bytes b0 b1 b2 b3 b4 b5 b6 b7 rest :
  of_bytes (b0 :: b1 :: b2 :: b3 :: b4 :: b5 :: b6 :: b7 :: rest) =
    Some (mk_ku_response (int_of b0 b1 b2 b3) (int_of b4 b5 b6 b7)).
Proof.
  unfold of_bytes. cbn [cs_value cs_fields ku_response_struct].
  change (get_fields _ ku_response_fields) with [[b0; b1; b2; b3]; [b4; b5; b6; b7]].
  unfold ku_response_value, int_value, int_of, le_value. cbn [foldr].
  do 3 f_equal; lia.
Qed.

(** C21: an answer is eight bytes: the identifier of its request in the first
    four and the error code in the next four, with the low byte first.  A
    [write] of them, whatever follows in the helper's buffer, takes exactly
    the oldest request in flight with that identifier off the list, stores
    that code in it, runs its callback once in that state and returns the
    count; if no request in flight has the identifier it returns [-EFAULT],
    and for fewer than eight bytes [-EINVAL], without effect. *)
Theorem write_decodes_answer client_callback d count b0 b1 b2 b3 b4 b5 b6 b7 rest :
  Forall (fun i => exists q, req_at d (it_r i) q) (rtdreqs d) -> count < 2 ^ 63 ->
  let id := int_of b0 b1 b2 b3 in
  let code := int_of b4 b5 b6 b7 in
  let r := kgpu_write_user client_callback d count
             (b0 :: b1 :: b2 :: b3 :: b4 :: b5 :: b6 :: b7 :: rest) in
  if count <? 8 then r = Ok (d, - EINVAL)
  else
    (r = Ok (d, - EFAULT) /\
     Forall (fun i => exists q, req_at d (it_r i) q /\ rq_id q <> id) (rtdreqs d)) \/
    exists l1 item l2 q, rtdreqs d = l1 ++ item :: l2 /\ req_at d (it_r item) q /\ rq_id q = id /\
      Forall (fun i => exists q, req_at d (it_r i) q /\ rq_id q <> id) l1 /\
      r = (d' ← match rq_callback q with
                | CB_NULL => Fault NullDeref
                | CB_sync => sync_callback (completed d (l1 ++ l2) (it_r item) q code) (it_r item)
                | CB_client f => client_callback f (it_r item) (completed d (l1 ++ l2) (it_r item) q code)
                end;
           Ok (d', count)).
Proof.
  intros Hl Hc id code r. unfold r, kgpu_write_user, sizeof_ku_response.
  destruct (Z.ltb_spec count 8) as [E|E]; [done|].
  assert (Hlen : forall A (l : list A), Z.of_nat (S (S (S (S (S (S (S (S (length l))))))))) <? 8 = false)
    by (intros; apply Z.ltb_ge; lia).
  cbn [length]. rewrite Hlen, response_of_bytes. cbn [of_option mbind outcome_bind]. fold id code.
  destruct (find_request_cases d id (rtdreqs d) Hl)
    as [[Hn Hall]|(l1 & item & l2 & q & Hsplit & Hq & Hid & Hl1 & Hf)].
  - left. split; [|done]. unfold kgpu_write, sizeof_ku_response.
    rewrite (proj2 (Z.ltb_ge _ _)) by lia. cbn [ks_id]. by rewrite Hn.
  - right. exists l1, item, l2, q. split_and!; [done..|].
    rewrite (kgpu_write_found _ _ _ _ item (l1 ++ l2) q) by done. by rewrite run_callback_completed.
Qed.

(** The four bytes between [service_name] and [in] are padding: the module
    copies what its stack held to the helper. *)
Lemma read_copies_padding stack kureq :
  Z.of_nat (length stack) = sizeof_ku_request -> ku_request_typed kureq ->
  get_bytes (to_bytes stack kureq) 36 4 = get_bytes stack 36 4.
Proof.
  intros Hs Ht. change sizeof_ku_request with 88 in Hs. destruct (krt_name _ Ht) as [Hn _].
  change KGPU_SERVICE_NAME_SIZE with 32 in Hn.
  unfold to_bytes. cbn [cs_fields cs_vals ku_request_struct].
  change (field_offsets 0 ku_request_fields) with [0; 4; 40; 48; 56; 64; 72; 80].
  unfold ku_request_vals. cbn [put_fields].
  assert (Hput : forall (mem bs : list Z) o, length mem = 88%nat -> 0 <= o ->
    (Z.to_nat o + length bs <= 88)%nat -> o + Z.of_nat (length bs) <= 36 \/ 40 <= o ->
    length (put_bytes mem o bs) = 88%nat /\ get_bytes (put_bytes mem o bs) 36 4 = get_bytes mem 36 4).
  { intros mem bs o Hm Ho Hl Hd. split; [rewrite length_put_bytes; lia|].
    apply get_put_other; lia. }
  assert (Hl : length stack = 88%nat) by lia. clear Hs.
  repeat (match goal with |- context [put_bytes stack ?o ?bs] =>
    destruct (Hput stack bs o) as [Hl' Hg];
      [done | lia | rewrite ?length_le_bytes; simpl; lia | rewrite ?length_le_bytes; simpl; lia|];
    rewrite <- Hg; clear Hg Hl; generalize dependent (put_bytes stack o bs);
    clear stack; intros stack Hl end).
  done.
Qed.

(** *** Witnesses *)

(** A state of the module with the pool of the examples. *)
Definition module_pooled : module :=
  set_mdev module_queued (set_area (set_gmpool (m_dev module_queued) pool_example) vma_zero).

Lemma module_pooled_reachable : reachable module_pooled.
Proof.
  apply (R_step module_queued); [exact module_queued_reachable | exact (S_memory module_queued _ _) |].
  simpl. lia.
Qed.

Lemma read_hands_over_request_witness :
  exists d kureq buf',
    kgpu_read_user (m_dev module_pooled) 88 false false (repeat 170 88) (repeat 0 100) =
      Ok (d, ReadReturn 88 (Some kureq) 88, buf') /\
    get_bytes buf' 0 4 = [1; 0; 0; 0] /\ get_bytes buf' 64 8 = [0; 4; 0; 0; 0; 0; 0; 0].
Proof.
  destruct (read_hands_over_request module_pooled (mk_item 2000 1000) [] false false
    (repeat 170 88) (repeat 0 100))
    as (d & q & kureq & buf' & E & Hq & _ & F1 & _ & _ & _ & _ & F6 & _);
    [exact module_pooled_reachable | | reflexivity | reflexivity | simpl; lia|].
  - split; [simpl; lia|]. split; unfold buffer_ok, PAGE_SIZE; simpl; lia.
  - exists d, kureq, buf'. split; [exact E|]. injection Hq as <-. split; [exact F1 | exact F6].
Defined.

Lemma write_decodes_answer_witness :
  exists d, kgpu_write_user quiet_callback (m_dev module_flight) 8 [1; 0; 0; 0; 254; 255; 255; 255] = Ok (d, 8) /\
    rtdreqs d = [] /\ (rq_errcode <$> requests d !! 1000) = Some (-2).
Proof.
  assert (Hl : Forall (fun i => exists q, req_at (m_dev module_flight) (it_r i) q)
                 (rtdreqs (m_dev module_flight))).
  { constructor; [|constructor]. exists filled_request. split; [discriminate | reflexivity]. }
  destruct (write_decodes_answer quiet_callback (m_dev module_flight) 8 1 0 0 0 254 255 255 255 [] Hl)
    as [[E _]|(l1 & item & l2 & q & El & [_ Hq] & Hid & _ & E)]; [lia | vm_compute in E; discriminate E |].
  destruct l1 as [|? [|]]; injection El; [|intros _; discriminate..]. intros <- <-.
  injection Hq as <-. eexists. split; [exact E|]. split; reflexivity.
Defined.
