(* ===== verification/OpenClose.v ===== *)
(** * Opening and closing the device
      ([kgpu_open] and [kgpu_release], src/kgpu/src/kernelSpace/main.c)

    The counter [kgpudev_av] admits one process at a time.  [kgpu_open] is not
    atomic: it is a decrement with a test, followed by an increment when the
    test fails.  [step] interleaves these accesses for any number of
    processes; [seq_step] is the same system when no open is interrupted. *)

From S2P Require Import Prelude KgpuDefs.

(** The atomic operations of Linux on the counter. *)
Definition atomic_dec_and_test (v : Z) : Z * bool := (v - 1, v - 1 =? 0).

Definition atomic_inc (v : Z) : Z := v + 1.

(** [kgpu_open] run to its end: the counter and the return value. *)
Definition kgpu_open (av : Z) : Z * Z :=
  let '(av, test) := atomic_dec_and_test av in
  if negb test then (atomic_inc av, - EBUSY) else (av, 0).

Definition kgpu_release (av : Z) : Z := 1.

(** Where a process is: outside, between the failed test and the increment,
    or in possession of the open device. *)
Inductive pc : Type :=
  | Outside
  | Retreating
  | Holding.

#[global] Instance pc_eq_dec : EqDecision pc.
Proof. solve_decision. Defined.

Record open_state : Type := mk_open {
  kgpudev_av : Z;
  procs : list pc
}.

Definition set_pc (s : open_state) (av : Z) (i : nat) (p : pc) : open_state :=
  mk_open av (<[i := p]> (procs s)).

Definition count (p : pc) (l : list pc) : nat := length (filter (fun x => x = p) l).

(** The accesses to the counter, one at a time. *)
Inductive step : open_state -> open_state -> Prop :=
  | step_dec s i :
      procs s !! i = Some Outside ->
      step s (set_pc s (atomic_dec_and_test (kgpudev_av s)).1 i
                (if (atomic_dec_and_test (kgpudev_av s)).2 then Holding else Retreating))
  | step_inc s i :
      procs s !! i = Some Retreating ->
      step s (set_pc s (atomic_inc (kgpudev_av s)) i Outside)
  | step_release s i :
      procs s !! i = Some Holding ->
      step s (set_pc s (kgpu_release (kgpudev_av s)) i Outside).

(** The steps in which no process closes the device while another one is
    between its failed test and its increment. *)
Definition quiet_step (s s' : open_state) : Prop :=
  step s s' /\
  (count Retreating (procs s) <> 0%nat -> (count Holding (procs s) <= count Holding (procs s'))%nat).

(** Whole calls of [kgpu_open] and [kgpu_release]. *)
Inductive seq_step : open_state -> open_state -> Prop :=
  | seq_open s i :
      procs s !! i = Some Outside ->
      seq_step s (set_pc s (kgpu_open (kgpudev_av s)).1 i
                    (if (kgpu_open (kgpudev_av s)).2 =? 0 then Holding else Outside))
  | seq_release s i :
      procs s !! i = Some Holding ->
      seq_step s (set_pc s (kgpu_release (kgpudev_av s)) i Outside).

(** [kgpudev_av = ATOMIC_INIT(1)], nobody has the device open. *)
Definition open_init (n : nat) : open_state := mk_open 1 (repeat Outside n).

(** ** Counting *)

Lemma count_insert p l i old new :
  l !! i = Some old ->
  (count p (<[i := new]> l) + (if decide (old = p) then 1 else 0) =
   count p l + (if decide (new = p) then 1 else 0))%nat.
Proof.
  intros Hi. unfold count. rewrite <- (take_drop_middle l i old Hi) at 2.
  rewrite insert_take_drop by (by eapply lookup_lt_Some).
  rewrite !filter_app, !filter_cons, !length_app.
  repeat case_decide; simpl; lia.
Qed.

Lemma count_init p n : p <> Outside -> count p (repeat Outside n) = 0%nat.
Proof.
  intros Hp. unfold count. induction n; cbn [repeat]; [done|].
  rewrite filter_cons, decide_False by congruence. done.
Qed.

(** The counter is one minus the processes that hold the device or are about
    to put back what they took. *)
Definition open_inv (s : open_state) : Prop :=
  kgpudev_av s = 1 - Z.of_nat (count Holding (procs s)) - Z.of_nat (count Retreating (procs s)) /\
  (count Holding (procs s) <= 1)%nat.

(** Replaces the counts after a change of one process by counts before it. *)
Ltac counts Hi :=
  repeat match goal with
  | |- context [count ?p (<[?i := ?new]> ?l)] =>
      let H := fresh "Hc" in
      pose proof (count_insert p l i _ new Hi) as H; simpl in H;
      generalize dependent (count p (<[i := new]> l)); intros
  end.

Lemma open_inv_init n : open_inv (open_init n).
Proof. unfold open_inv, open_init. simpl. rewrite !count_init by done. simpl. lia. Qed.

Lemma quiet_step_inv s s' : quiet_step s s' -> open_inv s -> open_inv s'.
Proof.
  intros [Hs Hq] [Hav Hle]. destruct Hs as [s i Hi | s i Hi | s i Hi];
    unfold open_inv, set_pc, atomic_dec_and_test, atomic_inc, kgpu_release in *; simpl in *.
  - destruct (Z.eqb_spec (kgpudev_av s - 1) 0); counts Hi; lia.
  - counts Hi; lia.
  - revert Hq. counts Hi. lia.
Qed.

Lemma seq_step_inv s s' : seq_step s s' ->
  open_inv s /\ count Retreating (procs s) = 0%nat ->
  open_inv s' /\ count Retreating (procs s') = 0%nat.
Proof.
  intros Hs [[Hav Hle] Hr]. destruct Hs as [s i Hi | s i Hi];
    unfold open_inv, set_pc, kgpu_open, atomic_dec_and_test, atomic_inc, kgpu_release in *; simpl in *.
  - destruct (Z.eqb_spec (kgpudev_av s - 1) 0); simpl; counts Hi; lia.
  - counts Hi. lia.
Qed.

(** As long as the calls of [kgpu_open] are not interrupted by other
    processes, at most one process has the device open, and an open fails
    with [-EBUSY] exactly when another process has it open. *)
Theorem open_exclusive_sequential n s :
  rtc seq_step (open_init n) s ->
  (count Holding (procs s) <= 1)%nat /\
  ((kgpu_open (kgpudev_av s)).2 = - EBUSY <-> count Holding (procs s) = 1%nat) /\
  ((kgpu_open (kgpudev_av s)).2 = 0 <-> count Holding (procs s) = 0%nat).
Proof.
  intros Hs. assert (open_inv s /\ count Retreating (procs s) = 0%nat) as [[Hav Hle] Hr].
  { refine (rtc_ind_r (fun s => open_inv s /\ count Retreating (procs s) = 0%nat) _ _ _ s Hs).
    - split; [apply open_inv_init | simpl; by apply count_init].
    - intros x y _ Hxy. by apply seq_step_inv. }
  split; [done|]. unfold kgpu_open, atomic_dec_and_test, EBUSY.
  destruct (Z.eqb_spec (kgpudev_av s - 1) 0); simpl; lia.
Qed.

Lemma open_exclusive_sequential_witness :
  rtc seq_step (open_init 2) (mk_open 0 [Holding; Outside]) /\ (kgpu_open 0).2 = - EBUSY.
Proof.
  assert (rtc seq_step (open_init 2) (mk_open 0 [Holding; Outside])) as H.
  { apply rtc_once. apply (seq_open (open_init 2) 0). reflexivity. }
  split; [exact H|]. apply (open_exclusive_sequential 2 _ H). reflexivity.
Defined.

(** With any interleaving of the accesses, the device has at most one
    holder provided no process closes it while another process is between the
    decrement and the increment of a failing open. *)
Theorem open_exclusive_quiet n s :
  rtc quiet_step (open_init n) s -> (count Holding (procs s) <= 1)%nat.
Proof.
  intros Hs. assert (open_inv s) as [_ H]; [|done].
  refine (rtc_ind_r open_inv _ _ _ s Hs); [apply open_inv_init|].
  intros x y _ Hxy. by apply quiet_step_inv.
Qed.

Lemma open_exclusive_quiet_witness :
  rtc quiet_step (open_init 2) (mk_open (-1) [Holding; Retreating]) /\
  (count Holding [Holding; Retreating] <= 1)%nat.
Proof.
  assert (rtc quiet_step (open_init 2) (mk_open (-1) [Holding; Retreating])) as H.
  { apply (rtc_l _ _ (mk_open 0 [Holding; Outside])).
    - split; [apply (step_dec (open_init 2) 0); reflexivity | vm_compute; lia].
    - apply rtc_once. split; [|vm_compute; lia].
      apply (step_dec (mk_open 0 [Holding; Outside]) 1). reflexivity. }
  split; [exact H|]. apply (open_exclusive_quiet 2 _ H).
Defined.

(** [kgpu_release] stores 1 instead of adding 1.  If it runs between the
    decrement and the increment of another process's failing open, the
    increment raises the counter beyond what is free: two processes can then
    hold the device at the same time. *)
Theorem open_race_two_holders :
  exists s, rtc step (open_init 4) s /\ count Holding (procs s) = 2%nat.
Proof.
  exists (mk_open 0 [Outside; Outside; Holding; Holding]). split; [|reflexivity].
  apply (rtc_l _ _ (mk_open 0 [Holding; Outside; Outside; Outside]));
    [apply (step_dec (open_init 4) 0); reflexivity|].
  apply (rtc_l _ _ (mk_open (-1) [Holding; Retreating; Outside; Outside]));
    [apply (step_dec (mk_open 0 [Holding; Outside; Outside; Outside]) 1); reflexivity|].
  apply (rtc_l _ _ (mk_open 1 [Outside; Retreating; Outside; Outside]));
    [apply (step_release (mk_open (-1) [Holding; Retreating; Outside; Outside]) 0); reflexivity|].
  apply (rtc_l _ _ (mk_open 0 [Outside; Retreating; Holding; Outside]));
    [apply (step_dec (mk_open 1 [Outside; Retreating; Outside; Outside]) 2); reflexivity|].
  apply (rtc_l _ _ (mk_open 1 [Outside; Outside; Holding; Outside]));
    [apply (step_inc (mk_open 0 [Outside; Retreating; Holding; Outside]) 1); reflexivity|].
  apply rtc_once, (step_dec (mk_open 1 [Outside; Outside; Holding; Outside]) 3). reflexivity.
Qed.

(** The same race can leave the counter at 2 with nobody holding the
    device; from there on every open fails with [-EBUSY] and leaves the
    counter at 2, so that the device can no longer be opened. *)
Theorem open_race_lockout :
  rtc step (open_init 2) (mk_open 2 [Outside; Outside]) /\
  kgpu_open 2 = (2, - EBUSY).
Proof.
  split; [|reflexivity].
  apply (rtc_l _ _ (mk_open 0 [Holding; Outside])); [apply (step_dec (open_init 2) 0); reflexivity|].
  apply (rtc_l _ _ (mk_open (-1) [Holding; Retreating]));
    [apply (step_dec (mk_open 0 [Holding; Outside]) 1); reflexivity|].
  apply (rtc_l _ _ (mk_open 1 [Outside; Retreating]));
    [apply (step_release (mk_open (-1) [Holding; Retreating]) 0); reflexivity|].
  apply rtc_once, (step_inc (mk_open 1 [Outside; Retreating]) 1). reflexivity.
Qed.
