(* ===== verification/Lifecycle.v ===== *)
(** * The life of the kernel module
      (src/kgpu/src/kernelSpace/main.c and include/kgpuConfiguration.h)

    The commands of [kgpu_ioctl], and [kgpu_init] and [kgpu_cleanup] with the
    resources of Linux they create and destroy.  The results of the calls
    into Linux are an argument of [kgpu_init]. *)

From Stdlib Require Import String.
From S2P Require Import Prelude KgpuDefs Log UnitAlloc MemPool MmapArea Device.

(** ** Commands

    A command packs a direction, a size, a type and a number into 32 bits
    (linux/ioctl.h). *)

Definition _IOC (dir type nr size : Z) : Z :=
  Z.lor (Z.lor (Z.shiftl dir 30) (Z.shiftl type 8)) (Z.lor nr (Z.shiftl size 16)).

Definition _IOC_DIR (cmd : Z) : Z := Z.land (Z.shiftr cmd 30) 3.

Definition _IOC_TYPE (cmd : Z) : Z := Z.land (Z.shiftr cmd 8) 255.

Definition _IOC_NR (cmd : Z) : Z := Z.land cmd 255.

Definition _IOC_SIZE (cmd : Z) : Z := Z.land (Z.shiftr cmd 16) 16383.

Definition _IOC_WRITE : Z := 1.

Definition _IOC_READ : Z := 2.

(** The character 'g', and the size of [struct kgpu_gpu_mem_info[1]]. *)
Definition KGPU_IOC_MAGIC : Z := 103.

Definition sizeof_mem_info : Z := 16.

Definition KGPU_IOC_SET_GPU_BUFS : Z := _IOC _IOC_WRITE KGPU_IOC_MAGIC 1 sizeof_mem_info.

Definition KGPU_IOC_GET_GPU_BUFS : Z := _IOC _IOC_READ KGPU_IOC_MAGIC 2 sizeof_mem_info.

Definition KGPU_IOC_SET_STOP : Z := _IOC 0 KGPU_IOC_MAGIC 3 0.

Definition KGPU_IOC_MAXNR : Z := 4.

(** The argument of VERIFY_WRITE or VERIFY_READ. *)
Inductive access : Type :=
  | VERIFY_READ
  | VERIFY_WRITE.

Section ioctl.
Context `{BitmapLib} (pt : page_tables).

(** [gb] is what [copy_from_user] finds at the argument. *)
Definition kgpu_ioctl (access_ok : access -> Z -> bool) (env : setup_env) (gb : kgpu_gpu_mem_info)
    (d : kgpu_dev) (cmd : Z) : outcome (kgpu_dev * Z) :=
  if negb (_IOC_TYPE cmd =? KGPU_IOC_MAGIC) then mret (d, - ENOTTY)
  else if KGPU_IOC_MAXNR <? _IOC_NR cmd then mret (d, - ENOTTY)
  else
    let err :=
      if truth (Z.land (_IOC_DIR cmd) _IOC_READ) then negb (access_ok VERIFY_WRITE (_IOC_SIZE cmd))
      else if truth (Z.land (_IOC_DIR cmd) _IOC_WRITE)
      then negb (access_ok VERIFY_READ (_IOC_SIZE cmd))
      else false in
    if (err : bool) then mret (d, - EFAULT)
    else if cmd =? KGPU_IOC_SET_GPU_BUFS then
      '(pool, e) ← set_gpu_mempool pt env gb (gmpool d);
      mret (set_gmpool d pool, e)
    else if cmd =? KGPU_IOC_GET_GPU_BUFS then mret (dump_gpu_bufs d)
    else if cmd =? KGPU_IOC_SET_STOP then mret (terminate_all_requests d)
    else mret (d, - ENOTTY).

End ioctl.

(** ** Module resources *)

(** A resource of Linux: never created, held, or given back. *)
Inductive resource : Type :=
  | RNone
  | RHeld
  | RReleased.

#[global] Instance resource_eq_dec : EqDecision resource.
Proof. solve_decision. Defined.

Definition release (r : resource) : outcome resource :=
  match r with
  | RHeld => mret RReleased
  | RReleased => Fault DoubleFree
  | RNone => Fault NullDeref
  end.

(** [if (cache) kmem_cache_destroy(cache)] *)
Definition release_cache (r : resource) : outcome resource :=
  match r with RNone => mret RNone | _ => release r end.

Record module_state : Type := mk_module {
  kgpudev : kgpu_dev;
  request_cache : resource;
  request_item_cache : resource;
  sync_call_data_cache : resource;
  dev_class : resource;
  chrdev_region : resource;
  cdev : resource;
  dev_node : resource
}.

(** The results of the calls: whether each cache could be created, the error
    of [class_create] and [device_create] (0 for success), and the return
    values of [alloc_chrdev_region] and [cdev_add]. *)
Record init_env : Type := mk_init_env {
  ie_request_cache : bool;
  ie_item_cache : bool;
  ie_sync_cache : bool;
  ie_class : Z;
  ie_chrdev : Z;
  ie_cdev : Z;
  ie_device : Z
}.

Definition kgpu_init (env : init_env) (m : module_state) : module_state * Z :=
  let d := kgpudev m in
  (* the device before the caches are created: the pool is cleared later *)
  let d := mk_dev KGPU_OK 0 [] [] (gmpool d) vma_zero (requests d) (req_free d) (sync_data d) in
  let m := mk_module d RNone (request_item_cache m) (sync_call_data_cache m) (dev_class m)
             (chrdev_region m) (cdev m) (dev_node m) in
  if negb (ie_request_cache env) then (m, - EFAULT)
  else
    let m := mk_module d RHeld RNone (sync_call_data_cache m) (dev_class m) (chrdev_region m)
               (cdev m) (dev_node m) in
    if negb (ie_item_cache env) then
      (mk_module d RReleased RNone (sync_call_data_cache m) (dev_class m) (chrdev_region m)
         (cdev m) (dev_node m), - EFAULT)
    else
      let m := mk_module d RHeld RHeld RNone (dev_class m) (chrdev_region m) (cdev m) (dev_node m) in
      if negb (ie_sync_cache env) then
        (mk_module d RReleased RReleased RNone (dev_class m) (chrdev_region m) (cdev m) (dev_node m),
         - EFAULT)
      else
        let d := set_gmpool d mempool_zero in
        if truth (ie_class env) then
          (mk_module d RHeld RHeld RHeld (dev_class m) (chrdev_region m) (cdev m) (dev_node m),
           ie_class env)
        else
          let result := ie_chrdev env in
          if result <? 0 then
            (mk_module d RHeld RHeld RHeld RHeld (chrdev_region m) (cdev m) (dev_node m), result)
          else
            let result := ie_cdev env in
            let c := if truth result then cdev m else RHeld in
            if truth (ie_device env) then
              (mk_module d RHeld RHeld RHeld RHeld RHeld c (dev_node m), ie_device env)
            else (mk_module d RHeld RHeld RHeld RHeld RHeld c RHeld, result).

Definition kgpu_cleanup (m : module_state) : outcome module_state :=
  let d := set_state (kgpudev m) KGPU_TERMINATED in
  node ← release (dev_node m);
  c ← release (cdev m);
  cls ← release (dev_class m);
  region ← release (chrdev_region m);
  c1 ← release_cache (request_cache m);
  c2 ← release_cache (request_item_cache m);
  c3 ← release_cache (sync_call_data_cache m);
  pool ← clear_gpu_mempool (gmpool d);
  v ← clean_vm (vm d);
  let d := set_gmpool d pool in
  let d := mk_dev (d_state d) (rid_sequence d) (reqs d) (rtdreqs d) (gmpool d) v (requests d)
             (req_free d) (sync_data d) in
  mret (mk_module d c1 c2 c3 cls region c node).

(** The entry points of the module, with the line that each prints when the
    log level is [level]. *)
Definition mod_init (level : Z) (env : init_env) (m : module_state) :
    outcome (text * (module_state * Z)) :=
  line ← kgpu_log level KGPU_LOG_PRINT (lit "main.c") 1212 (lit "mod_init")
           (lit "KGPU loaded" ++ newline) [];
  mret (line, kgpu_init env m).

Definition mod_exit (level : Z) (m : module_state) : outcome (text * module_state) :=
  m ← kgpu_cleanup m;
  line ← kgpu_log level KGPU_LOG_PRINT (lit "main.c") 1219 (lit "mod_exit")
           (lit "KGPU unloaded" ++ newline) [];
  mret (line, m).

(** ** Lemmas *)

Definition resources (m : module_state) : list resource :=
  [request_cache m; request_item_cache m; sync_call_data_cache m; dev_class m; chrdev_region m;
   cdev m; dev_node m].

Definition module_unloaded (m : module_state) : Prop := Forall (fun r => r = RNone) (resources m).

(** The results that the kernel functions can have: errors are negative. *)
Definition env_ok (env : init_env) : Prop :=
  ie_class env <= 0 /\ ie_chrdev env <= 0 /\ ie_cdev env <= 0 /\ ie_device env <= 0.

Definition env_succeeds (env : init_env) : bool :=
  ie_request_cache env && ie_item_cache env && ie_sync_cache env &&
  (ie_class env =? 0) && (ie_chrdev env =? 0) && (ie_cdev env =? 0) && (ie_device env =? 0).

(** An array that the module may free: not freed before. *)
Definition freeable {A} (p : kptr A) : Prop := p <> KFreed.

Lemma kfree_freeable {A} (p : kptr A) : freeable p -> exists p', kfree p = Ok p'.
Proof. destruct p; [by eexists | by eexists | done]. Qed.

(** ** Theorems *)

Section theorems.
Context `{L : BitmapLib} (pt : page_tables).

Lemma ioctl_set_bufs access_ok env gb d :
  kgpu_ioctl pt access_ok env gb d KGPU_IOC_SET_GPU_BUFS =
    if access_ok VERIFY_READ 16
    then '(pool, e) ← set_gpu_mempool pt env gb (gmpool d); Ok (set_gmpool d pool, e)
    else Ok (d, - EFAULT).
Proof.
  unfold kgpu_ioctl.
  change (_IOC_TYPE KGPU_IOC_SET_GPU_BUFS) with 103. change (_IOC_NR KGPU_IOC_SET_GPU_BUFS) with 1.
  change (_IOC_DIR KGPU_IOC_SET_GPU_BUFS) with 1. change (_IOC_SIZE KGPU_IOC_SET_GPU_BUFS) with 16.
  simpl. by destruct (access_ok VERIFY_READ 16).
Qed.

(** The three commands of the device do what they name when the argument is
    accessible, with [-EFAULT] when it is not (the stop command has none),
    and every other command is refused without a change of state. *)
Theorem ioctl_dispatch access_ok env gb d cmd :
  (cmd = KGPU_IOC_SET_GPU_BUFS ->
     kgpu_ioctl pt access_ok env gb d cmd =
       if access_ok VERIFY_READ 16
       then '(pool, e) ← set_gpu_mempool pt env gb (gmpool d); Ok (set_gmpool d pool, e)
       else Ok (d, - EFAULT)) /\
  (cmd = KGPU_IOC_GET_GPU_BUFS ->
     kgpu_ioctl pt access_ok env gb d cmd =
       Ok (d, if access_ok VERIFY_WRITE 16 then 0 else - EFAULT)) /\
  (cmd = KGPU_IOC_SET_STOP ->
     kgpu_ioctl pt access_ok env gb d cmd = Ok (set_state d KGPU_TERMINATED, 0)) /\
  (cmd <> KGPU_IOC_SET_GPU_BUFS -> cmd <> KGPU_IOC_GET_GPU_BUFS -> cmd <> KGPU_IOC_SET_STOP ->
     kgpu_ioctl pt access_ok env gb d cmd = Ok (d, - ENOTTY) \/
     kgpu_ioctl pt access_ok env gb d cmd = Ok (d, - EFAULT)).
Proof.
  split_and!.
  - intros ->. apply ioctl_set_bufs.
  - intros ->. unfold kgpu_ioctl.
    change (_IOC_TYPE KGPU_IOC_GET_GPU_BUFS) with 103. change (_IOC_NR KGPU_IOC_GET_GPU_BUFS) with 2.
    change (_IOC_DIR KGPU_IOC_GET_GPU_BUFS) with 2. change (_IOC_SIZE KGPU_IOC_GET_GPU_BUFS) with 16.
    simpl. by destruct (access_ok VERIFY_WRITE 16).
  - intros ->. done.
  - intros H1 H2 H3. unfold kgpu_ioctl.
    rewrite (proj2 (Z.eqb_neq _ _) H1), (proj2 (Z.eqb_neq _ _) H2), (proj2 (Z.eqb_neq _ _) H3).
    repeat case_match; auto.
Qed.

(** After the stop command no client gets a request into the queues: both
    calls return KGPU_TERMINATED and change nothing; but the requests that
    are queued or in flight stay there, without an answer. *)
Theorem stop_refuses_requests access_ok env gb d req data item :
  exists d', kgpu_ioctl pt access_ok env gb d KGPU_IOC_SET_STOP = Ok (d', 0) /\
    kgpu_call_async d' req item = (d', KGPU_TERMINATED) /\
    kgpu_call_sync_submit d' req data item = Ok (d', SyncReturn KGPU_TERMINATED) /\
    reqs d' = reqs d /\ rtdreqs d' = rtdreqs d /\ requests d' = requests d.
Proof. by exists (set_state d KGPU_TERMINATED). Qed.

End theorems.

(** The state after a successful [kgpu_init]: a fresh device. *)
Definition fresh_device (d : kgpu_dev) : Prop :=
  d_state d = KGPU_OK /\ rid_sequence d = 0 /\ reqs d = [] /\ rtdreqs d = [] /\
  gmpool d = mempool_zero /\ vm d = vma_zero.

(** C39: [kgpu_init] returns 0 exactly when all seven resources could be created.
    Then it holds all of them, and [kgpu_cleanup] gives each of them back
    exactly once, whatever pool and mapped area have been set up meanwhile. *)
Theorem init_cleanup_releases_all env m :
  module_unloaded m -> env_ok env ->
  ((kgpu_init env m).2 = 0 <-> env_succeeds env = true) /\
  (env_succeeds env = true ->
     fresh_device (kgpudev (kgpu_init env m).1) /\
     resources (kgpu_init env m).1 = repeat RHeld 7 /\
     forall d, freeable (pages (gmpool d)) -> freeable (bitmap (gmpool d)) ->
       freeable (alloc_sz (gmpool d)) -> freeable (v_alloc_sz (vm d)) -> freeable (v_bitmap (vm d)) ->
       exists m', kgpu_cleanup (mk_module d RHeld RHeld RHeld RHeld RHeld RHeld RHeld) = Ok m' /\
         resources m' = repeat RReleased 7 /\ d_state (kgpudev m') = KGPU_TERMINATED).
Proof.
  intros Hun (E1 & E2 & E3 & E4). split.
  - unfold kgpu_init, env_succeeds, truth. destruct env as [[] [] [] c r a n]; simpl in *; try done.
    destruct (Z.eqb_spec c 0); simpl; [|naive_solver].
    destruct (Z.ltb_spec r 0); simpl.
    { rewrite (proj2 (Z.eqb_neq r 0)) by lia. split; [lia | done]. }
    assert (r = 0) as -> by lia. simpl.
    destruct (Z.eqb_spec n 0); simpl; [|rewrite andb_false_r; naive_solver].
    rewrite andb_true_r. split; [intros ->; done | by intros ->%Z.eqb_eq].
  - unfold env_succeeds. rewrite !andb_true_iff. intros ((((((H1 & H2) & H3) & H4) & H5) & H6) & H7).
    apply Z.eqb_eq in H4, H5, H6, H7. unfold kgpu_init. rewrite H1, H2, H3, H4, H5, H6, H7. simpl.
    split; [done|]. split; [done|]. intros d F1 F2 F3 F4 F5. unfold kgpu_cleanup, clear_gpu_mempool, clean_vm.
    simpl. destruct (kfree_freeable _ F1) as [p1 ->], (kfree_freeable _ F2) as [p2 ->],
      (kfree_freeable _ F3) as [p3 ->]. simpl.
    destruct (kfree_freeable _ F4) as [p4 ->], (kfree_freeable _ F5) as [p5 ->]. simpl.
    eexists. split; [done|]. done.
Qed.

(** When [kgpu_init] fails after its caches were created it leaves them
    behind: the module is not loaded, [kgpu_cleanup] never runs, and the
    three caches (and the device class, when only the later calls failed) stay
    allocated. *)
Theorem init_failure_leaks env m :
  module_unloaded m -> env_ok env ->
  ie_request_cache env = true -> ie_item_cache env = true -> ie_sync_cache env = true ->
  (kgpu_init env m).2 <> 0 ->
  request_cache (kgpu_init env m).1 = RHeld /\ request_item_cache (kgpu_init env m).1 = RHeld /\
  sync_call_data_cache (kgpu_init env m).1 = RHeld /\
  (ie_class env = 0 -> dev_class (kgpu_init env m).1 = RHeld).
Proof.
  intros _ _ H1 H2 H3. unfold kgpu_init, truth. rewrite H1, H2, H3. simpl.
  repeat case_match; naive_solver.
Qed.

(** *** Witnesses *)

Definition module_zero : module_state :=
  mk_module dev_init RNone RNone RNone RNone RNone RNone RNone.

Definition env_good : init_env := mk_init_env true true true 0 0 0 0.

Lemma init_cleanup_releases_all_witness :
  (kgpu_init env_good module_zero).2 = 0 /\ resources (kgpu_init env_good module_zero).1 = repeat RHeld 7.
Proof.
  destruct (init_cleanup_releases_all env_good module_zero) as [[_ H1] H2];
    [repeat constructor | unfold env_ok; simpl; lia |].
  split; [apply H1; reflexivity | apply H2; reflexivity].
Defined.

(** The region of device numbers is exhausted. *)
Lemma init_failure_leaks_witness :
  (kgpu_init (mk_init_env true true true 0 (- EBUSY) 0 0) module_zero).2 = - EBUSY /\
  dev_class (kgpu_init (mk_init_env true true true 0 (- EBUSY) 0 0) module_zero).1 = RHeld.
Proof.
  split; [reflexivity|].
  apply (init_failure_leaks (mk_init_env true true true 0 (- EBUSY) 0 0) module_zero);
    try reflexivity; [repeat constructor | unfold env_ok, EBUSY; simpl; lia | discriminate].
Defined.
