(* ===== verification/FileOps.v ===== *)
(** * The table of file operations
      ([kgpu_ops], src/kgpu/src/kernelSpace/main.c)

    The driver's handlers as Linux calls them: by the process that has the
    device open, through the table [kgpu_ops].  A session is the module, the
    counter of [kgpu_open], the processes that have a descriptor, and those
    whose open failed its test and has not yet put the counter back. *)

From S2P Require Import Prelude KgpuDefs Layout UnitAlloc MemPool MmapArea OpenClose Lifecycle Device Module.

(** The fields of [struct file_operations] that the driver sets. *)
Record file_operations : Type := mk_fops {
  fo_read : kgpu_dev -> Z -> bool -> bool -> outcome (kgpu_dev * read_result);
  fo_write : kgpu_dev -> Z -> kgpu_ku_response -> outcome (kgpu_dev * Z);
  fo_poll : kgpu_dev -> Z;
  fo_unlocked_ioctl : (access -> Z -> bool) -> setup_env -> kgpu_gpu_mem_info -> kgpu_dev -> Z ->
    outcome (kgpu_dev * Z);
  fo_open : Z -> Z * Z;
  fo_release : Z -> Z;
  fo_mmap : option (list Z) -> option (list bool) -> vm_area_struct -> kgpu_vma -> outcome (kgpu_vma * Z)
}.

(** The error number of a call without a descriptor. *)
Definition EBADF : Z := 9.

Section table.
Context `{BitmapLib} (pt : page_tables).

Definition kgpu_ops : file_operations :=
  mk_fops kgpu_read (kgpu_write quiet_callback) kgpu_poll (kgpu_ioctl pt) kgpu_open kgpu_release kgpu_mmap.

(** ** System calls *)

(** The calls of a process, with what Linux answers to the handlers. *)
Inductive call : Type :=
  | COpen
  | CClose
  | CRead (c : Z) (nonblock signal : bool)
  | CWrite (count : Z) (resp : kgpu_ku_response)
  | CPoll
  | CIoctl (access_ok : access -> Z -> bool) (env : setup_env) (gb : kgpu_gpu_mem_info) (cmd : Z)
  | CMmap (sizes : option (list Z)) (bitmap : option (list bool)) (v : vm_area_struct).

Record session : Type := mk_session {
  ss_module : module;
  ss_av : Z;
  ss_users : gset Z;
  ss_retreating : gset Z
}.

Definition set_module (s : session) (d : kgpu_dev) : session :=
  mk_session (set_mdev (ss_module s) d) (ss_av s) (ss_users s) (ss_retreating s).

(** A call on an open descriptor. *)
Definition handler (ops : file_operations) (c : call) (s : session) : outcome (session * Z) :=
  let d := m_dev (ss_module s) in
  match c with
  | CRead n nonblock signal =>
      '(d, r) ← fo_read ops d n nonblock signal;
      mret (set_module s d, match r with ReadReturn ret _ _ => ret | ReadSleep => 0 end)
  | CWrite n resp => '(d, r) ← fo_write ops d n resp; mret (set_module s d, r)
  | CPoll => mret (s, fo_poll ops d)
  | CIoctl access_ok env gb cmd =>
      '(d, r) ← fo_unlocked_ioctl ops access_ok env gb d cmd; mret (set_module s d, r)
  | CMmap sizes bitmap v =>
      '(a, r) ← fo_mmap ops sizes bitmap v (vm d); mret (set_module s (set_area d a), r)
  | COpen | CClose => mret (s, 0)
  end.

Definition sys_call (ops : file_operations) (p : Z) (c : call) (s : session) : outcome (session * Z) :=
  match c with
  | COpen =>
      let '(av, r) := fo_open ops (ss_av s) in
      mret (mk_session (ss_module s) av (if r =? 0 then {[p]} ∪ ss_users s else ss_users s)
              (ss_retreating s), r)
  | _ =>
      if decide (p ∈ ss_users s) then
        match c with
        | CClose => mret (mk_session (ss_module s) (fo_release ops (ss_av s)) (ss_users s ∖ {[p]})
                            (ss_retreating s), 0)
        | _ => handler ops c s
        end
      else mret (s, - EBADF)
  end.

(** The two accesses of [kgpu_open] to the counter, which other calls may come
    between: the decrement with its test, and after a failed test the
    increment. *)
Definition open_test (p : Z) (s : session) : session :=
  let '(av, test) := atomic_dec_and_test (ss_av s) in
  if test then mk_session (ss_module s) av ({[p]} ∪ ss_users s) (ss_retreating s)
  else mk_session (ss_module s) av (ss_users s) ({[p]} ∪ ss_retreating s).

Definition open_retreat (p : Z) (s : session) : session :=
  mk_session (ss_module s) (atomic_inc (ss_av s)) (ss_users s) (ss_retreating s ∖ {[p]}).

(** In sequence they are the open of the table. *)
Lemma open_parts p s :
  p ∉ ss_retreating s ->
  sys_call kgpu_ops p COpen s =
    if (atomic_dec_and_test (ss_av s)).2 then Ok (open_test p s, 0)
    else Ok (open_retreat p (open_test p s), - EBUSY).
Proof.
  intros Hp. unfold sys_call, open_retreat, open_test, atomic_dec_and_test. simpl. unfold kgpu_open.
  simpl. destruct (ss_av s - 1 =? 0); simpl; [done|]. do 3 f_equal. set_solver.
Qed.

(** The arguments are values of their C types. *)
Definition call_typed (c : call) : Prop :=
  match c with
  | CRead n _ _ => 0 <= n < 2 ^ 63
  | CWrite n resp => n < 2 ^ 63 /\ ku_response_typed resp
  | _ => True
  end.

(** Processes make calls, and clients of the module use it, in any order.  A
    process closes the device only while no open is between its two accesses
    (OpenClose shows what happens otherwise). *)
Inductive session_step (s : session) : session -> Prop :=
  | SS_open p : p ∉ ss_users s -> p ∉ ss_retreating s -> session_step s (open_test p s)
  | SS_retreat p : p ∈ ss_retreating s -> session_step s (open_retreat p s)
  | SS_call p c s' r :
      call_typed c -> c <> COpen -> p ∉ ss_retreating s -> (c = CClose -> ss_retreating s = ∅) ->
      sys_call kgpu_ops p c s = Ok (s', r) -> session_step s s'
  | SS_client m : step (ss_module s) m -> m_drawn m < 2 ^ 31 ->
      session_step s (mk_session m (ss_av s) (ss_users s) (ss_retreating s)).

Definition session_init : session := mk_session (mk_module dev_init ∅ 0) 1 ∅ ∅.

(** ** The invariant *)

(** The counter is one minus the processes that have the device or have yet
    to put back what they took; no two processes have it. *)
Record session_inv (s : session) : Prop := {
  si_module : reachable (ss_module s);
  si_av : ss_av s = 1 - Z.of_nat (size (ss_users s)) - Z.of_nat (size (ss_retreating s));
  si_users : (size (ss_users s) <= 1)%nat
}.

Lemma reach_dev s d : reachable (ss_module s) -> step (ss_module s) (set_mdev (ss_module s) d) ->
  reachable (ss_module (set_module s d)).
Proof.
  intros Hr Hs. apply (R_step (ss_module s)); [done..|]. simpl.
  pose proof (mi_ids _ (reachable_inv _ Hr)) as Hi. pose proof (io_pos _ _ Hi). lia.
Qed.

(** The commands of [kgpu_ioctl] change the memory or the state of the module. *)
Lemma ioctl_step m access_ok env gb cmd d r :
  kgpu_ioctl pt access_ok env gb (m_dev m) cmd = Ok (d, r) -> step m (set_mdev m d).
Proof.
  assert (Hsame : step m (set_mdev m (m_dev m))).
  { pose proof (S_memory m (gmpool (m_dev m)) (vm (m_dev m))) as Hm.
    by destruct m as [[] ? ?]. }
  unfold kgpu_ioctl, dump_gpu_bufs, terminate_all_requests. intros E.
  destruct (negb _) in E; [by injection E as <- _|].
  destruct (KGPU_IOC_MAXNR <? _) in E; [by injection E as <- _|]. cbv zeta in E.
  match type of E with (if ?b then _ else _) = _ => destruct b end; [by injection E as <- _|].
  destruct (cmd =? KGPU_IOC_SET_GPU_BUFS) in E.
  { apply bind_ok in E as ([pool e] & _ & E). injection E as <- _.
    pose proof (S_memory m pool (vm (m_dev m))) as Hm. by destruct m as [[] ? ?]. }
  destruct (cmd =? KGPU_IOC_GET_GPU_BUFS) in E; [by injection E as <- _|].
  destruct (cmd =? KGPU_IOC_SET_STOP) in E; injection E as <- _; [exact (S_stop m) | done].
Qed.

Lemma handler_inv c s s' r :
  call_typed c -> reachable (ss_module s) -> handler kgpu_ops c s = Ok (s', r) ->
  reachable (ss_module s') /\ ss_av s' = ss_av s /\ ss_users s' = ss_users s /\
  ss_retreating s' = ss_retreating s.
Proof.
  intros Hc Hr E. destruct c; simpl in *; try (injection E as <- _; done);
    apply bind_ok in E as ([d e] & E1 & E); injection E as <- _; (split; [|done]);
    apply reach_dev; try done.
  - by eapply S_read.
  - eapply S_write; [apply Hc..| done].
  - by eapply ioctl_step.
  - pose proof (S_memory (ss_module s) (gmpool (m_dev (ss_module s))) d) as Hm.
    destruct s as [[[] ? ?] ? ? ?]. done.
Qed.

Lemma open_test_av s :
  session_inv s ->
  (atomic_dec_and_test (ss_av s)).2 = bool_decide (ss_users s = ∅ /\ ss_retreating s = ∅).
Proof.
  intros [_ Ea _]. simpl. rewrite Ea. case_bool_decide as Hd.
  - destruct Hd as [-> ->]. rewrite !size_empty. by apply Z.eqb_eq.
  - apply Z.eqb_neq. intros E. apply Hd. rewrite <- !(leibniz_equiv_iff (A := gset Z)).
    rewrite <- !size_empty_iff. lia.
Qed.

(** An open that runs to its end without another access between. *)
Lemma open_call p s :
  session_inv s -> p ∉ ss_retreating s ->
  sys_call kgpu_ops p COpen s =
    if decide (ss_users s = ∅ /\ ss_retreating s = ∅)
    then Ok (mk_session (ss_module s) 0 {[p]} ∅, 0) else Ok (s, - EBUSY).
Proof.
  intros Hi Hp. rewrite open_parts, open_test_av by done. unfold open_retreat, open_test.
  pose proof (open_test_av s Hi) as E. simpl in E. simpl. rewrite E.
  case_bool_decide as Hd; [rewrite decide_True by done | rewrite decide_False by done].
  - destruct Hd as [Eu Er]. rewrite Eu, Er, union_empty_r_L. apply Z.eqb_eq in E. by rewrite E.
  - unfold atomic_inc. simpl. f_equal. f_equal. destruct s; simpl in *. f_equal; [lia | set_solver].
Qed.

(** A call of any other kind, by the holder or by another process. *)
Lemma other_call p c s :
  c <> COpen -> c <> CClose ->
  sys_call kgpu_ops p c s = if decide (p ∈ ss_users s) then handler kgpu_ops c s else Ok (s, - EBADF).
Proof. by destruct c. Qed.

Lemma close_call p s :
  sys_call kgpu_ops p CClose s =
    if decide (p ∈ ss_users s)
    then Ok (mk_session (ss_module s) 1 (ss_users s ∖ {[p]}) (ss_retreating s), 0)
    else Ok (s, - EBADF).
Proof. done. Qed.

Lemma open_test_inv p s :
  session_inv s -> p ∉ ss_users s -> p ∉ ss_retreating s -> session_inv (open_test p s).
Proof.
  intros Hi Hu Hr. pose proof (open_test_av s Hi) as E. destruct Hi as [Hm Ea Hl].
  unfold open_test. simpl in E |- *. rewrite E. case_bool_decide as Hd; split; simpl; try done.
  - destruct Hd as [-> ->]. rewrite union_empty_r_L, size_singleton, size_empty. apply Z.eqb_eq in E. lia.
  - destruct Hd as [-> _]. by rewrite union_empty_r_L, size_singleton.
  - rewrite size_union, size_singleton by set_solver. lia.
Qed.

Lemma open_retreat_inv p s : session_inv s -> p ∈ ss_retreating s -> session_inv (open_retreat p s).
Proof.
  intros [Hm Ea Hl] Hp. split; simpl; try done. unfold atomic_inc. rewrite Ea.
  rewrite (size_difference _ {[p]}) by set_solver. rewrite size_singleton.
  assert (size (ss_retreating s) <> 0%nat) by (apply size_non_empty_iff; set_solver). lia.
Qed.

Lemma session_step_inv s s' : session_inv s -> session_step s s' -> session_inv s'.
Proof.
  intros Hi [p Hu Hr | p Hp | p c s1 r Hc Ho Hr Hq E | m Hm Hd].
  - by apply open_test_inv.
  - by apply open_retreat_inv.
  - assert (c = CClose \/ c <> CClose) as [->|Hcl] by (destruct c; auto).
    + rewrite close_call in E. destruct (decide _) as [Hp|]; injection E as <- _; [|done].
      destruct Hi as [Hm Ea Hl].
      assert (size (ss_users s ∖ {[p]}) = 0%nat) as E0.
      { rewrite size_difference, size_singleton by set_solver. lia. }
      split; simpl; [done | rewrite (Hq eq_refl), E0, size_empty; lia | lia].
    + rewrite other_call in E by done. destruct (decide _) as [Hp|]; [|by injection E as <- _].
      apply handler_inv in E as (Hm & Ea & Eu & Er); [|done|apply Hi].
      split; [done | rewrite Ea, Eu, Er | rewrite Eu]; apply Hi.
  - split; [|apply Hi..]. simpl. apply (R_step (ss_module s)); [apply Hi | exact Hm | exact Hd].
Qed.

Lemma sessions_inv s : rtc session_step session_init s -> session_inv s.
Proof.
  refine (rtc_ind_r session_inv session_init _ _ s).
  - split; [exact R_init | by vm_compute | vm_compute; lia].
  - intros x y _ Hxy Hx. by eapply session_step_inv.
Qed.

(** C38: whatever processes call on the device and clients do in the kernel,
    in any order, the two accesses of an open to the counter taken apart,
    provided no process closes the device while another process's open is
    between its failed test and its increment: the module is in a state that
    the theorems about it cover; at most one process has the device open; an
    open that is not interrupted succeeds exactly when no process has the
    device and no other open is about to fail, and is refused with [-EBUSY]
    without any effect otherwise; a call without a descriptor has no effect;
    and the reads (of 0 bytes too), writes and polls of the process that has
    the device do not fault. *)
Theorem sessions_safe s :
  rtc session_step session_init s ->
  reachable (ss_module s) /\
  (forall p p', p ∈ ss_users s -> p' ∈ ss_users s -> p = p') /\
  (forall p, p ∉ ss_retreating s -> sys_call kgpu_ops p COpen s =
     if decide (ss_users s = ∅ /\ ss_retreating s = ∅)
     then Ok (mk_session (ss_module s) 0 {[p]} ∅, 0) else Ok (s, - EBUSY)) /\
  (forall p c, p ∉ ss_users s -> c <> COpen -> sys_call kgpu_ops p c s = Ok (s, - EBADF)) /\
  (forall p c, p ∈ ss_users s -> call_typed c ->
     match c with
     | COpen | CIoctl _ _ _ _ | CMmap _ _ _ => True
     | _ => is_ok (sys_call kgpu_ops p c s) = true
     end).
Proof.
  intros Hi%sessions_inv. split_and!; [apply Hi | | by intros; apply open_call | |].
  - intros p p' Hp Hp'. eapply (size_singleton_inv (ss_users s)); [|done|done].
    pose proof (si_users _ Hi). assert (size (ss_users s) <> 0%nat) by (apply size_non_empty_iff; set_solver). lia.
  - intros p c Hp Hc. destruct c; try done; unfold sys_call; by rewrite decide_False.
  - intros p c Hp Hc. pose proof (inv_no_fault _ (reachable_inv _ (si_module _ Hi))) as [Hr Hw].
    destruct c; try done; unfold sys_call; rewrite decide_True by done; try done; simpl.
    + specialize (Hr c nonblock signal). by destruct (kgpu_read _ _ _ _) as [[]|].
    + specialize (Hw count resp (proj1 Hc) (proj2 Hc)). by destruct (kgpu_write _ _ _ _) as [[]|].
Qed.

End table.

(** One process has opened the device, and another one's open has failed its
    test: a third one is refused. *)
Definition session_open : session := mk_session (mk_module dev_init ∅ 0) (-1) {[7]} {[8]}.

Lemma sessions_safe_witness :
  (sys_call (kgpu_ops pt_example) 9 COpen session_open) = Ok (session_open, - EBUSY).
Proof.
  destruct (sessions_safe pt_example session_open) as (_ & _ & Ho & _).
  - apply (rtc_l _ _ (mk_session (mk_module dev_init ∅ 0) 0 {[7]} ∅)).
    + exact (SS_open pt_example session_init 7 (not_elem_of_empty 7) (not_elem_of_empty 7)).
    + apply rtc_once.
      assert (8 ∉ ({[7]} : gset Z)) as H8 by set_solver by done.
      exact (SS_open pt_example (mk_session (mk_module dev_init ∅ 0) 0 {[7]} ∅) 8 H8 (not_elem_of_empty 8)).
  - exact (Ho 9 ltac:(set_solver by done)).
Defined.
