(* ===== verification/GpuOps.v ===== *)
(** * GPU memory and streams (src/kgpu/src/gpuSpace/openCLOperations.c)

    The operations of the GPU back end that the helper calls for a request:
    translating its host pointers to device pointers and pinning the buffers
    that are not pinned already, and handing out one of the eight streams.
    The calls of [gpu_pin_mem] and [gpu_unpin_mem] are recorded in the state,
    since the OpenCL file leaves their bodies empty.

    The CUDA file (cudaOperations.cu) has its own copies of these functions,
    with another device base, a real stream query and the range merging of
    CudaRanges; [GpuBackend] is the interface the helper uses, and both files
    are instances of it. *)

From S2P Require Import Prelude KgpuDefs Ranges CudaRanges.

(** ** Data *)

(** [struct kgpu_service_request] *)
Record kgpu_service_request : Type := mk_sr {
  sr_id : Z;
  sr_hin : Z;
  sr_hout : Z;
  sr_hdata : Z;
  sr_din : Z;
  sr_dout : Z;
  sr_ddata : Z;
  sr_insize : Z;
  sr_outsize : Z;
  sr_datasize : Z;
  sr_errcode : Z;
  sr_s : Z;
  sr_block_x : Z;
  sr_block_y : Z;
  sr_grid_x : Z;
  sr_grid_y : Z;
  sr_state : Z;
  sr_stream_id : Z;
  sr_stream : Z
}.

#[global] Instance service_request_eq_dec : EqDecision kgpu_service_request.
Proof. solve_decision. Defined.

(** The states of a request. *)
Definition KGPU_REQ_INIT : Z := 1.

Definition KGPU_REQ_MEM_DONE : Z := 2.

Definition KGPU_REQ_PREPARED : Z := 3.

Definition KGPU_REQ_RUNNING : Z := 4.

Definition KGPU_REQ_POST_EXEC : Z := 5.

Definition KGPU_REQ_DONE : Z := 6.

Definition MAX_STREAM_NR : Z := 8.

(** Assignments to fields of a request. *)
Definition with_device (q : kgpu_service_request) (din dout ddata : Z) : kgpu_service_request :=
  mk_sr (sr_id q) (sr_hin q) (sr_hout q) (sr_hdata q) din dout ddata (sr_insize q) (sr_outsize q)
    (sr_datasize q) (sr_errcode q) (sr_s q) (sr_block_x q) (sr_block_y q) (sr_grid_x q)
    (sr_grid_y q) (sr_state q) (sr_stream_id q) (sr_stream q).

Definition with_stream (q : kgpu_service_request) (i stream : Z) : kgpu_service_request :=
  mk_sr (sr_id q) (sr_hin q) (sr_hout q) (sr_hdata q) (sr_din q) (sr_dout q) (sr_ddata q)
    (sr_insize q) (sr_outsize q) (sr_datasize q) (sr_errcode q) (sr_s q) (sr_block_x q)
    (sr_block_y q) (sr_grid_x q) (sr_grid_y q) (sr_state q) i stream.

Definition with_status (q : kgpu_service_request) (state errcode : Z) : kgpu_service_request :=
  mk_sr (sr_id q) (sr_hin q) (sr_hout q) (sr_hdata q) (sr_din q) (sr_dout q) (sr_ddata q)
    (sr_insize q) (sr_outsize q) (sr_datasize q) errcode (sr_s q) (sr_block_x q) (sr_block_y q)
    (sr_grid_x q) (sr_grid_y q) state (sr_stream_id q) (sr_stream q).

Inductive pin_call : Type :=
  | PinMem (p sz : Z)
  | UnpinMem (p : Z).

Record gpu_state : Type := mk_gpu {
  streams : list Z;
  streamuses : list Z;
  pin_calls : list pin_call
}.

Definition set_uses (g : gpu_state) (u : list Z) : gpu_state := mk_gpu (streams g) u (pin_calls g).

Definition log_pin (g : gpu_state) (c : pin_call) : gpu_state :=
  mk_gpu (streams g) (streamuses g) (pin_calls g ++ [c]).

(** ** Pinning *)

Definition gpu_pin_mem (g : gpu_state) (p sz : Z) : outcome gpu_state :=
  mret (log_pin g (PinMem p (round_up sz PAGE_SIZE))).

Definition gpu_unpin_mem (g : gpu_state) (p : Z) : outcome gpu_state :=
  mret (log_pin g (UnpinMem p)).

(** The local arrays [pinAddress] and [pinSize], and [npins]. *)
Definition pin_arrays : Type := (list Z * list Z) * Z.

Definition no_pins : pin_arrays := (([0; 0; 0], [0; 0; 0]), 0).

(** [pinAddress[npins] = a; pinSize[npins] = s; npins++] *)
Definition add_pin (a : pin_arrays) (addr sz : Z) : pin_arrays :=
  let '((ad, szs), n) := a in
  ((<[Z.to_nat n := addr]> ad, <[Z.to_nat n := sz]> szs), n + 1).

(** [for (i = 0; i < npins; i++)] over the first entries of the arrays. *)
Definition for_pins {G} (f : G -> Z -> Z -> outcome G) (g : G) (ad sz : list Z) (n : Z) :
    outcome G :=
  foldl (fun g i => g ← g; f g (ad !!! i) (sz !!! i)) (Ok g) (seq 0 (Z.to_nat n)).

(** ** Device memory

    [hb] and [hv] are the globals [hostbuf] and [hostvma] of the helper,
    [dbuf] and [dvma] the device addresses of the two GPU buffers.  The body
    is the same text in both back ends; [pin] and [unpin] are their own. *)

Section device_mem.
Context {G : Type} (pin : G -> Z -> Z -> outcome G) (unpin : G -> Z -> outcome G).

(** The ranges [gpu_alloc_device_mem] collects, with the device pointers. *)
Definition alloc_pointers (dbuf dvma : Z) (hb hv : kgpu_gpu_mem_info)
    (sreq : kgpu_service_request) : kgpu_service_request * pin_arrays :=
  let '(din, pins) :=
    if ADDR_WITHIN (sr_hin sreq) (mi_uva hb) (mi_size hb)
    then (ADDR_REBASE dbuf (mi_uva hb) (sr_hin sreq), no_pins)
    else (ADDR_REBASE dvma (mi_uva hv) (sr_hin sreq),
          add_pin no_pins (sr_hin sreq) (sr_insize sreq)) in
  let '(dout, pins) :=
    if ADDR_WITHIN (sr_hout sreq) (mi_uva hb) (mi_size hb)
    then (ADDR_REBASE dbuf (mi_uva hb) (sr_hout sreq), pins)
    else (ADDR_REBASE dvma (mi_uva hv) (sr_hout sreq),
          add_pin pins (sr_hout sreq) (sr_outsize sreq)) in
  let '(ddata, pins) :=
    if ADDR_WITHIN (sr_hdata sreq) (mi_uva hb) (mi_size hb)
    then (ADDR_REBASE dbuf (mi_uva hb) (sr_hdata sreq), pins)
    else if ADDR_WITHIN (sr_hdata sreq) (mi_uva hv) (mi_size hv)
    then (ADDR_REBASE dvma (mi_uva hv) (sr_hdata sreq),
          add_pin pins (sr_hdata sreq) (sr_datasize sreq))
    else (sr_ddata sreq, pins) in
  (with_device sreq din dout ddata, pins).

Definition alloc_device_mem_at (dbuf dvma : Z) (g : G) (hb hv : kgpu_gpu_mem_info)
    (sreq : kgpu_service_request) : outcome (G * kgpu_service_request * Z) :=
  let '(sreq, ((ad, sz), npins)) := alloc_pointers dbuf dvma hb hv sreq in
  let '((ad, sz), npins) := __merge_ranges ad sz npins in
  g ← for_pins pin g ad sz npins;
  mret (g, sreq, 0).

(** The ranges [gpu_free_device_mem] collects. *)
Definition free_pointers (hv : kgpu_gpu_mem_info) (sreq : kgpu_service_request) : pin_arrays :=
  let within p := ADDR_WITHIN p (mi_uva hv) (mi_size hv) in
  let pins := no_pins in
  let pins := if within (sr_hin sreq) then add_pin pins (sr_hin sreq) (sr_insize sreq)
              else pins in
  let pins := if within (sr_hout sreq) then add_pin pins (sr_hout sreq) (sr_outsize sreq)
              else pins in
  if within (sr_hdata sreq) then add_pin pins (sr_hdata sreq) (sr_datasize sreq) else pins.

Definition free_device_mem_at (g : G) (hv : kgpu_gpu_mem_info) (sreq : kgpu_service_request) :
    outcome (G * kgpu_service_request) :=
  let sreq := with_device sreq NULL NULL NULL in
  let '((ad, sz), npins) := free_pointers hv sreq in
  let '((ad, sz), npins) := __merge_ranges ad sz npins in
  g ← for_pins (fun g p _ => unpin g p) g ad sz npins;
  mret (g, sreq).

End device_mem.

(** The OpenCL function asks for the device addresses with a null result
    pointer, so both of its local copies stay 0. *)
Definition gpu_alloc_device_mem : gpu_state -> kgpu_gpu_mem_info -> kgpu_gpu_mem_info ->
    kgpu_service_request -> outcome (gpu_state * kgpu_service_request * Z) :=
  alloc_device_mem_at gpu_pin_mem 0 0.

Definition gpu_free_device_mem : gpu_state -> kgpu_gpu_mem_info -> kgpu_service_request ->
    outcome (gpu_state * kgpu_service_request) :=
  free_device_mem_at gpu_unpin_mem.

(** ** Streams *)

Definition gpu_get_stream (g : gpu_state) (pStreamId : Z) : outcome Z :=
  if (pStreamId <? 0) || (MAX_STREAM_NR <=? pStreamId) then mret 0
  else array_get (streams g) pStreamId.

(** The loop of [gpu_alloc_stream] from index [i], with [k] rounds left. *)
Fixpoint alloc_stream_loop (k : nat) (i : Z) (g : gpu_state) (sreq : kgpu_service_request) :
    outcome (gpu_state * kgpu_service_request * Z) :=
  match k with
  | O => mret (g, sreq, 1)
  | S k =>
      u ← array_get (streamuses g) i;
      if negb (truth u) then
        uses ← array_set (streamuses g) i 1;
        s ← array_get (streams g) i;
        mret (set_uses g uses, with_stream sreq i s, 0)
      else alloc_stream_loop k (i + 1) g sreq
  end.

Definition gpu_alloc_stream (g : gpu_state) (sreq : kgpu_service_request) :
    outcome (gpu_state * kgpu_service_request * Z) :=
  alloc_stream_loop (Z.to_nat MAX_STREAM_NR) 0 g sreq.

Definition gpu_free_stream (g : gpu_state) (sreq : kgpu_service_request) : outcome gpu_state :=
  if (0 <=? sr_stream_id sreq) && (sr_stream_id sreq <? MAX_STREAM_NR) then
    uses ← array_set (streamuses g) (sr_stream_id sreq) 0;
    mret (set_uses g uses)
  else mret g.

(** The OpenCL check never looks at its queue, which the callers leave
    uninitialised: the translation of the CUDA query is missing. *)
Definition __check_stream_done (g : gpu_state) : gpu_state * Z := (g, 0).

Definition gpu_execution_finished (g : gpu_state) (sreq : kgpu_service_request) :
    outcome (gpu_state * Z) :=
  mret (__check_stream_done g).

Definition gpu_post_finished (g : gpu_state) (sreq : kgpu_service_request) :
    outcome (gpu_state * Z) :=
  mret (__check_stream_done g).

(** ** The CUDA back end (src/kgpu/src/gpuSpace/cudaOperations.cu)

    The driver's calls are parameters; [csc] ends the process when one of
    them fails. *)

Inductive cudaError : Type :=
  | cudaSuccess
  | cudaErrorNotReady
  | cudaErrorOther.

Record cuda_state (C : Type) : Type := mk_cuda {
  cu_gpu : gpu_state;
  cu_ctx : C;
  devbuf : Z;
  devbuf4vma : Z
}.
Arguments mk_cuda {C}.
Arguments cu_gpu {C}.
Arguments cu_ctx {C}.
Arguments devbuf {C}.
Arguments devbuf4vma {C}.

Class CudaDriver (C : Type) : Type := {
  cudaHostRegister : C -> Z -> Z -> cudaError * C;
  cudaHostUnregister : C -> Z -> cudaError * C;
  cudaStreamQuery : C -> Z -> cudaError * C
}.

Section cuda.
Context {C : Type} `{CudaDriver C}.

Definition set_cuda (g : cuda_state C) (u : gpu_state) (c : C) : cuda_state C :=
  mk_cuda u c (devbuf g) (devbuf4vma g).

Definition csc {A} (e : cudaError) (k : A) : outcome A :=
  match e with cudaSuccess => mret k | _ => Fault Abort end.

Definition cuda_pin_mem (g : cuda_state C) (p sz : Z) : outcome (cuda_state C) :=
  let rsz := round_up sz PAGE_SIZE in
  let '(e, c) := cudaHostRegister (cu_ctx g) p rsz in
  csc e (set_cuda g (log_pin (cu_gpu g) (PinMem p rsz)) c).

Definition cuda_unpin_mem (g : cuda_state C) (p : Z) : outcome (cuda_state C) :=
  let '(e, c) := cudaHostUnregister (cu_ctx g) p in
  csc e (set_cuda g (log_pin (cu_gpu g) (UnpinMem p)) c).

Definition cuda_check_stream_done (g : cuda_state C) (s : Z) : outcome (cuda_state C * Z) :=
  let '(e, c) := cudaStreamQuery (cu_ctx g) s in
  let g := set_cuda g (cu_gpu g) c in
  match e with
  | cudaSuccess => mret (g, 1)
  | cudaErrorNotReady => mret (g, 0)
  | cudaErrorOther => Fault Abort
  end.

Definition cuda_get_stream (g : cuda_state C) (stid : Z) : outcome Z :=
  if (stid <? 0) || (MAX_STREAM_NR <=? stid) then mret 0
  else array_get (streams (cu_gpu g)) stid.

Definition cuda_finished (g : cuda_state C) (sreq : kgpu_service_request) :
    outcome (cuda_state C * Z) :=
  s ← cuda_get_stream g (sr_stream_id sreq);
  cuda_check_stream_done g s.

Definition cuda_alloc_device_mem (g : cuda_state C) (hb hv : kgpu_gpu_mem_info)
    (sreq : kgpu_service_request) : outcome (cuda_state C * kgpu_service_request * Z) :=
  let '(sreq, ((ad, sz), npins)) := alloc_pointers (devbuf g) (devbuf4vma g) hb hv sreq in
  '(ad, sz, npins) ← cuda_merge_ranges ad sz npins;
  g ← for_pins cuda_pin_mem g ad sz npins;
  mret (g, sreq, 0).

Definition cuda_free_device_mem (g : cuda_state C) (hv : kgpu_gpu_mem_info)
    (sreq : kgpu_service_request) : outcome (cuda_state C * kgpu_service_request) :=
  let sreq := with_device sreq NULL NULL NULL in
  let '((ad, sz), npins) := free_pointers hv sreq in
  '(ad, sz, npins) ← cuda_merge_ranges ad sz npins;
  g ← for_pins (fun g p _ => cuda_unpin_mem g p) g ad sz npins;
  mret (g, sreq).

Definition cuda_alloc_stream (g : cuda_state C) (sreq : kgpu_service_request) :
    outcome (cuda_state C * kgpu_service_request * Z) :=
  '(u, sreq, r) ← gpu_alloc_stream (cu_gpu g) sreq;
  mret (set_cuda g u (cu_ctx g), sreq, r).

Definition cuda_free_stream (g : cuda_state C) (sreq : kgpu_service_request) :
    outcome (cuda_state C) :=
  u ← gpu_free_stream (cu_gpu g) sreq;
  mret (set_cuda g u (cu_ctx g)).

End cuda.

(** ** The interface of a back end

    [be_used g i] says that stream [i] is handed out.  [be_takes] are the
    requests whose buffers the back end can give device memory and take it
    back at any time, also before it was given; it looks at the host pointers
    and sizes only. *)

Class GpuBackend (G : Type) : Type := {
  be_alloc_device_mem : G -> kgpu_gpu_mem_info -> kgpu_gpu_mem_info -> kgpu_service_request ->
    outcome (G * kgpu_service_request * Z);
  be_free_device_mem : G -> kgpu_gpu_mem_info -> kgpu_service_request ->
    outcome (G * kgpu_service_request);
  be_alloc_stream : G -> kgpu_service_request -> outcome (G * kgpu_service_request * Z);
  be_free_stream : G -> kgpu_service_request -> outcome G;
  be_execution_finished : G -> kgpu_service_request -> outcome (G * Z);
  be_post_finished : G -> kgpu_service_request -> outcome (G * Z);
  be_wf : G -> Prop;
  be_used : G -> Z -> bool;
  be_takes : kgpu_gpu_mem_info -> kgpu_gpu_mem_info -> kgpu_service_request -> Prop
}.

(** The host pointers and sizes of a request. *)
Definition same_buffers (q q' : kgpu_service_request) : Prop :=
  sr_hin q' = sr_hin q /\ sr_hout q' = sr_hout q /\ sr_hdata q' = sr_hdata q /\
  sr_insize q' = sr_insize q /\ sr_outsize q' = sr_outsize q /\ sr_datasize q' = sr_datasize q.

(** Two states that hand out the same streams. *)
Definition same_streams {G} `{GpuBackend G} (g g' : G) : Prop :=
  be_wf g' /\ forall i, be_used g' i = be_used g i.

Definition valid_stream (i : Z) : bool := (0 <=? i) && (i <? MAX_STREAM_NR).

Class GpuLaws (G : Type) `{GpuBackend G} : Prop := {
  be_takes_same hb hv q q' : same_buffers q q' -> be_takes hb hv q -> be_takes hb hv q';
  be_alloc_device_mem_law g hb hv q : be_wf g -> be_takes hb hv q ->
    exists g' din dout ddata,
      be_alloc_device_mem g hb hv q = Ok (g', with_device q din dout ddata, 0) /\
      same_streams g g';
  be_free_device_mem_law g hb hv q : be_wf g -> be_takes hb hv q ->
    exists g' q', be_free_device_mem g hv q = Ok (g', q') /\ same_streams g g' /\
      sr_id q' = sr_id q /\ sr_stream_id q' = sr_stream_id q;
  be_alloc_stream_law g q : be_wf g ->
    (be_alloc_stream g q = Ok (g, q, 1) /\ forall i, valid_stream i = true -> be_used g i = true) \/
    exists g' i s, be_alloc_stream g q = Ok (g', with_stream q i s, 0) /\ be_wf g' /\
      valid_stream i = true /\ be_used g i = false /\
      (forall j, be_used g' j = (if bool_decide (j = i) then true else be_used g j));
  be_free_stream_law g q : be_wf g ->
    exists g', be_free_stream g q = Ok g' /\ be_wf g' /\
      (forall j, be_used g' j = (if bool_decide (j = sr_stream_id q) then false else be_used g j));
  be_execution_finished_law g q : be_wf g ->
    exists g' r, be_execution_finished g q = Ok (g', r) /\ same_streams g g';
  be_post_finished_law g q : be_wf g ->
    exists g' r, be_post_finished g q = Ok (g', r) /\ same_streams g g';
  be_used_valid g i : be_used g i = true -> valid_stream i = true
}.

(** ** Streams: lemmas *)

Definition gpu_wf (g : gpu_state) : Prop :=
  Z.of_nat (length (streams g)) = MAX_STREAM_NR /\
  Z.of_nat (length (streamuses g)) = MAX_STREAM_NR.

Definition stream_used (g : gpu_state) (i : Z) : bool :=
  valid_stream i && truth (nthZ (streamuses g) i).

Lemma valid_stream_true i : valid_stream i = true <-> 0 <= i < MAX_STREAM_NR.
Proof. unfold valid_stream. rewrite andb_true_iff, Z.leb_le, Z.ltb_lt. done. Qed.

Lemma set_uses_wf g i v :
  gpu_wf g -> gpu_wf (set_uses g (<[i := v]> (streamuses g))).
Proof. unfold gpu_wf. simpl. by rewrite length_insert. Qed.

Lemma set_uses_used g i v j :
  gpu_wf g -> 0 <= i < MAX_STREAM_NR ->
  stream_used (set_uses g (<[Z.to_nat i := v]> (streamuses g))) j =
    if bool_decide (j = i) then truth v else stream_used g j.
Proof.
  intros [_ Hu] Hi. unfold stream_used. simpl.
  destruct (valid_stream j) eqn:Hj; simpl.
  - apply valid_stream_true in Hj. rewrite nthZ_insert by (unfold MAX_STREAM_NR in *; lia).
    repeat case_bool_decide; congruence || done.
  - case_bool_decide as E; [|done]. subst j.
    by rewrite (proj2 (valid_stream_true i)) in Hj.
Qed.

(** The loop hands out the first free stream from [i] on. *)
Lemma alloc_stream_loop_spec k i g q :
  gpu_wf g -> 0 <= i -> i + Z.of_nat k = MAX_STREAM_NR ->
  (alloc_stream_loop k i g q = Ok (g, q, 1) /\
     forall j, i <= j < MAX_STREAM_NR -> stream_used g j = true) \/
  exists j s, alloc_stream_loop k i g q =
      Ok (set_uses g (<[Z.to_nat j := 1]> (streamuses g)), with_stream q j s, 0) /\
    i <= j < MAX_STREAM_NR /\ streams g !! Z.to_nat j = Some s /\ stream_used g j = false /\
    forall j', i <= j' < j -> stream_used g j' = true.
Proof.
  revert i. induction k as [|k IH]; intros i Hwf Hi Hk; [left; split; [done | lia]|].
  pose proof Hwf as [Hs Hu].
  cbn [alloc_stream_loop]. rewrite (array_get_nthZ (streamuses g)) by lia.
  cbn [mbind outcome_bind].
  destruct (truth (nthZ (streamuses g) i)) eqn:Ht; cbn [negb].
  - assert (Hii : stream_used g i = true).
    { unfold stream_used. rewrite Ht, andb_true_r. apply valid_stream_true. lia. }
    destruct (IH (i + 1)) as [[-> Hall] | (j & s & -> & Hj & Hst & Hf & Hlt)]; try done || lia.
    + left. split; [done|]. intros j Hj. destruct (decide (j = i)) as [->|]; [done|]. apply Hall. lia.
    + right. exists j, s. split; [done|]. split; [lia|]. split_and!; try done.
      intros j' Hj'. destruct (decide (j' = i)) as [->|]; [done|]. apply Hlt. lia.
  - right. rewrite array_set_ok by lia. cbn [mbind outcome_bind].
    destruct (lookup_lt_is_Some_2 (streams g) (Z.to_nat i)) as [s Hsi]; [lia|].
    rewrite (array_get_ok _ _ s) by (done || lia). cbn [mbind outcome_bind].
    exists i, s. split_and!; try done; [lia..| |lia].
    unfold stream_used. rewrite Ht. apply andb_false_r.
Qed.

Lemma gpu_free_stream_spec g q :
  gpu_wf g ->
  exists g', gpu_free_stream g q = Ok g' /\ gpu_wf g' /\
    forall j, stream_used g' j =
      (if bool_decide (j = sr_stream_id q) then false else stream_used g j).
Proof.
  intros Hwf. unfold gpu_free_stream.
  destruct (andb _ _) eqn:Hc.
  - change (valid_stream (sr_stream_id q) = true) in Hc. apply valid_stream_true in Hc.
    rewrite array_set_ok by (destruct Hwf; lia). simpl.
    eexists. split; [done|]. split; [by apply set_uses_wf|].
    intros j. by rewrite set_uses_used.
  - exists g. split_and!; [done..|]. intros j. case_bool_decide as E; [|done].
    subst j. unfold stream_used. unfold valid_stream. by rewrite Hc.
Qed.

(** ** Pin calls: lemmas *)

Lemma for_pins_S {G} (f : G -> Z -> Z -> outcome G) (P : G -> Prop) g ad sz n :
  (forall g a s, P g -> exists g', f g a s = Ok g' /\ P g') ->
  P g -> exists g', for_pins f g ad sz n = Ok g' /\ P g'.
Proof.
  intros Hf. unfold for_pins. generalize (seq 0 (Z.to_nat n)) as l.
  intros l. revert g. induction l as [|i l IH]; intros g Hg; [eauto|]. simpl.
  destruct (Hf g (ad !!! i) (sz !!! i) Hg) as (g1 & -> & Hg1). by apply IH.
Qed.

(** What a loop over the pins leaves in the log. *)
Lemma for_pins_log (f : gpu_state -> Z -> Z -> outcome gpu_state) (c : Z -> Z -> pin_call)
    g ad sz n :
  (forall g a s, f g a s = Ok (log_pin g (c a s))) ->
  for_pins f g ad sz n =
    Ok (mk_gpu (streams g) (streamuses g)
         (pin_calls g ++ map (fun i => c (ad !!! i) (sz !!! i)) (seq 0 (Z.to_nat n)))).
Proof.
  intros Hf. unfold for_pins. generalize (seq 0 (Z.to_nat n)) as l.
  intros l. revert g. induction l as [|i l IH]; intros g; simpl.
  - rewrite app_nil_r. by destruct g.
  - rewrite Hf, IH. simpl. by rewrite <- app_assoc.
Qed.

(** A predicate that pinning does not touch survives both operations. *)
Lemma alloc_device_mem_keeps {G} (pin : G -> Z -> Z -> outcome G) (P : G -> Prop) db dv g hb hv q :
  (forall g a s, P g -> exists g', pin g a s = Ok g' /\ P g') -> P g ->
  exists g' din dout ddata,
    alloc_device_mem_at pin db dv g hb hv q = Ok (g', with_device q din dout ddata, 0) /\ P g'.
Proof.
  intros Hp Hg. unfold alloc_device_mem_at, alloc_pointers.
  repeat case_match; simplify_eq;
    match goal with |- context [for_pins ?f ?g ?a ?s ?n] =>
      destruct (for_pins_S f P g a s n Hp Hg) as (g' & -> & Hg') end; simpl; eauto 10.
Qed.

Lemma free_device_mem_keeps {G} (unpin : G -> Z -> outcome G) (P : G -> Prop) g hv q :
  (forall g a, P g -> exists g', unpin g a = Ok g' /\ P g') -> P g ->
  exists g', free_device_mem_at unpin g hv q = Ok (g', with_device q NULL NULL NULL) /\ P g'.
Proof.
  intros Hp Hg. unfold free_device_mem_at.
  destruct (free_pointers _ _) as [[ad sz] n]. destruct (__merge_ranges _ _ _) as [[ad' sz'] n'].
  destruct (for_pins_S (fun g p _ => unpin g p) P g ad' sz' n') as (g' & -> & Hg'); eauto.
Qed.

(** ** The OpenCL back end is an instance *)

#[global] Instance opencl_backend : GpuBackend gpu_state := {
  be_alloc_device_mem := gpu_alloc_device_mem;
  be_free_device_mem := gpu_free_device_mem;
  be_alloc_stream := gpu_alloc_stream;
  be_free_stream := gpu_free_stream;
  be_execution_finished := gpu_execution_finished;
  be_post_finished := gpu_post_finished;
  be_wf := gpu_wf;
  be_used := stream_used;
  be_takes _ _ _ := True
}.

Lemma gpu_alloc_stream_law g q :
  gpu_wf g ->
  (gpu_alloc_stream g q = Ok (g, q, 1) /\
     forall i, valid_stream i = true -> stream_used g i = true) \/
  exists g' i s, gpu_alloc_stream g q = Ok (g', with_stream q i s, 0) /\ gpu_wf g' /\
    valid_stream i = true /\ stream_used g i = false /\
    (forall j, stream_used g' j = (if bool_decide (j = i) then true else stream_used g j)).
Proof.
  intros Hwf.
  destruct (alloc_stream_loop_spec (Z.to_nat MAX_STREAM_NR) 0 g q)
    as [[H Hall] | (j & s & H & Hj & Hs & Hf & _)]; [done..| |].
  - left. split; [done|]. intros i Hi. apply Hall. by apply valid_stream_true.
  - right. exists (set_uses g (<[Z.to_nat j := 1]> (streamuses g))), j, s.
    split_and!; [done | by apply set_uses_wf | by apply valid_stream_true | done|].
    intros i. by rewrite set_uses_used.
Qed.

Lemma log_pin_keeps g g0 c :
  gpu_wf g /\ (forall i, stream_used g i = stream_used g0 i) ->
  exists g', Ok (log_pin g c) = Ok g' /\ gpu_wf g' /\ (forall i, stream_used g' i = stream_used g0 i).
Proof. intros H. by exists (log_pin g c). Qed.

#[global] Instance opencl_laws : GpuLaws gpu_state.
Proof.
  split.
  - done.
  - intros g hb hv q Hg _. apply alloc_device_mem_keeps; [|done].
    intros. by apply log_pin_keeps.
  - intros g hb hv q Hg _.
    destruct (free_device_mem_keeps gpu_unpin_mem (same_streams g) g hv q) as (g' & H & Hs);
      [intros; by apply log_pin_keeps | done |].
    by exists g', (with_device q NULL NULL NULL).
  - intros. by apply gpu_alloc_stream_law.
  - intros. by apply gpu_free_stream_spec.
  - intros g q Hg. by exists g, 0.
  - intros g q Hg. by exists g, 0.
  - intros g i. cbn. unfold stream_used. rewrite andb_true_iff. tauto.
Qed.

(** ** The CUDA back end is an instance

    [cudaHostRegister] refuses memory that is registered already, and
    [cudaHostUnregister] memory that is not; [csc] then ends the helper.  The
    back end therefore takes the requests for which it calls neither: with
    input and output in the helper's own buffer, which is page-locked, and the
    data there or in none of the two buffers.  Of the driver the laws use that
    a query in a state without errors answers that the stream is done or not
    yet done, and leaves such a state. *)

Class CudaFine (C : Type) : Type := { cu_fine : C -> Prop }.

Class CudaQueries (C : Type) `{CudaDriver C, CudaFine C} : Prop := {
  query_fine c s : cu_fine c ->
    exists e c', cudaStreamQuery c s = (e, c') /\ e <> cudaErrorOther /\ cu_fine c'
}.

Definition cuda_takes (hb hv : kgpu_gpu_mem_info) (q : kgpu_service_request) : Prop :=
  (ADDR_WITHIN (sr_hin q) (mi_uva hb) (mi_size hb) = true /\
   ADDR_WITHIN (sr_hout q) (mi_uva hb) (mi_size hb) = true) /\
  (ADDR_WITHIN (sr_hin q) (mi_uva hv) (mi_size hv) = false /\
   ADDR_WITHIN (sr_hout q) (mi_uva hv) (mi_size hv) = false /\
   ADDR_WITHIN (sr_hdata q) (mi_uva hv) (mi_size hv) = false).

#[global] Instance cuda_backend {C} `{CudaDriver C, CudaFine C} : GpuBackend (cuda_state C) := {
  be_alloc_device_mem := cuda_alloc_device_mem;
  be_free_device_mem := cuda_free_device_mem;
  be_alloc_stream := cuda_alloc_stream;
  be_free_stream := cuda_free_stream;
  be_execution_finished := cuda_finished;
  be_post_finished := cuda_finished;
  be_wf g := gpu_wf (cu_gpu g) /\ cu_fine (cu_ctx g);
  be_used g := stream_used (cu_gpu g);
  be_takes := cuda_takes
}.

(** The arrays that the two functions collect have three entries, and at most
    three of them are in use: the merge of the CUDA file is that of Ranges. *)
Definition pins_ok (a : pin_arrays) : Prop := three a.1 /\ 0 <= a.2 <= 3.

Lemma alloc_pointers_pins db dv hb hv q : pins_ok (alloc_pointers db dv hb hv q).2.
Proof. unfold alloc_pointers, pins_ok, three. repeat case_match; simplify_eq; simpl; lia. Qed.

Lemma free_pointers_pins hv q : pins_ok (free_pointers hv q).
Proof. unfold free_pointers, pins_ok, three. repeat case_match; simplify_eq; simpl; lia. Qed.

Lemma cuda_alloc_device_mem_at {C} `{CudaDriver C} (g : cuda_state C) hb hv q :
  cuda_alloc_device_mem g hb hv q =
  alloc_device_mem_at cuda_pin_mem (devbuf g) (devbuf4vma g) g hb hv q.
Proof.
  unfold cuda_alloc_device_mem, alloc_device_mem_at.
  destruct (alloc_pointers_pins (devbuf g) (devbuf4vma g) hb hv q) as [H3 Hn].
  destruct (alloc_pointers _ _ _ _ _) as [q' [[ad sz] n]]. simpl in H3, Hn.
  rewrite cuda_merge_ranges_eq by done. by destruct (__merge_ranges ad sz n) as [[ad' sz'] n'].
Qed.

Lemma cuda_free_device_mem_at {C} `{CudaDriver C} (g : cuda_state C) hv q :
  cuda_free_device_mem g hv q = free_device_mem_at cuda_unpin_mem g hv q.
Proof.
  unfold cuda_free_device_mem, free_device_mem_at.
  destruct (free_pointers_pins hv (with_device q NULL NULL NULL)) as [H3 Hn].
  destruct (free_pointers _ _) as [[ad sz] n]. simpl in H3, Hn.
  rewrite cuda_merge_ranges_eq by done. by destruct (__merge_ranges ad sz n) as [[ad' sz'] n'].
Qed.

Lemma gpu_get_stream_ok g i : gpu_wf g -> exists s, gpu_get_stream g i = Ok s.
Proof.
  intros [Hs _]. unfold gpu_get_stream.
  destruct (Z.ltb_spec i 0), (Z.leb_spec MAX_STREAM_NR i); simpl; try by eexists.
  rewrite array_get_nthZ by lia. by eexists.
Qed.

Lemma cuda_get_stream_ok {C} (g : cuda_state C) i :
  gpu_wf (cu_gpu g) -> exists s, cuda_get_stream g i = Ok s.
Proof. apply (gpu_get_stream_ok (cu_gpu g)). Qed.

Lemma cuda_finished_law {C} `{CudaDriver C, CudaFine C, !CudaQueries C} (g : cuda_state C) q :
  be_wf g -> exists g' r, cuda_finished g q = Ok (g', r) /\ same_streams g g'.
Proof.
  intros [Hg Hf]. unfold cuda_finished.
  destruct (cuda_get_stream_ok g (sr_stream_id q) Hg) as [s ->].
  cbn [mbind outcome_bind]. unfold cuda_check_stream_done.
  destruct (query_fine (cu_ctx g) s Hf) as (e & c & -> & He & Hf').
  destruct e; try done; eexists _, _; (split; [done|]); by split.
Qed.

(** For the requests that it takes, the back end pins and unpins nothing. *)
Lemma cuda_alloc_taken {C} `{CudaDriver C} (g : cuda_state C) hb hv q :
  cuda_takes hb hv q -> exists din dout ddata,
    cuda_alloc_device_mem g hb hv q = Ok (g, with_device q din dout ddata, 0).
Proof.
  intros [[H1 H2] (_ & _ & H3)]. unfold cuda_alloc_device_mem, alloc_pointers. rewrite H1, H2, H3.
  destruct (ADDR_WITHIN (sr_hdata q) (mi_uva hb) (mi_size hb)); eexists _, _, _; reflexivity.
Qed.

Lemma cuda_free_taken {C} `{CudaDriver C} (g : cuda_state C) hb hv q :
  cuda_takes hb hv q -> cuda_free_device_mem g hv q = Ok (g, with_device q NULL NULL NULL).
Proof.
  intros [_ (H1 & H2 & H3)]. unfold cuda_free_device_mem, free_pointers.
  cbn [sr_hin sr_hout sr_hdata with_device]. rewrite H1, H2, H3. reflexivity.
Qed.

#[global] Instance cuda_laws {C} `{CudaDriver C, CudaFine C, !CudaQueries C} : GpuLaws (cuda_state C).
Proof.
  split.
  - intros hb hv q q' (E1 & E2 & E3 & _). cbn. unfold cuda_takes. by rewrite E1, E2, E3.
  - intros g hb hv q Hg Ht. cbn [be_alloc_device_mem cuda_backend].
    destruct (cuda_alloc_taken g hb hv q Ht) as (a & b & c & ->). by exists g, a, b, c.
  - intros g hb hv q Hg Ht. cbn [be_free_device_mem cuda_backend].
    rewrite (cuda_free_taken g hb hv q Ht). by exists g, (with_device q NULL NULL NULL).
  - intros g q [Hg Hf]. simpl. unfold cuda_alloc_stream.
    destruct (gpu_alloc_stream_law (cu_gpu g) q Hg)
      as [[-> Hall] | (u & i & s & -> & Hu & Hrest)]; [left | right; eexists _, i, s; split; [done|]].
    + split; [by destruct g | done].
    + split; [by split | done].
  - intros g q [Hg Hf]. simpl. unfold cuda_free_stream.
    destruct (gpu_free_stream_spec (cu_gpu g) q Hg) as (u & -> & Hu & Hrest).
    eexists. split; [done|]. split; [by split | done].
  - intros g q Hg. by apply cuda_finished_law.
  - intros g q Hg. by apply cuda_finished_law.
  - intros g i. cbn. unfold stream_used. rewrite andb_true_iff. tauto.
Qed.

(** ** Device pointers and pinned pages *)

(** The pointer [d] is the image of the host pointer [p]: at the same offset,
    inside the device buffer that stands for the host buffer of [p]. *)
Definition device_image (db dv : Z) (hb hv : kgpu_gpu_mem_info) (p d : Z) : Prop :=
  (ADDR_WITHIN p (mi_uva hb) (mi_size hb) = true /\
     d - db = p - mi_uva hb /\ ADDR_WITHIN d db (mi_size hb) = true) \/
  (ADDR_WITHIN p (mi_uva hv) (mi_size hv) = true /\
     d - dv = p - mi_uva hv /\ ADDR_WITHIN d dv (mi_size hv) = true).

(** Both host buffers and the device buffers of their size fit the address
    space, and the host buffers are disjoint. *)
Record layout_ok (db dv : Z) (hb hv : kgpu_gpu_mem_info) : Prop := {
  lo_hb : buffer_ok (mi_uva hb) (mi_size hb);
  lo_hv : buffer_ok (mi_uva hv) (mi_size hv);
  lo_db : buffer_ok db (mi_size hb);
  lo_dv : buffer_ok dv (mi_size hv);
  lo_disjoint p : ADDR_WITHIN p (mi_uva hb) (mi_size hb) = true ->
    ADDR_WITHIN p (mi_uva hv) (mi_size hv) = false
}.

Definition in_host (hb hv : kgpu_gpu_mem_info) (p : Z) : Prop :=
  ADDR_WITHIN p (mi_uva hb) (mi_size hb) = true \/ ADDR_WITHIN p (mi_uva hv) (mi_size hv) = true.

Lemma rebase_image dst src size p :
  buffer_ok src size -> buffer_ok dst size -> ADDR_WITHIN p src size = true ->
  ADDR_REBASE dst src p - dst = p - src /\ ADDR_WITHIN (ADDR_REBASE dst src p) dst size = true.
Proof.
  intros Hs Hd Hp. rewrite (ADDR_REBASE_within dst src size p Hs Hd Hp).
  apply ADDR_WITHIN_spec in Hp; [|done]. rewrite ADDR_WITHIN_spec by done. lia.
Qed.

Lemma device_image_rebase db dv hb hv p :
  layout_ok db dv hb hv -> in_host hb hv p ->
  device_image db dv hb hv p
    (if ADDR_WITHIN p (mi_uva hb) (mi_size hb) then ADDR_REBASE db (mi_uva hb) p
     else ADDR_REBASE dv (mi_uva hv) p).
Proof.
  intros [Hb Hv Hdb Hdv _] Hp. unfold device_image.
  destruct (ADDR_WITHIN p (mi_uva hb) (mi_size hb)) eqn:Eb.
  - left. split; [done|]. by apply rebase_image.
  - destruct Hp as [|Hp]; [congruence|]. right. split; [done|]. by apply rebase_image.
Qed.

Lemma alloc_pointers_device db dv hb hv q :
  in_host hb hv (sr_hdata q) ->
  let at_ p := if ADDR_WITHIN p (mi_uva hb) (mi_size hb) then ADDR_REBASE db (mi_uva hb) p
               else ADDR_REBASE dv (mi_uva hv) p in
  (alloc_pointers db dv hb hv q).1 =
    with_device q (at_ (sr_hin q)) (at_ (sr_hout q)) (at_ (sr_hdata q)).
Proof.
  intros Hd at_. unfold at_, alloc_pointers, in_host in *.
  destruct (ADDR_WITHIN (sr_hin q) (mi_uva hb) _), (ADDR_WITHIN (sr_hout q) (mi_uva hb) _),
    (ADDR_WITHIN (sr_hdata q) (mi_uva hb) _), (ADDR_WITHIN (sr_hdata q) (mi_uva hv) _);
    try reflexivity; destruct Hd; discriminate.
Qed.

Lemma alloc_device_mem_at_result {G} (pin : G -> Z -> Z -> outcome G) db dv g hb hv q g' q' r :
  alloc_device_mem_at pin db dv g hb hv q = Ok (g', q', r) ->
  q' = (alloc_pointers db dv hb hv q).1 /\ r = 0.
Proof.
  unfold alloc_device_mem_at. destruct (alloc_pointers _ _ _ _ _) as [q1 [[ad sz] n]].
  destruct (__merge_ranges ad sz n) as [[ad' sz'] n'].
  destruct (for_pins _ _ _ _ _); simpl; [by intros [= <- <- <-] | done].
Qed.

Lemma gpu_alloc_device_mem_images g hb hv q :
  layout_ok 0 0 hb hv ->
  in_host hb hv (sr_hin q) -> in_host hb hv (sr_hout q) -> in_host hb hv (sr_hdata q) ->
  exists g' din dout ddata,
    gpu_alloc_device_mem g hb hv q = Ok (g', with_device q din dout ddata, 0) /\
    device_image 0 0 hb hv (sr_hin q) din /\ device_image 0 0 hb hv (sr_hout q) dout /\
    device_image 0 0 hb hv (sr_hdata q) ddata.
Proof.
  intros Hl Hi Ho Hd. unfold gpu_alloc_device_mem.
  destruct (alloc_device_mem_keeps gpu_pin_mem (fun _ => True) 0 0 g hb hv q)
    as (g' & din & dout & ddata & E & _); [intros; by eexists | done |].
  pose proof (alloc_device_mem_at_result _ _ _ _ _ _ _ _ _ _ E) as [Hq _].
  rewrite E, Hq, (alloc_pointers_device 0 0 hb hv q Hd).
  eexists _, _, _, _. split; [done|]. split_and!; by apply device_image_rebase.
Qed.

(** For a request whose three pointers lie in the helper's buffers,
    [gpu_alloc_device_mem] of the OpenCL back end returns 0 and gives each of
    them the device pointer at the same offset in the corresponding device
    buffer (both device bases are 0 there), inside that buffer; nothing else
    of the request changes. *)
Theorem alloc_device_mem_translates g hb hv q :
  layout_ok 0 0 hb hv ->
  in_host hb hv (sr_hin q) -> in_host hb hv (sr_hout q) -> in_host hb hv (sr_hdata q) ->
  exists g' din dout ddata,
    gpu_alloc_device_mem g hb hv q = Ok (g', with_device q din dout ddata, 0) /\
    device_image 0 0 hb hv (sr_hin q) din /\ device_image 0 0 hb hv (sr_hout q) dout /\
    device_image 0 0 hb hv (sr_hdata q) ddata.
Proof. apply gpu_alloc_device_mem_images. Qed.

(** The bytes to pin for a request: what both functions collect. *)
Lemma pointers_agree hb hv q q' db dv :
  layout_ok db dv hb hv -> in_host hb hv (sr_hin q) -> in_host hb hv (sr_hout q) ->
  sr_hin q' = sr_hin q -> sr_hout q' = sr_hout q -> sr_hdata q' = sr_hdata q ->
  sr_insize q' = sr_insize q -> sr_outsize q' = sr_outsize q -> sr_datasize q' = sr_datasize q ->
  (alloc_pointers db dv hb hv q).2 = free_pointers hv q'.
Proof.
  intros [_ _ _ _ Hdis] Hi Ho E1 E2 E3 E4 E5 E6. unfold alloc_pointers, free_pointers, in_host in *.
  rewrite E1, E2, E3, E4, E5, E6.
  pose proof (Hdis (sr_hin q)). pose proof (Hdis (sr_hout q)). pose proof (Hdis (sr_hdata q)).
  destruct (ADDR_WITHIN (sr_hin q) (mi_uva hb) _), (ADDR_WITHIN (sr_hout q) (mi_uva hb) _),
    (ADDR_WITHIN (sr_hdata q) (mi_uva hb) _), (ADDR_WITHIN (sr_hin q) (mi_uva hv) _),
    (ADDR_WITHIN (sr_hout q) (mi_uva hv) _), (ADDR_WITHIN (sr_hdata q) (mi_uva hv) _);
    naive_solver congruence.
Qed.

(** C33: for a request whose input and output start in one of the helper's two
    buffers (which do not overlap), every page range that
    [gpu_alloc_device_mem] pins is unpinned by [gpu_free_device_mem], in the
    same order and once each, for any later state of the request that still
    has its host pointers and sizes.  (For input or output outside of both
    buffers this fails: [outside_pins_never_unpinned].) *)
Theorem pins_are_unpinned g g1 hb hv q q' :
  layout_ok 0 0 hb hv -> in_host hb hv (sr_hin q) -> in_host hb hv (sr_hout q) ->
  sr_hin q' = sr_hin q -> sr_hout q' = sr_hout q -> sr_hdata q' = sr_hdata q ->
  sr_insize q' = sr_insize q -> sr_outsize q' = sr_outsize q -> sr_datasize q' = sr_datasize q ->
  exists g' r g1' r' (ranges : list (Z * Z)),
    gpu_alloc_device_mem g hb hv q = Ok (g', r, 0) /\
    gpu_free_device_mem g1 hv q' = Ok (g1', r') /\
    pin_calls g' = pin_calls g ++ map (fun x => PinMem x.1 x.2) ranges /\
    pin_calls g1' = pin_calls g1 ++ map (fun x => UnpinMem x.1) ranges.
Proof.
  intros Hl Hi Ho E1 E2 E3 E4 E5 E6.
  pose proof (pointers_agree hb hv q (with_device q' NULL NULL NULL) 0 0 Hl Hi Ho E1 E2 E3 E4 E5 E6)
    as Hp.
  unfold gpu_alloc_device_mem, gpu_free_device_mem, alloc_device_mem_at, free_device_mem_at.
  destruct (alloc_pointers 0 0 hb hv q) as [r [[ad sz] n]]. simpl in Hp. rewrite <- Hp.
  destruct (__merge_ranges ad sz n) as [[ad' sz'] n'].
  rewrite (for_pins_log _ (fun a s => PinMem a (round_up s PAGE_SIZE))) by done.
  rewrite (for_pins_log _ (fun a s => UnpinMem a)) by done. simpl.
  eexists _, _, _, _, (map (fun i => (ad' !!! i, round_up (sz' !!! i) PAGE_SIZE))
    (seq 0 (Z.to_nat n'))).
  split; [done|]. split; [done|]. by rewrite !map_map.
Qed.

(** The allocation pins input and output in an unconditional [else], the
    release looks only at the mapped area: an input outside of both buffers is
    pinned and never unpinned. *)
Theorem outside_pins_never_unpinned g g1 hb hv q :
  ADDR_WITHIN (sr_hin q) (mi_uva hb) (mi_size hb) = false ->
  ADDR_WITHIN (sr_hin q) (mi_uva hv) (mi_size hv) = false ->
  ADDR_WITHIN (sr_hout q) (mi_uva hb) (mi_size hb) = true ->
  ADDR_WITHIN (sr_hout q) (mi_uva hv) (mi_size hv) = false ->
  ADDR_WITHIN (sr_hdata q) (mi_uva hv) (mi_size hv) = false ->
  exists g' r g1' r' (sz : Z),
    gpu_alloc_device_mem g hb hv q = Ok (g', r, 0) /\
    pin_calls g' = pin_calls g ++ [PinMem (round_down (sr_hin q) PAGE_SIZE) sz] /\
    gpu_free_device_mem g1 hv q = Ok (g1', r') /\ pin_calls g1' = pin_calls g1.
Proof.
  intros H1 H2 H3 H4 H5.
  unfold gpu_alloc_device_mem, gpu_free_device_mem, alloc_device_mem_at, free_device_mem_at,
    alloc_pointers, free_pointers. cbn [sr_hin sr_hout sr_hdata with_device].
  rewrite H1, H2, H3, H4, H5. destruct (ADDR_WITHIN (sr_hdata q) (mi_uva hb) (mi_size hb));
    eexists _, _, _, _, _; (split; [reflexivity|]); (split; [reflexivity|]); (split; reflexivity).
Qed.

(** [gpu_alloc_stream] hands out the first free one of the eight streams and
    marks it used, or returns 1 and changes nothing when all are in use. *)
Theorem alloc_stream_first_free g q :
  gpu_wf g ->
  (gpu_alloc_stream g q = Ok (g, q, 1) /\
     forall j, 0 <= j < MAX_STREAM_NR -> stream_used g j = true) \/
  exists j s g', gpu_alloc_stream g q = Ok (g', with_stream q j s, 0) /\
    0 <= j < MAX_STREAM_NR /\ streams g !! Z.to_nat j = Some s /\
    stream_used g j = false /\ (forall j', 0 <= j' < j -> stream_used g j' = true) /\
    gpu_wf g' /\
    (forall j', stream_used g' j' = if bool_decide (j' = j) then true else stream_used g j').
Proof.
  intros Hwf.
  destruct (alloc_stream_loop_spec (Z.to_nat MAX_STREAM_NR) 0 g q)
    as [H | (j & s & H & Hj & Hs & Hf & Hlt)]; [done..| by left |].
  right. exists j, s. eexists. split_and!; try done; [lia|lia| by apply set_uses_wf|].
  intros j'. by rewrite set_uses_used.
Qed.

Lemma alloc_stream_streams g q g' q' r : gpu_alloc_stream g q = Ok (g', q', r) -> streams g' = streams g.
Proof.
  unfold gpu_alloc_stream. generalize (Z.to_nat MAX_STREAM_NR) as k. generalize 0 as i. intros i k.
  revert i. induction k as [|k IH]; intros i E; [by injection E as <- _ _|]. cbn [alloc_stream_loop] in E.
  apply bind_ok in E as (u & _ & E). destruct (negb _); [|by eapply IH].
  apply bind_ok in E as (us & _ & E). apply bind_ok in E as (s & _ & E). by injection E as <- _ _.
Qed.

(** *** Witnesses *)

Definition gpu_example : gpu_state :=
  mk_gpu [101; 102; 103; 104; 105; 106; 107; 108] [1; 1; 0; 1; 0; 0; 0; 0] [].

Definition hb_example : kgpu_gpu_mem_info := mk_mem_info 1048576 KGPU_BUF_SIZE.

Definition hv_example : kgpu_gpu_mem_info := mk_mem_info 16777216 KGPU_BUF_SIZE.

Definition sr_example : kgpu_service_request :=
  mk_sr 7 1048600 16777216 16781000 0 0 0 64 100 300 0 0 0 0 0 0 KGPU_REQ_INIT (-1) 0.

Lemma layout_example db dv : 0 <= db < 2 ^ 32 -> 0 <= dv < 2 ^ 32 ->
  layout_ok db dv hb_example hv_example.
Proof.
  intros Hdb Hdv.
  assert (buffer_ok (mi_uva hb_example) (mi_size hb_example)) by (unfold buffer_ok; vm_compute; intuition congruence).
  assert (buffer_ok (mi_uva hv_example) (mi_size hv_example)) by (unfold buffer_ok; vm_compute; intuition congruence).
  assert (Hs : mi_size hb_example = 2097152 /\ mi_size hv_example = 2097152) by by vm_compute.
  destruct Hs as [Hs1 Hs2].
  split; [done | done | unfold buffer_ok; lia | unfold buffer_ok; lia |].
  intros p Hp. apply not_true_is_false. intros Hp'.
  apply ADDR_WITHIN_spec in Hp, Hp'; [|done..]. cbn [mi_uva hb_example hv_example] in *. lia.
Qed.

Lemma alloc_device_mem_translates_witness :
  exists g' din dout ddata,
    gpu_alloc_device_mem gpu_example hb_example hv_example sr_example =
      Ok (g', with_device sr_example din dout ddata, 0) /\
    device_image 0 0 hb_example hv_example (sr_hin sr_example) din /\
    device_image 0 0 hb_example hv_example (sr_hout sr_example) dout /\
    device_image 0 0 hb_example hv_example (sr_hdata sr_example) ddata.
Proof.
  apply (alloc_device_mem_translates gpu_example hb_example hv_example sr_example);
    [apply layout_example; lia | left; reflexivity | right; reflexivity | right; reflexivity].
Defined.

Lemma pins_are_unpinned_witness :
  exists g' r g1' r' (ranges : list (Z * Z)),
    gpu_alloc_device_mem gpu_example hb_example hv_example sr_example = Ok (g', r, 0) /\
    gpu_free_device_mem gpu_example hv_example sr_example = Ok (g1', r') /\
    pin_calls g' = pin_calls gpu_example ++ map (fun x => PinMem x.1 x.2) ranges /\
    pin_calls g1' = pin_calls gpu_example ++ map (fun x => UnpinMem x.1) ranges.
Proof.
  apply (pins_are_unpinned gpu_example gpu_example hb_example hv_example sr_example sr_example);
    [apply layout_example; lia | left; reflexivity | right; reflexivity | reflexivity ..].
Defined.

(** The output and the data share a page range, which is pinned once. *)
Example pins_example :
  (pin_calls ∘ fst ∘ fst <$> (match gpu_alloc_device_mem gpu_example hb_example hv_example sr_example
    with Ok r => Some r | Fault _ => None end)) = Some [PinMem 16777216 4096].
Proof. reflexivity. Qed.

Lemma alloc_stream_first_free_witness :
  gpu_wf gpu_example /\ exists j s g', gpu_alloc_stream gpu_example sr_example =
    Ok (g', with_stream sr_example j s, 0) /\ j = 2 /\ stream_used g' j = true.
Proof.
  assert (H : gpu_wf gpu_example) by by vm_compute.
  split; [exact H|].
  destruct (alloc_stream_first_free gpu_example sr_example H)
    as [[E _] | (j & s & g' & E & Hj & _ & _ & _ & _ & Hu)].
  - vm_compute in E. discriminate E.
  - exists j, s, g'. split; [exact E|]. rewrite (Hu j), bool_decide_eq_true_2 by done.
    split; [|done]. vm_compute in E. by injection E.
Defined.
