(* ===== verification/CudaInit.v ===== *)
(** * Start, end and default operations of the CUDA back end
      (src/kgpu/src/gpuSpace/cudaOperations.cu,
       src/kgpu/include/gpuSpace/gputils.h)

    The calls of the CUDA runtime that the rest of the file makes are
    parameters, like those of GpuOps.  What they promise is stated on the set
    of live objects: memory of the device, page-locked memory of the host,
    and streams. *)

From S2P Require Import Prelude KgpuDefs Ranges GpuOps.

Inductive copy_kind : Type :=
  | cudaMemcpyHostToDevice
  | cudaMemcpyDeviceToHost.

(** The calls return the error, the driver's state, and for the allocating
    ones what they store through their pointer argument. *)
Class CudaRuntime (C : Type) : Type := {
  cudaMalloc : C -> Z -> cudaError * C * Z;
  cudaFree : C -> Z -> cudaError * C;
  cudaStreamCreate : C -> cudaError * C * Z;
  cudaStreamDestroy : C -> Z -> cudaError * C;
  cudaHostAlloc : C -> Z -> cudaError * C * Z;
  cudaFreeHost : C -> Z -> cudaError * C;
  cudaMemcpyAsync : C -> Z -> Z -> Z -> copy_kind -> Z -> cudaError * C
}.

Section cuda.
Context {C : Type} `{CudaRuntime C}.

Definition set_ctx (g : cuda_state C) (c : C) : cuda_state C := set_cuda g (cu_gpu g) c.

(** ** Memory *)

Definition alloc_dev_mem (c : C) (size : Z) : outcome (C * Z) :=
  let '(e, c, h) := cudaMalloc c size in csc e (c, h).

Definition free_dev_mem (c : C) (p : Z) : outcome C :=
  let '(e, c) := cudaFree c p in csc e c.

Definition cuda_alloc_pinned_mem (g : cuda_state C) (size : Z) : outcome (cuda_state C * Z) :=
  let '(e, c, h) := cudaHostAlloc (cu_ctx g) size in csc e (set_ctx g c, h).

Definition cuda_free_pinned_mem (g : cuda_state C) (p : Z) : outcome (cuda_state C) :=
  let '(e, c) := cudaFreeHost (cu_ctx g) p in csc e (set_ctx g c).

(** ** Start and end *)

(** [for (i = 0; i < MAX_STREAM_NR; i++)] from [i], with [k] rounds left. *)
Fixpoint create_streams (k : nat) (i : Z) (g : cuda_state C) : outcome (cuda_state C) :=
  match k with
  | O => mret g
  | S k =>
      let '(e, c, s) := cudaStreamCreate (cu_ctx g) in
      c ← csc e c;
      st ← array_set (streams (cu_gpu g)) i s;
      us ← array_set (streamuses (cu_gpu g)) i 0;
      create_streams k (i + 1) (set_cuda g (mk_gpu st us (pin_calls (cu_gpu g))) c)
  end.

Definition cuda_gpu_init (g : cuda_state C) : outcome (cuda_state C) :=
  '(c, d) ← alloc_dev_mem (cu_ctx g) KGPU_BUF_SIZE;
  '(c, dv) ← alloc_dev_mem c KGPU_BUF_SIZE;
  create_streams (Z.to_nat MAX_STREAM_NR) 0 (mk_cuda (cu_gpu g) c d dv).

Fixpoint destroy_streams (k : nat) (i : Z) (g : cuda_state C) : outcome (cuda_state C) :=
  match k with
  | O => mret g
  | S k =>
      s ← array_get (streams (cu_gpu g)) i;
      let '(e, c) := cudaStreamDestroy (cu_ctx g) s in
      c ← csc e c;
      destroy_streams k (i + 1) (set_ctx g c)
  end.

Definition cuda_gpu_finit (g : cuda_state C) : outcome (cuda_state C) :=
  c ← free_dev_mem (cu_ctx g) (devbuf g);
  c ← free_dev_mem c (devbuf4vma g);
  destroy_streams (Z.to_nat MAX_STREAM_NR) 0 (set_ctx g c).

(** ** The default operations of a service *)

Definition with_dims (q : kgpu_service_request) (bx by_ gx gy : Z) : kgpu_service_request :=
  mk_sr (sr_id q) (sr_hin q) (sr_hout q) (sr_hdata q) (sr_din q) (sr_dout q) (sr_ddata q)
    (sr_insize q) (sr_outsize q) (sr_datasize q) (sr_errcode q) (sr_s q) bx by_ gx gy
    (sr_state q) (sr_stream_id q) (sr_stream q).

Definition default_compute_size (sreq : kgpu_service_request) : kgpu_service_request * Z :=
  (with_dims sreq 32 1 512 1, 0).

Definition default_prepare (g : cuda_state C) (sreq : kgpu_service_request) :
    outcome (cuda_state C * Z) :=
  s ← cuda_get_stream g (sr_stream_id sreq);
  let '(e, c) := cudaMemcpyAsync (cu_ctx g) (sr_din sreq) (sr_hin sreq) (sr_insize sreq)
                   cudaMemcpyHostToDevice s in
  c ← csc e c;
  mret (set_ctx g c, 0).

Definition default_post (g : cuda_state C) (sreq : kgpu_service_request) :
    outcome (cuda_state C * Z) :=
  s ← cuda_get_stream g (sr_stream_id sreq);
  let '(e, c) := cudaMemcpyAsync (cu_ctx g) (sr_hout sreq) (sr_dout sreq) (sr_outsize sreq)
                   cudaMemcpyDeviceToHost s in
  c ← csc e c;
  mret (set_ctx g c, 0).

End cuda.

(** ** What the runtime promises *)

Inductive cuda_object : Type :=
  | DevMem (p : Z)
  | HostMem (p : Z)
  | CuStream (s : Z).

#[global] Instance cuda_object_eq_dec : EqDecision cuda_object.
Proof. solve_decision. Defined.

#[global] Instance cuda_object_countable : Countable cuda_object.
Proof.
  refine (inj_countable'
    (fun o => match o with DevMem p => inl p | HostMem p => inr (inl p) | CuStream s => inr (inr s) end)
    (fun x => match x with inl p => DevMem p | inr (inl p) => HostMem p | inr (inr s) => CuStream s end) _).
  by intros [].
Defined.

(** A device without errors: an allocation that succeeds gives an object that
    was not live (it may fail), and the release of a live object succeeds and
    takes it away. *)
Class CudaObjects (C : Type) `{CudaRuntime C} : Type := {
  cu_up : C -> Prop;
  cu_live : C -> gset cuda_object;
  cudaMalloc_law c n c' p : cu_up c -> cudaMalloc c n = (cudaSuccess, c', p) ->
    cu_up c' /\ DevMem p ∉ cu_live c /\ cu_live c' = {[DevMem p]} ∪ cu_live c;
  cudaHostAlloc_law c n c' p : cu_up c -> cudaHostAlloc c n = (cudaSuccess, c', p) ->
    cu_up c' /\ HostMem p ∉ cu_live c /\ cu_live c' = {[HostMem p]} ∪ cu_live c;
  cudaStreamCreate_law c c' s : cu_up c -> cudaStreamCreate c = (cudaSuccess, c', s) ->
    cu_up c' /\ CuStream s ∉ cu_live c /\ cu_live c' = {[CuStream s]} ∪ cu_live c;
  cudaFree_law c p : cu_up c -> DevMem p ∈ cu_live c -> exists c', cudaFree c p = (cudaSuccess, c') /\
    cu_up c' /\ cu_live c' = cu_live c ∖ {[DevMem p]};
  cudaFreeHost_law c p : cu_up c -> HostMem p ∈ cu_live c ->
    exists c', cudaFreeHost c p = (cudaSuccess, c') /\
    cu_up c' /\ cu_live c' = cu_live c ∖ {[HostMem p]};
  cudaStreamDestroy_law c s : cu_up c -> CuStream s ∈ cu_live c ->
    exists c', cudaStreamDestroy c s = (cudaSuccess, c') /\
    cu_up c' /\ cu_live c' = cu_live c ∖ {[CuStream s]}
}.

(** The calls for a request that succeed, and queries that answer "not yet",
    leave such a device, and its live objects. *)
Class CudaWork (C : Type) `{CudaDriver C, CudaObjects C} : Prop := {
  register_work c p n c' : cu_up c -> cudaHostRegister c p n = (cudaSuccess, c') ->
    cu_up c' /\ cu_live c' = cu_live c;
  unregister_work c p c' : cu_up c -> cudaHostUnregister c p = (cudaSuccess, c') ->
    cu_up c' /\ cu_live c' = cu_live c;
  query_work c s e c' : cu_up c -> cudaStreamQuery c s = (e, c') -> e <> cudaErrorOther ->
    cu_up c' /\ cu_live c' = cu_live c;
  copy_work c dst src n k s c' : cu_up c -> cudaMemcpyAsync c dst src n k s = (cudaSuccess, c') ->
    cu_up c' /\ cu_live c' = cu_live c
}.

(** [csc] goes on only after a success. *)
Lemma csc_ok {A} e (k a : A) : csc e k = Ok a -> e = cudaSuccess /\ a = k.
Proof. destruct e; [|done..]. by intros [= ->]. Qed.

Section proofs.
Context {C : Type} `{CudaObjects C}.
Implicit Types g : cuda_state C.

Definition stream_objects (ss : list Z) : gset cuda_object := list_to_set (CuStream <$> ss).

Lemma alloc_dev_mem_spec c n c' p : cu_up c -> alloc_dev_mem c n = Ok (c', p) -> cu_up c' /\
  DevMem p ∉ cu_live c /\ cu_live c' = {[DevMem p]} ∪ cu_live c.
Proof.
  intros Hc E. unfold alloc_dev_mem in E. destruct (cudaMalloc c n) as [[e c1] p1] eqn:Em.
  apply csc_ok in E as [-> [= -> ->]]. by eapply cudaMalloc_law.
Qed.

Lemma free_dev_mem_spec c p : cu_up c -> DevMem p ∈ cu_live c ->
  exists c', free_dev_mem c p = Ok c' /\ cu_up c' /\ cu_live c' = cu_live c ∖ {[DevMem p]}.
Proof.
  intros Hc Hp. destruct (cudaFree_law c p Hc Hp) as (c' & E & ? & ?).
  exists c'. unfold free_dev_mem. by rewrite E.
Qed.

(** The streams created in the rounds from [i] on. *)
Lemma create_streams_spec k i g :
  cu_up (cu_ctx g) -> 0 <= i -> i + Z.of_nat k = MAX_STREAM_NR -> gpu_wf (cu_gpu g) ->
  (forall j, 0 <= j < i -> nthZ (streamuses (cu_gpu g)) j = 0) ->
  forall g', create_streams k i g = Ok g' -> exists ss, cu_up (cu_ctx g') /\ gpu_wf (cu_gpu g') /\
    length ss = k /\ streams (cu_gpu g') = take (Z.to_nat i) (streams (cu_gpu g)) ++ ss /\
    (forall j, 0 <= j < MAX_STREAM_NR -> nthZ (streamuses (cu_gpu g')) j = 0) /\
    stream_objects ss ## cu_live (cu_ctx g) /\ NoDup ss /\
    cu_live (cu_ctx g') = stream_objects ss ∪ cu_live (cu_ctx g) /\
    pin_calls (cu_gpu g') = pin_calls (cu_gpu g) /\
    devbuf g' = devbuf g /\ devbuf4vma g' = devbuf4vma g.
Proof.
  revert i g. induction k as [|k IH]; intros i g Hc Hi Hk [Ls Lu] Hz g' E; cbn [create_streams] in E.
  { injection E as <-. exists []. unfold stream_objects. simpl. replace (Z.to_nat i) with (length (streams (cu_gpu g))) by lia.
    rewrite take_ge, app_nil_r, union_empty_l_L by lia. split_and!; try done; try set_solver;
      [intros j Hj; apply Hz; lia | constructor]. }
  destruct (cudaStreamCreate (cu_ctx g)) as [[e c] s] eqn:Ec.
  apply bind_ok in E as (c1 & [-> ->]%csc_ok & E).
  destruct (cudaStreamCreate_law _ _ _ Hc Ec) as (Hc' & Hfr & Hl).
  rewrite !array_set_ok in E by lia. cbn [mbind outcome_bind] in E.
  set (g1 := set_cuda g _ c) in E.
  destruct (fun a b d e f => IH (i + 1) g1 a b d e f g' E) as (ss & Hup & Hwf & Hlen & Hst & Hu & Hd & Hnd & Hlive & Hrest).
  { done. } { lia. } { lia. } { split; simpl; by rewrite length_insert. }
  { intros j Hj. simpl. rewrite nthZ_insert by lia. case_bool_decide; [done | apply Hz; lia]. }
  simpl in Hd, Hlive, Hst, Hrest. rewrite Hl in Hd, Hlive.
  exists (s :: ss). unfold stream_objects in *. simpl. split_and!; try apply Hrest; try done.
  - by rewrite Hlen.
  - rewrite Hst. replace (Z.to_nat (i + 1)) with (S (Z.to_nat i)) by lia.
    rewrite (take_S_r _ _ s) by (apply list_lookup_insert_eq; lia).
    rewrite take_insert_ge by lia. by rewrite <- app_assoc.
  - set_solver.
  - constructor; [|done]. intros Hin. apply (Hd (CuStream s)); [|set_solver].
    apply elem_of_list_to_set, list_elem_of_fmap_2, Hin.
  - rewrite Hlive. set_solver.
Qed.

Lemma destroy_streams_spec k i g :
  cu_up (cu_ctx g) -> 0 <= i -> i + Z.of_nat k = MAX_STREAM_NR -> gpu_wf (cu_gpu g) ->
  let ss := drop (Z.to_nat i) (streams (cu_gpu g)) in
  NoDup ss -> stream_objects ss ⊆ cu_live (cu_ctx g) ->
  exists g', destroy_streams k i g = Ok g' /\ cu_up (cu_ctx g') /\
    cu_live (cu_ctx g') = cu_live (cu_ctx g) ∖ stream_objects ss.
Proof.
  revert i g. induction k as [|k IH]; intros i g Hc Hi Hk [Ls Lu] ss Hnd Hsub; cbn [destroy_streams].
  { exists g. unfold ss, stream_objects. rewrite drop_ge by lia. simpl. split_and!; [done..|set_solver]. }
  destruct (lookup_lt_is_Some_2 (streams (cu_gpu g)) (Z.to_nat i)) as [s Hs]; [lia|].
  rewrite (array_get_ok _ _ s) by done. cbn [mbind outcome_bind].
  assert (Ess : ss = s :: drop (Z.to_nat (i + 1)) (streams (cu_gpu g))).
  { unfold ss. rewrite (drop_S _ s) by done. do 3 f_equal. lia. }
  rewrite Ess in Hnd, Hsub. apply NoDup_cons in Hnd as [Hsn Hnd]. unfold stream_objects in Hsub. simpl in Hsub.
  destruct (cudaStreamDestroy_law (cu_ctx g) s Hc) as (c & -> & Hc' & Hl); [set_solver|].
  cbn [csc mbind outcome_bind mret outcome_ret].
  destruct (IH (i + 1) (set_ctx g c)) as (g' & -> & Hup & Hlive); [done | lia | lia | done | done | |].
  { simpl. rewrite Hl. intros o Ho. apply elem_of_difference. split; [set_solver|].
    intros ->%elem_of_singleton. apply elem_of_list_to_set, list_elem_of_fmap in Ho as (s' & [= <-] & Hs').
    done. }
  exists g'. split_and!; [done..|]. simpl in Hlive. rewrite Hlive, Hl, Ess. unfold stream_objects. simpl.
  set_solver.
Qed.

Lemma cuda_init_spec g g' :
  cu_up (cu_ctx g) -> gpu_wf (cu_gpu g) -> cuda_gpu_init g = Ok g' ->
  exists ss, cu_up (cu_ctx g') /\ gpu_wf (cu_gpu g') /\
    (forall i, stream_used (cu_gpu g') i = false) /\ streams (cu_gpu g') = ss /\ NoDup ss /\
    stream_objects ss ## cu_live (cu_ctx g) /\
    DevMem (devbuf g') ∉ cu_live (cu_ctx g) /\ DevMem (devbuf4vma g') ∉ cu_live (cu_ctx g) /\
    devbuf g' <> devbuf4vma g' /\
    cu_live (cu_ctx g') = stream_objects ss ∪ {[DevMem (devbuf g'); DevMem (devbuf4vma g')]} ∪
                          cu_live (cu_ctx g).
Proof.
  intros Hc Hwf E. unfold cuda_gpu_init in E.
  apply bind_ok in E as ([c1 d] & E1 & E).
  destruct (alloc_dev_mem_spec _ _ _ _ Hc E1) as (Hc1 & Hd & Hl1).
  apply bind_ok in E as ([c2 dv] & E2 & E).
  destruct (alloc_dev_mem_spec _ _ _ _ Hc1 E2) as (Hc2 & Hdv & Hl2). rewrite Hl1 in Hdv, Hl2.
  destruct (fun a b c d' e => create_streams_spec (Z.to_nat MAX_STREAM_NR) 0 (mk_cuda (cu_gpu g) c2 d dv)
    a b c d' e g' E) as (ss & Hup & Hwf' & Hlen & Hst & Hu & Hdis & Hnd & Hlive & _ & Ed & Ev);
    [done | lia | done | done | intros; lia|].
  simpl in Hdis, Hlive, Hst, Ed, Ev. rewrite Hl2 in Hdis, Hlive. exists ss. rewrite Ed, Ev.
  split_and!; [done | done | | done | done | | done | | | ].
  - intros i. unfold stream_used. destruct (valid_stream i) eqn:Hi; [|done].
    apply valid_stream_true in Hi. by rewrite Hu.
  - clear -Hdis. set_solver.
  - clear -Hdv. set_solver.
  - intros <-. clear -Hdv. set_solver.
  - rewrite Hlive. clear. set_solver.
Qed.

Lemma cuda_finit_spec g live ss :
  cu_up (cu_ctx g) -> gpu_wf (cu_gpu g) -> streams (cu_gpu g) = ss -> NoDup ss ->
  stream_objects ss ## live -> DevMem (devbuf g) ∉ live -> DevMem (devbuf4vma g) ∉ live ->
  devbuf g <> devbuf4vma g ->
  cu_live (cu_ctx g) = stream_objects ss ∪ {[DevMem (devbuf g); DevMem (devbuf4vma g)]} ∪ live ->
  exists g', cuda_gpu_finit g = Ok g' /\ cu_up (cu_ctx g') /\ cu_live (cu_ctx g') = live.
Proof.
  intros Hc Hwf Hss Hnd Hdis Hd Hdv Hne Hlive. unfold cuda_gpu_finit.
  assert (Hno : forall p, DevMem p ∉ stream_objects ss).
  { intros p Hp. apply elem_of_list_to_set, list_elem_of_fmap in Hp as (? & ? & _). done. }
  destruct (free_dev_mem_spec (cu_ctx g) (devbuf g) Hc) as (c1 & -> & Hc1 & Hl1); [set_solver|].
  cbn [mbind outcome_bind].
  destruct (free_dev_mem_spec c1 (devbuf4vma g) Hc1) as (c2 & -> & Hc2 & Hl2); [set_solver|].
  cbn [mbind outcome_bind].
  destruct (destroy_streams_spec (Z.to_nat MAX_STREAM_NR) 0 (set_ctx g c2)) as (g' & -> & Hup & Hl);
    [done | lia | done | done | simpl; by rewrite Hss |
     simpl; rewrite Hss, Hl2, Hl1, Hlive; set_solver |].
  exists g'. split_and!; [done..|]. rewrite Hl. simpl. rewrite Hss, Hl2, Hl1, Hlive.
  apply set_eq. intros o. specialize (Hdis o). set_unfold. naive_solver.
Qed.

Lemma alloc_pinned_spec g n g' p :
  cu_up (cu_ctx g) -> cuda_alloc_pinned_mem g n = Ok (g', p) ->
  cu_up (cu_ctx g') /\ cu_gpu g' = cu_gpu g /\ HostMem p ∉ cu_live (cu_ctx g) /\
  cu_live (cu_ctx g') = {[HostMem p]} ∪ cu_live (cu_ctx g).
Proof.
  intros Hc E. unfold cuda_alloc_pinned_mem in E. destruct (cudaHostAlloc _ _) as [[e c] p1] eqn:Eh.
  apply csc_ok in E as [-> [= -> ->]]. destruct (cudaHostAlloc_law _ _ _ _ Hc Eh) as (? & ? & ?). done.
Qed.

Lemma free_pinned_spec g p : cu_up (cu_ctx g) -> HostMem p ∈ cu_live (cu_ctx g) ->
  exists g', cuda_free_pinned_mem g p = Ok g' /\ cu_up (cu_ctx g') /\
    cu_live (cu_ctx g') = cu_live (cu_ctx g) ∖ {[HostMem p]}.
Proof.
  intros Hc Hp. destruct (cudaFreeHost_law (cu_ctx g) p Hc Hp) as (c & E & ? & ?).
  unfold cuda_free_pinned_mem. rewrite E. by exists (set_ctx g c).
Qed.

(** ** The operations between start and end *)

Context `{!CudaDriver C, !CudaWork C}.

Inductive request_op : Type :=
  | OpAllocMem (hb hv : kgpu_gpu_mem_info) (q : kgpu_service_request)
  | OpFreeMem (hv : kgpu_gpu_mem_info) (q : kgpu_service_request)
  | OpAllocStream (q : kgpu_service_request)
  | OpFreeStream (q : kgpu_service_request)
  | OpFinished (q : kgpu_service_request)
  | OpPrepare (q : kgpu_service_request)
  | OpPost (q : kgpu_service_request).

Definition run_op (o : request_op) g : outcome (cuda_state C) :=
  match o with
  | OpAllocMem hb hv q => '(g, _, _) ← cuda_alloc_device_mem g hb hv q; mret g
  | OpFreeMem hv q => '(g, _) ← cuda_free_device_mem g hv q; mret g
  | OpAllocStream q => '(g, _, _) ← cuda_alloc_stream g q; mret g
  | OpFreeStream q => cuda_free_stream g q
  | OpFinished q => '(g, _) ← cuda_finished g q; mret g
  | OpPrepare q => '(g, _) ← default_prepare g q; mret g
  | OpPost q => '(g, _) ← default_post g q; mret g
  end.

Fixpoint run_ops (l : list request_op) g : outcome (cuda_state C) :=
  match l with
  | [] => mret g
  | o :: l => g ← run_op o g; run_ops l g
  end.

(** What an operation leaves for the end. *)
Definition kept g g' : Prop :=
  cu_up (cu_ctx g') /\ gpu_wf (cu_gpu g') /\ cu_live (cu_ctx g') = cu_live (cu_ctx g) /\
  streams (cu_gpu g') = streams (cu_gpu g) /\ devbuf g' = devbuf g /\ devbuf4vma g' = devbuf4vma g.

Lemma kept_trans g g1 g2 : kept g g1 -> kept g1 g2 -> kept g g2.
Proof. intros (_ & _ & A1 & A2 & A3 & A4) (? & ? & B1 & B2 & B3 & B4). split_and!; congruence. Qed.

Lemma kept_ctx g g1 c :
  kept g g1 -> cu_up c /\ cu_live c = cu_live (cu_ctx g1) -> kept g (set_ctx g1 c).
Proof. intros (_ & ? & A1 & A2 & A3 & A4) [? E]. split_and!; try done. simpl. by rewrite E. Qed.

Lemma kept_log g g1 c k :
  kept g g1 -> cu_up c /\ cu_live c = cu_live (cu_ctx g1) ->
  kept g (set_cuda g1 (log_pin (cu_gpu g1) k) c).
Proof. intros (_ & ? & A1 & A2 & A3 & A4) [? E]. split_and!; try done. simpl. by rewrite E. Qed.

Lemma for_pins_kept (f : cuda_state C -> Z -> Z -> outcome (cuda_state C)) g g1 ad sz n g2 :
  (forall g1 a b g2, kept g g1 -> f g1 a b = Ok g2 -> kept g g2) -> kept g g1 ->
  for_pins f g1 ad sz n = Ok g2 -> kept g g2.
Proof.
  intros Hf. unfold for_pins. generalize (seq 0 (Z.to_nat n)) as l. intros l. revert g1.
  assert (Hbad : forall l e, foldl (fun (g : outcome (cuda_state C)) i => g ← g; f g (ad !!! i) (sz !!! i))
    (Fault e) l = Fault e) by (intros l0 e; induction l0; done).
  induction l as [|i l IH]; intros g1 Hk E; [by injection E as <-|]. simpl in E.
  destruct (f g1 (ad !!! i) (sz !!! i)) as [g3|e] eqn:E1; [|by rewrite Hbad in E].
  eapply IH; [|exact E]. by eapply Hf.
Qed.

Lemma pin_kept g g1 a b g2 : kept g g1 -> cuda_pin_mem g1 a b = Ok g2 -> kept g g2.
Proof.
  intros Hk E. unfold cuda_pin_mem in E. destruct (cudaHostRegister _ _ _) as [e c] eqn:Er.
  apply csc_ok in E as [-> ->]. apply kept_log; [done|]. eapply register_work; [apply Hk | exact Er].
Qed.

Lemma unpin_kept g g1 a g2 : kept g g1 -> cuda_unpin_mem g1 a = Ok g2 -> kept g g2.
Proof.
  intros Hk E. unfold cuda_unpin_mem in E. destruct (cudaHostUnregister _ _) as [e c] eqn:Er.
  apply csc_ok in E as [-> ->]. apply kept_log; [done|]. eapply unregister_work; [apply Hk | exact Er].
Qed.

Lemma run_op_kept o g g' : cu_up (cu_ctx g) -> gpu_wf (cu_gpu g) -> run_op o g = Ok g' -> kept g g'.
Proof.
  intros Hu Hwf E. assert (kept g g) as Hk by by split_and!.
  destruct o as [hb hv q | hv q | q | q | q | q | q]; cbn [run_op] in E.
  - apply bind_ok in E as ([[g1 q1] r] & E & [= <-]). rewrite cuda_alloc_device_mem_at in E.
    unfold alloc_device_mem_at in E. repeat case_match; simplify_eq.
    apply bind_ok in E as (g2 & E & [= <- _ _]). eapply for_pins_kept; [apply pin_kept | done | exact E].
  - apply bind_ok in E as ([g1 q1] & E & [= <-]). rewrite cuda_free_device_mem_at in E.
    unfold free_device_mem_at in E. repeat case_match; simplify_eq.
    apply bind_ok in E as (g2 & E & [= <- _]). eapply for_pins_kept; [|done | exact E].
    intros g3 a b g4. apply unpin_kept.
  - apply bind_ok in E as ([[g1 q1] r] & E & [= <-]). unfold cuda_alloc_stream in E.
    apply bind_ok in E as ([[u q2] r2] & E & [= <- _ _]).
    pose proof (alloc_stream_streams _ _ _ _ _ E) as Es.
    destruct (gpu_alloc_stream_law (cu_gpu g) q Hwf) as [[E' _]|(u' & i & s & E' & Hw & _)];
      rewrite E in E'; injection E' as -> _ _; by split_and!.
  - unfold cuda_free_stream in E. apply bind_ok in E as (u & E & [= <-]).
    destruct (gpu_free_stream_spec (cu_gpu g) q Hwf) as (u' & E' & Hw & _). rewrite E in E'. injection E' as <-.
    split_and!; try done. simpl. unfold gpu_free_stream in E. destruct (andb _ _); [|by injection E as <-].
    apply bind_ok in E as (us & _ & [= <-]). done.
  - apply bind_ok in E as ([g1 r] & E & [= <-]). unfold cuda_finished, cuda_check_stream_done in E.
    apply bind_ok in E as (s & _ & E). destruct (cudaStreamQuery _ _) as [e c] eqn:Eq.
    destruct e; [injection E as <- _..|done]; apply (kept_ctx g g c Hk);
      eapply query_work; [exact Hu | exact Eq | done | exact Hu | exact Eq | done].
  - apply bind_ok in E as ([g1 r] & E & [= <-]). unfold default_prepare in E.
    apply bind_ok in E as (s & _ & E). destruct (cudaMemcpyAsync _ _ _ _ _ _) as [e c] eqn:Ec.
    apply bind_ok in E as (c1 & [-> ->]%csc_ok & E). injection E as <- _.
    apply (kept_ctx g g c Hk). by eapply copy_work.
  - apply bind_ok in E as ([g1 r] & E & [= <-]). unfold default_post in E.
    apply bind_ok in E as (s & _ & E). destruct (cudaMemcpyAsync _ _ _ _ _ _) as [e c] eqn:Ec.
    apply bind_ok in E as (c1 & [-> ->]%csc_ok & E). injection E as <- _.
    apply (kept_ctx g g c Hk). by eapply copy_work.
Qed.

Lemma run_ops_kept l g g' : cu_up (cu_ctx g) -> gpu_wf (cu_gpu g) -> run_ops l g = Ok g' -> kept g g'.
Proof.
  revert g. induction l as [|o l IH]; intros g Hu Hwf E; [injection E as <-; by split_and!|].
  apply bind_ok in E as (g1 & E1 & E). pose proof (run_op_kept o g g1 Hu Hwf E1) as Hk.
  eapply kept_trans; [exact Hk|]. apply IH; [apply Hk.. | exact E].
Qed.

(** C34: the CUDA back end of a run of the helper, in the order of [kh_init]
    and [kh_finit], with any operations for requests in between, on a device
    whose allocations may fail.  A failing call ends the process ([csc]); a
    start that returns gives eight different new streams, all free, and two
    different new device buffers; and after any operations that return, the
    end succeeds and releases exactly what the start allocated: the live
    objects of the driver are those from before. *)
Theorem cuda_lifecycle_balanced g g1 h g2 l g3 :
  cu_up (cu_ctx g) -> gpu_wf (cu_gpu g) ->
  cuda_alloc_pinned_mem g (KGPU_BUF_SIZE + PAGE_SIZE) = Ok (g1, h) -> cuda_gpu_init g1 = Ok g2 ->
  run_ops l g2 = Ok g3 ->
  (gpu_wf (cu_gpu g2) /\ (forall i, stream_used (cu_gpu g2) i = false) /\
   NoDup (streams (cu_gpu g2)) /\ devbuf g2 <> devbuf4vma g2 /\
   cu_live (cu_ctx g2) = stream_objects (streams (cu_gpu g2)) ∪
     {[DevMem (devbuf g2); DevMem (devbuf4vma g2); HostMem h]} ∪ cu_live (cu_ctx g) /\
   stream_objects (streams (cu_gpu g2)) ## cu_live (cu_ctx g)) /\
  exists g4 g5, cuda_gpu_finit g3 = Ok g4 /\ cuda_free_pinned_mem g4 h = Ok g5 /\
    cu_live (cu_ctx g5) = cu_live (cu_ctx g).
Proof.
  intros Hc Hwf E1 E2 E3. destruct (alloc_pinned_spec _ _ _ _ Hc E1) as (Hc1 & Eg & Hh & Hl1).
  destruct (cuda_init_spec g1 g2 Hc1 ltac:(by rewrite Eg) E2)
    as (ss & Hc2 & Hwf2 & Hu & Hss & Hnd & Hdis & Hd & Hdv & Hne & Hl2).
  destruct (run_ops_kept l g2 g3 Hc2 Hwf2 E3) as (Hc3 & Hwf3 & Hl3 & Es & Ed & Ev).
  destruct (cuda_finit_spec g3 (cu_live (cu_ctx g1)) ss) as (g4 & E4 & Hc4 & Hl4);
    [done | done | congruence | done | done | by rewrite Ed | by rewrite Ev | by rewrite Ed, Ev |
     by rewrite Hl3, Ed, Ev |].
  destruct (free_pinned_spec g4 h Hc4) as (g5 & E5 & _ & Hl5); [set_solver|].
  split.
  - rewrite Hss. split_and!; try done; [rewrite Hl2, Hl1; set_solver | set_solver].
  - exists g4, g5. split_and!; [done..|]. rewrite Hl5, Hl4, Hl1. set_solver.
Qed.

End proofs.

(** ** The copies of the default operations *)

Record copy : Type := mk_copy {
  cp_dst : Z;
  cp_src : Z;
  cp_size : Z;
  cp_kind : copy_kind;
  cp_stream : Z
}.

(** The copies given to the driver, in order; pinning gives it none. *)
Class CudaCopies (C : Type) `{CudaDriver C, CudaObjects C} : Type := {
  cu_copies : C -> list copy;
  cudaMemcpyAsync_law c dst src n k s : cu_up c ->
    exists c', cudaMemcpyAsync c dst src n k s = (cudaSuccess, c') /\ cu_up c' /\
      cu_copies c' = cu_copies c ++ [mk_copy dst src n k s];
  cudaHostRegister_law c p n : cu_up c ->
    exists c', cudaHostRegister c p n = (cudaSuccess, c') /\ cu_up c' /\ cu_copies c' = cu_copies c
}.

(** [n] bytes at [p] in one of the two host buffers, or in one of the two
    device buffers. *)
Definition range_in (b : kgpu_gpu_mem_info) (p n : Z) : Prop :=
  ADDR_WITHIN p (mi_uva b) (mi_size b) = true /\ 0 <= n /\ p + n <= mi_uva b + mi_size b.

Definition host_range (hb hv : kgpu_gpu_mem_info) (p n : Z) : Prop := range_in hb p n \/ range_in hv p n.

Definition device_range (db dv : Z) (hb hv : kgpu_gpu_mem_info) (p n : Z) : Prop :=
  range_in (mk_mem_info db (mi_size hb)) p n \/ range_in (mk_mem_info dv (mi_size hv)) p n.

Lemma host_range_in hb hv p n : host_range hb hv p n -> in_host hb hv p.
Proof. intros [[? _]|[? _]]; [by left | by right]. Qed.

(** The image of a range inside a host buffer is a range of the device. *)
Lemma device_range_image db dv hb hv p n :
  layout_ok db dv hb hv -> host_range hb hv p n ->
  device_range db dv hb hv (if ADDR_WITHIN p (mi_uva hb) (mi_size hb) then ADDR_REBASE db (mi_uva hb) p
                            else ADDR_REBASE dv (mi_uva hv) p) n.
Proof.
  intros Hl Hr. unfold device_range, range_in. simpl.
  destruct (ADDR_WITHIN p (mi_uva hb) (mi_size hb)) eqn:E.
  - destruct (rebase_image db _ _ _ (lo_hb _ _ _ _ Hl) (lo_db _ _ _ _ Hl) E) as [E1 E2].
    left. destruct Hr as [(_ & ? & ?)|(Hv & _)]; [split_and!; [done | done | lia]|].
    rewrite (lo_disjoint _ _ _ _ Hl p E) in Hv. done.
  - destruct Hr as [(? & _)|(Hv & ? & ?)]; [congruence|].
    destruct (rebase_image dv _ _ _ (lo_hv _ _ _ _ Hl) (lo_dv _ _ _ _ Hl) Hv) as [E1 E2].
    right. split_and!; [done | done | lia].
Qed.

Section copies.
Context {C : Type} `{CudaCopies C}.
Implicit Types g : cuda_state C.

(** What pinning leaves of the back end. *)
Definition same_back_end g g' : Prop :=
  cu_up (cu_ctx g') /\ cu_copies (cu_ctx g') = cu_copies (cu_ctx g) /\
  streams (cu_gpu g') = streams (cu_gpu g) /\ streamuses (cu_gpu g') = streamuses (cu_gpu g) /\
  devbuf g' = devbuf g /\ devbuf4vma g' = devbuf4vma g.

Lemma cuda_pin_same g g1 p n :
  same_back_end g g1 -> exists g2, cuda_pin_mem g1 p n = Ok g2 /\ same_back_end g g2.
Proof.
  intros (Hu & Hc & Hrest). unfold cuda_pin_mem.
  destruct (cudaHostRegister_law (cu_ctx g1) p (round_up n PAGE_SIZE) Hu) as (c & -> & Hu' & Hc').
  eexists. split; [done|]. split; [done|]. simpl. by rewrite Hc'.
Qed.

(** A request that has its device memory and its stream: the copies so far
    are the same, and the device pointers are those of its buffers. *)
Lemma cuda_request_ready g hb hv q :
  cu_up (cu_ctx g) -> gpu_wf (cu_gpu g) -> layout_ok (devbuf g) (devbuf4vma g) hb hv ->
  host_range hb hv (sr_hin q) (sr_insize q) -> host_range hb hv (sr_hout q) (sr_outsize q) ->
  in_host hb hv (sr_hdata q) -> (exists i, valid_stream i = true /\ stream_used (cu_gpu g) i = false) ->
  exists g1 q1 g2 q2,
    cuda_alloc_device_mem g hb hv q = Ok (g1, q1, 0) /\ cuda_alloc_stream g1 q1 = Ok (g2, q2, 0) /\
    cu_up (cu_ctx g2) /\ cu_copies (cu_ctx g2) = cu_copies (cu_ctx g) /\ gpu_wf (cu_gpu g2) /\
    cuda_get_stream g2 (sr_stream_id q2) = Ok (sr_stream q2) /\
    (sr_hin q2 = sr_hin q /\ sr_insize q2 = sr_insize q /\ sr_hout q2 = sr_hout q /\
     sr_outsize q2 = sr_outsize q) /\
    device_range (devbuf g) (devbuf4vma g) hb hv (sr_din q2) (sr_insize q) /\
    device_range (devbuf g) (devbuf4vma g) hb hv (sr_dout q2) (sr_outsize q).
Proof.
  intros Hu Hwf Hl Hi Ho Hd (f & Hv & Hf). rewrite cuda_alloc_device_mem_at.
  destruct (alloc_device_mem_keeps cuda_pin_mem (same_back_end g) (devbuf g) (devbuf4vma g) g hb hv q)
    as (g1 & din & dout & ddata & E1 & Hu1 & Hc1 & Es & Eu & _); [apply cuda_pin_same | done|].
  pose proof (alloc_device_mem_at_result _ _ _ _ _ _ _ _ _ _ E1) as [Eq _].
  rewrite (alloc_pointers_device _ _ hb hv q Hd) in Eq. injection Eq as Edin Edout _.
  assert (Hwf1 : gpu_wf (cu_gpu g1)) by (unfold gpu_wf; by rewrite Es, Eu).
  destruct (alloc_stream_first_free (cu_gpu g1) (with_device q din dout ddata) Hwf1)
    as [[_ Hall]|(i & st & u & E2 & Hr & Hst & _ & _ & Hwf2 & _)].
  { apply valid_stream_true, Hall in Hv. unfold stream_used in *. rewrite Eu in Hv. congruence. }
  assert (Eu2 : streams u = streams (cu_gpu g1)).
  { apply alloc_stream_streams in E2. done. }
  exists g1, (with_device q din dout ddata), (set_cuda g1 u (cu_ctx g1)),
    (with_stream (with_device q din dout ddata) i st).
  split_and!; try done.
  - unfold cuda_alloc_stream. by rewrite E2.
  - unfold cuda_get_stream. simpl. rewrite Eu2.
    rewrite (proj2 (Z.ltb_ge i 0)), (proj2 (Z.leb_gt MAX_STREAM_NR i)) by lia. simpl.
    by apply array_get_ok; [lia|].
  - simpl. rewrite Edin. by apply device_range_image.
  - simpl. rewrite Edout. by apply device_range_image.
Qed.

(** The course of a request through the default operations on CUDA: with
    its buffers inside the helper's two host buffers and a free stream, memory
    and stream are assigned, [default_prepare] enqueues the copy of exactly
    the input to the device and [default_post] that of exactly the output
    back, in this order on the request's own stream, and both copies stay
    inside the device buffers. *)
Theorem default_operations_copy g hb hv q :
  cu_up (cu_ctx g) -> gpu_wf (cu_gpu g) -> layout_ok (devbuf g) (devbuf4vma g) hb hv ->
  host_range hb hv (sr_hin q) (sr_insize q) -> host_range hb hv (sr_hout q) (sr_outsize q) ->
  in_host hb hv (sr_hdata q) -> (exists i, valid_stream i = true /\ stream_used (cu_gpu g) i = false) ->
  exists g1 q1 g2 q2 s g3 g4,
    cuda_alloc_device_mem g hb hv q = Ok (g1, q1, 0) /\ cuda_alloc_stream g1 q1 = Ok (g2, q2, 0) /\
    cuda_get_stream g2 (sr_stream_id q2) = Ok s /\
    default_prepare g2 q2 = Ok (g3, 0) /\ default_post g3 q2 = Ok (g4, 0) /\
    cu_copies (cu_ctx g4) = cu_copies (cu_ctx g) ++
      [mk_copy (sr_din q2) (sr_hin q) (sr_insize q) cudaMemcpyHostToDevice s;
       mk_copy (sr_hout q) (sr_dout q2) (sr_outsize q) cudaMemcpyDeviceToHost s] /\
    device_range (devbuf g) (devbuf4vma g) hb hv (sr_din q2) (sr_insize q) /\
    device_range (devbuf g) (devbuf4vma g) hb hv (sr_dout q2) (sr_outsize q).
Proof.
  intros Hu Hwf Hl Hi Ho Hd Hfree.
  destruct (cuda_request_ready g hb hv q Hu Hwf Hl Hi Ho Hd Hfree)
    as (g1 & q1 & g2 & q2 & E1 & E2 & Hu2 & Hc2 & Hwf2 & Hs & (<- & <- & <- & <-) & Hin & Hout).
  destruct (cudaMemcpyAsync_law (cu_ctx g2) (sr_din q2) (sr_hin q2) (sr_insize q2)
    cudaMemcpyHostToDevice (sr_stream q2) Hu2) as (c3 & E3 & Hu3 & Hc3).
  destruct (cudaMemcpyAsync_law c3 (sr_hout q2) (sr_dout q2) (sr_outsize q2)
    cudaMemcpyDeviceToHost (sr_stream q2) Hu3) as (c4 & E4 & _ & Hc4).
  exists g1, q1, g2, q2, (sr_stream q2), (set_ctx g2 c3), (set_ctx (set_ctx g2 c3) c4).
  split_and!; try done.
  - unfold default_prepare. rewrite Hs. cbn [mbind outcome_bind]. by rewrite E3.
  - unfold default_post. change (cuda_get_stream (set_ctx g2 c3)) with (cuda_get_stream g2). rewrite Hs.
    cbn [mbind outcome_bind]. change (cu_ctx (set_ctx g2 c3)) with c3. by rewrite E4.
  - simpl. by rewrite Hc4, Hc3, Hc2, <- app_assoc.
Qed.

End copies.

(** ** A driver for the examples

    It hands out increasing addresses and records its live objects and the
    copies it is given. *)

Record tracer : Type := mk_tracer {
  tr_live : gset cuda_object;
  tr_next : Z;
  tr_copies : list copy
}.

Definition object_address (o : cuda_object) : Z :=
  match o with DevMem p => p | HostMem p => p | CuStream s => s end.

Definition tracer_alloc (t : tracer) (mk : Z -> cuda_object) (n : Z) : cudaError * tracer * Z :=
  (cudaSuccess, mk_tracer ({[mk (tr_next t)]} ∪ tr_live t) (tr_next t + Z.max 1 n) (tr_copies t), tr_next t).

Definition tracer_free (t : tracer) (o : cuda_object) : cudaError * tracer :=
  if decide (o ∈ tr_live t) then (cudaSuccess, mk_tracer (tr_live t ∖ {[o]}) (tr_next t) (tr_copies t))
  else (cudaErrorOther, t).

#[global] Instance tracer_driver : CudaDriver tracer := {
  cudaHostRegister t _ _ := (cudaSuccess, t);
  cudaHostUnregister t _ := (cudaSuccess, t);
  cudaStreamQuery t _ := (cudaSuccess, t)
}.

#[global] Instance tracer_runtime : CudaRuntime tracer := {
  cudaMalloc t n := tracer_alloc t DevMem n;
  cudaFree t p := tracer_free t (DevMem p);
  cudaStreamCreate t := tracer_alloc t CuStream 1;
  cudaStreamDestroy t s := tracer_free t (CuStream s);
  cudaHostAlloc t n := tracer_alloc t HostMem n;
  cudaFreeHost t p := tracer_free t (HostMem p);
  cudaMemcpyAsync t dst src n k s :=
    (cudaSuccess, mk_tracer (tr_live t) (tr_next t) (tr_copies t ++ [mk_copy dst src n k s]))
}.

Definition tracer_up (t : tracer) : Prop := forall o, o ∈ tr_live t -> object_address o < tr_next t.

Lemma tracer_alloc_law mk t n t' p : (forall p, object_address (mk p) = p) -> tracer_up t ->
  tracer_alloc t mk n = (cudaSuccess, t', p) ->
  tracer_up t' /\ mk p ∉ tr_live t /\ tr_live t' = {[mk p]} ∪ tr_live t.
Proof.
  intros Hmk Ht [= <- <-]. split_and!; [|intros Hin%Ht; rewrite Hmk in Hin; lia | done].
  intros o [->%elem_of_singleton|Ho]%elem_of_union; simpl; [rewrite Hmk; lia | specialize (Ht o Ho); lia].
Qed.

Lemma tracer_free_law t o : tracer_up t -> o ∈ tr_live t -> exists t', tracer_free t o = (cudaSuccess, t') /\
  tracer_up t' /\ tr_live t' = tr_live t ∖ {[o]}.
Proof.
  intros Ht Ho. unfold tracer_free. rewrite decide_True by done. eexists. split; [done|].
  split; [|done]. intros o' [Ho' _]%elem_of_difference. by apply Ht.
Qed.

#[global, refine] Instance tracer_objects : CudaObjects tracer := {
  cu_up := tracer_up; cu_live := tr_live;
  cudaMalloc_law c n c' p := tracer_alloc_law DevMem c n c' p (fun _ => eq_refl);
  cudaHostAlloc_law c n c' p := tracer_alloc_law HostMem c n c' p (fun _ => eq_refl);
  cudaStreamCreate_law c c' s := tracer_alloc_law CuStream c 1 c' s (fun _ => eq_refl);
  cudaFree_law c p := tracer_free_law c (DevMem p);
  cudaFreeHost_law c p := tracer_free_law c (HostMem p);
  cudaStreamDestroy_law c s := tracer_free_law c (CuStream s)
}.
Defined.

#[global] Instance tracer_work : CudaWork tracer.
Proof.
  split.
  - by intros c p n c' Hc [= <-].
  - by intros c p c' Hc [= <-].
  - by intros c s e c' Hc [= <- <-].
  - by intros c dst src n k s c' Hc [= <-].
Qed.

#[global, refine] Instance tracer_copies : CudaCopies tracer := {
  cu_copies := tr_copies; cudaMemcpyAsync_law := _; cudaHostRegister_law := _ }.
Proof.
  - intros c dst src n k s Hc. eexists. split; [done|]. by split.
  - intros c p n Hc. by exists c.
Defined.

Definition cuda_zero : cuda_state tracer :=
  mk_cuda (mk_gpu (repeat 0 8) (repeat 0 8) []) (mk_tracer ∅ 4096 []) 0 0.

(** A run with the work of one request. *)
Definition ops_example : list request_op :=
  [OpAllocMem hb_example hv_example sr_example; OpAllocStream sr_example; OpPrepare sr_example;
   OpFinished sr_example; OpPost sr_example; OpFreeMem hv_example sr_example; OpFreeStream sr_example].

Lemma cuda_lifecycle_balanced_witness :
  exists g1 h g2 g3 g4 g5,
    cuda_alloc_pinned_mem cuda_zero (KGPU_BUF_SIZE + PAGE_SIZE) = Ok (g1, h) /\
    cuda_gpu_init g1 = Ok g2 /\ run_ops ops_example g2 = Ok g3 /\
    cuda_gpu_finit g3 = Ok g4 /\ cuda_free_pinned_mem g4 h = Ok g5 /\
    cu_live (cu_ctx g5) = ∅.
Proof.
  assert (Hup : cu_up (cu_ctx cuda_zero)) by (intros o Ho; by apply elem_of_empty in Ho).
  assert (exists g1 h, cuda_alloc_pinned_mem cuda_zero (KGPU_BUF_SIZE + PAGE_SIZE) = Ok (g1, h) /\
    exists g2, cuda_gpu_init g1 = Ok g2 /\ exists g3, run_ops ops_example g2 = Ok g3)
    as (g1 & h & E1 & g2 & E2 & g3 & E3).
  { eexists _, _. split; [reflexivity|]. eexists. split; [vm_compute; reflexivity|].
    eexists. vm_compute. reflexivity. }
  destruct (cuda_lifecycle_balanced cuda_zero g1 h g2 ops_example g3 Hup)
    as (_ & g4 & g5 & E4 & E5 & E6); [by vm_compute | exact E1 | exact E2 | exact E3 |].
  exists g1, h, g2, g3, g4, g5. repeat (split; [assumption|]). exact E6.
Defined.

Definition cuda_ready : cuda_state tracer :=
  mk_cuda gpu_example (mk_tracer ∅ 4096 []) (2 ^ 20) (2 ^ 30).

Lemma default_operations_copy_witness :
  exists g1 q1 g2 q2 s g3 g4,
    cuda_alloc_device_mem cuda_ready hb_example hv_example sr_example = Ok (g1, q1, 0) /\
    cuda_alloc_stream g1 q1 = Ok (g2, q2, 0) /\ default_prepare g2 q2 = Ok (g3, 0) /\
    default_post g3 q2 = Ok (g4, 0) /\
    cu_copies (cu_ctx g4) =
      [mk_copy (sr_din q2) 1048600 64 cudaMemcpyHostToDevice s;
       mk_copy 16777216 (sr_dout q2) 100 cudaMemcpyDeviceToHost s].
Proof.
  destruct (default_operations_copy cuda_ready hb_example hv_example sr_example)
    as (g1 & q1 & g2 & q2 & s & g3 & g4 & E1 & E2 & _ & E3 & E4 & E5 & _).
  - intros o Ho. by apply elem_of_empty in Ho.
  - by vm_compute.
  - apply layout_example; simpl; lia.
  - left. split; [reflexivity|]. vm_compute. split; discriminate.
  - right. split; [reflexivity|]. vm_compute. split; discriminate.
  - right. reflexivity.
  - exists 2. by split.
  - exists g1, q1, g2, q2, s, g3, g4. repeat (split; [assumption|]). exact E5.
Defined.
