(* ===== verification/ItemList.v ===== *)
(** * Lists of items of the user-space programs

    service.c and helper.c link heap objects through a [struct list_head]
    member (src/kgpu/include/list.h).  ListHead shows at the level of
    pointers that such a list is the sequence of its items, that
    [list_add_tail] appends and that [list_del] removes; here a list is the
    sequence of the addresses of its items, and a loop keeps the saved
    successor as [list_for_each_safe] does: it is read from the list before
    the body runs, and reading it from an item that has left the list in the
    meantime is a fault. *)

From S2P Require Import Prelude ListHead.

(** [pos->next], where the end of the list is the head: no item. *)
Fixpoint next_in (l : list Z) (x : Z) : outcome (option Z) :=
  match l with
  | [] => Fault WildPointer
  | y :: l => if y =? x then Ok (head l) else next_in l x
  end.

(** [list_del] of the item at [x]. *)
Definition remove_item (l : list Z) (x : Z) : list Z := filter (fun y => y <> x) l.

Definition list_del_item (l : list Z) (x : Z) : outcome (list Z) :=
  if bool_decide (x ∈ l) then mret (remove_item l x) else Fault WildPointer.

Section for_each.
Context {S A : Type} (lst : S -> list Z) (body : A -> Z -> S -> outcome (S * A)) (brk : A -> bool).

(** The loop from [pos] on; [brk] says when the body breaks out of it. *)
Fixpoint for_each_safe_from (fuel : nat) (pos : option Z) (st : S) (acc : A) : outcome (S * A) :=
  match pos with
  | None => mret (st, acc)
  | Some x =>
      match fuel with
      | O => Fault NoFuel
      | Datatypes.S fuel =>
          n ← next_in (lst st) x;
          '(st, acc) ← body acc x st;
          if brk acc then mret (st, acc) else for_each_safe_from fuel n st acc
      end
  end.

(** The fuel is one round for each item of the list at the start. *)
Definition for_each_safe (st : S) (acc : A) : outcome (S * A) :=
  for_each_safe_from (length (lst st)) (head (lst st)) st acc.

(** ** Lemmas *)

(** A loop invariant over the items still to visit.  The body may do what it
    wants with the items before, but the rest has to stay at the end of the
    list. *)
Lemma for_each_safe_from_inv (Inv : list Z -> S -> A -> Prop) fuel rest st acc :
  (forall rest st acc, Inv rest st acc -> exists pre, lst st = pre ++ rest /\ NoDup (lst st)) ->
  (forall x rest st acc, Inv (x :: rest) st acc ->
     exists st' acc', body acc x st = Ok (st', acc') /\ Inv rest st' acc') ->
  Inv rest st acc -> (length rest <= fuel)%nat ->
  exists rest' st' acc', for_each_safe_from fuel (head rest) st acc = Ok (st', acc') /\
    Inv rest' st' acc' /\ (rest' = [] \/ (brk acc' = true /\ (length rest' < length rest)%nat)).
Proof.
  intros Hlst Hbody. revert rest st acc.
  induction fuel as [|fuel IH]; intros rest st acc Hinv Hlen;
    (destruct rest as [|x rest]; [exists [], st, acc; auto|]); simpl in Hlen; [lia|].
  cbn [head for_each_safe_from].
  destruct (Hlst _ _ _ Hinv) as (pre & Hl & Hnd).
  assert (Hn : next_in (lst st) x = Ok (head rest)).
  { rewrite Hl in *. apply NoDup_app in Hnd as (_ & Hpre & _).
    assert (x ∉ pre) as Hx by (intros Hx; apply (Hpre x Hx); left).
    clear -Hx. induction pre as [|y pre IH]; simpl.
    - by rewrite Z.eqb_refl.
    - apply not_elem_of_cons in Hx as [Hxy Hx].
      rewrite (proj2 (Z.eqb_neq y x)) by congruence. by apply IH. }
  rewrite Hn. cbn [mbind outcome_bind].
  destruct (Hbody _ _ _ _ Hinv) as (st1 & acc1 & -> & Hinv1). simpl.
  destruct (brk acc1) eqn:Hb; [exists rest, st1, acc1; auto with lia|].
  destruct (IH rest st1 acc1 Hinv1) as (rest' & st' & acc' & H1 & H2 & H3); [lia|].
  exists rest', st', acc'. split_and!; [done..|]. destruct H3 as [|[]]; auto with lia.
Qed.

Lemma for_each_safe_inv (Inv : list Z -> S -> A -> Prop) st acc :
  (forall rest st acc, Inv rest st acc -> exists pre, lst st = pre ++ rest /\ NoDup (lst st)) ->
  (forall x rest st acc, Inv (x :: rest) st acc ->
     exists st' acc', body acc x st = Ok (st', acc') /\ Inv rest st' acc') ->
  Inv (lst st) st acc ->
  exists rest st' acc', for_each_safe st acc = Ok (st', acc') /\
    Inv rest st' acc' /\ (rest = [] \/ (brk acc' = true /\ (length rest < length (lst st))%nat)).
Proof. intros. by apply for_each_safe_from_inv. Qed.

End for_each.

Lemma elem_of_remove_item l x y : y ∈ remove_item l x <-> y <> x /\ y ∈ l.
Proof. unfold remove_item. rewrite list_elem_of_filter. done. Qed.

Lemma remove_item_NoDup l x : NoDup l -> NoDup (remove_item l x).
Proof. apply NoDup_filter. Qed.

Lemma remove_item_id l x : x ∉ l -> remove_item l x = l.
Proof.
  unfold remove_item. induction l as [|y l IH]; intros Hx; [done|].
  apply not_elem_of_cons in Hx as [Hy Hx].
  rewrite filter_cons_True by congruence. by rewrite IH.
Qed.

Lemma remove_item_app l1 l2 x : remove_item (l1 ++ l2) x = remove_item l1 x ++ remove_item l2 x.
Proof. apply filter_app. Qed.

Lemma remove_item_head l x : x ∉ l -> remove_item (x :: l) x = l.
Proof.
  intros Hx. unfold remove_item at 1. rewrite filter_cons_False by tauto. by apply remove_item_id.
Qed.

Lemma list_del_item_ok l x : x ∈ l -> list_del_item l x = Ok (remove_item l x).
Proof. intros H. unfold list_del_item. by rewrite bool_decide_eq_true_2. Qed.
