(* ===== verification/Services.v ===== *)
(** * The service registry of the helper (src/kgpu/src/userSpace/service.c)

    Services come from shared libraries that are opened at run time.  The
    registry is a list of [struct _kgpu_sitem]; the [struct kgpu_service] an
    item points to is static data of its library, so it is readable as long
    as the library is loaded.  The dynamic linker and the entry points of the
    libraries are parameters; an entry point receives, as in the code, the
    function it has to call to register or unregister a service.  The test
    library of the repository
    (src/services/test/libsrv_test/srv_test.c) is modelled below. *)

From S2P Require Import Prelude KgpuDefs ListHead ItemList.

(** ** Data *)

(** [struct kgpu_service]; function pointers are code addresses. *)
Record kgpu_service : Type := mk_service {
  sv_name : list Z;
  sv_sid : Z;
  sv_compute_size : Z;
  sv_launch : Z;
  sv_prepare : Z;
  sv_post : Z
}.

(** [struct _kgpu_sitem] *)
Record kgpu_sitem : Type := mk_sitem {
  si_s : Z;
  si_libhandle : Z
}.

(** The list [services] holds the addresses of the items; [sitems] are the
    live items, [svc_mem] the readable service structures, and [mallocs] the
    results that the next calls of [malloc] give. *)
Record registry : Type := mk_registry {
  services : list Z;
  sitems : gmap Z kgpu_sitem;
  svc_mem : gmap Z kgpu_service;
  mallocs : list (option Z)
}.

Definition set_items (r : registry) (l : list Z) (m : gmap Z kgpu_sitem) : registry :=
  mk_registry l m (svc_mem r) (mallocs r).

Definition set_svc_mem (r : registry) (m : gmap Z kgpu_service) : registry :=
  mk_registry (services r) (sitems r) m (mallocs r).

Definition malloc_sitem (r : registry) : registry * option Z :=
  match mallocs r with
  | [] => (r, None)
  | a :: l => (mk_registry (services r) (sitems r) (svc_mem r) l, a)
  end.

(** [!strncmp(s, t, n)] on byte arrays: reading past the end of an array that
    has no terminator is a fault. *)
Fixpoint strncmp_eq (n : nat) (s t : list Z) : outcome bool :=
  match n with
  | O => mret true
  | S n =>
      match s, t with
      | a :: s, b :: t =>
          if a =? b then (if a =? 0 then mret true else strncmp_eq n s t) else mret false
      | _, _ => Fault OutOfBounds
      end
  end.

(** ** Lookup and registration *)

Fixpoint lookup_loop (r : registry) (name : list Z) (l : list Z) : outcome (option Z) :=
  match l with
  | [] => mret None
  | e :: l =>
      i ← of_option WildPointer (sitems r !! e);
      s ← of_option WildPointer (svc_mem r !! si_s i);
      same ← strncmp_eq (Z.to_nat KGPU_SERVICE_NAME_SIZE) name (sv_name s);
      if (same : bool) then mret (Some e) else lookup_loop r name l
  end.

(** A [const char *] argument is NULL or points to an array of bytes. *)
Definition lookup_kgpu_sitem (r : registry) (name : option (list Z)) : outcome (option Z) :=
  match name with
  | None => mret None
  | Some name => lookup_loop r name (services r)
  end.

Definition kh_lookup_service (r : registry) (name : option (list Z)) : outcome Z :=
  i ← lookup_kgpu_sitem r name;
  match i with
  | None => mret NULL
  | Some i => it ← of_option WildPointer (sitems r !! i); mret (si_s it)
  end.

Definition kh_register_service (s libhandle : Z) (r : registry) : outcome (registry * Z) :=
  if s =? NULL then mret (r, 1)
  else
    let '(r, i) := malloc_sitem r in
    match i with
    | None => mret (r, 1)
    | Some i =>
        mret (set_items r (services r ++ [i]) (<[i := mk_sitem s libhandle]> (sitems r)), 0)
    end.

Definition __unregister_service (i : option Z) (r : registry) : outcome (registry * Z) :=
  match i with
  | None => mret (r, 1)
  | Some i =>
      l ← list_del_item (services r) i;
      mret (set_items r l (delete i (sitems r)), 0)
  end.

Definition kh_unregister_service (name : option (list Z)) (r : registry) :
    outcome (registry * Z) :=
  i ← lookup_kgpu_sitem r name;
  __unregister_service i r.

(** ** Loading and unloading libraries *)

(** The entry points of a library, [init_service] and [finit_service]. *)
Definition fn_init_service : Type :=
  Z -> (Z -> Z -> registry -> outcome (registry * Z)) -> registry -> outcome (registry * Z).

Definition fn_finit_service : Type :=
  Z -> (option (list Z) -> registry -> outcome (registry * Z)) -> registry ->
  outcome (registry * Z).

(** [lib_of a] is the library whose static data has the address [a]. *)
Class DynLink : Type := {
  dlopen : list Z -> registry -> registry * Z;
  dlsym_init : Z -> option fn_init_service;
  dlsym_finit : Z -> option fn_finit_service;
  dlclose : Z -> registry -> registry;
  glob : list Z -> list (list Z);
  lib_of : Z -> Z
}.

Section loading.
Context `{DynLink}.

Definition kh_load_service (libpath : list Z) (r : registry) : outcome (registry * Z) :=
  let '(r, lh) := dlopen libpath r in
  if lh =? NULL then mret (r, 1)
  else
    match dlsym_init lh with
    | None => mret (dlclose lh r, 1)
    | Some init =>
        '(r, e) ← init lh kh_register_service r;
        if truth e then mret (dlclose lh r, 1) else mret (r, 0)
    end.

(** [snprintf(path, 256, "%s/%s*", dir, SERVICE_LIB_PREFIX)] keeps at most
    255 bytes. *)
Definition service_pattern (dir : list Z) : list Z :=
  take 255 (dir ++ [47] ++ [108; 105; 98; 115; 114; 118; 95] ++ [42]).

Fixpoint load_loop (paths : list (list Z)) (r : registry) (e : Z) : outcome (registry * Z) :=
  match paths with
  | [] => mret (r, e)
  | libpath :: paths =>
      '(r, x) ← kh_load_service libpath r;
      load_loop paths r (swrap32 (e + x))
  end.

Definition kh_load_all_services (dir : list Z) (r : registry) : outcome (registry * Z) :=
  load_loop (glob (service_pattern dir)) r 0.

Definition __unload_service (i : option Z) (r : registry) : outcome (registry * Z) :=
  match i with
  | None => mret (r, 1)
  | Some i =>
      it ← of_option WildPointer (sitems r !! i);
      let lh := si_libhandle it in
      if negb (lh =? NULL) then
        '(r, res) ←
          match dlsym_finit lh with
          | Some finit =>
              '(r, e) ← finit lh kh_unregister_service r;
              if truth e then
                (* the warning prints i->s->name *)
                it ← of_option WildPointer (sitems r !! i);
                _ ← of_option WildPointer (svc_mem r !! si_s it);
                mret (r, 1)
              else mret (r, 0)
          | None =>
              '(r, _) ← __unregister_service (Some i) r;
              mret (r, 0)
          end;
        mret (dlclose lh r, res)
      else
        '(r, _) ← __unregister_service (Some i) r;
        mret (r, 0)
  end.

Definition kh_unload_service (name : option (list Z)) (r : registry) : outcome (registry * Z) :=
  i ← lookup_kgpu_sitem r name;
  __unload_service i r.

Definition kh_unload_all_services (r : registry) : outcome (registry * Z) :=
  for_each_safe services
    (fun e p r => '(r, x) ← __unload_service (Some p) r; mret (r, swrap32 (e + x)))
    (fun _ => false) r 0.

End loading.

(** ** The test library (src/services/test/libsrv_test/srv_test.c) *)

Module SrvTest.

(** The address of the static [empty_srv] and of the four functions. *)
Definition empty_srv : Z := 6144.

Definition empty_cs : Z := 5001.

Definition empty_launch : Z := 5002.

Definition empty_prepare : Z := 5003.

Definition empty_post : Z := 5004.

(** "empty_service" in the array of 32 bytes. *)
Definition empty_name : list Z :=
  [101; 109; 112; 116; 121; 95; 115; 101; 114; 118; 105; 99; 101] ++ repeat 0 19.

Definition init_service : fn_init_service := fun lh reg_srv r =>
  let r := set_svc_mem r
    (<[empty_srv := mk_service empty_name 1 empty_cs empty_launch empty_prepare empty_post]>
       (svc_mem r)) in
  reg_srv empty_srv lh r.

Definition finit_service : fn_finit_service := fun lh unreg_srv r =>
  s ← of_option WildPointer (svc_mem r !! empty_srv);
  unreg_srv (Some (sv_name s)) r.

End SrvTest.

(** ** Specification: an association list *)

(** The string in an array of [n] bytes. *)
Fixpoint cstr (n : nat) (s : list Z) : list Z :=
  match n, s with
  | S n, a :: s => if a =? 0 then [] else a :: cstr n s
  | _, _ => []
  end.

Definition name_size : nat := Z.to_nat KGPU_SERVICE_NAME_SIZE.

Definition entry (r : registry) (e : Z) : option (list Z * Z) :=
  i ← sitems r !! e; s ← svc_mem r !! si_s i; Some (cstr name_size (sv_name s), si_s i).

(** The names and services in the order of registration. *)
Definition bindings (r : registry) : list (list Z * Z) := omap (entry r) (services r).

Fixpoint assoc (n : list Z) (l : list (list Z * Z)) : Z :=
  match l with
  | [] => NULL
  | (m, s) :: l => if bool_decide (n = m) then s else assoc n l
  end.

Fixpoint remove_assoc (n : list Z) (l : list (list Z * Z)) : list (list Z * Z) :=
  match l with
  | [] => []
  | (m, s) :: l => if bool_decide (n = m) then l else (m, s) :: remove_assoc n l
  end.

(** Every item of the list is live and points to a readable service with a
    name array of full size; only the items of the list are live. *)
Record registry_wf (r : registry) : Prop := {
  rw_nodup : NoDup (services r);
  rw_items e : e ∈ services r -> exists i s, sitems r !! e = Some i /\
    svc_mem r !! si_s i = Some s /\ si_s i <> NULL /\ length (sv_name s) = name_size;
  rw_live e : is_Some (sitems r !! e) -> e ∈ services r
}.

(** ** Lemmas *)

Lemma strncmp_eq_spec n s t :
  (n <= length s)%nat -> (n <= length t)%nat ->
  strncmp_eq n s t = Ok (bool_decide (cstr n s = cstr n t)).
Proof.
  revert s t. induction n as [|n IH]; intros [|a s] [|b t] Hs Ht; simpl in *; try lia; [done..|].
  destruct (Z.eqb_spec a b) as [<-|Hab].
  - destruct (Z.eqb_spec a 0); [by rewrite bool_decide_eq_true_2|].
    rewrite IH by lia. f_equal. apply bool_decide_ext. split; [by intros -> | by intros [=]].
  - rewrite bool_decide_eq_false_2; [done|].
    destruct (Z.eqb_spec a 0), (Z.eqb_spec b 0); congruence.
Qed.

Lemma entry_Some r e i s :
  sitems r !! e = Some i -> svc_mem r !! si_s i = Some s ->
  entry r e = Some (cstr name_size (sv_name s), si_s i).
Proof. intros Hi Hs. unfold entry. rewrite Hi. simpl. by rewrite Hs. Qed.

(** The items of a suffix are looked up as in the association list. *)
Definition items_ok (r : registry) (l : list Z) : Prop :=
  forall e, e ∈ l -> exists i s, sitems r !! e = Some i /\
    svc_mem r !! si_s i = Some s /\ si_s i <> NULL /\ length (sv_name s) = name_size.

Lemma lookup_loop_spec r name l :
  (name_size <= length name)%nat -> items_ok r l ->
  exists o, lookup_loop r name l = Ok o /\
    assoc (cstr name_size name) (omap (entry r) l) =
      match o with
      | None => NULL
      | Some e => match sitems r !! e with Some i => si_s i | None => NULL end
      end /\
    match o with
    | None => remove_assoc (cstr name_size name) (omap (entry r) l) = omap (entry r) l
    | Some e => e ∈ l /\ (NoDup l ->
        remove_assoc (cstr name_size name) (omap (entry r) l) = omap (entry r) (remove_item l e))
    end.
Proof.
  intros Hn. induction l as [|e l IH]; intros Hok; [by exists None|].
  destruct (Hok e) as (i & s & Hi & Hs & _ & Hlen); [left|].
  destruct IH as (o & Ho & Ha & Hr); [intros e' He'; apply Hok; by right|].
  cbn [lookup_loop omap list_omap]. rewrite Hi. cbn [of_option mbind outcome_bind].
  rewrite Hs. cbn [of_option mbind outcome_bind]. fold name_size.
  rewrite strncmp_eq_spec by lia. cbn [mbind outcome_bind].
  rewrite (entry_Some r e i s Hi Hs). cbn [assoc remove_assoc].
  case_bool_decide as E.
  - exists (Some e). rewrite Hi. do 2 (split; [done|]). split; [left|].
    intros Hnd. apply NoDup_cons in Hnd as [Hnd _]. by rewrite remove_item_head.
  - exists o. split; [done|]. split; [done|]. destruct o as [e'|]; [|by rewrite Hr].
    destruct Hr as [He' Hr]. split; [by right|]. intros Hnd.
    apply NoDup_cons in Hnd as [Hnd Hnd']. rewrite Hr by done.
    assert (e <> e') by congruence.
    unfold remove_item. rewrite filter_cons_True by done. simpl.
    by rewrite (entry_Some r e i s Hi Hs).
Qed.

Lemma lookup_loop_head r name e l i s :
  sitems r !! e = Some i -> svc_mem r !! si_s i = Some s ->
  length name = name_size -> length (sv_name s) = name_size ->
  cstr name_size name = cstr name_size (sv_name s) ->
  lookup_loop r name (e :: l) = Ok (Some e).
Proof.
  intros Hi Hs Hn Hl E. cbn [lookup_loop]. rewrite Hi. cbn [of_option mbind outcome_bind].
  rewrite Hs. cbn [of_option mbind outcome_bind]. fold name_size.
  rewrite strncmp_eq_spec by lia. by rewrite bool_decide_eq_true_2.
Qed.

(** A lookup passes over items with other names. *)
Lemma lookup_loop_miss r name l l' :
  items_ok r l -> length name = name_size ->
  assoc (cstr name_size name) (omap (entry r) l) = NULL ->
  lookup_loop r name (l ++ l') = lookup_loop r name l'.
Proof.
  intros Hok Hn. induction l as [|e l IH]; intros Hno; [done|].
  destruct (Hok e) as (i & s & Hi & Hs & Hz & Hl); [left|].
  cbn [app lookup_loop]. rewrite Hi. cbn [of_option mbind outcome_bind].
  rewrite Hs. cbn [of_option mbind outcome_bind]. fold name_size.
  rewrite strncmp_eq_spec by lia. cbn [mbind outcome_bind].
  cbn [omap list_omap] in Hno. rewrite (entry_Some r e i s Hi Hs) in Hno. cbn [assoc] in Hno.
  case_bool_decide; [done|]. apply IH; [|done]. intros e' He'. apply Hok. by right.
Qed.

Lemma lookup_kgpu_sitem_spec r name :
  registry_wf r -> (name_size <= length name)%nat ->
  exists o, lookup_kgpu_sitem r (Some name) = Ok o /\
    assoc (cstr name_size name) (bindings r) =
      match o with
      | None => NULL
      | Some e => match sitems r !! e with Some i => si_s i | None => NULL end
      end /\
    match o with
    | None => remove_assoc (cstr name_size name) (bindings r) = bindings r
    | Some e => e ∈ services r /\
        remove_assoc (cstr name_size name) (bindings r) =
          omap (entry r) (remove_item (services r) e)
    end.
Proof.
  intros [Hnd Hi _] Hn. destruct (lookup_loop_spec r name (services r) Hn Hi) as (o & Ho & Ha & Hr).
  exists o. split_and!; [done..|]. destruct o; [|done]. naive_solver.
Qed.

Lemma kh_lookup_service_ok r name :
  registry_wf r -> length name = name_size ->
  exists s, kh_lookup_service r (Some name) = Ok s /\
    s = assoc (cstr name_size name) (bindings r) /\ (s <> NULL -> is_Some (svc_mem r !! s)).
Proof.
  intros Hwf Hn. destruct (lookup_kgpu_sitem_spec r name Hwf) as (o & Ho & Ha & Hr); [lia|].
  unfold kh_lookup_service. rewrite Ho, Ha. cbn [mbind outcome_bind]. destruct o as [e|].
  - destruct Hr as [He _]. destruct (rw_items r Hwf e He) as (it & s & -> & Hs & _).
    exists (si_s it). rewrite Hs. by eauto.
  - exists NULL. by split.
Qed.

Lemma omap_entry_ext r r' (l : list Z) :
  (forall e, e ∈ l -> entry r' e = entry r e) -> omap (entry r') l = omap (entry r) l.
Proof.
  induction l as [|e l IH]; intros H; [done|]. simpl.
  rewrite (H e) by left.
  destruct (entry r e); [f_equal|]; apply IH; intros; apply H; by right.
Qed.

(** Taking one item out of the registry. *)
Lemma unregister_item r e :
  registry_wf r -> e ∈ services r ->
  let r' := set_items r (remove_item (services r) e) (delete e (sitems r)) in
  __unregister_service (Some e) r = Ok (r', 0) /\ registry_wf r' /\
  bindings r' = omap (entry r) (remove_item (services r) e).
Proof.
  intros [Hnd Hi Hl] He r'. simpl. rewrite list_del_item_ok by done. split; [done|]. split.
  - split; simpl.
    + by apply remove_item_NoDup.
    + intros e' He'. apply elem_of_remove_item in He' as [Hne He'].
      destruct (Hi e' He') as (i & s & H1 & H2). exists i, s.
      by rewrite lookup_delete_ne by congruence.
    + intros e' [i He']. apply lookup_delete_Some in He' as [Hne He'].
      apply elem_of_remove_item. split; [congruence|]. apply Hl. by eexists.
  - apply omap_entry_ext. intros e' He'. apply elem_of_remove_item in He' as [Hne _].
    unfold entry, r'. simpl. by rewrite lookup_delete_ne by congruence.
Qed.

(** ** Theorems *)

(** C36: the registry implements an association list from names to services: a
    lookup returns the service of the first binding with this name (NULL when
    there is none), a registration appends a binding, and unregistering a
    name removes its first binding and returns 0, or returns 1 when there is
    none; the invariant is kept. *)
Theorem registry_refines_assoc r name s sv lh i ms :
  registry_wf r -> length name = name_size ->
  s <> NULL -> svc_mem r !! s = Some sv -> length (sv_name sv) = name_size ->
  mallocs r = Some i :: ms -> i ∉ services r ->
  kh_lookup_service r (Some name) = Ok (assoc (cstr name_size name) (bindings r)) /\
  (exists r', kh_register_service s lh r = Ok (r', 0) /\ registry_wf r' /\
     bindings r' = bindings r ++ [(cstr name_size (sv_name sv), s)]) /\
  (exists r' c, kh_unregister_service (Some name) r = Ok (r', c) /\ registry_wf r' /\
     bindings r' = remove_assoc (cstr name_size name) (bindings r) /\
     (c = 0 <-> assoc (cstr name_size name) (bindings r) <> NULL)).
Proof.
  intros Hwf Hn Hs Hsv Hlen Hm Hi. pose proof Hwf as [Hnd Hit Hlv].
  destruct (lookup_kgpu_sitem_spec r name Hwf) as (o & Ho & Ha & Hr); [lia|]. split_and!.
  - by destruct (kh_lookup_service_ok r name Hwf Hn) as (x & -> & -> & _).
  - unfold kh_register_service, malloc_sitem. rewrite (proj2 (Z.eqb_neq s NULL)), Hm by done.
    eexists. split; [done|]. split; [split|].
    + simpl. apply NoDup_app. split_and!; [done| set_solver | apply NoDup_singleton].
    + simpl. intros e He. apply elem_of_app in He as [He | ->%list_elem_of_singleton].
      * rewrite lookup_insert_ne by congruence. by apply Hit.
      * rewrite lookup_insert_eq. by exists (mk_sitem s lh), sv.
    + simpl. intros e [it He]. apply elem_of_app. destruct (decide (e = i)) as [->|]; [right; left|].
      rewrite lookup_insert_ne in He by congruence. left. apply Hlv. by eexists.
    + unfold bindings. simpl. rewrite omap_app. simpl. f_equal.
      * apply omap_entry_ext. intros e He. unfold entry. simpl.
        by rewrite lookup_insert_ne by congruence.
      * unfold entry. simpl. rewrite lookup_insert_eq. simpl. by rewrite Hsv.
  - unfold kh_unregister_service. rewrite Ho, Ha. cbn [mbind outcome_bind].
    destruct o as [e|].
    + destruct Hr as [He Hr]. destruct (unregister_item r e Hwf He) as (-> & Hwf' & Hb).
      eexists _, _. split; [done|]. split; [done|]. split; [congruence|].
      by destruct (Hit e He) as (it & ? & -> & _ & ? & _).
    + exists r, 1. split_and!; [done | done | congruence |]. split; [done | congruence].
Qed.

(** A library whose [finit_service] unregisters the name of the item, or that
    has none, or an item without a library. *)
Definition item_unloads `{DynLink} (r : registry) (e : Z) : Prop :=
  exists i s, sitems r !! e = Some i /\ svc_mem r !! si_s i = Some s /\
    length (sv_name s) = name_size /\
    (si_libhandle i = NULL \/ dlsym_finit (si_libhandle i) = None \/
     exists f, dlsym_finit (si_libhandle i) = Some f /\
       forall unreg r', svc_mem r' !! si_s i = Some s ->
         f (si_libhandle i) unreg r' = unreg (Some (sv_name s)) r').

(** [dlclose] leaves the registry and the services of other libraries. *)
Class DynLinkLaws `{DynLink} : Prop := {
  dlclose_services lh r : services (dlclose lh r) = services r;
  dlclose_sitems lh r : sitems (dlclose lh r) = sitems r;
  dlclose_svc lh r a : lib_of a <> lh -> svc_mem (dlclose lh r) !! a = svc_mem r !! a
}.

(** Each item carries the handle of the library of its service, and no two
    items have the same library. *)
Definition distinct_handles `{DynLink} (r : registry) : Prop :=
  (forall e i, e ∈ services r -> sitems r !! e = Some i -> lib_of (si_s i) = si_libhandle i) /\
  forall e1 e2 i1 i2, e1 ∈ services r -> e2 ∈ services r -> e1 <> e2 ->
    sitems r !! e1 = Some i1 -> sitems r !! e2 = Some i2 ->
    si_libhandle i1 = si_libhandle i2 -> si_libhandle i1 = NULL.

Section unloading.
Context `{DynLinkLaws}.

(** The state of [kh_unload_all_services] when [rest] is still to visit. *)
Definition unload_inv (r0 : registry) (rest : list Z) (r : registry) (e : Z) : Prop :=
  services r = rest /\ e = 0 /\ NoDup rest /\ (forall x, x ∈ rest -> x ∈ services r0) /\
  forall x, x ∈ rest -> exists i, sitems r0 !! x = Some i /\ sitems r !! x = Some i /\
    svc_mem r !! si_s i = svc_mem r0 !! si_s i.

Lemma unregister_head r x rest :
  services r = x :: rest -> x ∉ rest ->
  __unregister_service (Some x) r = Ok (set_items r rest (delete x (sitems r)), 0).
Proof.
  intros Hs Hx. simpl. rewrite list_del_item_ok by (rewrite Hs; left).
  by rewrite Hs, remove_item_head.
Qed.

(** Unregistering the name of the first item removes this item. *)
Lemma unregister_name_head r x rest i s :
  services r = x :: rest -> sitems r !! x = Some i -> svc_mem r !! si_s i = Some s ->
  length (sv_name s) = name_size ->
  kh_unregister_service (Some (sv_name s)) r = __unregister_service (Some x) r.
Proof.
  intros Hs Hi Hv Hl. unfold kh_unregister_service, lookup_kgpu_sitem. rewrite Hs.
  by rewrite (lookup_loop_head r _ x rest i s).
Qed.

(** One item: it leaves the registry, and its library may be closed. *)
Lemma unload_head r x rest :
  services r = x :: rest -> x ∉ rest -> item_unloads r x ->
  exists r' i, __unload_service (Some x) r = Ok (r', 0) /\ sitems r !! x = Some i /\
    (r' = set_items r rest (delete x (sitems r)) \/
     (si_libhandle i <> NULL /\
      r' = dlclose (si_libhandle i) (set_items r rest (delete x (sitems r))))).
Proof.
  intros Hs Hx (i & s & Hi & Hv & Hl & Hc). unfold __unload_service. rewrite Hi.
  cbn [of_option mbind outcome_bind].
  destruct (Z.eqb_spec (si_libhandle i) NULL) as [Hz|Hz]; cbn [negb].
  - rewrite (unregister_head r x rest) by done. simpl. eexists _, i. eauto.
  - destruct Hc as [Hc | [-> | (f & -> & Hf)]]; [done| |].
    + rewrite (unregister_head r x rest) by done. simpl. eexists _, i. eauto.
    + rewrite (Hf _ r Hv), (unregister_name_head r x rest i s), (unregister_head r x rest) by done.
      simpl. eexists _, i. eauto.
Qed.

(** When every library unregisters its own service and no two items share a
    library, [kh_unload_all_services] returns 0 and leaves the registry
    empty; the successor that the loop saves stays valid throughout. *)
Theorem unload_all_empties r :
  registry_wf r -> (forall e, e ∈ services r -> item_unloads r e) -> distinct_handles r ->
  exists r', kh_unload_all_services r = Ok (r', 0) /\ services r' = [].
Proof.
  intros [Hnd Hit _] Hun [Hlib Hdis]. unfold kh_unload_all_services.
  match goal with |- context [for_each_safe _ ?b ?k ?st ?acc] =>
    destruct (for_each_safe_inv services b k (unload_inv r) st acc)
      as (rest & r' & e & -> & (Hs & -> & _) & [->|[? _]]) end; [| | |by eauto|done].
  - intros rest st acc (Hs & _ & Hr & _). exists []. by rewrite Hs.
  - intros x rest st acc (Hs & -> & Hr & Hin & Hsame). apply NoDup_cons in Hr as [Hx Hr].
    destruct (Hsame x) as (i & Hi0 & Hi & Hv); [left|].
    destruct (Hun x) as (i' & s & Hi' & Hv' & Hrest); [apply Hin; left|]. simplify_eq.
    destruct (unload_head st x rest) as (st' & j & -> & Hj & Hst'); [done..| |].
    { eexists _, s. rewrite Hv, Hi. eauto. }
    simpl. eexists _, _. split; [done|]. simplify_eq.
    assert (Hkeep : forall y, y ∈ rest -> exists i, sitems r !! y = Some i /\
        delete x (sitems st) !! y = Some i /\ svc_mem st !! si_s i = svc_mem r !! si_s i).
    { intros y Hy. destruct (Hsame y) as (k & ? & ? & ?); [by right|].
      exists k. rewrite lookup_delete_ne by congruence. done. }
    destruct Hst' as [-> | [Hnz ->]]; unfold unload_inv; simpl;
      rewrite ?dlclose_services, ?dlclose_sitems; simpl;
      (do 3 (split; [done|])); (split; [intros; apply Hin; by right|]); [done|].
    intros y Hy. destruct (Hkeep y Hy) as (k & H1 & H2 & H3). exists k. split_and!; [done..|].
    rewrite dlclose_svc; [done|]. rewrite (Hlib y k) by (done || (apply Hin; by right)).
    intros E. apply Hnz. eapply (Hdis x y); eauto; [apply Hin; left | apply Hin; by right | congruence].
  - split_and!; try done. intros x Hx. destruct (Hit x Hx) as (i & ? & -> & _). eauto.
Qed.

End unloading.

(** ** Loading the libraries of a directory

    What the start of the helper relies on: the files of the directory have
    different handles, opening and closing a library leaves the others, and
    an [init_service] fills its service structure and registers it, as that of
    srv_test.c does. *)
Class LibraryLaws `{DynLinkLaws} : Type := {
  lib_handle : list Z -> Z;
  lib_handle_inj pattern p p' : p ∈ glob pattern -> p' ∈ glob pattern ->
    lib_handle p = lib_handle p' -> p = p';
  glob_nodup pattern : NoDup (glob pattern);
  dlopen_law path r : exists r', (dlopen path r = (r', NULL) \/ dlopen path r = (r', lib_handle path)) /\
    services r' = services r /\ sitems r' = sitems r /\ mallocs r' = mallocs r /\
    forall a s, svc_mem r !! a = Some s -> svc_mem r' !! a = Some s;
  dlclose_mallocs lh r : mallocs (dlclose lh r) = mallocs r;
  init_law lh f : dlsym_init lh = Some f -> exists s sv, s <> NULL /\
    length (sv_name sv) = name_size /\ lib_of s = lh /\
    forall reg r, f lh reg r = reg s lh (set_svc_mem r (<[s := sv]> (svc_mem r)))
}.

Section load_all.
Context `{LibraryLaws}.

(** The registry while libraries are loaded: the services are those of the
    libraries [hs], and [malloc] will give blocks that are not in use. *)
Record lib_inv (hs : list Z) (r : registry) : Prop := {
  li_wf : registry_wf r;
  li_nodup : NoDup (omap id (mallocs r));
  li_fresh a : Some a ∈ mallocs r -> a ∉ services r;
  li_libs e i : sitems r !! e = Some i -> lib_of (si_s i) ∈ hs
}.

Lemma lib_inv_same hs hs' r r' :
  lib_inv hs r -> services r' = services r -> sitems r' = sitems r -> mallocs r' `suffix_of` mallocs r ->
  (forall e i s, sitems r !! e = Some i -> svc_mem r !! si_s i = Some s -> svc_mem r' !! si_s i = Some s) ->
  hs ⊆ hs' -> lib_inv hs' r'.
Proof.
  intros [[W1 W2 W3] Hnd Hfr Hl] Es Ei [l El] Hsv Hsub. rewrite El, omap_app in Hnd. split.
  - split; rewrite ?Es, ?Ei; try done. intros e He. destruct (W2 e He) as (i & s & Hi & Hs & Hrest).
    exists i, s. eauto.
  - by apply NoDup_app in Hnd as (_ & _ & ?).
  - intros a Ha. rewrite Es. apply Hfr. rewrite El. apply elem_of_app. by right.
  - intros e i. rewrite Ei. intros Hi. apply Hsub. by apply (Hl e).
Qed.

Lemma dlclose_inv hs lh r : lib_inv hs r -> lh ∉ hs -> lib_inv (lh :: hs) (dlclose lh r).
Proof.
  intros Hr Hlh. apply (lib_inv_same hs _ r); [done | apply dlclose_services | apply dlclose_sitems | | |set_solver].
  - by rewrite dlclose_mallocs.
  - intros e i s Hi Hs. rewrite dlclose_svc; [done|]. intros E. apply Hlh. rewrite <- E.
    by apply (li_libs _ _ Hr e).
Qed.

Lemma register_inv hs lh s sv r :
  lib_inv hs r -> lh ∉ hs -> s <> NULL -> length (sv_name sv) = name_size -> lib_of s = lh ->
  exists r' e, kh_register_service s lh (set_svc_mem r (<[s := sv]> (svc_mem r))) = Ok (r', e) /\
    ((e = 1 /\ lib_inv hs r') \/ (e = 0 /\ lib_inv (lh :: hs) r')).
Proof.
  intros Hr Hlh Hz Hlen Hlib. unfold kh_register_service, malloc_sitem. simpl.
  rewrite (proj2 (Z.eqb_neq s NULL) Hz).
  assert (Hne : forall e i, sitems r !! e = Some i -> si_s i <> s).
  { intros e i Hi E. apply Hlh. rewrite <- Hlib, <- E. by apply (li_libs _ _ Hr e). }
  assert (Hsame : forall l, l `suffix_of` mallocs r -> lib_inv hs
    (mk_registry (services r) (sitems r) (<[s := sv]> (svc_mem r)) l)).
  { intros l Hl. apply (lib_inv_same hs hs r); try done.
    intros e i z Hi Hs. simpl. rewrite lookup_insert_ne; [done | by apply not_eq_sym, (Hne e)]. }
  pose proof Hr as [[W1 W2 W3] Hnd Hfr Hl].
  destruct (mallocs r) as [|[a|] l] eqn:Em.
  - eexists _, 1. split; [done|]. left. split; [done|]. unfold set_svc_mem. rewrite Em. by apply Hsame.
  - eexists _, 0. split; [done|]. right. split; [done|].
    assert (Ha : a ∉ services r) by (apply Hfr; left).
    simpl in Hnd. apply NoDup_cons in Hnd as [Hal Hnd]. split; simpl; [split; simpl | done | |].
    + apply NoDup_app. split_and!; [done | set_solver | apply NoDup_singleton].
    + intros e [He| ->%list_elem_of_singleton]%elem_of_app.
      * destruct (W2 e He) as (i & z & Hi & Hs & Hrest). exists i, z.
        rewrite !lookup_insert_ne; [done | by apply not_eq_sym, (Hne e) | congruence].
      * exists (mk_sitem s lh), sv. by rewrite !lookup_insert_eq.
    + intros e [i [[<- _]|[_ Hi]]%lookup_insert_Some]; apply elem_of_app; [right; left | left].
      apply W3. by eexists.
    + intros b Hb. assert (b <> a) by (intros ->; apply Hal, list_elem_of_omap; by exists (Some a)).
      intros [Hin| ->%list_elem_of_singleton]%elem_of_app; [|done]. by apply (Hfr b); [right|].
    + intros e i [[_ <-]|[_ Hi]]%lookup_insert_Some; [simpl; rewrite Hlib; left | right; by apply (Hl e)].
  - eexists _, 1. split; [done|]. left. split; [done|]. apply Hsame. by exists [None].
Qed.

Lemma load_service_inv hs path r :
  lib_inv hs r -> lib_handle path ∉ hs ->
  exists r' e, kh_load_service path r = Ok (r', e) /\ lib_inv (lib_handle path :: hs) r'.
Proof.
  intros Hr Hp. unfold kh_load_service.
  destruct (dlopen_law path r) as (r1 & Hd & E1 & E2 & E3 & E4).
  assert (Hr1 : lib_inv hs r1).
  { apply (lib_inv_same hs hs r); try done; [by rewrite E3 | eauto]. }
  assert (Hw : lib_inv (lib_handle path :: hs) r1).
  { apply (lib_inv_same hs _ r1); try done. set_solver. }
  destruct Hd as [-> | ->]; [by eexists _, _|].
  destruct (Z.eqb_spec (lib_handle path) NULL); [by eexists _, _|].
  destruct (dlsym_init (lib_handle path)) as [f|] eqn:Ef;
    [|eexists _, _; split; [done|]; by apply dlclose_inv].
  destruct (init_law _ f Ef) as (s & sv & Hz & Hlen & Hlib & ->).
  destruct (register_inv hs (lib_handle path) s sv r1 Hr1 Hp Hz Hlen Hlib) as (r2 & e & -> & Hc).
  cbn [mbind outcome_bind]. destruct Hc as [[-> Hc]|[-> Hc]]; (eexists _, _; split; [done|]); [|done].
  by apply dlclose_inv.
Qed.

Lemma load_all_inv dir ms :
  NoDup (omap id ms) ->
  exists r e, kh_load_all_services dir (mk_registry [] ∅ ∅ ms) = Ok (r, e) /\ registry_wf r.
Proof.
  intros Hms. unfold kh_load_all_services.
  assert (Hgen : forall paths hs r e, NoDup paths -> (forall p, p ∈ paths -> lib_handle p ∉ hs) ->
    (forall p, p ∈ paths -> p ∈ glob (service_pattern dir)) -> lib_inv hs r ->
    exists r' e', load_loop paths r e = Ok (r', e') /\ registry_wf r').
  { induction paths as [|p paths IH]; intros hs r e Hnd Hh Hg Hr; [by eexists _, _; split; [|apply Hr]|].
    apply NoDup_cons in Hnd as [Hp Hnd].
    destruct (load_service_inv hs p r Hr) as (r1 & x & E & Hr1); [apply Hh; left|].
    cbn [load_loop]. rewrite E. cbn [mbind outcome_bind]. apply (IH (lib_handle p :: hs)); [done| | |done].
    - intros p' Hp'. apply not_elem_of_cons. split; [|apply Hh; by right].
      intros Eh. apply Hp. rewrite <- (lib_handle_inj (service_pattern dir) p' p); [done | | |done].
      + apply Hg. by right.
      + apply Hg. left.
    - intros p' Hp'. apply Hg. by right. }
  apply (Hgen _ []); [apply glob_nodup | set_solver | done |].
  split; simpl; [split; simpl | done | set_solver | done].
  - apply NoDup_nil_2.
  - intros e He. by apply not_elem_of_nil in He.
  - intros e [i Hi]. by rewrite lookup_empty in Hi.
Qed.

End load_all.

(** ** The test library loads and unloads *)

#[global] Instance srv_test_dl : DynLink := {
  dlopen _ r := (r, 1);
  dlsym_init h := if h =? 1 then Some SrvTest.init_service else None;
  dlsym_finit h := if h =? 1 then Some SrvTest.finit_service else None;
  dlclose lh r := if lh =? 1 then set_svc_mem r (delete SrvTest.empty_srv (svc_mem r)) else r;
  glob dir := [dir];
  lib_of a := if a =? SrvTest.empty_srv then 1 else NULL
}.

#[global] Instance srv_test_dl_laws : DynLinkLaws.
Proof.
  split; intros lh r; simpl; [by destruct (lh =? 1) ..|].
  intros a Ha. destruct (Z.eqb_spec lh 1) as [->|]; [|done]. simpl.
  destruct (Z.eqb_spec a SrvTest.empty_srv); [done|]. by rewrite lookup_delete_ne.
Qed.

#[global, refine] Instance srv_test_libraries : LibraryLaws := { lib_handle _ := 1 }.
Proof.
  - intros pattern p p' ->%list_elem_of_singleton ->%list_elem_of_singleton. done.
  - intros pattern. apply NoDup_singleton.
  - intros path r. exists r. split_and!; try done. by right.
  - intros lh r. simpl. by destruct (lh =? 1).
  - intros lh f. simpl. destruct (Z.eqb_spec lh 1) as [->|]; [|done]. intros [= <-].
    eexists SrvTest.empty_srv, _. split; [discriminate|]. split; [|split; [done|]]; [|reflexivity]. reflexivity.
Defined.

Definition load_lookup_unload (r : registry) : outcome (registry * list Z) :=
  '(r, a) ← kh_load_service [] r;
  b ← kh_lookup_service r (Some SrvTest.empty_name);
  '(r, c) ← kh_unload_service (Some SrvTest.empty_name) r;
  mret (r, [a; b; c]).

(** The registry after the test library is loaded. *)
Definition with_srv_test (r : registry) (i : Z) (ms : list (option Z)) : registry :=
  mk_registry (services r ++ [i]) (<[i := mk_sitem SrvTest.empty_srv 1]> (sitems r))
    (<[SrvTest.empty_srv := mk_service SrvTest.empty_name 1 SrvTest.empty_cs SrvTest.empty_launch
      SrvTest.empty_prepare SrvTest.empty_post]> (svc_mem r)) ms.

Lemma srv_test_load r i ms :
  mallocs r = Some i :: ms -> kh_load_service [] r = Ok (with_srv_test r i ms, 0).
Proof.
  intros Hm. unfold kh_load_service. cbn [dlopen srv_test_dl]. simpl.
  unfold SrvTest.init_service, kh_register_service, malloc_sitem. simpl. by rewrite Hm.
Qed.

(** The items of [r] are the same after loading. *)
Lemma srv_test_items r i ms e it s :
  svc_mem r !! SrvTest.empty_srv = None -> e <> i ->
  sitems r !! e = Some it -> svc_mem r !! si_s it = Some s ->
  sitems (with_srv_test r i ms) !! e = Some it /\
  svc_mem (with_srv_test r i ms) !! si_s it = Some s.
Proof.
  intros Hs Hi H1 H2. simpl. by rewrite !lookup_insert_ne by congruence.
Qed.

Lemma srv_test_lookup r i ms :
  registry_wf r -> svc_mem r !! SrvTest.empty_srv = None -> i ∉ services r ->
  assoc (cstr name_size SrvTest.empty_name) (bindings r) = NULL ->
  lookup_kgpu_sitem (with_srv_test r i ms) (Some SrvTest.empty_name) = Ok (Some i).
Proof.
  intros [_ Hit _] Hs Hi Hno. unfold lookup_kgpu_sitem. simpl services.
  rewrite lookup_loop_miss; [| |done|].
  - eapply lookup_loop_head; [apply lookup_insert_eq | apply lookup_insert_eq | done..].
  - intros e He. destruct (Hit e He) as (it & s & H1 & H2 & H3 & H4). exists it, s.
    destruct (srv_test_items r i ms e it s) as [? ?]; [congruence..|done].
  - rewrite <- Hno. f_equal. apply omap_entry_ext. intros e He.
    destruct (Hit e He) as (it & s & H1 & H2 & _).
    destruct (srv_test_items r i ms e it s) as [? ?]; [congruence..|].
    by rewrite (entry_Some _ e it s), (entry_Some _ e it s).
Qed.

(** Loading the test library registers "empty_service", so that a lookup of
    this name gives its structure, and unloading the service by name removes
    it again: all calls succeed and the bindings are those from before. *)
Theorem srv_test_load_unload r i ms :
  registry_wf r -> svc_mem r !! SrvTest.empty_srv = None ->
  assoc (cstr name_size SrvTest.empty_name) (bindings r) = NULL ->
  mallocs r = Some i :: ms -> i ∉ services r ->
  exists r', load_lookup_unload r = Ok (r', [0; SrvTest.empty_srv; 0]) /\
    services r' = services r /\ bindings r' = bindings r.
Proof.
  intros Hwf Hs Hno Hm Hi. unfold load_lookup_unload. rewrite (srv_test_load r i ms Hm).
  pose proof (srv_test_lookup r i ms Hwf Hs Hi Hno) as Hl.
  cbn [mbind outcome_bind]. unfold kh_lookup_service, kh_unload_service. rewrite Hl.
  cbn [mbind outcome_bind]. unfold __unload_service.
  assert (Hat : sitems (with_srv_test r i ms) !! i = Some (mk_sitem SrvTest.empty_srv 1))
    by apply lookup_insert_eq.
  rewrite Hat. simpl.
  unfold SrvTest.finit_service. simpl. rewrite lookup_insert_eq. simpl.
  unfold kh_unregister_service. rewrite Hl. cbn [mbind outcome_bind].
  unfold __unregister_service. rewrite list_del_item_ok by (simpl; set_solver). simpl.
  eexists. split; [done|]. simpl.
  rewrite remove_item_app, remove_item_id, remove_item_head, app_nil_r by set_solver.
  split; [done|]. apply omap_entry_ext. intros e He.
  destruct (rw_items r Hwf e He) as (it & s & H1 & H2 & _).
  unfold entry. simpl. rewrite lookup_delete_ne, lookup_insert_ne, H1 by congruence. simpl.
  by rewrite lookup_delete_ne, lookup_insert_ne by congruence.
Qed.

(** *** Witnesses *)

Definition service_b : kgpu_service := mk_service ([98] ++ repeat 0 31) 2 0 0 0 0.

Definition service_c : kgpu_service := mk_service ([99] ++ repeat 0 31) 3 0 0 0 0.

Definition registry_example : registry :=
  mk_registry [20] {[20 := mk_sitem 7000 NULL]} {[7000 := service_b; 7100 := service_c]}
    [Some 24; Some 28].

Lemma registry_example_wf : registry_wf registry_example.
Proof.
  split; simpl.
  - apply NoDup_singleton.
  - intros e ->%list_elem_of_singleton. by exists (mk_sitem 7000 NULL), service_b.
  - intros e [i Hi]. apply lookup_singleton_Some in Hi as [<- _]. left.
Qed.

Lemma registry_refines_assoc_witness :
  kh_lookup_service registry_example (Some (sv_name service_b)) = Ok 7000 /\
  exists r', kh_register_service 7100 5 registry_example = Ok (r', 0) /\
    bindings r' = [([98], 7000); ([99], 7100)].
Proof.
  destruct (registry_refines_assoc registry_example (sv_name service_b) 7100 service_c 5 24 [Some 28])
    as (H1 & (r' & H2 & _ & H3) & _);
    [apply registry_example_wf | reflexivity | vm_compute; congruence | reflexivity..| |].
  - set_solver.
  - rewrite H1. split; [reflexivity|]. exists r'. by rewrite H2, H3.
Defined.

Lemma srv_test_load_unload_witness :
  exists r', load_lookup_unload registry_example = Ok (r', [0; SrvTest.empty_srv; 0]) /\
    services r' = [20] /\ bindings r' = [([98], 7000)].
Proof.
  apply (srv_test_load_unload registry_example 24 [Some 28]);
    [apply registry_example_wf | reflexivity..| set_solver].
Defined.

(** Two items: one without a library, then the test library's service. *)
Definition registry_loaded : registry := with_srv_test registry_example 24 [Some 28].

Lemma registry_loaded_wf : registry_wf registry_loaded.
Proof.
  split; simpl.
  - by apply (bool_decide_unpack _).
  - intros e He. set_unfold in He. destruct He as [->|[->|[]]];
      [by exists (mk_sitem 7000 NULL), service_b | by eexists _, _].
  - intros e [i Hi]. apply lookup_insert_Some in Hi as [[<- _]|[_ Hi]]; [set_solver|].
    apply lookup_singleton_Some in Hi as [<- _]. set_solver.
Qed.

Lemma unload_all_empties_witness :
  exists r', kh_unload_all_services registry_loaded = Ok (r', 0) /\ services r' = [].
Proof.
  apply (unload_all_empties registry_loaded).
  - apply registry_loaded_wf.
  - intros e He. set_unfold in He. destruct He as [->|[->|[]]];
      [exists (mk_sitem 7000 NULL), service_b; auto|].
    eexists _, _. do 3 (split; [reflexivity|]). right. right.
    exists SrvTest.finit_service. split; [reflexivity|].
    intros unreg r' Hr. unfold SrvTest.finit_service. simpl in Hr. by rewrite Hr.
  - split; simpl.
    + intros e i He Hi. set_unfold in He. destruct He as [->|[->|[]]]; by injection Hi as <-.
    + intros e1 e2 i1 i2 He1 He2 Hne H1 H2 Hh. set_unfold in He1. set_unfold in He2.
      destruct He1 as [->|[->|[]]], He2 as [->|[->|[]]]; try done;
        injection H1 as <-; injection H2 as <-; discriminate Hh.
Defined.

(** ** A library with two services

    Its [init_service] registers both and gives up when one fails; its
    [finit_service] unregisters both. *)

Module TwoServices.

Definition two_init : fn_init_service := fun lh reg_srv r =>
  let r := set_svc_mem r (<[7000 := service_b]> (<[7100 := service_c]> (svc_mem r))) in
  '(r, e) ← reg_srv 7000 lh r;
  if truth e then mret (r, e) else reg_srv 7100 lh r.

Definition two_finit : fn_finit_service := fun lh unreg_srv r =>
  '(r, e) ← unreg_srv (Some (sv_name service_b)) r;
  if truth e then mret (r, e) else unreg_srv (Some (sv_name service_c)) r.

Definition two_dl : DynLink := {|
  dlopen _ r := (r, 2);
  dlsym_init _ := Some two_init;
  dlsym_finit _ := Some two_finit;
  dlclose _ r := set_svc_mem r (delete 7000 (delete 7100 (svc_mem r)));
  glob dir := [dir];
  lib_of _ := 2
|}.

Definition empty_registry (ms : list (option Z)) : registry := mk_registry [] ∅ ∅ ms.

(** [kh_unload_all_services] reads freed memory when one library has two
    services in a row: its [finit_service] frees both items, and the
    successor the loop saved before is one of them. *)
Theorem unload_all_reads_freed_item :
  exists r, @kh_load_all_services two_dl [] (empty_registry [Some 20; Some 24]) = Ok (r, 0) /\
    services r = [20; 24] /\ @kh_unload_all_services two_dl r = Fault WildPointer.
Proof. eexists. split; [reflexivity|]. split; reflexivity. Qed.

(** When the second registration of [init_service] fails, [kh_load_service]
    closes the library and leaves the first service in the registry: the next
    lookup of any name reads unmapped memory. *)
Theorem failed_load_leaves_dangling_service :
  exists r, @kh_load_service two_dl [] (empty_registry [Some 20; None]) = Ok (r, 1) /\
    services r = [20] /\ kh_lookup_service r (Some SrvTest.empty_name) = Fault WildPointer.
Proof. eexists. split; [reflexivity|]. split; reflexivity. Qed.

End TwoServices.
