(* ===== verification/Helper.v ===== *)
(** * The helper's request pipeline (src/kgpu/src/userSpace/helper.c)

    The helper reads requests from the device, takes each of them through
    the states of its service (memory, stream and input copy, launch, result
    copy) and answers.  A request is a heap object that is always in
    [all_reqs] and in the list of its state.  The device file, the GPU back
    end and the code of the services are behind interfaces; the registry of
    services is the one of Services.  The lists of the states are indexed by
    [queue]: [queues h Q_init] is [init_reqs], and so on. *)

From S2P Require Import Prelude KgpuDefs ListHead Ranges GpuOps ItemList Services.

(** ** Data *)

Inductive queue : Type :=
  | Q_init
  | Q_memdone
  | Q_prepared
  | Q_running
  | Q_post_exec
  | Q_done.

#[global] Instance queue_eq_dec : EqDecision queue.
Proof. solve_decision. Defined.

(** The device file as the helper's system calls see it.  A result is the
    return value with [errno] and what the call stored. *)
Class DevFile (W : Type) : Type := {
  sys_poll : W -> bool -> outcome (W * (Z * Z));
  sys_read : W -> Z -> outcome (W * (Z * Z * option kgpu_ku_request));
  sys_write : W -> kgpu_ku_response -> Z -> outcome (W * Z)
}.

(** The functions of the services, by their code address. *)
Class ServiceCode (G : Type) : Type := {
  run_service : Z -> G -> kgpu_service_request -> outcome (G * kgpu_service_request * Z)
}.

(** The result of the [n]th call of [malloc] when the given addresses are in
    use. *)
Class Malloc : Type := {
  malloc : nat -> gset Z -> option Z
}.

(** [sr_mallocs] counts the calls of [malloc]. *)
Record helper (W G : Type) : Type := mk_helper {
  all_reqs : list Z;
  queues : queue -> list Z;
  sritems : gmap Z kgpu_service_request;
  hostbuf : kgpu_gpu_mem_info;
  hostvma : kgpu_gpu_mem_info;
  srv_reg : registry;
  gpu : G;
  devfd : W;
  sr_mallocs : nat
}.
Arguments mk_helper {W G}.
Arguments all_reqs {W G}.
Arguments queues {W G}.
Arguments sritems {W G}.
Arguments hostbuf {W G}.
Arguments hostvma {W G}.
Arguments srv_reg {W G}.
Arguments gpu {W G}.
Arguments devfd {W G}.
Arguments sr_mallocs {W G}.

Section helper.
Context {W G : Type} `{DevFile W, GpuBackend G, ServiceCode G, Malloc}.

Definition set_all (h : helper W G) (l : list Z) : helper W G :=
  mk_helper l (queues h) (sritems h) (hostbuf h) (hostvma h) (srv_reg h) (gpu h) (devfd h)
    (sr_mallocs h).

Definition set_queues (h : helper W G) (q : queue -> list Z) : helper W G :=
  mk_helper (all_reqs h) q (sritems h) (hostbuf h) (hostvma h) (srv_reg h) (gpu h) (devfd h)
    (sr_mallocs h).

Definition set_sritems (h : helper W G) (m : gmap Z kgpu_service_request) : helper W G :=
  mk_helper (all_reqs h) (queues h) m (hostbuf h) (hostvma h) (srv_reg h) (gpu h) (devfd h)
    (sr_mallocs h).

Definition set_gpu (h : helper W G) (g : G) : helper W G :=
  mk_helper (all_reqs h) (queues h) (sritems h) (hostbuf h) (hostvma h) (srv_reg h) g (devfd h)
    (sr_mallocs h).

Definition set_dev (h : helper W G) (w : W) : helper W G :=
  mk_helper (all_reqs h) (queues h) (sritems h) (hostbuf h) (hostvma h) (srv_reg h) (gpu h) w
    (sr_mallocs h).

(** Reading and writing the request inside the item at [x]. *)
Definition load_sr (h : helper W G) (x : Z) : outcome kgpu_service_request :=
  of_option WildPointer (sritems h !! x).

Definition store_sr (h : helper W G) (x : Z) (q : kgpu_service_request) : helper W G :=
  set_sritems h (<[x := q]> (sritems h)).

(** [list_del(&sreq->list)]: the node of an item is in the list of one state,
    or linked to itself when the item is new. *)
Definition del_list (h : helper W G) (x : Z) : helper W G :=
  set_queues h (fun Q => remove_item (queues h Q) x).

(** [list_add_tail(&sreq->list, ...)] *)
Definition add_list (h : helper W G) (x : Z) (Q : queue) : helper W G :=
  set_queues h (fun R => if decide (R = Q) then queues h R ++ [x] else queues h R).

(** ** Operations *)

Definition kh_send_response (h : helper W G) (resp : kgpu_ku_response) : outcome (helper W G * Z) :=
  '(w, r) ← sys_write (devfd h) resp 8;
  if r <? 0 then Fault Abort else mret (set_dev h w, 0).

Definition kh_fail_request (sreq : Z) (serr : Z) (h : helper W G) : outcome (helper W G) :=
  q ← load_sr h sreq;
  let h := store_sr h sreq (with_status q KGPU_REQ_DONE serr) in
  mret (add_list (del_list h sreq) sreq Q_done).

Definition zero_sr : kgpu_service_request :=
  mk_sr 0 0 0 0 0 0 0 0 0 0 0 0 0 0 0 0 0 0 0.

Definition kh_alloc_service_request (h : helper W G) : helper W G * option Z :=
  let s := malloc (sr_mallocs h) (dom (sritems h)) in
  let h := mk_helper (all_reqs h) (queues h) (sritems h) (hostbuf h) (hostvma h) (srv_reg h)
             (gpu h) (devfd h) (S (sr_mallocs h)) in
  match s with
  | None => (h, None)
  | Some s => (store_sr h s zero_sr, Some s)
  end.

Definition kh_free_service_request (h : helper W G) (s : Z) : helper W G :=
  set_sritems h (delete s (sritems h)).

(** The function pointers of the service of a request. *)
Definition load_service (h : helper W G) (q : kgpu_service_request) : outcome kgpu_service :=
  if sr_s q =? NULL then Fault NullDeref else of_option WildPointer (svc_mem (srv_reg h) !! sr_s q).

Definition kh_init_service_request (item : Z) (kureq : kgpu_ku_request) (h : helper W G) :
    outcome (helper W G) :=
  let h := set_all h (all_reqs h ++ [item]) in
  s ← kh_lookup_service (srv_reg h) (Some (kr_service_name kureq));
  let q := mk_sr (kr_id kureq) (kr_in kureq) (kr_out kureq) (kr_data kureq) 0 0 0
             (kr_insize kureq) (kr_outsize kureq) (kr_datasize kureq) 0 s 0 0 0 0 0 (-1) 0 in
  let h := store_sr h item q in
  if s =? NULL then kh_fail_request item KGPU_NO_SERVICE h
  else
    sv ← load_service h q;
    '(g, q, _) ← run_service (sv_compute_size sv) (gpu h) q;
    let h := store_sr (set_gpu h g) item (with_status q KGPU_REQ_INIT 0) in
    mret (add_list h item Q_init).

(** [revents & POLLIN] *)
Definition pollin (revents : Z) : bool := Z.testbit revents 0.

Definition kh_get_next_service_request (h : helper W G) : outcome (helper W G * Z) :=
  '(w, (err, revents)) ← sys_poll (devfd h) (bool_decide (all_reqs h = []));
  let h := set_dev h w in
  if (err =? 0) || (truth err && negb (pollin revents)) then mret (h, -1)
  else if (err =? 1) && pollin revents then
    let '(h, sreq) := kh_alloc_service_request h in
    match sreq with
    | None => mret (h, -1)
    | Some sreq =>
        '(w, (err, errno, buf)) ← sys_read (devfd h) 88;
        let h := set_dev h w in
        if err <=? 0 then
          if (errno =? EAGAIN) || (err =? 0) then mret (kh_free_service_request h sreq, -1)
          else Fault Abort
        else
          kureq ← of_option WildPointer buf;
          h ← kh_init_service_request sreq kureq h;
          mret (h, 0)
    end
  else Fault Abort.

Definition kh_request_alloc_mem (sreq : Z) (h : helper W G) : outcome (helper W G * Z) :=
  q ← load_sr h sreq;
  '(g, q, r) ← be_alloc_device_mem (gpu h) (hostbuf h) (hostvma h) q;
  let h := store_sr (set_gpu h g) sreq q in
  if truth r then mret (h, -1)
  else
    let h := store_sr h sreq (with_status q KGPU_REQ_MEM_DONE (sr_errcode q)) in
    mret (add_list (del_list h sreq) sreq Q_memdone, 0).

Definition kh_prepare_exec (sreq : Z) (h : helper W G) : outcome (helper W G * Z) :=
  q ← load_sr h sreq;
  '(g, q, e) ← be_alloc_stream (gpu h) q;
  let h := store_sr (set_gpu h g) sreq q in
  if truth e then mret (h, -1)
  else
    sv ← load_service h q;
    '(g, q, r) ← run_service (sv_prepare sv) (gpu h) q;
    let h := store_sr (set_gpu h g) sreq q in
    if truth r then h ← kh_fail_request sreq r h; mret (h, r)
    else
      let h := store_sr h sreq (with_status q KGPU_REQ_PREPARED (sr_errcode q)) in
      mret (add_list (del_list h sreq) sreq Q_prepared, r).

Definition kh_launch_exec (sreq : Z) (h : helper W G) : outcome (helper W G * Z) :=
  q ← load_sr h sreq;
  sv ← load_service h q;
  '(g, q, r) ← run_service (sv_launch sv) (gpu h) q;
  let h := store_sr (set_gpu h g) sreq q in
  if truth r then h ← kh_fail_request sreq r h; mret (h, 0)
  else
    let h := store_sr h sreq (with_status q KGPU_REQ_RUNNING (sr_errcode q)) in
    mret (add_list (del_list h sreq) sreq Q_running, 0).

Definition kh_post_exec (sreq : Z) (h : helper W G) : outcome (helper W G * Z) :=
  q ← load_sr h sreq;
  '(g, fin) ← be_execution_finished (gpu h) q;
  let h := set_gpu h g in
  if truth fin then
    sv ← load_service h q;
    '(g, q, r) ← run_service (sv_post sv) (gpu h) q;
    let h := store_sr (set_gpu h g) sreq q in
    if truth r then h ← kh_fail_request sreq r h; mret (h, r)
    else
      let h := store_sr h sreq (with_status q KGPU_REQ_POST_EXEC (sr_errcode q)) in
      mret (add_list (del_list h sreq) sreq Q_post_exec, r)
  else mret (h, 1).

Definition kh_finish_post (sreq : Z) (h : helper W G) : outcome (helper W G * Z) :=
  q ← load_sr h sreq;
  '(g, fin) ← be_post_finished (gpu h) q;
  let h := set_gpu h g in
  if truth fin then
    let h := store_sr h sreq (with_status q KGPU_REQ_DONE (sr_errcode q)) in
    mret (add_list (del_list h sreq) sreq Q_done, 0)
  else mret (h, 1).

Definition kh_service_done (sreq : Z) (h : helper W G) : outcome (helper W G * Z) :=
  q ← load_sr h sreq;
  '(h, _) ← kh_send_response h (mk_ku_response (sr_id q) (sr_errcode q));
  let h := del_list h sreq in
  l ← list_del_item (all_reqs h) sreq;
  let h := set_all h l in
  '(g, q) ← be_free_device_mem (gpu h) (hostvma h) q;
  g ← be_free_stream g q;
  mret (kh_free_service_request (set_gpu h g) sreq, 0).

Definition __kh_process_request (op : Z -> helper W G -> outcome (helper W G * Z)) (Q : queue)
    (once : bool) (h : helper W G) : outcome (helper W G * Z) :=
  for_each_safe (fun h => queues h Q) (fun _ pos h => op pos h) (fun r => (r =? 0) && once) h 0.

(** The six calls of the loop body that move requests on. *)
Definition process_all (h : helper W G) : outcome (helper W G) :=
  '(h, _) ← __kh_process_request kh_service_done Q_done false h;
  '(h, _) ← __kh_process_request kh_finish_post Q_post_exec false h;
  '(h, _) ← __kh_process_request kh_post_exec Q_running true h;
  '(h, _) ← __kh_process_request kh_launch_exec Q_prepared true h;
  '(h, _) ← __kh_process_request kh_prepare_exec Q_memdone true h;
  '(h, _) ← __kh_process_request kh_request_alloc_mem Q_init false h;
  mret h.

(** One round of [kh_main_loop], and the first [n] rounds.  Nothing in the
    program clears [kh_loop_continue]. *)
Definition kh_main_loop_body (h : helper W G) : outcome (helper W G) :=
  h ← process_all h;
  '(h, _) ← kh_get_next_service_request h;
  mret h.

Fixpoint kh_main_loop (n : nat) (h : helper W G) : outcome (helper W G) :=
  match n with
  | O => mret h
  | S n => h ← kh_main_loop_body h; kh_main_loop n h
  end.

End helper.
