(* ===== verification/HelperInv.v ===== *)
(** * The invariant of the helper's pipeline

    What the helper expects from the device file, the services and [malloc],
    the invariant of its lists, and that every operation of the loop keeps
    it. *)

From S2P Require Import Prelude KgpuDefs ListHead Ranges GpuOps ItemList Services Helper.

(** ** What the helper relies on *)

(** The device: [dev_out w] are the identifiers of the requests handed out
    and not answered, and [dev_pending w] counts the requests that are still
    to be handed out.  A poll that waits ends when there is one; a read that
    follows a successful poll gives one of the requests of [dev_gives] with a
    new identifier, and an answer to a request that was handed out is
    accepted. *)
Class DevFileSpec (W : Type) `{DevFile W} : Type := {
  dev_ok : W -> Prop;
  dev_ready : W -> Prop;
  dev_out : W -> gset Z;
  dev_pending : W -> nat;
  dev_gives : kgpu_ku_request -> Prop;
  sys_poll_law w block : dev_ok w ->
    exists w' err revents, sys_poll w block = Ok (w', (err, revents)) /\
      dev_ok w' /\ dev_out w' = dev_out w /\ dev_pending w' = dev_pending w /\
      (pollin revents = true -> err = 1 /\ dev_ready w') /\
      (block = true -> (0 < dev_pending w)%nat -> pollin revents = true);
  sys_read_law w : dev_ok w -> dev_ready w ->
    exists w' ret errno kureq, sys_read w 88 = Ok (w', (ret, errno, Some kureq)) /\ dev_ok w' /\
      0 < ret /\ dev_gives kureq /\ kr_id kureq ∉ dev_out w /\ length (kr_service_name kureq) = name_size /\
      dev_out w' = {[kr_id kureq]} ∪ dev_out w /\ dev_pending w = S (dev_pending w');
  sys_write_law w resp : dev_ok w -> ks_id resp ∈ dev_out w ->
    exists w' ret, sys_write w resp 8 = Ok (w', ret) /\ 0 <= ret /\ dev_ok w' /\
      dev_out w' = dev_out w ∖ {[ks_id resp]} /\ dev_pending w' = dev_pending w
}.

(** A service works on the GPU and on the fields of a request that are its
    own; it leaves the identifier, the stream, the service pointer, and the
    host pointers and sizes. *)
Definition same_request (q q' : kgpu_service_request) : Prop :=
  sr_id q' = sr_id q /\ sr_stream_id q' = sr_stream_id q /\ sr_s q' = sr_s q /\ same_buffers q q'.

Class ServiceLaws (G : Type) `{GpuBackend G, ServiceCode G} : Prop := {
  run_service_law f g q : be_wf g ->
    exists g' q' r, run_service f g q = Ok (g', q', r) /\ same_streams g g' /\ same_request q q'
}.

Class MallocLaws `{Malloc} : Prop := {
  malloc_fresh n live a : malloc n live = Some a -> a ∉ live
}.

(** ** The invariant *)

(** The request the helper makes of what it read. *)
Definition new_request (kureq : kgpu_ku_request) (s : Z) : kgpu_service_request :=
  mk_sr (kr_id kureq) (kr_in kureq) (kr_out kureq) (kr_data kureq) 0 0 0
    (kr_insize kureq) (kr_outsize kureq) (kr_datasize kureq) 0 s 0 0 0 0 0 (-1) 0.

Definition state_code (Q : queue) : Z :=
  match Q with
  | Q_init => KGPU_REQ_INIT
  | Q_memdone => KGPU_REQ_MEM_DONE
  | Q_prepared => KGPU_REQ_PREPARED
  | Q_running => KGPU_REQ_RUNNING
  | Q_post_exec => KGPU_REQ_POST_EXEC
  | Q_done => KGPU_REQ_DONE
  end.

(** A request in the list [Q]: its state, its stream and its service. *)
Definition item_ok (r : registry) (Q : queue) (q : kgpu_service_request) : Prop :=
  sr_state q = state_code Q /\
  match Q with
  | Q_init | Q_memdone => sr_stream_id q = -1
  | Q_prepared | Q_running | Q_post_exec => valid_stream (sr_stream_id q) = true
  | Q_done => sr_stream_id q = -1 \/ valid_stream (sr_stream_id q) = true
  end /\
  (Q <> Q_done -> sr_s q <> NULL /\ is_Some (svc_mem r !! sr_s q)).

Section inv.
Context {W G : Type} `{DevFileSpec W, GpuLaws G, !ServiceCode G, !ServiceLaws G, MallocLaws}.
Implicit Types h : helper W G.

Definition id_map h : gmap Z Z := sr_id <$> sritems h.

Definition stream_map h : gmap Z Z := sr_stream_id <$> sritems h.

(** Every live item is in [all_reqs] and in exactly one state list, the one
    its state names; the streams in use are those of the items, no two of
    which share a stream; the requests the device waits for are those of the
    items, no two of which have the same identifier; and the back end takes
    the items, and what the device gives. *)
Record helper_wf h : Prop := {
  hw_reg : registry_wf (srv_reg h);
  hw_all_nodup : NoDup (all_reqs h);
  hw_nodup Q : NoDup (queues h Q);
  hw_disjoint Q R x : x ∈ queues h Q -> x ∈ queues h R -> Q = R;
  hw_all x : x ∈ all_reqs h <-> exists Q, x ∈ queues h Q;
  hw_live x : is_Some (sritems h !! x) <-> x ∈ all_reqs h;
  hw_item Q x q : x ∈ queues h Q -> sritems h !! x = Some q -> item_ok (srv_reg h) Q q;
  hw_gpu : be_wf (gpu h);
  hw_streams i : be_used (gpu h) i = true <->
    valid_stream i = true /\ exists x, stream_map h !! x = Some i;
  hw_stream_inj x y i : valid_stream i = true ->
    stream_map h !! x = Some i -> stream_map h !! y = Some i -> x = y;
  hw_dev : dev_ok (devfd h);
  hw_ids id : id ∈ dev_out (devfd h) <-> exists x, id_map h !! x = Some id;
  hw_id_inj x y id : id_map h !! x = Some id -> id_map h !! y = Some id -> x = y;
  hw_takes x q : sritems h !! x = Some q -> be_takes (hostbuf h) (hostvma h) q;
  hw_gives kureq s : dev_gives kureq -> be_takes (hostbuf h) (hostvma h) (new_request kureq s)
}.

(** ** Moving one item *)

(** The item [x] with its new contents at the end of the list [Q]. *)
Definition move h (x : Z) (Q : queue) (q : kgpu_service_request) (g : G) : helper W G :=
  add_list (del_list (store_sr (set_gpu h g) x q) x) x Q.

Definition stay h (x : Z) (q : kgpu_service_request) (g : G) : helper W G :=
  store_sr (set_gpu h g) x q.

Lemma fmap_insert_same {A} (f : A -> Z) (m : gmap Z A) x q q' :
  m !! x = Some q -> f q' = f q -> f <$> <[x := q']> m = f <$> m.
Proof.
  intros Hx E. rewrite fmap_insert, insert_id; [done|]. rewrite lookup_fmap, Hx. by rewrite E.
Qed.

Lemma queues_move h x Q q g R y :
  y ∈ queues (move h x Q q g) R <-> (y = x /\ R = Q) \/ (y <> x /\ y ∈ queues h R).
Proof.
  unfold move. cbn [queues add_list del_list set_queues store_sr set_gpu set_sritems].
  destruct (decide (R = Q)); rewrite ?elem_of_app, elem_of_remove_item, ?list_elem_of_singleton;
    naive_solver.
Qed.

Lemma live_insert h x q :
  helper_wf h -> is_Some (sritems h !! x) ->
  forall y, is_Some (<[x := q]> (sritems h) !! y) <-> y ∈ all_reqs h.
Proof.
  intros Hwf Hx y. rewrite <- (hw_live h Hwf). destruct (decide (y = x)) as [->|].
  - rewrite lookup_insert_eq. naive_solver.
  - by rewrite lookup_insert_ne.
Qed.

Lemma takes_insert h x q q' :
  helper_wf h -> sritems h !! x = Some q -> same_buffers q q' ->
  forall y qy, <[x := q']> (sritems h) !! y = Some qy -> be_takes (hostbuf h) (hostvma h) qy.
Proof.
  intros Hwf Hx Hb y qy [[<- <-]|[_ Hy]]%lookup_insert_Some; [|by apply (hw_takes h Hwf y)].
  eapply be_takes_same; [exact Hb | by apply (hw_takes h Hwf x)].
Qed.

(** What a change of one item has to keep about the streams: the stream is
    the same, or the item had none and gets a free one. *)
Definition stream_step (g g' : G) (i i' : Z) : Prop :=
  (i' = i /\ same_streams g g') \/
  (i = -1 /\ valid_stream i' = true /\ be_used g i' = false /\ be_wf g' /\
   forall j, be_used g' j = (if bool_decide (j = i') then true else be_used g j)).

Lemma stream_step_wf g g' i i' : stream_step g g' i i' -> be_wf g'.
Proof. intros [[_ []]|(_ & _ & _ & ? & _)]; done. Qed.

Lemma stream_step_inv h x q q' g' :
  helper_wf h -> sritems h !! x = Some q ->
  stream_step (gpu h) g' (sr_stream_id q) (sr_stream_id q') ->
  let m := sr_stream_id <$> <[x := q']> (sritems h) in
  (forall i, be_used g' i = true <-> valid_stream i = true /\ exists y, m !! y = Some i) /\
  (forall y z i, valid_stream i = true -> m !! y = Some i -> m !! z = Some i -> y = z).
Proof.
  intros Hwf Hx [[E [_ Hu]]|(E & Hv & Hf & _ & Hu)] m; subst m.
  - rewrite (fmap_insert_same _ _ _ q) by done. split.
    + intros i. rewrite Hu. apply (hw_streams h Hwf).
    + apply (hw_stream_inj h Hwf).
  - assert (Hnew : forall y, stream_map h !! y <> Some (sr_stream_id q')).
    { intros y Hy. apply not_true_iff_false in Hf. apply Hf, (hw_streams h Hwf). eauto. }
    assert (Hold : stream_map h !! x = Some (-1)).
    { unfold stream_map. rewrite lookup_fmap, Hx. simpl. by rewrite E. }
    rewrite fmap_insert. split.
    + intros i. rewrite Hu. case_bool_decide as Ei.
      * subst i. split; [|done]. intros _. split; [done|]. exists x. by rewrite lookup_insert_eq.
      * rewrite (hw_streams h Hwf). split; intros [Hi [y Hy]]; (split; [done|]); exists y.
        -- rewrite lookup_insert_ne; [done|]. intros ->. rewrite Hold in Hy. by injection Hy as <-.
        -- apply lookup_insert_Some in Hy as [[_ ?]|[_ Hy]]; [congruence | done].
    + intros y z i Hi Hy Hz.
      apply lookup_insert_Some in Hy as [[<- <-]|[? Hy]];
        apply lookup_insert_Some in Hz as [[<- Hz]|[? Hz]]; try done.
      * by apply Hnew in Hz.
      * subst i. by apply Hnew in Hy.
      * by eapply (hw_stream_inj h Hwf).
Qed.

Lemma move_wf h x Q Q' q q' g' :
  helper_wf h -> x ∈ queues h Q -> Q <> Q' -> sritems h !! x = Some q ->
  sr_id q' = sr_id q -> same_buffers q q' -> item_ok (srv_reg h) Q' q' ->
  stream_step (gpu h) g' (sr_stream_id q) (sr_stream_id q') ->
  helper_wf (move h x Q' q' g').
Proof.
  intros Hwf Hin Hne Hx Hid Hbuf Hok Hst.
  destruct (stream_step_inv h x q q' g' Hwf Hx Hst) as [Hs1 Hs2].
  assert (Eids : sr_id <$> <[x := q']> (sritems h) = id_map h) by by apply (fmap_insert_same _ _ _ q).
  split; try done; simpl.
  - apply (hw_reg h Hwf).
  - apply (hw_all_nodup h Hwf).
  - intros R. pose proof (remove_item_NoDup (queues h R) x (hw_nodup h Hwf R)) as Hnd.
    destruct (decide (R = Q')); [|done]. apply NoDup_app. split_and!; [done| |apply NoDup_singleton].
    intros y Hy ->%list_elem_of_singleton. by apply elem_of_remove_item in Hy as [? _].
  - intros R R' y Hy Hy'. apply (queues_move h x Q' q' g') in Hy, Hy'.
    destruct Hy as [[-> ->]|[? Hy]], Hy' as [[? ->]|[? Hy']]; try done.
    by apply (hw_disjoint h Hwf _ _ y).
  - intros y. rewrite (hw_all h Hwf). split.
    + intros [R HR]. destruct (decide (y = x)) as [->|].
      * exists Q'. apply (queues_move h x Q' q' g'). by left.
      * exists R. apply (queues_move h x Q' q' g'). by right.
    + intros [R HR]. apply (queues_move h x Q' q' g') in HR as [[-> ->]|[_ HR]]; eauto.
  - apply live_insert; [done | by eexists].
  - intros R y qy Hy Hqy. apply (queues_move h x Q' q' g') in Hy as [[-> ->]|[? Hy]].
    + rewrite lookup_insert_eq in Hqy. by injection Hqy as <-.
    + rewrite lookup_insert_ne in Hqy by done. by apply (hw_item h Hwf R y).
  - by eapply stream_step_wf.
  - apply (hw_dev h Hwf).
  - unfold id_map. simpl. rewrite Eids. apply (hw_ids h Hwf).
  - unfold id_map. simpl. rewrite Eids. apply (hw_id_inj h Hwf).
  - by apply (takes_insert h x q).
  - apply (hw_gives h Hwf).
Qed.

Lemma stay_wf h x Q q q' g' :
  helper_wf h -> x ∈ queues h Q -> sritems h !! x = Some q ->
  sr_id q' = sr_id q -> same_buffers q q' -> item_ok (srv_reg h) Q q' -> sr_stream_id q' = sr_stream_id q ->
  same_streams (gpu h) g' -> helper_wf (stay h x q' g').
Proof.
  intros Hwf Hin Hx Hid Hbuf Hok Est Hst.
  assert (Hss : stream_step (gpu h) g' (sr_stream_id q) (sr_stream_id q')) by (left; done).
  destruct (stream_step_inv h x q q' g' Hwf Hx Hss) as [Hs1 Hs2].
  assert (Eids : sr_id <$> <[x := q']> (sritems h) = id_map h) by by apply (fmap_insert_same _ _ _ q).
  split; try done; simpl.
  - apply (hw_reg h Hwf).
  - apply (hw_all_nodup h Hwf).
  - apply (hw_nodup h Hwf).
  - apply (hw_disjoint h Hwf).
  - apply (hw_all h Hwf).
  - apply live_insert; [done | by eexists].
  - intros R y qy Hy Hqy. destruct (decide (y = x)) as [->|].
    + rewrite lookup_insert_eq in Hqy. injection Hqy as <-.
      by rewrite (hw_disjoint h Hwf R Q x).
    + rewrite lookup_insert_ne in Hqy by done. by apply (hw_item h Hwf R y).
  - by eapply stream_step_wf.
  - apply (hw_dev h Hwf).
  - unfold id_map. simpl. rewrite Eids. apply (hw_ids h Hwf).
  - unfold id_map. simpl. rewrite Eids. apply (hw_id_inj h Hwf).
  - by apply (takes_insert h x q).
  - apply (hw_gives h Hwf).
Qed.

(** An item that leaves: its lists, its identifier and its stream. *)
Definition drop h (x : Z) (w : W) (g : G) : helper W G :=
  kh_free_service_request
    (set_gpu (set_all (del_list (set_dev h w) x) (remove_item (all_reqs h) x)) g) x.

Lemma drop_wf h x Q q w g :
  helper_wf h -> x ∈ queues h Q -> sritems h !! x = Some q ->
  dev_ok w -> dev_out w = dev_out (devfd h) ∖ {[sr_id q]} -> be_wf g ->
  (forall i, be_used g i = if bool_decide (i = sr_stream_id q) then false else be_used (gpu h) i) ->
  helper_wf (drop h x w g).
Proof.
  intros Hwf Hin Hx Hw Hout Hg Hu.
  assert (Hidx : id_map h !! x = Some (sr_id q)) by (unfold id_map; by rewrite lookup_fmap, Hx).
  assert (Hstx : stream_map h !! x = Some (sr_stream_id q))
    by (unfold stream_map; by rewrite lookup_fmap, Hx).
  split; simpl; try done.
  - apply (hw_reg h Hwf).
  - apply remove_item_NoDup, (hw_all_nodup h Hwf).
  - intros R. apply remove_item_NoDup, (hw_nodup h Hwf).
  - intros R R' y Hy Hy'. apply elem_of_remove_item in Hy as [_ Hy], Hy' as [_ Hy'].
    by apply (hw_disjoint h Hwf _ _ y).
  - intros y. rewrite elem_of_remove_item, (hw_all h Hwf).
    setoid_rewrite elem_of_remove_item. naive_solver.
  - intros y. rewrite elem_of_remove_item, <- (hw_live h Hwf), lookup_delete_is_Some.
    naive_solver.
  - intros R y qy Hy Hqy. apply elem_of_remove_item in Hy as [? Hy].
    rewrite lookup_delete_ne in Hqy by done. by apply (hw_item h Hwf R y).
  - intros i. rewrite Hu. unfold stream_map. simpl. rewrite fmap_delete. fold (stream_map h).
    case_bool_decide as E.
    + split; [done|]. intros [Hi [y Hy]]. apply lookup_delete_Some in Hy as [Hne Hy].
      destruct Hne. by apply (hw_stream_inj h Hwf x y i); subst i.
    + rewrite (hw_streams h Hwf). apply and_iff_compat_l. split; intros [y Hy]; exists y.
      * rewrite lookup_delete_ne; [done|]. intros ->. rewrite Hstx in Hy. by injection Hy as Hy.
      * by apply lookup_delete_Some in Hy as [_ Hy].
  - intros y z i Hi Hy Hz. unfold stream_map in *. simpl in *. rewrite fmap_delete in *.
    apply lookup_delete_Some in Hy as [_ Hy], Hz as [_ Hz]. by apply (hw_stream_inj h Hwf y z i).
  - intros id. rewrite Hout. unfold id_map. simpl. rewrite fmap_delete. fold (id_map h).
    rewrite elem_of_difference, elem_of_singleton, (hw_ids h Hwf). split.
    + intros [[y Hy] Hne]. exists y. rewrite lookup_delete_ne; [done|]. intros ->. congruence.
    + intros [y Hy]. apply lookup_delete_Some in Hy as [Hne Hy]. split; [eauto|].
      intros ->. destruct Hne. by apply (hw_id_inj h Hwf x y (sr_id q)).
  - intros y z id Hy Hz. unfold id_map in *. simpl in *. rewrite fmap_delete in *.
    apply lookup_delete_Some in Hy as [_ Hy], Hz as [_ Hz]. by apply (hw_id_inj h Hwf y z id).
  - intros y qy [_ Hy]%lookup_delete_Some. by apply (hw_takes h Hwf y).
  - apply (hw_gives h Hwf).
Qed.

(** ** What one operation does *)

(** The transitions of a request; the last one is its answer. *)
Inductive trans : queue -> option queue -> Prop :=
  | T_alloc : trans Q_init (Some Q_memdone)
  | T_prepare : trans Q_memdone (Some Q_prepared)
  | T_prepare_fail : trans Q_memdone (Some Q_done)
  | T_launch : trans Q_prepared (Some Q_running)
  | T_launch_fail : trans Q_prepared (Some Q_done)
  | T_post : trans Q_running (Some Q_post_exec)
  | T_post_fail : trans Q_running (Some Q_done)
  | T_finish : trans Q_post_exec (Some Q_done)
  | T_answer : trans Q_done None.

(** The item [x] has left its list for [Q'], or is gone. *)
Definition moved h (x : Z) (Q' : option queue) h' : Prop :=
  (forall R, queues h' R = if decide (Q' = Some R) then remove_item (queues h R) x ++ [x]
                           else remove_item (queues h R) x) /\
  (forall y, y ∈ all_reqs h' <-> y ∈ all_reqs h /\ (Q' = None -> y <> x)).

(** Why a request stays where it is. *)
Definition blocked h (x : Z) (Q : queue) : Prop :=
  match Q with
  | Q_memdone => forall i, valid_stream i = true -> be_used (gpu h) i = true
  | Q_running => exists q g', sritems h !! x = Some q /\ be_execution_finished (gpu h) q = Ok (g', 0)
  | Q_post_exec => exists q g', sritems h !! x = Some q /\ be_post_finished (gpu h) q = Ok (g', 0)
  | _ => False
  end.

(** The registry and the services of the items stay. *)
Definition same_services h h' : Prop :=
  srv_reg h' = srv_reg h /\
  forall y q', sritems h' !! y = Some q' -> exists q, sritems h !! y = Some q /\ sr_s q' = sr_s q.

Lemma same_services_insert h h' x q q' :
  sritems h !! x = Some q -> sr_s q' = sr_s q -> srv_reg h' = srv_reg h ->
  sritems h' = <[x := q']> (sritems h) -> same_services h h'.
Proof.
  intros Hx Hs Er Ei. split; [done|]. rewrite Ei.
  intros y z [[<- <-]|[_ Hy]]%lookup_insert_Some; eauto.
Qed.

Definition op_effect h (x : Z) (Q : queue) h' : Prop :=
  (dev_pending (devfd h') = dev_pending (devfd h) /\ same_services h h') /\
  (((forall R, queues h' R = queues h R) /\ all_reqs h' = all_reqs h /\ blocked h x Q) \/
   (exists Q', trans Q Q' /\ moved h x Q' h')).

Definition op_spec (op : Z -> helper W G -> outcome (helper W G * Z)) (Q : queue) : Prop :=
  forall h x, helper_wf h -> x ∈ queues h Q ->
    exists h' r, op x h = Ok (h', r) /\ helper_wf h' /\ op_effect h x Q h'.

Lemma load_sr_queued h Q x :
  helper_wf h -> x ∈ queues h Q ->
  exists q, load_sr h x = Ok q /\ sritems h !! x = Some q /\ item_ok (srv_reg h) Q q.
Proof.
  intros Hwf Hx. assert (is_Some (sritems h !! x)) as [q Hq].
  { apply (hw_live h Hwf), (hw_all h Hwf). eauto. }
  exists q. unfold load_sr. rewrite Hq. split_and!; [done..|]. by apply (hw_item h Hwf Q x).
Qed.

Lemma load_service_queued h h' Q q q' :
  srv_reg h' = srv_reg h -> item_ok (srv_reg h) Q q -> Q <> Q_done -> sr_s q' = sr_s q ->
  exists sv, load_service h' q' = Ok sv.
Proof.
  intros Hr (_ & _ & Hs) Hne E. destruct (Hs Hne) as [Hz [sv Hsv]]. exists sv.
  unfold load_service. rewrite E, Hr, (proj2 (Z.eqb_neq (sr_s q) NULL) Hz). by rewrite Hsv.
Qed.

(** Changing the item first and moving it then is one [move]. *)
Lemma move_store h x q q' g Q :
  add_list (del_list (store_sr (stay h x q g) x q') x) x Q = move h x Q q' g.
Proof. unfold move, stay, store_sr, set_sritems. simpl. by rewrite insert_insert_eq. Qed.

Lemma stay_stay h x q q' g g' : stay (stay h x q g) x q' g' = stay h x q' g'.
Proof. unfold stay, store_sr, set_sritems. simpl. by rewrite insert_insert_eq. Qed.

Lemma kh_fail_request_stay h x q g serr :
  kh_fail_request x serr (stay h x q g) = Ok (move h x Q_done (with_status q KGPU_REQ_DONE serr) g).
Proof.
  unfold kh_fail_request, load_sr. simpl. rewrite lookup_insert_eq. cbn [of_option mbind outcome_bind].
  by rewrite move_store.
Qed.

Lemma moved_move h x Q q g : moved h x (Some Q) (move h x Q q g).
Proof.
  split; [|simpl; naive_solver]. intros R. simpl.
  destruct (decide (R = Q)), (decide (Some Q = Some R)); congruence.
Qed.

(** A move to another list, as the effect of an operation. *)
Lemma move_effect h x Q Q' q q' g' :
  helper_wf h -> x ∈ queues h Q -> sritems h !! x = Some q -> trans Q (Some Q') ->
  sr_id q' = sr_id q -> sr_s q' = sr_s q -> same_buffers q q' -> item_ok (srv_reg h) Q' q' ->
  stream_step (gpu h) g' (sr_stream_id q) (sr_stream_id q') ->
  helper_wf (move h x Q' q' g') /\ op_effect h x Q (move h x Q' q' g').
Proof.
  intros Hwf Hin Hx Ht Hid Hs Hbuf Hok Hst. split.
  - eapply (move_wf h x Q Q'); eauto. by inversion Ht.
  - split; [split; [done | by eapply (same_services_insert h _ x q)]|]. right. exists (Some Q'). split; [done | apply moved_move].
Qed.

Lemma same_stream_step g g' i : same_streams g g' -> stream_step g g' i i.
Proof. by left. Qed.

Lemma same_streams_trans g g1 g2 :
  same_streams g g1 -> same_streams g1 g2 -> same_streams g g2.
Proof. intros [_ Ha] [? Hb]. split; [done|]. intros i. by rewrite Hb, Ha. Qed.

Lemma stream_step_same g g1 g2 i i' :
  stream_step g g1 i i' -> same_streams g1 g2 -> stream_step g g2 i i'.
Proof.
  intros [[-> Hs]|(-> & Hv & Hf & _ & Hu)] Hs2.
  - left. split; [done|]. by eapply same_streams_trans.
  - right. destruct Hs2 as [? Hs2]. split_and!; try done. intros j. by rewrite Hs2, Hu.
Qed.

(** ** The six operations *)

Lemma kh_request_alloc_mem_spec : op_spec kh_request_alloc_mem Q_init.
Proof.
  intros h x Hwf Hin. destruct (load_sr_queued h Q_init x Hwf Hin) as (q & Hl & Hx & Hok).
  unfold kh_request_alloc_mem. rewrite Hl. cbn [mbind outcome_bind].
  destruct (be_alloc_device_mem_law (gpu h) (hostbuf h) (hostvma h) q (hw_gpu h Hwf) (hw_takes h Hwf x q Hx))
    as (g & di & do & dd & -> & Hs). cbn [mbind outcome_bind truth Z.eqb negb].
  change (store_sr (set_gpu h g) x (with_device q di do dd)) with (stay h x (with_device q di do dd) g).
  rewrite move_store. eexists _, 0. split; [done|].
  apply (move_effect h x Q_init Q_memdone q); [done..|constructor|done|done|done| |by apply same_stream_step].
  destruct Hok as (_ & ? & Hsv). split_and!; [done..|]. intros _. by apply Hsv.
Qed.

(** The end of an operation that ran a function of the service: the request
    goes on to [Q'], or fails. *)
Lemma finish_op h x Q Q' q q1 q' g' code :
  helper_wf h -> x ∈ queues h Q -> sritems h !! x = Some q -> item_ok (srv_reg h) Q q ->
  trans Q (Some Q') -> trans Q (Some Q_done) -> Q' <> Q_done ->
  valid_stream (sr_stream_id q1) = true -> sr_id q1 = sr_id q -> sr_s q1 = sr_s q ->
  same_buffers q q1 -> same_request q1 q' ->
  stream_step (gpu h) g' (sr_stream_id q) (sr_stream_id q1) ->
  (forall st, item_ok (srv_reg h) Q' (with_status q' (state_code Q') st) ->
    helper_wf (move h x Q' (with_status q' (state_code Q') st) g') /\
    op_effect h x Q (move h x Q' (with_status q' (state_code Q') st) g')) /\
  item_ok (srv_reg h) Q' (with_status q' (state_code Q') (sr_errcode q')) /\
  helper_wf (move h x Q_done (with_status q' KGPU_REQ_DONE code) g') /\
  op_effect h x Q (move h x Q_done (with_status q' KGPU_REQ_DONE code) g').
Proof.
  intros Hwf Hin Hx Hok Ht Hf Hne Hv Hid Hs Hb1 (Hid' & Hst' & Hs' & Hb2) Hstep.
  assert (Hb : forall st e, same_buffers q (with_status q' st e))
    by (intros; unfold same_buffers in *; simpl; intuition congruence).
  assert (HQ : Q <> Q_done) by (intros ->; inversion Ht).
  destruct Hok as (_ & _ & Hsv). specialize (Hsv HQ). rewrite <- Hs, <- Hs' in Hsv.
  split; [|split].
  - intros st Hok'. apply (move_effect h x Q Q' q); try done; simpl; [congruence..|].
    by rewrite Hst'.
  - split; [done|]. split; [|done]. rewrite <- Hst' in Hv.
    by destruct Q; inversion Hf; inversion Ht; subst.
  - apply (move_effect h x Q Q_done q); try done; simpl; [congruence..| |by rewrite Hst'].
    split_and!; [done| |done]. right. simpl. by rewrite Hst'.
Qed.

Lemma kh_launch_exec_spec : op_spec kh_launch_exec Q_prepared.
Proof.
  intros h x Hwf Hin. destruct (load_sr_queued h _ x Hwf Hin) as (q & Hl & Hx & Hok).
  unfold kh_launch_exec. rewrite Hl. cbn [mbind outcome_bind].
  destruct (load_service_queued h h Q_prepared q q) as [sv ->]; [done..|]. cbn [mbind outcome_bind].
  destruct (run_service_law (sv_launch sv) (gpu h) q (hw_gpu h Hwf)) as (g & q' & r & -> & Hs & Hq).
  cbn [mbind outcome_bind]. change (store_sr (set_gpu h g) x q') with (stay h x q' g).
  destruct (finish_op h x Q_prepared Q_running q q q' g r) as (Hgo & Hok' & Hfail); try done;
    [constructor..|apply Hok|by apply same_stream_step|].
  destruct (truth r).
  - rewrite kh_fail_request_stay. by eexists _, _.
  - rewrite move_store. eexists _, _. split; [done|]. by apply Hgo.
Qed.

Lemma kh_post_exec_spec : op_spec kh_post_exec Q_running.
Proof.
  intros h x Hwf Hin. destruct (load_sr_queued h _ x Hwf Hin) as (q & Hl & Hx & Hok).
  unfold kh_post_exec. rewrite Hl. cbn [mbind outcome_bind].
  destruct (be_execution_finished_law (gpu h) q (hw_gpu h Hwf)) as (g & fin & Hfin & Hsg).
  rewrite Hfin. cbn [mbind outcome_bind].
  destruct (truth fin) eqn:Ht.
  - destruct (load_service_queued h (set_gpu h g) Q_running q q) as [sv ->]; [done..|].
    cbn [mbind outcome_bind].
    destruct (run_service_law (sv_post sv) g q (proj1 Hsg)) as (g2 & q' & r & Hr & Hs & Hq).
    simpl gpu. rewrite Hr. cbn [mbind outcome_bind].
    change (store_sr (set_gpu (set_gpu h g) g2) x q') with (stay h x q' g2).
    destruct (finish_op h x Q_running Q_post_exec q q q' g2 r) as (Hgo & Hok' & Hfail); try done;
      [constructor..|apply Hok|apply same_stream_step; by eapply same_streams_trans|].
    destruct (truth r).
    + rewrite kh_fail_request_stay. by eexists _, _.
    + rewrite move_store. eexists _, _. split; [done|]. by apply Hgo.
  - apply truth_false in Ht as ->. eexists _, 1. split; [done|].
    assert (Hst : set_gpu h g = stay h x q g).
    { unfold stay, store_sr, set_sritems. simpl. by rewrite insert_id. }
    split.
    + rewrite Hst. by apply (stay_wf h x Q_running q).
    + rewrite Hst. split; [split; [done | by eapply (same_services_insert h _ x q)]|]. left. split; [done|]. split; [done|]. by exists q, g.
Qed.

Lemma kh_finish_post_spec : op_spec kh_finish_post Q_post_exec.
Proof.
  intros h x Hwf Hin. destruct (load_sr_queued h _ x Hwf Hin) as (q & Hl & Hx & Hok).
  unfold kh_finish_post. rewrite Hl. cbn [mbind outcome_bind].
  destruct (be_post_finished_law (gpu h) q (hw_gpu h Hwf)) as (g & fin & Hfin & Hsg).
  rewrite Hfin. cbn [mbind outcome_bind].
  assert (Hst : set_gpu h g = stay h x q g).
  { unfold stay, store_sr, set_sritems. simpl. by rewrite insert_id. }
  rewrite Hst. destruct (truth fin) eqn:Ht.
  - rewrite move_store. eexists _, 0. split; [done|].
    apply (move_effect h x Q_post_exec Q_done q); try done; [constructor| |by apply same_stream_step].
    destruct Hok as (_ & Hv & _). split_and!; [done|by right|done].
  - apply truth_false in Ht as ->. eexists _, 1. split; [done|]. split.
    + by apply (stay_wf h x Q_post_exec q).
    + split; [split; [done | by eapply (same_services_insert h _ x q)]|]. left. split; [done|]. split; [done|]. by exists q, g.
Qed.

Lemma kh_prepare_exec_spec : op_spec kh_prepare_exec Q_memdone.
Proof.
  intros h x Hwf Hin. destruct (load_sr_queued h _ x Hwf Hin) as (q & Hl & Hx & Hok).
  unfold kh_prepare_exec. rewrite Hl. cbn [mbind outcome_bind].
  destruct (be_alloc_stream_law (gpu h) q (hw_gpu h Hwf))
    as [[-> Hall] | (g & i & s & -> & Hg & Hv & Hf & Hu)]; cbn [mbind outcome_bind truth Z.eqb negb].
  - change (store_sr (set_gpu h (gpu h)) x q) with (stay h x q (gpu h)).
    eexists _, (-1). split; [done|].
    split; [|split; [split; [done | by eapply (same_services_insert h _ x q)] | by left]].
    apply (stay_wf h x Q_memdone q); try done. split; [apply Hwf | done].
  - change (store_sr (set_gpu h g) x (with_stream q i s)) with (stay h x (with_stream q i s) g).
    destruct (load_service_queued h (stay h x (with_stream q i s) g) Q_memdone q (with_stream q i s))
      as [sv ->]; [done..|]. cbn [mbind outcome_bind].
    destruct (run_service_law (sv_prepare sv) g (with_stream q i s) Hg)
      as (g2 & q' & r & Hr & Hs & Hq).
    simpl gpu. rewrite Hr. cbn [mbind outcome_bind].
    change (store_sr (set_gpu (stay h x (with_stream q i s) g) g2) x q')
      with (stay (stay h x (with_stream q i s) g) x q' g2). rewrite stay_stay.
    assert (Hstep : stream_step (gpu h) g2 (sr_stream_id q) i).
    { eapply stream_step_same; [|done]. right. split_and!; try done. apply Hok. }
    destruct (finish_op h x Q_memdone Q_prepared q (with_stream q i s) q' g2 r)
      as (Hgo & Hok' & Hfail); try done; [constructor..|].
    destruct (truth r).
    + rewrite kh_fail_request_stay. by eexists _, _.
    + rewrite move_store. eexists _, _. split; [done|]. by apply Hgo.
Qed.

Lemma kh_service_done_spec : op_spec kh_service_done Q_done.
Proof.
  intros h x Hwf Hin. destruct (load_sr_queued h _ x Hwf Hin) as (q & Hl & Hx & Hok).
  unfold kh_service_done, kh_send_response. rewrite Hl. cbn [mbind outcome_bind].
  destruct (sys_write_law (devfd h) (mk_ku_response (sr_id q) (sr_errcode q)) (hw_dev h Hwf))
    as (w & r & -> & Hr & Hw & Hout & Hpe).
  { apply (hw_ids h Hwf). exists x. unfold id_map. by rewrite lookup_fmap, Hx. }
  cbn [mbind outcome_bind]. rewrite (proj2 (Z.ltb_ge r 0) Hr). cbn [mbind outcome_bind mret outcome_ret].
  assert (Hall : x ∈ all_reqs h) by (apply (hw_all h Hwf); eauto).
  rewrite list_del_item_ok by done. cbn [mbind outcome_bind]. simpl gpu. simpl hostvma.
  destruct (be_free_device_mem_law (gpu h) (hostbuf h) (hostvma h) q (hw_gpu h Hwf) (hw_takes h Hwf x q Hx)) as (g & q' & -> & Hs & _ & Hid).
  cbn [mbind outcome_bind].
  destruct (be_free_stream_law g q' (proj1 Hs)) as (g2 & -> & Hg2 & Hu). cbn [mbind outcome_bind].
  eexists _, 0. split; [done|]. split.
  - apply (drop_wf h x Q_done q w g2); try done. intros i. rewrite Hu, Hid. by rewrite (proj2 Hs).
  - split; [split; [done|]; split; [done|]; simpl; intros y z [_ Hy]%lookup_delete_Some; eauto|].
    right. exists None. split; [constructor|]. split.
    + intros R. by destruct (decide (None = Some R)).
    + intros y. simpl. rewrite elem_of_remove_item. naive_solver.
Qed.

(** ** The start *)

(** The helper before its first request. *)
Definition helper_start (hb hv : kgpu_gpu_mem_info) (r : registry) (g : G) (w : W) : helper W G :=
  mk_helper [] (fun _ => []) ∅ hb hv r g w 0.

Lemma helper_start_wf hb hv r g w :
  registry_wf r -> be_wf g -> (forall i, be_used g i = false) -> dev_ok w -> dev_out w = ∅ ->
  (forall kureq s, dev_gives kureq -> be_takes hb hv (new_request kureq s)) ->
  helper_wf (helper_start hb hv r g w).
Proof.
  intros Hr Hg Hu Hw Ho Hgv.
  split; unfold stream_map, id_map; simpl; try done; try apply NoDup_nil_2.
  - intros _. apply NoDup_nil_2.
  - intros Q R x Hx. by apply not_elem_of_nil in Hx.
  - intros x. split; [intros Hx | intros [Q Hx]]; by apply not_elem_of_nil in Hx.
  - intros x. rewrite lookup_empty. split; [intros [? ?] | intros Hx]; [done|].
    by apply not_elem_of_nil in Hx.
  - intros i. rewrite Hu. split; [done|]. intros [_ [x Hx]]. by rewrite lookup_fmap in Hx.
  - intros id. rewrite Ho. split; [set_solver|]. intros [x Hx]. by rewrite lookup_fmap in Hx.
Qed.

End inv.
