(* ===== verification/SrvTestCu.v ===== *)
(** * The test library on CUDA (src/services/test/libsrv_test/srv_test.cu)

    The four functions of the service [empty_service] of the CUDA version of
    the library: they copy the input to the device and the output back, on
    the stream of the request, around an empty kernel.  The launch of a
    kernel is a parameter, like the other calls of the runtime; its errors
    are not looked at.  The library is an instance of the services of the
    helper, beside services at other addresses. *)

From S2P Require Import Prelude KgpuDefs ListHead Ranges GpuOps CudaInit ItemList Services.
From S2P Require Import Helper HelperInv.

(** [empty_kernel<<< dim3(gx, gy), dim3(bx, by), 0, s >>>()] *)
Class CudaLaunch (C : Type) : Type := {
  launch_empty_kernel : C -> Z * Z -> Z * Z -> Z -> C
}.

Section functions.
Context {C : Type} `{CudaRuntime C, !CudaLaunch C}.
Implicit Types g : cuda_state C.

Definition empty_cs (sr : kgpu_service_request) : kgpu_service_request * Z := (with_dims sr 1 1 1 1, 0).

Definition empty_launch g (sr : kgpu_service_request) : cuda_state C * Z :=
  (set_ctx g (launch_empty_kernel (cu_ctx g) (sr_grid_x sr, sr_grid_y sr) (sr_block_x sr, sr_block_y sr)
                (sr_stream sr)), 0).

Definition empty_prepare g (sr : kgpu_service_request) : outcome (cuda_state C * Z) :=
  let s := sr_stream sr in
  let '(e, c) := cudaMemcpyAsync (cu_ctx g) (sr_din sr) (sr_hin sr) (sr_insize sr)
                   cudaMemcpyHostToDevice s in
  c ← csc e c;
  mret (set_ctx g c, 0).

Definition empty_post g (sr : kgpu_service_request) : outcome (cuda_state C * Z) :=
  let s := sr_stream sr in
  let '(e, c) := cudaMemcpyAsync (cu_ctx g) (sr_hout sr) (sr_dout sr) (sr_outsize sr)
                   cudaMemcpyDeviceToHost s in
  c ← csc e c;
  mret (set_ctx g c, 0).

(** The code at an address: one of the four functions, or another service. *)
Context {other : ServiceCode (cuda_state C)}.

Definition srv_test_cu_run (f : Z) g (q : kgpu_service_request) :
    outcome (cuda_state C * kgpu_service_request * Z) :=
  if f =? SrvTest.empty_cs then let '(q, r) := empty_cs q in mret (g, q, r)
  else if f =? SrvTest.empty_launch then let '(g, r) := empty_launch g q in mret (g, q, r)
  else if f =? SrvTest.empty_prepare then '(g, r) ← empty_prepare g q; mret (g, q, r)
  else if f =? SrvTest.empty_post then '(g, r) ← empty_post g q; mret (g, q, r)
  else run_service f g q.

Definition srv_test_cu : ServiceCode (cuda_state C) := {| run_service := srv_test_cu_run |}.

End functions.

(** ** An instance of the helper's services *)

(** A driver without an error accepts copies and launches. *)
Class CopyOk (C : Type) `{CudaFine C, CudaRuntime C, CudaLaunch C} : Prop := {
  copy_ok c dst src n k s : cu_fine c ->
    exists c', cudaMemcpyAsync c dst src n k s = (cudaSuccess, c') /\ cu_fine c';
  launch_ok c grid block s : cu_fine c -> cu_fine (launch_empty_kernel c grid block s)
}.

Lemma srv_test_cu_laws {C} `{CudaDriver C, CudaFine C, CudaRuntime C, !CudaLaunch C, !CopyOk C}
    (other : ServiceCode (cuda_state C)) :
  ServiceLaws (cuda_state C) -> @ServiceLaws (cuda_state C) _ srv_test_cu.
Proof.
  intros [Hother]. split. intros f g q [Hg Hf]. cbn [run_service srv_test_cu]. unfold srv_test_cu_run.
  destruct (f =? _); [by eexists _, _, _|].
  destruct (f =? _); [eexists _, _, _; split; [done|]; split; [|done]; split; [|done]; by split; [|apply launch_ok]|].
  destruct (f =? _).
  { unfold empty_prepare. destruct (copy_ok (cu_ctx g) (sr_din q) (sr_hin q) (sr_insize q)
      cudaMemcpyHostToDevice (sr_stream q) Hf) as (c & -> & Hc). by eexists _, _, _. }
  destruct (f =? _); [|by apply Hother].
  unfold empty_post. destruct (copy_ok (cu_ctx g) (sr_hout q) (sr_dout q) (sr_outsize q)
    cudaMemcpyDeviceToHost (sr_stream q) Hf) as (c & -> & Hc). by eexists _, _, _.
Qed.

(** ** What the service does for a request *)

(** A launch gives the driver no copies. *)
Class LaunchLaws (C : Type) `{CudaCopies C, !CudaLaunch C} : Prop := {
  launch_law c grid block s : cu_up c ->
    cu_up (launch_empty_kernel c grid block s) /\
    cu_copies (launch_empty_kernel c grid block s) = cu_copies c
}.

Section work.
Context {C : Type} `{CudaCopies C, !CudaLaunch C, !LaunchLaws C} {other : ServiceCode (cuda_state C)}.
Implicit Types g : cuda_state C.


End work.

(** ** An example *)

#[global] Instance tracer_launch : CudaLaunch tracer := { launch_empty_kernel c _ _ _ := c }.

#[global] Instance tracer_launch_laws : LaunchLaws tracer.
Proof. by split. Qed.

#[global] Instance tracer_fine : CudaFine tracer := { cu_fine _ := True }.

#[global] Instance tracer_copy_ok : CopyOk tracer.
Proof. split; intros; [by eexists | done]. Qed.


