(* ===== verification/HelperLoop.v ===== *)
(** * The helper's main loop

    One round of [kh_main_loop] on a helper that satisfies the invariant:
    it does not fault, it keeps the invariant, every request advances by at
    most one transition, and finished requests are answered. *)

From S2P Require Import Prelude KgpuDefs ListHead Ranges GpuOps ItemList Services Helper HelperInv.

Section loop.
Context {W G : Type} `{DevFileSpec W, GpuLaws G, !ServiceCode G, !ServiceLaws G, MallocLaws}.
Implicit Types h : helper W G.

(** ** Reading the next request *)

(** A new item [x] in [all_reqs] and in the list [Q]. *)
Record admitted h (x : Z) (Q : queue) (q : kgpu_service_request) h' : Prop := {
  ad_all : all_reqs h' = all_reqs h ++ [x];
  ad_queues R : queues h' R = if decide (R = Q) then queues h R ++ [x] else queues h R;
  ad_items : sritems h' = <[x := q]> (sritems h);
  ad_reg : srv_reg h' = srv_reg h;
  ad_buf : hostbuf h' = hostbuf h;
  ad_vma : hostvma h' = hostvma h
}.

Lemma lookup_none_notin h x :
  helper_wf h -> sritems h !! x = None -> x ∉ all_reqs h /\ forall Q, x ∉ queues h Q.
Proof.
  intros Hwf Hx. assert (x ∉ all_reqs h) as Hn.
  { intros Hin. apply (hw_live h Hwf) in Hin as [q Hq]. congruence. }
  split; [done|]. intros Q HQ. apply Hn, (hw_all h Hwf). eauto.
Qed.

Lemma NoDup_snoc (l : list Z) x : NoDup l -> x ∉ l -> NoDup (l ++ [x]).
Proof. intros Hl Hx. apply NoDup_app. split_and!; [done | set_solver | apply NoDup_singleton]. Qed.

Lemma admitted_queues h x Q q h' R y :
  admitted h x Q q h' -> y ∈ queues h' R <-> (y = x /\ R = Q) \/ y ∈ queues h R.
Proof.
  intros Ha. rewrite (ad_queues _ _ _ _ _ Ha). destruct (decide (R = Q));
    rewrite ?elem_of_app, ?list_elem_of_singleton; naive_solver.
Qed.

Lemma admitted_wf h x Q q h' :
  helper_wf h -> admitted h x Q q h' -> sritems h !! x = None ->
  item_ok (srv_reg h) Q q -> sr_stream_id q = -1 -> same_streams (gpu h) (gpu h') ->
  be_takes (hostbuf h) (hostvma h) q -> dev_ok (devfd h') -> sr_id q ∉ dev_out (devfd h) ->
  dev_out (devfd h') = {[sr_id q]} ∪ dev_out (devfd h) -> helper_wf h'.
Proof.
  intros Hwf Ha Hx Hok Hsid [Hg Hu] Htk Hw Hid Hout.
  destruct (lookup_none_notin h x Hwf Hx) as [Hna Hnq].
  assert (Hidx : forall y, id_map h !! y <> Some (sr_id q)).
  { intros y Hy. apply Hid, (hw_ids h Hwf). eauto. }
  pose proof Ha as [Eall Eq Eitems Ereg Ebuf Evma].
  assert (Eid : id_map h' = <[x := sr_id q]> (id_map h))
    by (unfold id_map; by rewrite Eitems, fmap_insert).
  assert (Est : stream_map h' = <[x := -1]> (stream_map h))
    by (unfold stream_map; by rewrite Eitems, fmap_insert, Hsid).
  assert (Hst : forall i y, valid_stream i = true ->
    stream_map h' !! y = Some i <-> stream_map h !! y = Some i).
  { intros i y Hi. rewrite Est. destruct (decide (y = x)) as [->|]; [|by rewrite lookup_insert_ne].
    rewrite lookup_insert_eq. unfold stream_map. rewrite lookup_fmap, Hx.
    split; [by intros [= <-] | done]. }
  split; try done.
  - rewrite Ereg. apply (hw_reg h Hwf).
  - rewrite Eall. apply NoDup_snoc; [apply (hw_all_nodup h Hwf) | done].
  - intros R. rewrite Eq. pose proof (hw_nodup h Hwf R). destruct (decide (R = Q)); [|done].
    by apply NoDup_snoc.
  - intros R R' y Hy Hy'. apply (admitted_queues _ _ _ _ _ _ _ Ha) in Hy, Hy'.
    destruct Hy as [[-> ->]|Hy], Hy' as [[? ->]|Hy']; subst; try done; try by apply Hnq in Hy || apply Hnq in Hy'.
    by apply (hw_disjoint h Hwf _ _ y).
  - intros y. rewrite Eall, elem_of_app, list_elem_of_singleton, (hw_all h Hwf).
    setoid_rewrite (admitted_queues _ _ _ _ _ _ _ Ha). naive_solver.
  - intros y. rewrite Eall, Eitems, elem_of_app, list_elem_of_singleton, <- (hw_live h Hwf).
    destruct (decide (y = x)) as [->|]; [rewrite lookup_insert_eq | rewrite lookup_insert_ne by done];
      naive_solver.
  - intros R y qy Hy Hqy. rewrite Ereg. rewrite Eitems in Hqy.
    apply (admitted_queues _ _ _ _ _ _ _ Ha) in Hy as [[-> ->]|Hy].
    + rewrite lookup_insert_eq in Hqy. by injection Hqy as <-.
    + rewrite lookup_insert_ne in Hqy by (intros ->; by apply Hnq in Hy).
      by apply (hw_item h Hwf R y).
  - intros i. rewrite Hu, (hw_streams h Hwf). split; intros [Hi [y Hy]]; (split; [done|]); exists y;
      by apply (Hst i y Hi).
  - intros y z i Hi Hy Hz. apply (Hst i _ Hi) in Hy, Hz. by apply (hw_stream_inj h Hwf y z i).
  - intros id. rewrite Hout, Eid, elem_of_union, elem_of_singleton, (hw_ids h Hwf). split.
    + intros [-> | [y Hy]]; [exists x; by rewrite lookup_insert_eq|].
      exists y. rewrite lookup_insert_ne; [done|]. intros ->. unfold id_map in Hy.
      by rewrite lookup_fmap, Hx in Hy.
    + intros [y Hy]. apply lookup_insert_Some in Hy as [[_ <-]|[_ Hy]]; eauto.
  - intros y z id. rewrite Eid. intros Hy Hz.
    apply lookup_insert_Some in Hy as [[<- <-]|[? Hy]];
      apply lookup_insert_Some in Hz as [[<- Hz]|[? Hz]]; try done.
    + by apply Hidx in Hz.
    + subst id. by apply Hidx in Hy.
    + by apply (hw_id_inj h Hwf y z id).
  - intros y qy. rewrite Eitems, Ebuf, Evma. intros [[_ <-]|[_ Hy]]%lookup_insert_Some; [done|].
    by apply (hw_takes h Hwf y).
  - rewrite Ebuf, Evma. apply (hw_gives h Hwf).
Qed.

(** The service a name refers to. *)
Definition service_of h (name : list Z) : Z := assoc (cstr name_size name) (bindings (srv_reg h)).

(** What the admission of a request makes of it: a request whose service is
    unknown is answered with KGPU_NO_SERVICE, and the sizes of the others are
    computed by the service. *)
Inductive admission h (x : Z) (kureq : kgpu_ku_request) h' : Prop :=
  | Adm_fail : service_of h (kr_service_name kureq) = NULL -> gpu h' = gpu h ->
      admitted h x Q_done (with_status (new_request kureq NULL) KGPU_REQ_DONE KGPU_NO_SERVICE) h' ->
      admission h x kureq h'
  | Adm_init s sv q r : service_of h (kr_service_name kureq) = s -> s <> NULL ->
      svc_mem (srv_reg h) !! s = Some sv ->
      run_service (sv_compute_size sv) (gpu h) (new_request kureq s) = Ok (gpu h', q, r) ->
      admitted h x Q_init (with_status q KGPU_REQ_INIT 0) h' -> admission h x kureq h'.

Lemma kh_init_service_request_spec h0 h x kureq :
  helper_wf h0 -> sritems h0 !! x = None -> length (kr_service_name kureq) = name_size ->
  all_reqs h = all_reqs h0 -> queues h = queues h0 -> srv_reg h = srv_reg h0 -> gpu h = gpu h0 ->
  sritems h = <[x := zero_sr]> (sritems h0) -> hostbuf h = hostbuf h0 -> hostvma h = hostvma h0 ->
  exists h', kh_init_service_request x kureq h = Ok h' /\ devfd h' = devfd h /\
    admission h0 x kureq h'.
Proof.
  intros Hwf Hx Hn Eall Eq Ereg Egpu Eitems Ebuf Evma.
  destruct (lookup_none_notin h0 x Hwf Hx) as [_ Hnq].
  destruct (kh_lookup_service_ok (srv_reg h0) (kr_service_name kureq) (hw_reg h0 Hwf) Hn)
    as (s & Hl & Hs & Hsv). change (s = service_of h0 (kr_service_name kureq)) in Hs.
  unfold kh_init_service_request. simpl srv_reg. rewrite Ereg, Hl. cbn [mbind outcome_bind].
  fold (new_request kureq s). destruct (Z.eqb_spec s NULL) as [Hz|Hz].
  - unfold kh_fail_request, load_sr. simpl. rewrite lookup_insert_eq. simpl.
    eexists _. split; [done|]. split; [done|]. apply Adm_fail; [congruence | done |].
    rewrite Hz. split; simpl; [by rewrite Eall | | by rewrite Eitems, !insert_insert_eq | done..].
    intros R. rewrite Eq, remove_item_id by apply Hnq. done.
  - destruct (Hsv Hz) as [sv Hsv']. unfold load_service. simpl. rewrite Ereg, Hsv'.
    rewrite (proj2 (Z.eqb_neq s NULL) Hz). cbn [of_option mbind outcome_bind].
    rewrite Egpu.
    destruct (run_service_law (sv_compute_size sv) (gpu h0) (new_request kureq s) (hw_gpu h0 Hwf))
      as (g & q & r & Hr & _ & _). rewrite Hr. simpl.
    eexists _. split; [done|]. split; [done|]. eapply (Adm_init _ _ _ _ s sv q r); try done.
    split; simpl; [by rewrite Eall | by rewrite Eq | by rewrite Eitems, !insert_insert_eq | done..].
Qed.

(** The new item, its list and the state of the GPU. *)
Lemma admission_item h x kureq h' :
  helper_wf h -> admission h x kureq h' ->
  exists Q q, admitted h x Q q h' /\ item_ok (srv_reg h) Q q /\ same_streams (gpu h) (gpu h') /\
    same_request (new_request kureq (service_of h (kr_service_name kureq))) q /\
    (Q = Q_init \/ Q = Q_done).
Proof.
  intros Hwf [Hz Hg Ha | s sv q r Hs Hne Hsv Hr Ha].
  - eexists _, _. split; [done|]. rewrite Hz, Hg.
    split; [split_and!; [done | by left | done]|]. split; [split; [apply Hwf | done]|].
    split; [done | by right].
  - destruct (run_service_law (sv_compute_size sv) (gpu h) (new_request kureq s) (hw_gpu h Hwf))
      as (g & q' & r' & Hr' & Hst & Hq). rewrite Hr in Hr'. injection Hr' as <- <- <-.
    rewrite Hs. eexists _, _. split; [done|]. split; [|split; [done|]; split; [done | by left]].
    destruct Hq as (_ & Hsid & Hsr & _). split_and!; [done..|]. intros _. simpl. rewrite Hsr.
    split; [done|]. by exists sv.
Qed.

(** Nothing that the invariant mentions changes but the device. *)
Lemma same_lists_wf h h' :
  helper_wf h -> all_reqs h' = all_reqs h -> queues h' = queues h -> sritems h' = sritems h ->
  srv_reg h' = srv_reg h -> gpu h' = gpu h -> hostbuf h' = hostbuf h -> hostvma h' = hostvma h ->
  dev_ok (devfd h') -> dev_out (devfd h') = dev_out (devfd h) -> helper_wf h'.
Proof.
  intros Hwf Ea Eq Ei Er Eg Eb Ev Hw Ho.
  split; unfold stream_map, id_map; rewrite ?Ea, ?Eq, ?Ei, ?Er, ?Eg, ?Eb, ?Ev, ?Ho; try apply Hwf; done.
Qed.

(** Reading the next request: the poll waits when the helper has no request;
    nothing is there, or there is no memory for it; or the request that was
    read is admitted. *)
Inductive next_effect h h' : Z -> Prop :=
  | Next_none err revents :
      sys_poll (devfd h) (bool_decide (all_reqs h = [])) = Ok (devfd h', (err, revents)) ->
      pollin revents = false \/ malloc (sr_mallocs h) (dom (sritems h)) = None ->
      all_reqs h' = all_reqs h -> queues h' = queues h -> sritems h' = sritems h ->
      gpu h' = gpu h -> srv_reg h' = srv_reg h ->
      next_effect h h' (-1)
  | Next_read w err revents x ret errno kureq :
      sys_poll (devfd h) (bool_decide (all_reqs h = [])) = Ok (w, (err, revents)) ->
      pollin revents = true -> malloc (sr_mallocs h) (dom (sritems h)) = Some x ->
      sys_read w 88 = Ok (devfd h', (ret, errno, Some kureq)) -> 0 < ret ->
      admission h x kureq h' -> next_effect h h' 0.

Lemma kh_get_next_spec h :
  helper_wf h -> exists h' r, kh_get_next_service_request h = Ok (h', r) /\ helper_wf h' /\
    next_effect h h' r.
Proof.
  intros Hwf. unfold kh_get_next_service_request.
  destruct (sys_poll_law (devfd h) (bool_decide (all_reqs h = [])) (hw_dev h Hwf))
    as (w & err & rev & Epoll & Hw & Hout & Hpe & Hpoll & Hblk). rewrite Epoll. cbn [mbind outcome_bind].
  destruct (pollin rev) eqn:Hc.
  2:{ assert (Hi : (err =? 0) || (truth err && true) = true)
        by (unfold truth; by destruct (err =? 0)).
      cbn [negb]. rewrite Hi. eexists _, _. split; [done|].
      split; [by apply (same_lists_wf h)|]. eapply Next_none; [exact Epoll | by left | done..]. }
  destruct (Hpoll eq_refl) as [-> Hrdy]. cbn [Z.eqb Pos.eqb negb truth orb andb].
  unfold kh_alloc_service_request. simpl sr_mallocs. simpl sritems.
  destruct (malloc _ _) as [x|] eqn:Hm.
  2:{ eexists _, _. split; [done|]. split; [by apply (same_lists_wf h)|].
      eapply Next_none; [exact Epoll | by right | done..]. }
  pose proof Hm as Hx. apply malloc_fresh, not_elem_of_dom in Hx. simpl devfd.
  destruct (sys_read_law w Hw Hrdy)
    as (w2 & ret & errno & kureq & Eread & Hw2 & Hpos & Hgv & Hfresh & Hlen & Hout2 & Hpe2).
  rewrite Eread. cbn [mbind outcome_bind]. rewrite (proj2 (Z.leb_gt ret 0) Hpos).
  cbn [of_option mbind outcome_bind].
  match goal with |- context [kh_init_service_request x kureq ?h1] =>
    destruct (kh_init_service_request_spec h h1 x kureq) as (h' & -> & Ed & Hadm); [done..|] end.
  cbn [mbind outcome_bind]. exists h', 0. split; [done|]. simpl in Ed. rewrite <- Ed in *.
  split; [|by eapply Next_read]. rewrite Hout in Hfresh, Hout2.
  destruct (admission_item h x kureq h' Hwf Hadm) as (Q & q & Ha & Hok & Hst & (Hid & Hsid & _ & Hb) & _).
  simpl in Hid, Hsid. rewrite <- Hid in Hfresh, Hout2. eapply (admitted_wf h x); eauto.
  eapply be_takes_same; [exact Hb | by apply (hw_gives h Hwf)].
Qed.

(** Nothing was read although the helper has no request only when nothing was
    pending, or without memory. *)
Lemma next_none_pending h h' err revents :
  helper_wf h -> sys_poll (devfd h) (bool_decide (all_reqs h = [])) = Ok (devfd h', (err, revents)) ->
  dev_pending (devfd h') = dev_pending (devfd h) /\
  (all_reqs h = [] -> pollin revents = false -> dev_pending (devfd h) = O).
Proof.
  intros Hwf E.
  destruct (sys_poll_law (devfd h) (bool_decide (all_reqs h = [])) (hw_dev h Hwf))
    as (w & err' & rev & E' & _ & _ & Hpe & _ & Hblk). rewrite E in E'. injection E' as <- <- <-.
  split; [done|]. intros Hnil Hp. rewrite bool_decide_eq_true_2 in Hblk by done.
  destruct (dev_pending (devfd h)); [done|]. rewrite Hblk in Hp; [done..|lia].
Qed.

Lemma next_read_pending h h' w err revents ret errno kureq :
  helper_wf h -> sys_poll (devfd h) (bool_decide (all_reqs h = [])) = Ok (w, (err, revents)) ->
  pollin revents = true -> sys_read w 88 = Ok (devfd h', (ret, errno, Some kureq)) ->
  dev_gives kureq /\ dev_pending (devfd h) = S (dev_pending (devfd h')).
Proof.
  intros Hwf E Hp Er.
  destruct (sys_poll_law (devfd h) (bool_decide (all_reqs h = [])) (hw_dev h Hwf))
    as (w' & err' & rev & E' & Hw & _ & Hpe & Hrdy & _). rewrite E in E'. injection E' as <- <- <-.
  destruct (Hrdy Hp) as [_ Hr].
  destruct (sys_read_law w Hw Hr) as (w2 & ret' & errno' & kureq' & Er' & _ & _ & Hgv & _ & _ & _ & Hpe2).
  rewrite Er in Er'. injection Er' as <- <- <- <-. by rewrite <- Hpe.
Qed.

(** ** One list of requests *)

Lemma trans_irrefl Q : ~ trans Q (Some Q).
Proof. intros Ht. inversion Ht. Qed.

(** The list [Q] after an operation on the item in its middle. *)
Lemma op_effect_queue h x Q h' pre rest :
  helper_wf h -> queues h Q = pre ++ x :: rest -> op_effect h x Q h' ->
  (queues h' Q = pre ++ x :: rest /\ blocked h x Q) \/ queues h' Q = pre ++ rest.
Proof.
  intros Hwf Hq [_ [(Hsame & _ & Hb) | (Q' & Ht & Hm & _)]]; [left; by rewrite Hsame|right].
  pose proof (hw_nodup h Hwf Q) as Hnd. rewrite Hq in Hnd.
  apply NoDup_app in Hnd as (_ & Hd & Hnd). apply NoDup_cons in Hnd as [Hx _].
  rewrite Hm, Hq. destruct (decide (Q' = Some Q)) as [->|]; [by apply trans_irrefl in Ht|].
  rewrite remove_item_app, remove_item_head by done. rewrite remove_item_id; [done|].
  intros Hp. apply (Hd x Hp). left.
Qed.

Lemma process_inv op Q once (Inv : list Z -> helper W G -> Prop) h :
  op_spec op Q -> helper_wf h -> Inv (queues h Q) h ->
  (forall h1 x pre rest h2 r, helper_wf h1 -> queues h1 Q = pre ++ x :: rest -> Inv (x :: rest) h1 ->
     helper_wf h2 -> op x h1 = Ok (h2, r) -> op_effect h1 x Q h2 -> Inv rest h2) ->
  exists rest h' r, __kh_process_request op Q once h = Ok (h', r) /\ helper_wf h' /\ Inv rest h' /\
    (rest = [] \/ (once = true /\ (length rest < length (queues h Q))%nat)).
Proof.
  intros Hop Hwf Hinv Hstep. unfold __kh_process_request.
  destruct (for_each_safe_inv (fun h : helper W G => queues h Q) (fun _ pos h => op pos h)
    (fun r => (r =? 0) && once)
    (fun rest h _ => helper_wf h /\ Inv rest h /\ exists pre, queues h Q = pre ++ rest) h 0)
    as (rest & h' & r & -> & (Hwf' & Hinv' & _) & Hend).
  - intros rest h1 _ (Hw & _ & pre & Hpre). exists pre. split; [done | apply (hw_nodup h1 Hw)].
  - intros x rest h1 _ (Hw & Hi & pre & Hpre).
    destruct (Hop h1 x Hw) as (h2 & r & Hr & Hw2 & He).
    { rewrite Hpre. apply elem_of_app. right. left. }
    exists h2, r. split; [done|]. split; [done|]. split; [by apply (Hstep h1 x pre rest h2 r)|].
    destruct (op_effect_queue h1 x Q h2 pre rest Hw Hpre He) as [[-> _]| ->]; [|by exists pre].
    exists (pre ++ [x]). by rewrite <- app_assoc.
  - split; [done|]. split; [done|]. by exists [].
  - exists rest, h', r. split_and!; [done..|]. destruct Hend as [->|[Hb Hlen]]; [by left|right].
    by apply andb_true_iff in Hb as [_ ->].
Qed.

(** A list whose requests are never blocked is empty after a full pass. *)
Lemma process_empties op Q h :
  op_spec op Q -> helper_wf h -> (forall h x, ~ blocked h x Q) ->
  exists h' r, __kh_process_request op Q false h = Ok (h', r) /\ helper_wf h' /\ queues h' Q = [].
Proof.
  intros Hop Hwf Hnb.
  destruct (process_inv op Q false (fun rest h => queues h Q = rest) h Hop Hwf eq_refl)
    as (rest & h' & r & Hp & Hwf' & Hq & [->|[? _]]); [|by exists h', r|done].
  intros h1 x pre rest h2 r0 Hw Hpre Hx _ _ He. rewrite Hx in Hpre.
  assert (pre = []) as ->.
  { apply (f_equal length) in Hpre. rewrite length_app in Hpre. simpl in Hpre.
    destruct pre; [done | simpl in Hpre; lia]. }
  destruct (op_effect_queue h1 x Q h2 [] rest Hw Hx He) as [[_ Hb]| ->]; [|done].
  by apply Hnb in Hb.
Qed.

(** ** Every request advances by at most one transition

    [tracked P h0 h]: each request of [h0] is in the same list in [h], or it
    was in a list of [P] and has made one transition. *)
Definition placed h (x : Z) (Q : option queue) : Prop :=
  match Q with Some R => x ∈ queues h R | None => x ∉ all_reqs h end.

Definition tracked (P : list queue) h0 h : Prop :=
  (forall x, x ∈ all_reqs h -> x ∈ all_reqs h0) /\
  forall x Q, x ∈ queues h0 Q ->
    x ∈ queues h Q \/ (Q ∈ P /\ exists Q', trans Q Q' /\ placed h x Q').

Lemma moved_other h x Q' h' y R : moved h x Q' h' -> y <> x -> y ∈ queues h R -> y ∈ queues h' R.
Proof.
  intros [Hm _] Hne Hy. rewrite Hm.
  destruct (decide _); rewrite ?elem_of_app, elem_of_remove_item; auto.
Qed.

Lemma op_effect_placed h x Q h' y R :
  op_effect h x Q h' -> y <> x -> placed h y R -> placed h' y R.
Proof.
  intros [_ [(Hs & Ha & _) | (Q' & Ht & Hm)]] Hne; destruct R as [R|]; simpl; rewrite ?Ha, ?Hs; try done.
  - intros Hy. by eapply moved_other.
  - rewrite (proj2 Hm). tauto.
Qed.

Lemma op_effect_all h x Q h' y : op_effect h x Q h' -> y ∈ all_reqs h' -> y ∈ all_reqs h.
Proof. intros [_ [(_ & -> & _) | (Q' & _ & [_ Ha])]]; [done|]. rewrite Ha. tauto. Qed.

(** Where the acted-on item is afterwards. *)
Lemma op_effect_self h x Q h' :
  helper_wf h -> x ∈ queues h Q -> op_effect h x Q h' ->
  x ∈ queues h' Q \/ exists Q', trans Q Q' /\ placed h' x Q'.
Proof.
  intros Hwf Hx [_ [(Hs & _) | (Q' & Ht & Hm)]]; [left; by rewrite Hs|right].
  exists Q'. split; [done|]. destruct Q' as [R|]; simpl.
  - rewrite (proj1 Hm), decide_True by done. apply elem_of_app. right. left.
  - rewrite (proj2 Hm). tauto.
Qed.

Lemma tracked_step P Q h0 h x h' :
  helper_wf h0 -> helper_wf h -> (forall Q0, Q0 ∈ Q :: P -> ~ trans Q0 (Some Q)) ->
  x ∈ queues h Q -> tracked (Q :: P) h0 h -> op_effect h x Q h' -> tracked (Q :: P) h0 h'.
Proof.
  intros Hwf0 Hwf Hcl Hx [Hall Htr] He. split.
  - intros y Hy. by apply Hall, (op_effect_all h x Q h').
  - intros y R Hy. destruct (decide (y = x)) as [->|Hne].
    + assert (R = Q) as ->.
      { destruct (Htr x R Hy) as [Hr|[HR (Q' & Ht & Hp)]]; [by apply (hw_disjoint h Hwf _ _ x)|].
        destruct Q' as [R'|]; simpl in Hp.
        - assert (R' = Q) as -> by by apply (hw_disjoint h Hwf _ _ x).
          by apply Hcl in Ht.
        - destruct Hp. apply (hw_all h Hwf). eauto. }
      destruct (op_effect_self h x Q h' Hwf Hx He) as [?|?]; [by left|].
      right. split; [left | done].
    + destruct (Htr y R Hy) as [Hr|[HR (Q' & Ht & Hp)]].
      * left. by apply (op_effect_placed h x Q h' y (Some R)).
      * right. split; [done|]. exists Q'. split; [done|]. by eapply op_effect_placed.
Qed.

Lemma process_tracked op Q once P h0 h :
  op_spec op Q -> helper_wf h0 -> helper_wf h ->
  (forall Q0, Q0 ∈ Q :: P -> ~ trans Q0 (Some Q)) -> tracked P h0 h ->
  exists h' r, __kh_process_request op Q once h = Ok (h', r) /\ helper_wf h' /\ tracked (Q :: P) h0 h'.
Proof.
  intros Hop Hwf0 Hwf Hcl [Hall Htr].
  destruct (process_inv op Q once (fun _ h => tracked (Q :: P) h0 h) h Hop Hwf)
    as (_ & h' & r & Hp & Hwf' & Ht & _); [| |by exists h', r].
  - split; [done|]. intros x R Hx. destruct (Htr x R Hx) as [|[? ?]]; [by left|].
    right. split; [by right | done].
  - intros h1 x pre rest h2 r0 Hw1 Hpre Ht Hw2 _ He. eapply (tracked_step P Q h0 h1 x h2); eauto.
    rewrite Hpre. apply elem_of_app. right. left.
Qed.

(** ** Remaining work *)

(** The transitions a request in the list can still make. *)
Definition rank (Q : queue) : nat :=
  match Q with
  | Q_init => 6
  | Q_memdone => 5
  | Q_prepared => 4
  | Q_running => 3
  | Q_post_exec => 2
  | Q_done => 1
  end.

Definition all_queues : list queue :=
  [Q_init; Q_memdone; Q_prepared; Q_running; Q_post_exec; Q_done].

Definition work h : nat := sum_list_with (fun Q => rank Q * length (queues h Q))%nat all_queues.

Lemma length_remove_item l (x : Z) :
  NoDup l -> x ∈ l -> length l = S (length (remove_item l x)).
Proof.
  intros Hnd Hx. apply list_elem_of_split in Hx as (l1 & l2 & ->).
  apply NoDup_app in Hnd as (_ & Hd & Hnd). apply NoDup_cons in Hnd as [Hx _].
  rewrite remove_item_app, remove_item_head, remove_item_id, !length_app by
    (done || (intros Hx1; apply (Hd x Hx1); left)). simpl. lia.
Qed.

Lemma trans_rank Q R : trans Q (Some R) -> (rank R < rank Q)%nat.
Proof. intros Ht. inversion Ht; simpl; lia. Qed.

Lemma moved_work h x Q Q' h' :
  helper_wf h -> x ∈ queues h Q -> trans Q Q' -> moved h x Q' h' -> (work h' < work h)%nat.
Proof.
  intros Hwf Hx Ht [Hm _].
  assert (HQ : length (queues h Q) = S (length (remove_item (queues h Q) x)))
    by (apply length_remove_item; [apply (hw_nodup h Hwf) | done]).
  assert (Hrest : forall R, R <> Q -> remove_item (queues h R) x = queues h R).
  { intros R HR. apply remove_item_id. intros Hr. apply HR. by apply (hw_disjoint h Hwf _ _ x). }
  assert (Hlen : forall R, length (queues h' R) =
    (length (remove_item (queues h R) x) + if decide (Q' = Some R) then 1 else 0)%nat).
  { intros R. rewrite Hm. destruct (decide (Q' = Some R)); rewrite ?length_app; simpl; lia. }
  unfold work. simpl. rewrite !Hlen.
  inversion Ht; subst; simpl;
    repeat match goal with |- context [remove_item (queues h ?R) x] =>
      rewrite (Hrest R) by discriminate end; rewrite HQ; simpl; lia.
Qed.

Lemma process_nil op Q once h :
  queues h Q = [] -> __kh_process_request op Q once h = Ok (h, 0).
Proof. intros Hq. unfold __kh_process_request, for_each_safe. by rewrite Hq. Qed.

(** ** The six passes together *)

Lemma process_ok op Q once h :
  op_spec op Q -> helper_wf h ->
  exists h' r, __kh_process_request op Q once h = Ok (h', r) /\ helper_wf h'.
Proof.
  intros Hop Hwf. destruct (process_inv op Q once (fun _ _ => True) h Hop Hwf I)
    as (_ & h' & r & Hp & Hwf' & _); [done|]. by exists h', r.
Qed.

Lemma process_all_ok h :
  helper_wf h -> exists h', process_all h = Ok h' /\ helper_wf h'.
Proof.
  intros Hwf. unfold process_all.
  destruct (process_ok _ Q_done false h kh_service_done_spec Hwf) as (h1 & r1 & -> & W1).
  cbn [mbind outcome_bind].
  destruct (process_ok _ Q_post_exec false h1 kh_finish_post_spec W1) as (h2 & r2 & -> & W2).
  cbn [mbind outcome_bind].
  destruct (process_ok _ Q_running true h2 kh_post_exec_spec W2) as (h3 & r3 & -> & W3).
  cbn [mbind outcome_bind].
  destruct (process_ok _ Q_prepared true h3 kh_launch_exec_spec W3) as (h4 & r4 & -> & W4).
  cbn [mbind outcome_bind].
  destruct (process_ok _ Q_memdone true h4 kh_prepare_exec_spec W4) as (h5 & r5 & -> & W5).
  cbn [mbind outcome_bind].
  destruct (process_ok _ Q_init false h5 kh_request_alloc_mem_spec W5) as (h6 & r6 & -> & W6).
  by exists h6.
Qed.

Lemma main_loop_body_ok h :
  helper_wf h -> exists h', kh_main_loop_body h = Ok h' /\ helper_wf h'.
Proof.
  intros Hwf. unfold kh_main_loop_body.
  destruct (process_all_ok h Hwf) as (h1 & -> & W1). cbn [mbind outcome_bind].
  destruct (kh_get_next_spec h1 W1) as (h2 & r & -> & W2 & _). by exists h2.
Qed.

End loop.
