(* ===== verification/HelperThms.v ===== *)
(** * Correctness of the helper

    The theorems about the helper's main loop, against the interfaces of the
    device, the GPU back end, the services and [malloc], with an instance of
    each for the examples. *)

From S2P Require Import Prelude KgpuDefs ListHead Ranges GpuOps ItemList Services.
From S2P Require Import Helper HelperInv HelperLoop.

Section theorems.
Context {W G : Type} `{DevFileSpec W, GpuLaws G, !ServiceCode G, !ServiceLaws G, MallocLaws}.
Implicit Types h : helper W G.

(** ** The body of the loop as a list of passes *)

Record pass : Type := mk_pass {
  pa_op : Z -> helper W G -> outcome (helper W G * Z);
  pa_queue : queue;
  pa_once : bool
}.

Fixpoint run_passes (l : list pass) h : outcome (helper W G) :=
  match l with
  | [] => mret h
  | p :: l =>
      '(h, _) ← __kh_process_request (pa_op p) (pa_queue p) (pa_once p) h;
      run_passes l h
  end.

Definition done_pass : pass := mk_pass kh_service_done Q_done false.

Definition middle_passes : list pass :=
  [mk_pass kh_finish_post Q_post_exec false; mk_pass kh_post_exec Q_running true;
   mk_pass kh_launch_exec Q_prepared true; mk_pass kh_prepare_exec Q_memdone true].

Definition init_pass : pass := mk_pass kh_request_alloc_mem Q_init false.

Definition all_passes : list pass := done_pass :: middle_passes ++ [init_pass].

Definition passes_ok (l : list pass) : Prop := Forall (fun p => op_spec (pa_op p) (pa_queue p)) l.

Lemma process_all_passes h : process_all h = run_passes all_passes h.
Proof. reflexivity. Qed.

Lemma run_passes_app l1 l2 h h1 :
  run_passes l1 h = Ok h1 -> run_passes (l1 ++ l2) h = run_passes l2 h1.
Proof.
  revert h. induction l1 as [|p l1 IH]; intros h E; [by injection E as ->|].
  simpl in *. destruct (__kh_process_request _ _ _ h) as [[h2 r]|]; [|done]. by apply IH.
Qed.

Lemma all_passes_ok : passes_ok all_passes.
Proof.
  repeat apply Forall_cons_2; try apply Forall_nil_2; simpl;
    auto using kh_service_done_spec, kh_finish_post_spec, kh_post_exec_spec, kh_launch_exec_spec,
      kh_prepare_exec_spec, kh_request_alloc_mem_spec.
Qed.

(** A pass never admits a request, and reads none. *)
Lemma run_passes_shrinks l h :
  passes_ok l -> helper_wf h ->
  exists h', run_passes l h = Ok h' /\ helper_wf h' /\
    (forall y, y ∈ all_reqs h' -> y ∈ all_reqs h) /\
    dev_pending (devfd h') = dev_pending (devfd h).
Proof.
  intros Hok. revert h. induction Hok as [|p l Hp Hok IH]; intros h Hwf; [by exists h|].
  destruct (process_inv (pa_op p) (pa_queue p) (pa_once p)
    (fun _ h1 => (forall y, y ∈ all_reqs h1 -> y ∈ all_reqs h) /\
       dev_pending (devfd h1) = dev_pending (devfd h)) h Hp Hwf)
    as (_ & h1 & r & E & W1 & [S1 D1] & _); [done| |].
  - intros h1 x pre rest h2 r0 _ _ [Hi Hd] _ _ He. split.
    + intros y Hy. by apply Hi, (op_effect_all h1 x (pa_queue p) h2).
    + by rewrite (proj1 (proj1 He)).
  - destruct (IH h1 W1) as (h' & E' & W' & S' & D'). exists h'. simpl. rewrite E. split; [done|].
    split; [done|]. split; [|congruence]. intros y Hy. by apply S1, S'.
Qed.

(** No pass comes after one that feeds its list. *)
Fixpoint passes_ordered (P : list queue) (l : list pass) : Prop :=
  match l with
  | [] => True
  | p :: l =>
      (forall Q0, Q0 ∈ pa_queue p :: P -> ~ trans Q0 (Some (pa_queue p))) /\
      passes_ordered (pa_queue p :: P) l
  end.

Lemma all_passes_ordered : passes_ordered [] all_passes.
Proof.
  repeat split; intros Q0 HQ Ht; set_unfold in HQ; destruct_or?; subst; inversion Ht.
Qed.

Lemma run_passes_tracked l P h0 h :
  passes_ok l -> passes_ordered P l -> helper_wf h0 -> helper_wf h -> tracked P h0 h ->
  exists h' P', run_passes l h = Ok h' /\ helper_wf h' /\ tracked P' h0 h'.
Proof.
  intros Hok. revert P h. induction Hok as [|p l Hp Hok IH]; intros P h Hord Hwf0 Hwf Ht; [by exists h, P|].
  destruct Hord as [Ho Hord]. simpl.
  destruct (process_tracked (pa_op p) (pa_queue p) (pa_once p) P h0 h) as (h1 & r & -> & W1 & T1);
    [done..|]. by apply (IH (pa_queue p :: P)).
Qed.

(** Without requests past [memdone_reqs] all streams are free. *)
Lemma streams_free h i :
  helper_wf h -> queues h Q_prepared = [] -> queues h Q_running = [] ->
  queues h Q_post_exec = [] -> queues h Q_done = [] -> be_used (gpu h) i = false.
Proof.
  intros Hwf E1 E2 E3 E4. apply not_true_is_false. intros Hu.
  apply (hw_streams h Hwf) in Hu as [Hv [x Hx]].
  unfold stream_map in Hx. rewrite lookup_fmap in Hx.
  destruct (sritems h !! x) as [q|] eqn:Hq; [|done]. injection Hx as Hx.
  assert (exists Q, x ∈ queues h Q) as [Q HQ].
  { apply (hw_all h Hwf), (hw_live h Hwf). by eexists. }
  destruct (hw_item h Hwf Q x q HQ Hq) as (_ & Hs & _).
  destruct Q; rewrite ?E1, ?E2, ?E3, ?E4 in HQ; try by apply not_elem_of_nil in HQ.
  all: subst i; rewrite Hs in Hv; discriminate.
Qed.

(** ** Invariants of the loop

    A property that each of the six operations and the admission of a request
    keep is an invariant of the loop. *)

Lemma queue_item h Q x : helper_wf h -> x ∈ queues h Q -> exists q, sritems h !! x = Some q.
Proof. intros Hwf Hx. apply (hw_live h Hwf), (hw_all h Hwf). eauto. Qed.

Definition op_keeps (P : helper W G -> Prop) (op : Z -> helper W G -> outcome (helper W G * Z))
    (Q : queue) : Prop :=
  forall h x h' r, helper_wf h -> x ∈ queues h Q -> op x h = Ok (h', r) -> P h -> P h'.

Lemma pass_keeps P op Q once h h' r :
  op_spec op Q -> op_keeps P op Q -> helper_wf h -> P h ->
  __kh_process_request op Q once h = Ok (h', r) -> helper_wf h' /\ P h'.
Proof.
  intros Hop Hk Hwf Hc E.
  destruct (process_inv op Q once (fun _ h => P h) h Hop Hwf Hc) as (_ & h1 & r1 & E1 & W1 & C1 & _).
  - intros h1 x pre rest h2 r2 W1 Hq C1 _ E1 _. apply (Hk h1 x h2 r2); try done.
    rewrite Hq. apply elem_of_app. right. left.
  - rewrite E in E1. by injection E1 as <- <-.
Qed.

Lemma run_passes_keeps P l h h' :
  Forall (fun p => op_spec (pa_op p) (pa_queue p) /\ op_keeps P (pa_op p) (pa_queue p)) l ->
  helper_wf h -> P h -> run_passes l h = Ok h' -> helper_wf h' /\ P h'.
Proof.
  intros Hl. revert h. induction Hl as [|p l [Hs Hk] _ IH]; intros h Hwf Hc E.
  { by injection E as <-. }
  cbn [run_passes] in E. apply bind_ok in E as ([h1 r1] & E1 & E).
  destruct (pass_keeps P _ _ _ _ _ _ Hs Hk Hwf Hc E1). by apply (IH h1).
Qed.

Lemma loop_keeps P n h h' :
  op_keeps P kh_service_done Q_done -> op_keeps P kh_finish_post Q_post_exec ->
  op_keeps P kh_post_exec Q_running -> op_keeps P kh_launch_exec Q_prepared ->
  op_keeps P kh_prepare_exec Q_memdone -> op_keeps P kh_request_alloc_mem Q_init ->
  (forall h h' r, helper_wf h -> kh_get_next_service_request h = Ok (h', r) -> P h -> P h') ->
  helper_wf h -> P h -> kh_main_loop n h = Ok h' -> helper_wf h' /\ P h'.
Proof.
  intros K1 K2 K3 K4 K5 K6 Kn. revert h. induction n as [|n IH]; intros h Hwf Hc E.
  { by injection E as <-. }
  cbn [kh_main_loop] in E. apply bind_ok in E as (h1 & E1 & E).
  unfold kh_main_loop_body in E1. rewrite process_all_passes in E1.
  apply bind_ok in E1 as (h2 & E1 & E2). apply bind_ok in E2 as ([h3 r] & E2 & E3). injection E3 as <-.
  destruct (run_passes_keeps P all_passes h h2) as [W1 C1]; [|done..|].
  - repeat apply Forall_cons_2; try apply Forall_nil_2; simpl;
      auto using kh_service_done_spec, kh_finish_post_spec, kh_post_exec_spec, kh_launch_exec_spec,
        kh_prepare_exec_spec, kh_request_alloc_mem_spec.
  - destruct (kh_get_next_spec h2 W1) as (? & ? & E2' & W2 & _). rewrite E2 in E2'.
    injection E2' as <- <-. apply (IH h3); [done | by apply (Kn h2 h3 r) | done].
Qed.

(** The buffers and the registry are set before the loop. *)
Definition globals h : kgpu_gpu_mem_info * kgpu_gpu_mem_info * registry :=
  (hostbuf h, hostvma h, srv_reg h).

Ltac globals_step :=
  match goal with
  | E : (if ?b then _ else _) = Ok _ |- _ => destruct b
  | E : mbind _ _ = Ok _ |- _ => apply bind_ok in E; let x := fresh in destruct E as (x & ? & E); repeat match goal with y : (_ * _)%type |- _ => destruct y end
  | E : kh_send_response _ _ = Ok _ |- _ => unfold kh_send_response in E
  | E : kh_fail_request _ _ _ = Ok _ |- _ => unfold kh_fail_request in E
  end.

Ltac keeps_globals :=
  let E := fresh "E" in
  intros ? ? ? ? _ _ E; repeat globals_step; unfold mret, outcome_ret in *; by simplify_eq.

Lemma next_globals h h' r : kh_get_next_service_request h = Ok (h', r) -> globals h' = globals h.
Proof.
  unfold kh_get_next_service_request. intros E. apply bind_ok in E as ([w [err rev]] & _ & E).
  destruct (_ || _); [by injection E as <- _|]. destruct (_ && _); [|done].
  unfold kh_alloc_service_request in E. destruct (malloc _ _) as [x|]; [|by injection E as <- _].
  apply bind_ok in E as ([w2 [[e2 errno] buf]] & _ & E).
  destruct (e2 <=? 0); [destruct (_ || _); [by injection E as <- _ | done]|].
  apply bind_ok in E as (kureq & _ & E). apply bind_ok in E as (h2 & E2 & E). injection E as <- _.
  unfold kh_init_service_request, kh_fail_request in E2. apply bind_ok in E2 as (s & _ & E2).
  destruct (s =? NULL).
  - apply bind_ok in E2 as (q & _ & E2). by injection E2 as <-.
  - apply bind_ok in E2 as (sv & _ & E2). apply bind_ok in E2 as ([[g q] r2] & _ & E2). by injection E2 as <-.
Qed.

Lemma loop_globals n h h' : helper_wf h -> kh_main_loop n h = Ok h' -> globals h' = globals h.
Proof.
  intros Hwf E. apply (loop_keeps (fun h1 => globals h1 = globals h) n h h'); try done.
  - unfold op_keeps, kh_service_done. keeps_globals.
  - unfold op_keeps, kh_finish_post. keeps_globals.
  - unfold op_keeps, kh_post_exec. keeps_globals.
  - unfold op_keeps, kh_launch_exec. keeps_globals.
  - unfold op_keeps, kh_prepare_exec. keeps_globals.
  - unfold op_keeps, kh_request_alloc_mem. keeps_globals.
  - intros h1 h2 r _ E2 <-. by apply next_globals in E2.
Qed.

(** ** Theorems *)

Lemma loop_wf h n : helper_wf h -> exists h', kh_main_loop n h = Ok h' /\ helper_wf h'.
Proof.
  revert h. induction n as [|n IH]; intros h Hwf; [by exists h|].
  simpl. destruct (main_loop_body_ok h Hwf) as (h1 & -> & W1). by apply IH.
Qed.

(** C7: the main loop never faults: from a state that satisfies the invariant,
    any number of rounds returns, no item is used after it was freed, no
    answer is refused by the device, no [abort] is reached, and the invariant
    holds again.  The invariant asks that the back end takes the requests
    ([be_takes]): OpenCL takes any, CUDA those whose input and output lie in
    the GPU memory pool and whose data is not in the mapped area, since the
    helper frees the device memory of a request that was never given any. *)
Theorem main_loop_safe h n :
  helper_wf h -> exists h', kh_main_loop n h = Ok h' /\ helper_wf h'.
Proof. apply loop_wf. Qed.

(** C8: in one round every request stays in its list or makes exactly one
    transition of its state machine, every request that was in [done_reqs] is
    answered and gone, and [init_reqs] is empty at the end. *)
Theorem process_all_advances h :
  helper_wf h ->
  exists h', process_all h = Ok h' /\ helper_wf h' /\ queues h' Q_init = [] /\
    (forall x, x ∈ queues h Q_done -> x ∉ all_reqs h') /\
    (forall x, x ∈ all_reqs h' -> x ∈ all_reqs h) /\
    forall x Q, x ∈ queues h Q ->
      x ∈ queues h' Q \/ exists Q', trans Q Q' /\ placed h' x Q'.
Proof.
  intros Hwf. rewrite process_all_passes.
  pose proof all_passes_ok as Hok. unfold passes_ok, all_passes in Hok.
  apply Forall_cons in Hok as [Hd Hrest]. pose proof Hrest as Hok.
  apply Forall_app in Hok as [Hm Hi]. apply Forall_cons in Hi as [Hi _].
  destruct (process_empties (pa_op done_pass) Q_done h Hd Hwf) as (h1 & r1 & E1 & W1 & Hdone);
    [naive_solver|].
  assert (Hgone : forall x, x ∈ queues h Q_done -> x ∉ all_reqs h1).
  { destruct (process_tracked (pa_op done_pass) Q_done false [] h h Hd Hwf Hwf)
      as (? & ? & E1' & _ & _ & T1); [apply all_passes_ordered | by split; [|left]|].
    rewrite E1 in E1'. injection E1' as <- <-. intros x Hx.
    destruct (T1 x Q_done Hx) as [Hx1|(_ & Q' & Ht & Hp)]; [|by inversion Ht; subst].
    rewrite Hdone in Hx1. by apply not_elem_of_nil in Hx1. }
  destruct (run_passes_shrinks middle_passes h1 Hm W1) as (h5 & E5 & W5 & _ & _).
  destruct (process_empties (pa_op init_pass) Q_init h5 Hi W5) as (h6 & r6 & E6 & W6 & Hinit);
    [naive_solver|].
  assert (Hrun1 : run_passes (middle_passes ++ [init_pass]) h1 = Ok h6).
  { rewrite (run_passes_app _ _ _ h5) by done.
    change (('(h, _) ← __kh_process_request (pa_op init_pass) Q_init false h5; mret h) = Ok h6).
    by rewrite E6. }
  assert (Hrun : run_passes all_passes h = Ok h6).
  { rewrite <- Hrun1.
    change (('(h, _) ← __kh_process_request (pa_op done_pass) Q_done false h;
      run_passes (middle_passes ++ [init_pass]) h) = run_passes (middle_passes ++ [init_pass]) h1).
    by rewrite E1. }
  destruct (run_passes_shrinks _ h1 Hrest W1) as (? & E1' & _ & S1 & _).
  rewrite Hrun1 in E1'. injection E1' as <-.
  destruct (run_passes_tracked all_passes [] h h all_passes_ok all_passes_ordered Hwf Hwf)
    as (? & P' & E' & _ & T); [by split; [|left]|].
  rewrite Hrun in E'. injection E' as <-. destruct T as [Tall T].
  exists h6. split_and!; [done..| |done|].
  - intros x Hx Hx6. by apply (Hgone x Hx), S1.
  - intros x Q Hx. destruct (T x Q Hx) as [|[_ ?]]; auto.
Qed.

(** C15: what reading the next request does.  The helper polls the device,
    waiting only when it has no request; when the poll reports none, or there
    is no memory for one, it keeps what it has and returns -1.  Otherwise the
    request that the device gave to the read, with its pointers and sizes, is
    in [all_reqs]: when the registry has no service of its name, in
    [done_reqs] with the error KGPU_NO_SERVICE, and otherwise in [init_reqs]
    after the [compute_size] of the service of its name has run on it.  The
    invariant is kept. *)
Theorem next_request_admission h :
  helper_wf h -> exists h' r, kh_get_next_service_request h = Ok (h', r) /\ helper_wf h' /\
    next_effect h h' r.
Proof. apply kh_get_next_spec. Qed.

(** ** Streams *)

Definition stream_of h (x : Z) : Z := default (-1) (stream_map h !! x).

Definition launched h : list Z :=
  queues h Q_prepared ++ queues h Q_running ++ queues h Q_post_exec.

Lemma launched_stream h x :
  helper_wf h -> x ∈ launched h ->
  valid_stream (stream_of h x) = true /\ stream_map h !! x = Some (stream_of h x).
Proof.
  intros Hwf Hx. unfold launched in Hx. rewrite !elem_of_app in Hx.
  assert (exists Q, x ∈ queues h Q /\ (Q = Q_prepared \/ Q = Q_running \/ Q = Q_post_exec))
    as (Q & HQ & Hc) by naive_solver.
  destruct (load_sr_queued h Q x Hwf HQ) as (q & _ & Hq & _ & Hs & _).
  unfold stream_of, stream_map. rewrite lookup_fmap, Hq. simpl.
  destruct Hc as [-> | [-> | ->]]; done.
Qed.

Lemma launched_NoDup h : helper_wf h -> NoDup (launched h).
Proof.
  intros Hwf. unfold launched. pose proof (hw_nodup h Hwf) as Hnd. pose proof (hw_disjoint h Hwf) as Hd.
  rewrite !NoDup_app. split_and!; try apply Hnd.
  - intros x Hx Hx'. apply elem_of_app in Hx' as [Hx'|Hx']; by specialize (Hd _ _ _ Hx Hx').
  - intros x Hx Hx'. by specialize (Hd _ _ _ Hx Hx').
Qed.

Lemma launched_streams_inj h :
  helper_wf h ->
  NoDup (stream_of h <$> launched h) /\ Z.of_nat (length (launched h)) <= MAX_STREAM_NR.
Proof.
  intros Hwf.
  assert (Hnd : NoDup (stream_of h <$> launched h)).
  { apply NoDup_fmap_2_strong; [|by apply launched_NoDup].
    intros x y Hx Hy E. destruct (launched_stream h x Hwf Hx) as [Hv Hsx].
    destruct (launched_stream h y Hwf Hy) as [_ Hsy].
    apply (hw_stream_inj h Hwf x y (stream_of h x)); congruence. }
  split; [done|].
  assert (Hsub : stream_of h <$> launched h ⊆+ seqZ 0 8).
  { apply NoDup_submseteq; [done|]. intros i Hi. apply list_elem_of_fmap in Hi as (x & -> & Hx).
    apply elem_of_seqZ. destruct (launched_stream h x Hwf Hx) as [Hv _].
    apply valid_stream_true in Hv. unfold MAX_STREAM_NR in Hv. lia. }
  apply submseteq_length in Hsub. rewrite length_fmap in Hsub. simpl in Hsub.
  unfold MAX_STREAM_NR. lia.
Qed.

(** A stream is in use exactly when a request has it. *)
Lemma used_streams h i :
  helper_wf h -> be_used (gpu h) i = true <-> exists x, x ∈ all_reqs h /\ stream_of h x = i /\ valid_stream i = true.
Proof.
  intros Hwf. rewrite (hw_streams h Hwf). unfold stream_of. split.
  - intros [Hv [x Hx]]. exists x. rewrite Hx. split_and!; [|done..]. apply (hw_live h Hwf).
    unfold stream_map in Hx. rewrite lookup_fmap in Hx. destruct (sritems h !! x); [by eexists | done].
  - intros (x & Hx & Es & Hv). split; [done|]. exists x.
    destruct (stream_map h !! x); [by f_equal | simpl in Es; by subst i].
Qed.

(** C16: from an idle start, after any number of rounds of the main loop, the
    requests that are prepared, running or copying back have different
    streams, so that at most [MAX_STREAM_NR] are past the preparation; each
    of these streams is marked in use; and a stream that is marked belongs to
    a request the helper still has, so that no stream leaks. *)
Theorem launched_streams_exclusive hb hv r g w n :
  registry_wf r -> be_wf g -> (forall i, be_used g i = false) -> dev_ok w -> dev_out w = ∅ ->
  (forall kureq s, dev_gives kureq -> be_takes hb hv (new_request kureq s)) ->
  exists h, kh_main_loop n (helper_start hb hv r g w) = Ok h /\
    NoDup (stream_of h <$> launched h) /\ Z.of_nat (length (launched h)) <= MAX_STREAM_NR /\
    (forall x, x ∈ launched h -> be_used (gpu h) (stream_of h x) = true) /\
    (forall i, be_used (gpu h) i = true -> exists x, x ∈ all_reqs h /\ stream_of h x = i).
Proof.
  intros Hr Hg Hu Hw Ho Hgv.
  destruct (loop_wf (helper_start hb hv r g w) n) as (h & E & Hwf); [by apply helper_start_wf|].
  destruct (launched_streams_inj h Hwf) as [Hnd Hle]. exists h. split_and!; try done.
  - intros x Hx. destruct (launched_stream h x Hwf Hx) as [Hv _]. apply used_streams; [done|].
    exists x. split_and!; [|done..]. apply (hw_all h Hwf). unfold launched in Hx.
    rewrite !elem_of_app in Hx. naive_solver.
  - intros i Hi. apply used_streams in Hi as (x & ? & ? & _); [|done]. by exists x.
Qed.

(** ** A back end that never reports the end of a kernel *)

Definition stalls : Prop :=
  forall (g : G) q, be_wf g -> exists g', be_execution_finished g q = Ok (g', 0).

Lemma stalled_post_exec h x h' r :
  stalls -> helper_wf h -> kh_post_exec x h = Ok (h', r) -> queues h' = queues h.
Proof.
  intros Hst Hwf E. unfold kh_post_exec in E. destruct (load_sr h x) as [q|]; [|done].
  cbn [mbind outcome_bind] in E. destruct (Hst (gpu h) q (hw_gpu h Hwf)) as [g Hg].
  rewrite Hg in E. cbn [mbind outcome_bind truth Z.eqb negb] in E. by injection E as <- _.
Qed.

(** A running request stays in its list through every pass. *)
Lemma stalled_pass p x h :
  stalls -> p ∈ all_passes -> helper_wf h -> x ∈ queues h Q_running ->
  exists h' r, __kh_process_request (pa_op p) (pa_queue p) (pa_once p) h = Ok (h', r) /\
    helper_wf h' /\ x ∈ queues h' Q_running.
Proof.
  intros Hst Hp Hwf Hx.
  pose proof (proj1 (Forall_forall _ _) all_passes_ok p Hp) as Hop. simpl in Hop.
  destruct (process_inv (pa_op p) (pa_queue p) (pa_once p) (fun _ h => x ∈ queues h Q_running) h Hop Hwf Hx)
    as (_ & h' & r & E & W' & Hx' & _); [|by exists h', r].
  intros h1 y pre rest h2 r W1 Hpre Hx1 W2 E He.
  destruct (decide (pa_queue p = Q_running)) as [Hq|Hq].
  - assert (pa_op p = kh_post_exec) as Ep.
    { unfold all_passes, middle_passes in Hp. simpl in Hp. set_unfold in Hp.
      destruct_or! Hp; subst; done. }
    rewrite Ep in E. by rewrite (stalled_post_exec h1 y h2 r Hst W1 E).
  - apply (op_effect_placed h1 y (pa_queue p) h2 x (Some Q_running)); [done| |done].
    intros ->. apply Hq. apply (hw_disjoint h1 W1 _ _ y); [|done].
    rewrite Hpre. apply elem_of_app. right. left.
Qed.

Lemma stalled_passes l x h :
  stalls -> (forall p, p ∈ l -> p ∈ all_passes) -> helper_wf h -> x ∈ queues h Q_running ->
  exists h', run_passes l h = Ok h' /\ helper_wf h' /\ x ∈ queues h' Q_running.
Proof.
  intros Hst. revert h. induction l as [|p l IH]; intros h Hl Hwf Hx; [by exists h|].
  destruct (stalled_pass p x h) as (h1 & r & E & W1 & Hx1); [done | apply Hl; left | done | done|].
  simpl. rewrite E. apply IH; [|done..]. intros p' Hp'. apply Hl. by right.
Qed.

Lemma next_effect_running h h' r x :
  next_effect h h' r -> x ∈ queues h Q_running -> x ∈ queues h' Q_running.
Proof.
  intros [err rev _ _ _ -> | w err rev y ret errno kureq _ _ _ _ _ [_ _ Ha | s sv q r0 _ _ _ _ Ha]] Hx;
    [done | by rewrite (ad_queues _ _ _ _ _ Ha)..].
Qed.

Lemma stalled_request_never_answered h x n :
  helper_wf h -> stalls -> x ∈ queues h Q_running ->
  exists h' q, kh_main_loop n h = Ok h' /\ x ∈ queues h' Q_running /\
    sritems h' !! x = Some q /\ sr_id q ∈ dev_out (devfd h').
Proof.
  intros Hwf Hst Hx.
  assert (exists h', kh_main_loop n h = Ok h' /\ helper_wf h' /\ x ∈ queues h' Q_running)
    as (h' & E & W' & Hx').
  { revert h Hwf Hx. induction n as [|n IH]; intros h Hwf Hx; [by exists h|].
    cbn [kh_main_loop]. unfold kh_main_loop_body. rewrite process_all_passes.
    destruct (stalled_passes all_passes x h Hst) as (h1 & -> & W1 & Hx1); [done..|].
    cbn [mbind outcome_bind]. destruct (kh_get_next_spec h1 W1) as (h2 & r & -> & W2 & He).
    cbn [mbind outcome_bind mret outcome_ret]. apply IH; [done|]. by eapply next_effect_running. }
  destruct (load_sr_queued h' Q_running x W' Hx') as (q & _ & Hq & _).
  exists h', q. split_and!; [done..|]. apply (hw_ids h' W'). exists x. unfold id_map.
  by rewrite lookup_fmap, Hq.
Qed.

End theorems.

(** With the OpenCL back end a request that was launched is never answered:
    after any number of rounds it is still in [running_reqs] and the device
    still waits for it, because [gpu_execution_finished] always returns 0. *)
Theorem opencl_never_answers {W : Type} `{DevFileSpec W, !ServiceCode gpu_state,
    !ServiceLaws gpu_state, MallocLaws} (h : helper W gpu_state) x n :
  helper_wf h -> x ∈ queues h Q_running ->
  exists h' q, kh_main_loop n h = Ok h' /\ x ∈ queues h' Q_running /\
    sritems h' !! x = Some q /\ sr_id q ∈ dev_out (devfd h').
Proof.
  intros Hwf Hx. apply stalled_request_never_answered; [done| |done].
  intros g q _. by exists g.
Qed.
