(* ===== verification/HelperLive.v ===== *)
(** * Every request is answered

    When the work given to the GPU ends, each round of the main loop brings
    the helper closer to the answer of all its requests.  That work ends is
    stated by [patient]: every answer "not finished yet" of a back end uses up
    one of the [backlog] such answers that it can give before more work is
    handed to it.  Services may add any number to the backlog. *)

From S2P Require Import Prelude KgpuDefs ListHead Ranges GpuOps ItemList Services.
From S2P Require Import Helper HelperInv HelperLoop HelperThms.

(** The queries of the streams of requests of the services [S] do not report
    unfinished work for ever. *)
Record patient {G : Type} `{GpuBackend G} (S : Z -> Prop) (backlog : G -> nat) : Prop := {
  pt_executed g q g' : be_wf g -> S (sr_s q) -> be_execution_finished g q = Ok (g', 0) ->
    (backlog g' < backlog g)%nat;
  pt_posted g q g' : be_wf g -> S (sr_s q) -> be_post_finished g q = Ok (g', 0) ->
    (backlog g' < backlog g)%nat
}.

Section live.
Context {W G : Type} `{DevFileSpec W, GpuLaws G, !ServiceCode G, !ServiceLaws G, MallocLaws}.
Implicit Types h : helper W G.

(** The helper has work for the services [S] only: the requests it has and
    those that the device gives ask for them, or for no service. *)
Record serving (S : Z -> Prop) h : Prop := {
  se_items Q x q : Q <> Q_done -> x ∈ queues h Q -> sritems h !! x = Some q -> S (sr_s q);
  se_gives kureq : dev_gives kureq -> service_of h (kr_service_name kureq) <> NULL ->
    S (service_of h (kr_service_name kureq))
}.

Context (S : Z -> Prop) (backlog : G -> nat) (Hpat : patient S backlog).

(** ** One operation *)

(** Fewer transitions are left, or as many and less backlog. *)
Definition closer h h' : Prop :=
  (work h' < work h)%nat \/ (work h' = work h /\ (backlog (gpu h') < backlog (gpu h))%nat).

Lemma closer_trans h1 h2 h3 : closer h1 h2 -> closer h2 h3 -> closer h1 h3.
Proof. unfold closer. lia. Qed.

(** A stream is wanted and none is free. *)
Definition no_stream h : Prop := forall i, valid_stream i = true -> be_used (gpu h) i = true.

Lemma op_effect_serving h x Q h' :
  helper_wf h -> x ∈ queues h Q -> op_effect h x Q h' -> serving S h -> serving S h'.
Proof.
  intros Hwf Hx [[_ [Er Hs]] Heff] [Si Sg].
  split; [|unfold service_of; by rewrite Er].
  intros R y q' HR Hy Hq'. destruct (Hs y q' Hq') as (q & Hq & ->).
  destruct Heff as [(Hqu & _) | (Q' & Ht & Hm & _)]; [rewrite Hqu in Hy; by apply (Si R y)|].
  rewrite Hm in Hy. destruct (decide (Q' = Some R)) as [->|].
  - apply elem_of_app in Hy as [Hy| ->%list_elem_of_singleton].
    + apply elem_of_remove_item in Hy as [_ Hy]. by apply (Si R y).
    + apply (Si Q x); [|done..]. intros ->. by inversion Ht.
  - apply elem_of_remove_item in Hy as [_ Hy]. by apply (Si R y).
Qed.

(** A request that stays in its list has seen unfinished work, or waits for a
    stream. *)
Definition op_waits (op : Z -> helper W G -> outcome (helper W G * Z)) (Q : queue) : Prop :=
  forall h x h' r q, helper_wf h -> sritems h !! x = Some q -> S (sr_s q) -> op x h = Ok (h', r) ->
    blocked h x Q ->
    (backlog (gpu h') < backlog (gpu h))%nat \/ (Q = Q_memdone /\ no_stream h /\ gpu h' = gpu h).

Lemma post_exec_waits : op_waits kh_post_exec Q_running.
Proof.
  intros h x h' r q Hwf Hq HS E (q0 & g' & Hq0 & Hf). rewrite Hq in Hq0. injection Hq0 as <-. left.
  unfold kh_post_exec, load_sr in E. rewrite Hq in E. cbn [of_option mbind outcome_bind] in E.
  rewrite Hf in E. injection E as <- _. by apply (pt_executed S backlog Hpat _ q), Hf; [apply Hwf|].
Qed.

Lemma finish_post_waits : op_waits kh_finish_post Q_post_exec.
Proof.
  intros h x h' r q Hwf Hq HS E (q0 & g' & Hq0 & Hf). rewrite Hq in Hq0. injection Hq0 as <-. left.
  unfold kh_finish_post, load_sr in E. rewrite Hq in E. cbn [of_option mbind outcome_bind] in E.
  rewrite Hf in E. injection E as <- _. by apply (pt_posted S backlog Hpat _ q), Hf; [apply Hwf|].
Qed.

Lemma prepare_waits : op_waits kh_prepare_exec Q_memdone.
Proof.
  intros h x h' r q Hwf Hq HS E Hb. right. split; [done|]. split; [done|].
  unfold kh_prepare_exec, load_sr in E. rewrite Hq in E. cbn [of_option mbind outcome_bind] in E.
  destruct (be_alloc_stream_law (gpu h) q (hw_gpu h Hwf)) as [[E1 _]|(g & i & s & _ & _ & Hv & Hf & _)].
  - rewrite E1 in E. by injection E as <- _.
  - by rewrite (Hb i Hv) in Hf.
Qed.

Lemma never_blocked op Q : (forall h x, ~ blocked h x Q) -> op_waits op Q.
Proof. intros Hb h x h' r q _ _ _ _ Hx. by apply Hb in Hx. Qed.

(** The operation brings the request on, or uses up backlog, or the request
    waits for a stream and nothing changes. *)
Lemma op_closer op Q h x h' r :
  op_waits op Q -> helper_wf h -> serving S h -> x ∈ queues h Q -> op x h = Ok (h', r) ->
  op_effect h x Q h' ->
  closer h h' \/ (Q = Q_memdone /\ no_stream h /\ work h' = work h /\ gpu h' = gpu h /\
    (forall R, queues h' R = queues h R)).
Proof.
  intros Hop Hwf Hs Hx E [_ [(Hqu & _ & Hb) | (Q' & Ht & Hm)]].
  - destruct (load_sr_queued h Q x Hwf Hx) as (q & _ & Hq & _).
    assert (Ew : work h' = work h) by (unfold work; simpl; by rewrite !Hqu).
    assert (HQ : Q <> Q_done) by (intros ->; by destruct Hb).
    destruct (Hop h x h' r q Hwf Hq (se_items S h Hs Q x q HQ Hx Hq) E Hb) as [Hl|(-> & Hn & Eg)];
      [left; by right | by right].
  - left. left. by apply (moved_work h x Q Q').
Qed.

(** ** One pass *)

(** What a pass over the list [Q] has done by the time it is at an item. *)
Definition advanced (Q : queue) h h' : Prop :=
  closer h h' \/ (work h' = work h /\ gpu h' = gpu h /\ (forall R, queues h' R = queues h R) /\
    (queues h Q <> [] -> Q = Q_memdone /\ no_stream h)).

Lemma process_advanced op Q once h :
  op_spec op Q -> op_waits op Q -> helper_wf h -> serving S h ->
  exists h' r, __kh_process_request op Q once h = Ok (h', r) /\ helper_wf h' /\ serving S h' /\
    advanced Q h h'.
Proof.
  intros Hop Hwait Hwf Hs.
  destruct (process_inv op Q once (fun rest h1 => serving S h1 /\
      ((rest = queues h Q /\ h1 = h) \/ advanced Q h h1)) h Hop Hwf)
    as (rest & h' & r & Hp & Hwf' & [Hs' Hi] & Hend); [split; [done | by left]| |].
  - intros h1 x pre rest h2 r0 Hw1 Hpre [Hs1 Hi] Hw2 E He.
    assert (Hx : x ∈ queues h1 Q) by (rewrite Hpre; apply elem_of_app; right; left).
    split; [by apply (op_effect_serving h1 x Q h2)|]. right.
    pose proof (op_closer op Q h1 x h2 r0 Hwait Hw1 Hs1 Hx E He) as Hc.
    destruct Hi as [[_ ->]|[Hc1 | (W1 & G1 & Q1 & S1)]].
    + destruct Hc as [Hc|(-> & Hn & Ew & Eg & Eq)]; [by left | by right].
    + left. destruct Hc as [Hc|(-> & _ & Ew & Eg & _)]; [by eapply closer_trans|].
      unfold closer in *. by rewrite Ew, Eg.
    + destruct Hc as [Hc|(-> & Hn & Ew & Eg & Eq)].
      * left. unfold closer in *. by rewrite <- W1, <- G1.
      * right. split; [congruence|]. split; [congruence|]. split; [|done]. intros R. by rewrite Eq.
  - exists h', r. split_and!; try done. destruct Hi as [[-> ->]|Hi]; [|done].
    destruct Hend as [Hq|[_ Hlen]]; [|lia]. right. by split_and!.
Qed.

(** ** The six passes *)

Definition pass_waits (p : pass) : Prop := op_waits (pa_op p) (pa_queue p).

Lemma all_passes_wait : Forall pass_waits all_passes.
Proof.
  repeat apply Forall_cons_2; try apply Forall_nil_2; unfold pass_waits; simpl;
    auto using post_exec_waits, finish_post_waits, prepare_waits, never_blocked.
Qed.

(** The passes over the lists [P] have made progress, or had nothing to do
    but to look for streams. *)
Definition gone_on (P : list queue) h0 h : Prop :=
  closer h0 h \/ (work h = work h0 /\ gpu h = gpu h0 /\ (forall R, queues h R = queues h0 R) /\
    forall Q, Q ∈ P -> queues h0 Q <> [] -> Q = Q_memdone /\ no_stream h0).

Lemma run_passes_gone_on l P h0 h :
  passes_ok l -> Forall pass_waits l -> helper_wf h -> serving S h -> gone_on P h0 h ->
  exists h', run_passes l h = Ok h' /\ helper_wf h' /\ serving S h' /\
    gone_on (reverse (pa_queue <$> l) ++ P) h0 h'.
Proof.
  intros Hok. revert P h. induction Hok as [|p l Hp Hok IH]; intros P h Hwt Hwf Hs Hg; [by exists h|].
  apply Forall_cons in Hwt as [Hw Hwt]. simpl.
  destruct (process_advanced (pa_op p) (pa_queue p) (pa_once p) h Hp Hw Hwf Hs)
    as (h1 & r & -> & W1 & S1 & A1). cbn [mbind outcome_bind].
  assert (Hg1 : gone_on (pa_queue p :: P) h0 h1).
  { destruct Hg as [Hc|(Ew & Eg & Eq & HP)], A1 as [Hc1|(Ew1 & Eg1 & Eq1 & HP1)].
    - left. by eapply closer_trans.
    - left. unfold closer in *. by rewrite Ew1, Eg1.
    - left. unfold closer in *. by rewrite <- Ew, <- Eg.
    - right. split; [congruence|]. split; [congruence|]. split; [intros R; by rewrite Eq1|].
      intros Q [->|HQ]%elem_of_cons Hne; [|by apply HP]. rewrite Eq in HP1.
      destruct (HP1 Hne) as [-> Hn]. split; [done|]. unfold no_stream in *. by rewrite <- Eg. }
  destruct (IH (pa_queue p :: P) h1 Hwt W1 S1 Hg1) as (h' & -> & W' & S' & G').
  exists h'. rewrite reverse_cons, <- app_assoc. done.
Qed.

Lemma process_all_closer h :
  helper_wf h -> serving S h ->
  exists h', process_all h = Ok h' /\ helper_wf h' /\ serving S h' /\
    (closer h h' \/ (all_reqs h = [] /\ work h' = work h /\ gpu h' = gpu h)).
Proof.
  intros Hwf Hs. rewrite process_all_passes.
  destruct (run_passes_gone_on all_passes [] h h all_passes_ok all_passes_wait Hwf Hs)
    as (h' & -> & W' & S' & Hg); [right; set_solver|].
  exists h'. split_and!; [done..|]. destruct Hg as [?|(Ew & Eg & _ & HP)]; [by left|right].
  assert (Hempty : forall Q, Q <> Q_memdone -> queues h Q = []).
  { intros Q HQ. destruct (queues h Q) eqn:E; [done|].
    destruct (HP Q) as [? _]; [|by rewrite E | done]. simpl. destruct Q; set_solver. }
  split_and!; [|done..]. apply elem_of_nil_inv. intros x Hx.
  apply (hw_all h Hwf) in Hx as [Q HQ]. destruct (decide (Q = Q_memdone)) as [->|HQn].
  - assert (queues h Q_memdone <> []) as Hne by (intros E; rewrite E in HQ; by apply not_elem_of_nil in HQ).
    destruct (HP Q_memdone) as [_ Hn]; [simpl; set_solver | done|].
    assert (be_used (gpu h) 0 = false) as Hf by (apply streams_free; [done | by apply Hempty..]).
    by rewrite (Hn 0) in Hf.
  - rewrite Hempty in HQ by done. by apply not_elem_of_nil in HQ.
Qed.

(** ** The rounds *)

(** The transitions of the requests the helper has, and seven (admission and
    six transitions) for each request it has yet to read. *)
Definition total_work h : nat := (work h + 7 * dev_pending (devfd h))%nat.

Lemma no_requests h : helper_wf h -> work h = O <-> all_reqs h = [].
Proof.
  intros Hwf. split.
  - intros Hz. apply elem_of_nil_inv. intros x Hx. apply (hw_all h Hwf) in Hx as [Q HQ].
    unfold work in Hz. simpl in Hz.
    assert (queues h Q = []) as E by (apply nil_length_inv; destruct Q; lia).
    rewrite E in HQ. by apply not_elem_of_nil in HQ.
  - intros Hnil. assert (Hz : forall Q, queues h Q = []).
    { intros Q. apply elem_of_nil_inv. intros x Hx.
      assert (x ∈ all_reqs h) as Hin by (apply (hw_all h Hwf); eauto).
      rewrite Hnil in Hin. by apply not_elem_of_nil in Hin. }
    unfold work. simpl. by rewrite !Hz.
Qed.

Lemma admitted_work h x Q q h' : admitted h x Q q h' -> work h' = (work h + rank Q)%nat.
Proof.
  intros Ha. unfold work. simpl. rewrite !(ad_queues _ _ _ _ _ Ha).
  destruct Q; simpl; rewrite ?length_app; simpl; lia.
Qed.

Definition malloc_succeeds : Prop := forall n live, malloc n live <> None.

Lemma admission_serving h x kureq h' :
  helper_wf h -> serving S h -> dev_gives kureq -> sritems h !! x = None ->
  admission h x kureq h' -> serving S h'.
Proof.
  intros Hwf [Si Sg] Hgv Hx Hadm.
  destruct (lookup_none_notin h x Hwf Hx) as [_ Hnq].
  assert (Hgen : forall Q q, admitted h x Q q h' -> (Q <> Q_done -> S (sr_s q)) -> serving S h').
  { intros Q q Ha Hq. split; [|unfold service_of; by rewrite (ad_reg _ _ _ _ _ Ha)].
    intros R y qy HR Hy Hqy. rewrite (ad_items _ _ _ _ _ Ha) in Hqy.
    apply (admitted_queues _ _ _ _ _ _ _ Ha) in Hy as [[-> ->]|Hy].
    - rewrite lookup_insert_eq in Hqy. injection Hqy as <-. by apply Hq.
    - rewrite lookup_insert_ne in Hqy by (intros ->; by apply Hnq in Hy). by apply (Si R y). }
  destruct Hadm as [Hz _ Ha | s sv q r Es Hne Hsv Hr Ha]; apply (Hgen _ _ Ha); [done|].
  intros _. destruct (run_service_law (sv_compute_size sv) (gpu h) (new_request kureq s) (hw_gpu h Hwf))
    as (g & q' & r' & Hr' & _ & Hq). rewrite Hr in Hr'. injection Hr' as <- <- <-.
  destruct Hq as (_ & _ & Hsr & _). simpl in *. rewrite Hsr, <- Es. apply Sg; congruence.
Qed.

(** A round leaves less to do, or as much and less backlog, unless nothing
    was to do. *)
Lemma round_closer h :
  helper_wf h -> serving S h -> malloc_succeeds ->
  exists h', kh_main_loop_body h = Ok h' /\ helper_wf h' /\ serving S h' /\
    (total_work h = O \/ (total_work h' < total_work h)%nat \/
     (total_work h' = total_work h /\ (backlog (gpu h') < backlog (gpu h))%nat)).
Proof.
  intros Hwf Hs Hmal. unfold kh_main_loop_body, total_work.
  destruct (run_passes_shrinks all_passes h all_passes_ok Hwf) as (h1 & E1 & _ & Sh1 & D1).
  destruct (process_all_closer h Hwf Hs) as (h1' & E1' & W1 & S1 & C1).
  rewrite process_all_passes, E1 in E1'. injection E1' as <-.
  rewrite process_all_passes, E1. cbn [mbind outcome_bind].
  destruct (kh_get_next_spec h1 W1) as (h2 & r & -> & W2 & He).
  exists h2. split; [done|]. split; [done|].
  destruct He as [err rev Ep Hno Ea Eq Ei Eg Er | w err rev x ret errno kureq Ep Hp Hm Eread _ Hadm].
  - destruct (next_none_pending h1 h2 err rev W1 Ep) as [Epe Hnil].
    assert (work h2 = work h1) as Ew by (unfold work; by rewrite Eq).
    split; [split; [rewrite Eq, Ei; apply S1 | unfold service_of; rewrite Er; apply S1]|].
    rewrite Ew, Epe, D1, Eg. destruct C1 as [[?|[? ?]]|(Hn & Ew1 & _)]; [lia..|].
    left. rewrite D1 in Hnil. rewrite Hnil.
    + by rewrite (proj2 (no_requests h Hwf) Hn).
    + apply elem_of_nil_inv. intros y Hy. apply Sh1 in Hy. rewrite Hn in Hy. by apply not_elem_of_nil in Hy.
    + destruct Hno as [?|Hm]; [done | by apply Hmal in Hm].
  - destruct (next_read_pending h1 h2 w err rev ret errno kureq W1 Ep Hp Eread) as [Hgv Epe].
    apply malloc_fresh, not_elem_of_dom in Hm.
    split; [by apply (admission_serving h1 x kureq h2)|]. right. left. rewrite <- D1, Epe.
    assert (Hle : (work h1 <= work h)%nat) by (unfold closer in C1; lia).
    destruct Hadm as [_ _ Ha | s sv q r0 _ _ _ _ Ha]; apply admitted_work in Ha; simpl in Ha; lia.
Qed.

(** When the work of the GPU ends and there is enough memory, every request is
    answered, those the helper has and those it has yet to read: after some
    number of rounds [all_reqs] is empty and the device neither holds a
    request nor waits for an answer. *)
Lemma loop_answers_all h :
  helper_wf h -> serving S h -> malloc_succeeds ->
  exists n h', kh_main_loop n h = Ok h' /\ helper_wf h' /\
    all_reqs h' = [] /\ dev_out (devfd h') = ∅ /\ dev_pending (devfd h') = O.
Proof.
  intros Hwf Hs Hmal.
  assert (Hgen : forall n b h, helper_wf h -> serving S h -> (total_work h <= n)%nat ->
    (backlog (gpu h) <= b)%nat ->
    exists k h', kh_main_loop k h = Ok h' /\ helper_wf h' /\ total_work h' = O).
  { clear h Hwf Hs. induction n as [n IHn] using lt_wf_ind. induction b as [b IHb] using lt_wf_ind.
    intros h Hwf Hs Hn Hb.
    destruct (round_closer h Hwf Hs Hmal) as (h1 & E1 & W1 & S1 & [Hz|[Hlt|[Heq Hlt]]]).
    - by exists O, h.
    - destruct (IHn (total_work h1)) with (b := backlog (gpu h1)) (h := h1) as (k & h' & E & ?);
        [lia | done | done | lia | lia|].
      exists (Datatypes.S k), h'. cbn [kh_main_loop]. by rewrite E1.
    - destruct (IHb (backlog (gpu h1))) with (h := h1) as (k & h' & E & ?); [lia | done | done | lia | lia|].
      exists (Datatypes.S k), h'. cbn [kh_main_loop]. by rewrite E1. }
  destruct (Hgen (total_work h) (backlog (gpu h)) h Hwf Hs) as (n & h' & E & W' & Hz); [lia..|].
  unfold total_work in Hz.
  assert (Hnil : all_reqs h' = []) by (apply no_requests; [done | lia]).
  exists n, h'. split_and!; [done..| |lia]. apply set_eq. intros id.
  rewrite (hw_ids h' W'). split; [|set_solver]. intros [x Hx]. unfold id_map in Hx.
  rewrite lookup_fmap in Hx. destruct (sritems h' !! x) as [q|] eqn:Eq; [|done].
  assert (x ∈ all_reqs h') as Hin by (apply (hw_live h' W'); by eexists).
  rewrite Hnil in Hin. by apply not_elem_of_nil in Hin.
Qed.

End live.

(** ** The two back ends *)

(** The OpenCL back end never finds work finished, so it serves no service. *)
Lemma opencl_patient : patient (G := gpu_state) (fun _ => False) (fun _ => 0%nat).
Proof. by split. Qed.
