(* ===== verification/HelperCodes.v ===== *)
(** * The codes of the answers

    Which error code each request is answered with: KGPU_NO_SERVICE when no
    service of its name is registered, and 0 otherwise, for services whose
    functions return 0.  The answers are read off a device that keeps a log of
    those it accepts. *)

From S2P Require Import Prelude KgpuDefs ListHead Ranges GpuOps ItemList Services.
From S2P Require Import Helper HelperInv HelperLoop HelperThms.

(** ** A device with a log *)

Definition logged (W : Type) : Type := W * list kgpu_ku_response.

#[export] Instance logged_file {W} `{DevFile W} : DevFile (logged W) := {
  sys_poll w block := '(w', r) ← sys_poll w.1 block; mret ((w', w.2), r);
  sys_read w count := '(w', r) ← sys_read w.1 count; mret ((w', w.2), r);
  sys_write w resp count :=
    '(w', r) ← sys_write w.1 resp count;
    mret ((w', if r <? 0 then w.2 else w.2 ++ [resp]), r)
}.

#[export] Program Instance logged_spec {W} `{DevFileSpec W} : DevFileSpec (logged W) := {
  dev_ok w := dev_ok w.1;
  dev_ready w := dev_ready w.1;
  dev_out w := dev_out w.1;
  dev_pending w := dev_pending w.1;
  dev_gives := dev_gives
}.
Next Obligation.
  intros W D S [w l] block Hw. destruct (sys_poll_law w block Hw) as (w' & err & rev & E & Hrest).
  exists (w', l), err, rev. simpl. by rewrite E.
Qed.
Next Obligation.
  intros W D S [w l] Hw Hr. destruct (sys_read_law w Hw Hr) as (w' & ret & errno & k & E & Hrest).
  exists (w', l), ret, errno, k. simpl. by rewrite E.
Qed.
Next Obligation.
  intros W D S [w l] resp Hw Hi. destruct (sys_write_law w resp Hw Hi) as (w' & ret & E & Hp & Hrest).
  eexists (w', _), ret. simpl in *. by rewrite E.
Qed.

(** What the device says of its requests: the name of the service that the
    request of an identifier asks for, and the identifiers it has accepted
    answers for, which it hands out no more. *)
Class DevTrace (W : Type) `{DevFileSpec W} (names : Z -> list Z) : Type := {
  dev_answers : W -> list Z;
  poll_trace w block w' r : dev_ok w -> sys_poll w block = Ok (w', r) ->
    dev_answers w' = dev_answers w;
  read_trace w count w' r kureq : dev_ok w -> sys_read w count = Ok (w', (r, Some kureq)) ->
    dev_answers w' = dev_answers w /\ kr_service_name kureq = names (kr_id kureq) /\
    kr_id kureq ∉ dev_answers w;
  read_none_trace w count w' r : dev_ok w -> sys_read w count = Ok (w', (r, None)) ->
    dev_answers w' = dev_answers w;
  write_trace w resp count w' r : dev_ok w -> sys_write w resp count = Ok (w', r) -> 0 <= r ->
    dev_answers w' = dev_answers w ++ [ks_id resp]
}.

(** The code for a request that asks for the service [name]. *)
Definition code_of (reg : registry) (name : list Z) : Z :=
  match kh_lookup_service reg (Some name) with
  | Ok s => if s =? NULL then KGPU_NO_SERVICE else 0
  | Fault _ => 0
  end.

Section codes.
Context {W G : Type} `{DevFileSpec W, GpuLaws G, !ServiceCode G, !ServiceLaws G, MallocLaws}.
Context (names : Z -> list Z) `{!DevTrace W names}.
Implicit Types h : helper (logged W) G.

(** The functions of the services return 0, and leave the error code. *)
Definition services_succeed : Prop :=
  forall f (g g' : G) q q' r, run_service f g q = Ok (g', q', r) ->
    r = 0 /\ sr_id q' = sr_id q /\ sr_errcode q' = sr_errcode q.

Context (reg : registry) (a0 : list Z).

Record coded h : Prop := {
  co_reg : srv_reg h = reg;
  co_items x q : sritems h !! x = Some q -> sr_errcode q = code_of reg (names (sr_id q));
  co_log resp : resp ∈ (devfd h).2 -> ks_errcode resp = code_of reg (names (ks_id resp));
  co_answers : dev_answers (devfd h).1 = a0 ++ (ks_id <$> (devfd h).2)
}.

(** The helper changes requests but for their identifier and error code. *)
Definition keeps_codes h h' : Prop :=
  srv_reg h' = srv_reg h /\ devfd h' = devfd h /\
  forall y q', sritems h' !! y = Some q' ->
    exists q, sritems h !! y = Some q /\ sr_id q' = sr_id q /\ sr_errcode q' = sr_errcode q.

Lemma keeps_coded h h' : keeps_codes h h' -> coded h -> coded h'.
Proof.
  intros (Er & Ed & Hi) []. split; rewrite ?Er, ?Ed; try done.
  intros x q' Hx. destruct (Hi x q' Hx) as (q & Hq & -> & ->). eauto.
Qed.

Lemma keeps_item h h' x q q' :
  srv_reg h' = srv_reg h -> devfd h' = devfd h -> sritems h !! x = Some q ->
  sritems h' !! x = Some q' -> (forall y, y <> x -> sritems h' !! y = sritems h !! y) ->
  sr_id q' = sr_id q -> sr_errcode q' = sr_errcode q -> keeps_codes h h'.
Proof.
  intros Er Ed Hx Hx' Hy E1 E2. split; [done|]. split; [done|]. intros y z Hz.
  destruct (decide (y = x)) as [->|Hne]; [rewrite Hx' in Hz; injection Hz as <-; eauto|].
  rewrite Hy in Hz by done. eauto.
Qed.

(** The item is stored once or twice, the second time over the first. *)
Ltac keeps_stored q q' :=
  eapply (keeps_item _ _ _ q q');
    [done | done | done | apply lookup_insert_eq | intros; simpl; by rewrite !lookup_insert_ne | simpl in *; congruence.. ].

Lemma alloc_mem_keeps : op_keeps coded kh_request_alloc_mem Q_init.
Proof.
  intros h x h' r Hwf Hx E. destruct (queue_item h _ x Hwf Hx) as [q Hq]. apply keeps_coded.
  unfold kh_request_alloc_mem, load_sr in E. rewrite Hq in E. cbn [of_option mbind outcome_bind] in E.
  destruct (be_alloc_device_mem_law (gpu h) (hostbuf h) (hostvma h) q (hw_gpu h Hwf) (hw_takes h Hwf x q Hq))
    as (g' & din & dout & dd & E1 & _). rewrite E1 in E. injection E as <- _.
  keeps_stored q (with_status (with_device q din dout dd) KGPU_REQ_MEM_DONE (sr_errcode q)).
Qed.

Hypothesis Hsucc : services_succeed.

(** The service of a request and the result of its function. *)
Ltac run_services E g2 q2 Hid He :=
  apply bind_ok in E; destruct E as (? & _ & E);
  apply bind_ok in E; destruct E as ([[g2 q2] ?] & ?Er & E);
  match goal with Er : run_service _ _ _ = Ok _ |- _ =>
    destruct (Hsucc _ _ _ _ _ _ Er) as (-> & Hid & He) end;
  injection E as <- _.

Lemma prepare_keeps : op_keeps coded kh_prepare_exec Q_memdone.
Proof.
  intros h x h' r Hwf Hx E. destruct (queue_item h _ x Hwf Hx) as [q Hq]. apply keeps_coded.
  unfold kh_prepare_exec, load_sr in E. rewrite Hq in E. cbn [of_option mbind outcome_bind] in E.
  destruct (be_alloc_stream_law (gpu h) q (hw_gpu h Hwf)) as [[E1 _]|(g' & i & s & E1 & _)]; rewrite E1 in E.
  { injection E as <- _. keeps_stored q q. }
  cbn [mbind outcome_bind] in E. run_services E g2 q2 Hid He.
  keeps_stored q (with_status q2 KGPU_REQ_PREPARED (sr_errcode q2)).
Qed.

Lemma launch_keeps : op_keeps coded kh_launch_exec Q_prepared.
Proof.
  intros h x h' r Hwf Hx E. destruct (queue_item h _ x Hwf Hx) as [q Hq]. apply keeps_coded.
  unfold kh_launch_exec, load_sr in E. rewrite Hq in E. cbn [of_option mbind outcome_bind] in E.
  run_services E g2 q2 Hid He.
  keeps_stored q (with_status q2 KGPU_REQ_RUNNING (sr_errcode q2)).
Qed.

Lemma post_keeps : op_keeps coded kh_post_exec Q_running.
Proof.
  intros h x h' r Hwf Hx E. destruct (queue_item h _ x Hwf Hx) as [q Hq]. apply keeps_coded.
  unfold kh_post_exec, load_sr in E. rewrite Hq in E. cbn [of_option mbind outcome_bind] in E.
  apply bind_ok in E as ([g1 fin] & _ & E). destruct (truth fin).
  - run_services E g2 q2 Hid He.
    keeps_stored q (with_status q2 KGPU_REQ_POST_EXEC (sr_errcode q2)).
  - injection E as <- _. split_and!; [done..|]. eauto.
Qed.

Lemma finish_keeps : op_keeps coded kh_finish_post Q_post_exec.
Proof.
  intros h x h' r Hwf Hx E. destruct (queue_item h _ x Hwf Hx) as [q Hq]. apply keeps_coded.
  unfold kh_finish_post, load_sr in E. rewrite Hq in E. cbn [of_option mbind outcome_bind] in E.
  apply bind_ok in E as ([g1 fin] & _ & E). destruct (truth fin); injection E as <- _.
  - keeps_stored q (with_status q KGPU_REQ_DONE (sr_errcode q)).
  - split_and!; [done..|]. eauto.
Qed.

(** The answer has the code of its request. *)
Lemma done_keeps : op_keeps coded kh_service_done Q_done.
Proof.
  intros h x h' r Hwf Hx E Hc. destruct (queue_item h _ x Hwf Hx) as [q Hq].
  unfold kh_service_done, load_sr in E. rewrite Hq in E. cbn [of_option mbind outcome_bind] in E.
  apply bind_ok in E as ([h1 r1] & Es & E). unfold kh_send_response in Es.
  apply bind_ok in Es as ([w r2] & Ew & Es). cbn [sys_write logged_file] in Ew.
  apply bind_ok in Ew as ([w1 r3] & Ew & Ew2). injection Ew2 as <- <-.
  destruct (Z.ltb_spec r3 0) as [|Hr]; [done|]. injection Es as <- _.
  apply bind_ok in E as (l & _ & E). apply bind_ok in E as ([g1 q1] & _ & E).
  apply bind_ok in E as (g2 & _ & E). injection E as <- _.
  destruct Hc as [Cr Ci Cl Ca]. pose proof (write_trace (devfd h).1 _ _ _ _ (hw_dev h Hwf) Ew Hr) as Ea.
  split; simpl; [done | | |].
  - intros y z [_ Hz]%lookup_delete_Some. eauto.
  - intros resp [?| ->%list_elem_of_singleton]%elem_of_app; [by apply Cl | simpl; eauto].
  - rewrite Ea, Ca, fmap_app, app_assoc. done.
Qed.

(** A new request gets the code of its name. *)
Lemma coded_fill h h' x q :
  coded (kh_free_service_request h x) -> srv_reg h' = srv_reg h -> devfd h' = devfd h ->
  sritems h' !! x = Some q -> (forall y, y <> x -> sritems h' !! y = sritems h !! y) ->
  sr_errcode q = code_of reg (names (sr_id q)) -> coded h'.
Proof.
  intros [Cr Ci Cl Ca] Er Ed Hx Hy Hq. simpl in *. split; rewrite ?Er, ?Ed; try done.
  intros y z Hz. destruct (decide (y = x)) as [->|Hne]; [rewrite Hx in Hz; by injection Hz as <-|].
  rewrite Hy in Hz by done. apply (Ci y). by rewrite lookup_delete_ne.
Qed.

Lemma init_coded h x kureq h' :
  coded (kh_free_service_request h x) -> kr_service_name kureq = names (kr_id kureq) ->
  kh_init_service_request x kureq h = Ok h' -> coded h'.
Proof.
  intros Hc Hn E. unfold kh_init_service_request in E. apply bind_ok in E as (s & El & E).
  simpl srv_reg in El. assert (Ec : code_of reg (names (kr_id kureq)) = if s =? NULL then KGPU_NO_SERVICE else 0).
  { unfold code_of. pose proof (co_reg _ Hc) as Er. simpl in Er. by rewrite <- Hn, <- Er, El. }
  destruct (s =? NULL) eqn:Es.
  - unfold kh_fail_request, load_sr in E. apply bind_ok in E as (q & Eq & E). injection E as <-.
    simpl in Eq. rewrite lookup_insert_eq in Eq. injection Eq as <-.
    eapply (coded_fill h _ x); [done | done | done | apply lookup_insert_eq | |].
    + intros y Hy. simpl. by rewrite !lookup_insert_ne.
    + simpl. by rewrite Ec.
  - apply bind_ok in E as (sv & _ & E). apply bind_ok in E as ([[g2 q2] r2] & Er & E).
    destruct (Hsucc _ _ _ _ _ _ Er) as (-> & Hid & He). injection E as <-.
    eapply (coded_fill h _ x); [done | done | done | apply lookup_insert_eq | |].
    + intros y Hy. simpl. by rewrite !lookup_insert_ne.
    + simpl in *. by rewrite Hid, Ec.
Qed.

Lemma coded_same h h' :
  coded h -> srv_reg h' = srv_reg h -> (forall x q, sritems h' !! x = Some q -> sritems h !! x = Some q) ->
  (devfd h').2 = (devfd h).2 -> dev_answers (devfd h').1 = dev_answers (devfd h).1 -> coded h'.
Proof. intros [] Er Hi El Ea. split; rewrite ?Er, ?El, ?Ea; eauto. Qed.

Lemma next_keeps h h' r :
  helper_wf h -> kh_get_next_service_request h = Ok (h', r) -> coded h -> coded h'.
Proof.
  intros Hwf E Hc. unfold kh_get_next_service_request in E.
  apply bind_ok in E as ([w [err rev]] & Ep & E). cbn [sys_poll logged_file] in Ep.
  apply bind_ok in Ep as ([w1 [err1 rev1]] & Ep & Ep2). injection Ep2 as <- <- <-.
  pose proof (poll_trace (devfd h).1 _ _ _ (hw_dev h Hwf) Ep) as Ea.
  assert (Hd1 : dev_ok w1).
  { destruct (sys_poll_law (devfd h).1 (bool_decide (all_reqs h = [])) (hw_dev h Hwf))
      as (w' & ? & ? & E' & Hw' & _). rewrite Ep in E'. by injection E' as -> _ _. }
  destruct ((err1 =? 0) || _); [injection E as <- _; by apply (coded_same h)|].
  destruct ((err1 =? 1) && _); [|done]. unfold kh_alloc_service_request in E.
  simpl sr_mallocs in E. simpl sritems in E.
  destruct (malloc _ _) as [x|] eqn:Hm; [|injection E as <- _; by apply (coded_same h)].
  apply malloc_fresh, not_elem_of_dom in Hm.
  apply bind_ok in E as ([w [[err2 errno] buf]] & Er & E). cbn [sys_read logged_file] in Er.
  apply bind_ok in Er as ([w2 [[err3 errno2] buf2]] & Er & Er2). injection Er2 as <- <- <- <-.
  simpl in Er.
  assert (Ea2 : dev_answers w2 = dev_answers w1).
  { destruct buf2; [by apply (read_trace w1 _ _ _ _ Hd1 Er) | by apply (read_none_trace w1 _ _ _ Hd1 Er)]. }
  assert (Hfree : forall y q, delete x (<[x := zero_sr]> (sritems h)) !! y = Some q -> sritems h !! y = Some q).
  { intros y q [Hne Hy]%lookup_delete_Some. by rewrite lookup_insert_ne in Hy. }
  destruct (err3 <=? 0).
  - destruct (_ || _); [|done]. injection E as <- _. apply (coded_same h); simpl; try done. congruence.
  - apply bind_ok in E as (kureq & Eb & E). destruct buf2 as [k|]; [|done]. injection Eb as ->.
    apply bind_ok in E as (h2 & Ei & E). injection E as <- _.
    refine (init_coded _ x kureq _ _ (proj1 (proj2 (read_trace w1 _ _ _ _ Hd1 Er))) Ei).
    apply (coded_same h); simpl; try done. congruence.
Qed.

(** ** The loop *)

Lemma loop_coded n h h' :
  helper_wf h -> coded h -> kh_main_loop n h = Ok h' -> helper_wf h' /\ coded h'.
Proof.
  apply (loop_keeps coded);
    [apply done_keeps | apply finish_keeps | apply post_keeps | apply launch_keeps
    | apply prepare_keeps | apply alloc_mem_keeps | apply next_keeps].
Qed.

End codes.
