(* ===== verification/HelperTrace.v ===== *)
(** * The order of the work for a request

    What the helper has the GPU do for each request, and in which order: the
    back end and the services are run with a trace of their successful calls,
    each with the identifier of its request.  The invariant relates the trace
    of a request to the list that it is in, for any services. *)

From S2P Require Import Prelude KgpuDefs ListHead Ranges GpuOps ItemList Services.
From S2P Require Import Helper HelperInv HelperLoop HelperThms HelperLive HelperCodes.

(** ** The trace *)

(** [EvRun f r e]: the function at [f] of the service returned [r] and left the
    error code [e] in the request.  [EvExecuted] and [EvPosted] are the queries
    of the stream that found the kernel, or the copy of the result, finished. *)
Inductive event : Type :=
  | EvMem
  | EvStream (i : Z)
  | EvRun (f r e : Z)
  | EvExecuted
  | EvPosted
  | EvFreeMem
  | EvFreeStream (i : Z).

#[global] Instance event_eq_dec : EqDecision event.
Proof. solve_decision. Defined.

Notation trace := (list (Z * event)).

Definition traced (G : Type) : Type := G * trace.

(** The events of one request. *)
Definition events (id : Z) (t : trace) : list event :=
  snd <$> filter (fun p => p.1 = id) t.

Lemma events_app id t u : events id (t ++ u) = events id t ++ events id u.
Proof. unfold events. by rewrite filter_app, fmap_app. Qed.

Lemma events_own id l : events id (pair id <$> l) = l.
Proof.
  induction l as [|e l IH]; [done|]. unfold events in *. rewrite fmap_cons, filter_cons_True by done.
  rewrite fmap_cons. by rewrite IH.
Qed.

Lemma events_other id id' l : id' <> id -> events id (pair id' <$> l) = [].
Proof.
  intros Hne. induction l as [|e l IH]; [done|]. unfold events in *.
  by rewrite fmap_cons, filter_cons_False.
Qed.

(** [e] is recorded when [b] holds. *)
Definition note {G} (t : trace) (b : bool) (id : Z) (e : event) (g : G) : traced G :=
  (g, if b then t ++ (pair id <$> [e]) else t).

#[export] Instance traced_backend {G} `{GpuBackend G} : GpuBackend (traced G) := {
  be_alloc_device_mem g hb hv q :=
    '(g', q', r) ← be_alloc_device_mem g.1 hb hv q;
    mret (note g.2 (negb (truth r)) (sr_id q) EvMem g', q', r);
  be_free_device_mem g hv q :=
    '(g', q') ← be_free_device_mem g.1 hv q;
    mret (note g.2 true (sr_id q) EvFreeMem g', q');
  be_alloc_stream g q :=
    '(g', q', r) ← be_alloc_stream g.1 q;
    mret (note g.2 (negb (truth r)) (sr_id q) (EvStream (sr_stream_id q')) g', q', r);
  be_free_stream g q :=
    g' ← be_free_stream g.1 q;
    mret (note g.2 true (sr_id q) (EvFreeStream (sr_stream_id q)) g');
  be_execution_finished g q :=
    '(g', r) ← be_execution_finished g.1 q;
    mret (note g.2 (truth r) (sr_id q) EvExecuted g', r);
  be_post_finished g q :=
    '(g', r) ← be_post_finished g.1 q;
    mret (note g.2 (truth r) (sr_id q) EvPosted g', r);
  be_wf g := be_wf g.1;
  be_used g := be_used g.1;
  be_takes := be_takes (G := G)
}.

Definition traced_code {G} `{ServiceCode G} : ServiceCode (traced G) := {|
  run_service f g q :=
    '(g', q', r) ← run_service f g.1 q;
    mret (note g.2 true (sr_id q) (EvRun f r (sr_errcode q')) g', q', r)
|}.

#[export] Instance traced_laws {G} `{GpuLaws G} : GpuLaws (traced G).
Proof.
  split.
  - exact (be_takes_same (G := G)).
  - intros [g t] hb hv q Hg Ht.
    destruct (be_alloc_device_mem_law g hb hv q Hg Ht) as (g' & di & do & dd & E & Hs).
    eexists _, di, do, dd. simpl. by rewrite E.
  - intros [g t] hb hv q Hg Ht. destruct (be_free_device_mem_law g hb hv q Hg Ht) as (g' & q' & E & Hs).
    eexists _, q'. simpl. by rewrite E.
  - intros [g t] q Hg.
    destruct (be_alloc_stream_law g q Hg) as [[E Hall]|(g' & i & s & E & Hrest)].
    + left. simpl. by rewrite E.
    + right. eexists _, i, s. simpl. by rewrite E.
  - intros [g t] q Hg. destruct (be_free_stream_law g q Hg) as (g' & E & Hs).
    eexists. simpl. by rewrite E.
  - intros [g t] q Hg. destruct (be_execution_finished_law g q Hg) as (g' & r & E & Hs).
    eexists _, r. simpl. by rewrite E.
  - intros [g t] q Hg. destruct (be_post_finished_law g q Hg) as (g' & r & E & Hs).
    eexists _, r. simpl. by rewrite E.
  - intros [g t] i. apply (be_used_valid g).
Qed.

#[local] Existing Instance traced_code | 0.

Lemma traced_code_laws {G} `{GpuLaws G, !ServiceCode G, !ServiceLaws G} : ServiceLaws (traced G).
Proof.
  split. intros f [g t] q Hg. destruct (run_service_law f g q Hg) as (g' & q' & r & E & Hs & Hq).
  eexists _, q', r. simpl. by rewrite E.
Qed.

Lemma traced_patient {G} `{GpuLaws G} S backlog :
  patient (G := G) S backlog -> patient (G := traced G) S (fun g => backlog g.1).
Proof.
  intros [P1 P2]. split; intros [g t] q g' Hg HS E; simpl in E;
    apply bind_ok in E as ([g1 r1] & E1 & E); injection E as <- ->; simpl; eauto.
Qed.

(** ** The stages of a request *)

(** [progress o Q e i l]: a request for the service [o] that is in the list
    [Q], with the error code [e] and the stream [i], has the events [l]. *)
Inductive progress (o : option kgpu_service) : queue -> Z -> Z -> list event -> Prop :=
  | P_unknown : o = None -> progress o Q_done KGPU_NO_SERVICE (-1) []
  | P_init sv r e : o = Some sv -> progress o Q_init 0 (-1) [EvRun (sv_compute_size sv) r e]
  | P_mem e i l : progress o Q_init e i l -> progress o Q_memdone e i (l ++ [EvMem])
  | P_prepare sv e i j e' l : o = Some sv -> progress o Q_memdone e i l ->
      progress o Q_prepared e' j (l ++ [EvStream j; EvRun (sv_prepare sv) 0 e'])
  | P_prepare_fail sv e i j r e' l : o = Some sv -> progress o Q_memdone e i l -> r <> 0 ->
      progress o Q_done r j (l ++ [EvStream j; EvRun (sv_prepare sv) r e'])
  | P_launch sv e i e' l : o = Some sv -> progress o Q_prepared e i l ->
      progress o Q_running e' i (l ++ [EvRun (sv_launch sv) 0 e'])
  | P_launch_fail sv e i r e' l : o = Some sv -> progress o Q_prepared e i l -> r <> 0 ->
      progress o Q_done r i (l ++ [EvRun (sv_launch sv) r e'])
  | P_post sv e i e' l : o = Some sv -> progress o Q_running e i l ->
      progress o Q_post_exec e' i (l ++ [EvExecuted; EvRun (sv_post sv) 0 e'])
  | P_post_fail sv e i r e' l : o = Some sv -> progress o Q_running e i l -> r <> 0 ->
      progress o Q_done r i (l ++ [EvExecuted; EvRun (sv_post sv) r e'])
  | P_finish e i l : progress o Q_post_exec e i l -> progress o Q_done e i (l ++ [EvPosted]).

(** The whole work for a request that ran to its end, with the error code
    [e] that the last function left. *)
Definition full_run (sv : kgpu_service) (r0 e0 i e1 e2 e : Z) : list event :=
  [EvRun (sv_compute_size sv) r0 e0; EvMem; EvStream i; EvRun (sv_prepare sv) 0 e1;
   EvRun (sv_launch sv) 0 e2; EvExecuted; EvRun (sv_post sv) 0 e; EvPosted].

(** What was done for a request that was answered with [code]: all of it, or
    the part up to the function that failed with this code, or nothing when
    there is no service; in the end, memory and stream are given back. *)
Definition served (o : option kgpu_service) (code : Z) (l : list event) : Prop :=
  match o with
  | None => code = KGPU_NO_SERVICE /\ l = [EvFreeMem; EvFreeStream (-1)]
  | Some sv => exists r0 e0 i e1 e2 e,
      (code = e /\ l = full_run sv r0 e0 i e1 e2 e ++ [EvFreeMem; EvFreeStream i]) \/
      (code <> 0 /\ exists n f,
         (n, f) ∈ [(3%nat, sv_prepare sv); (4%nat, sv_launch sv); (6%nat, sv_post sv)] /\
         l = take n (full_run sv r0 e0 i e1 e2 e) ++ [EvRun f code e; EvFreeMem; EvFreeStream i])
  end.

Ltac failed_at n :=
  do 6 eexists; right; split; [done|]; exists n; eexists; split; [|reflexivity];
  repeat first [left | right].

Lemma progress_served o code i l :
  progress o Q_done code i l -> served o code (l ++ [EvFreeMem; EvFreeStream i]).
Proof.
  intros Hp. inversion Hp; subst; [by split | | | |];
    repeat match goal with H : progress _ ?Q _ _ _ |- _ =>
      lazymatch Q with Q_done => clear H | _ => inversion H; subst; clear H end end;
    simplify_eq; simpl.
  - failed_at 3%nat.
  - failed_at 4%nat.
  - failed_at 6%nat.
  - do 6 eexists. left. split; reflexivity.
  Unshelve. all: exact 0.
Qed.

(** The service that a name stands for. *)
Definition known_service (reg : registry) (name : list Z) : option kgpu_service :=
  match kh_lookup_service reg (Some name) with
  | Ok s => if s =? NULL then None else svc_mem reg !! s
  | Fault _ => None
  end.

(** ** The invariant *)

Section tracing.
Context {W G : Type} `{DevFileSpec W, GpuLaws G, !ServiceCode G, !ServiceLaws G, MallocLaws}.
Context (names : Z -> list Z) `{!DevTrace W names} (reg : registry).
Implicit Types h : helper (logged W) (traced G).

#[local] Existing Instance traced_code_laws.

Definition events_of h (id : Z) : list event := events id (gpu h).2.

Definition service_at (id : Z) : option kgpu_service := known_service reg (names id).

Definition logged_ids h : list Z := ks_id <$> (devfd h).2.

(** The requests of the helper are as far as their lists say; the answered
    ones have been served; nothing was done for any other identifier. *)
Record on_track h : Prop := {
  ot_reg : srv_reg h = reg;
  ot_lookup x q : sritems h !! x = Some q -> kh_lookup_service reg (Some (names (sr_id q))) = Ok (sr_s q);
  ot_item Q x q : x ∈ queues h Q -> sritems h !! x = Some q ->
    progress (service_at (sr_id q)) Q (sr_errcode q) (sr_stream_id q) (events_of h (sr_id q));
  ot_log resp : resp ∈ (devfd h).2 ->
    served (service_at (ks_id resp)) (ks_errcode resp) (events_of h (ks_id resp));
  ot_none id : id ∉ dev_out (devfd h) -> id ∉ logged_ids h -> events_of h id = [];
  ot_out id : id ∈ logged_ids h -> id ∉ dev_out (devfd h);
  ot_answers : dev_answers (devfd h).1 = logged_ids h
}.

(** The identifier of a live item has been handed out. *)
Lemma item_out h x q : helper_wf h -> sritems h !! x = Some q -> sr_id q ∈ dev_out (devfd h).
Proof. intros Hwf Hx. apply (hw_ids h Hwf). exists x. unfold id_map. by rewrite lookup_fmap, Hx. Qed.

Lemma item_id_ne h x y q z :
  helper_wf h -> sritems h !! x = Some q -> sritems h !! y = Some z -> y <> x -> sr_id q <> sr_id z.
Proof.
  intros Hwf Hx Hy Hne E. apply Hne. apply (hw_id_inj h Hwf y x (sr_id z)); unfold id_map;
    rewrite lookup_fmap, ?Hx, ?Hy; simpl; congruence.
Qed.

(** The service of an item, as the operations load it. *)
Lemma load_service_known h q sv :
  srv_reg h = reg -> kh_lookup_service reg (Some (names (sr_id q))) = Ok (sr_s q) ->
  load_service h q = Ok sv -> service_at (sr_id q) = Some sv.
Proof.
  intros Er El E. unfold load_service in E. unfold service_at, known_service. rewrite El.
  destruct (sr_s q =? NULL); [done|]. rewrite Er in E.
  destruct (svc_mem reg !! sr_s q); [by injection E as -> | done].
Qed.

(** The item [x] is changed to [q'] with the new events [l], in the list that
    it is now in; nothing else changes. *)
Lemma item_step h h' x q q' l :
  helper_wf h -> on_track h -> sritems h !! x = Some q ->
  srv_reg h' = srv_reg h -> devfd h' = devfd h ->
  sritems h' !! x = Some q' -> (forall y, y <> x -> sritems h' !! y = sritems h !! y) ->
  (forall R y, y <> x -> y ∈ queues h' R -> y ∈ queues h R) ->
  (gpu h').2 = (gpu h).2 ++ (pair (sr_id q) <$> l) ->
  sr_id q' = sr_id q -> sr_s q' = sr_s q ->
  (forall R, x ∈ queues h' R ->
     progress (service_at (sr_id q)) R (sr_errcode q') (sr_stream_id q') (events_of h (sr_id q) ++ l)) ->
  on_track h'.
Proof.
  intros Hwf Hot Hx Er Ed Hx' Hy HR Ht Eid Es Hp.
  assert (Eown : events_of h' (sr_id q) = events_of h (sr_id q) ++ l)
    by (unfold events_of; by rewrite Ht, events_app, events_own).
  assert (Eother : forall id, id <> sr_id q -> events_of h' id = events_of h id).
  { intros id Hne. unfold events_of. by rewrite Ht, events_app, events_other, app_nil_r. }
  pose proof (item_out h x q Hwf Hx) as Hout.
  destruct Hot as [Or Ol Oi Olog On Oo Oa]. split; unfold logged_ids; rewrite ?Er, ?Ed; try done.
  - intros y z Hz. destruct (decide (y = x)) as [->|Hne].
    + rewrite Hx' in Hz. injection Hz as <-. rewrite Eid, Es. eauto.
    + rewrite Hy in Hz by done. eauto.
  - intros R y z HyR Hz. destruct (decide (y = x)) as [->|Hne].
    + rewrite Hx' in Hz. injection Hz as <-. rewrite Eid, Eown. by apply Hp.
    + rewrite Hy in Hz by done. rewrite Eother; [by apply (Oi R y); [apply HR|]|].
      intros E. by apply (item_id_ne h x y q z Hwf Hx Hz Hne).
  - intros resp Hr. rewrite Eother; [by apply Olog|]. intros E. apply (Oo (ks_id resp)); [|by rewrite E].
    apply list_elem_of_fmap. eauto.
  - intros id Hno Hnl. rewrite Eother; [by apply On|]. intros ->. done.
Qed.

(** ** The operations *)

(** The item of an operation, its service and its stage. *)
Ltac load_item E q Hq Hp :=
  let Hwf := fresh "Hwf" in let Hx := fresh "Hx" in let Hot := fresh "Hot" in
  intros h x h' r Hwf Hx E Hot; destruct (queue_item h _ x Hwf Hx) as [q Hq];
  pose proof (ot_item h Hot _ x q Hx Hq) as Hp;
  pose proof (ot_lookup h Hot x q Hq);
  unfold load_sr in E; rewrite Hq in E; cbn [of_option mbind outcome_bind] in E.

(** Nothing that matters changes. *)
Lemma track_stay h h' :
  on_track h -> srv_reg h' = srv_reg h -> devfd h' = devfd h -> sritems h' = sritems h ->
  queues h' = queues h -> (gpu h').2 = (gpu h).2 -> on_track h'.
Proof.
  intros [] Er Ed Ei Eq Et. split; unfold logged_ids, events_of; rewrite ?Er, ?Ed, ?Ei, ?Eq, ?Et; done.
Qed.

(** Where the other items are after a move to the end of [Q']. *)
Lemma others_stay (l : queue -> list Z) x Q' R y :
  y <> x -> y ∈ (if decide (R = Q') then remove_item (l R) x ++ [x] else remove_item (l R) x) -> y ∈ l R.
Proof.
  intros Hne. destruct (decide (R = Q')); rewrite ?elem_of_app, elem_of_remove_item, ?list_elem_of_singleton;
    naive_solver.
Qed.

Lemma moved_there (l : queue -> list Z) x Q' R :
  x ∈ (if decide (R = Q') then remove_item (l R) x ++ [x] else remove_item (l R) x) -> R = Q'.
Proof.
  destruct (decide (R = Q')); [done|]. rewrite elem_of_remove_item. naive_solver.
Qed.

(** The item has moved to the end of another list. *)
Ltac track_move q q' l :=
  eapply (item_step _ _ _ q q' l);
    [done | done | done | done | done | apply lookup_insert_eq
    | intros; simpl; by rewrite !lookup_insert_ne
    | intros; simpl in *; by eapply others_stay
    | simpl; unfold note; simpl; rewrite ?app_nil_r, <- ?app_assoc; done
    | simpl in *; congruence | simpl in *; congruence
    | intros R HR; simpl in HR; apply moved_there in HR; subst R; simpl ].

Lemma alloc_mem_tracks : op_keeps on_track kh_request_alloc_mem Q_init.
Proof.
  unfold kh_request_alloc_mem. load_item E q Hq Hp.
  destruct (be_alloc_device_mem_law (gpu h).1 (hostbuf h) (hostvma h) q (hw_gpu h Hwf) (hw_takes h Hwf x q Hq))
    as (g' & din & dout & dd & E1 & _). cbn [be_alloc_device_mem traced_backend] in E.
  rewrite E1 in E. injection E as <- _.
  track_move q (with_status (with_device q din dout dd) KGPU_REQ_MEM_DONE (sr_errcode q)) [EvMem].
  by apply P_mem.
Qed.

Lemma traced_run f (g g2 : traced G) q q2 r :
  be_wf g -> run_service f g q = Ok (g2, q2, r) ->
  g2.2 = g.2 ++ [(sr_id q, EvRun f r (sr_errcode q2))] /\ be_wf g2 /\ same_request q q2.
Proof.
  intros Hg E. destruct (run_service_law f g q Hg) as (g' & q' & r' & E' & Hs & Hq).
  rewrite E in E'. injection E' as <- <- <-. split_and!; [|apply Hs|done].
  cbn [run_service traced_code] in E. apply bind_ok in E as ([[g3 q3] r3] & _ & E).
  by injection E as <- <- <-.
Qed.

(** A function of the service is run: its event, and the request after it. *)
Ltac run_traced E Hwf sv g2 q2 r2 Ht :=
  let Hsv := fresh "Hsv" in let Er := fresh "Er" in
  apply bind_ok in E; destruct E as (sv & Hsv & E);
  apply load_service_known in Hsv;
    [|match goal with H : on_track ?h |- _ => exact (ot_reg h H) end | done];
  apply bind_ok in E; destruct E as ([[g2 q2] r2] & Er & E);
  apply traced_run in Er as (Ht & _ & Hid & Hst & Hs & _); [|first [apply (hw_gpu _ Hwf) | done]].

Lemma launch_tracks : op_keeps on_track kh_launch_exec Q_prepared.
Proof.
  unfold kh_launch_exec. load_item E q Hq Hp. run_traced E Hwf sv g2 q2 r2 Ht.
  change (store_sr (set_gpu h g2) x q2) with (stay h x q2 g2) in E.
  destruct (truth r2) eqn:Hr.
  - rewrite kh_fail_request_stay in E. injection E as <- _.
    track_move q (with_status q2 KGPU_REQ_DONE r2) [EvRun (sv_launch sv) r2 (sr_errcode q2)].
    rewrite Hst. eapply P_launch_fail; try done. by apply truth_true in Hr.
  - rewrite move_store in E. injection E as <- _. apply truth_false in Hr as ->.
    track_move q (with_status q2 KGPU_REQ_RUNNING (sr_errcode q2)) [EvRun (sv_launch sv) 0 (sr_errcode q2)].
    rewrite Hst. by eapply P_launch.
Qed.

Lemma post_tracks : op_keeps on_track kh_post_exec Q_running.
Proof.
  unfold kh_post_exec. load_item E q Hq Hp.
  apply bind_ok in E as ([g1 fin] & Ef & E). cbn [be_execution_finished traced_backend] in Ef.
  destruct (be_execution_finished_law (gpu h).1 q (hw_gpu h Hwf)) as (g' & r' & E1 & Hg1 & _).
  rewrite E1 in Ef. injection Ef as <- <-. destruct (truth r') eqn:Hf.
  2:{ injection E as <- _. by apply (track_stay h). }
  run_traced E Hwf sv g2 q2 r2 Ht. simpl in Ht. rewrite <- app_assoc in Ht.
  match type of E with context [store_sr ?h1 x q2] => change (store_sr h1 x q2) with (stay h x q2 g2) in E end.
  destruct (truth r2) eqn:Hr.
  - rewrite kh_fail_request_stay in E. injection E as <- _.
    track_move q (with_status q2 KGPU_REQ_DONE r2) [EvExecuted; EvRun (sv_post sv) r2 (sr_errcode q2)].
    rewrite Hst. eapply P_post_fail; try done. by apply truth_true in Hr.
  - rewrite move_store in E. injection E as <- _. apply truth_false in Hr as ->.
    track_move q (with_status q2 KGPU_REQ_POST_EXEC (sr_errcode q2))
      [EvExecuted; EvRun (sv_post sv) 0 (sr_errcode q2)].
    rewrite Hst. by eapply P_post.
Qed.

Lemma finish_tracks : op_keeps on_track kh_finish_post Q_post_exec.
Proof.
  unfold kh_finish_post. load_item E q Hq Hp.
  apply bind_ok in E as ([g1 fin] & Ef & E). cbn [be_post_finished traced_backend] in Ef.
  destruct (be_post_finished_law (gpu h).1 q (hw_gpu h Hwf)) as (g' & r' & E1 & Hg1 & _).
  rewrite E1 in Ef. injection Ef as <- <-. destruct (truth r') eqn:Hf.
  - injection E as <- _. track_move q (with_status q KGPU_REQ_DONE (sr_errcode q)) [EvPosted].
    by apply P_finish.
  - injection E as <- _. by apply (track_stay h).
Qed.

Lemma prepare_tracks : op_keeps on_track kh_prepare_exec Q_memdone.
Proof.
  unfold kh_prepare_exec. load_item E q Hq Hp. cbn [be_alloc_stream traced_backend] in E.
  destruct (be_alloc_stream_law (gpu h).1 q (hw_gpu h Hwf)) as [[E1 _]|(g' & i & s & E1 & Hg' & _)];
    rewrite E1 in E; cbn [mbind outcome_bind mret outcome_ret] in E.
  { injection E as <- _. apply (track_stay h); try done. simpl. by rewrite insert_id. }
  cbn [truth Z.eqb negb] in E. run_traced E Hwf sv g2 q2 r2 Ht.
  simpl in Ht, Hid, Hst, Hs, Hsv. rewrite <- app_assoc in Ht.
  match type of E with context [store_sr (set_gpu ?h1 g2) x q2] =>
    replace (store_sr (set_gpu h1 g2) x q2) with (stay h x q2 g2) in E
      by (symmetry; apply (stay_stay h x (with_stream q i s) q2)) end.
  destruct (truth r2) eqn:Hr.
  - rewrite kh_fail_request_stay in E. injection E as <- _.
    track_move q (with_status q2 KGPU_REQ_DONE r2) [EvStream i; EvRun (sv_prepare sv) r2 (sr_errcode q2)].
    rewrite Hst. eapply P_prepare_fail; try done. by apply truth_true in Hr.
  - rewrite move_store in E. injection E as <- _. apply truth_false in Hr as ->.
    track_move q (with_status q2 KGPU_REQ_PREPARED (sr_errcode q2))
      [EvStream i; EvRun (sv_prepare sv) 0 (sr_errcode q2)].
    rewrite Hst. by eapply P_prepare.
Qed.

(** What is given back after the answer. *)
Lemma traced_free h q g1 q1 g2 :
  be_wf (gpu h) -> be_takes (G := G) (hostbuf h) (hostvma h) q -> be_free_device_mem (gpu h) (hostvma h) q = Ok (g1, q1) -> be_free_stream g1 q1 = Ok g2 ->
  g2.2 = (gpu h).2 ++ (pair (sr_id q) <$> [EvFreeMem; EvFreeStream (sr_stream_id q)]).
Proof.
  intros Hg Ht E1 E2. cbn [be_free_device_mem traced_backend] in E1.
  destruct (be_free_device_mem_law (gpu h).1 (hostbuf h) (hostvma h) q Hg Ht) as (g' & q' & E & _ & Ei & Es).
  rewrite E in E1. injection E1 as <- <-. cbn [be_free_stream traced_backend] in E2.
  apply bind_ok in E2 as (g3 & _ & E2). injection E2 as <-. simpl. by rewrite Ei, Es, <- app_assoc.
Qed.

(** The request at [x] is answered and leaves. *)
Lemma answer_step h h' x q :
  helper_wf h -> on_track h -> x ∈ queues h Q_done -> sritems h !! x = Some q ->
  srv_reg h' = srv_reg h -> sritems h' = delete x (sritems h) ->
  (forall R y, y ∈ queues h' R -> y <> x /\ y ∈ queues h R) ->
  (gpu h').2 = (gpu h).2 ++ (pair (sr_id q) <$> [EvFreeMem; EvFreeStream (sr_stream_id q)]) ->
  (devfd h').2 = (devfd h).2 ++ [mk_ku_response (sr_id q) (sr_errcode q)] ->
  dev_out (devfd h') = dev_out (devfd h) ∖ {[sr_id q]} ->
  dev_answers (devfd h').1 = dev_answers (devfd h).1 ++ [sr_id q] -> on_track h'.
Proof.
  intros Hwf Hot Hx Hq Er Ei HR Ht El Ed Ea.
  assert (Eown : events_of h' (sr_id q) = events_of h (sr_id q) ++ [EvFreeMem; EvFreeStream (sr_stream_id q)])
    by (unfold events_of; by rewrite Ht, events_app, events_own).
  assert (Eother : forall id, id <> sr_id q -> events_of h' id = events_of h id).
  { intros id Hne. unfold events_of. by rewrite Ht, events_app, events_other, app_nil_r. }
  pose proof (item_out h x q Hwf Hq) as Hout.
  destruct Hot as [Or Ol Oi Olog On Oo Oa]. pose proof (Oi _ x q Hx Hq) as Hp.
  assert (Eids : logged_ids h' = logged_ids h ++ [sr_id q]) by (unfold logged_ids; by rewrite El, fmap_app).
  split; rewrite ?Er, ?Eids; try done.
  - intros y z. rewrite Ei. intros [_ Hz]%lookup_delete_Some. eauto.
  - intros R y z [Hne HyR]%HR. rewrite Ei. intros [_ Hz]%lookup_delete_Some.
    rewrite Eother; [by apply (Oi R y)|]. intros E. by apply (item_id_ne h x y q z Hwf Hq Hz Hne).
  - rewrite El. intros resp [Hr| ->%list_elem_of_singleton]%elem_of_app.
    + rewrite Eother; [by apply Olog|]. intros E. apply (Oo (ks_id resp)); [|by rewrite E].
      apply list_elem_of_fmap. eauto.
    + simpl. rewrite Eown. by apply progress_served.
  - rewrite Ed. intros id Hno Hnl. apply not_elem_of_app in Hnl as [Hnl Hne].
    rewrite list_elem_of_singleton in Hne. rewrite Eother by done. apply On; [|done].
    intros Hin. apply Hno. apply elem_of_difference. by rewrite elem_of_singleton.
  - rewrite Ed. intros id [Hl| ->%list_elem_of_singleton]%elem_of_app [Hin Hni]%elem_of_difference.
    + by apply (Oo id).
    + by rewrite elem_of_singleton in Hni.
  - by rewrite Ea, Oa.
Qed.

Lemma done_tracks : op_keeps on_track kh_service_done Q_done.
Proof.
  unfold kh_service_done. load_item E q Hq Hp.
  apply bind_ok in E as ([h1 r1] & Es & E). unfold kh_send_response in Es.
  apply bind_ok in Es as ([w r2] & Ew & Es). cbn [sys_write logged_file] in Ew.
  apply bind_ok in Ew as ([w1 r3] & Ew & Ew2). injection Ew2 as <- <-.
  destruct (Z.ltb_spec r3 0) as [|Hr]; [done|]. injection Es as <- _.
  apply bind_ok in E as (l & _ & E). apply bind_ok in E as ([g1 q1] & E1 & E).
  apply bind_ok in E as (g2 & E2 & E). injection E as <- _.
  pose proof (item_out h x q Hwf Hq) as Hout.
  destruct (sys_write_law (devfd h).1 (mk_ku_response (sr_id q) (sr_errcode q)) (hw_dev h Hwf) Hout)
    as (w' & ret & Ew' & _ & _ & Ho & _). rewrite Ew in Ew'. injection Ew' as <- <-.
  eapply (answer_step h _ x q); try done; simpl.
  - intros R y. by rewrite elem_of_remove_item.
  - by eapply (traced_free h q g1 q1 g2 (hw_gpu h Hwf) (hw_takes h Hwf x q Hq)).
  - by apply (write_trace (devfd h).1 _ _ _ _ (hw_dev h Hwf) Ew Hr).
Qed.

(** ** Admission *)

(** A new request at [x]. *)
Lemma admit_step h h' x Q q l :
  helper_wf h -> on_track h -> srv_reg h' = srv_reg h ->
  sritems h' !! x = Some q -> (forall y, y <> x -> sritems h' !! y = sritems h !! y) ->
  (forall R y, y ∈ queues h' R -> (y = x /\ R = Q) \/ (y <> x /\ y ∈ queues h R)) ->
  (gpu h').2 = (gpu h).2 ++ (pair (sr_id q) <$> l) ->
  (devfd h').2 = (devfd h).2 -> dev_answers (devfd h').1 = dev_answers (devfd h).1 ->
  dev_out (devfd h') = {[sr_id q]} ∪ dev_out (devfd h) ->
  sr_id q ∉ dev_out (devfd h) -> sr_id q ∉ logged_ids h ->
  kh_lookup_service reg (Some (names (sr_id q))) = Ok (sr_s q) ->
  progress (service_at (sr_id q)) Q (sr_errcode q) (sr_stream_id q) l -> on_track h'.
Proof.
  intros Hwf Hot Er Hx Hy HR Ht El Ea Ed Hno Hnl Hlk Hp.
  destruct Hot as [Or Ol Oi Olog On Oo Oa].
  assert (Eown : events_of h' (sr_id q) = l).
  { unfold events_of. rewrite Ht, events_app, events_own. by rewrite (On (sr_id q) Hno Hnl : events _ _ = _). }
  assert (Eother : forall id, id <> sr_id q -> events_of h' id = events_of h id).
  { intros id Hne. unfold events_of. by rewrite Ht, events_app, events_other, app_nil_r. }
  assert (Eids : logged_ids h' = logged_ids h) by (unfold logged_ids; by rewrite El).
  split; rewrite ?Er, ?Eids, ?Ea, ?El; try done.
  - intros y z Hz. destruct (decide (y = x)) as [->|Hne]; [rewrite Hx in Hz; by injection Hz as <-|].
    rewrite Hy in Hz by done. eauto.
  - intros R y z [[-> ->]|[Hne HyR]]%HR Hz; [rewrite Hx in Hz; injection Hz as <-; by rewrite Eown|].
    rewrite Hy in Hz by done. rewrite Eother; [by apply (Oi R y)|].
    intros E. apply Hno. rewrite <- E. by apply (item_out h y).
  - intros resp Hr. rewrite Eother; [by apply Olog|]. intros E. apply Hnl. rewrite <- E.
    apply list_elem_of_fmap. eauto.
  - rewrite Ed. intros id [Hne Hid]%not_elem_of_union Hl. rewrite not_elem_of_singleton in Hne.
    rewrite Eother by done. by apply On.
  - rewrite Ed. intros id Hl [->%elem_of_singleton|Hid]%elem_of_union; [done | by apply (Oo id)].
Qed.

Lemma track_same h h' :
  on_track h -> srv_reg h' = srv_reg h -> (forall y q, sritems h' !! y = Some q -> sritems h !! y = Some q) ->
  queues h' = queues h -> (gpu h').2 = (gpu h).2 -> (devfd h').2 = (devfd h).2 ->
  dev_out (devfd h') = dev_out (devfd h) -> dev_answers (devfd h').1 = dev_answers (devfd h).1 -> on_track h'.
Proof.
  intros [] Er Hi Eq Et El Ed Ea.
  split; unfold logged_ids, events_of; rewrite ?Er, ?Eq, ?Et, ?El, ?Ed, ?Ea; eauto.
Qed.

(** The new item is in no list yet. *)
Lemma new_item_queue h x R : helper_wf h -> sritems h !! x = None -> x ∉ queues h R.
Proof. intros Hwf Hx HR. destruct (queue_item h R x Hwf HR) as [q Hq]. congruence. Qed.

Lemma init_tracks h h1 x kureq h' :
  helper_wf h -> on_track h -> sritems h !! x = None ->
  srv_reg h1 = srv_reg h -> queues h1 = queues h -> gpu h1 = gpu h ->
  (forall y, y <> x -> sritems h1 !! y = sritems h !! y) ->
  (devfd h1).2 = (devfd h).2 -> dev_answers (devfd h1).1 = dev_answers (devfd h).1 ->
  dev_out (devfd h1) = {[kr_id kureq]} ∪ dev_out (devfd h) ->
  kr_id kureq ∉ dev_out (devfd h) -> kr_id kureq ∉ logged_ids h ->
  kr_service_name kureq = names (kr_id kureq) ->
  kh_init_service_request x kureq h1 = Ok h' -> on_track h'.
Proof.
  intros Hwf Hot Hnew Er Eq Eg Hy El Ea Ed Hno Hnl Hn E.
  pose proof (fun R => new_item_queue h x R Hwf Hnew) as HxR.
  unfold kh_init_service_request in E. apply bind_ok in E as (s & Hlk & E).
  simpl srv_reg in Hlk. rewrite Er, (ot_reg h Hot), Hn in Hlk.
  destruct (s =? NULL) eqn:Es.
  - unfold kh_fail_request, load_sr in E. apply bind_ok in E as (q & Hq & E). injection E as <-.
    simpl in Hq. rewrite lookup_insert_eq in Hq. injection Hq as <-.
    apply (admit_step h _ x Q_done (with_status (new_request kureq s) KGPU_REQ_DONE KGPU_NO_SERVICE) []);
      simpl; try done; [apply lookup_insert_eq | | | |].
    + intros y Hne. rewrite !lookup_insert_ne by done. by apply Hy.
    + rewrite Eq. intros R y HR. destruct (decide (R = Q_done)) as [->|];
        rewrite ?elem_of_app, elem_of_remove_item, ?list_elem_of_singleton in HR; naive_solver.
    + by rewrite Eg, app_nil_r.
    + apply P_unknown. unfold service_at, known_service. by rewrite Hlk, Es.
  - apply bind_ok in E as (sv & Hsv & E). apply bind_ok in E as ([[g2 q2] r2] & Hr & E).
    injection E as <-. simpl gpu in Hr. rewrite Eg in Hr.
    apply traced_run in Hr as (Ht & _ & Hid & Hst & Hs & _); [|apply (hw_gpu h Hwf)].
    simpl in Ht, Hid, Hst, Hs.
    apply load_service_known in Hsv; [|simpl; by rewrite Er, (ot_reg h Hot) | done]. simpl in Hsv.
    apply (admit_step h _ x Q_init (with_status q2 KGPU_REQ_INIT 0)
      [EvRun (sv_compute_size sv) r2 (sr_errcode q2)]); simpl;
      rewrite ?Hid, ?Hs, ?Hst; try done; [apply lookup_insert_eq | | |].
    + intros y Hne. rewrite !lookup_insert_ne by done. by apply Hy.
    + rewrite Eq. intros R y HR. destruct (decide (R = Q_init)) as [->|]; [|naive_solver].
      rewrite elem_of_app, list_elem_of_singleton in HR. naive_solver.
    + by apply P_init.
Qed.

Lemma next_tracks h h' r :
  helper_wf h -> kh_get_next_service_request h = Ok (h', r) -> on_track h -> on_track h'.
Proof.
  intros Hwf E Hot. unfold kh_get_next_service_request in E.
  apply bind_ok in E as ([w [err rev]] & Ep & E). cbn [sys_poll logged_file] in Ep.
  apply bind_ok in Ep as ([w1 [err1 rev1]] & Ep & Ep2). injection Ep2 as <- <- <-.
  pose proof (poll_trace (devfd h).1 _ _ _ (hw_dev h Hwf) Ep) as Ea.
  destruct (sys_poll_law (devfd h).1 (bool_decide (all_reqs h = [])) (hw_dev h Hwf))
    as (w' & ? & ? & E' & Hd1 & Ho1 & _ & Hpoll & _). rewrite Ep in E'. injection E' as <- <- <-.
  destruct ((err1 =? 0) || _); [injection E as <- _; by apply (track_same h)|].
  destruct (pollin rev1); [|by rewrite andb_false_r in E]. destruct (Hpoll eq_refl) as [-> Hrdy].
  cbn [Z.eqb Pos.eqb andb] in E. unfold kh_alloc_service_request in E.
  simpl sr_mallocs in E. simpl sritems in E.
  destruct (malloc _ _) as [x|] eqn:Hm; [|injection E as <- _; by apply (track_same h)].
  apply malloc_fresh, not_elem_of_dom in Hm.
  apply bind_ok in E as ([w [[err2 errno] buf]] & Er & E). cbn [sys_read logged_file] in Er.
  apply bind_ok in Er as ([w2 [[err3 errno2] buf2]] & Er & Er2). injection Er2 as <- <- <- <-.
  simpl in Er. destruct (sys_read_law w1 Hd1 Hrdy)
    as (w' & ret & eno & kureq & Er' & _ & Hpos & _ & Hfresh & _ & Ho2 & _).
  rewrite Er in Er'. injection Er' as <- <- <- ->. rewrite (proj2 (Z.leb_gt err3 0) Hpos) in E.
  cbn [of_option mbind outcome_bind] in E. apply bind_ok in E as (h2 & Ei & E). injection E as <- _.
  destruct (read_trace w1 _ _ _ _ Hd1 Er) as (Ea2 & Hn & Hnew).
  refine (init_tracks h _ x kureq h2 Hwf Hot Hm _ _ _ _ _ _ _ _ _ _ Ei); simpl; try done.
  - intros y Hne. by rewrite lookup_insert_ne.
  - congruence.
  - by rewrite Ho2, Ho1.
  - by rewrite <- Ho1.
  - by rewrite <- (ot_answers h Hot), <- Ea.
Qed.

(** ** The loop *)

Lemma loop_tracks n h h' :
  helper_wf h -> on_track h -> kh_main_loop n h = Ok h' -> helper_wf h' /\ on_track h'.
Proof.
  apply (loop_keeps on_track);
    [apply done_tracks | apply finish_tracks | apply post_tracks | apply launch_tracks
    | apply prepare_tracks | apply alloc_mem_tracks | apply next_tracks].
Qed.

Lemma start_tracks hb hv g w :
  dev_answers w = [] -> on_track (helper_start hb hv reg (g, []) (w, [])).
Proof.
  intros Ha. split; simpl; [done | | | | done | | by rewrite Ha].
  - intros x q Hx. by rewrite lookup_empty in Hx.
  - intros Q x q Hx. by apply not_elem_of_nil in Hx.
  - intros resp Hr. by apply not_elem_of_nil in Hr.
  - intros id Hr. by apply not_elem_of_nil in Hr.
Qed.

End tracing.
