(* ===== verification/HelperErase.v ===== *)
(** * The observers change nothing

    The log of HelperCodes and the trace of HelperTrace are written beside the
    device and the GPU.  Without them, the helper does the same: every
    operation, and so the loop, commutes with erasing them. *)

From S2P Require Import Prelude KgpuDefs ListHead Ranges GpuOps ItemList Services.
From S2P Require Import Helper HelperInv HelperCodes HelperTrace.

#[local] Existing Instance traced_code | 0.

Section erase.
Context {W G : Type} `{DevFile W, GpuBackend G, ServiceCode G, Malloc}.
Implicit Types h : helper (logged W) (traced G).

Definition erase h : helper W G :=
  mk_helper (all_reqs h) (queues h) (sritems h) (hostbuf h) (hostvma h) (srv_reg h) (gpu h).1
    (devfd h).1 (sr_mallocs h).

Definition erase_result {A} (m : outcome (helper (logged W) (traced G) * A)) : outcome (helper W G * A) :=
  '(h, a) ← m; mret (erase h, a).

Definition erases (op : forall W' G' (D : DevFile W') (B : GpuBackend G') (S : ServiceCode G'),
    helper W' G' -> outcome (helper W' G' * Z)) : Prop :=
  forall h, op W G _ _ _ (erase h) = erase_result (op (logged W) (traced G) _ _ _ h).

(** Runs both sides up to the next call of a device, back end or service. *)
Ltac erase_step :=
  simpl; try done;
  match goal with
  | |- context [match sritems ?h !! ?x with _ => _ end] => destruct (sritems h !! x)
  | |- context [match <[?x := ?q]> ?m !! ?y with _ => _ end] => destruct (<[x := q]> m !! y)
  | |- context [sys_poll ?w ?b] => destruct (sys_poll w b) as [[? [? ?]]|]
  | |- context [sys_read ?w ?b] => destruct (sys_read w b) as [[? [[? ?] [?|]]]|]
  | |- context [sys_write ?w ?r ?n] => destruct (sys_write w r n) as [[? ?]|]
  | |- context [be_alloc_device_mem ?g ?a ?b ?q] => destruct (be_alloc_device_mem g a b q) as [[[? ?] ?]|]
  | |- context [be_free_device_mem ?g ?a ?q] => destruct (be_free_device_mem g a q) as [[? ?]|]
  | |- context [be_alloc_stream ?g ?q] => destruct (be_alloc_stream g q) as [[[? ?] ?]|]
  | |- context [be_free_stream ?g ?q] => destruct (be_free_stream g q)
  | |- context [be_execution_finished ?g ?q] => destruct (be_execution_finished g q) as [[? ?]|]
  | |- context [be_post_finished ?g ?q] => destruct (be_post_finished g q) as [[? ?]|]
  | |- context [run_service ?f ?g ?q] => destruct (run_service f g q) as [[[? ?] ?]|]
  | |- context [list_del_item ?l ?x] => destruct (list_del_item l x)
  | |- context [truth ?r] => destruct (truth r)
  | |- context [malloc ?n ?l] => destruct (malloc n l)
  | |- context [kh_lookup_service ?r ?n] => destruct (kh_lookup_service r n)
  | |- context [match svc_mem ?r !! ?s with _ => _ end] => destruct (svc_mem r !! s)
  | |- context [if ?b then _ else _] => destruct b
  end.

Ltac erase_op :=
  intros h; unfold erase_result, kh_send_response, kh_fail_request, kh_alloc_service_request, load_sr, load_service,
    of_option; repeat erase_step.

Lemma alloc_mem_erases x : erases (fun _ _ _ _ _ => kh_request_alloc_mem x).
Proof. unfold erases, kh_request_alloc_mem. erase_op. Qed.

Lemma prepare_erases x : erases (fun _ _ _ _ _ => kh_prepare_exec x).
Proof. unfold erases, kh_prepare_exec. erase_op. Qed.

Lemma launch_erases x : erases (fun _ _ _ _ _ => kh_launch_exec x).
Proof. unfold erases, kh_launch_exec. erase_op. Qed.

Lemma post_erases x : erases (fun _ _ _ _ _ => kh_post_exec x).
Proof. unfold erases, kh_post_exec. erase_op. Qed.

Lemma finish_erases x : erases (fun _ _ _ _ _ => kh_finish_post x).
Proof. unfold erases, kh_finish_post. erase_op. Qed.

Lemma done_erases x : erases (fun _ _ _ _ _ => kh_service_done x).
Proof. unfold erases, kh_service_done. erase_op. Qed.

Lemma next_erases : erases (fun _ _ _ _ _ => kh_get_next_service_request).
Proof. unfold erases, kh_get_next_service_request, kh_init_service_request. erase_op. Qed.

(** ** The loop *)

Lemma for_each_safe_erases (op : Z -> helper W G -> outcome (helper W G * Z))
    (op' : Z -> helper (logged W) (traced G) -> outcome (helper (logged W) (traced G) * Z)) Q (brk : Z -> bool) h a :
  (forall x h, op x (erase h) = erase_result (op' x h)) ->
  for_each_safe (fun k : helper W G => queues k Q) (fun _ pos k => op pos k) brk (erase h) a =
  erase_result (for_each_safe (fun h => queues h Q) (fun _ pos h => op' pos h) brk h a).
Proof.
  intros Hop. unfold for_each_safe. simpl. generalize (length (queues h Q)) as fuel.
  generalize (head (queues h Q)) as pos. intros pos fuel. revert pos h a.
  induction fuel as [|fuel IH]; intros [x|] h a; try done. cbn [for_each_safe_from].
  change (queues (erase h) Q) with (queues h Q).
  destruct (next_in (queues h Q) x) as [n|]; [|done]. cbn [mbind outcome_bind]. rewrite Hop.
  destruct (op' x h) as [[h1 a1]|]; [|done]. cbn [erase_result mbind outcome_bind mret outcome_ret].
  destruct (brk a1); [done | apply IH].
Qed.

(** One pass over a list on both sides. *)
Ltac erase_pass op_erases :=
  rewrite (for_each_safe_erases _ _ _ _ _ _ op_erases);
  match goal with |- context [for_each_safe ?l ?b ?k ?h ?a] =>
    destruct (for_each_safe l b k h a) as [[? ?]|]; [|done] end;
  cbn [erase_result mbind outcome_bind mret outcome_ret].

Lemma loop_erases n h h' :
  kh_main_loop n h = Ok h' -> kh_main_loop n (erase h) = Ok (erase h').
Proof.
  revert h. induction n as [|n IH]; intros h E; [by injection E as <-|].
  cbn [kh_main_loop] in *. apply bind_ok in E as (h1 & E1 & E).
  assert (E2 : kh_main_loop_body (erase h) = Ok (erase h1)); [|rewrite E2; by apply IH].
  revert E1. unfold kh_main_loop_body, process_all, __kh_process_request.
  erase_pass done_erases. erase_pass finish_erases. erase_pass post_erases.
  erase_pass launch_erases. erase_pass prepare_erases. erase_pass alloc_mem_erases.
  rewrite next_erases. destruct (kh_get_next_service_request _) as [[? ?]|]; [|done].
  by intros [= <-].
Qed.

End erase.
