(* ===== verification/HelperSim.v ===== *)
(** * The linked lists of the helper refine its sequences

    The relation between the pointer program of HelperPtr and the program on
    sequences of Helper, and a simulation: whenever the latter returns, so
    does the former, with related states.  The laws of [malloc] are about
    blocks here: a new block overlaps no live one and no list head. *)

From S2P Require Import Prelude KgpuDefs Layout ListHead Ranges GpuOps ItemList Services.
From S2P Require Import Helper HelperInv HelperLoop HelperThms HelperPtr.

(** ** Addresses *)

(** The blocks of live items overlap neither each other nor a list head. *)
Record blocks_ok (lists : option queue -> Z) (live : gset Z) : Prop := {
  bo_range x : x ∈ live -> 0 < x /\ x + sizeof_sritem < 2 ^ 64;
  bo_disjoint x y : x ∈ live -> y ∈ live -> x <> y ->
    x + sizeof_sritem <= y \/ y + sizeof_sritem <= x;
  bo_heads i x : x ∈ live ->
    lists i + sizeof list_head_fields <= x \/ x + sizeof_sritem <= lists i
}.

Record heads_ok (lists : option queue -> Z) : Prop := {
  ho_range i : 0 < lists i < 2 ^ 64;
  ho_inj i j : lists i = lists j -> i = j
}.

(** What [malloc] promises about the blocks it returns. *)
Class MallocBlocks `{Malloc} (lists : option queue -> Z) : Prop := {
  malloc_block n live a : malloc n live = Some a -> blocks_ok lists live ->
    a ∉ live /\ blocks_ok lists ({[a]} ∪ live)
}.

Lemma offset_glist : offsetof sritem_fields 1 = 128. Proof. reflexivity. Qed.

Lemma offset_list : offsetof sritem_fields 2 = 144. Proof. reflexivity. Qed.

Lemma size_sritem : sizeof_sritem = 160. Proof. reflexivity. Qed.

Lemma glist_of_eq x : 0 < x -> x + sizeof_sritem < 2 ^ 64 -> glist_of x = x + 128.
Proof. rewrite size_sritem. intros. unfold glist_of. rewrite offset_glist. by wsimp. Qed.

Lemma list_of_eq x : 0 < x -> x + sizeof_sritem < 2 ^ 64 -> list_of x = x + 144.
Proof. rewrite size_sritem. intros. unfold list_of. rewrite offset_list. by wsimp. Qed.

(** [list_entry] undoes taking the address of the member. *)
Lemma list_entry_list_of x : u64_range x -> list_entry (list_of x) sritem_fields 2 = x.
Proof.
  intros Hx. unfold list_entry, container_of, list_of. rewrite offset_list, wrap64_sub_l.
  replace (x + 144 - 144) with x by lia. by apply wrap64_id.
Qed.

(** ** The lists in the heap *)

Definition node_of (i : option queue) (x : Z) : Z :=
  match i with None => glist_of x | Some _ => list_of x end.

Definition contents {W G} (h : helper W G) (i : option queue) : list Z :=
  match i with None => all_reqs h | Some Q => queues h Q end.

(** The initialisation of two zeroed nodes. *)
Lemma init_two_nodes nodes a b :
  a <> NULL -> b <> NULL -> b <> a ->
  let zero := mk_list_head NULL NULL in
  exists n1 n2, INIT_LIST_HEAD (<[a := zero]> (<[b := zero]> nodes)) a = Ok n1 /\
    INIT_LIST_HEAD n1 b = Ok n2 /\ dll n2 a [] /\ dll n2 b [] /\
    (forall q, q ∉ [a; b] -> n2 !! q = nodes !! q).
Proof.
  intros Ha Hb Hab zero.
  destruct (INIT_LIST_HEAD_dll (<[a := zero]> (<[b := zero]> nodes)) a) as (n1 & E1 & D1 & F1).
  { split; [done|]. rewrite lookup_insert_eq. eauto. }
  destruct (INIT_LIST_HEAD_dll n1 b) as (n2 & E2 & D2 & F2).
  { split; [done|]. rewrite F1, lookup_insert_ne, lookup_insert_eq by congruence. eauto. }
  exists n1, n2. split_and!; [done..| |done|].
  - apply (dll_frame n1 n2 [b]); [done| |set_solver]. intros q Hq. apply F2. set_solver.
  - intros q Hq. rewrite F2, F1, !lookup_insert_ne by set_solver. done.
Qed.

Section heap.
Context (lists : option queue -> Z) (Hheads : heads_ok lists).
Implicit Types (nodes : gmap Z list_head) (c : option queue -> list Z) (live : gset Z).

(** Every list is a circular list in the heap; its items are live, and an
    item is in at most one of the lists that use the same node. *)
Record lists_rep nodes c live : Prop := {
  lr_dll i : dll nodes (lists i) (node_of i <$> c i);
  lr_live i x : x ∈ c i -> x ∈ live;
  lr_once Q R x : x ∈ c (Some Q) -> x ∈ c (Some R) -> Q = R;
  lr_nodes i x : x ∈ live -> node_at nodes (node_of i x);
  lr_blocks : blocks_ok lists live
}.

#[global] Instance lists_rep_proper nodes :
  Proper (pointwise_relation _ eq ==> eq ==> iff) (lists_rep nodes).
Proof.
  intros c c' Hc live _ <-. assert (Hc' : forall i, c i = c' i) by apply Hc.
  split; intros [H1 H2 H3 H4 H5]; split; try done;
    intros; repeat match goal with H : context [c' _] |- _ => rewrite <- Hc' in H end;
    rewrite <- ?Hc'; rewrite ?Hc' in *; eauto.
  - rewrite <- Hc'. apply H1.
  - eapply H2. by rewrite Hc'.
  - eapply H3; rewrite Hc'; eauto.
Qed.

Lemma lists_rep_ext nodes c c' live :
  lists_rep nodes c live -> (forall i, c' i = c i) -> lists_rep nodes c' live.
Proof. intros Hr Hc. by apply (lists_rep_proper nodes c' c Hc live live eq_refl). Qed.

(** Two nodes at the same address are the same node of the same item. *)
Lemma node_of_inj live i j x y :
  blocks_ok lists live -> x ∈ live -> y ∈ live -> node_of i x = node_of j y ->
  x = y /\ (i = None <-> j = None).
Proof.
  intros Hb Hx Hy E. destruct (bo_range _ _ Hb x Hx), (bo_range _ _ Hb y Hy).
  assert (x = y) as <-.
  { destruct (decide (x = y)); [done|].
    pose proof (bo_disjoint _ _ Hb x y Hx Hy) as Hd. rewrite size_sritem in Hd.
    unfold node_of in E. destruct i, j; rewrite ?glist_of_eq, ?list_of_eq in E by done; lia. }
  split; [done|]. unfold node_of in E.
  destruct i, j; try done; rewrite glist_of_eq, list_of_eq in E by done; lia.
Qed.

Lemma node_of_head live i j x : blocks_ok lists live -> x ∈ live -> node_of i x <> lists j.
Proof.
  intros Hb Hx E. destruct (bo_range _ _ Hb x Hx).
  pose proof (bo_heads _ _ Hb j x Hx) as Hd. change (sizeof list_head_fields) with 16 in Hd.
  rewrite size_sritem in Hd. unfold node_of in E.
  destruct i; rewrite ?glist_of_eq, ?list_of_eq in E by done; lia.
Qed.

Lemma node_of_pos live i x : blocks_ok lists live -> x ∈ live -> node_of i x <> NULL.
Proof.
  intros Hb Hx E. destruct (bo_range _ _ Hb x Hx). unfold NULL in E.
  destruct i; simpl in E; rewrite ?glist_of_eq, ?list_of_eq in E by done; lia.
Qed.

(** The addresses of a list's head and nodes. *)
Definition footprint c (i : option queue) : list Z := lists i :: (node_of i <$> c i).

Lemma footprint_node nodes c live i j x :
  lists_rep nodes c live -> x ∈ live -> node_of i x ∈ footprint c j ->
  x ∈ c j /\ (i = None <-> j = None).
Proof.
  intros Hr Hx [E|Hin]%elem_of_cons.
  - destruct (node_of_head live i j x); [apply Hr | done..].
  - apply list_elem_of_fmap in Hin as (y & E & Hy).
    destruct (node_of_inj live i j x y) as [-> ?]; [apply Hr | done | by eapply lr_live | done..].
Qed.

Lemma footprint_disjoint nodes c live i j q :
  lists_rep nodes c live -> i <> j -> q ∈ footprint c i -> q ∉ footprint c j.
Proof.
  intros Hr Hij [->|Hin]%elem_of_cons Hj.
  - apply elem_of_cons in Hj as [E|Hin]; [by apply (ho_inj _ Hheads) in E|].
    apply list_elem_of_fmap in Hin as (y & E & Hy).
    by apply (node_of_head live j i y); [apply Hr | eapply lr_live | symmetry].
  - apply list_elem_of_fmap in Hin as (x & -> & Hx).
    destruct (footprint_node nodes c live i j x) as [Hxj Hn]; [done | by eapply lr_live | done|].
    destruct i as [Q|], j as [R|]; [|naive_solver..].
    by rewrite (lr_once _ _ _ Hr Q R x) in Hij.
Qed.

Lemma remove_item_split l1 x l2 : x ∉ l1 -> x ∉ l2 -> remove_item (l1 ++ x :: l2) x = l1 ++ l2.
Proof. intros H1 H2. by rewrite remove_item_app, remove_item_head, remove_item_id. Qed.

Lemma dll_items nodes c live i : lists_rep nodes c live -> NoDup (c i).
Proof.
  intros Hr. destruct (lr_dll _ _ _ Hr i) as (Hnd & _). apply NoDup_cons in Hnd as [_ Hnd].
  by apply NoDup_fmap_1 in Hnd.
Qed.

(** Replacing the contents of one list. *)
Definition upd c (i : option queue) (l : list Z) (j : option queue) : list Z :=
  if decide (j = i) then l else c j.

(** A change of the heap that rearranges the list [i] only. *)
Lemma lists_rep_change nodes nodes' c live i l (extra : list Z) :
  lists_rep nodes c live -> dll nodes' (lists i) (node_of i <$> l) ->
  (forall x, x ∈ l -> x ∈ live) ->
  (forall Q R x, x ∈ upd c i l (Some Q) -> x ∈ upd c i l (Some R) -> Q = R) ->
  (forall q, q ∉ extra ++ footprint c i -> nodes' !! q = nodes !! q) ->
  (forall j q, j <> i -> q ∈ footprint c j -> q ∉ extra) ->
  (forall q, node_at nodes q -> node_at nodes' q) ->
  lists_rep nodes' (upd c i l) live.
Proof.
  intros Hr Hd Hl Ho Hf He Hn. split.
  - intros j. unfold upd. destruct (decide (j = i)) as [->|]; [done|].
    eapply dll_frame; [apply (lr_dll _ _ _ Hr) | exact Hf |].
    intros q Hq. apply not_elem_of_app. split; [by apply (He j)|].
    by eapply footprint_disjoint.
  - intros j x. unfold upd. destruct (decide (j = i)); [apply Hl | apply (lr_live _ _ _ Hr)].
  - exact Ho.
  - intros j x Hx. by apply Hn, (lr_nodes _ _ _ Hr).
  - apply Hr.
Qed.

(** ** The list operations *)

Lemma lists_rep_del nodes c live i x :
  lists_rep nodes c live -> x ∈ c i ->
  exists nodes', list_del nodes (node_of i x) = Ok nodes' /\
    lists_rep nodes' (upd c i (remove_item (c i) x)) live.
Proof.
  intros Hr Hx. apply list_elem_of_split in Hx as (l1 & l2 & E).
  pose proof (dll_items nodes c live i Hr) as Hnd. rewrite E in Hnd.
  apply NoDup_app in Hnd as (_ & H1 & [H2 _]%NoDup_cons).
  assert (x ∉ l1) by (intros Hx; apply (H1 x Hx); left).
  pose proof (lr_dll _ _ _ Hr i) as Hd. rewrite E, fmap_app, fmap_cons in Hd.
  destruct (list_del_dll _ _ _ _ _ Hd) as (nodes' & E' & Hd' & _ & Hf & Hn).
  exists nodes'. split; [done|]. rewrite E, remove_item_split by done.
  eapply (lists_rep_change nodes nodes' c live i _ []); [done | by rewrite fmap_app | | | | | done].
  - intros y Hy. apply (lr_live _ _ _ Hr i). rewrite E. set_solver.
  - intros Q R y HQ HR. apply (lr_once _ _ _ Hr Q R y); unfold upd in *;
      [destruct (decide (Some Q = i)) as [<-|] | destruct (decide (Some R = i)) as [<-|]];
      rewrite ?E; set_solver.
  - intros q Hq. apply Hf. unfold footprint in Hq. by rewrite E, fmap_app, fmap_cons in Hq.
  - set_solver.
Qed.

Lemma lists_rep_add nodes c live i x :
  lists_rep nodes c live -> x ∈ live -> (forall j, (i = None <-> j = None) -> x ∉ c j) ->
  exists nodes', list_add_tail nodes (node_of i x) (lists i) = Ok nodes' /\
    lists_rep nodes' (upd c i (c i ++ [x])) live /\
    (forall q, q ∉ node_of i x :: footprint c i -> nodes' !! q = nodes !! q).
Proof.
  intros Hr Hx Hno.
  assert (Hfree : forall j, node_of i x ∉ footprint c j).
  { intros j Hj. apply (footprint_node nodes c live i j x Hr Hx) in Hj as [Hj Hn]. by apply (Hno j). }
  destruct (list_add_tail_dll nodes (lists i) (node_of i <$> c i) (node_of i x))
    as (nodes' & E & Hd & Hf & Hn); [apply Hr | by apply (lr_nodes _ _ _ Hr) | apply Hfree|].
  exists nodes'. split; [done|]. split; [|done].
  eapply (lists_rep_change nodes nodes' c live i _ [node_of i x]);
    [done | by rewrite fmap_app | | | done | | done].
  - intros y [Hy| ->%list_elem_of_singleton]%elem_of_app; [by eapply lr_live | done].
  - intros Q R y HQ HR. unfold upd in *.
    destruct (decide (Some Q = i)) as [EQ|], (decide (Some R = i)) as [ER|]; [congruence|..].
    + apply elem_of_app in HQ as [HQ| ->%list_elem_of_singleton]; subst i.
      * by apply (lr_once _ _ _ Hr Q R y).
      * destruct (Hno (Some R)); [by split | done].
    + apply elem_of_app in HR as [HR| ->%list_elem_of_singleton]; subst i.
      * by apply (lr_once _ _ _ Hr Q R y).
      * destruct (Hno (Some Q)); [by split | done].
    + by apply (lr_once _ _ _ Hr Q R y).
  - intros j q _ Hq ->%list_elem_of_singleton. by apply (Hfree j).
Qed.

(** A change of nodes that are in no list. *)
Lemma lists_rep_frame nodes nodes' c live live' (changed : list Z) :
  lists_rep nodes c live -> (forall q, q ∉ changed -> nodes' !! q = nodes !! q) ->
  (forall i q, q ∈ footprint c i -> q ∉ changed) ->
  (forall i x, x ∈ c i -> x ∈ live') ->
  (forall i x, x ∈ live' -> node_at nodes' (node_of i x)) ->
  blocks_ok lists live' -> lists_rep nodes' c live'.
Proof.
  intros Hr Hf Hd Hl Hn Hb. split; try done; [|apply Hr].
  intros i. eapply dll_frame; [apply (lr_dll _ _ _ Hr) | exact Hf | apply Hd].
Qed.

(** [list_del] of a node that is linked to itself. *)
Lemma lists_rep_del_self nodes c live i x :
  lists_rep nodes c live -> x ∈ live -> (forall j, (i = None <-> j = None) -> x ∉ c j) ->
  dll nodes (node_of i x) [] ->
  exists nodes', list_del nodes (node_of i x) = Ok nodes' /\ lists_rep nodes' c live.
Proof.
  intros Hr Hx Hno (_ & _ & [Hnx Hpv]).
  pose proof (lr_nodes _ _ _ Hr i x Hx) as Hat.
  destruct (list_del_spec nodes _ _ _ Hat Hat Hat Hpv Hnx) as (nodes' & E & _ & _ & Hf & Hm).
  exists nodes'. split; [done|].
  eapply (lists_rep_frame nodes nodes' c live live [node_of i x]); [done | | | apply Hr | | apply Hr].
  - intros q Hq. apply Hf. set_solver.
  - intros j q Hq ->%list_elem_of_singleton.
    apply (footprint_node nodes c live i j x Hr Hx) in Hq as [Hj Hn]. by apply (Hno j).
  - intros j y Hy. by apply Hm, (lr_nodes _ _ _ Hr).
Qed.

(** The two nodes of an item. *)
Lemma own_node q x : q ∈ [list_of x; glist_of x] -> exists j, q = node_of j x.
Proof.
  rewrite elem_of_cons, list_elem_of_singleton. intros [-> | ->]; [by exists (Some Q_init) | by exists None].
Qed.

(** A new item that is in no list. *)
Lemma lists_rep_new nodes nodes' c live x :
  lists_rep nodes c live -> x ∉ live -> blocks_ok lists ({[x]} ∪ live) ->
  dll nodes' (list_of x) [] -> dll nodes' (glist_of x) [] ->
  (forall q, q ∉ [list_of x; glist_of x] -> nodes' !! q = nodes !! q) ->
  lists_rep nodes' c ({[x]} ∪ live).
Proof.
  intros Hr Hx Hb D1 D2 Hf.
  assert (Hne : forall i j y, y ∈ live -> node_of i y <> node_of j x).
  { intros i j y Hy E. apply (node_of_inj ({[x]} ∪ live)) in E as [-> _]; set_solver. }
  eapply (lists_rep_frame nodes nodes' c live _ _ Hr Hf); [| | |done].
  - intros i q Hq [j ->]%own_node. apply elem_of_cons in Hq as [Hq|Hq].
    + apply (node_of_head ({[x]} ∪ live)) in Hq; set_solver.
    + apply list_elem_of_fmap in Hq as (y & Ey & Hy).
      by apply (Hne i j y); [eapply lr_live|symmetry].
  - intros i y Hy. apply elem_of_union_r. by eapply lr_live.
  - intros i y [->%elem_of_singleton|Hy]%elem_of_union.
    + destruct i; simpl; [apply (dll_node _ _ _ _ D1) | apply (dll_node _ _ _ _ D2)]; set_solver.
    + destruct (lr_nodes _ _ _ Hr i y Hy) as [Hnn Hs]. split; [done|].
      rewrite Hf; [done|]. intros [j Ej]%own_node. by apply (Hne i j y).
Qed.

End heap.

(** ** The simulation *)

Section sim.
Context {W G : Type} `{DevFile W, GpuBackend G, ServiceCode G, Malloc}.
Context (lists : option queue -> Z) (Hheads : heads_ok lists) `{!MallocBlocks lists}.
Implicit Types h : helper W G.

(** The state without its lists. *)
Definition erase h : helper W G := set_queues (set_all h []) (fun _ => []).

Definition rep (p : phelper W G) h : Prop :=
  ph_core p = erase h /\ lists_rep lists (ph_nodes p) (contents h) (dom (sritems h)).

Lemma rep_items p h h' :
  rep p h -> (forall i, contents h' i = contents h i) -> dom (sritems h') = dom (sritems h) ->
  rep (p_core p (erase h')) h'.
Proof.
  intros [_ Hl] Hc Hd. split; [done|]. simpl. rewrite Hd.
  by apply (lists_rep_ext lists _ (contents h)).
Qed.

Lemma rep_store p h x q q0 :
  rep p h -> load_sr h x = Ok q0 -> rep (p_core p (erase (store_sr h x q))) (store_sr h x q).
Proof.
  intros Hr Hx. apply (rep_items p h); [done | by intros [] | simpl].
  unfold load_sr, of_option in Hx. destruct (sritems h !! x) eqn:E; [|done].
  apply dom_insert_lookup_L. eauto.
Qed.

Lemma rep_gpu p h g : rep p h -> rep (p_core p (set_gpu (erase h) g)) (set_gpu h g).
Proof. intros Hr. apply (rep_items p h (set_gpu h g)); [done | by intros [] | done]. Qed.

Lemma rep_dev p h w : rep p h -> rep (p_core p (set_dev (erase h) w)) (set_dev h w).
Proof. intros Hr. apply (rep_items p h (set_dev h w)); [done | by intros [] | done]. Qed.

Lemma queue_item_live nodes h Q x :
  lists_rep lists nodes (contents h) (dom (sritems h)) -> x ∈ queues h Q -> x ∈ dom (sritems h).
Proof. intros Hl. apply (lr_live _ _ _ _ Hl (Some Q)). Qed.

(** Taking an item out of the list of its state. *)
Lemma del_list_sim p h Q x :
  rep p h -> x ∈ queues h Q ->
  exists n, p_del p (list_of x) = Ok (mk_ph n (erase h)) /\
    rep (mk_ph n (erase h)) (del_list h x).
Proof.
  intros [Hc Hl] Hx.
  destruct (lists_rep_del lists Hheads (ph_nodes p) (contents h) _ (Some Q) x Hl Hx)
    as (n & E & Hn). simpl in E.
  exists n. unfold p_del. rewrite E. simpl. rewrite Hc. split; [done|]. split; [done|].
  apply (lists_rep_ext lists _ _ _ _ Hn). intros [R|]; unfold upd; simpl; [|done].
  destruct (decide (Some R = Some Q)) as [[= ->]|HRQ]; [done|].
  apply remove_item_id. intros HR. apply HRQ. f_equal. by apply (lr_once _ _ _ _ Hl R Q x).
Qed.

Lemma move_sim p h Q Q' x :
  rep p h -> x ∈ queues h Q ->
  exists p', p_move lists p x Q' = Ok p' /\ rep p' (add_list (del_list h x) x Q').
Proof.
  intros Hr Hx. pose proof (queue_item_live _ _ _ _ (proj2 Hr) Hx) as Hlive.
  destruct (del_list_sim p h Q x Hr Hx) as (n & E & [_ Hl]).
  unfold p_move. rewrite E. cbn [mbind outcome_bind].
  destruct (lists_rep_add lists Hheads n (contents (del_list h x)) _ (Some Q') x Hl)
    as (n' & E' & Hn & _); [done| |].
  { intros [R|] HR; [|discriminate (proj2 HR eq_refl)]. simpl. rewrite elem_of_remove_item. tauto. }
  unfold p_add_tail. simpl in *. rewrite E'. eexists. split; [done|]. split; [done|]. simpl.
  apply (lists_rep_ext lists _ _ _ _ Hn). intros [R|]; unfold upd; simpl; [|done].
  destruct (decide (R = Q')) as [->|]; [by rewrite decide_True|]. rewrite decide_False; congruence.
Qed.

Lemma advance_sim p h Q Q' x q q0 st :
  rep p h -> x ∈ queues h Q -> load_sr h x = Ok q0 ->
  exists p', p_advance lists p x q st Q' = Ok p' /\
    rep p' (add_list (del_list (store_sr h x (with_status q st (sr_errcode q))) x) x Q').
Proof.
  intros Hr Hx Hq. unfold p_advance. pose proof (proj1 Hr) as ->.
  apply (move_sim _ _ Q); [|done]. exact (rep_store _ _ _ _ _ Hr Hq).
Qed.

Lemma fail_sim p h h' Q x serr :
  rep p h -> x ∈ queues h Q -> kh_fail_request x serr h = Ok h' ->
  exists p', p_fail_request lists x serr p = Ok p' /\ rep p' h'.
Proof.
  intros Hr Hx E. unfold kh_fail_request in E. apply bind_ok in E as (q & Hq & E).
  injection E as <-. unfold p_fail_request. pose proof (proj1 Hr) as ->.
  change (load_sr (erase h) x) with (load_sr h x). rewrite Hq. cbn [mbind outcome_bind].
  apply (move_sim _ _ Q); [|done]. exact (rep_store _ _ _ _ _ Hr Hq).
Qed.

Definition sim_op (pop : Z -> phelper W G -> outcome (phelper W G * Z))
    (op : Z -> helper W G -> outcome (helper W G * Z)) (Q : queue) : Prop :=
  forall p h x h' r, rep p h -> x ∈ queues h Q -> op x h = Ok (h', r) ->
    exists p', pop x p = Ok (p', r) /\ rep p' h'.

(** One step of both programs: the next call is the same on both sides. *)
Ltac sim_step :=
  match goal with
  | E : mbind _ ?m = Ok _ |- context [mbind _ ?m'] =>
      change m' with m; let Em := fresh "Em" in
      destruct m as [?|] eqn:Em; [cbn [mbind outcome_bind] in E |- *|discriminate E]
  end.

Lemma load_store_sr h x q : load_sr (store_sr h x q) x = Ok q.
Proof. unfold load_sr, store_sr. simpl. by rewrite lookup_insert_eq. Qed.

(** The result of a call on the GPU is stored in the request. *)
Lemma rep_stay p h x q q0 g :
  rep p h -> load_sr h x = Ok q0 ->
  rep (p_core p (store_sr (set_gpu (erase h) g) x q)) (store_sr (set_gpu h g) x q).
Proof. intros Hr Hx. exact (rep_store _ _ x q q0 (rep_gpu p h g Hr) Hx). Qed.

(** The end of an operation that has called a function of the service. *)
Lemma finish_sim p h Q Q' x q q0 g r st h' (ret : Z) :
  rep p h -> x ∈ queues h Q -> load_sr h x = Ok q0 ->
  (if truth r then h ← kh_fail_request x r (store_sr (set_gpu h g) x q); mret (h, ret)
   else mret (add_list (del_list (store_sr (store_sr (set_gpu h g) x q) x
                (with_status q st (sr_errcode q))) x) x Q', ret)) = Ok (h', ret) ->
  exists p', (p ← (if truth r then p_fail_request lists x r (p_core p (store_sr (set_gpu (erase h) g) x q))
                   else p_advance lists (p_core p (store_sr (set_gpu (erase h) g) x q)) x q st Q');
              mret (p, ret)) = Ok (p', ret) /\ rep p' h'.
Proof.
  intros Hr Hx Hq E. pose proof (rep_stay p h x q q0 g Hr Hq) as Hr1. destruct (truth r).
  - apply bind_ok in E as (h1 & E1 & E). injection E as <-.
    destruct (fail_sim _ _ _ Q x r Hr1 Hx E1) as (p' & Ep & Hr'). rewrite Ep. by exists p'.
  - injection E as <-.
    destruct (advance_sim _ _ Q Q' x q q st Hr1 Hx (load_store_sr _ _ _)) as (p' & Ep & Hr').
    rewrite Ep. by exists p'.
Qed.

(** Unfolds an operation on both sides, up to the load of the request. *)
Ltac sim_start Hr E :=
  pose proof (proj1 Hr) as Hc; rewrite Hc; sim_step.

Lemma request_alloc_mem_sim : sim_op (p_request_alloc_mem lists) kh_request_alloc_mem Q_init.
Proof.
  intros p h x h' r Hr Hx E. unfold kh_request_alloc_mem, p_request_alloc_mem in *.
  sim_start Hr E. sim_step. destruct a0 as [[g q] e].
  pose proof (rep_stay p h x q _ g Hr Em) as Hr1.
  destruct (truth e); injection E as <- <-; [by eexists|].
  destruct (advance_sim _ _ Q_init Q_memdone x q q KGPU_REQ_MEM_DONE Hr1 Hx (load_store_sr _ _ _))
    as (p' & Ep & Hr').
  rewrite Ep. by exists p'.
Qed.

Lemma launch_exec_sim : sim_op (p_launch_exec lists) kh_launch_exec Q_prepared.
Proof.
  intros p h x h' r Hr Hx E. unfold kh_launch_exec, p_launch_exec in *.
  sim_start Hr E. sim_step. sim_step. destruct a1 as [[g q] e].
  assert (r = 0) as -> by (destruct (truth e); [apply bind_ok in E as (? & _ & E)|]; by injection E).
  by apply (finish_sim p h Q_prepared Q_running x q a g e KGPU_REQ_RUNNING).
Qed.

Lemma post_exec_sim : sim_op (p_post_exec lists) kh_post_exec Q_running.
Proof.
  intros p h x h' r Hr Hx E. unfold kh_post_exec, p_post_exec in *.
  sim_start Hr E. sim_step. destruct a0 as [g fin].
  pose proof (rep_gpu p h g Hr) as Hr1.
  destruct (truth fin); [|injection E as <- <-; by eexists].
  sim_step. sim_step. destruct a1 as [[g2 q] e].
  assert (r = e) as -> by (destruct (truth e); [apply bind_ok in E as (? & _ & E)|]; by injection E).
  by apply (finish_sim _ _ Q_running Q_post_exec x q a g2 e KGPU_REQ_POST_EXEC _ e Hr1).
Qed.

Lemma finish_post_sim : sim_op (p_finish_post lists) kh_finish_post Q_post_exec.
Proof.
  intros p h x h' r Hr Hx E. unfold kh_finish_post, p_finish_post in *.
  sim_start Hr E. sim_step. destruct a0 as [g fin].
  pose proof (rep_gpu p h g Hr) as Hr1.
  destruct (truth fin); injection E as <- <-; [|by eexists].
  destruct (advance_sim _ _ Q_post_exec Q_done x a a KGPU_REQ_DONE Hr1 Hx Em) as (p' & Ep & Hr').
  rewrite Ep. by exists p'.
Qed.

Lemma prepare_exec_sim : sim_op (p_prepare_exec lists) kh_prepare_exec Q_memdone.
Proof.
  intros p h x h' r Hr Hx E. unfold kh_prepare_exec, p_prepare_exec in *.
  sim_start Hr E. sim_step. destruct a0 as [[g q] e].
  pose proof (rep_stay p h x q _ g Hr Em) as Hr1.
  destruct (truth e); [injection E as <- <-; by eexists|].
  sim_step. sim_step. destruct a1 as [[g2 q2] e2].
  assert (r = e2) as -> by (destruct (truth e2); [apply bind_ok in E as (? & _ & E)|]; by injection E).
  by apply (finish_sim _ _ Q_memdone Q_prepared x q2 q g2 e2 KGPU_REQ_PREPARED _ e2 Hr1 Hx
              (load_store_sr _ _ _)).
Qed.

(** ** Items come and go *)

Lemma blocks_ok_mono live live' : live' ⊆ live -> blocks_ok lists live -> blocks_ok lists live'.
Proof. intros Hs [H3 H4 H5]. split; intros; eauto. Qed.

Lemma free_sim p h x :
  rep p h -> x ∈ dom (sritems h) -> (forall i, x ∉ contents h i) ->
  rep (p_free_service_request p x) (kh_free_service_request h x).
Proof.
  intros [Hc Hl] Hx Hno. unfold p_free_service_request. rewrite Hc. split; [done|]. simpl.
  rewrite dom_delete_L.
  assert (Hne : forall j y i, y ∈ dom (sritems h) -> y <> x -> node_of i x <> node_of j y).
  { intros j y i Hy Hyx E. by apply (node_of_inj lists (dom (sritems h))) in E as [-> _]; [|apply Hl|..]. }
  eapply (lists_rep_ext lists _ (contents h)); [|by intros []].
  eapply (lists_rep_frame lists (ph_nodes p) _ _ _ _ [list_of x; glist_of x] Hl).
  - intros q Hq. rewrite !lookup_delete_ne by set_solver. done.
  - intros i q Hq [j ->]%own_node.
    apply (footprint_node lists _ _ _ j i x Hl Hx) in Hq as [Hq _]. by apply (Hno i).
  - intros i y Hy. apply elem_of_difference. split; [by eapply lr_live|].
    intros ->%elem_of_singleton. by apply (Hno i).
  - intros i y [Hy Hyx%not_elem_of_singleton]%elem_of_difference.
    destruct (lr_nodes _ _ _ _ Hl i y Hy) as [Hnn Hs]. split; [done|].
    rewrite !lookup_delete_ne; [done | apply (Hne i y None Hy Hyx) | apply (Hne i y (Some Q_init) Hy Hyx)].
  - eapply blocks_ok_mono; [|apply Hl]. set_solver.
Qed.

Lemma service_done_sim : sim_op (p_service_done) kh_service_done Q_done.
Proof.
  intros p h x h' r Hr Hx E. unfold kh_service_done, p_service_done in *.
  sim_start Hr E. unfold kh_send_response in *.
  change (devfd (erase h)) with (devfd h).
  destruct (sys_write (devfd h) _ 8) as [[w rw]|] eqn:Ew; [|discriminate E].
  cbn [mbind outcome_bind] in *. destruct (rw <? 0); [discriminate E|]. cbn in E |- *.
  pose proof (rep_dev p h w Hr) as Hr1.
  destruct (del_list_sim _ _ Q_done x Hr1 Hx) as (n & -> & Hr2). cbn [mbind outcome_bind].
  unfold list_del_item in E. case_bool_decide as Hall; [|discriminate E]. cbn in Hall, E.
  destruct (lists_rep_del lists Hheads n _ _ None x (proj2 Hr2) Hall) as (n2 & E2 & Hn2).
  unfold p_del at 1. cbn [ph_nodes ph_core]. simpl in E2. rewrite E2. cbn [mbind outcome_bind mret outcome_ret ph_core].
  cbn [gpu hostvma erase set_dev set_queues set_all del_list] in E |- *.
  destruct (be_free_device_mem (gpu h) (hostvma h) a) as [[g q]|]; [|discriminate E].
  cbn [mbind outcome_bind] in *. destruct (be_free_stream g q) as [g2|]; [|discriminate E].
  cbn [mbind outcome_bind] in *. injection E as <- <-. eexists. split; [done|].
  apply (free_sim (mk_ph n2 (erase (set_gpu (set_all (del_list (set_dev h w) x)
           (remove_item (all_reqs h) x)) g2)))).
  - split; [done|]. apply (lists_rep_ext lists _ _ _ _ Hn2). by intros [].
  - simpl. eapply queue_item_live; [apply Hr | done].
  - intros [Q|]; simpl; rewrite elem_of_remove_item; tauto.
Qed.

(** A new item: its nodes are linked to themselves and it is in no list. *)
Definition fresh_item nodes h (x : Z) : Prop :=
  x ∈ dom (sritems h) /\ (forall i, x ∉ contents h i) /\ dll nodes (list_of x) [].

Lemma alloc_sim p h h' s :
  rep p h -> kh_alloc_service_request h = (h', s) ->
  exists p', p_alloc_service_request p = Ok (p', s) /\ rep p' h' /\
    devfd h' = devfd h /\
    match s with Some x => fresh_item (ph_nodes p') h' x | None => True end.
Proof.
  intros [Hc Hl] E. unfold kh_alloc_service_request in E. unfold p_alloc_service_request.
  unfold kh_alloc_service_request. rewrite Hc. cbn [erase set_queues set_all sr_mallocs sritems].
  destruct (malloc (sr_mallocs h) (dom (sritems h))) as [x|] eqn:Em; injection E as <- <-;
    [|by eexists].
  destruct (malloc_block _ _ _ Em (lr_blocks _ _ _ _ Hl)) as [Hfresh Hb].
  assert (Hxl : x ∈ {[x]} ∪ dom (sritems h)) by set_solver.
  destruct (init_two_nodes (ph_nodes p) (list_of x) (glist_of x)) as (n1 & n2 & E1 & E2 & D1 & D2 & Hf).
  { by apply (node_of_pos lists _ (Some Q_init) x Hb). }
  { by apply (node_of_pos lists _ None x Hb). }
  { intros E. apply (node_of_inj lists _ None (Some Q_init) x x Hb) in E as [_ [Hn _]]; [|done..].
    discriminate (Hn eq_refl). }
  cbn zeta. rewrite E1. cbn [mbind outcome_bind]. rewrite E2. cbn [mbind outcome_bind].
  assert (Hno : forall i, x ∉ contents h i) by (intros i Hi; by apply Hfresh; eapply lr_live).
  eexists. split; [done|]. split; [|split; [done|]].
  - split; [done|]. simpl. rewrite dom_insert_L. apply (lists_rep_ext lists _ (contents h)); [|by intros []].
    by apply (lists_rep_new lists Hheads (ph_nodes p)).
  - split_and!; [simpl; set_solver | | done]. intros [Q|]; [apply (Hno (Some Q)) | apply (Hno None)].
Qed.

(** Adding an item to the list of a state. *)
Lemma add_list_sim n h x Q :
  rep (mk_ph n (erase h)) h -> x ∈ dom (sritems h) -> (forall R, x ∉ queues h R) ->
  exists p', p_add_tail (mk_ph n (erase h)) (list_of x) (lists (Some Q)) = Ok p' /\
    rep p' (add_list h x Q).
Proof.
  intros [_ Hl] Hx Hno.
  destruct (lists_rep_add lists Hheads n (contents h) _ (Some Q) x Hl Hx) as (n' & E & Hn & _).
  { intros [R|] HR; [apply Hno | discriminate (proj2 HR eq_refl)]. }
  unfold p_add_tail. simpl in *. rewrite E. eexists. split; [done|]. split; [done|].
  apply (lists_rep_ext lists _ _ _ _ Hn). intros [R|]; unfold upd; simpl; [|done].
  destruct (decide (R = Q)) as [->|]; [by rewrite decide_True|]. rewrite decide_False; congruence.
Qed.

Lemma add_all_sim n h x :
  rep (mk_ph n (erase h)) h -> fresh_item n h x ->
  let h1 := set_all h (all_reqs h ++ [x]) in
  exists n1, p_add_tail (mk_ph n (erase h)) (glist_of x) (lists None) = Ok (mk_ph n1 (erase h1)) /\
    rep (mk_ph n1 (erase h1)) h1 /\ dll n1 (list_of x) [].
Proof.
  intros [_ Hl] (Hx & Hno & Hself) h1.
  destruct (lists_rep_add lists Hheads n (contents h) _ None x Hl Hx) as (n1 & En & Hn & Hf).
  { intros j _. apply Hno. }
  unfold p_add_tail. simpl in *. rewrite En. exists n1. split; [done|]. split.
  - split; [done|]. apply (lists_rep_ext lists _ _ _ _ Hn). by intros [].
  - apply (dll_frame _ _ _ _ _ Hself Hf). intros q ->%list_elem_of_singleton.
    apply not_elem_of_cons. split.
    + intros E. apply (node_of_inj lists _ (Some Q_init) None x x (lr_blocks _ _ _ _ Hl)) in E
        as [_ [_ Hn1]]; [|done..]. discriminate (Hn1 eq_refl).
    + intros Hin. apply (footprint_node lists _ _ _ (Some Q_init) None x Hl Hx) in Hin as [Hin _].
      by apply (Hno None).
Qed.

(** A request that fails at once: its node is linked to itself. *)
Lemma fail_new_sim n h h' x serr :
  rep (mk_ph n (erase h)) h -> x ∈ dom (sritems h) -> (forall R, x ∉ queues h R) ->
  dll n (list_of x) [] -> kh_fail_request x serr h = Ok h' ->
  exists p', p_fail_request lists x serr (mk_ph n (erase h)) = Ok p' /\ rep p' h'.
Proof.
  intros Hr Hx Hno Hself E. unfold kh_fail_request, p_fail_request in *.
  apply bind_ok in E as (q & Hq & E). injection E as <-.
  change (load_sr (ph_core (mk_ph n (erase h))) x) with (load_sr h x). rewrite Hq. cbn [mbind outcome_bind].
  pose proof (rep_store _ _ x (with_status q KGPU_REQ_DONE serr) q Hr Hq) as Hr1.
  set (h1 := store_sr h x _) in *. assert (Hx1 : x ∈ dom (sritems h1)) by (simpl; set_solver).
  destruct (lists_rep_del_self lists Hheads n (contents h1) _ (Some Q_init) x (proj2 Hr1) Hx1)
    as (n1 & E1 & Hl1); [|done|].
  { intros [R|] HR; [apply Hno | discriminate (proj2 HR eq_refl)]. }
  unfold p_move, p_del. simpl in E1 |- *. rewrite E1. cbn [mbind outcome_bind].
  apply (add_list_sim n1 (del_list h1 x)).
  - split; [done|]. apply (lists_rep_ext lists _ _ _ _ Hl1). intros [R|]; [|done].
    apply remove_item_id, Hno.
  - done.
  - intros R. simpl. rewrite elem_of_remove_item. tauto.
Qed.

Lemma init_sim p h h' x kureq :
  rep p h -> fresh_item (ph_nodes p) h x -> kh_init_service_request x kureq h = Ok h' ->
  exists p', p_init_service_request lists x kureq p = Ok p' /\ rep p' h'.
Proof.
  destruct p as [n c]. intros Hr Hfr E. pose proof (proj1 Hr) as Hc. simpl in Hc. subst c.
  unfold kh_init_service_request, p_init_service_request in *.
  destruct (add_all_sim n h x Hr Hfr) as (n1 & -> & Hr1 & Hself). cbn [mbind outcome_bind].
  destruct Hfr as (Hx & Hno & _).
  set (h1 := set_all h (all_reqs h ++ [x])) in *.
  assert (Hq1 : forall R, x ∉ queues h1 R) by (intros R; apply (Hno (Some R))).
  assert (is_Some (sritems h1 !! x)) as [q0 Hq0] by by apply elem_of_dom.
  assert (Hload : load_sr h1 x = Ok q0) by (unfold load_sr; by rewrite Hq0).
  change (x ∈ dom (sritems h1)) in Hx.
  clearbody h1. sim_step. rename a into s.
  match type of E with context [store_sr h1 x ?q] =>
    pose proof (rep_store _ _ x q q0 Hr1 Hload) as Hr2; set (q1 := q) in * end.
  destruct (s =? NULL).
  - apply (fail_new_sim n1 (store_sr h1 x q1)); [done | simpl; set_solver | done..].
  - sim_step. sim_step. destruct a0 as [[g q2] e].
    injection E as <-.
    apply (add_list_sim n1 (store_sr (set_gpu (store_sr h1 x q1) g) x (with_status q2 KGPU_REQ_INIT 0))).
    + exact (rep_stay _ _ x _ _ g Hr2 (load_store_sr _ _ _)).
    + simpl. set_solver.
    + done.
Qed.

Lemma next_sim p h h' r :
  rep p h -> kh_get_next_service_request h = Ok (h', r) ->
  exists p', p_get_next_service_request lists p = Ok (p', r) /\ rep p' h'.
Proof.
  intros Hr E. unfold kh_get_next_service_request, p_get_next_service_request in *.
  pose proof (proj1 Hr) as Hc. rewrite Hc.
  rewrite (list_empty_dll _ _ _ (lr_dll _ _ _ _ (proj2 Hr) None)). cbn [mbind outcome_bind].
  replace (bool_decide (node_of None <$> contents h None = [])) with (bool_decide (all_reqs h = []))
    by (apply bool_decide_ext; simpl; by destruct (all_reqs h)).
  sim_step. destruct a as [w [err revents]].
  pose proof (rep_dev p h w Hr) as Hr1. change (set_dev (erase h) w) with (erase (set_dev h w)) in *.
  destruct (_ || _); [injection E as <- <-; by eexists|].
  destruct (_ && _); [|discriminate E].
  destruct (kh_alloc_service_request (set_dev h w)) as [h2 s] eqn:Ea.
  destruct (alloc_sim _ _ _ _ Hr1 Ea) as (p2 & -> & Hr2 & Hd & Hfr). cbn [mbind outcome_bind].
  destruct s as [x|]; [|injection E as <- <-; by eexists].
  pose proof (proj1 Hr2) as Hc2. rewrite Hc2. sim_step. destruct a as [w2 [[err2 errno] buf]].
  pose proof (rep_dev p2 h2 w2 Hr2) as Hr3.
  destruct Hfr as (Hx & Hno & Hself).
  destruct (err2 <=? 0).
  - destruct (_ || _); [|discriminate E]. injection E as <- <-. eexists. split; [done|].
    apply free_sim; [done | done |]. intros [Q|]; [apply (Hno (Some Q)) | apply (Hno None)].
  - sim_step. apply bind_ok in E as (h3 & E3 & E). injection E as <- <-.
    destruct (init_sim _ _ h3 x a Hr3) as (p' & -> & Hr'); [|done|by exists p'].
    split_and!; [done | | done]. intros [Q|]; [apply (Hno (Some Q)) | apply (Hno None)].
Qed.

(** ** The loops *)

(** The pointer that stands for a position of the loop over sequences. *)
Definition pos_ptr (Q : queue) (pos : option Z) : Z := from_option list_of (lists (Some Q)) pos.

Lemma next_in_split l x nx :
  next_in l x = Ok nx -> exists l1 l2, l = l1 ++ x :: l2 /\ nx = head l2.
Proof.
  induction l as [|y l IH]; simpl; [done|]. destruct (Z.eqb_spec y x) as [->|].
  - intros [= <-]. by exists [], l.
  - intros E. destruct (IH E) as (l1 & l2 & -> & ->). by exists (y :: l1), l2.
Qed.

(** Following [next] in the heap is taking the successor in the sequence. *)
Lemma load_next_sim p h Q x nx :
  rep p h -> next_in (queues h Q) x = Ok nx ->
  exists m, load (ph_nodes p) (list_of x) = Ok m /\ lh_next m = pos_ptr Q nx /\ x ∈ queues h Q.
Proof.
  intros [_ Hl] (l1 & l2 & E & ->)%next_in_split.
  pose proof (lr_dll _ _ _ _ Hl (Some Q)) as Hd. simpl in Hd. rewrite E, fmap_app, fmap_cons in Hd.
  destruct (dll_load_next _ _ _ _ _ Hd) as (m & Em & Hm). exists m. split; [done|]. split.
  - rewrite Hm. by destruct l2.
  - rewrite E. set_solver.
Qed.

Lemma load_head_sim p h Q :
  rep p h -> exists m, load (ph_nodes p) (lists (Some Q)) = Ok m /\
    lh_next m = pos_ptr Q (head (queues h Q)).
Proof.
  intros [_ Hl]. destruct (dll_load_first _ _ _ (lr_dll _ _ _ _ Hl (Some Q))) as (m & Em & Hm).
  exists m. split; [done|]. rewrite Hm. simpl. by destruct (queues h Q).
Qed.

(** The next node can be read whatever the loop does then. *)
Lemma load_pos_sim p h Q pos fuel op once h' r r' :
  rep p h ->
  for_each_safe_from (fun h => queues h Q) (fun _ x h => op x h) (fun r => (r =? 0) && once)
    fuel pos h r = Ok (h', r') ->
  exists m, load (ph_nodes p) (pos_ptr Q pos) = Ok m /\
    match pos with
    | Some x => exists nx, next_in (queues h Q) x = Ok nx /\ lh_next m = pos_ptr Q nx
    | None => True
    end.
Proof.
  intros Hr E. destruct pos as [x|].
  - destruct fuel; [done|]. simpl in E. apply bind_ok in E as (nx & Hn & _).
    destruct (load_next_sim p h Q x nx Hr Hn) as (m & ? & ? & _). eauto.
  - destruct (load_head_sim p h Q Hr) as (m & ? & _). eauto.
Qed.

Section pass.
Context (pop : Z -> phelper W G -> outcome (phelper W G * Z)).
Context (op : Z -> helper W G -> outcome (helper W G * Z)) (Q : queue) (once : bool).
Context (Hop : sim_op pop op Q).

Let ptr_body (pos : Z) (s : phelper W G * Z) : outcome ((phelper W G * Z) * bool) :=
  '(p, r) ← pop (list_entry pos sritem_fields 2) s.1; mret ((p, r), (r =? 0) && once).

Lemma item_address p h x : rep p h -> x ∈ queues h Q ->
  list_entry (list_of x) sritem_fields 2 = x /\ list_of x <> lists (Some Q).
Proof.
  intros [_ Hl] Hx. pose proof (lr_live _ _ _ _ Hl (Some Q) x Hx) as Hlive.
  pose proof (lr_blocks _ _ _ _ Hl) as Hb. split.
  - apply list_entry_list_of. destruct (bo_range _ _ Hb x Hlive) as [? Hs].
    rewrite size_sritem in Hs. unfold u64_range. lia.
  - by apply (node_of_head lists _ (Some Q) (Some Q) x Hb).
Qed.

Lemma pass_loop_sim fuel fuel' pos p h r m h' r' :
  rep p h -> load (ph_nodes p) (pos_ptr Q pos) = Ok m -> (fuel < fuel')%nat ->
  for_each_safe_from (fun h => queues h Q) (fun _ x h => op x h) (fun r => (r =? 0) && once)
    fuel pos h r = Ok (h', r') ->
  exists p', list_for_each_safe_loop (fun s => ph_nodes s.1) ptr_body fuel' (pos_ptr Q pos)
    (lh_next m) (lists (Some Q)) (p, r) = Ok (p', r') /\ rep p' h'.
Proof.
  revert fuel' pos p h r m. induction fuel as [|fuel IH]; intros fuel' pos p h r m Hr Hm Hf E;
    (destruct fuel' as [|fuel']; [lia|]); (destruct pos as [x|]; [|injection E as <- <-; exists p;
      cbn [list_for_each_safe_loop pos_ptr from_option]; by rewrite Z.eqb_refl]); [done|].
  cbn [for_each_safe_from] in E. apply bind_ok in E as (nx & Hn & E).
  destruct (load_next_sim p h Q x nx Hr Hn) as (m' & Hm' & Hnx & Hx).
  cbn [pos_ptr from_option] in Hm |- *. rewrite Hm' in Hm. injection Hm as ->.
  destruct (item_address p h x Hr Hx) as [Hent Hne].
  apply bind_ok in E as ([h1 r1] & E1 & E). destruct (Hop p h x h1 r1 Hr Hx E1) as (p1 & Ep & Hr1).
  assert (Hbody : ptr_body (list_of x) (p, r) = Ok ((p1, r1), (r1 =? 0) && once)).
  { unfold ptr_body. cbn [fst]. rewrite Hent, Ep. done. }
  cbn [list_for_each_safe_loop]. rewrite (proj2 (Z.eqb_neq _ _) Hne), Hbody.
  cbn [mbind outcome_bind].
  destruct ((r1 =? 0) && once) eqn:Hb; [injection E as <- <-; by exists p1|].
  destruct (load_pos_sim p1 h1 Q nx fuel op once h' r1 r' Hr1 E) as (m1 & Hm1 & _).
  cbn [fst]. rewrite Hnx, Hm1. cbn [mbind outcome_bind].
  apply (IH fuel' nx p1 h1 r1 m1 Hr1 Hm1); [lia | done].
Qed.

Lemma length_queue_size nodes h : lists_rep lists nodes (contents h) (dom (sritems h)) ->
  (length (queues h Q) <= size (sritems h))%nat.
Proof.
  intros Hl. pose proof (dll_items lists _ _ _ (Some Q) Hl) as Hnd. simpl in Hnd.
  rewrite <- size_dom, <- (size_list_to_set (C := gset Z) _ Hnd). apply subseteq_size.
  intros x Hx%elem_of_list_to_set. by eapply queue_item_live.
Qed.

Lemma process_sim p h h' r :
  rep p h -> __kh_process_request op Q once h = Ok (h', r) ->
  exists p', p_process_request lists pop Q once p = Ok (p', r) /\ rep p' h'.
Proof.
  intros Hr E. unfold __kh_process_request, for_each_safe in E.
  unfold p_process_request, list_for_each_safe. cbn [fst].
  destruct (load_head_sim p h Q Hr) as (m & Em & Hm). rewrite Em. cbn [mbind outcome_bind].
  destruct (load_pos_sim p h Q _ _ op once h' 0 r Hr E) as (m1 & Em1 & _).
  rewrite Hm, Em1. cbn [mbind outcome_bind].
  apply (pass_loop_sim (length (queues h Q)) _ _ p h 0 m1 h' r Hr Em1); [|done].
  rewrite (proj1 Hr). pose proof (length_queue_size _ _ (proj2 Hr)). simpl. lia.
Qed.

End pass.

(** One pass of the round, in both programs. *)
Ltac pass_step lem :=
  match goal with
  | E : mbind _ (__kh_process_request _ _ _ ?h) = Ok _, Hr : rep _ ?h |- _ =>
      let h1 := fresh "h" in let r1 := fresh "r" in let E1 := fresh "E" in
      apply bind_ok in E as ([h1 r1] & E1 & E);
      destruct (process_sim _ _ _ _ lem _ _ _ _ Hr E1) as (? & -> & ?);
      cbn [mbind outcome_bind]
  end.

Lemma process_all_sim p h h' :
  rep p h -> process_all h = Ok h' -> exists p', p_process_all lists p = Ok p' /\ rep p' h'.
Proof.
  intros Hr E. unfold process_all, p_process_all in *.
  pass_step service_done_sim. pass_step finish_post_sim. pass_step post_exec_sim.
  pass_step launch_exec_sim. pass_step prepare_exec_sim. pass_step request_alloc_mem_sim.
  injection E as <-. by eexists.
Qed.

Lemma main_loop_sim n p h h' :
  rep p h -> kh_main_loop n h = Ok h' -> exists p', p_main_loop lists n p = Ok p' /\ rep p' h'.
Proof.
  revert p h. induction n as [|n IH]; intros p h Hr E; simpl in *; [injection E as <-; by exists p|].
  apply bind_ok in E as (h1 & E1 & E). unfold kh_main_loop_body in E1.
  apply bind_ok in E1 as (h2 & E2 & E1). apply bind_ok in E1 as ([h3 r] & E3 & E1).
  injection E1 as <-.
  destruct (process_all_sim p h h2 Hr E2) as (p2 & -> & Hr2). cbn [mbind outcome_bind].
  destruct (next_sim p2 h2 h3 r Hr2 E3) as (p3 & -> & Hr3). cbn [mbind outcome_bind].
  by apply (IH p3 h3).
Qed.

End sim.

(** ** The program from its start *)

Lemma elem_of_all_lists i : i ∈ all_lists.
Proof. destruct i as [[]|]; unfold all_lists; set_solver. Qed.

Lemma static_heads_lookup lists i :
  heads_ok lists -> static_heads lists !! lists i = Some (LIST_HEAD (lists i)).
Proof.
  intros Hh. unfold static_heads. apply elem_of_list_to_map_1.
  - rewrite <- list_fmap_compose. apply NoDup_fmap_2_strong.
    + intros j k _ _ E. by apply (ho_inj _ Hh).
    + by apply (bool_decide_unpack _).
  - apply list_elem_of_fmap. exists i. split; [done | apply elem_of_all_lists].
Qed.

Lemma static_heads_rep {W G} lists (h : helper W G) :
  heads_ok lists -> (forall i, contents h i = []) -> sritems h = ∅ ->
  rep lists (mk_ph (static_heads lists) (erase h)) h.
Proof.
  intros Hh Hc Hi. split; [done|]. rewrite Hi, dom_empty_L. split.
  - intros i. rewrite Hc. pose proof (static_heads_lookup lists i Hh) as E.
    destruct (ho_range _ Hh i). split_and!; [apply NoDup_singleton | unfold NULL; set_solver by lia |].
    split; unfold next_of, prev_of; simpl; by rewrite E.
  - intros i x. rewrite Hc. set_solver.
  - intros Q R x. rewrite Hc. set_solver.
  - set_solver.
  - split; set_solver.
Qed.

Section theorems.
Context {W G : Type} `{DevFileSpec W, GpuLaws G, !ServiceCode G, !ServiceLaws G, MallocLaws}.
Context (lists : option queue -> Z) `{!MallocBlocks lists}.

(** C10: the helper as it is written, on [prev] and [next] pointers inside
    allocated items, refines the helper on sequences of requests.  Started
    with the static list heads, it runs any number of rounds without reading
    or writing through a NULL, dangling or wild node, none of its loops runs
    out of rounds, and after them every list in memory is a well-formed
    circular list that holds exactly the requests of the abstract list, in
    the same order. *)
Theorem pointer_helper_refines hb hv r g w n :
  heads_ok lists -> registry_wf r -> be_wf g -> (forall i, be_used g i = false) ->
  dev_ok w -> dev_out w = ∅ ->
  (forall kureq s, dev_gives kureq -> be_takes hb hv (new_request kureq s)) ->
  let h := helper_start hb hv r g w in
  exists p' h', p_main_loop lists n (mk_ph (static_heads lists) h) = Ok p' /\
    kh_main_loop n h = Ok h' /\ rep lists p' h'.
Proof.
  intros Hh Hr Hg Hu Hw Ho Ht h.
  destruct (loop_wf h n (helper_start_wf hb hv r g w Hr Hg Hu Hw Ho Ht)) as (h' & E & _).
  assert (Hrep : rep lists (mk_ph (static_heads lists) h) h).
  { apply (static_heads_rep lists h Hh); [by intros [] | done]. }
  destruct (main_loop_sim lists Hh n _ h h' Hrep E) as (p' & Ep & Hr'). by exists p', h'.
Qed.

End theorems.
