(* ===== verification/OpenCLInit.v ===== *)
(** * Start and end of the OpenCL back end and of the helper
      (src/kgpu/src/gpuSpace/openCLOperations.c, src/kgpu/src/userSpace/helper.c)

    The OpenCL runtime data is one heap block behind the global
    [openCLData]; the results of the OpenCL calls, of [malloc] and of the
    system calls are arguments.  [kh_init] sets up the helper's buffers and
    the back end, [main] runs the loop after it. *)

From S2P Require Import Prelude KgpuDefs ListHead Ranges GpuOps ItemList Services.
From S2P Require Import Helper HelperInv HelperLoop HelperThms Log.

Definition CL_SUCCESS : Z := 0.

(** [openCLRuntimeData]; the device table is a block of its own. *)
Record openCLRuntimeData : Type := mk_cl_data {
  cl_context : Z;
  cl_devices : kptr Z
}.

(** The globals of the file. *)
Record cl_state : Type := mk_cl {
  openCLData : kptr openCLRuntimeData;
  initialized : Z;
  deviceBuffer : Z;
  deviceBufferForVMA : Z;
  cl_gpu : gpu_state
}.

Definition set_data (s : cl_state) (p : kptr openCLRuntimeData) : cl_state :=
  mk_cl p (initialized s) (deviceBuffer s) (deviceBufferForVMA s) (cl_gpu s).

Definition set_initialized (s : cl_state) (i : Z) : cl_state :=
  mk_cl (openCLData s) i (deviceBuffer s) (deviceBufferForVMA s) (cl_gpu s).

(** The results of the calls of [initializeOpenCL], in order: statuses, and
    whether [malloc] succeeds; [ce_garbage] is what a new block holds. *)
Record cl_env : Type := mk_cl_env {
  ce_malloc_data : bool;
  ce_garbage : openCLRuntimeData;
  ce_count_platforms : Z;
  ce_malloc_platforms : bool;
  ce_get_platforms : Z;
  ce_count_devices : Z;
  ce_malloc_devices : bool;
  ce_get_devices : Z;
  ce_context : Z;
  ce_context_status : Z
}.

(** The table of platforms and the status. *)
Definition initializePlatform (env : cl_env) : kptr unit * Z :=
  if negb (ce_count_platforms env =? CL_SUCCESS) then (KNull, ce_count_platforms env)
  else if negb (ce_malloc_platforms env) then (KNull, NO_SPACE_ON_HOST)
  else if negb (ce_get_platforms env =? CL_SUCCESS) then (KLive tt, ce_get_platforms env)
  else (KLive tt, ce_get_platforms env).

Definition initializeDevice (env : cl_env) (d : openCLRuntimeData) : openCLRuntimeData * Z :=
  if negb (ce_count_devices env =? CL_SUCCESS) then (d, ce_count_devices env)
  else if negb (ce_malloc_devices env) then (mk_cl_data (cl_context d) KNull, NO_SPACE_ON_HOST)
  else (mk_cl_data (cl_context d) (KLive 1), ce_get_devices env).

Definition initializeContext (env : cl_env) (d : openCLRuntimeData) : openCLRuntimeData * Z :=
  (mk_cl_data (ce_context env) (cl_devices d), ce_context_status env).

(** The state, the status, and the local [platforms] when the function
    returns: a live table is lost. *)
Definition initializeOpenCL (env : cl_env) (s : cl_state) : outcome (cl_state * Z * kptr unit) :=
  s ← (if negb (is_null (openCLData s)) then p ← kfree (openCLData s); mret (set_data s p)
       else mret s);
  if negb (ce_malloc_data env) then mret (set_data s KNull, NO_SPACE_ON_HOST, KNull)
  else
    let d := ce_garbage env in
    let '(platforms, status) := initializePlatform env in
    if negb (status =? CL_SUCCESS) then
      p ← kfree (KLive d); mret (set_data s p, status, platforms)
    else
      let '(d, status) := initializeDevice env d in
      if negb (status =? CL_SUCCESS) then
        platforms ← kfree platforms;
        p ← kfree (KLive d); mret (set_data s p, status, platforms)
      else
        let '(d, status) := initializeContext env d in
        if negb (status =? CL_SUCCESS) then
          devs ← kfree (cl_devices d);
          platforms ← kfree platforms;
          p ← kfree (KLive (mk_cl_data (cl_context d) devs)); mret (set_data s p, status, platforms)
        else mret (set_data s (KLive d), status, platforms).

(** The results of [clCreateBuffer] (object and status) and of the eight
    calls of [clCreateCommandQueue]. *)
Record cl_objects : Type := mk_cl_objects {
  co_buffer : Z;
  co_buffer_status : Z;
  co_buffer_vma : Z;
  co_buffer_vma_status : Z;
  co_queues : list Z
}.

(** [if (!initialized) { ... initialized = 1; }]; the flag is false when the
    initialisation failed and the caller returns. *)
Definition ensure_initialized (env : cl_env) (s : cl_state) : outcome (cl_state * bool) :=
  if truth (initialized s) then mret (s, true)
  else
    '(s, status, _) ← initializeOpenCL env s;
    if negb (status =? CL_SUCCESS) then mret (s, false) else mret (set_initialized s 1, true).

(** One round of the loop that creates the queues. *)
Definition create_queue (queues : list Z) (g : outcome gpu_state) (i : nat) : outcome gpu_state :=
  g ← g;
  q ← of_option OutOfBounds (queues !! i);
  st ← array_set (streams g) (Z.of_nat i) q;
  u ← array_set (streamuses g) (Z.of_nat i) 0;
  mret (mk_gpu st u (pin_calls g)).

Definition gpu_init (env : cl_env) (co : cl_objects) (s : cl_state) : outcome cl_state :=
  '(s, go) ← ensure_initialized env s;
  if negb go then mret s
  else
    d ← deref (openCLData s);
    let s := mk_cl (openCLData s) (initialized s) (co_buffer co) (deviceBufferForVMA s) (cl_gpu s) in
    if negb (co_buffer_status co =? CL_SUCCESS) then mret s
    else
      let s := mk_cl (openCLData s) (initialized s) (deviceBuffer s) (co_buffer_vma co) (cl_gpu s) in
      if negb (co_buffer_vma_status co =? CL_SUCCESS) then mret s
      else
        _ ← deref (cl_devices d);
        g ← foldl (create_queue (co_queues co)) (Ok (cl_gpu s)) (seq 0 (Z.to_nat MAX_STREAM_NR));
        mret (mk_cl (openCLData s) (initialized s) (deviceBuffer s) (deviceBufferForVMA s) g).

(** The statuses of the two calls of [clReleaseMemObject]; errors of
    [clReleaseCommandQueue] are only printed. *)
Definition gpu_finit (rel rel_vma : Z) (s : cl_state) : outcome cl_state :=
  if negb (rel =? CL_SUCCESS) then mret s
  else if negb (rel_vma =? CL_SUCCESS) then mret s
  else p ← kfree (openCLData s); mret (set_data s p).

(** The buffer that is created over [tmp_memory_test]: the object, the
    status of its creation, and the host pointer with its status. *)
Record cl_pinned : Type := mk_cl_pinned {
  cp_object : Z;
  cp_status : Z;
  cp_host : Z;
  cp_host_status : Z
}.

(** The return value; [None] is the [return] without a value. *)
Definition gpu_alloc_pinned_mem (env : cl_env) (cp : cl_pinned) (s : cl_state) :
    outcome (cl_state * option Z) :=
  '(s, go) ← (if is_null (openCLData s) then ensure_initialized env s else mret (s, true));
  if negb go then mret (s, None)
  else
    _ ← deref (openCLData s);
    if negb (cp_status cp =? CL_SUCCESS) then mret (s, Some (cp_object cp))
    else if negb (cp_host_status cp =? CL_SUCCESS) then mret (s, Some NULL)
    else mret (s, Some (cp_host cp)).

(** ** The start of the helper *)

(** The results of [open], [mlock], [mmap] and [ioctl]. *)
Record kh_env : Type := mk_kh_env {
  ke_open : Z;
  ke_mlock : Z;
  ke_mmap : Z;
  ke_ioctl : Z
}.

Definition MAP_FAILED : Z := 2 ^ 64 - 1.

Definition _safe_syscall (r : Z) : outcome Z := if r <? 0 then Fault Abort else mret r.

(** [memset(p, 0, KGPU_BUF_SIZE)] of the buffer; the value is indeterminate
    when the allocation returned nothing. *)
Definition memset_buffer (p : option Z) : outcome Z :=
  match p with
  | None => Fault WildPointer
  | Some p => if p =? NULL then Fault NullDeref else mret p
  end.

(** [hostbuf] and [hostvma], and the state of the back end. *)
Definition kh_init (env : cl_env) (cp : cl_pinned) (co : cl_objects) (ke : kh_env) (s : cl_state) :
    outcome (kgpu_gpu_mem_info * kgpu_gpu_mem_info * cl_state) :=
  _ ← _safe_syscall (ke_open ke);
  '(s, pinnedMemory) ← gpu_alloc_pinned_mem env cp s;
  uva ← memset_buffer pinnedMemory;
  _ ← _safe_syscall (ke_mlock ke);
  s ← gpu_init env co s;
  if ke_mmap ke =? MAP_FAILED then Fault Abort
  else if ke_ioctl ke <? 0 then Fault Abort
  else mret (mk_mem_info uva KGPU_BUF_SIZE, mk_mem_info (ke_mmap ke) KGPU_BUF_SIZE, s).

(** [main] after the options: initialisation, services, and the first [n]
    rounds of the loop on a device that is already open. *)
Definition kh_main {W} `{DevFile W, ServiceCode gpu_state, Malloc, DynLink} (env : cl_env)
    (cp : cl_pinned) (co : cl_objects) (ke : kh_env) (service_lib_dir : list Z) (s : cl_state)
    (r : registry) (w : W) (n : nat) : outcome (helper W gpu_state) :=
  '(hb, hv, s) ← kh_init env cp co ke s;
  '(r, _) ← kh_load_all_services service_lib_dir r;
  kh_main_loop n (helper_start hb hv r (cl_gpu s) w).

(** ** Lemmas *)

Definition cl_start : cl_state := mk_cl KNull 0 0 0 (mk_gpu (repeat 0 8) (repeat 0 8) []).

(** All calls of the initialisation succeed. *)
Definition env_succeeds (env : cl_env) : bool :=
  ce_malloc_data env && (ce_count_platforms env =? CL_SUCCESS) && ce_malloc_platforms env &&
  (ce_get_platforms env =? CL_SUCCESS) && (ce_count_devices env =? CL_SUCCESS) &&
  ce_malloc_devices env && (ce_get_devices env =? CL_SUCCESS) &&
  (ce_context_status env =? CL_SUCCESS).

Lemma env_succeeds_true env :
  env_succeeds env = true ->
  ce_malloc_data env = true /\ ce_count_platforms env = 0 /\ ce_malloc_platforms env = true /\
  ce_get_platforms env = 0 /\ ce_count_devices env = 0 /\ ce_malloc_devices env = true /\
  ce_get_devices env = 0 /\ ce_context_status env = 0.
Proof. unfold env_succeeds, CL_SUCCESS. rewrite !andb_true_iff, !Z.eqb_eq. tauto. Qed.

(** A success leaves live runtime data. *)
Lemma initializeOpenCL_success env s :
  env_succeeds env = true -> openCLData s = KNull ->
  initializeOpenCL env s =
    Ok (set_data s (KLive (mk_cl_data (ce_context env) (KLive 1))), CL_SUCCESS, KLive tt).
Proof.
  intros (E1 & E2 & E3 & E4 & E5 & E6 & E7 & E8)%env_succeeds_true Hs.
  unfold initializeOpenCL, initializePlatform, initializeDevice, initializeContext.
  rewrite Hs, E1, E2, E3, E4, E5, E6. simpl. rewrite E7. simpl. by rewrite E8.
Qed.

(** A failure after the first allocation leaves a dangling pointer. *)
Lemma initializeOpenCL_failure env s :
  env_succeeds env = false -> ce_malloc_data env = true -> openCLData s = KNull ->
  exists s' status platforms, initializeOpenCL env s = Ok (s', status, platforms) /\
    status <> CL_SUCCESS /\ openCLData s' = KFreed /\ initialized s' = initialized s.
Proof.
  intros Hf Hm Hs. unfold env_succeeds in Hf. rewrite Hm in Hf.
  unfold initializeOpenCL, initializePlatform, initializeDevice, initializeContext, CL_SUCCESS in *.
  rewrite Hs, Hm. simpl.
  destruct (Z.eqb_spec (ce_count_platforms env) 0) as [E1|E1]; simpl.
  2:{ rewrite (proj2 (Z.eqb_neq _ _) E1). simpl. by eexists _, _, _. }
  destruct (ce_malloc_platforms env); simpl; [|by eexists _, _, _].
  destruct (Z.eqb_spec (ce_get_platforms env) 0) as [E2|E2]; simpl.
  2:{ rewrite (proj2 (Z.eqb_neq _ _) E2). simpl. by eexists _, _, _. }
  rewrite E2. simpl.
  destruct (Z.eqb_spec (ce_count_devices env) 0) as [E3|E3]; simpl.
  2:{ rewrite (proj2 (Z.eqb_neq _ _) E3). simpl. by eexists _, _, _. }
  destruct (ce_malloc_devices env); simpl; [|by eexists _, _, _].
  destruct (Z.eqb_spec (ce_get_devices env) 0) as [E4|E4]; simpl; [|by eexists _, _, _].
  destruct (Z.eqb_spec (ce_context_status env) 0) as [E5|E5]; simpl; [|by eexists _, _, _].
  revert Hf. by rewrite ?E1, ?E2, ?E3, ?E4, ?E5.
Qed.

(** The queues of the eight streams. *)
Lemma create_queues_wf queues g :
  (8 <= length queues)%nat -> gpu_wf g ->
  exists g', foldl (create_queue queues) (Ok g) (seq 0 (Z.to_nat MAX_STREAM_NR)) = Ok g' /\
    gpu_wf g' /\ forall i, stream_used g' i = false.
Proof.
  intros Hq Hg.
  assert (Hgen : forall n k g, (n + k <= 8)%nat -> gpu_wf g ->
    (forall i, 0 <= i < Z.of_nat k -> nthZ (streamuses g) i = 0) ->
    exists g', foldl (create_queue queues) (Ok g) (seq k n) = Ok g' /\ gpu_wf g' /\
      forall i, 0 <= i < Z.of_nat (n + k) -> nthZ (streamuses g') i = 0).
  { clear g Hg. induction n as [|n IH]; intros k g Hk Hg Hz; [by exists g|].
    destruct (lookup_lt_is_Some_2 queues k) as [q Hqk]; [lia|].
    pose proof Hg as [Hs Hu]. unfold MAX_STREAM_NR in *.
    cbn [seq foldl create_queue mbind outcome_bind]. rewrite Hqk. cbn [of_option mbind outcome_bind].
    rewrite !array_set_ok by lia. cbn [mbind outcome_bind mret outcome_ret].
    destruct (IH (S k) (mk_gpu (<[Z.to_nat (Z.of_nat k) := q]> (streams g))
      (<[Z.to_nat (Z.of_nat k) := 0]> (streamuses g)) (pin_calls g))) as (g' & E & W & Z'); [lia| | |].
    - split; simpl; by rewrite length_insert.
    - intros i Hi. simpl. rewrite nthZ_insert by lia. case_bool_decide; [done|]. apply Hz. lia.
    - exists g'. split; [done|]. split; [done|]. intros i Hi. apply Z'. lia. }
  destruct (Hgen 8%nat 0%nat g) as (g' & E & W & Z'); [lia | done | intros; lia|].
  exists g'. split; [done|]. split; [done|]. intros i. unfold stream_used.
  destruct (valid_stream i) eqn:Hv; [|done]. apply valid_stream_true in Hv. unfold MAX_STREAM_NR in Hv.
  by rewrite Z' by lia.
Qed.

(** The buffers and queues could be created. *)
Definition objects_ok (co : cl_objects) : Prop :=
  co_buffer_status co = CL_SUCCESS /\ co_buffer_vma_status co = CL_SUCCESS /\
  (8 <= length (co_queues co))%nat.

(** The pinned buffer and the system calls. *)
Definition calls_ok (cp : cl_pinned) (ke : kh_env) : Prop :=
  cp_status cp = CL_SUCCESS /\ cp_host_status cp = CL_SUCCESS /\ cp_host cp <> NULL /\
  0 <= ke_open ke /\ 0 <= ke_mlock ke /\ ke_mmap ke <> MAP_FAILED /\ 0 <= ke_ioctl ke.

Lemma kh_init_success env cp co ke :
  env_succeeds env = true -> objects_ok co -> calls_ok cp ke ->
  exists s, kh_init env cp co ke cl_start =
      Ok (mk_mem_info (cp_host cp) KGPU_BUF_SIZE, mk_mem_info (ke_mmap ke) KGPU_BUF_SIZE, s) /\
    gpu_wf (cl_gpu s) /\ forall i, stream_used (cl_gpu s) i = false.
Proof.
  intros He (O1 & O2 & O3) (P1 & P2 & P3 & K1 & K2 & K3 & K4). unfold kh_init, _safe_syscall.
  rewrite (proj2 (Z.ltb_ge _ _) K1). cbn [mbind outcome_bind mret outcome_ret].
  unfold gpu_alloc_pinned_mem, ensure_initialized. cbn [openCLData cl_start is_null initialized truth Z.eqb negb].
  rewrite initializeOpenCL_success by done. cbn -[gpu_init _safe_syscall].
  rewrite P1, P2. cbn -[gpu_init _safe_syscall]. rewrite (proj2 (Z.eqb_neq _ _) P3).
  cbn -[gpu_init]. rewrite (proj2 (Z.ltb_ge _ _) K2). cbn [mbind outcome_bind mret outcome_ret].
  unfold gpu_init, ensure_initialized. simpl initialized. cbn [truth Z.eqb negb mbind outcome_bind].
  cbn -[create_queue seq MAX_STREAM_NR]. rewrite O1, O2. cbn -[create_queue seq MAX_STREAM_NR].
  destruct (create_queues_wf (co_queues co) (mk_gpu (repeat 0 8) (repeat 0 8) []))
    as (g' & E & W & U); [done | by vm_compute|].
  cbn [repeat] in E. rewrite E. cbn [mbind outcome_bind mret outcome_ret].
  rewrite (proj2 (Z.eqb_neq _ _) K3), (proj2 (Z.ltb_ge _ _) K4). eexists. split; [done|]. done.
Qed.

(** ** Theorems *)

(** When [initializeOpenCL] fails after its first allocation it frees
    [openCLData] and keeps the pointer: calling it again frees the block a
    second time, and [gpu_alloc_pinned_mem], which takes a pointer that is
    not null for an initialised one, reads the freed block. *)
Theorem opencl_failed_init_dangles env s :
  env_succeeds env = false -> ce_malloc_data env = true -> openCLData s = KNull ->
  exists s' status platforms, initializeOpenCL env s = Ok (s', status, platforms) /\
    status <> CL_SUCCESS /\
    (forall env', initializeOpenCL env' s' = Fault DoubleFree) /\
    (forall env' cp, gpu_alloc_pinned_mem env' cp s' = Fault WildPointer).
Proof.
  intros Hf Hm Hs. destruct (initializeOpenCL_failure env s Hf Hm Hs) as (s' & st & pl & E & Hst & Hd & _).
  exists s', st, pl. split; [done|]. split; [done|]. split.
  - intros env'. unfold initializeOpenCL. by rewrite Hd.
  - intros env' cp. unfold gpu_alloc_pinned_mem. rewrite Hd. cbn [is_null mbind outcome_bind mret outcome_ret negb].
    by rewrite Hd.
Qed.

(** After [gpu_finit] the runtime data is freed but still marked as
    initialised, so that a second [gpu_init] reads the freed block. *)
Theorem opencl_reinit_after_finit_faults env co s d :
  openCLData s = KLive d -> initialized s = 1 ->
  exists s', gpu_finit CL_SUCCESS CL_SUCCESS s = Ok s' /\ gpu_init env co s' = Fault WildPointer.
Proof.
  intros Hd Hi. unfold gpu_finit. simpl. rewrite Hd. simpl. eexists. split; [done|].
  unfold gpu_init, ensure_initialized. simpl. by rewrite Hi.
Qed.

Section main.
Context {W : Type} `{DevFileSpec W, !ServiceCode gpu_state, !ServiceLaws gpu_state, MallocLaws, LibraryLaws}.

(** C22: when the calls into OpenCL and Linux succeed at the start, the helper
    runs.  [kh_init] leaves the pinned buffer of OpenCL and the mapping of the
    device file, each of the size KGPU_BUF_SIZE, as [hostbuf] and [hostvma],
    and eight free streams; the libraries of the directory load into a
    well-formed registry whatever of them fails to load (under the conventions
    of [LibraryLaws] for a library); and any number of rounds of the main loop
    then returns with the invariant, on these buffers and this registry. *)
Theorem kh_main_runs env cp co ke dir ms w n :
  env_succeeds env = true -> objects_ok co -> calls_ok cp ke -> NoDup (omap id ms) ->
  dev_ok w -> dev_out w = ∅ ->
  let hb := mk_mem_info (cp_host cp) KGPU_BUF_SIZE in
  let hv := mk_mem_info (ke_mmap ke) KGPU_BUF_SIZE in
  exists s r e h,
    kh_init env cp co ke cl_start = Ok (hb, hv, s) /\
    gpu_wf (cl_gpu s) /\ (forall i, stream_used (cl_gpu s) i = false) /\
    kh_load_all_services dir (mk_registry [] ∅ ∅ ms) = Ok (r, e) /\ registry_wf r /\
    kh_main env cp co ke dir cl_start (mk_registry [] ∅ ∅ ms) w n = Ok h /\
    helper_wf h /\ hostbuf h = hb /\ hostvma h = hv /\ srv_reg h = r.
Proof.
  intros He Ho Hc Hms Hw Hout hb hv. unfold kh_main.
  destruct (kh_init_success env cp co ke He Ho Hc) as (s & Ei & Hg & Hu).
  destruct (load_all_inv dir ms Hms) as (r & e & El & Hr).
  assert (Hwf : helper_wf (helper_start hb hv r (cl_gpu s) w)) by (by apply helper_start_wf).
  destruct (loop_wf (helper_start hb hv r (cl_gpu s) w) n Hwf) as (h & E & W').
  pose proof (loop_globals n _ h Hwf E) as Eg. injection Eg as E1 E2 E3.
  exists s, r, e, h. split_and!; try done. rewrite Ei. cbn [mbind outcome_bind]. rewrite El.
  cbn [mbind outcome_bind]. exact E.
Qed.

End main.

(** *** Witnesses *)

Definition cl_env_good : cl_env :=
  mk_cl_env true (mk_cl_data 0 KNull) 0 true 0 0 true 0 900 0.

(** No device is found. *)
Definition cl_env_no_device : cl_env :=
  mk_cl_env true (mk_cl_data 0 KNull) 0 true 0 (-1) true 0 900 0.

Lemma opencl_failed_init_dangles_witness :
  exists s' status platforms, initializeOpenCL cl_env_no_device cl_start = Ok (s', status, platforms) /\
    initializeOpenCL cl_env_good s' = Fault DoubleFree.
Proof.
  destruct (opencl_failed_init_dangles cl_env_no_device cl_start) as (s' & st & pl & E & _ & H & _);
    [reflexivity..|].
  exists s', st, pl. split; [exact E | apply H].
Defined.

Definition co_good : cl_objects := mk_cl_objects 501 0 502 0 [1; 2; 3; 4; 5; 6; 7; 8].

Definition cl_running : cl_state :=
  mk_cl (KLive (mk_cl_data 900 (KLive 1))) 1 501 502 (mk_gpu [1; 2; 3; 4; 5; 6; 7; 8] (repeat 0 8) []).

Lemma opencl_reinit_after_finit_faults_witness :
  exists s', gpu_finit CL_SUCCESS CL_SUCCESS cl_running = Ok s' /\
    gpu_init cl_env_good co_good s' = Fault WildPointer.
Proof.
  apply (opencl_reinit_after_finit_faults cl_env_good co_good cl_running
    (mk_cl_data 900 (KLive 1))); reflexivity.
Defined.

Definition cp_good : cl_pinned := mk_cl_pinned 600 0 4096 0.

Definition ke_good : kh_env := mk_kh_env 3 0 (2 ^ 30) 0.
