(* ===== verification/HelperMain.v ===== *)
(** * The options and the end of the helper
      (src/kgpu/src/userSpace/helper.c, src/kgpu/src/gpuSpace/openCLOperations.c)

    The command line of [main], the whole course of [main], and [kh_finit]
    with the OpenCL objects that are alive.  [getopt] and [atoi] are those of
    the C library; the memory objects of OpenCL are the class [ClMem]. *)

From Stdlib Require Import Ascii String.
From S2P Require Import Prelude KgpuDefs ListHead Ranges UnitAlloc MemPool Device OpenClose.
From S2P Require Import Lifecycle GpuOps ItemList Services.
From S2P Require Import Helper HelperInv HelperLoop HelperThms Log OpenCLInit.

(** ** The command line *)

Definition is_space (c : ascii) : bool :=
  bool_decide (c = " "%char) || bool_decide (9 <= Z.of_nat (nat_of_ascii c) <= 13).

Definition is_digit (c : ascii) : bool := bool_decide (48 <= Z.of_nat (nat_of_ascii c) <= 57).

Fixpoint skip_spaces (s : text) : text :=
  match s with
  | c :: r => if is_space c then skip_spaces r else s
  | [] => []
  end.

(** The value of the leading digits. *)
Fixpoint digits_prefix (acc : Z) (s : text) : Z :=
  match s with
  | c :: r => if is_digit c then digits_prefix (acc * 10 + digit_value c) r else acc
  | [] => acc
  end.

(** A value outside [int] is undefined. *)
Definition atoi (s : text) : outcome Z :=
  let z := match skip_spaces s with
           | c :: r =>
               if decide (c = "-"%char) then - digits_prefix 0 r
               else if decide (c = "+"%char) then digits_prefix 0 r
               else digits_prefix 0 (c :: r)
           | [] => 0
           end in
  if bool_decide (s32_range z) then mret z else Fault OutOfBounds.

(** One result of [getopt] with "d:l:v:": an option with its argument, or the
    question mark for an unknown option or a missing argument. *)
Inductive getopt_result : Type :=
  | Opt (c : ascii) (optarg : text)
  | OptError.

(** The results until -1.  An argument is attached to its option or is the
    next word; words that are not options are passed over. *)
Fixpoint getopt (argv : list text) : list getopt_result :=
  match argv with
  | [] => []
  | w :: argv =>
      match w with
      | d :: c :: r =>
          if negb (bool_decide (d = "-"%char)) then getopt argv
          else if bool_decide (c = "-"%char) && bool_decide (r = []) then []
          else if negb (bool_decide (In c ["d"; "l"; "v"]%char)) then [OptError]
          else match r with
               | _ :: _ => Opt c r :: getopt argv
               | [] => match argv with
                       | a :: argv => Opt c a :: getopt argv
                       | [] => [OptError]
                       end
               end
      | _ => getopt argv
      end
  end.

Record options : Type := mk_options {
  opt_device : text;
  opt_lib_dir : text;
  opt_log_level : Z
}.

Definition default_options : options := mk_options (lit "/dev/kgpu") (lit "./") kgpu_log_level_default.

(** The loop of [main]; [None] is the return after the usage message. *)
Fixpoint parse_options (rs : list getopt_result) (o : options) : outcome (option options) :=
  match rs with
  | [] => mret (Some o)
  | OptError :: _ => mret None
  | Opt c a :: rs =>
      if decide (c = "d"%char) then parse_options rs (mk_options a (opt_lib_dir o) (opt_log_level o))
      else if decide (c = "l"%char) then parse_options rs (mk_options (opt_device o) a (opt_log_level o))
      else if decide (c = "v"%char) then
        v ← atoi a; parse_options rs (mk_options (opt_device o) (opt_lib_dir o) v)
      else mret None
  end.

(** ** The end of the helper *)

(** [clReleaseMemObject] on the objects that are alive. *)
Class ClMem : Type := {
  clReleaseMemObject : gset Z -> Z -> gset Z * Z
}.

(** Its documented behaviour: a live object is released, anything else is
    refused. *)
Class ClMemLaws (R : ClMem) : Prop := {
  release_live : forall l o, o ∈ l -> clReleaseMemObject l o = (l ∖ {[o]}, CL_SUCCESS);
  release_other : forall l o, o ∉ l ->
    (clReleaseMemObject l o).1 = l /\ (clReleaseMemObject l o).2 <> CL_SUCCESS
}.

Section finit.
Context `{R : ClMem}.

(** [gpu_finit] of OpenCLInit with the statuses of its two releases. *)
Definition gpu_finit_objects (l : gset Z) (s : cl_state) : outcome (gset Z * cl_state) :=
  let '(l1, st) := clReleaseMemObject l (deviceBuffer s) in
  let '(l2, st_vma) :=
    if negb (st =? CL_SUCCESS) then (l1, CL_SUCCESS) else clReleaseMemObject l1 (deviceBufferForVMA s) in
  s ← gpu_finit st st_vma s;
  mret (l2, s).

(** The status is not looked at. *)
Definition gpu_free_pinned_mem (l : gset Z) (memory : Z) : gset Z := (clReleaseMemObject l memory).1.

(** [stop] and [close] are the two system calls on the device. *)
Definition kh_finit {W} (stop close : W -> outcome W) (hostbuf : kgpu_gpu_mem_info) (w : W)
    (l : gset Z) (s : cl_state) : outcome (W * gset Z * cl_state) :=
  w ← stop w;
  w ← close w;
  '(l, s) ← gpu_finit_objects l s;
  mret (w, gpu_free_pinned_mem l (mi_uva hostbuf), s).

End finit.

(** The bytes of a string, as the registry of services has them. *)
Definition text_bytes (s : text) : list Z := (fun c => Z.of_nat (nat_of_ascii c)) <$> s.

(** [main] up to round [n] of the loop, which it never leaves because nothing
    clears [kh_loop_continue]; [None] after the usage message. *)
Definition main {W} `{DevFile W, ServiceCode gpu_state, Malloc, DynLink} (env : cl_env)
    (cp : cl_pinned) (co : cl_objects) (ke : kh_env) (argv : list text) (s : cl_state)
    (r : registry) (w : W) (n : nat) : outcome (option (helper W gpu_state)) :=
  o ← parse_options (getopt argv) default_options;
  match o with
  | None => mret None
  | Some o =>
      h ← kh_main env cp co ke (text_bytes (opt_lib_dir o)) s r w n;
      mret (Some h)
  end.

(** ** Options that are read back *)

(** What a user asks for, and the words that say it: the argument as a word
    of its own, or attached to the option. *)
Inductive setting : Type :=
  | SetDevice (dev : text)
  | SetLibDir (dir : text)
  | SetLogLevel (level : Z).

Definition setting_option (s : setting) : ascii :=
  match s with SetDevice _ => "d" | SetLibDir _ => "l" | SetLogLevel _ => "v" end%char.

Definition setting_arg (s : setting) : text :=
  match s with SetDevice t => t | SetLibDir t => t | SetLogLevel z => print_signed z end.

Definition setting_words (p : bool * setting) : list text :=
  if p.1 then [ "-"%char :: setting_option p.2 :: setting_arg p.2 ]
  else [ ["-"%char; setting_option p.2]; setting_arg p.2 ].

Definition setting_ok (p : bool * setting) : Prop :=
  setting_arg p.2 <> [] /\ match p.2 with SetLogLevel z => s32_range z | _ => True end.

Definition apply_setting (o : options) (s : setting) : options :=
  match s with
  | SetDevice t => mk_options t (opt_lib_dir o) (opt_log_level o)
  | SetLibDir t => mk_options (opt_device o) t (opt_log_level o)
  | SetLogLevel z => mk_options (opt_device o) (opt_lib_dir o) z
  end.

Lemma digit_is_digit d : 0 <= d < 10 -> is_digit (digit d) = true /\ is_space (digit d) = false.
Proof.
  intros Hd. rewrite <- negb_true_iff. apply andb_true_iff.
  by apply (forallb_range (fun d => is_digit (digit d) && negb (is_space (digit d))) 0 10).
Qed.

Definition decimal (c : ascii) : Prop := is_digit c = true /\ is_space c = false.

Lemma digits_decimal fuel z : Forall decimal (digits_rev 10 fuel z).
Proof.
  revert z. induction fuel as [|fuel IH]; intros z; simpl; [constructor|].
  constructor; [apply digit_is_digit, Z.mod_pos_bound; lia|].
  case_match; [constructor | apply IH].
Qed.

Lemma digits_prefix_all acc s :
  Forall decimal s -> digits_prefix acc s = foldl (fun a c => a * 10 + digit_value c) acc s.
Proof.
  intros Hs. revert acc. induction Hs as [|c s [Hc _] Hs IH]; intros acc; simpl; [done|].
  by rewrite Hc, IH.
Qed.

Lemma print_unsigned_prefix z :
  u64_range z -> digits_prefix 0 (print_unsigned 10 z) = z.
Proof.
  intros Hz. rewrite digits_prefix_all.
  - by apply read_print_unsigned; [lia|].
  - unfold print_unsigned. apply Forall_reverse, digits_decimal.
Qed.

Lemma print_unsigned_cons z :
  exists c r, print_unsigned 10 z = c :: r /\ decimal c.
Proof.
  assert (Hall : Forall decimal (print_unsigned 10 z))
    by (unfold print_unsigned; apply Forall_reverse, digits_decimal).
  destruct (print_unsigned 10 z) as [|c r] eqn:E.
  - apply (f_equal length) in E. unfold print_unsigned in E. by rewrite length_reverse in E.
  - apply Forall_cons in Hall as [Hc _]. eauto.
Qed.

(** [atoi] reads what [%d] prints. *)
Lemma atoi_print z : s32_range z -> atoi (print_signed z) = Ok z.
Proof.
  intros Hz. pose proof Hz as Hz'. unfold s32_range in Hz'. unfold atoi, print_signed.
  destruct (Z.ltb_spec z 0).
  - assert (forall r, skip_spaces ("-"%char :: r) = "-"%char :: r) as -> by reflexivity.
    rewrite decide_True by done.
    rewrite print_unsigned_prefix by (unfold u64_range; lia). rewrite Z.opp_involutive.
    by rewrite bool_decide_eq_true_2.
  - pose proof (print_unsigned_prefix z ltac:(unfold u64_range; lia)) as Hp.
    destruct (print_unsigned_cons z) as (c & r & E & [Hd Hs]). rewrite E in *.
    cbn [skip_spaces]. rewrite Hs.
    assert (c <> "-"%char /\ c <> "+"%char) as [H1 H2] by (split; intros ->; done).
    rewrite !decide_False by done. rewrite Hp. by rewrite bool_decide_eq_true_2.
Qed.

Lemma getopt_setting p rest :
  setting_ok p ->
  getopt (setting_words p ++ rest) = Opt (setting_option p.2) (setting_arg p.2) :: getopt rest.
Proof.
  intros [Ha _]. destruct p as [[] s]; simpl in *.
  - destruct (setting_arg s) as [|a r]; [done|]. by destruct s.
  - by destruct s.
Qed.

Lemma parse_setting p rest o :
  setting_ok p ->
  parse_options (Opt (setting_option p.2) (setting_arg p.2) :: rest) o =
  parse_options rest (apply_setting o p.2).
Proof.
  intros [_ Hz]. destruct p as [b []]; simpl in *; try done.
  by rewrite atoi_print.
Qed.

(** C24: the command line is read back: for any sequence of settings,
    written with the arguments attached or as words of their own, [main]
    starts with the defaults changed by the settings in order, so that the
    last one of a kind wins, and the log level is the number that was
    written. *)
Theorem options_roundtrip ps :
  Forall setting_ok ps ->
  parse_options (getopt (concat (setting_words <$> ps))) default_options =
    Ok (Some (foldl apply_setting default_options ps.*2)).
Proof.
  generalize default_options. induction ps as [|p ps IH]; intros o Hok; [done|].
  apply Forall_cons in Hok as [Hp Hok]. simpl concat. rewrite getopt_setting by done.
  rewrite parse_setting by done. by apply IH.
Qed.

(** An unknown option prints the usage message; nothing is started. *)
Lemma main_usage {W} `{DevFile W, ServiceCode gpu_state, Malloc, DynLink} env cp co ke c w rest s r
    (x : W) n :
  ~ In c ["d"; "l"; "v"; "-"]%char ->
  main env cp co ke (("-"%char :: c :: w) :: rest) s r x n = Ok None.
Proof.
  intros Hc. unfold main. cbn [getopt].
  rewrite (bool_decide_eq_false_2 (c = "-"%char)) by (intros ->; apply Hc; simpl; auto).
  rewrite (bool_decide_eq_false_2 (In c _)) by (simpl in *; tauto). done.
Qed.

(** ** The end of the helper, on the device of the module *)

Section device_end.
Context `{L : BitmapLib} (pt : page_tables) `{R : ClMem} {RL : ClMemLaws R}.

(** The state of the module and its counter of openers. *)
Definition dev_stop (access_ok : access -> Z -> bool) (env : setup_env) (gb : kgpu_gpu_mem_info)
    (w : kgpu_dev * Z) : outcome (kgpu_dev * Z) :=
  '(d, _) ← kgpu_ioctl pt access_ok env gb w.1 KGPU_IOC_SET_STOP;
  mret (d, w.2).

Definition dev_close (w : kgpu_dev * Z) : outcome (kgpu_dev * Z) := mret (w.1, kgpu_release w.2).

(** When the helper of a running OpenCL back end ends, [kh_finit]
    returns, the module is terminated, so that it refuses every later call of
    a client, and the device can be opened again.  Both device buffers are
    released; the object of the pinned buffer is not, since
    [gpu_free_pinned_mem] gets the address of the buffer, which is not the
    object: whatever else was alive stays alive. *)
Theorem kh_finit_ends access_ok env gb hostbuf d av l s data :
  openCLData s = KLive data -> deviceBuffer s <> deviceBufferForVMA s ->
  deviceBuffer s ∈ l -> deviceBufferForVMA s ∈ l -> mi_uva hostbuf ∉ l ->
  exists d' s',
    kh_finit (dev_stop access_ok env gb) dev_close hostbuf (d, av) l s =
      Ok ((d', 1), l ∖ {[deviceBuffer s]} ∖ {[deviceBufferForVMA s]}, s') /\
    openCLData s' = KFreed /\ reqs d' = reqs d /\ rtdreqs d' = rtdreqs d /\
    forall req data item,
      kgpu_call_async d' req item = (d', KGPU_TERMINATED) /\
      kgpu_call_sync_submit d' req data item = Ok (d', SyncReturn KGPU_TERMINATED).
Proof.
  intros Hs Hne Hb Hv Hh.
  exists (set_state d KGPU_TERMINATED), (set_data s KFreed).
  unfold kh_finit, gpu_finit_objects, dev_stop, dev_close, gpu_free_pinned_mem.
  cbn [mbind outcome_bind fst snd].
  change (kgpu_ioctl pt access_ok env gb d KGPU_IOC_SET_STOP)
    with (Ok (set_state d KGPU_TERMINATED, 0)).
  cbn [mbind outcome_bind mret outcome_ret fst snd].
  rewrite (release_live l _ Hb). rewrite Z.eqb_refl. cbn [negb].
  rewrite release_live by (clear Hh; set_solver).
  unfold gpu_finit. rewrite !Z.eqb_refl. cbn [negb]. rewrite Hs.
  cbn [kfree mbind outcome_bind mret outcome_ret].
  destruct (release_other (l ∖ {[deviceBuffer s]} ∖ {[deviceBufferForVMA s]}) (mi_uva hostbuf))
    as [-> _]; [clear - Hh; set_solver|].
  done.
Qed.

End device_end.

(** *** Witnesses *)

Lemma options_roundtrip_witness :
  parse_options (getopt (concat (setting_words <$>
      [(true, SetLogLevel 4); (false, SetDevice (lit "/dev/gpu0")); (false, SetLogLevel (-1))])))
    default_options = Ok (Some (mk_options (lit "/dev/gpu0") (lit "./") (-1))).
Proof.
  rewrite options_roundtrip; [reflexivity|].
  repeat constructor; try discriminate; unfold s32_range; lia.
Defined.

(** Releases what is alive. *)
#[global] Instance ref_cl_mem : ClMem := {|
  clReleaseMemObject l o := if bool_decide (o ∈ l) then (l ∖ {[o]}, CL_SUCCESS)
                            else (l, CL_INVALID_MEM_OBJECT) |}.

#[global] Instance ref_cl_mem_laws : ClMemLaws ref_cl_mem.
Proof.
  split; intros l o Ho; simpl.
  - by rewrite bool_decide_eq_true_2.
  - by rewrite bool_decide_eq_false_2.
Qed.

(** The pinned buffer is object 600 at address 4096. *)
Lemma kh_finit_ends_witness :
  exists d' s',
    kh_finit (dev_stop pt_example (fun _ _ => true) (mk_setup_env None None None 0) (mk_mem_info 0 0))
      dev_close (mk_mem_info 4096 KGPU_BUF_SIZE) (dev_init, 0) {[501; 502; 600]} cl_running =
      Ok ((d', 1), {[600]}, s') /\
    kgpu_call_async d' 1 None = (d', KGPU_TERMINATED).
Proof.
  destruct (kh_finit_ends pt_example (fun _ _ => true) (mk_setup_env None None None 0)
    (mk_mem_info 0 0) (mk_mem_info 4096 KGPU_BUF_SIZE) dev_init 0 {[501; 502; 600]} cl_running
    (mk_cl_data 900 (KLive 1))) as (d' & s' & E & _ & _ & _ & Hc).
  - reflexivity.
  - discriminate.
  - apply (bool_decide_unpack _). vm_compute. exact I.
  - apply (bool_decide_unpack _). vm_compute. exact I.
  - apply (bool_decide_unpack _). vm_compute. exact I.
  - exists d', s'. split; [|apply (Hc 1 None None)].
    assert (Hset : ({[501; 502; 600]} ∖ {[501]} ∖ {[502]} : gset Z) = {[600]}) by (vm_compute; reflexivity).
    rewrite <- Hset. exact E.
Defined.
