(* ===== verification/System.v ===== *)
(** * The kernel module and the helper together

    The device of Device, with the clients of the module, is the device file
    of the helper.  Clients submit requests at any time: the submissions are
    a schedule, one batch of which takes place before each system call of the
    helper.  The invariant of the device discharges the interface of the
    helper, so that the theorems about the helper's loop hold for the whole
    system. *)

From S2P Require Import Prelude KgpuDefs ListHead Ranges UnitAlloc MemPool MmapArea Device.
From S2P Require Import GpuOps ItemList Services Helper HelperInv HelperLoop HelperThms.

(** ** The device behind the system calls *)

(** The module's state, the submissions to come (request and queue item of
    each), and the identifiers of the answers the module has accepted. *)
Record kdev : Type := mk_kdev {
  kd : kgpu_dev;
  arrivals : list (list (Z * Z));
  answers : list Z
}.

Section kernel.
(** What clients' callbacks do, and an invariant that they rely on: of the
    requests that are not answered yet, and of the memory of the module. *)
Context (client_callback : Z -> Z -> kgpu_dev -> outcome kgpu_dev)
  (cb_inv : list Z -> kgpu_dev -> Prop).

Definition apply_arrivals (d : kgpu_dev) (b : list (Z * Z)) : kgpu_dev :=
  foldl (fun d x => (kgpu_call_async d x.1 (Some x.2)).1) d b.

(** The batch that comes before a system call. *)
Definition next_batch (d : kgpu_dev) (bs : list (list (Z * Z))) : kgpu_dev * list (list (Z * Z)) :=
  match bs with
  | [] => (d, [])
  | b :: bs => (apply_arrivals d b, bs)
  end.

(** A system call that sleeps until a request is queued.  When nothing comes
    any more only a signal ends it. *)
Fixpoint wait_request (d : kgpu_dev) (bs : list (list (Z * Z))) : kgpu_dev * list (list (Z * Z)) :=
  match reqs d, bs with
  | [], b :: bs => wait_request (apply_arrivals d b) bs
  | _, _ => (d, bs)
  end.

(** The return value and [errno] of a system call that returns [r] in the
    kernel. *)
Definition user_result (r : Z) : Z * Z := if r <? 0 then (-1, - r) else (r, 0).

Definition kdev_poll (w : kdev) (block : bool) : outcome (kdev * (Z * Z)) :=
  let '(d, bs) := next_batch (kd w) (arrivals w) in
  let '(d, bs) := if block then wait_request d bs else (d, bs) in
  let revents := Z.land (kgpu_poll d) POLLIN in
  mret (mk_kdev d bs (answers w),
        (if truth revents then 1 else if block then -1 else 0, revents)).

Definition kdev_read (w : kdev) (count : Z) :
    outcome (kdev * (Z * Z * option kgpu_ku_request)) :=
  let '(d, bs) := next_batch (kd w) (arrivals w) in
  let '(d, bs) := wait_request d bs in
  '(d, r) ← kgpu_read d count false true;
  match r with
  | ReadReturn ret copied _ => mret (mk_kdev d bs (answers w), (user_result ret, copied))
  | ReadSleep => Fault NoFuel
  end.

Definition kdev_write (w : kdev) (resp : kgpu_ku_response) (count : Z) : outcome (kdev * Z) :=
  let '(d, bs) := next_batch (kd w) (arrivals w) in
  '(d, ret) ← kgpu_write client_callback d count resp;
  mret (mk_kdev d bs (if ret <? 0 then answers w else answers w ++ [ks_id resp]),
        (user_result ret).1).

#[local] Instance kdev_file : DevFile kdev := {
  sys_poll := kdev_poll;
  sys_read := kdev_read;
  sys_write := kdev_write
}.

(** ** The invariant *)

(** The addresses of the requests in flight, queued, and to be submitted. *)
Definition addrs (w : kdev) : list Z :=
  (it_r <$> rtdreqs (kd w)) ++ (it_r <$> reqs (kd w)) ++ (fst <$> concat (arrivals w)).

Definition rid (d : kgpu_dev) (r : Z) : Z := default (-1) (rq_id <$> requests d !! r).

Definition callback_ok (d : kgpu_dev) (q : kgpu_request) : Prop :=
  match rq_callback q with
  | CB_NULL => False
  | CB_sync => is_Some (sync_data d !! rq_kdata q)
  | CB_client _ => True
  end.

Definition req_ok (d : kgpu_dev) (r : Z) : Prop :=
  exists q, req_at d r q /\ length (rq_service_name q) = name_size /\ callback_ok d q.

(** Of all the requests [ids], each is answered, in flight, queued or to be
    submitted, and in only one of these ways. *)
Record kdev_ok (ids : list Z) (w : kdev) : Prop := {
  ko_state : d_state (kd w) <> KGPU_TERMINATED;
  ko_reqs r : r ∈ addrs w -> req_ok (kd w) r;
  ko_ids : answers w ++ (rid (kd w) <$> addrs w) ≡ₚ ids;
  ko_nodup : NoDup ids;
  ko_inv : cb_inv (addrs w) (kd w)
}.

Definition kdev_out (w : kdev) : gset Z :=
  list_to_set (rid (kd w) <$> (it_r <$> rtdreqs (kd w))).

Definition kdev_pending (w : kdev) : nat := (length (reqs (kd w)) + length (concat (arrivals w)))%nat.

(** What a read can give: a request that the invariant knows of, as the module
    hands it out. *)
Definition kdev_gives (kureq : kgpu_ku_request) : Prop :=
  exists l d r q, cb_inv l d /\ r ∈ l /\ requests d !! r = Some q /\
    kureq = fill_ku_request (gmpool d) q.

(** Memory, free requests and requests are the same, up to the error code of
    the last answer. *)
Definition same_memory (d d' : kgpu_dev) : Prop :=
  gmpool d' = gmpool d /\ vm d' = vm d /\ req_free d' = req_free d /\
  forall r, with_errcode 0 <$> requests d' !! r = with_errcode 0 <$> requests d !! r.

(** A client's callback may do what it wants with its own request and with
    the memory of the module, as long as it keeps the invariant; it leaves
    the queues and the other requests.  The order of the requests to be
    answered does not matter to the invariant, and the end of a synchronous
    call has no effect on memory. *)
Class CallbackLaws : Prop := {
  inv_frame l l' d d' : cb_inv l d -> l ≡ₚ l' -> same_memory d d' -> cb_inv l' d';
  inv_sync l r q d : cb_inv (r :: l) d -> r ∉ l -> requests d !! r = Some q ->
    rq_callback q = CB_sync -> cb_inv l d;
  callback_law l f r q d : cb_inv (r :: l) d -> r ∉ l -> requests d !! r = Some q ->
    rq_callback q = CB_client f ->
    exists d', client_callback f r d = Ok d' /\ reqs d' = reqs d /\
    rtdreqs d' = rtdreqs d /\ d_state d' = d_state d /\ sync_data d' = sync_data d /\
    (forall r', r' <> r -> requests d' !! r' = requests d !! r') /\ cb_inv l d'
}.

Context `{CallbackLaws} (ids : list Z).

(** ** Lemmas *)

Lemma apply_arrivals_eq d b :
  d_state d <> KGPU_TERMINATED ->
  apply_arrivals d b = set_reqs d (reqs d ++ ((fun x => mk_item x.2 x.1) <$> b)).
Proof.
  unfold apply_arrivals. revert d. induction b as [|x b IH]; intros d Hd; simpl.
  - rewrite app_nil_r. by destruct d.
  - unfold kgpu_call_async at 2. rewrite (proj2 (Z.eqb_neq _ _) Hd). simpl.
    rewrite IH by done. unfold set_reqs. simpl. by rewrite <- app_assoc.
Qed.

(** Submissions only move requests from the schedule to the queue. *)
Definition submitted (w w' : kdev) : Prop :=
  kdev_ok ids w' /\ addrs w' = addrs w /\ kdev_out w' = kdev_out w /\
  kdev_pending w' = kdev_pending w /\ answers w' = answers w /\
  requests (kd w') = requests (kd w) /\ rtdreqs (kd w') = rtdreqs (kd w) /\
  (reqs (kd w) <> [] -> reqs (kd w') <> []).

Lemma submitted_refl w : kdev_ok ids w -> submitted w w.
Proof. done. Qed.

Lemma submitted_trans w1 w2 w3 : submitted w1 w2 -> submitted w2 w3 -> submitted w1 w3.
Proof.
  intros (_ & A1 & A2 & A3 & A4 & A5 & A6 & A7) (B0 & B1 & B2 & B3 & B4 & B5 & B6 & B7).
  unfold submitted. rewrite B1, B2, B3, B4, B5, B6. auto 10.
Qed.

Lemma submit_batch d b bs l :
  kdev_ok ids (mk_kdev d (b :: bs) l) ->
  submitted (mk_kdev d (b :: bs) l) (mk_kdev (apply_arrivals d b) bs l).
Proof.
  intros [Hst Hr Hi Hn Hinv]. simpl in Hst. rewrite apply_arrivals_eq by done.
  set (w' := mk_kdev _ bs l).
  assert (Ea : addrs w' = addrs (mk_kdev d (b :: bs) l)).
  { unfold addrs. simpl. rewrite !fmap_app, <- list_fmap_compose, <- app_assoc. done. }
  split; [|split; [done|split_and!; try done]].
  - split; [done | intros r; rewrite Ea; apply Hr | rewrite Ea; apply Hi | done |].
    rewrite Ea. by eapply inv_frame.
  - unfold kdev_pending. simpl. rewrite !length_app, length_fmap. lia.
  - simpl. destruct (reqs d); done.
Qed.

Lemma next_batch_submitted d bs l :
  kdev_ok ids (mk_kdev d bs l) ->
  submitted (mk_kdev d bs l) (mk_kdev (next_batch d bs).1 (next_batch d bs).2 l).
Proof. destruct bs as [|b bs]; intros Hok; [by apply submitted_refl | by apply submit_batch]. Qed.

Lemma wait_request_submitted d bs l :
  kdev_ok ids (mk_kdev d bs l) ->
  let w' := mk_kdev (wait_request d bs).1 (wait_request d bs).2 l in
  submitted (mk_kdev d bs l) w' /\
  ((0 < kdev_pending w')%nat -> reqs (kd w') <> []).
Proof.
  revert d. induction bs as [|b bs IH]; intros d Hok; cbn [wait_request].
  - destruct (reqs d) eqn:E; (split; [by apply submitted_refl|]); unfold kdev_pending; simpl;
      rewrite E; simpl; [lia | done].
  - destruct (reqs d) eqn:E; [|split; [by apply submitted_refl|]; simpl; by rewrite E].
    pose proof (submit_batch d b bs l Hok) as Hs.
    destruct (IH (apply_arrivals d b) (proj1 Hs)) as [Hs2 Hp]. split; [|done].
    by eapply submitted_trans.
Qed.

(** *** Poll *)

Lemma kdev_poll_law w block :
  kdev_ok ids w ->
  exists w' err revents, kdev_poll w block = Ok (w', (err, revents)) /\
    submitted w w' /\ (pollin revents = true -> err = 1 /\ reqs (kd w') <> []) /\
    (block = true -> (0 < kdev_pending w)%nat -> pollin revents = true).
Proof.
  intros Hok. destruct w as [d bs l]. unfold kdev_poll. cbn [kd arrivals answers].
  pose proof (next_batch_submitted d bs l Hok) as Hs1. destruct (next_batch d bs) as [d1 bs1].
  simpl in Hs1. pose proof (proj1 Hs1) as Hok1.
  assert (exists d2 bs2, (if block then wait_request d1 bs1 else (d1, bs1)) = (d2, bs2) /\
    submitted (mk_kdev d bs l) (mk_kdev d2 bs2 l) /\
    (block = true -> (0 < kdev_pending (mk_kdev d bs l))%nat -> reqs d2 <> []))
    as (d2 & bs2 & -> & Hs2 & Hb).
  { destruct block; [|by exists d1, bs1].
    destruct (wait_request_submitted d1 bs1 l Hok1) as [Hs2 Hp].
    destruct (wait_request d1 bs1) as [d2 bs2]. simpl in Hs2, Hp. exists d2, bs2.
    pose proof (submitted_trans _ _ _ Hs1 Hs2) as Hs.
    split_and!; [done..|]. intros _ Hpe. apply Hp.
    destruct Hs as (_ & _ & _ & E & _). simpl in *. lia. }
  eexists _, _, _. split; [done|]. split; [done|]. unfold kgpu_poll.
  destruct (reqs d2) eqn:E.
  - split; [done|]. intros Hbl Hpe. by destruct (Hb Hbl Hpe).
  - split; [|done]. simpl. by rewrite E.
Qed.

(** *** Read *)

Lemma ids_nodup w : kdev_ok ids w -> NoDup (rid (kd w) <$> addrs w).
Proof.
  intros [_ _ Hi Hn _]. rewrite <- Hi in Hn. by apply NoDup_app in Hn as (_ & _ & ?).
Qed.

Lemma kdev_read_law w :
  kdev_ok ids w -> reqs (kd w) <> [] ->
  exists w' ret errno kureq, kdev_read w 88 = Ok (w', (ret, errno, Some kureq)) /\ kdev_ok ids w' /\
    0 < ret /\ kdev_gives kureq /\ kr_id kureq ∉ kdev_out w /\ length (kr_service_name kureq) = name_size /\
    kdev_out w' = {[kr_id kureq]} ∪ kdev_out w /\ kdev_pending w = S (kdev_pending w').
Proof.
  intros Hok Hne. destruct w as [d bs l]. unfold kdev_read. cbn [kd arrivals answers].
  pose proof (next_batch_submitted d bs l Hok) as Hs1. destruct (next_batch d bs) as [d1 bs1].
  simpl in Hs1. destruct (wait_request_submitted d1 bs1 l (proj1 Hs1)) as [Hs2 _].
  destruct (wait_request d1 bs1) as [d2 bs2]. simpl in Hs2.
  pose proof (submitted_trans _ _ _ Hs1 Hs2) as (Hok2 & Ea & Eo & Ep & El & Eq & Er & Hn).
  specialize (Hn Hne). clear Hs1 Hs2. simpl in Hn. destruct (reqs d2) as [|item rest] eqn:E; [done|].
  assert (Hin : it_r item ∈ addrs (mk_kdev d2 bs2 l)).
  { unfold addrs. simpl. rewrite E. set_solver. }
  destruct (ko_reqs _ _ Hok2 _ Hin) as (q & Hq & Hlen & Hcb). unfold req_at in Hq. simpl in Hq.
  unfold kgpu_read. rewrite E. rewrite (load_req_ok (set_reqs d2 rest) (it_r item) q) by apply Hq.
  cbn [mbind outcome_bind]. change (ssize 88) with 88. cbn [Z.ltb Z.compare mbind outcome_bind].
  set (d3 := set_rtdreqs (set_reqs d2 rest) (rtdreqs (set_reqs d2 rest) ++ [item])).
  eexists (mk_kdev d3 bs2 l), 88, 0, _. split; [done|].
  assert (Eid : rid d2 (it_r item) = rq_id q) by (unfold rid; by rewrite (proj2 Hq)).
  assert (Eaddr : addrs (mk_kdev d3 bs2 l) = addrs (mk_kdev d2 bs2 l)).
  { unfold addrs. simpl. rewrite E, fmap_app. simpl. by rewrite <- app_assoc. }
  split_and!.
  - destruct Hok2 as [H1 H2 H3 H4 H5].
    split; [done | by rewrite Eaddr | by rewrite Eaddr | done | rewrite Eaddr; by eapply inv_frame].
  - lia.
  - exists (addrs (mk_kdev d2 bs2 l)), d2, (it_r item), q. split_and!; [apply Hok2 | done | apply Hq | done].
  - rewrite <- Eo. unfold kdev_out. simpl. rewrite elem_of_list_to_set. intros Hx.
    pose proof (ids_nodup _ Hok2) as Hnd. unfold addrs in Hnd. simpl in Hnd. rewrite E in Hnd.
    rewrite fmap_app in Hnd. apply NoDup_app in Hnd as (_ & Hd & _). apply (Hd _ Hx).
    simpl. rewrite Eid. left.
  - done.
  - rewrite <- Eo. unfold kdev_out. simpl. rewrite !fmap_app, list_to_set_app_L. simpl.
    rewrite union_empty_r_L, (union_comm_L _ {[_]}). f_equal. f_equal. exact Eid.
  - rewrite <- Ep. unfold kdev_pending. simpl. rewrite E. simpl. lia.
Qed.

(** *** Write *)

(** The module after the answer to the request at [r0]. *)
Definition answered_state (l : list Z) (d : kgpu_dev) (rest : list request_item) (r0 : Z) (d' : kgpu_dev) : Prop :=
  reqs d' = reqs d /\ rtdreqs d' = rest /\ d_state d' = d_state d /\
  (forall k, is_Some (sync_data d !! k) -> is_Some (sync_data d' !! k)) /\
  (forall r, r <> r0 -> requests d' !! r = requests d !! r) /\ cb_inv l d'.

Lemma run_callback_answered l d q e r0 rest :
  req_at d r0 q -> callback_ok d q -> cb_inv (r0 :: l) d -> r0 ∉ l ->
  exists d', run_callback client_callback
      (set_requests (set_rtdreqs d rest) (<[r0 := with_errcode e q]> (requests d))) r0 = Ok d' /\
    answered_state l d rest r0 d'.
Proof.
  intros [Hr Hq] Hcb Hinv Hnf. set (d1 := set_requests _ _).
  assert (Hsame : same_memory d d1).
  { split_and!; try done. intros r. simpl. destruct (decide (r = r0)) as [->|].
    - by rewrite lookup_insert_eq, Hq.
    - by rewrite lookup_insert_ne. }
  assert (Hinv1 : cb_inv (r0 :: l) d1) by by eapply inv_frame.
  assert (Hq1 : requests d1 !! r0 = Some (with_errcode e q)) by apply lookup_insert_eq.
  assert (Hl : load_req d1 r0 = Ok (with_errcode e q)).
  { apply load_req_ok; [done|]. simpl. apply lookup_insert_eq. }
  assert (Hother : forall r, r <> r0 -> requests d1 !! r = requests d !! r).
  { intros r Hne. simpl. by rewrite lookup_insert_ne. }
  unfold run_callback, callback_ok in *. rewrite Hl. cbn [mbind outcome_bind rq_callback with_errcode].
  destruct (rq_callback q) as [| |f] eqn:Ecb; [done| |].
  - unfold sync_callback. rewrite Hl. cbn [mbind outcome_bind rq_kdata with_errcode].
    destruct Hcb as [sd Hsd]. simpl sync_data. rewrite Hsd. simpl. eexists. split; [done|].
    split_and!; try done; [|by eapply inv_frame; [eapply inv_sync | |]].
    simpl. intros k Hk. destruct (decide (k = rq_kdata q)) as [->|].
    + rewrite lookup_insert_eq. by eexists.
    + by rewrite lookup_insert_ne.
  - destruct (callback_law l f r0 (with_errcode e q) d1) as (d' & -> & E1 & E2 & E3 & E4 & E5 & E6);
      [done..|].
    exists d'. split; [done|].
    split_and!; try done; [by rewrite E4|]. intros r Hne. by rewrite E5, Hother.
Qed.

Lemma answered_req_ok l d rest r0 d' r :
  answered_state l d rest r0 d' -> r <> r0 -> req_ok d r -> req_ok d' r /\ rid d' r = rid d r.
Proof.
  intros (_ & _ & _ & Hsy & Hreq & _) Hne (q & [Hr Hq] & Hlen & Hcb). split.
  - exists q. split; [split; [done | by rewrite Hreq]|]. split; [done|].
    unfold callback_ok in *. destruct (rq_callback q); auto.
  - unfold rid. by rewrite Hreq.
Qed.

Lemma kdev_write_law w resp :
  kdev_ok ids w -> ks_id resp ∈ kdev_out w ->
  exists w' ret, kdev_write w resp 8 = Ok (w', ret) /\ 0 <= ret /\ kdev_ok ids w' /\
    kdev_out w' = kdev_out w ∖ {[ks_id resp]} /\ kdev_pending w' = kdev_pending w.
Proof.
  intros Hok0 Hid. destruct w as [d0 bs0 l]. unfold kdev_write. cbn [kd arrivals answers].
  destruct (next_batch_submitted d0 bs0 l Hok0) as (Hok & Ea & Eo & Ep & _).
  destruct (next_batch d0 bs0) as [d bs]. simpl in Ep, Eo, Ea, Hok. rewrite <- Eo in Hid |- *.
  rewrite <- Ep. clear Eo Ep Ea Hok0. pose proof Hok as [Hst Hreqs Hi Hn Hinv]. simpl in Hst.
  assert (Hlive : Forall (fun i => exists q, req_at d (it_r i) q) (rtdreqs d)).
  { apply Forall_forall. intros i Hin. destruct (Hreqs (it_r i)) as (q & Hq & _); [|by exists q].
    unfold addrs. rewrite !elem_of_app. left. by apply list_elem_of_fmap_2. }
  unfold kdev_out in Hid. simpl in Hid. apply elem_of_list_to_set in Hid.
  destruct (find_request_cases d (ks_id resp) (rtdreqs d) Hlive)
    as [[_ Hno]|(l1 & item & l2 & q & Hrtd & Hq & Hqid & _ & Hfind)].
  { exfalso. apply list_elem_of_fmap in Hid as (r & Hr & Hin).
    apply list_elem_of_fmap in Hin as (i & -> & Hin).
    destruct (proj1 (Forall_forall _ _) Hno i Hin) as (q & [_ Hq] & Hne).
    apply Hne. rewrite Hr. unfold rid. by rewrite Hq. }
  destruct (Hreqs (it_r item)) as (q' & Hq' & _ & Hcb).
  { unfold addrs. simpl. rewrite Hrtd. set_solver. }
  assert (q' = q) as ->.
  { destruct Hq as [_ Hq], Hq' as [_ Hq']. simpl in Hq'. congruence. }
  unfold kgpu_write. cbn [Z.ltb Z.compare sizeof_ku_response]. change (8 <? sizeof_ku_response) with false.
  cbn match. rewrite Hfind. cbn [mbind outcome_bind]. unfold update_req.
  rewrite (load_req_ok (set_rtdreqs d (l1 ++ l2)) (it_r item) q) by apply Hq.
  cbn [mbind outcome_bind mret outcome_ret].
  set (left := (it_r <$> l1 ++ l2) ++ (it_r <$> reqs d) ++ (fst <$> concat bs)).
  assert (Eleft : addrs (mk_kdev d bs l) ≡ₚ it_r item :: left).
  { unfold addrs, left. simpl. rewrite Hrtd, !fmap_app. simpl. solve_Permutation. }
  pose proof (ids_nodup _ Hok) as Hnd. simpl in Hnd. rewrite Eleft in Hnd. simpl in Hnd.
  apply NoDup_cons in Hnd as [Hnew _].
  assert (Hnl : it_r item ∉ left) by (intros Hin; apply Hnew; by apply list_elem_of_fmap_2).
  destruct (run_callback_answered left d q (ks_errcode resp) (it_r item) (l1 ++ l2) Hq Hcb)
    as (d' & Hrun & Ha); [by eapply inv_frame | done |].
  simpl requests. rewrite Hrun. cbn [mbind outcome_bind]. change (ssize 8) with 8. cbn.
  eexists _, 8. split; [done|]. split; [lia|].
  destruct Ha as (E1 & E2 & E3 & Hsy & Hreq & Hinv') eqn:E; clear E.
  set (w' := mk_kdev d' bs (l ++ [ks_id resp])).
  assert (Erid : rid d (it_r item) = ks_id resp) by (unfold rid; by rewrite (proj2 Hq)).
  assert (El : addrs w' = left) by (unfold addrs, w', left; simpl; by rewrite E1, E2).
  assert (Eaddr : addrs (mk_kdev d bs l) ≡ₚ it_r item :: addrs w') by by rewrite El.
  rewrite <- El in Hnew, Hinv'.
  assert (Hne : forall r, r ∈ addrs w' -> r <> it_r item).
  { intros r Hr ->. apply Hnew. by apply list_elem_of_fmap_2. }
  assert (Hkeep : forall r, r ∈ addrs w' -> req_ok d' r /\ rid d' r = rid d r).
  { intros r Hr. apply (answered_req_ok left d (l1 ++ l2) (it_r item)); [by rewrite <- El in * | by apply Hne|].
    apply Hreqs. rewrite Eaddr. by right. }
  assert (Emap : rid d' <$> addrs w' = rid d <$> addrs w').
  { apply list_fmap_ext. intros i r Hr. apply Hkeep. by eapply list_elem_of_lookup_2. }
  split_and!.
  - split; [by simpl; rewrite E3 | intros r Hr; by apply Hkeep | | done | done].
    rewrite <- Hi. simpl. rewrite Emap, Eaddr. simpl. rewrite Erid. solve_Permutation.
  - unfold kdev_out, w'. simpl. rewrite Hrtd, E2.
    assert (Eout : rid d' <$> (it_r <$> l1 ++ l2) = rid d <$> (it_r <$> l1 ++ l2)).
    { apply list_fmap_ext. intros i r Hr. apply Hkeep. unfold addrs, w'. simpl. rewrite E2.
      apply elem_of_app. left. by eapply list_elem_of_lookup_2. }
    rewrite Eout, !fmap_app. simpl. rewrite Erid, !list_to_set_app_L. simpl.
    assert (Hno : ks_id resp ∉ (rid d <$> (it_r <$> l1 ++ l2))).
    { rewrite <- Eout. intros Hx. apply Hnew. rewrite Erid.
      change (ks_id resp ∈ rid d <$> addrs w'). rewrite <- Emap. unfold addrs, w'. simpl.
      rewrite E2, fmap_app. apply elem_of_app. by left. }
    rewrite !fmap_app in Hno. apply set_eq. intros x. set_unfold. naive_solver.
  - unfold kdev_pending, w'. simpl. by rewrite E1.
Qed.

Lemma kdev_sys_poll_law w block :
  kdev_ok ids w ->
  exists w' err revents, kdev_poll w block = Ok (w', (err, revents)) /\
    kdev_ok ids w' /\ kdev_out w' = kdev_out w /\ kdev_pending w' = kdev_pending w /\
    (pollin revents = true -> err = 1 /\ reqs (kd w') <> []) /\
    (block = true -> (0 < kdev_pending w)%nat -> pollin revents = true).
Proof.
  intros Hok. destruct (kdev_poll_law w block Hok) as (w' & err & rev & E & Hs & Hp & Hb).
  destruct Hs as (? & _ & ? & ? & _). by exists w', err, rev.
Qed.

#[local] Instance kdev_spec : DevFileSpec kdev := {
  dev_ok := kdev_ok ids;
  dev_ready w := reqs (kd w) <> [];
  dev_out := kdev_out;
  dev_pending := kdev_pending;
  dev_gives := kdev_gives;
  sys_poll_law := kdev_sys_poll_law;
  sys_read_law := kdev_read_law;
  sys_write_law := kdev_write_law
}.

End kernel.
