(* ===== verification/SystemThms.v ===== *)
(** * Properties of the whole system

    Kernel module, helper, registry and GPU back end together: every request
    of every client is answered once, and a pointer keeps its offset from the
    kernel's view of the buffer to the device's.  The examples run a system
    with the test library of the repository. *)

From S2P Require Import Prelude KgpuDefs ListHead Ranges UnitAlloc MemPool MmapArea Device Module.
From S2P Require Import GpuOps ItemList Services Helper HelperInv HelperLoop HelperThms HelperLive System.
From S2P Require Import OpenCLInit Layout HelperPtr HelperSim.

Section system.
Context (client_callback : Z -> Z -> kgpu_dev -> outcome kgpu_dev) (cb_inv : list Z -> kgpu_dev -> Prop)
  `{!CallbackLaws client_callback cb_inv}.
Context (ids : list Z).
Context {G : Type} `{GpuLaws G, !ServiceCode G, !ServiceLaws G, MallocLaws}.

#[local] Instance system_file : DevFile kdev := kdev_file client_callback.
#[local] Instance system_spec : DevFileSpec kdev := kdev_spec client_callback cb_inv ids.

(** A device with nothing in flight and nothing to come. *)
Lemma kdev_finished w :
  kdev_ok cb_inv ids w -> kdev_out w = ∅ -> kdev_pending w = 0%nat ->
  answers w ≡ₚ ids /\ rtdreqs (kd w) = [] /\ reqs (kd w) = [] /\ cb_inv [] (kd w).
Proof.
  destruct w as [d bs l]. unfold kdev_out, kdev_pending. cbn [kd arrivals answers].
  intros [_ _ Hids _ Hinv] Hout Hpe. unfold addrs in Hids, Hinv. cbn [kd arrivals answers] in *.
  assert (reqs d = []) as Er by (apply nil_length_inv; lia).
  assert (concat bs = []) as Eb by (apply nil_length_inv; lia).
  assert (rtdreqs d = []) as Et.
  { destruct (rtdreqs d) as [|i l']; [done|]. simpl in Hout. set_solver. }
  rewrite Er, Et, Eb in Hids, Hinv. simpl in Hids, Hinv. rewrite app_nil_r in Hids. done.
Qed.

(** What the back end and the registry must know of the clients' requests:
    the back end takes them, and a service that they ask for is one of [S]. *)
Definition clients_taken (hb hv : kgpu_gpu_mem_info) : Prop :=
  forall l d r q s, cb_inv l d -> r ∈ l -> requests d !! r = Some q ->
    be_takes (G := G) hb hv (new_request (fill_ku_request (gmpool d) q) s).

Definition clients_served (S : Z -> Prop) (reg : registry) : Prop :=
  forall l d r q, cb_inv l d -> r ∈ l -> requests d !! r = Some q ->
    let s := assoc (cstr name_size (rq_service_name q)) (bindings reg) in s <> NULL -> S s.

Lemma clients_gives hb hv :
  clients_taken hb hv -> forall kureq s, dev_gives kureq -> be_takes (G := G) hb hv (new_request kureq s).
Proof. intros Ht kureq s (l & d & r & q & Hi & Hr & Hq & ->). eauto. Qed.

Lemma clients_serving S hb hv reg (g : G) w :
  clients_served S reg -> serving S (helper_start hb hv reg g w).
Proof.
  intros Hs. split.
  - intros Q x q _ Hx. by apply not_elem_of_nil in Hx.
  - intros kureq (l & d & r & q & Hi & Hr & Hq & ->). by eapply Hs.
Qed.

(** C1: the helper and the module together answer every request exactly once:
    those the helper has, those in flight, those queued and those that
    clients submit while the helper works.  At the end the module has
    accepted one answer for each of the identifiers [ids], both its queues
    are empty, and the invariant of the clients' callbacks holds.  This is for
    a back end on which the work of the services asked for ends ([patient]:
    stream queries may report unfinished work any number of times, but not
    for ever), requests that it takes (in the invariant [helper_wf]), and a
    [malloc] that succeeds. *)
Theorem system_answers_each_request_once S backlog (h : helper kdev G) :
  helper_wf h -> serving S h -> patient S backlog -> malloc_succeeds ->
  exists n h', kh_main_loop n h = Ok h' /\
    answers (devfd h') ≡ₚ ids /\
    rtdreqs (kd (devfd h')) = [] /\ reqs (kd (devfd h')) = [] /\ all_reqs h' = [] /\
    cb_inv [] (kd (devfd h')).
Proof.
  intros Hwf Hs Hpat Hmal.
  destruct (loop_answers_all S backlog Hpat h Hwf Hs Hmal) as (n & h' & E & W' & Hall & Hout & Hpe).
  destruct (kdev_finished (devfd h') (hw_dev h' W') Hout Hpe) as (? & ? & ? & ?).
  by exists n, h'.
Qed.

End system.

(** ** Addresses from end to end *)

(** The device addresses of the two buffers, from which a back end computes
    the device pointers of the requests it takes. *)
Class GpuBase (G : Type) `{GpuBackend G} : Type := {
  be_base : G -> Z * Z;
  be_rebases g hb hv q : be_wf g -> be_takes hb hv q ->
    exists g', be_alloc_device_mem g hb hv q =
      Ok (g', (alloc_pointers (be_base g).1 (be_base g).2 hb hv q).1, 0)
}.

#[global, refine] Instance opencl_base : GpuBase gpu_state := { be_base _ := (0, 0) }.
Proof.
  intros g hb hv q _ _. cbn [be_alloc_device_mem opencl_backend]. unfold gpu_alloc_device_mem.
  destruct (alloc_device_mem_keeps gpu_pin_mem (fun _ => True) 0 0 g hb hv q)
    as (g' & din & dout & ddata & E & _); [intros; by eexists | done |].
  pose proof (alloc_device_mem_at_result _ _ _ _ _ _ _ _ _ _ E) as [Hq _]. exists g'. by rewrite E, Hq.
Defined.

#[global, refine] Instance cuda_base {C} `{CudaDriver C, CudaFine C} : GpuBase (cuda_state C) :=
  { be_base g := (devbuf g, devbuf4vma g) }.
Proof.
  intros g hb hv q _ Ht. cbn [be_alloc_device_mem cuda_backend].
  destruct (cuda_alloc_taken g hb hv q Ht) as (a & b & c & E). exists g. rewrite E.
  rewrite cuda_alloc_device_mem_at in E.
  by destruct (alloc_device_mem_at_result _ _ _ _ _ _ _ _ _ _ E) as [-> _].
Defined.

(** The helper's buffer is the pool's. *)
Definition buffer_shared (pool : kgpu_mempool) (hb : kgpu_gpu_mem_info) : Prop :=
  mi_uva hb = uva pool /\ mi_size hb = npages pool * PAGE_SIZE.

Definition in_pool (pool : kgpu_mempool) (p : Z) : Prop :=
  kva pool <= p < kva pool + npages pool * PAGE_SIZE.

Definition in_buffer (b : kgpu_gpu_mem_info) (p : Z) : Prop := mi_uva b <= p < mi_uva b + mi_size b.

(** A client's pointer that is in the mapped area and not in the pool. *)
Definition in_area (pool : kgpu_mempool) (hv : kgpu_gpu_mem_info) (p : Z) : Prop :=
  ~ in_pool pool p /\ in_buffer hv p.

(** The device pointer for the kernel's pointer [p]. *)
Definition device_addr (db dv : Z) (pool : kgpu_mempool) (hv : kgpu_gpu_mem_info) (p d : Z) : Prop :=
  (in_pool pool p /\ d = db + (p - kva pool)) \/ (in_area pool hv p /\ d = dv + (p - mi_uva hv)).

(** What [gpu_alloc_device_mem] computes for a pointer of the request. *)
Definition rebased_at (db dv : Z) (hb hv : kgpu_gpu_mem_info) (p : Z) : Z :=
  if ADDR_WITHIN p (mi_uva hb) (mi_size hb) then ADDR_REBASE db (mi_uva hb) p
  else ADDR_REBASE dv (mi_uva hv) p.

Lemma alloc_pointers_request db dv hb hv q :
  let q' := (alloc_pointers db dv hb hv q).1 in
  sr_id q' = sr_id q /\ sr_din q' = rebased_at db dv hb hv (sr_hin q) /\
  sr_dout q' = rebased_at db dv hb hv (sr_hout q) /\
  sr_ddata q' = (if ADDR_WITHIN (sr_hdata q) (mi_uva hb) (mi_size hb) ||
                    ADDR_WITHIN (sr_hdata q) (mi_uva hv) (mi_size hv)
                 then rebased_at db dv hb hv (sr_hdata q) else sr_ddata q) /\
  same_buffers q q'.
Proof.
  unfold alloc_pointers, rebased_at.
  destruct (ADDR_WITHIN (sr_hin q) (mi_uva hb) _), (ADDR_WITHIN (sr_hout q) (mi_uva hb) _),
    (ADDR_WITHIN (sr_hdata q) (mi_uva hb) _), (ADDR_WITHIN (sr_hdata q) (mi_uva hv) _); by split_and!.
Qed.

Lemma ADDR_WITHIN_out p a n : buffer_ok a n -> ~ (a <= p < a + n) -> ADDR_WITHIN p a n = false.
Proof. intros Hb Hn. apply not_true_is_false. intros Hw. by apply Hn, (ADDR_WITHIN_spec p a n Hb). Qed.

Lemma user_pointer_within pool hb hv db dv p :
  pool_mapped pool -> buffer_shared pool hb -> layout_ok db dv hb hv ->
  (in_pool pool p -> ADDR_WITHIN (ku_pointer pool p) (mi_uva hb) (mi_size hb) = true) /\
  (in_area pool hv p -> ku_pointer pool p = p /\ ADDR_WITHIN p (mi_uva hv) (mi_size hv) = true).
Proof.
  intros Hp [Eu Es] Hl. rewrite (ku_pointer_spec pool p Hp). split.
  - intros Hin. rewrite bool_decide_eq_true_2 by done. unfold in_pool in Hin.
    apply ADDR_WITHIN_spec; [apply (lo_hb _ _ _ _ Hl) | lia].
  - intros [Hn Hv]. rewrite bool_decide_eq_false_2 by done. split; [done|].
    by apply ADDR_WITHIN_spec; [apply (lo_hv _ _ _ _ Hl)|].
Qed.

Lemma pointer_device_addr pool hb hv db dv p :
  pool_mapped pool -> buffer_shared pool hb -> layout_ok db dv hb hv ->
  in_pool pool p \/ in_area pool hv p ->
  device_addr db dv pool hv p (rebased_at db dv hb hv (ku_pointer pool p)).
Proof.
  intros Hp Hb Hl Hc. destruct (user_pointer_within pool hb hv db dv p Hp Hb Hl) as [H1 H2].
  pose proof Hl as [L1 L2 L3 L4 L5]. pose proof Hb as [Eu Es]. unfold rebased_at.
  destruct Hc as [Hc|Hc].
  - left. split; [done|]. specialize (H1 Hc). rewrite H1.
    destruct (rebase_image db (mi_uva hb) (mi_size hb) _ L1 L3 H1) as [E _].
    rewrite (ku_pointer_spec pool p Hp), bool_decide_eq_true_2 in * by done. lia.
  - right. split; [done|]. destruct (H2 Hc) as [-> Hv].
    assert (ADDR_WITHIN p (mi_uva hb) (mi_size hb) = false) as ->.
    { apply not_true_is_false. intros Hw. by rewrite (L5 _ Hw) in Hv. }
    destruct (rebase_image dv (mi_uva hv) (mi_size hv) _ L2 L4 Hv) as [E _]. lia.
Qed.

Section addresses.
Context {W G : Type} `{DevFileSpec W, GpuLaws G, !GpuBase G, !ServiceCode G, !ServiceLaws G, MallocLaws}.
Implicit Types h : helper W G.

(** The helper with a new item for the request that it has read. *)
Definition with_item h (x : Z) : helper W G := store_sr h x zero_sr.

(** C17: a request's way to the GPU: the module hands it out with
    [fill_ku_request], [kh_init_service_request] takes it over, and
    [kh_request_alloc_mem] asks the back end for device pointers.  When input
    and output each point into the kernel's mapping of the memory pool or into
    the mapped area, the device pointers are at the same offsets in the
    corresponding device buffers of the back end (base 0 for OpenCL, [devbuf]
    and [devbuf4vma] for CUDA); so is that of the data when it points into one
    of the two, and otherwise, as for a NULL pointer, it is left alone.  The
    identifier and the sizes are those of the client.  (The requests that the
    back end takes: for CUDA, those with input and output in the pool and data
    not in the area.) *)
Theorem address_end_to_end h x pool req :
  let kureq := fill_ku_request pool req in
  let db := (be_base (gpu h)).1 in let dv := (be_base (gpu h)).2 in
  helper_wf h -> sritems h !! x = None -> length (rq_service_name req) = name_size ->
  service_of h (rq_service_name req) <> NULL ->
  (forall s, be_takes (hostbuf h) (hostvma h) (new_request kureq s)) ->
  (forall f g q g' q' r, run_service f g q = Ok (g', q', r) -> be_base g' = be_base g) ->
  pool_mapped pool -> buffer_shared pool (hostbuf h) -> layout_ok db dv (hostbuf h) (hostvma h) ->
  in_pool pool (rq_in req) \/ in_area pool (hostvma h) (rq_in req) ->
  in_pool pool (rq_out req) \/ in_area pool (hostvma h) (rq_out req) ->
  exists h1 q1 h2 q,
    kh_init_service_request x kureq (with_item h x) = Ok h1 /\ sritems h1 !! x = Some q1 /\
    kh_request_alloc_mem x h1 = Ok (h2, 0) /\ sritems h2 !! x = Some q /\
    sr_id q = rq_id req /\ sr_insize q = rq_insize req /\ sr_outsize q = rq_outsize req /\
    sr_datasize q = rq_udatasize req /\
    device_addr db dv pool (hostvma h) (rq_in req) (sr_din q) /\
    device_addr db dv pool (hostvma h) (rq_out req) (sr_dout q) /\
    (in_pool pool (rq_udata req) \/ in_area pool (hostvma h) (rq_udata req) ->
      device_addr db dv pool (hostvma h) (rq_udata req) (sr_ddata q)) /\
    (~ in_pool pool (rq_udata req) -> ~ in_buffer (hostbuf h) (rq_udata req) ->
     ~ in_buffer (hostvma h) (rq_udata req) -> sr_ddata q = sr_ddata q1).
Proof.
  intros kureq db dv Hwf Hx Hn Hs Ht Hbase Hp Hb Hl Hi Ho.
  destruct (kh_init_service_request_spec h (with_item h x) x kureq) as (h1 & E1 & _ & Hadm); [done..|].
  destruct Hadm as [Hz | s sv q1 r Es Hne Hsv Hr Ha]; [done|].
  destruct (run_service_law (sv_compute_size sv) (gpu h) (new_request kureq s) (hw_gpu h Hwf))
    as (g & q0 & r0 & Hr0 & [Hg _] & (Hid & _ & _ & Hbuf)).
  rewrite Hr in Hr0. injection Hr0 as <- <- <-.
  set (q2 := with_status q1 KGPU_REQ_INIT 0) in *.
  assert (Hq1 : sritems h1 !! x = Some q2) by (rewrite (ad_items _ _ _ _ _ Ha); apply lookup_insert_eq).
  assert (Hbuf2 : same_buffers (new_request kureq s) q2) by done.
  destruct (be_rebases (gpu h1) (hostbuf h1) (hostvma h1) q2) as (g' & Ea).
  { exact Hg. }
  { rewrite (ad_buf _ _ _ _ _ Ha), (ad_vma _ _ _ _ _ Ha). eapply be_takes_same; [exact Hbuf2 | apply Ht]. }
  rewrite (ad_buf _ _ _ _ _ Ha), (ad_vma _ _ _ _ _ Ha), (Hbase _ _ _ _ _ _ Hr) in Ea.
  fold db dv in Ea.
  pose proof (alloc_pointers_request db dv (hostbuf h) (hostvma h) q2)
    as (A1 & A2 & A3 & A4 & (_ & _ & _ & A5 & A6 & A7)).
  set (q3 := (alloc_pointers db dv (hostbuf h) (hostvma h) q2).1) in *.
  destruct Hbuf2 as (B1 & B2 & B3 & B4 & B5 & B6). simpl in B1, B2, B3, B4, B5, B6, Hid.
  eexists h1, q2, _, _. split; [exact E1|]. split; [exact Hq1|]. split.
  { unfold kh_request_alloc_mem, load_sr. rewrite Hq1. cbn [of_option mbind outcome_bind].
    rewrite (ad_buf _ _ _ _ _ Ha), (ad_vma _ _ _ _ _ Ha), Ea. reflexivity. }
  split; [apply lookup_insert_eq|].
  cbn [with_status sr_id sr_insize sr_outsize sr_datasize sr_din sr_dout sr_ddata].
  rewrite A1, A2, A3, A4, A5, A6, A7. cbn [q2 with_status sr_id sr_hin sr_hout sr_hdata sr_ddata sr_insize sr_outsize sr_datasize] in *.
  rewrite B1, B2, B3. split_and!; try done; [by apply pointer_device_addr..| |].
  - intros Hd. destruct (user_pointer_within pool (hostbuf h) (hostvma h) db dv (rq_udata req) Hp Hb Hl) as [W1 W2].
    assert (Hw : ADDR_WITHIN (ku_pointer pool (rq_udata req)) (mi_uva (hostbuf h)) (mi_size (hostbuf h)) ||
      ADDR_WITHIN (ku_pointer pool (rq_udata req)) (mi_uva (hostvma h)) (mi_size (hostvma h)) = true).
    { destruct Hd as [Hd|Hd]; [by rewrite W1 |]. destruct (W2 Hd) as [-> ->]. apply orb_true_r. }
    rewrite Hw. by apply pointer_device_addr.
  - intros Hnp Hnb Hnv. rewrite (ku_pointer_spec pool _ Hp), bool_decide_eq_false_2 by done.
    rewrite (ADDR_WITHIN_out _ _ _ (lo_hb _ _ _ _ Hl) Hnb), (ADDR_WITHIN_out _ _ _ (lo_hv _ _ _ _ Hl) Hnv). done.
Qed.

End addresses.

(** ** An example system

    Three clients: two requests for the test library's service, one of them
    submitted later, and one for a service that does not exist. *)

(** The four functions of srv_test.c do nothing and return 0. *)
Definition srv_test_run {G} (f : Z) (g : G) (q : kgpu_service_request) :
    outcome (G * kgpu_service_request * Z) := mret (g, q, 0).

#[global] Instance srv_test_code {G} : ServiceCode G := { run_service := srv_test_run }.

#[global] Instance srv_test_code_laws {G} `{GpuBackend G} : ServiceLaws G.
Proof. split. intros f g q Hg. by exists g, q, 0. Qed.

#[global] Instance fresh_malloc : Malloc := { malloc _ live := Some (fresh ({[NULL]} ∪ live)) }.

#[global] Instance fresh_malloc_laws : MallocLaws.
Proof.
  split. intros n live a [= <-] Hin. apply (is_fresh ({[NULL]} ∪ live)). set_solver.
Qed.

Lemma fresh_malloc_succeeds : malloc_succeeds.
Proof. by intros n live. Qed.

(** A CUDA driver for the examples: the registered addresses, and the number of
    queries that will still find unfinished work.  It refuses to register an
    address twice, and to unregister one that is not registered. *)
Definition card : Type := gset Z * nat.

#[global] Instance card_driver : CudaDriver card := {
  cudaHostRegister c p _ :=
    if bool_decide (p ∈ c.1) then (cudaErrorOther, c) else (cudaSuccess, ({[p]} ∪ c.1, c.2));
  cudaHostUnregister c p :=
    if bool_decide (p ∈ c.1) then (cudaSuccess, (c.1 ∖ {[p]}, c.2)) else (cudaErrorOther, c);
  cudaStreamQuery c _ :=
    match c.2 with O => (cudaSuccess, c) | S n => (cudaErrorNotReady, (c.1, n)) end
}.

#[global] Instance card_fine : CudaFine card := { cu_fine _ := True }.

#[global] Instance card_queries : CudaQueries card.
Proof.
  split. intros [r [|n]] s _; [by exists cudaSuccess, (r, O) | by exists cudaErrorNotReady, (r, n)].
Qed.

(** The test library on this card: launch and copy keep it busy for two more
    queries. *)
Definition busy (g : cuda_state card) : cuda_state card :=
  set_cuda g (cu_gpu g) ((cu_ctx g).1, (2 + (cu_ctx g).2)%nat).

#[global] Instance card_code : ServiceCode (cuda_state card) := {
  run_service f g q :=
    mret (if (f =? SrvTest.empty_launch) || (f =? SrvTest.empty_post) then busy g else g, q, 0)
}.

#[global] Instance card_code_laws : ServiceLaws (cuda_state card).
Proof.
  split. intros f g q [Hg _]. eexists _, q, 0. split; [done|].
  by destruct ((f =? SrvTest.empty_launch) || (f =? SrvTest.empty_post)).
Qed.

(** Each query that finds unfinished work uses up one of those to come. *)
Lemma card_patient S : patient (G := cuda_state card) S (fun g => (cu_ctx g).2).
Proof.
  split; intros [u [r n] db dv] q g' [Hg _] _ E; simpl in E; unfold cuda_finished in E;
    apply bind_ok in E as (s & _ & E); destruct n; injection E as <-; done || (simpl; lia).
Qed.

(** Requests that the CUDA back end takes, for callbacks that leave the module
    alone. *)
Definition taken_inv (hb hv : kgpu_gpu_mem_info) (l : list Z) (d : kgpu_dev) : Prop :=
  forall r q s, r ∈ l -> requests d !! r = Some q ->
    cuda_takes hb hv (new_request (fill_ku_request (gmpool d) q) s).

Lemma fill_errcode pool q q' :
  with_errcode 0 q' = with_errcode 0 q -> fill_ku_request pool q' = fill_ku_request pool q.
Proof. destruct q, q'. unfold with_errcode. simpl. intros [= -> -> -> -> -> -> -> -> -> -> ->]. done. Qed.

#[global] Instance quiet_callback_laws hb hv : CallbackLaws quiet_callback (taken_inv hb hv).
Proof.
  split.
  - intros l l' d d' Hi Hl (Hp & _ & _ & Hs) r q' s Hr Hq'. specialize (Hs r). rewrite Hq' in Hs.
    destruct (requests d !! r) as [q|] eqn:Hq; [|done]. apply (inj Some) in Hs.
    rewrite Hp, (fill_errcode _ q q' Hs). apply (Hi r q s); [by rewrite Hl | done].
  - intros l r q d Hi _ _ _ r' q' s Hr'. apply Hi. by right.
  - intros l f r q d Hi _ _ _. exists d. split_and!; try done.
    intros r' q' s Hr'. apply Hi. by right.
Qed.

Lemma quiet_taken hb hv :
  clients_taken (taken_inv hb hv) (G := cuda_state card) hb hv.
Proof. intros l d r q s Hi Hr Hq. by apply (Hi r). Qed.

Lemma all_served (cb_inv : list Z -> kgpu_dev -> Prop) (reg : registry) :
  clients_served cb_inv (fun _ => True) reg.
Proof. done. Qed.

(** ** From the module's start

    The states of the module that clients can reach are devices for the
    helper: nothing has to be assumed about identifiers and queues. *)

Lemma reachable_kdev cb_inv m :
  reachable m -> d_state (m_dev m) <> KGPU_TERMINATED -> cb_inv (queued (m_dev m)) (m_dev m) ->
  kdev_ok cb_inv (rid (m_dev m) <$> queued (m_dev m)) (mk_kdev (m_dev m) [] []).
Proof.
  intros Hm%reachable_inv Hst Hcb.
  assert (Ea : addrs (mk_kdev (m_dev m) [] []) = queued (m_dev m)).
  { unfold addrs, queued. simpl. by rewrite app_nil_r, fmap_app. }
  split; [done| | by rewrite Ea | | by rewrite Ea].
  - intros r. rewrite Ea. intros (q & Hq & Hcbq)%(mi_queued _ Hm). exists q.
    pose proof (mi_ids _ Hm) as Hi. split_and!.
    + split; [|done]. intros ->. pose proof (io_null _ _ Hi). simpl in *. congruence.
    + destruct (io_range _ _ Hi r q Hq) as [_ Ht]. destruct (ft_name _ Ht) as [Hl _].
      unfold name_size. rewrite <- Hl. by rewrite Nat2Z.id.
    + unfold callback_ok. destruct (rq_callback q) eqn:E; [done| |done].
      destruct (mi_wait _ Hm r _ (mi_sync _ Hm r q Hq E)) as (? & s & _ & _ & _ & Hs & _). eauto.
  - apply NoDup_fmap_2_strong; [|apply Hm]. intros x y Hx Hy E.
    destruct (mi_queued _ Hm x Hx) as (qx & Hqx & _), (mi_queued _ Hm y Hy) as (qy & Hqy & _).
    unfold rid in E. rewrite Hqx, Hqy in E. by eapply (io_inj _ _ (mi_ids _ Hm)).
Qed.

Definition sys_request (id : Z) (name : list Z) : kgpu_request :=
  mk_request id (2 ^ 24) (2 ^ 24 + 1024) (2 ^ 24 + 2048) 0 1024 1024 64 0 name (CB_client 1) 0.

Definition sys_dev : kgpu_dev :=
  mk_dev KGPU_OK 7 [mk_item 2000 1000] [] pool_example vm_example
    {[1000 := sys_request 5 SrvTest.empty_name; 1100 := sys_request 6 SrvTest.empty_name;
      1200 := sys_request 7 (repeat 65 32)]} [] ∅.

Definition sys_kdev : kdev :=
  mk_kdev sys_dev [[]; [(1100, 2100)]; []; [(1200, 2200)]] [].

Definition sys_hostbuf : kgpu_gpu_mem_info := mk_mem_info 4096 KGPU_BUF_SIZE.

Definition sys_hostvma : kgpu_gpu_mem_info := mk_mem_info (2 ^ 30) KGPU_BUF_SIZE.

Definition gpu_idle : gpu_state := mk_gpu [101; 102; 103; 104; 105; 106; 107; 108] (repeat 0 8) [].

Definition sys_helper {G} (g : G) : helper kdev G :=
  helper_start sys_hostbuf sys_hostvma registry_loaded g sys_kdev.

Definition cuda_idle : cuda_state card := mk_cuda gpu_idle (∅, O) (2 ^ 32) (2 ^ 33).

Definition sys_inv : list Z -> kgpu_dev -> Prop := taken_inv sys_hostbuf sys_hostvma.

#[local] Instance sys_file : DevFile kdev := kdev_file quiet_callback.
#[local] Instance sys_spec : DevFileSpec kdev := kdev_spec quiet_callback sys_inv [5; 6; 7].

Lemma sys_kdev_ok : kdev_ok sys_inv [5; 6; 7] sys_kdev.
Proof.
  split.
  - discriminate.
  - intros r Hr. change (addrs sys_kdev) with [1000; 1100; 1200] in Hr. set_unfold in Hr.
    destruct Hr as [->|[->|[->|[]]]]; eexists; (split; [split; [discriminate|reflexivity]|]); done.
  - reflexivity.
  - by apply (bool_decide_unpack _).
  - intros r q s Hr Hq. change (addrs sys_kdev) with [1000; 1100; 1200] in Hr. set_unfold in Hr.
    destruct Hr as [->|[->|[->|[]]]]; injection Hq as <-; by vm_compute.
Qed.

Lemma gpu_idle_unused i : stream_used gpu_idle i = false.
Proof.
  unfold stream_used. destruct (valid_stream i) eqn:E; [|done]. simpl.
  apply valid_stream_true in E. unfold MAX_STREAM_NR in E.
  assert (i = 0 \/ i = 1 \/ i = 2 \/ i = 3 \/ i = 4 \/ i = 5 \/ i = 6 \/ i = 7) as Hi by lia.
  by destruct_or! Hi; subst i.
Qed.

Lemma sys_helper_wf {G} `{GpuLaws G} (g : G) :
  be_wf g -> (forall i, be_used g i = false) ->
  (forall kureq s, dev_gives kureq -> be_takes (G := G) sys_hostbuf sys_hostvma (new_request kureq s)) ->
  helper_wf (sys_helper g).
Proof.
  intros Hg Hu Ht. apply helper_start_wf; [apply registry_loaded_wf | done | done | apply sys_kdev_ok | done | done].
Qed.

Lemma sys_taken kureq s : dev_gives kureq -> cuda_takes sys_hostbuf sys_hostvma (new_request kureq s).
Proof. exact (clients_gives quiet_callback sys_inv [5; 6; 7] _ _ (quiet_taken sys_hostbuf sys_hostvma) kureq s). Qed.

Lemma cuda_idle_wf : be_wf cuda_idle.
Proof. split; [by vm_compute | done]. Qed.

Lemma cuda_helper_wf : helper_wf (sys_helper cuda_idle).
Proof. apply sys_helper_wf; [exact cuda_idle_wf | apply gpu_idle_unused | exact sys_taken]. Qed.

Lemma opencl_helper_wf : helper_wf (sys_helper gpu_idle).
Proof. apply sys_helper_wf; [by vm_compute | apply gpu_idle_unused | done]. Qed.

(** *** Witnesses *)

(** The state after some rounds from the start. *)
Definition state_after {G} `{GpuBackend G} (n : nat) (g : G) : helper kdev G :=
  match kh_main_loop n (sys_helper g) with Ok h => h | Fault _ => sys_helper g end.

Lemma state_after_wf {G} `{GpuLaws G} n (g : G) :
  helper_wf (sys_helper g) -> helper_wf (state_after n g).
Proof.
  intros Hwf. unfold state_after. by destruct (loop_wf (sys_helper g) n Hwf) as (h & -> & Hh).
Qed.

Lemma main_loop_safe_witness :
  exists h', kh_main_loop 8 (sys_helper cuda_idle) = Ok h' /\ helper_wf h'.
Proof. apply (main_loop_safe (sys_helper cuda_idle) 8). exact cuda_helper_wf. Defined.

(** The state with one request to prepare, one to launch and one to answer. *)
Lemma process_all_advances_witness :
  queues (state_after 3 cuda_idle) Q_memdone <> [] /\
  queues (state_after 3 cuda_idle) Q_prepared <> [] /\
  queues (state_after 3 cuda_idle) Q_done <> [] /\
  exists h', process_all (state_after 3 cuda_idle) = Ok h' /\ helper_wf h' /\
    queues h' Q_init = [].
Proof.
  do 3 (split; [by vm_compute|]).
  destruct (process_all_advances (state_after 3 cuda_idle)) as (h' & E & W' & Hi & _);
    [exact (state_after_wf 3 cuda_idle cuda_helper_wf)|].
  exists h'. split; [exact E|]. split; [exact W' | exact Hi].
Defined.

Lemma next_request_admission_witness :
  exists h' r, kh_get_next_service_request (sys_helper cuda_idle) = Ok (h', r) /\ helper_wf h' /\
    next_effect (sys_helper cuda_idle) h' r.
Proof. apply (next_request_admission (sys_helper cuda_idle)). exact cuda_helper_wf. Defined.

(** The request for an unknown service is admitted as failed. *)
Example unknown_service_fails :
  match kh_main_loop 3 (sys_helper cuda_idle) with
  | Ok h => (fun x => sr_errcode <$> sritems h !! x) <$> queues h Q_done = [Some KGPU_NO_SERVICE]
  | Fault _ => False
  end.
Proof. by vm_compute. Qed.

Lemma launched_streams_exclusive_witness :
  exists h, kh_main_loop 5 (sys_helper cuda_idle) = Ok h /\ launched h <> [] /\
    NoDup (stream_of h <$> launched h) /\ Z.of_nat (length (launched h)) <= MAX_STREAM_NR.
Proof.
  destruct (launched_streams_exclusive sys_hostbuf sys_hostvma registry_loaded cuda_idle sys_kdev 5)
    as (h & E & Hnd & Hle & _);
    [exact registry_loaded_wf | exact cuda_idle_wf | exact gpu_idle_unused | exact sys_kdev_ok |
     reflexivity | exact sys_taken |].
  exists h. split; [exact E|]. split; [|split; [exact Hnd | exact Hle]].
  assert (Hc : match kh_main_loop 5 (sys_helper cuda_idle) with Ok h => launched h <> [] | Fault _ => False end)
    by (by vm_compute). change (kh_main_loop 5 (sys_helper cuda_idle) = Ok h) in E. rewrite E in Hc. exact Hc.
Defined.

Lemma opencl_never_answers_witness :
  exists x h' q, kh_main_loop 100 (state_after 5 gpu_idle) = Ok h' /\ x ∈ queues h' Q_running /\
    sritems h' !! x = Some q /\ sr_id q ∈ dev_out (devfd h').
Proof.
  exists (default 0 (head (queues (state_after 5 gpu_idle) Q_running))).
  apply (opencl_never_answers (state_after 5 gpu_idle)).
  - exact (state_after_wf 5 gpu_idle opencl_helper_wf).
  - vm_compute. left.
Defined.

(** The card reports unfinished work several times in this run. *)
Lemma system_answers_each_request_once_witness :
  exists n h', kh_main_loop n (sys_helper cuda_idle) = Ok h' /\
    answers (devfd h') ≡ₚ [5; 6; 7] /\
    rtdreqs (kd (devfd h')) = [] /\ reqs (kd (devfd h')) = [] /\ all_reqs h' = [].
Proof.
  destruct (system_answers_each_request_once quiet_callback sys_inv [5; 6; 7] (fun _ => True)
    (fun g => (cu_ctx g).2) (sys_helper cuda_idle)) as (n & h' & E & H1 & H2 & H3 & H4 & _);
    [exact cuda_helper_wf | by apply clients_serving | exact (card_patient _) | exact fresh_malloc_succeeds |].
  exists n, h'. split; [exact E|]. split; [exact H1|]. split; [exact H2|]. split; [exact H3 | exact H4].
Defined.

Example unfinished_work_is_seen :
  match kh_main_loop 7 (sys_helper cuda_idle), kh_main_loop 14 (sys_helper cuda_idle) with
  | Ok h, Ok h' => (cu_ctx (gpu h)).2 <> O /\ queues h Q_running <> [] /\ answers (devfd h') = [7; 6; 5]
  | _, _ => False
  end.
Proof. by vm_compute. Qed.

Lemma sys_layout db dv : 0 <= db < 2 ^ 40 -> 0 <= dv < 2 ^ 40 -> layout_ok db dv sys_hostbuf sys_hostvma.
Proof.
  intros Hdb Hdv.
  assert (Hb : mi_size sys_hostbuf = 2097152 /\ mi_size sys_hostvma = 2097152) by by vm_compute.
  destruct Hb as [E1 E2].
  assert (H1 : buffer_ok (mi_uva sys_hostbuf) (mi_size sys_hostbuf))
    by (unfold buffer_ok; rewrite E1; simpl; lia).
  assert (H2 : buffer_ok (mi_uva sys_hostvma) (mi_size sys_hostvma))
    by (unfold buffer_ok; rewrite E2; simpl; lia).
  split; [exact H1 | exact H2 | unfold buffer_ok; lia | unfold buffer_ok; lia|].
  intros p Hp. apply not_true_is_false. intros Hp'.
  apply ADDR_WITHIN_spec in Hp; [|exact H1]. apply ADDR_WITHIN_spec in Hp'; [|exact H2].
  rewrite E1 in Hp. rewrite E2 in Hp'. simpl in Hp, Hp'. lia.
Qed.

(** On CUDA, a request of the example without data. *)
Lemma address_end_to_end_witness :
  exists h1 h2 q,
    kh_init_service_request 3000 (fill_ku_request pool_example (sys_request 5 SrvTest.empty_name))
      (with_item (sys_helper cuda_idle) 3000) = Ok h1 /\
    kh_request_alloc_mem 3000 h1 = Ok (h2, 0) /\ sritems h2 !! 3000 = Some q /\
    sr_id q = 5 /\ sr_din q = 2 ^ 32 + 0 /\ sr_dout q = 2 ^ 32 + 1024.
Proof.
  destruct (address_end_to_end (sys_helper cuda_idle) 3000 pool_example (sys_request 5 SrvTest.empty_name))
    as (h1 & q1 & h2 & q & E1 & _ & E2 & E3 & F1 & _ & _ & _ & F2 & F3 & _).
  - exact cuda_helper_wf.
  - reflexivity.
  - reflexivity.
  - by vm_compute.
  - intros s. by vm_compute.
  - intros f g q g' q' r E. injection E as <- _ _. by destruct (_ || _).
  - split; [simpl; lia|]. split; unfold buffer_ok, PAGE_SIZE; simpl; lia.
  - by split.
  - apply sys_layout; simpl; lia.
  - left. unfold in_pool, PAGE_SIZE. simpl. lia.
  - left. unfold in_pool, PAGE_SIZE. simpl. lia.
  - exists h1, h2, q. split; [exact E1|]. split; [exact E2|]. split; [exact E3|]. split; [exact F1|].
    split.
    + destruct F2 as [[_ F2]|[[F2 _] _]]; [exact F2|]. destruct F2. unfold in_pool, PAGE_SIZE. simpl. lia.
    + destruct F3 as [[_ F3]|[[F3 _] _]]; [exact F3|]. destruct F3. unfold in_pool, PAGE_SIZE. simpl. lia.
Defined.

(** ** Failed requests and pinned memory *)

(** One request for the service [name] whose input is in the area mapped by
    the helper. *)
Definition vma_dev (name : list Z) : kdev :=
  mk_kdev (mk_dev KGPU_OK 5 [mk_item 2000 1000] [] pool_example vm_example
    {[1000 := mk_request 5 (2 ^ 30) (2 ^ 24) (2 ^ 24) 0 1024 1024 64 0 name (CB_client 1) 0]} [] ∅)
    [] [].

Definition vma_helper (name : list Z) : helper kdev (cuda_state card) :=
  helper_start sys_hostbuf sys_hostvma registry_loaded cuda_idle
    (vma_dev name).

(** A request for an unknown service whose input lies in the mapped area
    aborts the helper on CUDA: it is answered with KGPU_NO_SERVICE, and
    [kh_service_done] then unpins memory that was never pinned, because a
    failed request skips [gpu_alloc_device_mem].  The same request for a
    registered service is answered without a fault. *)
Theorem unknown_service_aborts_cuda_helper :
  kh_main_loop 2 (vma_helper (repeat 65 32)) = Fault Abort /\
  match kh_main_loop 12 (vma_helper SrvTest.empty_name) with
  | Ok h => answers (devfd h) = [5] /\ (cu_ctx (gpu h)).1 = ∅
  | Fault _ => False
  end.
Proof. split; by vm_compute. Qed.

(** ** The whole program from its start

    [main] with the test library in its directory, on the example device. *)
Lemma kh_main_runs_witness :
  exists h, kh_main cl_env_good cp_good co_good ke_good [46] cl_start (mk_registry [] ∅ ∅ [Some 24])
      sys_kdev 40 = Ok h /\ helper_wf h /\
    hostbuf h = mk_mem_info 4096 KGPU_BUF_SIZE /\ services (srv_reg h) = [24].
Proof.
  destruct (kh_main_runs cl_env_good cp_good co_good ke_good [46] [Some 24] sys_kdev 40)
    as (s & r & e & h & _ & _ & _ & El & _ & E & W' & Eb & _ & Er).
  - reflexivity.
  - split; [reflexivity|]. split; [reflexivity|]. vm_compute. lia.
  - unfold calls_ok. vm_compute. intuition congruence.
  - apply NoDup_singleton.
  - apply sys_kdev_ok.
  - reflexivity.
  - exists h. split; [exact E|]. split; [exact W'|]. split; [exact Eb|]. rewrite Er. vm_compute in El.
    by injection El as <- _.
Defined.

(** ** The helper on pointers *)

(** An allocator that puts each block behind all live ones. *)
Definition next_block (live : gset Z) : Z := foldr Z.max (2 ^ 20) (elements live) + sizeof_sritem.

#[local] Instance block_malloc : Malloc := {
  malloc _ live := let a := next_block live in
    if a + sizeof_sritem <? 2 ^ 64 then Some a else None
}.

(** The static list heads, one after the other. *)
Definition sys_lists (i : option queue) : Z :=
  match i with
  | None => 4096
  | Some Q_init => 4112
  | Some Q_memdone => 4128
  | Some Q_prepared => 4144
  | Some Q_running => 4160
  | Some Q_post_exec => 4176
  | Some Q_done => 4192
  end.

Lemma sys_lists_ok : heads_ok sys_lists.
Proof.
  split; [intros [[]|]; simpl; lia|]. intros [[]|] [[]|]; simpl; intros E; (done || lia).
Qed.

Lemma next_block_above live x : x ∈ live -> x + sizeof_sritem <= next_block live.
Proof.
  intros Hx%elem_of_elements. unfold next_block.
  induction (elements live) as [|y l IH]; [by apply not_elem_of_nil in Hx|].
  apply elem_of_cons in Hx as [->|Hx]; simpl; [lia|]. specialize (IH Hx). lia.
Qed.

Lemma next_block_base live : 2 ^ 20 + sizeof_sritem <= next_block live.
Proof. unfold next_block. induction (elements live) as [|y l IH]; simpl in *; lia. Qed.

#[local] Instance block_malloc_blocks : MallocBlocks sys_lists.
Proof.
  split. intros n live a Ha Hb. unfold malloc, block_malloc in Ha.
  destruct (Z.ltb_spec (next_block live + sizeof_sritem) (2 ^ 64)) as [Hlt|]; [|done].
  injection Ha as <-. pose proof (next_block_above live) as Hab. pose proof (next_block_base live).
  change sizeof_sritem with 160 in *. split; [intros Hin%Hab; lia|].
  destruct Hb as [B1 B2 B3]. change sizeof_sritem with 160 in *. split; change sizeof_sritem with 160.
  - intros x [->%elem_of_singleton|Hx]%elem_of_union; [lia | by apply B1].
  - intros x y [->%elem_of_singleton|Hx]%elem_of_union [->%elem_of_singleton|Hy]%elem_of_union Hne;
      [done | specialize (Hab _ Hy); lia | specialize (Hab _ Hx); lia | by apply B2].
  - intros i x [->%elem_of_singleton|Hx]%elem_of_union; [|by apply B3].
    left. change (sizeof list_head_fields) with 16. destruct i as [[]|]; simpl; lia.
Qed.

#[local] Instance block_malloc_laws : MallocLaws.
Proof.
  split. intros n live a Ha Hin. unfold malloc, block_malloc in Ha.
  destruct (Z.ltb_spec (next_block live + sizeof_sritem) (2 ^ 64)); [|done].
  injection Ha as <-. pose proof (next_block_above live _ Hin). change sizeof_sritem with 160 in *. lia.
Qed.

Lemma pointer_helper_refines_witness :
  exists p' h', p_main_loop sys_lists 8 (mk_ph (static_heads sys_lists) (sys_helper cuda_idle)) = Ok p' /\
    kh_main_loop 8 (sys_helper cuda_idle) = Ok h' /\ rep sys_lists p' h'.
Proof.
  apply (pointer_helper_refines sys_lists); [exact sys_lists_ok | exact registry_loaded_wf |
    exact cuda_idle_wf | exact gpu_idle_unused | exact sys_kdev_ok | done | exact sys_taken].
Defined.

(** After three rounds all three requests are linked in [all_reqs], and the
    one for the unknown service is in [done_reqs]; after sixteen all are gone. *)
Example pointer_helper_runs :
  match p_main_loop sys_lists 3 (mk_ph (static_heads sys_lists) (sys_helper cuda_idle)),
        p_main_loop sys_lists 16 (mk_ph (static_heads sys_lists) (sys_helper cuda_idle)) with
  | Ok p, Ok p' =>
      list_size (ph_nodes p) 4 4096 = Ok 3 /\ list_size (ph_nodes p) 2 4192 = Ok 1 /\
      list_empty (ph_nodes p') 4096 = Ok true /\ size (ph_nodes p') = 7%nat
  | _, _ => False
  end.
Proof. by vm_compute. Qed.
