(* ===== verification/SystemCodes.v ===== *)
(** * The answers that the module gets

    The device of System keeps the names of the services that its requests
    ask for, and so each request is answered with the code of its service. *)

From S2P Require Import Prelude KgpuDefs ListHead Ranges UnitAlloc MemPool MmapArea Device Module.
From S2P Require Import GpuOps ItemList Services Helper HelperInv HelperLoop HelperThms HelperLive HelperCodes.
From S2P Require Import System SystemThms.

(** ** The names of the requests *)

Section names.
Context (client_callback : Z -> Z -> kgpu_dev -> outcome kgpu_dev) (cb_inv : list Z -> kgpu_dev -> Prop)
  `{!CallbackLaws client_callback cb_inv}.
Context (names : Z -> list Z).

Definition named_inv (l : list Z) (d : kgpu_dev) : Prop :=
  cb_inv l d /\
  forall r q, r ∈ l -> requests d !! r = Some q -> rq_service_name q = names (rq_id q).

#[export] Instance named_laws : CallbackLaws client_callback named_inv.
Proof using CallbackLaws0.
  split.
  - intros l l' d d' [Hi Hn] Hl Hs. split; [by eapply inv_frame|].
    intros r q' Hr Hq'. destruct Hs as (_ & _ & _ & Hs). specialize (Hs r). rewrite Hq' in Hs.
    destruct (requests d !! r) as [q|] eqn:Hq; [|done]. simpl in Hs. apply (inj Some) in Hs.
    rewrite <- Hl in Hr. specialize (Hn r q Hr Hq).
    destruct q, q'. unfold with_errcode in Hs. simpl in *. congruence.
  - intros l r q d [Hi Hn] Hr Hq Hcb. split; [by eapply inv_sync|].
    intros x y Hx. apply Hn. by right.
  - intros l f r q d [Hi Hn] Hr Hq Hcb.
    destruct (callback_law _ _ l f r q d Hi Hr Hq Hcb) as (d' & E & E1 & E2 & E3 & E4 & Hreq & Hi').
    exists d'. split_and!; try done. split; [done|]. intros x y Hx Hy. rewrite Hreq in Hy by congruence.
    apply (Hn x y); [by right | done].
Qed.

Context (ids : list Z).

#[local] Instance named_file : DevFile kdev := kdev_file client_callback.
#[local] Instance named_spec : DevFileSpec kdev := kdev_spec client_callback named_inv ids.

(** A request that the module hands out is a queued one. *)
Lemma kdev_read_queued w count w' r kureq :
  kdev_ok named_inv ids w -> kdev_read w count = Ok (w', (r, Some kureq)) ->
  exists w2 (x : Z) q, kdev_ok named_inv ids w2 /\ answers w2 = answers w /\ x ∈ addrs w2 /\
    requests (kd w2) !! x = Some q /\
    kr_id kureq = rq_id q /\ kr_service_name kureq = rq_service_name q.
Proof.
  intros Hok E. destruct w as [d bs l]. unfold kdev_read in E. cbn [kd arrivals answers] in E.
  pose proof (next_batch_submitted client_callback named_inv ids d bs l Hok) as Hs1.
  destruct (next_batch d bs) as [d1 bs1].
  destruct (wait_request_submitted client_callback named_inv ids d1 bs1 l (proj1 Hs1)) as [Hs2 _].
  destruct (wait_request d1 bs1) as [d2 bs2]. simpl in Hs2. destruct Hs2 as [Hok2 _].
  unfold kgpu_read in E. destruct (reqs d2) as [|item rest] eqn:Er; [by cbn in E; injection E|].
  apply bind_ok in E as ([d3 res] & E3 & E). apply bind_ok in E3 as (q & Hq & E3).
  injection E3 as <- <-. injection E as <- _ <-.
  exists (mk_kdev d2 bs2 l), (it_r item), q. split_and!; try done.
  - unfold addrs. simpl. rewrite Er. clear. set_solver.
  - unfold load_req in Hq. case_bool_decide; [done|]. simpl in *.
    destruct (requests d2 !! it_r item); [by injection Hq as <- | done].
Qed.

(** It has the name that belongs to its identifier, and was not answered
    before. *)
Lemma kdev_read_name w count w' r kureq :
  kdev_ok named_inv ids w -> kdev_read w count = Ok (w', (r, Some kureq)) ->
  kr_service_name kureq = names (kr_id kureq) /\ kr_id kureq ∉ answers w.
Proof.
  intros Hok E. destruct (kdev_read_queued w count w' r kureq Hok E) as (w2 & x & q & Hok2 & Ea & Hx & Hq & -> & ->).
  split; [by eapply (ko_inv _ _ _ Hok2)|]. rewrite <- Ea. intros Hin.
  pose proof (ko_nodup _ _ _ Hok2) as Hnd. rewrite <- (ko_ids _ _ _ Hok2) in Hnd.
  apply NoDup_app in Hnd as (_ & Hd & _). apply (Hd (rq_id q) Hin). apply list_elem_of_fmap.
  exists x. split; [|done]. unfold rid. by rewrite Hq.
Qed.

#[export] Program Instance kdev_trace : DevTrace kdev names := { dev_answers := answers }.
Next Obligation.
  intros [d bs l] block w' r _ E. unfold sys_poll, named_file, kdev_file, kdev_poll in E.
  destruct (next_batch _ _) as [d1 bs1]. destruct (if block then _ else _) as [d2 bs2].
  by injection E as <- _.
Qed.
Next Obligation.
  intros [d bs l] count w' r kureq Hok E. split; [|by apply (kdev_read_name _ count w' r)].
  unfold sys_read, named_file, kdev_file, kdev_read in E.
  destruct (next_batch _ _) as [d1 bs1]. destruct (wait_request _ _) as [d2 bs2].
  apply bind_ok in E as ([d3 [ret c s|]] & _ & E); [|done]. by injection E as <- _ _.
Qed.
Next Obligation.
  intros [d bs l] count w' r Hok E. unfold sys_read, named_file, kdev_file, kdev_read in E.
  destruct (next_batch _ _) as [d1 bs1]. destruct (wait_request _ _) as [d2 bs2].
  apply bind_ok in E as ([d3 [ret c s|]] & _ & E); [|done]. by injection E as <- _ _.
Qed.
Next Obligation.
  intros [d bs l] resp count w' r Hok E Hr. unfold sys_write, named_file, kdev_file, kdev_write in E.
  destruct (next_batch _ _) as [d1 bs1]. apply bind_ok in E as ([d2 ret] & _ & E).
  injection E as <- <-. unfold user_result in Hr. simpl.
  by destruct (ret <? 0).
Qed.

Context {G : Type} `{GpuLaws G, !ServiceCode G, !ServiceLaws G, MallocLaws}.

Lemma logged_codes reg (l : list kgpu_ku_response) :
  (forall resp, resp ∈ l -> ks_errcode resp = code_of reg (names (ks_id resp))) ->
  l = (fun id => mk_ku_response id (code_of reg (names id))) <$> (ks_id <$> l).
Proof.
  intros Hl. rewrite <- list_fmap_compose. rewrite <- (list_fmap_id l) at 1.
  apply list_fmap_ext. intros i resp Hi. apply list_elem_of_lookup_2, Hl in Hi.
  destruct resp. simpl in *. by rewrite <- Hi.
Qed.

(** What is known of the clients' requests is known of those with names. *)
Lemma named_taken hb hv :
  clients_taken cb_inv (G := G) hb hv -> clients_taken named_inv (G := G) hb hv.
Proof. intros Ht l d r q s [Hi _]. by apply (Ht l). Qed.

Lemma named_served S reg : clients_served cb_inv S reg -> clients_served named_inv S reg.
Proof. intros Hs l d r q [Hi _]. by apply (Hs l d r). Qed.

(** The helper at its start, with a log. *)
Lemma logged_start S hb hv reg (g : G) w :
  kdev_ok named_inv ids w -> kdev_out w = ∅ -> registry_wf reg -> be_wf g ->
  (forall i, be_used g i = false) -> clients_taken cb_inv (G := G) hb hv -> clients_served cb_inv S reg ->
  helper_wf (helper_start hb hv reg g (w, []) : helper (logged kdev) G) /\
  serving S (helper_start hb hv reg g (w, []) : helper (logged kdev) G).
Proof.
  intros Hw Ho Hreg Hg Hu Ht Hs. split.
  - apply helper_start_wf; try done. intros kureq s.
    exact (clients_gives client_callback named_inv ids hb hv (named_taken hb hv Ht) kureq s).
  - split; [intros Q x q _ Hx; by apply not_elem_of_nil in Hx|].
    apply (se_gives S _ (clients_serving client_callback named_inv ids S hb hv reg g w (named_served S reg Hs))).
Qed.

(** All requests are answered, each with the code of the name it asks for. *)
Lemma system_codes S backlog hb hv reg g w :
  kdev_ok named_inv ids w -> kdev_out w = ∅ -> answers w = [] ->
  registry_wf reg -> be_wf g -> (forall i, be_used g i = false) ->
  clients_taken cb_inv (G := G) hb hv -> clients_served cb_inv S reg ->
  patient (G := G) S backlog -> malloc_succeeds -> services_succeed (G := G) ->
  exists n h', kh_main_loop n (helper_start hb hv reg g (w, [])) = Ok h' /\
    (devfd h').2 ≡ₚ (fun id => mk_ku_response id (code_of reg (names id))) <$> ids /\
    rtdreqs (kd (devfd h').1) = [] /\ reqs (kd (devfd h').1) = [] /\
    cb_inv [] (kd (devfd h').1).
Proof.
  intros Hw Ho Ha Hreg Hg Hu Ht Hs Hpat Hmal Hsucc.
  set (h := helper_start hb hv reg g (w, []) : helper (logged kdev) G).
  destruct (logged_start S hb hv reg g w Hw Ho Hreg Hg Hu Ht Hs) as [Hwf Hse].
  destruct (loop_answers_all S backlog Hpat h Hwf Hse Hmal) as (n & h' & E & W' & Hall & Hout & Hpe).
  assert (Hc : coded names reg [] h).
  { split; simpl; [done | | | by rewrite Ha].
    - intros x q Hx. by rewrite lookup_empty in Hx.
    - intros resp Hr. by apply elem_of_nil in Hr. }
  destruct (loop_coded names reg [] Hsucc n h h' Hwf Hc E) as [_ [_ _ Hlog Hans]].
  destruct (kdev_finished client_callback named_inv ids (devfd h').1 (hw_dev h' W') Hout Hpe)
    as (Hids & H1' & H2' & [H3' _]).
  exists n, h'. split; [done|]. split; [|done].
  pose proof (logged_codes reg _ Hlog) as El. simpl in Hans. rewrite <- Hans in El.
  etransitivity; [exact (reflexive_eq _ _ El)|]. apply fmap_Permutation, Hids.
Qed.

End names.

(** ** From the module *)

Definition request_name (d : kgpu_dev) (r : Z) : list Z :=
  default [] (rq_service_name <$> requests d !! r).

(** The answer that the request at [r] must get. *)
Definition answer_to (reg : registry) (d : kgpu_dev) (r : Z) : kgpu_ku_response :=
  mk_ku_response (rid d r) (code_of reg (request_name d r)).

(** The name that the request of an identifier asks for. *)
Definition name_of_id (d : kgpu_dev) (id : Z) : list Z :=
  default [] ((fun p => rq_service_name p.2) <$>
    head (filter (fun p => rq_id p.2 = id) (map_to_list (requests d)))).

Lemma name_of_id_spec d n r q :
  ids_ok d n -> requests d !! r = Some q -> name_of_id d (rq_id q) = rq_service_name q.
Proof.
  intros Hi Hq. unfold name_of_id.
  assert (Hin : (r, q) ∈ filter (fun p : Z * kgpu_request => rq_id p.2 = rq_id q) (map_to_list (requests d))).
  { apply list_elem_of_filter. split; [done | by apply elem_of_map_to_list]. }
  destruct (filter _ _) as [|[r' q'] rest] eqn:E; [by apply elem_of_nil in Hin|].
  assert (Hin' : (r', q') ∈ (r', q') :: rest) by left. rewrite <- E in Hin'.
  apply list_elem_of_filter in Hin' as [Eid Hq']. apply elem_of_map_to_list in Hq'. simpl in Eid.
  assert (r' = r) as -> by by eapply (io_inj _ _ Hi). simpl. congruence.
Qed.

Section from_module.
Context (client_callback : Z -> Z -> kgpu_dev -> outcome kgpu_dev) (cb_inv : list Z -> kgpu_dev -> Prop)
  `{!CallbackLaws client_callback cb_inv}.
Context {G : Type} `{GpuLaws G, !ServiceCode G, !ServiceLaws G, MallocLaws}.

#[local] Instance codes_file : DevFile kdev := kdev_file client_callback.

(** C3: the answers that the module accepts from the helper are, for any
    state that clients can bring it to, exactly one for each queued request,
    with its identifier and with the code that its service deserves:
    KGPU_NO_SERVICE when no service of the name it asks for is registered, and
    0 when there is one (of services whose functions return 0).  For requests
    that the back end takes and whose work on the GPU ends, and a [malloc]
    that succeeds. *)
Theorem answers_have_codes S backlog m hb hv reg g :
  reachable m -> d_state (m_dev m) <> KGPU_TERMINATED -> rtdreqs (m_dev m) = [] ->
  cb_inv (queued (m_dev m)) (m_dev m) ->
  registry_wf reg -> be_wf g -> (forall i, be_used g i = false) ->
  clients_taken cb_inv (G := G) hb hv -> clients_served cb_inv S reg ->
  patient (G := G) S backlog -> malloc_succeeds -> services_succeed (G := G) ->
  exists n h', kh_main_loop n (helper_start hb hv reg g (mk_kdev (m_dev m) [] [], [])) = Ok h' /\
    (devfd h').2 ≡ₚ answer_to reg (m_dev m) <$> queued (m_dev m) /\
    rtdreqs (kd (devfd h').1) = [] /\ reqs (kd (devfd h').1) = [] /\
    cb_inv [] (kd (devfd h').1).
Proof.
  intros Hr Hst Hrt Hcb Hreg Hg Hu Ht Hs Hpat Hmal Hsucc. pose proof (reachable_inv _ Hr) as Hm.
  set (names := name_of_id (m_dev m)).
  assert (Hn : forall r q, requests (m_dev m) !! r = Some q -> rq_service_name q = names (rq_id q)).
  { intros r q Hq. symmetry. eapply name_of_id_spec; [apply Hm | done]. }
  destruct (system_codes client_callback cb_inv names (rid (m_dev m) <$> queued (m_dev m)) S backlog hb hv reg g
    (mk_kdev (m_dev m) [] [])) as (n & h' & E & Hlog & Hrest); try done.
  - apply reachable_kdev; [done..|]. split; [done|]. eauto.
  - unfold kdev_out. simpl. by rewrite Hrt.
  - exists n, h'. split; [exact E|]. split; [|exact Hrest].
    etransitivity; [exact Hlog|]. rewrite <- list_fmap_compose. apply reflexive_eq.
    apply list_fmap_ext. intros i r Hi. apply list_elem_of_lookup_2 in Hi.
    destruct (mi_queued _ Hm r Hi) as (q & Hq & _).
    unfold answer_to, request_name, rid. simpl. rewrite Hq. simpl. by rewrite (Hn r q Hq).
Qed.

End from_module.

(** ** An example *)

Lemma card_succeeds : services_succeed (G := cuda_state card).
Proof. intros f g g' q q' r E. by injection E as _ -> <-. Qed.

Lemma module_queued_taken : sys_inv (queued (m_dev module_queued)) (m_dev module_queued).
Proof.
  intros r q s ->%list_elem_of_singleton Hq. simpl in Hq. rewrite lookup_insert_eq in Hq.
  injection Hq as <-. by vm_compute.
Qed.

Lemma answers_have_codes_witness :
  exists n h', kh_main_loop (W := logged kdev) (H := logged_file (H := kdev_file quiet_callback)) n
      (helper_start sys_hostbuf sys_hostvma registry_loaded cuda_idle
         (mk_kdev (m_dev module_queued) [] [], [])) = Ok h' /\
    (devfd h').2 ≡ₚ [mk_ku_response 1 KGPU_NO_SERVICE].
Proof.
  destruct (answers_have_codes quiet_callback sys_inv (fun _ => True) (fun g => (cu_ctx g).2)
    module_queued sys_hostbuf sys_hostvma registry_loaded cuda_idle) as (n & h' & E & Hlog & _).
  - exact module_queued_reachable.
  - discriminate.
  - reflexivity.
  - exact module_queued_taken.
  - exact registry_loaded_wf.
  - exact cuda_idle_wf.
  - exact gpu_idle_unused.
  - exact (quiet_taken _ _).
  - exact (all_served _ _).
  - exact (card_patient _).
  - exact fresh_malloc_succeeds.
  - exact card_succeeds.
  - exists n, h'. split; [exact E|].
    replace [mk_ku_response 1 KGPU_NO_SERVICE]
      with (answer_to registry_loaded (m_dev module_queued) <$> queued (m_dev module_queued))
      by (by vm_compute). exact Hlog.
Defined.

(** The three requests of the example system: two are for the service of the
    test library, and the third for one that does not exist. *)
Example example_codes :
  match kh_main_loop (W := logged kdev) (H := logged_file (H := kdev_file quiet_callback)) 14
          (helper_start sys_hostbuf sys_hostvma registry_loaded cuda_idle (sys_kdev, [])) with
  | Ok h => (devfd h).2 =
      [mk_ku_response 7 KGPU_NO_SERVICE; mk_ku_response 6 0; mk_ku_response 5 0]
  | Fault _ => False
  end.
Proof. by vm_compute. Qed.
