(* ===== verification/SystemTrace.v ===== *)
(** * What is done for each request of the module

    The trace of HelperTrace, for the module and the helper together: every
    queued request is worked on in the order of the pipeline, and answered
    with the code that this work ended with, for any services. *)

From S2P Require Import Prelude KgpuDefs ListHead Ranges UnitAlloc MemPool MmapArea Device Module.
From S2P Require Import GpuOps ItemList Services Helper HelperInv HelperLoop HelperThms HelperLive HelperCodes.
From S2P Require Import HelperTrace HelperErase System SystemThms SystemCodes.

#[local] Existing Instance traced_code | 0.

#[local] Existing Instance traced_code_laws | 0.

Section from_module.
Context (client_callback : Z -> Z -> kgpu_dev -> outcome kgpu_dev) (cb_inv : list Z -> kgpu_dev -> Prop)
  `{!CallbackLaws client_callback cb_inv}.
Context {G : Type} `{GpuLaws G, !ServiceCode G, !ServiceLaws G, MallocLaws}.

#[local] Instance trace_file : DevFile kdev := kdev_file client_callback.

(** The helper at its end: all requests are answered, and served. *)
Lemma system_served S backlog names ids hb hv reg g w :
  kdev_ok (named_inv cb_inv names) ids w -> kdev_out w = ∅ -> answers w = [] ->
  registry_wf reg -> be_wf g -> (forall i, be_used g i = false) ->
  clients_taken cb_inv (G := G) hb hv -> clients_served cb_inv S reg ->
  patient (G := G) S backlog -> malloc_succeeds ->
  exists n (h' : helper (logged kdev) (traced G)),
    kh_main_loop n (helper_start hb hv reg (g, []) (w, [])) = Ok h' /\
    ks_id <$> (devfd h').2 ≡ₚ ids /\
    (forall resp, resp ∈ (devfd h').2 ->
       served (known_service reg (names (ks_id resp))) (ks_errcode resp) (events (ks_id resp) (gpu h').2)) /\
    (forall id, id ∉ ids -> events id (gpu h').2 = []).
Proof.
  intros Hw Ho Ha Hreg Hg Hu Ht Hs Hpat Hmal.
  pose (D := kdev_spec client_callback (named_inv cb_inv names) ids).
  pose (T := kdev_trace client_callback cb_inv names ids).
  set (h := helper_start hb hv reg (g, []) (w, []) : helper (logged kdev) (traced G)).
  assert (helper_wf h /\ serving S h) as [Hwf Hse]
    by (by apply (logged_start client_callback cb_inv names ids S hb hv reg (g, []) w)).
  destruct (loop_answers_all S _ (traced_patient S backlog Hpat) h Hwf Hse Hmal)
    as (n & h' & E & W' & _ & Hout & Hpe).
  assert (Hot : on_track names reg h) by (by apply start_tracks).
  destruct (loop_tracks names reg n h h' Hwf Hot E)
    as [_ [_ _ _ Hlog Hnone _ Hans]].
  destruct (kdev_finished client_callback (named_inv cb_inv names) ids (devfd h').1 (hw_dev h' W') Hout Hpe)
    as [Hids _].
  exists n, h'. split; [done|]. simpl in Hans. split; [by rewrite <- Hids, Hans|].
  split; [done|]. intros id Hid. apply Hnone; [by rewrite Hout | by rewrite <- Hans, Hids].
Qed.

(** C2: from any state that clients can bring the module to, the helper (with
    the services' own functions, whatever they return) ends with one answer
    for each queued request; for each of them the GPU and the service were
    used in the order of the pipeline: sizes, device memory, a stream, the
    copy in, the launch, the end of the kernel, the copy back and its end,
    and then memory and stream were given back.  The work stops early only at
    a function that fails, and then its result is the code of the answer; a
    request for an unknown service is not worked on and gets KGPU_NO_SERVICE.
    Nothing is done for any other identifier, and the run is that of the
    helper without log and trace.  For requests that the back end takes and
    whose work on the GPU ends, and a [malloc] that succeeds. *)
Theorem requests_served_in_order S backlog m hb hv reg g :
  reachable m -> d_state (m_dev m) <> KGPU_TERMINATED -> rtdreqs (m_dev m) = [] ->
  cb_inv (queued (m_dev m)) (m_dev m) ->
  registry_wf reg -> be_wf g -> (forall i, be_used g i = false) ->
  clients_taken cb_inv (G := G) hb hv -> clients_served cb_inv S reg ->
  patient (G := G) S backlog -> malloc_succeeds ->
  exists n (h' : helper (logged kdev) (traced G)),
    kh_main_loop n (helper_start hb hv reg g (mk_kdev (m_dev m) [] [])) = Ok (erase h') /\
    kh_main_loop n (helper_start hb hv reg (g, []) (mk_kdev (m_dev m) [] [], [])) = Ok h' /\
    ks_id <$> (devfd h').2 ≡ₚ rid (m_dev m) <$> queued (m_dev m) /\
    (forall r, r ∈ queued (m_dev m) -> exists code,
       mk_ku_response (rid (m_dev m) r) code ∈ (devfd h').2 /\
       served (known_service reg (request_name (m_dev m) r)) code
         (events (rid (m_dev m) r) (gpu h').2)) /\
    (forall id, id ∉ rid (m_dev m) <$> queued (m_dev m) -> events id (gpu h').2 = []).
Proof.
  intros Hr Hst Hrt Hcb Hreg Hg Hu Ht Hs Hpat Hmal. pose proof (reachable_inv _ Hr) as Hm.
  set (names := name_of_id (m_dev m)).
  assert (Hn : forall r q, requests (m_dev m) !! r = Some q -> rq_service_name q = names (rq_id q)).
  { intros r q Hq. symmetry. eapply name_of_id_spec; [apply Hm | done]. }
  destruct (system_served S backlog names (rid (m_dev m) <$> queued (m_dev m)) hb hv reg g (mk_kdev (m_dev m) [] []))
    as (n & h' & E & Hids & Hlog & Hnone); try done.
  - apply reachable_kdev; [done..|]. split; [done|]. eauto.
  - unfold kdev_out. simpl. by rewrite Hrt.
  - exists n, h'. split; [exact (loop_erases n _ h' E)|]. split_and!; try done. intros r Hrq.
    assert (Hin : rid (m_dev m) r ∈ ks_id <$> (devfd h').2).
    { rewrite Hids. apply list_elem_of_fmap. eauto. }
    apply list_elem_of_fmap in Hin as ([id code] & Eid & Hin). simpl in Eid. subst id.
    exists code. split; [done|]. specialize (Hlog _ Hin). simpl in Hlog.
    destruct (mi_queued _ Hm r Hrq) as (q & Hq & _).
    replace (request_name (m_dev m) r) with (names (rid (m_dev m) r)); [done|].
    unfold request_name, rid. rewrite Hq. simpl. symmetry. by apply (Hn r q).
Qed.

End from_module.

(** ** Examples *)

(** A registry with the service that the request of [module_queued] names. *)
Definition service_a : kgpu_service := mk_service (repeat 65 32) 4 11 12 13 14.

Definition registry_a : registry :=
  mk_registry [20] {[20 := mk_sitem 7000 NULL]} {[7000 := service_a]} [].

Lemma registry_a_wf : registry_wf registry_a.
Proof.
  split; simpl.
  - apply NoDup_singleton.
  - intros e ->%list_elem_of_singleton. by exists (mk_sitem 7000 NULL), service_a.
  - intros e [i Hi]. apply lookup_singleton_Some in Hi as [<- _]. left.
Qed.

Lemma requests_served_in_order_witness :
  known_service registry_a (repeat 65 32) = Some service_a /\
  exists n h', kh_main_loop (W := logged kdev) (H := logged_file (H := kdev_file quiet_callback)) n
      (helper_start sys_hostbuf sys_hostvma registry_a (cuda_idle, [])
         (mk_kdev (m_dev module_queued) [] [], [])) = Ok h' /\
    exists code, mk_ku_response 1 code ∈ (devfd h').2 /\
      served (Some service_a) code (events 1 (gpu h').2).
Proof.
  split; [by vm_compute|].
  destruct (requests_served_in_order quiet_callback sys_inv (fun _ => True) (fun g => (cu_ctx g).2)
    module_queued sys_hostbuf sys_hostvma registry_a cuda_idle) as (n & h' & _ & E & _ & Hs & _).
  - exact module_queued_reachable.
  - discriminate.
  - reflexivity.
  - exact module_queued_taken.
  - exact registry_a_wf.
  - exact cuda_idle_wf.
  - exact gpu_idle_unused.
  - exact (quiet_taken _ _).
  - exact (all_served _ _).
  - exact (card_patient _).
  - exact fresh_malloc_succeeds.
  - exists n, h'. split; [exact E|]. apply (Hs 1000). left.
Defined.

(** Services of which the launch of the test library fails with 7 for the
    request with identifier 6. *)
Definition picky_code {G} : ServiceCode G := {|
  run_service f g q :=
    mret (g, q, if (f =? SrvTest.empty_launch) && (sr_id q =? 6) then 7 else 0)
|}.

(** The three requests of the example system: the first is served to its end,
    the second fails at its launch, and the third has no service. *)
Example example_traces :
  match kh_main_loop (W := logged kdev) (H := logged_file (H := kdev_file quiet_callback))
          (H1 := traced_code (H := picky_code)) 10
          (helper_start sys_hostbuf sys_hostvma registry_loaded (cuda_idle, []) (sys_kdev, [])) with
  | Ok h => (devfd h).2 =
        [mk_ku_response 7 KGPU_NO_SERVICE; mk_ku_response 6 7; mk_ku_response 5 0] /\
      events 5 (gpu h).2 =
        [EvRun SrvTest.empty_cs 0 0; EvMem; EvStream 0; EvRun SrvTest.empty_prepare 0 0;
         EvRun SrvTest.empty_launch 0 0; EvExecuted; EvRun SrvTest.empty_post 0 0; EvPosted;
         EvFreeMem; EvFreeStream 0] /\
      events 6 (gpu h).2 =
        [EvRun SrvTest.empty_cs 0 0; EvMem; EvStream 1; EvRun SrvTest.empty_prepare 0 0;
         EvRun SrvTest.empty_launch 7 0; EvFreeMem; EvFreeStream 1] /\
      events 7 (gpu h).2 = [EvFreeMem; EvFreeStream (-1)]
  | Fault _ => False
  end.
Proof. by vm_compute. Qed.
