(* ===== verification/Clients.v ===== *)
(** * The client modules of the repository
      (src/services/test/callgpu/callgpu.c, src/services/test/calg2/calg2.c,
      src/services/test/sysbm/sysbm.c)

    The modules that call KGPU from the kernel: their entry points and the
    callbacks they give to their requests.  Pages come from Linux ([page],
    [__pa] and [free_page] of calg2 are not state of the module), and so do
    the objects of the slab caches, as in Device. *)

From Stdlib Require Import String.
From S2P Require Import Prelude KgpuDefs Log ListHead Ranges UnitAlloc MemPool MmapArea Device Module.
From S2P Require Import GpuOps ItemList Services Helper HelperInv HelperLoop HelperThms OpenCLInit.
From S2P Require Import HelperMain System SystemThms.

(** ** Writing a request *)

Definition with_in (p : Z) (q : kgpu_request) : kgpu_request :=
  mk_request (rq_id q) p (rq_out q) (rq_udata q) (rq_kdata q) (rq_insize q) (rq_outsize q)
    (rq_udatasize q) (rq_kdatasize q) (rq_service_name q) (rq_callback q) (rq_errcode q).

(** [strcpy] into the array of a structure. *)
Definition strcpy (dst src : list Z) : outcome (list Z) :=
  if bool_decide (length src < length dst)%nat then mret (src ++ 0 :: skipn (S (length src)) dst)
  else Fault OutOfBounds.

(** ** callgpu

    A request for a service that does not exist. *)

Module Callgpu.
Section callgpu.
Context `{BitmapLib} (mycb_addr : Z).

Definition mycb (request : Z) (d : kgpu_dev) : outcome kgpu_dev :=
  q ← load_req d request;
  pool ← kgpu_vfree (gmpool d) (rq_in q);
  mret (kgpu_free_request (set_gmpool d pool) request).

Definition fill (p : Z) (name : list Z) (q : kgpu_request) : kgpu_request :=
  mk_request (rq_id q) p (p +64 1024) (rq_udata q) (rq_kdata q) 1024 1024 (rq_udatasize q)
    (rq_kdatasize q) name (CB_client mycb_addr) (rq_errcode q).

Definition minit (ans : slab_answer) (item : option Z) (d : kgpu_dev) : outcome (kgpu_dev * Z) :=
  let '(d, request) := kgpu_alloc_request d ans in
  if request =? NULL then mret (d, 0)
  else
    '(pool, p) ← kgpu_vmalloc (gmpool d) (1024 * 2);
    d ← update_req (with_in p) (set_gmpool d pool) request;
    if p =? NULL then mret (kgpu_free_request d request, 0)
    else
      q ← load_req d request;
      name ← strcpy (rq_service_name q) (text_bytes (lit "nonexist service"));
      d ← update_req (fill p name) d request;
      let '(d, _) := kgpu_call_async d request item in
      mret (d, 0).

End callgpu.
End Callgpu.

(** ** calg2

    A request for "test_service" on one page of the client, which is mapped
    in the helper. *)

Module Calg2.
Section calg2.
Context `{BitmapLib, VmLib} (mycb_addr : Z) (__pa : Z -> Z).

Definition mycb (request : Z) (d : kgpu_dev) : outcome kgpu_dev :=
  q ← load_req d request;
  if rq_kdata q =? NULL then Fault NullDeref
  else
    v ← kgpu_unmap_area (vm d) (rq_in q);
    mret (kgpu_free_request (set_area d v) request).

Definition fill (ga buf : Z) (name : list Z) (q : kgpu_request) : kgpu_request :=
  mk_request (rq_id q) ga ga ga buf 1024 1024 1024 (rq_kdatasize q) name
    (CB_client mycb_addr) (rq_errcode q).

(** [page] is the result of [__get_free_page]. *)
Definition minit (ans : slab_answer) (page : Z) (item : option Z) (d : kgpu_dev) :
    outcome (kgpu_dev * Z) :=
  let '(d, request) := kgpu_alloc_request d ans in
  if request =? NULL then mret (d, 0)
  else if page =? NULL then mret (kgpu_free_request d request, 0)
  else
    let pfn := Z.shiftr (__pa page) PAGE_SHIFT in
    '(v, ga) ← kgpu_map_pfns (vm d) [pfn] 1;
    let d := set_area d v in
    if ga =? NULL then mret (kgpu_free_request d request, 0)
    else
      q ← load_req d request;
      name ← strcpy (rq_service_name q) (text_bytes (lit "test_service"));
      d ← update_req (fill ga page name) d request;
      let '(d, _) := kgpu_call_async d request item in
      mret (d, 0).

End calg2.
End Calg2.

(** ** sysbm

    A benchmark: ten requests, each with a buffer of 32 MB.  Its completions
    are not state of the module: the callback signals the completion whose
    address is in [kdata], which is [cs i] for the request [i].  Its waits and
    measurements are in Bench. *)

Module Sysbm.
Section sysbm.
Context `{BitmapLib} (mycb_addr : Z) (cs : Z -> Z).

Definition MAX_MEM_SZ : Z := 32 * 1024 * 1024.

Definition MIN_MEM_SZ : Z := 0.

Definition BATCH_NR : Z := 10.

Definition mycb (req : Z) (d : kgpu_dev) : outcome kgpu_dev := _ ← load_req d req; mret d.

Definition fill (buf c : Z) (name : list Z) (q : kgpu_request) : kgpu_request :=
  mk_request (rq_id q) buf buf NULL c PAGE_SIZE PAGE_SIZE 0 8 name (CB_client mycb_addr)
    (rq_errcode q).

(** The loop that prepares the requests [i], ..., [BATCH_NR - 1].  The
    result says whether all are ready, or the code went to [cleanup]. *)
Fixpoint prepare (n : nat) (i : Z) (anss : list slab_answer) (d : kgpu_dev) (rs bufs : list Z) :
    outcome (kgpu_dev * list Z * list Z * bool) :=
  match n with
  | O => mret (d, rs, bufs, true)
  | S n =>
      let '(d, r) := kgpu_alloc_request d (default SlabNull (head anss)) in
      rs ← array_set rs i r;
      if r =? NULL then mret (d, rs, bufs, false)
      else
        '(pool, buf) ← kgpu_vmalloc (gmpool d) MAX_MEM_SZ;
        let d := set_gmpool d pool in
        bufs ← array_set bufs i buf;
        if buf =? NULL then mret (d, rs, bufs, false)
        else
          q ← load_req d r;
          name ← strcpy (rq_service_name q) (text_bytes (lit "empty_service"));
          d ← update_req (fill buf (cs i) name) d r;
          prepare n (i + 1) (tail anss) d rs bufs
  end.

Fixpoint cleanup (n : nat) (i : Z) (rs bufs : list Z) (d : kgpu_dev) : outcome kgpu_dev :=
  match n with
  | O => mret d
  | S n =>
      r ← array_get rs i;
      let d := if r =? NULL then d else kgpu_free_request d r in
      buf ← array_get bufs i;
      pool ← (if buf =? NULL then mret (gmpool d) else kgpu_vfree (gmpool d) buf);
      cleanup n (i + 1) rs bufs (set_gmpool d pool)
  end.

(** What [minit] comes to: its end, or the measurements, which wait for the
    answers to the requests that are ready. *)
Inductive minit_result : Type :=
  | Returns (code : Z)
  | Measures (rs bufs : list Z).

Definition minit (anss : list slab_answer) (d : kgpu_dev) : outcome (kgpu_dev * minit_result) :=
  let zeros := replicate (Z.to_nat BATCH_NR) NULL in
  '(d, rs, bufs, ready) ← prepare (Z.to_nat BATCH_NR) 0 anss d zeros zeros;
  if ready : bool then mret (d, Measures rs bufs)
  else
    d ← cleanup (Z.to_nat BATCH_NR) 0 rs bufs d;
    mret (d, Returns 0).

(** The sizes of both measuring loops, which end after [MAX_MEM_SZ]. *)
Definition next_sz (sz : Z) : Z := if sz =? 0 then PAGE_SIZE else wrap64 (Z.shiftl sz 1).

Fixpoint sizes (fuel : nat) (sz : Z) : option (list Z) :=
  match fuel with
  | O => None
  | S fuel => if MAX_MEM_SZ <? sz then Some [] else cons sz <$> sizes fuel (next_sz sz)
  end.

(** The time between two readings of the clock, in microseconds. *)
Definition elapsed (t0 t1 : Z * Z) : Z := 1000000 * (t1.1 - t0.1) + (t1.2 - t0.2).

(** The numbers of a line of the report, [None] for a division by zero.  The
    time is a [long] and the size an [unsigned long], so that the second
    division converts the time. *)
Definition rates (sz tt : Z) : option (Z * Z) :=
  if tt =? 0 then None else Some (Z.quot 1000000 tt, sz / wrap64 tt).

Definition async_rates (sz : Z) (t0 t1 : Z * Z) : option (Z * Z) :=
  rates sz (Z.quot (elapsed t0 t1) BATCH_NR).

Definition sync_rates (sz : Z) (t0 t1 : Z * Z) : option (Z * Z) := rates sz (elapsed t0 t1).

End sysbm.
End Sysbm.

(** ** Leases

    What clients hold of an allocator: each request of [l] leases at most one
    unit, [own] says which, and [base] are the blocks of others. *)

Record leased (base own : gmap Z Z) (l : list Z) (m : gmap Z Z) : Prop := {
  le_dom r i : own !! r = Some i -> r ∈ l;
  le_inj r r' i : own !! r = Some i -> own !! r' = Some i -> r = r';
  le_new r i : own !! r = Some i -> base !! i = None;
  le_blocks i k : m !! i = Some k <-> base !! i = Some k \/ k = 1 /\ exists r, own !! r = Some i
}.

Lemma leased_nil base own m : leased base own [] m -> m = base.
Proof.
  intros [Hd _ _ Hb]. apply map_eq. intros i. apply option_eq. intros k. rewrite Hb.
  split; [|by left]. intros [?|(_ & r & Hr)]; [done|]. by apply Hd, elem_of_nil in Hr.
Qed.

Lemma leased_sub base own l l' m :
  leased base own l m -> (forall r, is_Some (own !! r) -> r ∈ l -> r ∈ l') -> leased base own l' m.
Proof. intros [] Hl. split; eauto. Qed.

Lemma leased_skip base own r l m :
  own !! r = None -> leased base own (r :: l) m -> leased base own l m.
Proof.
  intros Hr Hm. eapply leased_sub; [done|]. intros x [i Hx] [->|?]%elem_of_cons; congruence.
Qed.

(** An answer ends the lease of its request. *)
Lemma leased_release base own r i l m :
  own !! r = Some i -> leased base own (r :: l) m ->
  m !! i = Some 1 /\ leased base (delete r own) l (delete i m).
Proof.
  intros Hr [Hd Hi Hn Hb]. split; [apply Hb; eauto|]. split.
  - intros x j [Hx Hj]%lookup_delete_Some. apply Hd in Hj as [->|?]%elem_of_cons; done.
  - intros x y j [_ Hx]%lookup_delete_Some [_ Hy]%lookup_delete_Some. eauto.
  - intros x j [_ Hx]%lookup_delete_Some. eauto.
  - intros j k. rewrite lookup_delete_Some, Hb. split.
    + intros (Hj & [?|(-> & x & Hx)]); [by left|]. right. split; [done|]. exists x.
      apply lookup_delete_Some. split; [|done]. intros ->. congruence.
    + intros [Hk|(-> & x & [Hne Hx]%lookup_delete_Some)].
      * split; [|by left]. intros ->. rewrite (Hn _ _ Hr) in Hk. done.
      * split; [|eauto]. intros ->. by apply Hne, (Hi r x j).
Qed.

(** A new block is at first one of others, *)
Lemma leased_hold base own l m i :
  m !! i = None -> leased base own l m ->
  base !! i = None /\ leased (<[i := 1]> base) own l (<[i := 1]> m).
Proof.
  intros Hi Hm. pose proof Hm as [Hd Hj Hn Hb].
  assert (Hno : forall r, own !! r <> Some i).
  { intros r Hr. enough (m !! i = Some 1) by congruence. apply Hb. eauto. }
  split.
  { destruct (base !! i) as [k|] eqn:E; [|done]. enough (m !! i = Some k) by congruence.
    apply Hb. by left. }
  split; [done | done | |].
  - intros r j Hr. rewrite lookup_insert_ne by (intros ->; by apply (Hno r)). eauto.
  - intros j k. rewrite !lookup_insert. case_decide as E; [|apply Hb].
    subst j. split; [by left|]. intros [?|(_ & r & Hr)]; [done|]. by apply Hno in Hr.
Qed.

(** and is leased by its request when that is submitted. *)
Lemma leased_grant base own l m r i :
  base !! i = None -> r ∉ l -> leased (<[i := 1]> base) own l m ->
  leased base (<[r := i]> own) (l ++ [r]) m.
Proof.
  intros Hi Hr [Hd Hj Hn Hb].
  assert (Hno : forall x, own !! x <> Some i).
  { intros x Hx%Hn. by rewrite lookup_insert_eq in Hx. }
  split.
  - intros x j [[-> _]|[_ Hx]]%lookup_insert_Some; [set_solver|]. apply elem_of_app. eauto.
  - intros x y j [[<- <-]|[_ Hx]]%lookup_insert_Some [[<- Hy]|[_ Hy]]%lookup_insert_Some;
      [done | by apply Hno in Hy | subst; by apply Hno in Hx | eauto].
  - intros x j [[<- <-]|[_ Hx]]%lookup_insert_Some; [done|].
    pose proof (Hn _ _ Hx) as Hy. by apply lookup_insert_None in Hy as [? _].
  - intros j k. rewrite Hb, lookup_insert_Some. split.
    + intros [[[<- <-]|[_ ?]]|(-> & x & Hx)]; [right|by left|right]; (split; [done|]).
      * exists r. apply lookup_insert_eq.
      * exists x. rewrite lookup_insert_ne; [done|]. intros <-. by apply Hd in Hx.
    + intros [Hk|(-> & x & [[<- <-]|[_ Hx]]%lookup_insert_Some)].
      * left. right. split; [|done]. intros <-. congruence.
      * by left; left.
      * right. eauto.
Qed.
