(* ===== verification/ClientInv.v ===== *)
(** * What the client modules hold of the module

    The invariant of a module whose clients are those of Clients: every block
    of the pool and of the mapped area is leased by a request that will be
    answered or held by someone else, and so is every request object.  The
    three callbacks keep it, which makes them an instance of the interface of
    System; so do the entry points, which are sequences of the steps of
    Module. *)

From Stdlib Require Import String.
From S2P Require Import Prelude KgpuDefs Log UnitAlloc MemPool MmapArea Layout Device Module Services System.
From S2P Require Import HelperMain Clients.

(** What others hold: blocks of the pool, runs of the area, and requests. *)
Record holdings : Type := mk_holdings {
  h_pool : gmap Z Z;
  h_area : gmap Z Z;
  h_reqs : gset Z
}.

Definition hold_req (r : Z) (o : holdings) : holdings :=
  mk_holdings (h_pool o) (h_area o) ({[r]} ∪ h_reqs o).

Definition hold_unit (i : Z) (o : holdings) : holdings :=
  mk_holdings (<[i := 1]> (h_pool o)) (h_area o) (h_reqs o).

Definition hold_page (i : Z) (o : holdings) : holdings :=
  mk_holdings (h_pool o) (<[i := 1]> (h_area o)) (h_reqs o).

Section clients.
Context `{L : BitmapLib} {LL : BitmapLaws L} `{V : VmLib} {VL : VmLaws V}.

(** The addresses of the three callbacks. *)
Context (cg ca sb : Z) (Hcodes : cg <> ca /\ cg <> sb /\ ca <> sb).

Definition client_callback (f r : Z) (d : kgpu_dev) : outcome kgpu_dev :=
  if f =? cg then Callgpu.mycb r d
  else if f =? ca then Calg2.mycb r d
  else if f =? sb then Sysbm.mycb r d
  else Fault WildPointer.

(** Where pool and area are, and the size of the pool. *)
Context (pool_at pool_units area_at : Z).

(** The service that a request asks for. *)
Definition asks (q : kgpu_request) (name : text) : Prop :=
  cstr name_size (rq_service_name q) = text_bytes name.

(** A request that will be answered: its client is one of the three, or waits
    for it, and its input is the memory that it leases.  A callback that does
    not free its request leaves it to others. *)
Definition request_leases (po ar : gmap Z Z) (o : holdings) (r : Z) (q : kgpu_request) : Prop :=
  match rq_callback q with
  | CB_client f =>
      (f = cg /\ ar !! r = None /\
         asks q (lit "nonexist service") /\
         exists i, po !! r = Some i /\ rq_in q = pool_at + i * KGPU_BUF_UNIT_SIZE) \/
      (f = ca /\ po !! r = None /\ rq_kdata q <> NULL /\
         asks q (lit "test_service") /\
         exists i, ar !! r = Some i /\ rq_in q = area_at + i * PAGE_SIZE) \/
      (f = sb /\ po !! r = None /\ ar !! r = None /\ r ∈ h_reqs o)
  | _ => po !! r = None /\ ar !! r = None /\ r ∈ h_reqs o
  end.

Record client_state (po ar : gmap Z Z) (o : holdings) (l : list Z) (d : kgpu_dev) : Prop := {
  cs_pool : pool_wf (gmpool d);
  cs_kva : kva (gmpool d) = pool_at;
  cs_units : nunits (gmpool d) = pool_units;
  cs_area : area_wf (vm d);
  cs_start : v_start (vm d) = area_at;
  cs_small : v_npages (vm d) < 2 ^ 20;
  cs_pool_leased : leased (h_pool o) po l (pool_blocks (gmpool d));
  cs_area_leased : leased (h_area o) ar l (area_blocks (vm d));
  cs_request r : r ∈ l -> exists q, req_at d r q /\ request_leases po ar o r q;
  cs_live r : r ∈ l -> r ∉ req_free d;
  cs_nodup : NoDup (req_free d);
  cs_objects r : is_Some (requests d !! r) -> r ∈ l \/ r ∈ req_free d \/ r ∈ h_reqs o
}.

Definition client_inv (o : holdings) (l : list Z) (d : kgpu_dev) : Prop :=
  exists po ar, client_state po ar o l d.

(** ** The callbacks *)

Lemma request_leases_errcode po ar o r q q' :
  with_errcode 0 q' = with_errcode 0 q -> request_leases po ar o r q -> request_leases po ar o r q'.
Proof.
  destruct q, q'. unfold with_errcode. simpl. intros E Hr. injection E as -> -> -> -> -> -> -> -> -> -> ->.
  exact Hr.
Qed.

Lemma request_leases_mono po ar po' ar' o o' r q :
  request_leases po ar o r q -> po' !! r = po !! r -> ar' !! r = ar !! r ->
  (r ∈ h_reqs o -> r ∈ h_reqs o') -> request_leases po' ar' o' r q.
Proof. clear Hcodes. unfold request_leases. intros H -> -> Ho. destruct (rq_callback q); naive_solver. Qed.

Lemma client_inv_frame o l l' d d' :
  client_inv o l d -> l ≡ₚ l' -> same_memory d d' -> client_inv o l' d'.
Proof.
  intros (po & ar & []) Hl (Eg & Ev & Ef & Eq). exists po, ar.
  split; rewrite ?Eg, ?Ev, ?Ef; try done.
  - eapply leased_sub; [done|]. intros r _. by rewrite Hl.
  - eapply leased_sub; [done|]. intros r _. by rewrite Hl.
  - intros r Hr. rewrite <- Hl in Hr. destruct (cs_request0 r Hr) as (q & [Hn Hq] & Ho).
    specialize (Eq r). rewrite Hq in Eq. simpl in Eq.
    destruct (requests d' !! r) as [q'|] eqn:E; [|done]. apply (inj Some) in Eq.
    exists q'. split; [done|]. by eapply request_leases_errcode.
  - intros r. rewrite <- Hl. auto.
  - intros r Hr. rewrite <- Hl. apply cs_objects0. specialize (Eq r).
    destruct Hr as [q Hq]. rewrite Hq in Eq. by destruct (requests d !! r).
Qed.

(** The answer to a request that leases nothing and that is not freed. *)
Lemma client_state_skip po ar o l r d :
  client_state po ar o (r :: l) d -> po !! r = None -> ar !! r = None -> r ∈ h_reqs o ->
  client_state po ar o l d.
Proof.
  intros [] Hp Ha Ho. split; try done.
  - by eapply leased_skip.
  - by eapply leased_skip.
  - intros x Hx. apply cs_request0. by right.
  - intros x Hx. apply cs_live0. by right.
  - intros x Hx. destruct (cs_objects0 x Hx) as [[->|?]%elem_of_cons|?]; [|by left|by right].
    by right; right.
Qed.

(** The end of both callbacks that free: the memory has changed, and the
    request goes back to its cache. *)
Lemma client_state_free po ar po' ar' o l r d pool v :
  client_state po ar o (r :: l) d -> r ∉ l ->
  pool_wf pool -> kva pool = pool_at -> nunits pool = pool_units ->
  area_wf v -> v_start v = area_at -> v_npages v < 2 ^ 20 ->
  leased (h_pool o) po' l (pool_blocks pool) -> leased (h_area o) ar' l (area_blocks v) ->
  (forall x, x <> r -> po' !! x = po !! x /\ ar' !! x = ar !! x) ->
  client_state po' ar' o l (kgpu_free_request (set_area (set_gmpool d pool) v) r).
Proof.
  intros [] Hr ? ? ? ? ? ? ? ? Hsame. split; try done.
  - intros x Hx. destruct (cs_request0 x) as (q & Hq & Hl); [by right|]. exists q. split; [done|].
    destruct (Hsame x) as [E1 E2]; [congruence|]. by eapply request_leases_mono.
  - intros x Hx. simpl. apply not_elem_of_cons. split; [congruence|]. apply cs_live0. by right.
  - simpl. constructor; [|done]. apply cs_live0. left.
  - intros x Hx. simpl. destruct (cs_objects0 x Hx) as [[->|?]%elem_of_cons|[?|?]]; set_solver.
Qed.

Lemma set_area_same d : set_area d (vm d) = d.
Proof. by destruct d. Qed.

Lemma set_gmpool_same d : set_gmpool d (gmpool d) = d.
Proof. by destruct d. Qed.

Lemma callgpu_mycb_ok po ar o l r q i d :
  client_state po ar o (r :: l) d -> r ∉ l -> req_at d r q -> ar !! r = None ->
  po !! r = Some i -> rq_in q = pool_at + i * KGPU_BUF_UNIT_SIZE ->
  exists pool, Callgpu.mycb r d = Ok (kgpu_free_request (set_gmpool d pool) r) /\
    client_inv o l (kgpu_free_request (set_gmpool d pool) r).
Proof.
  intros Hinv Hl [Hn Hq] Ha Hp Hin. pose proof Hinv as [].
  destruct (leased_release _ _ _ _ _ _ Hp cs_pool_leased0) as [Hblock Hlease].
  destruct (kgpu_vfree_block _ i 1 cs_pool0 Hblock) as (pool & E & Hw & (_ & Hk & _ & Hu) & Hb).
  exists pool. unfold Callgpu.mycb. rewrite (load_req_ok _ _ _ Hn Hq). cbn [mbind outcome_bind].
  rewrite Hin, <- cs_kva0, E. split; [done|].
  rewrite <- (set_area_same (set_gmpool d pool)). exists (delete r po), ar.
  apply (client_state_free po ar _ _ o l r d pool (vm d)); try done; try congruence.
  - by eapply leased_skip.
  - intros x Hx. by rewrite lookup_delete_ne.
Qed.

Lemma calg2_mycb_ok po ar o l r q i d :
  client_state po ar o (r :: l) d -> r ∉ l -> req_at d r q -> po !! r = None -> rq_kdata q <> NULL ->
  ar !! r = Some i -> rq_in q = area_at + i * PAGE_SIZE ->
  exists v, Calg2.mycb r d = Ok (kgpu_free_request (set_area d v) r) /\
    client_inv o l (kgpu_free_request (set_area d v) r).
Proof.
  intros Hinv Hl [Hn Hq] Hp Hk Ha Hin. pose proof Hinv as [].
  destruct (leased_release _ _ _ _ _ _ Ha cs_area_leased0) as [Hblock Hlease].
  destruct (kgpu_unmap_block _ i 1 cs_area0 cs_small0 Hblock) as (v & E & Hw & Hs & Hnp & Hb).
  exists v. unfold Calg2.mycb. rewrite (load_req_ok _ _ _ Hn Hq). cbn [mbind outcome_bind].
  rewrite (proj2 (Z.eqb_neq _ _) Hk), Hin, <- cs_start0, E. split; [done|].
  rewrite <- (set_gmpool_same d) at 1. exists po, (delete r ar).
  apply (client_state_free po ar _ _ o l r d (gmpool d) v); try done; try congruence.
  - by eapply leased_skip.
  - intros x Hx. by rewrite lookup_delete_ne.
Qed.

#[export] Instance client_callback_laws o : CallbackLaws client_callback (client_inv o).
Proof using Hcodes LL VL.
  split.
  - apply client_inv_frame.
  - intros l r q d (po & ar & Hst) Hl Hq Hcb.
    destruct (cs_request _ _ _ _ _ Hst r) as (q' & [_ Hq'] & Ho); [left|].
    rewrite Hq in Hq'. injection Hq' as <-. unfold request_leases in Ho. rewrite Hcb in Ho.
    destruct Ho as (? & ? & ?). exists po, ar. by apply (client_state_skip _ _ _ l r).
  - intros l f r q d (po & ar & Hst) Hl Hq Hcb.
    destruct (cs_request _ _ _ _ _ Hst r) as (q' & Hat & Ho); [left|].
    pose proof Hat as [Hn Hq']. rewrite Hq in Hq'. injection Hq' as <-.
    unfold request_leases in Ho. rewrite Hcb in Ho. unfold client_callback.
    destruct Ho as [(-> & Ha & _ & i & Hp & Hin)|[(-> & Hp & Hk & _ & i & Ha & Hin)|(-> & Hp & Ha & Hr)]].
    + rewrite Z.eqb_refl.
      destruct (callgpu_mycb_ok po ar o l r q i d) as (pool & E & Hi); [done..|]. rewrite E.
      eexists. split; [done|]. by split_and!.
    + rewrite (proj2 (Z.eqb_neq ca cg)), Z.eqb_refl by naive_solver.
      destruct (calg2_mycb_ok po ar o l r q i d) as (v & E & Hi); [done..|]. rewrite E.
      eexists. split; [done|]. by split_and!.
    + rewrite (proj2 (Z.eqb_neq sb cg)), (proj2 (Z.eqb_neq sb ca)), Z.eqb_refl by naive_solver.
      unfold Sysbm.mycb. rewrite (load_req_ok _ _ _ Hn Hq). exists d. split_and!; try done.
      exists po, ar. by apply (client_state_skip _ _ _ l r).
Qed.

End clients.
