(* ===== verification/ClientLoad.v ===== *)
(** * Loading the client modules

    The entry points of the client modules are sequences of the steps of
    Module: they keep the states reachable, and leave the memory they take to
    the request that they submit. *)

From Stdlib Require Import String Ascii.
From S2P Require Import Prelude KgpuDefs Log UnitAlloc MemPool MmapArea Layout Device Module Services System.
From S2P Require Import HelperMain.
From S2P Require Import Clients ClientInv.

(** Replaces a call in the goal by its result, for an equation [H] about the
    device of a module. *)
Ltac run_call H := cbn [m_dev set_mdev] in H; rewrite H; cbn [mbind outcome_bind].

(** ** Allocating a request *)

Lemma construct_frame objs d :
  let d' := foldl kgpu_request_constructor d objs in
  gmpool d' = gmpool d /\ vm d' = vm d /\ d_state d' = d_state d.
Proof.
  revert d. induction objs as [|a objs IH]; intros d; [done|]. cbn [foldl].
  destruct (IH (kgpu_request_constructor d a)) as (-> & -> & ->).
  unfold kgpu_request_constructor. by case_bool_decide.
Qed.

(** The effect of an allocation that succeeds: the request is taken off the
    free ones, and new objects are free or it. *)
Record allocated (d d' : kgpu_dev) (r : Z) : Prop := {
  al_pool : gmpool d' = gmpool d;
  al_area : vm d' = vm d;
  al_state : d_state d' = d_state d;
  al_reqs : reqs d' = reqs d;
  al_rtdreqs : rtdreqs d' = rtdreqs d;
  al_old x : is_Some (requests d !! x) -> requests d' !! x = requests d !! x;
  al_new x : is_Some (requests d' !! x) ->
    is_Some (requests d !! x) \/ x ∈ req_free d' \/ x = r;
  al_free x : x ∈ req_free d' -> x ∈ req_free d \/ requests d !! x = None;
  al_kept x : x ∈ req_free d -> x ∈ req_free d' \/ x = r
}.

Lemma alloc_effect m ans :
  module_inv m -> slab_ok (m_dev m) ans -> m_drawn m + constructed ans < 2 ^ 31 -> ans <> SlabNull ->
  exists d r q, kgpu_alloc_request (m_dev m) ans = (d, r) /\ r <> NULL /\
    owned (mk_module d (m_waiting m) (m_drawn m + constructed ans)) r q /\ allocated (m_dev m) d r.
Proof.
  intros Hm Hok Hlt Hans. destruct ans as [|a|objs a]; [done| |]; simpl in *.
  - destruct (mi_free _ Hm a Hok) as ([q Hq] & Hnq & Hw). eexists _, a, q. split; [done|]. split_and!.
    + intros ->. pose proof (io_null _ _ (mi_ids _ Hm)). simpl in *. congruence.
    + split_and!; [done | | done | done]. simpl. rewrite list_elem_of_filter. naive_solver.
    + split; simpl; try done; [by left | |].
      * intros x [_ ?]%list_elem_of_filter. by left.
      * intros x Hx. rewrite list_elem_of_filter. destruct (decide (x = a)); naive_solver.
  - destruct Hok as (Ha & Hnd & Hnull & Hfresh).
    destruct (construct_all (m_dev m) (m_drawn m) objs (mi_ids _ Hm) Hnd Hnull Hlt)
      as (_ & I2 & I3 & I4 & I5 & I6 & _).
    destruct (construct_frame objs (m_dev m)) as (F1 & F2 & F3).
    set (d := foldl kgpu_request_constructor (m_dev m) objs) in *.
    destruct (I3 a Ha) as (q & Hq & _).
    assert (Hold : forall x, is_Some (requests (m_dev m) !! x) -> x ∉ objs).
    { intros x [y Hx] Hin. rewrite (Hfresh x Hin) in Hx. done. }
    exists (set_req_free d (req_free d ++ filter (fun x => x <> a) objs)), a, q.
    split; [done|]. split; [congruence|]. split.
    + split_and!; [done| | |]; simpl.
      * rewrite I6, elem_of_app, list_elem_of_filter.
        intros [(Hs & _)%(mi_free _ Hm)|[? _]]; [by apply (Hold a) | done].
      * unfold queued. simpl. rewrite I4, I5. intros (y & Hy & _)%(mi_queued _ Hm).
        apply (Hold a); eauto.
      * destruct (m_waiting m !! a) eqn:E; [|done].
        apply (mi_wait _ Hm) in E as (y & s & Hy & _). exfalso. apply (Hold a); eauto.
    + split; simpl; rewrite ?I6; try done.
      * intros x Hx. apply I2. by apply Hold.
      * intros x [y Hx]. destruct (decide (x ∈ objs)) as [Hin|Hin].
        -- destruct (decide (x = a)) as [->|]; [by right; right|]. right. left.
           apply elem_of_app. right. by apply list_elem_of_filter.
        -- rewrite I2 in Hx by done. left. eauto.
      * intros x [?|[_ Hx]%list_elem_of_filter]%elem_of_app; [by left | right; by apply Hfresh].
      * intros x Hx. left. apply elem_of_app. by left.
Qed.

(** ** A client that holds a request *)

Section load.
Context `{L : BitmapLib} {LL : BitmapLaws L} `{V : VmLib} {VL : VmLaws V}.
Context (cg ca sb : Z) (pool_at pool_units area_at : Z).

Notation client_state := (client_state cg ca sb pool_at pool_units area_at).
Notation client_inv := (client_inv cg ca sb pool_at pool_units area_at).

(** A state between two calls of clients, with the state of the device and
    the requests in flight, which clients do not change. *)
Record clients_at (o : holdings) (s : Z) (t : list request_item) (m : module) : Prop := {
  ca_reachable : reachable m;
  ca_inv : client_inv o (queued (m_dev m)) (m_dev m);
  ca_state : d_state (m_dev m) = s;
  ca_flight : rtdreqs (m_dev m) = t
}.

(** A client holds the request [r], which is counted with others. *)
Definition holds (o : holdings) s t (m : module) (r : Z) (q : kgpu_request) : Prop :=
  clients_at (hold_req r o) s t m /\ owned m r q.

Lemma clients_step o s t m d :
  reachable m -> step m (set_mdev m d) -> client_inv o (queued d) d -> d_state d = s ->
  rtdreqs d = t -> clients_at o s t (set_mdev m d).
Proof.
  intros Hr Hs Hi Hst Ht. split; [|done..]. apply (R_step m); [done..|].
  simpl. pose proof (io_pos _ _ (mi_ids _ (reachable_inv _ Hr))). lia.
Qed.

Lemma holds_alloc o s t m ans :
  clients_at o s t m -> slab_ok (m_dev m) ans -> m_drawn m + constructed ans < 2 ^ 31 ->
  (kgpu_alloc_request (m_dev m) ans = (m_dev m, NULL) /\ constructed ans = 0) \/
  exists d r q, kgpu_alloc_request (m_dev m) ans = (d, r) /\ r <> NULL /\
    holds o s t (mk_module d (m_waiting m) (m_drawn m + constructed ans)) r q.
Proof.
  intros [Hr (po & ar & Hcs) Hs Ht] Hok Hlt.
  assert (ans = SlabNull \/ ans <> SlabNull) as [->|Hans] by (destruct ans; auto); [by left|]. right.
  destruct (alloc_effect m ans (reachable_inv _ Hr) Hok Hlt Hans) as (d & r & q & E & Hn & Ho & Hal).
  exists d, r, q. split; [done|]. split; [done|]. split; [|done].
  assert (Hr' : reachable (mk_module d (m_waiting m) (m_drawn m + constructed ans))).
  { replace d with (kgpu_alloc_request (m_dev m) ans).1 by by rewrite E.
    apply (R_step m); [done | by apply S_alloc | done]. }
  assert (Eq : queued d = queued (m_dev m)).
  { unfold queued. by rewrite (al_reqs _ _ _ Hal), (al_rtdreqs _ _ _ Hal). }
  pose proof (mi_free_nodup _ (reachable_inv _ Hr')) as Hnd.
  destruct Hal, Hcs. split; [done| | simpl; congruence | simpl; congruence].
  exists po, ar. simpl in *. rewrite Eq.
  assert (Hin : forall x, x ∈ queued (m_dev m) -> is_Some (requests (m_dev m) !! x)).
  { intros x (y & [_ Hy] & _)%cs_request. eauto. }
  split; rewrite ?al_pool0, ?al_area0; try done.
  - intros x Hx. destruct (cs_request x Hx) as (y & [Hy1 Hy2] & Hl). exists y. split.
    + split; [done|]. rewrite al_old0; eauto.
    + eapply request_leases_mono; [eassumption | done | done|]. simpl. clear. set_solver.
  - intros x Hx [Hf|Hf]%al_free0; [by apply (cs_live x)|]. apply Hin in Hx as [? ?]. congruence.
  - intros x Hx. apply al_new0 in Hx as [Hx|[Hx| ->]]; [|by right; left | right; right; by apply elem_of_union_l, elem_of_singleton].
    apply cs_objects in Hx as [?|[Hx|Hx]]; [by left | | right; right; by apply elem_of_union_r].
    apply al_kept0 in Hx as [?| ->]; [by right; left | right; right; by apply elem_of_union_l, elem_of_singleton].
Qed.

Lemma client_inv_update o l d r q :
  client_inv o l d -> r ∉ l -> is_Some (requests d !! r) ->
  client_inv o l (set_requests d (<[r := q]> (requests d))).
Proof.
  intros (po & ar & []) Hr Hs. exists po, ar. split; try done.
  - intros x Hx. destruct (cs_request x Hx) as (y & [Hn Hy] & Ho). exists y. split; [|done].
    split; [done|]. simpl. rewrite lookup_insert_ne; [done | congruence].
  - intros x Hx. apply cs_objects. simpl in Hx.
    destruct (decide (x = r)) as [->|]; [done|]. by rewrite lookup_insert_ne in Hx.
Qed.

Lemma holds_update o s t m r q f :
  holds o s t m r q -> client_update q (f q) ->
  exists d, update_req f (m_dev m) r = Ok d /\ holds o s t (set_mdev m d) r (f q) /\
    gmpool d = gmpool (m_dev m) /\ vm d = vm (m_dev m).
Proof.
  intros [[Hr Hi Hs Ht] Ho] Hu. pose proof Ho as (Hq & Hf & Hnq & Hw).
  unfold update_req. rewrite (load_req_ok _ _ q); [|by eapply owned_not_null, Ho; apply reachable_inv | done].
  eexists. split; [done|]. split; [|done]. split.
  - apply clients_step; [done | by eapply S_update | by apply client_inv_update; eauto | done | done].
  - split_and!; [apply lookup_insert_eq | done..].
Qed.

Lemma holds_free o s t m r q :
  holds o s t m r q -> clients_at o s t (set_mdev m (kgpu_free_request (m_dev m) r)).
Proof.
  intros [[Hr (po & ar & Hcs) Hs Ht] Ho]. pose proof Ho as (Hq & Hf & Hnq & Hw).
  apply clients_step; [done | by eapply S_free | | done | done].
  destruct Hcs. exists po, ar. change (queued (kgpu_free_request _ _)) with (queued (m_dev m)).
  split; try done; simpl.
  - intros x Hx. destruct (cs_request x Hx) as (y & Hy & Hl). exists y. split; [done|].
    eapply request_leases_mono; [eassumption | done | done|]. simpl. assert (x <> r) by congruence. clear -H. set_solver.
  - intros x Hx. apply not_elem_of_cons. split; [congruence | by apply cs_live].
  - by constructor.
  - intros x Hx. apply cs_objects in Hx. simpl in Hx. clear -Hx. set_solver.
Qed.

(** ** Memory *)

Lemma client_state_memory po ar o o' l d pool v :
  client_state po ar o l d -> pool_wf pool -> same_pool (gmpool d) pool ->
  area_wf v -> v_start v = v_start (vm d) -> v_npages v = v_npages (vm d) ->
  leased (h_pool o') po l (pool_blocks pool) -> leased (h_area o') ar l (area_blocks v) ->
  h_reqs o' = h_reqs o -> client_state po ar o' l (set_area (set_gmpool d pool) v).
Proof.
  intros [] ? (_ & Hk & _ & Hu) ? Hs Hn ? ? Ho.
  split; simpl; try done; try congruence.
  - intros r Hr. destruct (cs_request r Hr) as (q & Hq & Hl). exists q. split; [done|].
    eapply request_leases_mono; [eassumption | done | done|]. by rewrite Ho.
  - intros r Hr. rewrite Ho. by apply cs_objects.
Qed.

(** The client changes memory; the blocks become those of [o']. *)
Lemma holds_memory o o' s t m r q pool v :
  holds o s t m r q -> pool_wf pool -> same_pool (gmpool (m_dev m)) pool ->
  area_wf v -> v_start v = v_start (vm (m_dev m)) -> v_npages v = v_npages (vm (m_dev m)) ->
  (forall own l, leased (h_pool o) own l (pool_blocks (gmpool (m_dev m))) ->
     leased (h_pool o') own l (pool_blocks pool)) ->
  (forall own l, leased (h_area o) own l (area_blocks (vm (m_dev m))) ->
     leased (h_area o') own l (area_blocks v)) ->
  h_reqs o' = h_reqs o ->
  holds o' s t (set_mdev m (set_area (set_gmpool (m_dev m) pool) v)) r q.
Proof.
  intros [[Hr (po & ar & Hcs) Hs Ht] Ho] ? ? ? ? ? Hp Ha Hreq. split; [|done].
  apply clients_step; [done | apply S_memory | | done | done].
  exists po, ar. pose proof Hcs as []. apply (client_state_memory po ar (hold_req r o)); try done.
  - by apply Hp.
  - by apply Ha.
  - simpl. by rewrite Hreq.
Qed.

Lemma unit_of_client o l d i :
  client_inv o l d -> 0 <= i < pool_units ->
  pool_at + i * KGPU_BUF_UNIT_SIZE <> NULL /\ u64_range (pool_at + i * KGPU_BUF_UNIT_SIZE).
Proof.
  intros (po & ar & []) Hi. pose proof (pw_kva _ cs_pool). pose proof (pw_room _ cs_pool) as Hr.
  rewrite unit_size_eq in *. unfold NULL, u64_range. split; nia.
Qed.

(** [kgpu_vmalloc] of at most one unit, *)
Lemma holds_vmalloc o s t m r q nbytes :
  holds o s t m r q -> 0 < nbytes <= KGPU_BUF_UNIT_SIZE ->
  exists pool p, kgpu_vmalloc (gmpool (m_dev m)) nbytes = Ok (pool, p) /\ u64_range p /\
    let m' := set_mdev m (set_gmpool (m_dev m) pool) in
    (p = NULL /\ holds o s t m' r q \/
     exists i, p <> NULL /\ p = pool_at + i * KGPU_BUF_UNIT_SIZE /\ h_pool o !! i = None /\
       holds (hold_unit i o) s t m' r q).
Proof.
  intros Hh Hn. pose proof Hh as [[_ Hinv _ _] _]. pose proof Hinv as (po & ar & []).
  assert (Hmax : 0 < nbytes <= vmalloc_max) by (unfold vmalloc_max; lia).
  destruct (kgpu_vmalloc_step (gmpool (m_dev m)) nbytes cs_pool Hmax) as (pool & r' & E & Hw & Hst).
  pose proof (kgpu_vmalloc_same _ _ _ _ E) as Hsame.
  assert (Ek : DIV_ROUND_UP nbytes KGPU_BUF_UNIT_SIZE = 1).
  { destruct (req_units_spec nbytes Hmax) as (_ & ? & ?). rewrite unit_size_eq in *. lia. }
  rewrite Ek in Hst. eexists pool, _. split; [done|]. cbv zeta.
  rewrite <- (set_area_same (set_gmpool (m_dev m) pool)).
  destruct (pw_units _ cs_pool) as (bm & sz & _ & Ha & Hu).
  destruct r' as [i|]; simpl.
  - assert (FirstFit.fits (pool_blocks (gmpool (m_dev m))) (nunits (gmpool (m_dev m))) i 1 /\
      pool_blocks pool = <[i := 1]> (pool_blocks (gmpool (m_dev m)))) as [Hfit Hb] by by inversion Hst.
    assert (Hnew : pool_blocks (gmpool (m_dev m)) !! i = None).
    { rewrite (pool_blocks_live _ _ Ha) in *. eapply (blocks_fits_new _ _ _ 1); [lia | done]. }
    rewrite cs_kva. destruct Hfit as (Hi0 & Hi1 & _). rewrite cs_units in Hi1.
    destruct (unit_of_client _ _ _ i Hinv) as [? ?]; [lia|]. split; [done|]. right. exists i.
    split; [done|]. split; [done|]. split; [by eapply leased_hold|].
    apply (holds_memory o); try done. intros own l Hl. rewrite Hb. by apply leased_hold.
  - split; [unfold u64_range, NULL; lia|]. left. split; [done|].
    assert (pool_blocks pool = pool_blocks (gmpool (m_dev m))) as Hb by by inversion Hst.
    apply (holds_memory o); try done. intros own l. by rewrite Hb.
Qed.

(** and of more than the pool has. *)
Lemma holds_vmalloc_fails o s t m r q nbytes :
  holds o s t m r q -> pool_units * KGPU_BUF_UNIT_SIZE < nbytes <= vmalloc_max ->
  exists pool, kgpu_vmalloc (gmpool (m_dev m)) nbytes = Ok (pool, NULL) /\
    holds o s t (set_mdev m (set_gmpool (m_dev m) pool)) r q.
Proof.
  intros Hh Hn. pose proof Hh as [[_ (po & ar & []) _ _] _].
  destruct (pw_units _ cs_pool) as (bm & sz & _ & _ & Hu). pose proof (uw_n _ _ _ Hu) as Hu0.
  assert (Hmax : 0 < nbytes <= vmalloc_max) by (rewrite unit_size_eq in *; unfold u32_range in *; lia).
  destruct (kgpu_vmalloc_step (gmpool (m_dev m)) nbytes cs_pool Hmax) as (pool & r' & E & Hw & Hst).
  pose proof (kgpu_vmalloc_same _ _ _ _ E) as Hsame.
  destruct (req_units_spec nbytes Hmax) as (_ & _ & Hk). rewrite unit_size_eq in *.
  destruct r' as [i|].
  - assert (FirstFit.fits (pool_blocks (gmpool (m_dev m))) (nunits (gmpool (m_dev m))) i
      (DIV_ROUND_UP nbytes 1048576)) as (? & ? & _) by by inversion Hst. lia.
  - exists pool. split; [done|]. rewrite <- (set_area_same (set_gmpool (m_dev m) pool)).
    assert (pool_blocks pool = pool_blocks (gmpool (m_dev m))) as Hb by by inversion Hst.
    apply (holds_memory o); try done. intros own l. by rewrite Hb.
Qed.

(** Mapping one page.  When the page cannot be inserted the code gives no
    address, and the run stays reserved. *)
Lemma holds_map o s t m r q pfn :
  holds o s t m r q ->
  exists v p, kgpu_map_pfns (vm (m_dev m)) [pfn] 1 = Ok (v, p) /\ u64_range p /\
    let m' := set_mdev m (set_area (m_dev m) v) in
    (p = NULL /\ (holds o s t m' r q \/
       ~ inserts_ok /\ exists i, holds (hold_page i o) s t m' r q) \/
     exists i, p <> NULL /\ p = area_at + i * PAGE_SIZE /\ h_area o !! i = None /\
       holds (hold_page i o) s t m' r q).
Proof.
  intros Hh. pose proof Hh as [[_ (po & ar & []) _ _] _].
  destruct (aw_vma _ cs_area) as (v0 & Hv0 & _).
  destruct (map_page_units_spec (vm (m_dev m)) v0 [pfn] 1 false cs_area Hv0)
    as (v & p & E & Hw & Hs & Hnp & Hcase); [lia | done|].
  exists v, p. split; [done|]. cbv zeta.
  assert (Hkeep : area_blocks v = area_blocks (vm (m_dev m)) ->
    holds o s t (set_mdev m (set_area (m_dev m) v)) r q).
  { intros Hb. rewrite <- (set_gmpool_same (m_dev m)) at 1. apply (holds_memory o); try done.
    intros own l. by rewrite Hb. }
  destruct Hcase as [(-> & -> & _)|(i & k & [Hfit _] & Hb & _ & _ & Hp)].
  { split; [unfold u64_range, NULL; lia|]. left. split; [done|]. left. by apply Hkeep. }
  assert (Hnew : area_blocks (vm (m_dev m)) !! i = None).
  { destruct (aw_units _ cs_area) as (bm & sz & _ & Ha & Hu).
    rewrite (area_blocks_live _ _ Ha) in *. eapply (blocks_fits_new _ _ _ 1); [lia | done]. }
  assert (h_area o !! i = None) by by eapply leased_hold.
  assert (holds (hold_page i o) s t (set_mdev m (set_area (m_dev m) v)) r q).
  { rewrite <- (set_gmpool_same (m_dev m)) at 1. apply (holds_memory o); try done.
    intros own l Hl. rewrite Hb. by apply leased_hold. }
  destruct Hp as [[-> _]|[-> _]].
  2: { split; [unfold u64_range, NULL; lia|]. left. split; [done|]. right. split; [|eauto].
    intros Hok. apply (map_null_unchanged _ _ _ _ _ Hok cs_area) in E; [|lia]. subst v.
    rewrite Hb, lookup_insert_eq in Hnew. done. }
  destruct Hfit as (? & ? & _). pose proof (aw_start _ cs_area). pose proof (aw_room _ cs_area).
  split; [unfold u64_range, PAGE_SIZE in *; lia|]. right. exists i.
  split; [unfold NULL, PAGE_SIZE in *; lia|]. by rewrite cs_start.
Qed.

(** ** Submitting *)

Lemma leased_absent base own l m r : leased base own l m -> r ∉ l -> own !! r = None.
Proof. intros [Hd _ _ _] Hr. destruct (own !! r) as [i|] eqn:E; [by apply Hd in E | done]. Qed.

Lemma leased_more base own l m r : leased base own l m -> leased base own (l ++ [r]) m.
Proof. intros Hm. eapply leased_sub; [done|]. intros x _ Hx. apply elem_of_app. by left. Qed.

(** The request that the client held is now to be answered, and leases what
    the client held for it. *)
Lemma holds_submit o o' s t m r q item :
  s <> KGPU_TERMINATED -> holds o' s t m r q -> rq_callback q <> CB_NULL ->
  h_reqs o' = h_reqs o ->
  (forall po ar l, r ∉ l ->
     leased (h_pool o') po l (pool_blocks (gmpool (m_dev m))) ->
     leased (h_area o') ar l (area_blocks (vm (m_dev m))) ->
     exists po' ar', leased (h_pool o) po' (l ++ [r]) (pool_blocks (gmpool (m_dev m))) /\
       leased (h_area o) ar' (l ++ [r]) (area_blocks (vm (m_dev m))) /\
       (forall x, x <> r -> po' !! x = po !! x /\ ar' !! x = ar !! x) /\
       request_leases cg ca sb pool_at area_at po' ar' o r q) ->
  exists d, kgpu_call_async (m_dev m) r (Some item) = (d, 0) /\ clients_at o s t (set_mdev m d) /\
    queued d = queued (m_dev m) ++ [r].
Proof.
  intros Hs [[Hr (po & ar & Hcs) Hst Ht] Ho] Hcb Hreq Hlease.
  pose proof Ho as (Hq & Hf & Hnq & _). pose proof Hcs as [].
  destruct (Hlease po ar _ Hnq cs_pool_leased cs_area_leased) as (po' & ar' & Hp & Ha & Hsame & Hl).
  assert (Hn : r <> NULL) by (eapply owned_not_null, Ho; by apply reachable_inv).
  assert (E : kgpu_call_async (m_dev m) r (Some item) =
    (set_reqs (m_dev m) (reqs (m_dev m) ++ [mk_item item r]), 0)).
  { unfold kgpu_call_async. rewrite (proj2 (Z.eqb_neq _ _)); [done | congruence]. }
  eexists. split; [exact E|]. split; [|apply queued_submit].
  apply clients_step; [done | by eapply S_async | | done | done].
  rewrite queued_submit. exists po', ar'. split; try done; simpl.
  - intros x [Hx| ->%list_elem_of_singleton]%elem_of_app; [|by exists q].
    destruct (cs_request x Hx) as (y & Hy & Hly). exists y. split; [done|].
    assert (Hxr : x <> r) by congruence. destruct (Hsame x Hxr) as [E1 E2].
    eapply request_leases_mono; [eassumption | done | done|]. simpl. rewrite Hreq. clear -Hxr. set_solver.
  - intros x [Hx| ->%list_elem_of_singleton]%elem_of_app; [by apply cs_live | done].
  - intros x Hx. apply cs_objects in Hx. simpl in Hx. rewrite Hreq in Hx. clear -Hx. set_solver.
Qed.

Lemma callgpu_submit o s t m r q i item :
  s <> KGPU_TERMINATED -> holds (hold_unit i o) s t m r q -> h_pool o !! i = None ->
  rq_callback q = CB_client cg -> rq_in q = pool_at + i * KGPU_BUF_UNIT_SIZE ->
  asks q (lit "nonexist service") ->
  exists d, kgpu_call_async (m_dev m) r (Some item) = (d, 0) /\ clients_at o s t (set_mdev m d) /\
    queued d = queued (m_dev m) ++ [r].
Proof.
  intros Hs Hh Hi Hcb Hin Hask. apply (holds_submit o _ _ _ _ _ _ _ Hs Hh); [congruence | done|].
  intros po ar l Hr Hp Ha. exists (<[r := i]> po), ar. split_and!.
  - by apply leased_grant.
  - by apply leased_more.
  - intros x Hx. by rewrite lookup_insert_ne.
  - unfold request_leases. rewrite Hcb. left. split; [done|]. split; [by eapply leased_absent|].
    split; [done|]. exists i. by rewrite lookup_insert_eq.
Qed.

Lemma calg2_submit o s t m r q i item :
  s <> KGPU_TERMINATED -> holds (hold_page i o) s t m r q -> h_area o !! i = None ->
  rq_callback q = CB_client ca -> rq_kdata q <> NULL -> rq_in q = area_at + i * PAGE_SIZE ->
  asks q (lit "test_service") ->
  exists d, kgpu_call_async (m_dev m) r (Some item) = (d, 0) /\ clients_at o s t (set_mdev m d) /\
    queued d = queued (m_dev m) ++ [r].
Proof.
  intros Hs Hh Hi Hcb Hk Hin Hask. apply (holds_submit o _ _ _ _ _ _ _ Hs Hh); [congruence | done|].
  intros po ar l Hr Hp Ha. exists po, (<[r := i]> ar). split_and!.
  - by apply leased_more.
  - by apply leased_grant.
  - intros x Hx. by rewrite lookup_insert_ne.
  - unfold request_leases. rewrite Hcb. right. left. split; [done|]. split; [by eapply leased_absent|].
    split; [done|]. split; [done|]. exists i. by rewrite lookup_insert_eq.
Qed.

(** ** The entry points *)

Lemma cstr_terminated n src rest :
  (length src < n)%nat -> Forall (fun b => b <> 0) src -> cstr n (src ++ 0 :: rest) = src.
Proof.
  revert n. induction src as [|b src IH]; intros [|n] Hl Hz; simpl in *; try lia; [done|].
  apply Forall_cons in Hz as [Hb Hz]. rewrite (proj2 (Z.eqb_neq b 0) Hb). f_equal. apply IH; [lia | done].
Qed.

Lemma strcpy_ok dst src :
  name_typed dst -> (length src < 32)%nat -> Forall byte_range src -> Forall (fun b => b <> 0) src ->
  exists name, strcpy dst src = Ok name /\ name_typed name /\ cstr name_size name = src.
Proof.
  intros [Hl Hb] Hs Hr Hz. change KGPU_SERVICE_NAME_SIZE with 32 in Hl.
  unfold strcpy. rewrite bool_decide_eq_true_2 by lia.
  eexists. split; [done|]. split; [split|].
  - rewrite length_app. simpl length. rewrite length_drop. change KGPU_SERVICE_NAME_SIZE with 32. lia.
  - apply Forall_app. split; [done|]. constructor; [unfold byte_range; lia | by apply Forall_drop].
  - by apply cstr_terminated.
Qed.

Lemma text_bytes_range s : Forall byte_range (text_bytes s).
Proof.
  apply Forall_fmap, Forall_true. intros c. pose proof (nat_ascii_bounded c).
  unfold byte_range. simpl. lia.
Qed.

Lemma holds_typed o s t m r q :
  holds o s t m r q -> fields_typed q /\ rq_callback q <> CB_sync /\ load_req (m_dev m) r = Ok q.
Proof.
  intros [[Hr _ _ _] Ho]. apply reachable_inv in Hr. pose proof Ho as (Hq & _ & _ & Hw).
  split_and!.
  - by apply (io_range _ _ (mi_ids _ Hr) r q).
  - intros Hcb. rewrite (mi_sync _ Hr _ _ Hq Hcb) in Hw. done.
  - apply load_req_ok; [by eapply owned_not_null | done].
Qed.

(** The last call of [callgpu] and [calg2], whose result they ignore: when
    the request is not accepted, it and its memory are lost. *)
Definition refused (s : Z) (item : option Z) : Prop := s = KGPU_TERMINATED \/ item = None.

Lemma refused_or s item : refused s item \/ s <> KGPU_TERMINATED /\ exists a, item = Some a.
Proof.
  unfold refused. destruct (decide (s = KGPU_TERMINATED)); [by left; left|].
  destruct item; [right; eauto | by left; right].
Qed.

Lemma call_async_refused d r item :
  refused (d_state d) item -> (kgpu_call_async d r item).1 = d.
Proof.
  unfold kgpu_call_async. intros [->| ->]; [done|]. by destruct (_ =? _).
Qed.

Lemma async_end o o' s t m r q item :
  holds o' s t m r q ->
  (forall a, s <> KGPU_TERMINATED -> exists d, kgpu_call_async (m_dev m) r (Some a) = (d, 0) /\
     clients_at o s t (set_mdev m d) /\ queued d = queued (m_dev m) ++ [r]) ->
  exists d ret, kgpu_call_async (m_dev m) r item = (d, ret) /\
    (clients_at o s t (set_mdev m d) \/
     refused s item /\ clients_at (hold_req r o') s t (set_mdev m d)).
Proof.
  intros [Hca _] Hsub. destruct (refused_or s item) as [Href|[Hs [a ->]]].
  - pose proof (call_async_refused (m_dev m) r item) as Er. rewrite (ca_state _ _ _ _ Hca) in Er.
    destruct (kgpu_call_async (m_dev m) r item) as [d ret]. simpl in Er. rewrite (Er Href).
    eexists _, _. split; [done|]. right. split; [done|]. by destruct m.
  - destruct (Hsub a Hs) as (d & E & Hd & _). eauto.
Qed.

Lemma callgpu_minit_ok o s t m ans item :
  clients_at o s t m -> slab_ok (m_dev m) ans -> m_drawn m + constructed ans < 2 ^ 31 ->
  exists d, Callgpu.minit cg ans item (m_dev m) = Ok (d, 0) /\
    let m' := mk_module d (m_waiting m) (m_drawn m + constructed ans) in
    (clients_at o s t m' \/
     refused s item /\ exists r i, clients_at (hold_unit i (hold_req r o)) s t m').
Proof.
  intros Hm Hok Hlt. unfold Callgpu.minit.
  destruct (holds_alloc o s t m ans Hm Hok Hlt) as [[E Ec]|(d1 & r & q & E & Hn & Hh)]; rewrite E.
  { exists (m_dev m). split; [done|]. left. rewrite Ec, Z.add_0_r. by destruct m. }
  rewrite (proj2 (Z.eqb_neq _ _) Hn).
  destruct (holds_vmalloc _ _ _ _ _ _ (1024 * 2) Hh) as (pool & p & Ev & Hp & Hcase);
    [rewrite unit_size_eq; lia|]. cbv zeta in Hcase. run_call Ev.
  assert (exists o2, holds o2 s t (set_mdev (mk_module d1 (m_waiting m) (m_drawn m + constructed ans))
      (set_gmpool d1 pool)) r q /\
    (p = NULL /\ o2 = o \/ exists i, p <> NULL /\ p = pool_at + i * KGPU_BUF_UNIT_SIZE /\
       h_pool o !! i = None /\ o2 = hold_unit i o)) as (o2 & Hh2 & Hwhat).
  { destruct Hcase as [[? ?]|(i & ? & ? & ? & ?)]; [exists o; eauto|].
    exists (hold_unit i o). split; [done|]. right. eauto. }
  destruct (holds_typed _ _ _ _ _ _ Hh2) as (Hty & Hcb & _).
  destruct (holds_update _ _ _ _ _ _ (with_in p) Hh2) as (d3 & E3 & Hh3 & _).
  { split_and!; [done | | done]. by destruct Hty. }
  run_call E3. clear Hh Hh2 Hcase Ev.
  destruct Hwhat as [[-> ->]|(i & Hpn & Hpi & Hi & ->)].
  { eexists. split; [done|]. left. exact (holds_free _ _ _ _ _ _ Hh3). }
  rewrite (proj2 (Z.eqb_neq _ _) Hpn). destruct (holds_typed _ _ _ _ _ _ Hh3) as (Hty3 & _ & Hld).
  run_call Hld.
  destruct (strcpy_ok (rq_service_name (with_in p q)) (text_bytes (lit "nonexist service")))
    as (name & -> & Hname & Hask);
    [apply Hty3 | by vm_compute; lia | apply text_bytes_range | repeat constructor; discriminate |].
  cbn [mbind outcome_bind].
  destruct (holds_update _ _ _ _ _ _ (Callgpu.fill cg p name) Hh3) as (d4 & Eu & Hh4 & _).
  { split_and!; [done | | done]. destruct Hty3.
    split; simpl; try done; try (unfold u64_range; lia). apply wrap64_range. }
  run_call Eu.
  destruct (async_end o _ _ _ _ _ _ item Hh4) as (d5 & ret & E5 & Hend).
  { intros a Hs. by eapply callgpu_submit. }
  run_call E5. exists d5. split; [done|].
  destruct Hend as [?|[? ?]]; [by left | right]. split; [done|]. by exists r, i.
Qed.

Lemma calg2_minit_ok o s t m __pa ans page item :
  clients_at o s t m -> slab_ok (m_dev m) ans -> m_drawn m + constructed ans < 2 ^ 31 ->
  u64_range page ->
  exists d, Calg2.minit ca __pa ans page item (m_dev m) = Ok (d, 0) /\
    let m' := mk_module d (m_waiting m) (m_drawn m + constructed ans) in
    (clients_at o s t m' \/
     ~ inserts_ok /\ (exists i, clients_at (hold_page i o) s t m') \/
     refused s item /\ exists r i, clients_at (hold_page i (hold_req r o)) s t m').
Proof.
  intros Hm Hok Hlt Hpage. unfold Calg2.minit.
  destruct (holds_alloc o s t m ans Hm Hok Hlt) as [[E Ec]|(d1 & r & q & E & Hn & Hh)]; rewrite E.
  { exists (m_dev m). split; [done|]. left. rewrite Ec, Z.add_0_r. by destruct m. }
  rewrite (proj2 (Z.eqb_neq _ _) Hn). destruct (Z.eqb_spec page NULL) as [|Hpn].
  { eexists. split; [done|]. left. exact (holds_free _ _ _ _ _ _ Hh). }
  destruct (holds_map _ _ _ _ _ _ (Z.shiftr (__pa page) PAGE_SHIFT) Hh) as (v & p & Ev & Hp & Hcase).
  cbv zeta in Hcase |- *. run_call Ev.
  destruct Hcase as [[-> Hcase]|(i & Hgn & Hgi & Hi & Hh2)].
  { eexists. split; [done|]. destruct Hcase as [Hh2|[Hni [i Hh2]]].
    - left. exact (holds_free _ _ _ _ _ _ Hh2).
    - right. left. split; [done|]. exists i. exact (holds_free _ _ _ _ _ _ Hh2). }
  rewrite (proj2 (Z.eqb_neq _ _) Hgn). destruct (holds_typed _ _ _ _ _ _ Hh2) as (Hty & _ & Hld).
  run_call Hld.
  destruct (strcpy_ok (rq_service_name q) (text_bytes (lit "test_service")))
    as (name & -> & Hname & Hask);
    [apply Hty | by vm_compute; lia | apply text_bytes_range | repeat constructor; discriminate |].
  cbn [mbind outcome_bind].
  destruct (holds_update _ _ _ _ _ _ (Calg2.fill ca p page name) Hh2) as (d4 & Eu & Hh4 & _).
  { split_and!; [done | | done]. destruct Hty. split; simpl; try done; unfold u64_range; lia. }
  run_call Eu.
  destruct (async_end o _ _ _ _ _ _ item Hh4) as (d5 & ret & E5 & Hend).
  { intros a Hs. by eapply calg2_submit. }
  run_call E5. exists d5. split; [done|].
  destruct Hend as [?|[? ?]]; [by left | right; right]. split; [done|]. by exists r, i.
Qed.

(** [sysbm] on a pool of less than 32 MB: the first buffer is refused, and the
    code frees the one request it has. *)
Lemma sysbm_cleanup_nulls n i rs bufs d :
  (forall j, i <= j < i + Z.of_nat n -> array_get rs j = Ok NULL /\ array_get bufs j = Ok NULL) ->
  Sysbm.cleanup n i rs bufs d = Ok d.
Proof.
  revert i. induction n as [|n IH]; intros i Hnull; [done|]. cbn [Sysbm.cleanup].
  destruct (Hnull i ltac:(lia)) as [-> ->].
  cbn [mbind outcome_bind mret outcome_ret Z.eqb NULL]. rewrite set_gmpool_same. apply IH. intros j Hj. apply Hnull. lia.
Qed.

Lemma array_get_zeros n j : 0 <= j < Z.of_nat n -> array_get (replicate n NULL) j = Ok NULL.
Proof.
  intros Hj. rewrite array_get_nthZ by (rewrite length_replicate; lia). f_equal.
  unfold nthZ. by rewrite lookup_replicate_2 by lia.
Qed.

Lemma sysbm_cleanup_first r n d :
  Sysbm.cleanup (S n) 0 (r :: replicate n NULL) (NULL :: replicate n NULL) d =
    Ok (if r =? NULL then d else kgpu_free_request d r).
Proof.
  cbn [Sysbm.cleanup]. change (array_get (?x :: replicate n NULL) 0) with (Ok x).
  cbn [mbind outcome_bind mret outcome_ret Z.eqb NULL]. rewrite set_gmpool_same.
  apply sysbm_cleanup_nulls. intros j Hj.
  assert (E : forall x : Z, array_get (x :: replicate n NULL) j = array_get (replicate n NULL) (j - 1)).
  { intros x. rewrite !array_get_nthZ by (simpl; rewrite ?length_replicate; lia). f_equal.
    unfold nthZ. replace (Z.to_nat j) with (S (Z.to_nat (j - 1))) by lia. done. }
  rewrite !E, array_get_zeros by lia. done.
Qed.

Lemma sysbm_prepare_fails o s t m cs n anss :
  let ans := default SlabNull (head anss) in
  clients_at o s t m -> slab_ok (m_dev m) ans -> m_drawn m + constructed ans < 2 ^ 31 ->
  pool_units * KGPU_BUF_UNIT_SIZE < Sysbm.MAX_MEM_SZ ->
  exists d r, Sysbm.prepare sb cs (S n) 0 anss (m_dev m) (replicate (S n) NULL) (replicate (S n) NULL) =
      Ok (d, r :: replicate n NULL, NULL :: replicate n NULL, false) /\
    clients_at o s t (mk_module (if r =? NULL then d else kgpu_free_request d r) (m_waiting m)
                        (m_drawn m + constructed ans)).
Proof.
  intros ans Hm Hok Hlt Hsmall. cbn [Sysbm.prepare replicate]. fold ans.
  assert (Hset : forall x : Z, array_set (NULL :: replicate n NULL) 0 x = Ok (x :: replicate n NULL)).
  { intros x. by rewrite array_set_ok by (simpl; lia). }
  destruct (holds_alloc o s t m ans Hm Hok Hlt) as [[E Ec]|(d1 & r & q & E & Hn & Hh)]; rewrite E.
  { rewrite Hset. exists (m_dev m), NULL. split; [done|]. rewrite Ec, Z.add_0_r. by destruct m. }
  rewrite Hset. cbn [mbind outcome_bind]. rewrite (proj2 (Z.eqb_neq _ _) Hn).
  destruct (holds_vmalloc_fails _ _ _ _ _ _ Sysbm.MAX_MEM_SZ Hh) as (pool & Ev & Hh2).
  { split; [done|]. unfold vmalloc_max, Sysbm.MAX_MEM_SZ. rewrite unit_size_eq. lia. }
  run_call Ev. rewrite Hset. cbn [mbind outcome_bind].
  eexists _, r. split; [done|]. rewrite (proj2 (Z.eqb_neq _ _) Hn).
  exact (holds_free _ _ _ _ _ _ Hh2).
Qed.

Lemma sysbm_minit_ok o s t m cs anss :
  let ans := default SlabNull (head anss) in
  clients_at o s t m -> slab_ok (m_dev m) ans -> m_drawn m + constructed ans < 2 ^ 31 ->
  pool_units * KGPU_BUF_UNIT_SIZE < Sysbm.MAX_MEM_SZ ->
  exists d, Sysbm.minit sb cs anss (m_dev m) = Ok (d, Sysbm.Returns 0) /\
    clients_at o s t (mk_module d (m_waiting m) (m_drawn m + constructed ans)).
Proof.
  intros ans Hm Hok Hlt Hsmall. unfold Sysbm.minit. change (Z.to_nat Sysbm.BATCH_NR) with 10%nat.
  destruct (sysbm_prepare_fails o s t m cs 9 anss Hm Hok Hlt Hsmall) as (d & r & E & Hd).
  cbv zeta. rewrite E. cbn [mbind outcome_bind]. rewrite sysbm_cleanup_first. eauto.
Qed.

End load.
