(* ===== verification/Bench.v ===== *)
(** * The measurements of the benchmark (src/services/test/sysbm/sysbm.c)

    What [minit] of sysbm does once its requests are ready.  It waits for the
    answers to its requests, so that it is a machine that runs from one wait
    to the next, beside a helper that reads and answers.  The completions on
    the stack of [minit] are counters by their address; the clock and the
    allocations of Linux are arguments of a step. *)

From S2P Require Import Prelude KgpuDefs UnitAlloc MemPool MmapArea Device Module Clients.

(** ** Completions *)

Definition init_completion (c : Z) (m : gmap Z Z) : gmap Z Z := <[c := 0]> m.

Definition complete (c : Z) (m : gmap Z Z) : outcome (gmap Z Z) :=
  n ← of_option WildPointer (m !! c); mret (<[c := wrap32 (n + 1)]> m).

(** [wait_for_completion]: [None] when the caller has to sleep. *)
Definition try_wait (c : Z) (m : gmap Z Z) : outcome (option (gmap Z Z)) :=
  n ← of_option WildPointer (m !! c); mret (if 0 <? n then Some (<[c := n - 1]> m) else None).

Definition with_sizes (sz : Z) (q : kgpu_request) : kgpu_request :=
  mk_request (rq_id q) (rq_in q) (rq_out q) (rq_udata q) (rq_kdata q) sz sz
    (rq_udatasize q) (rq_kdatasize q) (rq_service_name q) (rq_callback q) (rq_errcode q).

(** ** The machine *)

(** Where [minit] is: the first call, the loop over asynchronous batches (at
    its head, or about to wait for the completion [i]), the loop over
    synchronous calls, the clean-up. *)
Inductive phase : Type :=
  | Warm
  | Warm_wait (data : Z)
  | Warm_ret
  | Async (sz : Z)
  | Async_wait (sz : Z) (t0 : Z * Z) (i : Z)
  | Sync (sz : Z)
  | Sync_wait (sz : Z) (t0 : Z * Z) (data : Z)
  | Sync_ret (sz : Z) (t0 : Z * Z)
  | Cleanup
  | Finished.

(** The state, with the completions and the lines of the report: a size and
    its two rates. *)
Record bench : Type := mk_bench {
  b_phase : phase;
  b_dev : kgpu_dev;
  b_done : gmap Z Z;
  b_report : list (Z * (Z * Z))
}.

(** What Linux does during a step: the clock, the record of a synchronous
    call, the queue items, and whether a signal is pending. *)
Record chance : Type := mk_chance {
  c_time : Z * Z;
  c_data : option Z;
  c_items : list (option Z);
  c_signal : bool
}.

Section bench.
Context `{BitmapLib} (mycb_addr : Z) (cs : Z -> Z) (rs bufs : list Z).

Definition new_id (r : Z) (d : kgpu_dev) : outcome kgpu_dev :=
  let '(d, i) := kgpu_next_request_id d in update_req (with_id i) d r.

(** The loops over a batch, from [i] on with [n] rounds left. *)
Fixpoint set_sizes (n : nat) (i sz : Z) (d : kgpu_dev) : outcome kgpu_dev :=
  match n with
  | O => mret d
  | S n => r ← array_get rs i; d ← update_req (with_sizes sz) d r; set_sizes n (i + 1) sz d
  end.

Fixpoint submit (n : nat) (i : Z) (items : list (option Z)) (d : kgpu_dev) : outcome kgpu_dev :=
  match n with
  | O => mret d
  | S n =>
      r ← array_get rs i;
      let '(d, _) := kgpu_call_async d r (default None (head items)) in
      submit n (i + 1) (tail items) d
  end.

Fixpoint renew (n : nat) (i : Z) (d : kgpu_dev) (m : gmap Z Z) : outcome (kgpu_dev * gmap Z Z) :=
  match n with
  | O => mret (d, m)
  | S n =>
      let m := init_completion (cs i) m in
      r ← array_get rs i;
      d ← new_id r d;
      renew n (i + 1) d m
  end.

(** [kgpu_call_sync(rs[0])] up to its wait. *)
Definition call_sync (e : chance) (d : kgpu_dev) : outcome (kgpu_dev * sync_result) :=
  r ← array_get rs 0; kgpu_call_sync_submit d r (c_data e) (default None (head (c_items e))).

Definition end_sync (d : kgpu_dev) (data : Z) : outcome kgpu_dev :=
  r ← array_get rs 0; '(d, _) ← kgpu_call_sync_resume d r data; mret d.

Definition run (e : chance) (b : bench) : outcome bench :=
  let n := Z.to_nat Sysbm.BATCH_NR in
  let 'mk_bench ph d m rep := b in
  match ph with
  | Warm =>
      '(d, s) ← call_sync e d;
      mret (mk_bench (match s with SyncReturn _ => Warm_ret | SyncWait a => Warm_wait a end) d m rep)
  | Warm_wait data =>
      if sync_may_resume d data (c_signal e) then
        d ← end_sync d data; mret (mk_bench Warm_ret d m rep)
      else mret b
  | Warm_ret =>
      r ← array_get rs 0; d ← new_id r d; mret (mk_bench (Async Sysbm.MIN_MEM_SZ) d m rep)
  | Async sz =>
      if sz <=? Sysbm.MAX_MEM_SZ then
        d ← set_sizes n 0 sz d;
        d ← submit n 0 (c_items e) d;
        mret (mk_bench (Async_wait sz (c_time e) 0) d m rep)
      else mret (mk_bench (Sync Sysbm.MIN_MEM_SZ) d m rep)
  | Async_wait sz t0 i =>
      if i <? Sysbm.BATCH_NR then
        w ← try_wait (cs i) m;
        mret (match w with Some m => mk_bench (Async_wait sz t0 (i + 1)) d m rep | None => b end)
      else
        line ← of_option DivByZero (Sysbm.async_rates sz t0 (c_time e));
        '(d, m) ← renew n 0 d m;
        mret (mk_bench (Async (Sysbm.next_sz sz)) d m (rep ++ [(sz, line)]))
  | Sync sz =>
      if sz <=? Sysbm.MAX_MEM_SZ then
        r ← array_get rs 0;
        d ← update_req (with_sizes sz) d r;
        '(d, s) ← call_sync e d;
        mret (mk_bench (match s with
                        | SyncReturn _ => Sync_ret sz (c_time e)
                        | SyncWait a => Sync_wait sz (c_time e) a
                        end) d m rep)
      else mret (mk_bench Cleanup d m rep)
  | Sync_wait sz t0 data =>
      if sync_may_resume d data (c_signal e) then
        d ← end_sync d data; mret (mk_bench (Sync_ret sz t0) d m rep)
      else mret b
  | Sync_ret sz t0 =>
      line ← of_option DivByZero (Sysbm.sync_rates sz t0 (c_time e));
      r ← array_get rs 0;
      d ← new_id r d;
      mret (mk_bench (Sync (Sysbm.next_sz sz)) d m (rep ++ [(sz, line)]))
  | Cleanup => d ← Sysbm.cleanup n 0 rs bufs d; mret (mk_bench Finished d m rep)
  | Finished => mret b
  end.

(** ** The helper's side *)

Definition sysbm_callback (f r : Z) (d : kgpu_dev) : outcome kgpu_dev :=
  if f =? mycb_addr then Sysbm.mycb r d else Fault WildPointer.

(** The part of [mycb] that is not in the state of the module: the completion
    whose address is in the request that the answer is for. *)
Definition signalled (d : kgpu_dev) (resp : kgpu_ku_response) (m : gmap Z Z) : outcome (gmap Z Z) :=
  found ← find_request d (ks_id resp) (rtdreqs d);
  match found with
  | None => mret m
  | Some (item, _) =>
      q ← load_req d (it_r item);
      match rq_callback q with
      | CB_client f => if f =? mycb_addr then complete (rq_kdata q) m else mret m
      | _ => mret m
      end
  end.

Inductive event : Type :=
  | Run (e : chance)
  | Read
  | Answer (resp : kgpu_ku_response).

Definition bench_step (ev : event) (b : bench) : outcome bench :=
  match ev with
  | Run e => run e b
  | Read =>
      '(d, _) ← kgpu_read (b_dev b) sizeof_ku_request true false;
      mret (mk_bench (b_phase b) d (b_done b) (b_report b))
  | Answer resp =>
      m ← signalled (b_dev b) resp (b_done b);
      '(d, _) ← kgpu_write sysbm_callback (b_dev b) sizeof_ku_response resp;
      mret (mk_bench (b_phase b) d m (b_report b))
  end.

(** Whether an event changes anything: the wait is over, a request is queued,
    the answer is for a request in flight. *)
Definition effective (ev : event) (b : bench) : bool :=
  match ev with
  | Run _ =>
      match b_phase b with
      | Warm_wait data | Sync_wait _ _ data => sync_may_resume (b_dev b) data false
      | Async_wait _ _ i => negb (i <? Sysbm.BATCH_NR) || (0 <? default 0 (b_done b !! cs i))
      | Finished => false
      | _ => true
      end
  | Read => bool_decide (reqs (b_dev b) <> [])
  | Answer resp =>
      existsb (fun it => bool_decide (rq_id <$> requests (b_dev b) !! it_r it = Some (ks_id resp)))
        (rtdreqs (b_dev b))
  end.

(** What is asked of Linux: allocations succeed, with a fresh record for a
    synchronous call, no signal is pending, and a batch takes ten
    microseconds at least. *)
Definition fair (ev : event) (b : bench) : Prop :=
  match ev with
  | Run e =>
      c_signal e = false /\
      (exists a, c_data e = Some a /\ sync_data (b_dev b) !! a = None) /\
      (exists l, c_items e = Some <$> l /\ length l = Z.to_nat Sysbm.BATCH_NR) /\
      match b_phase b with
      | Async_wait _ t0 _ | Sync_ret _ t0 => 10 <= Sysbm.elapsed t0 (c_time e)
      | _ => True
      end
  | _ => True
  end.

(** A run of [n] effective events. *)
Inductive runs : nat -> bench -> bench -> Prop :=
  | runs_here b : runs 0 b b
  | runs_step n b b1 b2 ev :
      runs n b b1 -> effective ev b1 = true -> fair ev b1 -> bench_step ev b1 = Ok b2 ->
      runs (S n) b b2.

(** ** The work that is left

    Every size of the first loop takes two steps of its own and three events
    for each request of the batch: the helper reads it and answers it, and
    [minit] waits for it.  A synchronous call takes five events. *)

Definition sizes_from (sz : Z) : list Z := default [] (Sysbm.sizes 16 sz).

Definition sync_work (sz : Z) : nat := 5 * length (sizes_from sz) + 2.

Definition async_work (sz : Z) : nat :=
  32 * length (sizes_from sz) + 1 + sync_work Sysbm.MIN_MEM_SZ.

Definition phase_work (ph : phase) : nat :=
  match ph with
  | Warm => 5 + async_work Sysbm.MIN_MEM_SZ
  | Warm_wait _ => 2 + async_work Sysbm.MIN_MEM_SZ
  | Warm_ret => 1 + async_work Sysbm.MIN_MEM_SZ
  | Async sz => async_work sz
  | Async_wait sz _ i => Z.to_nat (Sysbm.BATCH_NR - i) + 1 + async_work (Sysbm.next_sz sz)
  | Sync sz => sync_work sz
  | Sync_wait sz _ _ => 2 + sync_work (Sysbm.next_sz sz)
  | Sync_ret sz _ => 1 + sync_work (Sysbm.next_sz sz)
  | Cleanup => 1
  | Finished => 0
  end.

Definition work_left (b : bench) : nat :=
  phase_work (b_phase b) + 2 * length (reqs (b_dev b)) + length (rtdreqs (b_dev b)).

End bench.
