(* ===== verification/BenchInv.v ===== *)
(** * The invariant of the benchmark

    Which requests of the batch are with the module and which completions are
    signalled, at every wait of the machine of Bench.  Every event keeps it,
    and an event that changes anything takes one off the work that is left. *)

From S2P Require Import Prelude KgpuDefs UnitAlloc MemPool MmapArea Device Module Clients Bench.

(** ** Sizes *)

Definition all_sizes : list Z := sizes_from Sysbm.MIN_MEM_SZ.

Definition end_size : Z := 2 * Sysbm.MAX_MEM_SZ.

Lemma size_step sz :
  sz ∈ all_sizes -> sz <= Sysbm.MAX_MEM_SZ /\ sizes_from sz = sz :: sizes_from (Sysbm.next_sz sz) /\
    (Sysbm.next_sz sz ∈ all_sizes \/ Sysbm.next_sz sz = end_size).
Proof.
  assert (forallb (fun sz => (sz <=? Sysbm.MAX_MEM_SZ) &&
    bool_decide (sizes_from sz = sz :: sizes_from (Sysbm.next_sz sz)) &&
    (bool_decide (Sysbm.next_sz sz ∈ all_sizes) || (Sysbm.next_sz sz =? end_size))) all_sizes = true)
    as Hall by by vm_compute.
  intros Hs. rewrite forallb_forall in Hall. specialize (Hall sz (proj1 (list_elem_of_In _ _) Hs)).
  apply andb_prop in Hall as [[H1%Z.leb_le H2%bool_decide_eq_true_1]%andb_prop H3].
  split_and!; [done..|]. apply orb_prop in H3 as [H3%bool_decide_eq_true_1|H3%Z.eqb_eq]; auto.
Qed.

Lemma size_cases sz :
  sz ∈ all_sizes \/ sz = end_size ->
  (sz <=? Sysbm.MAX_MEM_SZ) = true /\ sz ∈ all_sizes \/
  (sz <=? Sysbm.MAX_MEM_SZ) = false /\ sizes_from sz = [].
Proof.
  intros [Hs| ->]; [left|by right]. split; [|done]. apply Z.leb_le. by apply size_step.
Qed.

Lemma first_size : Sysbm.MIN_MEM_SZ ∈ all_sizes.
Proof.
  assert (bool_decide (Sysbm.MIN_MEM_SZ ∈ all_sizes) = true) as E by by vm_compute.
  exact (bool_decide_eq_true_1 _ E).
Qed.

#[local] Opaque all_sizes sizes_from.

(** ** What the loops over the batch leave alone *)

Record touched (d d' : kgpu_dev) : Prop := {
  to_state : d_state d' = d_state d;
  to_reqs : reqs d' = reqs d;
  to_flight : rtdreqs d' = rtdreqs d;
  to_pool : gmpool d' = gmpool d;
  to_free : req_free d' = req_free d;
  to_sync : sync_data d' = sync_data d;
  to_requests r q : requests d !! r = Some q -> exists q', requests d' !! r = Some q' /\
    rq_callback q' = rq_callback q /\ rq_kdata q' = rq_kdata q
}.

#[global] Instance touched_preorder : PreOrder touched.
Proof.
  split.
  - intros d. split; eauto.
  - intros d1 d2 d3 [] []. split; try congruence.
    intros r q Hq. destruct (to_requests0 r q Hq) as (q2 & H2 & ? & ?).
    destruct (to_requests1 r q2 H2) as (q3 & H3 & ? & ?). exists q3. split; [done|]. split; congruence.
Qed.

Lemma touched_queued d d' : touched d d' -> queued d' = queued d.
Proof. intros []. unfold queued. by rewrite to_reqs0, to_flight0. Qed.

Lemma touched_update f d r q :
  r <> NULL -> requests d !! r = Some q ->
  (forall q, rq_callback (f q) = rq_callback q /\ rq_kdata (f q) = rq_kdata q) ->
  exists d', update_req f d r = Ok d' /\ touched d d'.
Proof.
  intros Hn Hq Hf. unfold update_req. rewrite (load_req_ok _ _ _ Hn Hq). eexists. split; [done|].
  split; try done. intros x qx Hx. simpl. destruct (decide (x = r)) as [->|].
  - rewrite Hq in Hx. injection Hx as <-. rewrite lookup_insert_eq. exists (f q). split; [done|]. apply Hf.
  - rewrite lookup_insert_ne by done. eauto.
Qed.

Lemma touched_new_id d r q :
  r <> NULL -> requests d !! r = Some q -> exists d', new_id r d = Ok d' /\ touched d d'.
Proof.
  intros Hn Hq. unfold new_id. destruct (kgpu_next_request_id d) as [d1 i] eqn:E.
  assert (touched d d1) as H1 by (injection E as <- <-; split; eauto).
  destruct (touched_update (with_id i) d1 r q Hn) as (d2 & E2 & H2).
  { by injection E as <- <-. }
  { by intros []. }
  exists d2. split; [done | by transitivity d1].
Qed.

Section inv.
Context `{BitmapLib} (mycb_addr : Z) (cs : Z -> Z) (rs bufs : list Z).
Context (Hlen : length rs = Z.to_nat Sysbm.BATCH_NR) (Hnd : NoDup rs) (Hnull : NULL ∉ rs).
Context (Hcs : forall i j, 0 <= i < Sysbm.BATCH_NR -> 0 <= j < Sysbm.BATCH_NR -> cs i = cs j -> i = j).

Notation N := (Z.to_nat Sysbm.BATCH_NR).

Lemma batch_get i :
  0 <= i < Sysbm.BATCH_NR ->
  exists r, array_get rs i = Ok r /\ rs !! Z.to_nat i = Some r /\ r <> NULL.
Proof.
  intros Hi. destruct (lookup_lt_is_Some_2 rs (Z.to_nat i)) as [r Hr]; [lia|].
  exists r. split; [apply array_get_ok; [lia | done]|]. split; [done|].
  intros ->. by apply Hnull, (list_elem_of_lookup_2 rs (Z.to_nat i)).
Qed.

(** Every request of the batch has its object. *)
Definition batch_live (d : kgpu_dev) : Prop :=
  forall j r, rs !! j = Some r -> is_Some (requests d !! r).

Lemma touched_live d d' : touched d d' -> batch_live d -> batch_live d'.
Proof.
  intros Ht Hl j r Hr. destruct (Hl j r Hr) as [q Hq].
  destruct (to_requests _ _ Ht r q Hq) as (q' & Hq' & _). eauto.
Qed.

Lemma set_sizes_ok n i sz d :
  0 <= i -> i + Z.of_nat n = Sysbm.BATCH_NR -> batch_live d ->
  exists d', set_sizes rs n i sz d = Ok d' /\ touched d d'.
Proof.
  revert i d. induction n as [|n IH]; intros i d Hi Hn Hl; cbn [set_sizes].
  - by exists d.
  - destruct (batch_get i) as (r & -> & Hr & Hr0); [lia|]. destruct (Hl _ _ Hr) as [q Hq]. cbn.
    destruct (touched_update (with_sizes sz) d r q Hr0 Hq) as (d1 & -> & H1); [by intros []|]. cbn.
    destruct (IH (i + 1) d1) as (d2 & -> & H2); [lia | lia | by eapply touched_live|].
    exists d2. split; [done | by transitivity d1].
Qed.

Lemma renew_ok n i d m :
  0 <= i -> i + Z.of_nat n = Sysbm.BATCH_NR -> batch_live d ->
  exists d' m', renew cs rs n i d m = Ok (d', m') /\ touched d d' /\
    (forall j, i <= j < Sysbm.BATCH_NR -> m' !! cs j = Some 0) /\
    (forall c, (forall j, i <= j < Sysbm.BATCH_NR -> c <> cs j) -> m' !! c = m !! c).
Proof.
  revert i d m. induction n as [|n IH]; intros i d m Hi Hn Hl; cbn [renew].
  - exists d, m. split_and!; [done.. | lia | done].
  - destruct (batch_get i) as (r & -> & Hr & Hr0); [lia|]. destruct (Hl _ _ Hr) as [q Hq].
    cbn [mbind outcome_bind].
    destruct (touched_new_id d r q Hr0 Hq) as (d1 & -> & H1). cbn [mbind outcome_bind].
    destruct (IH (i + 1) d1 (init_completion (cs i) m)) as (d2 & m2 & -> & H2 & Hz & Hk);
      [lia | lia | by eapply touched_live|].
    exists d2, m2. split_and!; [done | by transitivity d1 | |].
    + intros j Hj. destruct (decide (j = i)) as [->|]; [|apply Hz; lia].
      rewrite Hk; [apply lookup_insert_eq|]. intros j Hj' E. apply Hcs in E; lia.
    + intros c Hc. rewrite Hk by (intros; apply Hc; lia). unfold init_completion.
      rewrite lookup_insert_ne; [done|]. intros E. apply (Hc i); [lia | done].
Qed.

Lemma submit_ok n i items d :
  0 <= i -> i + Z.of_nat n = Sysbm.BATCH_NR -> d_state d <> KGPU_TERMINATED -> length items = n ->
  exists new, submit rs n i (Some <$> items) d = Ok (set_reqs d (reqs d ++ new)) /\
    it_r <$> new = drop (Z.to_nat i) rs.
Proof.
  revert i items d. induction n as [|n IH]; intros i items d Hi Hn Hst Hl; cbn [submit].
  - exists []. rewrite app_nil_r, drop_ge by lia. by destruct d.
  - destruct (batch_get i) as (r & -> & Hr & Hr0); [lia|]. destruct items as [|a items]; [done|].
    unfold kgpu_call_async. rewrite (proj2 (Z.eqb_neq _ _)) by done. cbn.
    destruct (IH (i + 1) items (set_reqs d (reqs d ++ [mk_item a r]))) as (new & -> & Hnew);
      [lia | lia | done | simpl in *; lia|].
    exists (mk_item a r :: new). split; [simpl; by rewrite <- app_assoc|].
    rewrite fmap_cons, Hnew, (drop_S _ _ _ Hr). do 2 f_equal. lia.
Qed.

(** ** The invariant *)

(** The record that the first request waits on, in a synchronous call. *)
Definition sync_record (ph : phase) : option Z :=
  match ph with Warm_wait data | Sync_wait _ _ data => Some data | _ => None end.

Definition request_ok (ph : phase) (j : nat) (q : kgpu_request) : Prop :=
  match sync_record ph, j with
  | Some data, O => rq_callback q = CB_sync /\ rq_kdata q = data
  | _, _ => rq_callback q = CB_client mycb_addr /\ rq_kdata q = cs (Z.of_nat j)
  end.

Definition quiet (m : gmap Z Z) : Prop := forall j, 0 <= j < Sysbm.BATCH_NR -> m !! cs j = Some 0.

(** The completion [j] while the batch is waited for from [i] on: signalled
    when the request is no longer with the module. *)
Definition signal_of (i : Z) (l : list Z) (j : nat) (r : Z) : Z :=
  if bool_decide (Z.of_nat j < i \/ r ∈ l) then 0 else 1.

Definition calls_ok (ph : phase) (d : kgpu_dev) (m : gmap Z Z) : Prop :=
  match ph with
  | Async_wait _ _ i =>
      0 <= i <= Sysbm.BATCH_NR /\ NoDup (queued d) /\
      (forall r, r ∈ queued d -> exists j, rs !! j = Some r /\ i <= Z.of_nat j) /\
      (forall j r, rs !! j = Some r -> m !! cs (Z.of_nat j) = Some (signal_of i (queued d) j r))
  | Warm_wait data | Sync_wait _ _ data =>
      quiet m /\ exists s, sync_data d !! data = Some (mk_sync (cs 0) (CB_client mycb_addr) s) /\
        (queued d = take 1 rs /\ s = 0 \/ queued d = [] /\ s = 1)
  | _ => quiet m /\ queued d = []
  end.

Definition size_ok (ph : phase) : Prop :=
  match ph with
  | Async sz | Sync sz => sz ∈ all_sizes \/ sz = end_size
  | Async_wait sz _ _ | Sync_wait sz _ _ | Sync_ret sz _ => sz ∈ all_sizes
  | _ => True
  end.

(** The sizes whose lines are still to be printed. *)
Definition lines_left (ph : phase) : list Z :=
  match ph with
  | Warm | Warm_wait _ | Warm_ret => all_sizes ++ all_sizes
  | Async sz | Async_wait sz _ _ => sizes_from sz ++ all_sizes
  | Sync sz | Sync_wait sz _ _ | Sync_ret sz _ => sizes_from sz
  | Cleanup | Finished => []
  end.

(** The memory at the end: the blocks [base], and the requests free again. *)
Context (pool0 : kgpu_mempool) (free0 : list Z) (base : gmap Z Z).

Record cleaned (d : kgpu_dev) : Prop := {
  cl_pool : pool_wf (gmpool d);
  cl_blocks : pool_blocks (gmpool d) = base;
  cl_free : req_free d = reverse rs ++ free0
}.

Definition memory_ok (ph : phase) (d : kgpu_dev) : Prop :=
  match ph with Finished => cleaned d | _ => gmpool d = pool0 /\ req_free d = free0 end.

Record bench_inv (b : bench) : Prop := {
  bi_state : d_state (b_dev b) <> KGPU_TERMINATED;
  bi_requests j r : rs !! j = Some r ->
    exists q, requests (b_dev b) !! r = Some q /\ request_ok (b_phase b) j q;
  bi_calls : calls_ok (b_phase b) (b_dev b) (b_done b);
  bi_size : size_ok (b_phase b);
  bi_lines : (b_report b).*1 ++ lines_left (b_phase b) = all_sizes ++ all_sizes;
  bi_memory : memory_ok (b_phase b) (b_dev b)
}.

Lemma bi_live b : bench_inv b -> batch_live (b_dev b).
Proof. intros Hb j r Hr. destruct (bi_requests _ Hb j r Hr) as (q & Hq & _). eauto. Qed.

Lemma memory_ok_same ph d d' :
  memory_ok ph d -> gmpool d' = gmpool d -> req_free d' = req_free d -> memory_ok ph d'.
Proof. intros Hm E1 E2. destruct ph; cbn in *; try congruence. destruct Hm. split; congruence. Qed.

(** ** Reading *)

Lemma queued_in_batch b r : bench_inv b -> r ∈ queued (b_dev b) -> exists j, rs !! j = Some r.
Proof.
  intros Hb Hr. pose proof (bi_calls _ Hb) as Hc.
  destruct (b_phase b); cbn [calls_ok] in Hc;
    try (destruct Hc as [_ E]; rewrite E in Hr; by apply not_elem_of_nil in Hr).
  - destruct Hc as (_ & s & _ & [[E _]|[E _]]); rewrite E in Hr.
    + apply list_elem_of_lookup in Hr as [j Hj]. exists j. by apply lookup_take_Some in Hj as [? _].
    + by apply not_elem_of_nil in Hr.
  - destruct Hc as (_ & _ & Hin & _). destruct (Hin r Hr) as (j & Hj & _). eauto.
  - destruct Hc as (_ & s & _ & [[E _]|[E _]]); rewrite E in Hr.
    + apply list_elem_of_lookup in Hr as [j Hj]. exists j. by apply lookup_take_Some in Hj as [? _].
    + by apply not_elem_of_nil in Hr.
Qed.

Lemma queued_at b r :
  bench_inv b -> r ∈ queued (b_dev b) ->
  exists j q, rs !! j = Some r /\ req_at (b_dev b) r q /\ request_ok (b_phase b) j q.
Proof.
  intros Hb Hr. destruct (queued_in_batch _ _ Hb Hr) as [j Hj].
  destruct (bi_requests _ Hb _ _ Hj) as (q & Hq & Ho). exists j, q. split; [done|].
  split; [|done]. split; [|done]. intros ->. by apply Hnull, (list_elem_of_lookup_2 rs j).
Qed.

(** Reading moves a request, and leaves the sequence of those with the module
    as it is. *)
Lemma read_ok b :
  bench_inv b -> exists b', bench_step mycb_addr cs rs bufs Read b = Ok b' /\ bench_inv b' /\
    (effective cs Read b = true -> work_left b = S (work_left b')) /\ (effective cs Read b = false -> b' = b).
Proof.
  intros Hb. cbn [bench_step]. unfold kgpu_read.
  assert (Ef : effective cs Read b = bool_decide (reqs (b_dev b) <> [])) by done. rewrite Ef. clear Ef.
  destruct (reqs (b_dev b)) as [|item rest] eqn:Er.
  - eexists. split; [done|]. destruct b. split; [done|]. split; [|done]. by case_bool_decide.
  - rewrite (bool_decide_eq_true_2 (item :: rest <> [])) by done. assert (Hin : it_r item ∈ queued (b_dev b)).
    { unfold queued. rewrite Er, fmap_app. apply elem_of_app. right. left. }
    destruct (queued_at _ _ Hb Hin) as (j & q & _ & [Hn Hq] & _).
    rewrite (load_req_ok (set_reqs (b_dev b) rest) _ q) by done.
    exists (mk_bench (b_phase b) (set_rtdreqs (set_reqs (b_dev b) rest) (rtdreqs (b_dev b) ++ [item]))
      (b_done b) (b_report b)). split; [done|].
    assert (Eq : queued (set_rtdreqs (set_reqs (b_dev b) rest) (rtdreqs (b_dev b) ++ [item])) =
      queued (b_dev b)) by (unfold queued; simpl; by rewrite Er, <- app_assoc).
    destruct b as [ph d m rep]. cbn [b_phase b_dev b_done b_report] in *.
    split; [|split; [|done]].
    + destruct Hb as [Hst Hq' Hc Hsz Hrep Hmem]. split; [exact Hst | exact Hq' | | exact Hsz | exact Hrep|].
      * cbn [b_phase b_dev b_done] in *. destruct ph; cbn [calls_ok] in *; rewrite Eq; exact Hc.
      * by apply (memory_ok_same _ d).
    + intros _. unfold work_left. cbn. rewrite Er, length_app. simpl. lia.
Qed.

(** ** Answering *)

(** The request [r] leaves the batch [l] that is waited for. *)
Lemma async_answered sz t0 i d d' m j r :
  calls_ok (Async_wait sz t0 i) d m -> queued d ≡ₚ r :: queued d' -> rs !! j = Some r ->
  exists m', complete (cs (Z.of_nat j)) m = Ok m' /\ calls_ok (Async_wait sz t0 i) d' m'.
Proof.
  intros (Hi & Hq & Hin & Hm) Hl Hj. rewrite Hl in Hq. apply NoDup_cons in Hq as [Hr Hq].
  assert (Hj' : i <= Z.of_nat j).
  { destruct (Hin r) as (j' & Hj' & Hle); [rewrite Hl; left|]. by rewrite (NoDup_lookup rs j j' r). }
  pose proof (lookup_lt_Some _ _ _ Hj) as Hlt. rewrite Hlen in Hlt.
  unfold complete. rewrite (Hm j r Hj). unfold signal_of at 1.
  rewrite bool_decide_eq_true_2 by (right; rewrite Hl; left). cbn. eexists. split; [done|].
  cbn [calls_ok]. split_and!; [lia | lia | done | |].
  - intros x Hx. apply Hin. rewrite Hl. by right.
  - intros k x Hk. pose proof (lookup_lt_Some _ _ _ Hk) as Hlt'. rewrite Hlen in Hlt'.
    destruct (decide (k = j)) as [->|Hne].
    + rewrite lookup_insert_eq. unfold signal_of. simplify_eq.
      rewrite bool_decide_eq_false_2; [done|]. intros [?|?]; [lia | done].
    + rewrite lookup_insert_ne; [|intros E; apply Hcs in E; lia]. rewrite (Hm k x Hk).
      unfold signal_of. f_equal. erewrite bool_decide_ext; [done|]. rewrite Hl, elem_of_cons.
      enough (x <> r) by naive_solver. intros ->. apply Hne. by apply (NoDup_lookup rs k j r).
Qed.

Lemma sync_answered sz t0 d d' m data j r s :
  queued d ≡ₚ r :: queued d' -> rs !! j = Some r ->
  quiet m -> sync_data d !! data = Some (mk_sync (cs 0) (CB_client mycb_addr) s) ->
  queued d = take 1 rs /\ s = 0 \/ queued d = [] /\ s = 1 ->
  sync_data d' !! data = Some (mk_sync (cs 0) (CB_client mycb_addr) 1) ->
  j = 0%nat /\ calls_ok (Sync_wait sz t0 data) d' m.
Proof.
  intros Hl Hj Hm Hs Hcase Hs'. destruct Hcase as [[E _]|[E _]]; rewrite E in Hl.
  - assert (length (queued d') = 0%nat) as E'%nil_length_inv.
    { apply Permutation_length in Hl. rewrite length_take in Hl. cbn [length] in Hl. lia. }
    split; [|by split; [|eexists; split; [|right]]].
    assert (Hr : r ∈ take 1 rs) by (rewrite Hl; left).
    apply list_elem_of_lookup in Hr as [k [Hk ?]%lookup_take_Some].
    assert (k = 0%nat) as -> by lia. by apply (NoDup_lookup rs j 0 r).
  - by apply Permutation_nil_cons in Hl.
Qed.

(** The callback of an answered request [r], in the state [d2] in which it is
    no longer with the module. *)
Lemma callback_ok ph d d2 m j r q :
  calls_ok ph d m -> queued d ≡ₚ r :: queued d2 -> rs !! j = Some r -> request_ok ph j q ->
  sync_data d2 = sync_data d -> req_at d2 r q ->
  exists m3 s3,
    match rq_callback q with
    | CB_client f => if f =? mycb_addr then complete (rq_kdata q) m else mret m
    | _ => mret m
    end = Ok m3 /\
    run_callback (sysbm_callback mycb_addr) d2 r = Ok (set_sync d2 s3) /\
    calls_ok ph (set_sync d2 s3) m3.
Proof.
  intros Hc Hl Hj Hok Hs [Hn Hq]. unfold run_callback. rewrite (load_req_ok _ _ _ Hn Hq).
  cbn [mbind outcome_bind].
  assert (Hsync : forall sz t0 data s, quiet m ->
    sync_data d !! data = Some (mk_sync (cs 0) (CB_client mycb_addr) s) ->
    queued d = take 1 rs /\ s = 0 \/ queued d = [] /\ s = 1 -> request_ok (Sync_wait sz t0 data) j q ->
    exists s3, rq_callback q = CB_sync /\ sync_callback d2 r = Ok (set_sync d2 s3) /\
      calls_ok (Sync_wait sz t0 data) (set_sync d2 s3) m).
  { intros sz t0 data s Hm Hd Hcase Hok'.
    pose (s3 := <[data := mk_sync (cs 0) (CB_client mycb_addr) 1]> (sync_data d2)).
    destruct (sync_answered sz t0 d (set_sync d2 s3) m data j r s Hl Hj Hm Hd Hcase) as [-> Hc3];
      [apply lookup_insert_eq|].
    destruct Hok' as [-> Hk]. exists s3. split; [done|]. split; [|done].
    unfold sync_callback. rewrite (load_req_ok _ _ _ Hn Hq), Hs. cbn [mbind outcome_bind].
    rewrite Hk, Hd. unfold s3. by rewrite Hs. }
  destruct ph; cbn [calls_ok] in Hc;
    try (destruct Hc as [_ E]; rewrite E in Hl; by apply Permutation_nil_cons in Hl).
  - destruct Hc as (Hm & s & Hd & Hcase).
    destruct (Hsync 0 (0, 0) data s Hm Hd Hcase Hok) as (s3 & -> & E & Hc). by exists m, s3.
  - destruct (async_answered sz t0 i d d2 m j r Hc Hl Hj) as (m3 & Em & Hc3).
    destruct Hok as [-> ->]. exists m3, (sync_data d2). rewrite Z.eqb_refl. split; [done|].
    unfold sysbm_callback, Sysbm.mycb. rewrite Z.eqb_refl, (load_req_ok _ _ _ Hn Hq). by destruct d2.
  - destruct Hc as (Hm & s & Hd & Hcase).
    destruct (Hsync sz t0 data s Hm Hd Hcase Hok) as (s3 & -> & E & Hc). by exists m, s3.
Qed.

(** A step of the helper that leaves the phase, the requests but for their
    error codes, and the memory. *)
Lemma bench_inv_frame ph d d1 d2 m m2 s2 rep :
  bench_inv (mk_bench ph d m rep) -> touched d1 d2 ->
  d_state d1 = d_state d -> requests d1 = requests d -> gmpool d1 = gmpool d -> req_free d1 = req_free d ->
  calls_ok ph (set_sync d2 s2) m2 -> bench_inv (mk_bench ph (set_sync d2 s2) m2 rep).
Proof.
  intros [I1 I2 I3 I4 I5 I6] [] F1 F2 F3 F4 Hc. cbn [b_phase b_dev b_done b_report] in *.
  split; cbn [b_phase b_dev b_done b_report]; try assumption; cbn.
  - congruence.
  - intros k x Hx. destruct (I2 k x Hx) as (y & Hy & Ho). rewrite <- F2 in Hy.
    destruct (to_requests0 x y Hy) as (y' & ? & Hc1 & Hc2). exists y'. split; [done|].
    unfold request_ok in *. by rewrite Hc1, Hc2.
  - apply (memory_ok_same _ d); [done | |]; cbn; congruence.
Qed.

Lemma answer_found b resp l1 item l2 q :
  bench_inv b -> rtdreqs (b_dev b) = l1 ++ item :: l2 ->
  find_request (b_dev b) (ks_id resp) (rtdreqs (b_dev b)) = Ok (Some (item, l1 ++ l2)) ->
  req_at (b_dev b) (it_r item) q ->
  exists b', bench_step mycb_addr cs rs bufs (Answer resp) b = Ok b' /\ bench_inv b' /\
    work_left b = S (work_left b').
Proof.
  intros Hb El Ef [Hn Hq]. destruct b as [ph d m rep]. cbn [b_dev] in *. set (r := it_r item) in *.
  assert (Hin : r ∈ queued d) by (unfold queued; rewrite El, !fmap_app, fmap_cons; set_solver).
  destruct (queued_at _ _ Hb Hin) as (j & q0 & Hj & [_ Hq0] & Hok). cbn [b_dev b_phase] in *.
  rewrite Hq in Hq0. injection Hq0 as <-. set (d1 := set_rtdreqs d (l1 ++ l2)).
  destruct (touched_update (with_errcode (ks_errcode resp)) d1 r q Hn Hq) as (d2 & E2 & H2); [by intros []|].
  destruct (to_requests _ _ H2 r q Hq) as (q' & Hq' & Hcb & Hkd).
  destruct (callback_ok ph d d2 m j r q') as (m3 & s3 & Em & Er & Hc).
  - exact (bi_calls _ Hb).
  - rewrite (touched_queued _ _ H2). unfold queued, d1. simpl. rewrite El, !fmap_app, fmap_cons.
    simpl. by rewrite <- Permutation_middle.
  - done.
  - unfold request_ok in *. by rewrite Hcb, Hkd.
  - apply (to_sync _ _ H2).
  - done.
  - exists (mk_bench ph (set_sync d2 s3) m3 rep). split_and!.
    + cbn [bench_step b_dev b_done]. unfold signalled, kgpu_write. rewrite Ef.
      change (sizeof_ku_response <? sizeof_ku_response) with false. cbn [mbind outcome_bind]. fold d1 r.
      rewrite (load_req_ok _ _ _ Hn Hq), E2. cbn [mbind outcome_bind]. rewrite <- Hcb, <- Hkd, Em.
      cbn [mbind outcome_bind]. by rewrite Er.
    + by apply (bench_inv_frame ph d d1 d2 m).
    + unfold work_left. cbn [b_phase b_dev reqs rtdreqs set_sync].
      rewrite (to_reqs _ _ H2), (to_flight _ _ H2), El. cbn [d1 reqs rtdreqs set_rtdreqs].
      rewrite !length_app. simpl. lia.
Qed.

Lemma effective_answer b resp :
  effective cs (Answer resp) b = true <->
  exists it q, it ∈ rtdreqs (b_dev b) /\ requests (b_dev b) !! it_r it = Some q /\ rq_id q = ks_id resp.
Proof.
  cbn [effective]. rewrite existsb_exists. split.
  - intros (it & Hit%list_elem_of_In & E%bool_decide_eq_true_1).
    apply fmap_Some in E as (q & Hq & E). eauto.
  - intros (it & q & Hit & Hq & E). exists it. split; [by apply list_elem_of_In|].
    apply bool_decide_eq_true_2. by rewrite Hq, <- E.
Qed.

Lemma answer_ok b resp :
  bench_inv b -> exists b', bench_step mycb_addr cs rs bufs (Answer resp) b = Ok b' /\ bench_inv b' /\
    (effective cs (Answer resp) b = true -> work_left b = S (work_left b')) /\
    (effective cs (Answer resp) b = false -> b' = b).
Proof.
  intros Hb. destruct (find_request_cases (b_dev b) (ks_id resp) (rtdreqs (b_dev b)))
    as [[Ef Hno]|(l1 & item & l2 & q & El & Hq & Hid & Hno & Ef)].
  - apply Forall_forall. intros it Hit. destruct (queued_at b (it_r it) Hb) as (_ & q & _ & Hq & _); [|eauto].
    unfold queued. rewrite fmap_app. apply elem_of_app. left. by apply list_elem_of_fmap_2.
  - exists b. split.
    { cbn [bench_step]. unfold signalled, kgpu_write. rewrite Ef. by destruct b. }
    split; [done|]. split; [|done]. rewrite effective_answer. intros (it & q & Hit & Hq & Hid). exfalso.
    rewrite Forall_forall in Hno. destruct (Hno it Hit) as (q' & [_ Hq'] & Hne). congruence.
  - destruct (answer_found b resp l1 item l2 q Hb El Ef Hq) as (b' & E & Hb' & Hw).
    exists b'. split; [done|]. split; [done|]. split; [done|]. intros Hf. exfalso.
    assert (effective cs (Answer resp) b = true) as Ht; [|congruence].
    apply effective_answer. exists item, q. split_and!; [rewrite El; set_solver | apply Hq | done].
Qed.

(** ** The phases between two waits *)

Definition idle (ph : phase) : Prop :=
  match ph with Warm_wait _ | Async_wait _ _ _ | Sync_wait _ _ _ | Finished => False | _ => True end.

(** Nothing is with the module, and no completion is signalled. *)
Record at_rest (d : kgpu_dev) (m : gmap Z Z) : Prop := {
  ar_state : d_state d <> KGPU_TERMINATED;
  ar_requests j r : rs !! j = Some r -> exists q, requests d !! r = Some q /\
    rq_callback q = CB_client mycb_addr /\ rq_kdata q = cs (Z.of_nat j);
  ar_quiet : quiet m;
  ar_queued : queued d = [];
  ar_pool : gmpool d = pool0;
  ar_free : req_free d = free0
}.

(** The first request is with the module, or it is answered. *)
Record waiting (data : Z) (d : kgpu_dev) (m : gmap Z Z) : Prop := {
  wa_state : d_state d <> KGPU_TERMINATED;
  wa_requests j r : rs !! j = Some r -> exists q, requests d !! r = Some q /\
    request_ok (Warm_wait data) j q;
  wa_calls : calls_ok (Warm_wait data) d m;
  wa_pool : gmpool d = pool0;
  wa_free : req_free d = free0
}.

Definition progress_ok (ph : phase) (rep : list (Z * (Z * Z))) : Prop :=
  size_ok ph /\ rep.*1 ++ lines_left ph = all_sizes ++ all_sizes.

Lemma bench_inv_rest ph d m rep :
  idle ph -> bench_inv (mk_bench ph d m rep) <-> at_rest d m /\ progress_ok ph rep.
Proof.
  intros Hi. split.
  - intros [I1 I2 I3 I4 I5 I6]. split; [|exact (conj I4 I5)].
    destruct ph; destruct Hi; destruct I3 as [Q1 Q2], I6 as [M1 M2];
      exact (Build_at_rest d m I1 I2 Q1 Q2 M1 M2).
  - intros [[R1 R2 R3 R4 R5 R6] [Hs Hl]].
    split; [exact R1 | | | exact Hs | exact Hl |]; destruct ph; destruct Hi;
      first [exact R2 | exact (conj R3 R4) | exact (conj R5 R6)].
Qed.

Lemma bench_inv_wait ph data d m rep :
  sync_record ph = Some data -> bench_inv (mk_bench ph d m rep) <-> waiting data d m /\ progress_ok ph rep.
Proof.
  intros Hi. split.
  - intros [I1 I2 I3 I4 I5 I6]. split; [|exact (conj I4 I5)].
    destruct ph; try discriminate Hi; injection Hi as ->; destruct I6 as [M1 M2];
      exact (Build_waiting data d m I1 I2 I3 M1 M2).
  - intros [[W1 W2 W3 W4 W5] [Hs Hl]].
    split; [exact W1 | | | exact Hs | exact Hl |]; destruct ph; try discriminate Hi; injection Hi as ->;
      first [exact W2 | exact W3 | exact (conj W4 W5)].
Qed.

Lemma at_rest_live d m : at_rest d m -> batch_live d.
Proof. intros Hr j r Hj. destruct (ar_requests _ _ Hr j r Hj) as (q & ? & _). eauto. Qed.

Lemma at_rest_touched d d' m m' : at_rest d m -> touched d d' -> quiet m' -> at_rest d' m'.
Proof.
  intros [] Ht Hm. pose proof (touched_queued _ _ Ht). destruct Ht. split; try congruence; [|done].
  intros j r Hj. destruct (ar_requests0 j r Hj) as (q & Hq & ? & ?).
  destruct (to_requests0 r q Hq) as (q' & ? & ? & ?). exists q'. split; [done|]. split; congruence.
Qed.

Lemma queued_nil d : queued d = [] -> reqs d = [] /\ rtdreqs d = [].
Proof. unfold queued. intros [E1 E2]%fmap_nil_inv%app_nil. done. Qed.

Lemma rest_work ph d m rep : at_rest d m -> work_left (mk_bench ph d m rep) = phase_work ph.
Proof.
  intros Hr. destruct (queued_nil d (ar_queued _ _ Hr)) as [E1 E2]. unfold work_left. cbn.
  rewrite E1, E2. simpl. lia.
Qed.

Lemma batch_first : exists r l, rs = r :: l /\ r <> NULL /\ array_get rs 0 = Ok r.
Proof.
  destruct (batch_get 0) as (r & Eg & Hr & Hn); [by vm_compute|].
  destruct rs as [|r0 l]; [done|]. injection Hr as ->. by exists r, l.
Qed.

Lemma call_sync_ok e d m a item its :
  at_rest d m -> c_data e = Some a -> c_items e = Some item :: its ->
  exists d', call_sync rs e d = Ok (d', SyncWait a) /\ waiting a d' m /\
    length (reqs d') = 1%nat /\ rtdreqs d' = [].
Proof.
  intros [R1 R2 R3 R4 R5 R6] Ea Ei. destruct (queued_nil d R4) as [E1 E2].
  destruct batch_first as (r & l & Ers & Hn & Eg).
  destruct (R2 0%nat r) as (q & Hq & Hcb & Hkd); [by rewrite Ers|].
  unfold call_sync, kgpu_call_sync_submit. rewrite Eg, Ea, Ei. cbn [mbind outcome_bind head default from_option id].
  rewrite (proj2 (Z.eqb_neq _ _)) by done. unfold update_req.
  do 2 (rewrite (load_req_ok _ r q Hn) by done; cbn [mbind outcome_bind]).
  rewrite Hcb, Hkd. eexists. split; [reflexivity|]. split; [|by cbn; rewrite E1, E2].
  split; [done | | | done | done].
  - intros j x Hj. cbn. destruct (decide (x = r)) as [->|Hne].
    + assert (j = 0%nat) as -> by (apply (NoDup_lookup rs j 0 r); [done..|by rewrite Ers]).
      rewrite lookup_insert_eq. eexists. split; [reflexivity|]. by split.
    + rewrite lookup_insert_ne by done. destruct (R2 j x Hj) as (qx & Hx & H1 & H2). exists qx.
      split; [done|]. destruct j; [|by split]. rewrite Ers in Hj. by injection Hj as ->.
  - split; [done|]. exists 0. cbn. rewrite lookup_insert_eq. split; [done|]. left. split; [|done].
    unfold queued. cbn. by rewrite E1, E2, Ers.
Qed.

Lemma end_sync_ok d m data :
  waiting data d m -> sync_may_resume d data false = true ->
  exists d', end_sync rs d data = Ok d' /\ at_rest d' m /\ queued d = [].
Proof.
  intros [W1 W2 (W3 & s & Hs & Hcase) W4 W5] Hr. destruct batch_first as (r & l & Ers & Hn & Eg).
  unfold sync_may_resume in Hr. cbn in Hr. apply bool_decide_eq_true_1 in Hr. rewrite Hs in Hr.
  injection Hr as ->. destruct Hcase as [[_ ?]|[Eq _]]; [done|].
  destruct (W2 0%nat r) as (q & Hq & Hcb & Hkd); [by rewrite Ers|].
  unfold end_sync, kgpu_call_sync_resume, update_req. rewrite Eg, Hs.
  cbn [mbind outcome_bind of_option]. rewrite (load_req_ok _ r q Hn) by done.
  cbn [mbind outcome_bind sd_oldkdata sd_oldcallback]. eexists. split; [reflexivity|]. split; [|done].
  split; [done | | done | done | done | done].
  intros j x Hj. cbn. destruct (decide (x = r)) as [->|Hne].
  - assert (j = 0%nat) as -> by (apply (NoDup_lookup rs j 0 r); [done..|by rewrite Ers]).
    rewrite lookup_insert_eq. eexists. split; [reflexivity|]. by split.
  - rewrite lookup_insert_ne by done. destruct (W2 j x Hj) as (qx & Hx & Ho). exists qx.
    split; [done|]. destruct j; [|done]. rewrite Ers in Hj. by injection Hj as ->.
Qed.

(** ** The asynchronous batch *)

Lemma async_start_ok e d m l sz rep :
  at_rest d m -> c_items e = Some <$> l -> length l = N ->
  exists d1 d2, set_sizes rs N 0 sz d = Ok d1 /\ submit rs N 0 (c_items e) d1 = Ok d2 /\
    length (reqs d2) = N /\ rtdreqs d2 = [] /\
    forall t0, progress_ok (Async_wait sz t0 0) rep -> bench_inv (mk_bench (Async_wait sz t0 0) d2 m rep).
Proof.
  intros Hr Ei Hl. destruct (set_sizes_ok N 0 sz d) as (d1 & E1 & T1);
    [lia | done | by eapply at_rest_live|].
  pose proof (at_rest_touched _ _ _ m Hr T1 (ar_quiet _ _ Hr)) as [R1 R2 R3 R4 R5 R6].
  destruct (queued_nil d1 R4) as [Q1 Q2].
  destruct (submit_ok N 0 l d1) as (new & E2 & Hnew); [lia | done | done | done|].
  rewrite Q1 in E2. rewrite <- Ei in E2. change (drop (Z.to_nat 0) rs) with rs in Hnew.
  exists d1, (set_reqs d1 new). split_and!; [done | done | | done |].
  { cbn. by rewrite <- Hlen, <- Hnew, length_fmap. }
  intros t0 [Hs Hp]. assert (Eq : queued (set_reqs d1 new) = rs) by (unfold queued; cbn; by rewrite Q2).
  split; [exact R1 | exact R2 | | exact Hs | exact Hp | exact (conj R5 R6)].
  cbn [calls_ok b_phase b_dev b_done]. rewrite Eq. split_and!; [done | done | done | |].
  - intros r [j Hj]%list_elem_of_lookup. exists j. split; [done | lia].
  - intros j r Hj. pose proof (lookup_lt_Some _ _ _ Hj). rewrite R3 by lia. unfold signal_of.
    rewrite bool_decide_eq_true_2; [done|]. right. by eapply list_elem_of_lookup_2.
Qed.

(** The completion [i]: its request is with the module, or the wait is over. *)
Lemma async_wait_ok sz t0 i d m rep :
  bench_inv (mk_bench (Async_wait sz t0 i) d m rep) -> i < Sysbm.BATCH_NR ->
  (m !! cs i = Some 0 /\ queued d <> []) \/
  (m !! cs i = Some 1 /\ bench_inv (mk_bench (Async_wait sz t0 (i + 1)) d (<[cs i := 0]> m) rep)).
Proof.
  intros [I1 I2 I3 I4 I5 I6] Hi. cbn [calls_ok b_phase b_dev b_done] in I3.
  destruct I3 as (Hi' & Hq & Hin & Hm). destruct (batch_get i) as (r & _ & Hr & _); [lia|].
  pose proof (Hm _ _ Hr) as Em. rewrite Z2Nat.id in Em by lia. unfold signal_of in Em.
  case_bool_decide as Hc; [left | right]; rewrite Em; (split; [done|]).
  - destruct Hc as [Hc|Hc]; [lia|]. intros E. rewrite E in Hc. by apply not_elem_of_nil in Hc.
  - split; [exact I1 | exact I2 | | exact I4 | exact I5 | exact I6].
    cbn [calls_ok b_phase b_dev b_done]. split_and!; [lia | lia | done | |].
    + intros x Hx. destruct (Hin x Hx) as (j & Hj & Hle). exists j. split; [done|].
      enough (Z.of_nat j <> i) by lia. intros <-. rewrite Nat2Z.id, Hj in Hr.
      injection Hr as ->. apply Hc. by right.
    + intros j x Hj. pose proof (lookup_lt_Some _ _ _ Hj).
      destruct (decide (Z.of_nat j = i)) as [<-|Hne].
      * rewrite lookup_insert_eq. unfold signal_of. rewrite bool_decide_eq_true_2; [done | left; lia].
      * rewrite lookup_insert_ne by (intros E; apply Hcs in E; lia). rewrite (Hm j x Hj).
        unfold signal_of. f_equal. erewrite bool_decide_ext; [done|].
        split; (intros [?|?]; [left; lia | by right]).
Qed.

Lemma async_end_ok sz t0 i d m rep :
  bench_inv (mk_bench (Async_wait sz t0 i) d m rep) -> Sysbm.BATCH_NR <= i ->
  exists d' m', renew cs rs N 0 d m = Ok (d', m') /\ at_rest d' m' /\ queued d = [].
Proof.
  intros Hb Hi. destruct (renew_ok N 0 d m) as (d' & m' & E & Ht & Hz & _);
    [lia | done | exact (bi_live _ Hb)|].
  destruct Hb as [I1 I2 I3 I4 I5 [M1 M2]]. cbn [calls_ok b_phase b_dev b_done] in *.
  destruct I3 as (_ & _ & Hin & _).
  assert (Eq : queued d = []).
  { destruct (queued d) as [|r l]; [done|]. destruct (Hin r) as (j & Hj & Hle); [left|].
    pose proof (lookup_lt_Some _ _ _ Hj). lia. }
  exists d', m'. split; [done|]. split; [|done]. pose proof (touched_queued _ _ Ht) as Eq'.
  destruct Ht. split; [congruence | | exact Hz | congruence | congruence | congruence].
  intros j r Hj. destruct (I2 j r Hj) as (q & Hq & H1 & H2).
  destruct (to_requests0 r q Hq) as (q' & ? & ? & ?). exists q'. split; [done|]. split; congruence.
Qed.

Lemma rates_some sz tt : tt <> 0 -> exists line, Sysbm.rates sz tt = Some line.
Proof. intros Ht. unfold Sysbm.rates. rewrite (proj2 (Z.eqb_neq _ _)) by done. eauto. Qed.

Lemma async_rates_some sz t0 t1 :
  10 <= Sysbm.elapsed t0 t1 -> exists line, Sysbm.async_rates sz t0 t1 = Some line.
Proof.
  intros Ht. apply rates_some. change Sysbm.BATCH_NR with 10.
  pose proof (Z.quot_le_mono 10 (Sysbm.elapsed t0 t1) 10 ltac:(lia) Ht) as Hq.
  change (Z.quot 10 10) with 1 in Hq. lia.
Qed.

(** ** The steps of [minit] *)

Lemma sync_work_step sz : sz ∈ all_sizes -> sync_work sz = (5 + sync_work (Sysbm.next_sz sz))%nat.
Proof. intros (_ & E & _)%size_step. unfold sync_work. rewrite E. cbn [length]. lia. Qed.

Lemma async_work_step sz : sz ∈ all_sizes -> async_work sz = (32 + async_work (Sysbm.next_sz sz))%nat.
Proof. intros (_ & E & _)%size_step. unfold async_work. rewrite E. cbn [length]. lia. Qed.

(** One event of [minit] that takes one off the work. *)
Definition advances (e : chance) (b : bench) : Prop :=
  exists b', run cs rs bufs e b = Ok b' /\ bench_inv b' /\ work_left b = S (work_left b').

Context (Hclean : forall d, gmpool d = pool0 -> exists d', Sysbm.cleanup N 0 rs bufs d = Ok d' /\
  d_state d' = d_state d /\ requests d' = requests d /\ queued d' = queued d /\
  (req_free d = free0 -> cleaned d')).

Lemma run_sync_call e ph d m rep ph' :
  at_rest d m -> fair (Run e) (mk_bench ph d m rep) ->
  (forall a, sync_record (ph' a) = Some a) -> (forall a, progress_ok (ph' a) rep) ->
  exists d' a, call_sync rs e d = Ok (d', SyncWait a) /\ bench_inv (mk_bench (ph' a) d' m rep) /\
    work_left (mk_bench (ph' a) d' m rep) = (phase_work (ph' a) + 2)%nat.
Proof.
  intros Hr (_ & (a & Ea & _) & (l & Ei & El) & _) Hrec Hp.
  destruct l as [|item l]; [done|]. rewrite fmap_cons in Ei.
  destruct (call_sync_ok e d m a item _ Hr Ea Ei) as (d' & E & Hw & W1 & W2).
  exists d', a. split; [done|]. split.
  - apply (bench_inv_wait (ph' a) a); [apply Hrec | split; [done | apply Hp]].
  - unfold work_left. cbn [b_phase b_dev]. rewrite W1, W2. cbn [length]. lia.
Qed.

Lemma run_warm e d m rep :
  bench_inv (mk_bench Warm d m rep) -> fair (Run e) (mk_bench Warm d m rep) ->
  advances e (mk_bench Warm d m rep).
Proof.
  intros [Hr [_ Hp]]%bench_inv_rest Hf; [|done].
  destruct (run_sync_call e Warm d m rep Warm_wait Hr Hf) as (d' & a & E & Hb & Hw); [done | by split|].
  exists (mk_bench (Warm_wait a) d' m rep). split; [cbn [run]; by rewrite E|]. split; [exact Hb|].
  rewrite Hw, rest_work by done. cbn [phase_work]. lia.
Qed.

Lemma run_wait ph ph' data d m rep :
  bench_inv (mk_bench ph d m rep) -> sync_record ph = Some data ->
  sync_may_resume d data false = true -> idle ph' -> progress_ok ph' rep ->
  phase_work ph = S (phase_work ph') ->
  exists d', end_sync rs d data = Ok d' /\ bench_inv (mk_bench ph' d' m rep) /\
    work_left (mk_bench ph d m rep) = S (work_left (mk_bench ph' d' m rep)).
Proof.
  intros Hb Hrec Hres Hi Hp Hw. destruct (proj1 (bench_inv_wait ph data d m rep Hrec) Hb) as [Hb' _].
  destruct (end_sync_ok d m data Hb' Hres) as (d' & E & Hr & Eq). destruct (queued_nil d Eq) as [Q1 Q2].
  exists d'. split; [done|]. split; [apply bench_inv_rest; [done | by split]|]. rewrite (rest_work ph') by done.
  unfold work_left. cbn [b_phase b_dev]. rewrite Q1, Q2, Hw. cbn [length]. lia.
Qed.

Lemma run_new_id ph ph' d m rep rep' :
  at_rest d m -> idle ph' -> progress_ok ph' rep' -> phase_work ph = S (phase_work ph') ->
  exists r d', array_get rs 0 = Ok r /\ new_id r d = Ok d' /\ bench_inv (mk_bench ph' d' m rep') /\
    work_left (mk_bench ph d m rep) = S (work_left (mk_bench ph' d' m rep')).
Proof.
  intros Hr Hi Hp Hw. destruct batch_first as (r & l & Ers & Hn & Eg).
  destruct (ar_requests _ _ Hr 0%nat r) as (q & Hq & _); [by rewrite Ers|].
  destruct (touched_new_id d r q Hn Hq) as (d' & E & Ht).
  pose proof (at_rest_touched d d' m m Hr Ht (ar_quiet _ _ Hr)) as Hr'.
  exists r, d'. split; [done|]. split; [done|]. split; [apply bench_inv_rest; [done | by split]|].
  rewrite !rest_work by done. exact Hw.
Qed.

Lemma run_async e sz d m rep :
  bench_inv (mk_bench (Async sz) d m rep) -> fair (Run e) (mk_bench (Async sz) d m rep) ->
  advances e (mk_bench (Async sz) d m rep).
Proof.
  intros [Hr [Hs Hp]]%bench_inv_rest (_ & _ & (l & Ei & El) & _); [|done].
  unfold advances. cbn [run]. destruct (size_cases sz Hs) as [[-> Hin]|[-> Ez]].
  - destruct (async_start_ok e d m l sz rep Hr Ei El) as (d1 & d2 & -> & E2 & L1 & L2 & Hb).
    cbn [mbind outcome_bind]. rewrite E2. cbn [mbind outcome_bind]. eexists. split; [reflexivity|].
    split; [exact (Hb (c_time e) (conj Hin Hp))|]. rewrite rest_work by exact Hr.
    unfold work_left. cbn [b_phase b_dev phase_work]. rewrite L1, L2, (async_work_step _ Hin).
    change (Z.to_nat (Sysbm.BATCH_NR - 0)) with 10%nat. change N with 10%nat. cbn [length]. lia.
  - eexists. split; [reflexivity|]. cbn [lines_left] in Hp. rewrite Ez in Hp. cbn [app] in Hp. split.
    + apply bench_inv_rest; [exact I|]. split; [exact Hr|]. split; [left; exact first_size | exact Hp].
    + rewrite !rest_work by exact Hr. cbn [phase_work]. unfold async_work. rewrite Ez. cbn [length]. lia.
Qed.

Lemma run_async_wait e sz t0 i d m rep :
  let b := mk_bench (Async_wait sz t0 i) d m rep in
  bench_inv b -> fair (Run e) b -> effective cs (Run e) b = true -> advances e b.
Proof.
  intros b Hb (_ & _ & _ & Ht) Hef. unfold advances, b in *. cbn [run].
  pose proof (bi_lines _ Hb) as Hp. pose proof (bi_size _ Hb) as Hs. cbn [b_phase b_report] in Hp, Hs.
  cbn [size_ok lines_left] in Hp, Hs. cbn [effective b_phase b_done] in Hef.
  destruct (Z.ltb_spec i Sysbm.BATCH_NR) as [Hi|Hi].
  - unfold try_wait. destruct (async_wait_ok _ _ _ _ _ _ Hb Hi) as [[E _]|[E Hb']];
      rewrite E in Hef |- *; [discriminate Hef|].
    exists (mk_bench (Async_wait sz t0 (i + 1)) d (<[cs i := 0]> m) rep).
    split; [reflexivity|]. split; [exact Hb'|]. unfold work_left. cbn [b_phase b_dev phase_work]. lia.
  - destruct (async_rates_some sz t0 (c_time e) Ht) as [line ->].
    destruct (async_end_ok _ _ _ _ _ _ Hb Hi) as (d' & m' & -> & Hr & Eq). cbn [mbind outcome_bind of_option].
    destruct (size_step sz Hs) as (_ & Ez & Hnext). rewrite Ez in Hp.
    eexists. split; [reflexivity|]. split.
    + apply bench_inv_rest; [exact I|]. split; [exact Hr|]. split; [exact Hnext|]. cbn [lines_left].
      rewrite fmap_app, <- app_assoc. exact Hp.
    + destruct (queued_nil d Eq) as [Q1 Q2]. rewrite (rest_work _ _ _ _ Hr).
      unfold work_left. cbn [b_phase b_dev phase_work]. rewrite Q1, Q2. cbn [length].
      pose proof (bi_calls _ Hb) as (Hi' & _). replace (Z.to_nat (Sysbm.BATCH_NR - i)) with 0%nat by lia. lia.
Qed.

Lemma run_sync e sz d m rep :
  bench_inv (mk_bench (Sync sz) d m rep) -> fair (Run e) (mk_bench (Sync sz) d m rep) ->
  advances e (mk_bench (Sync sz) d m rep).
Proof.
  intros [Hr [Hs Hp]]%bench_inv_rest Hf; [|done].
  unfold advances. cbn [run]. destruct (size_cases sz Hs) as [[-> Hin]|[-> Ez]].
  - destruct batch_first as (r & l & Ers & Hn & ->). cbn [mbind outcome_bind].
    destruct (ar_requests _ _ Hr 0%nat r) as (q & Hq & _); [rewrite Ers; reflexivity|].
    destruct (touched_update (with_sizes sz) d r q Hn Hq) as (d1 & -> & Ht); [clear; by intros []|].
    pose proof (at_rest_touched d d1 m m Hr Ht (ar_quiet _ _ Hr)) as Hr1. cbn [mbind outcome_bind].
    destruct (run_sync_call e (Sync sz) d1 m rep (Sync_wait sz (c_time e)) Hr1) as (d' & a & -> & Hb & Hw).
    { cbn [fair b_dev b_phase] in Hf |- *. rewrite (to_sync _ _ Ht). exact Hf. }
    { reflexivity. }
    { intros a. exact (conj Hin Hp). }
    eexists. split; [reflexivity|]. split; [exact Hb|]. cbn beta iota. rewrite Hw, (rest_work _ _ _ _ Hr).
    cbn [phase_work]. rewrite (sync_work_step _ Hin). lia.
  - eexists. split; [reflexivity|]. cbn [lines_left] in Hp. rewrite Ez in Hp. split.
    + apply bench_inv_rest; [exact I|]. split; [exact Hr|]. exact (conj I Hp).
    + rewrite !rest_work by exact Hr. cbn [phase_work]. unfold sync_work. rewrite Ez. cbn [length]. lia.
Qed.

Lemma run_cleanup e d m rep :
  bench_inv (mk_bench Cleanup d m rep) -> advances e (mk_bench Cleanup d m rep).
Proof.
  intros [Hr [_ Hp]]%bench_inv_rest; [|done].
  destruct (Hclean d (ar_pool _ _ Hr)) as (d' & E & F1 & F2 & F3 & F4).
  exists (mk_bench Finished d' m rep). split; [cbn [run]; by rewrite E|]. destruct Hr as [R1 R2 R3 R4 R5 R6].
  rewrite R4 in F3. split.
  - split; [cbn [b_dev]; rewrite F1; exact R1 | | exact (conj R3 F3) | exact I | exact Hp | exact (F4 R6)].
    cbn [b_dev]. rewrite F2. exact R2.
  - destruct (queued_nil d R4) as [Q1 Q2], (queued_nil d' F3) as [Q3 Q4].
    unfold work_left. cbn [b_phase b_dev]. rewrite Q1, Q2, Q3, Q4. reflexivity.
Qed.

(** ** Every event *)

Lemma run_effective e b :
  bench_inv b -> fair (Run e) b -> effective cs (Run e) b = true -> advances e b.
Proof.
  intros Hb Hf Hef. destruct b as [ph d m rep].
  pose proof (bi_size _ Hb) as Hs. pose proof (bi_lines _ Hb) as Hp. destruct ph.
  - exact (run_warm e d m rep Hb Hf).
  - destruct (run_wait (Warm_wait data) Warm_ret data d m rep Hb) as (d' & E & Hb' & Hw);
      [reflexivity | exact Hef | exact I | exact (conj I Hp) | reflexivity|].
    exists (mk_bench Warm_ret d' m rep). split; [|exact (conj Hb' Hw)]. destruct Hf as [Hsig _].
    cbn [run]. rewrite Hsig. cbn [effective b_phase b_dev] in Hef. rewrite Hef, E. reflexivity.
  - apply bench_inv_rest in Hb as [Hr _]; [|exact I].
    destruct (run_new_id Warm_ret (Async Sysbm.MIN_MEM_SZ) d m rep rep Hr) as (r & d' & E1 & E2 & Hb' & Hw);
      [exact I | exact (conj (or_introl first_size) Hp) | reflexivity|].
    exists (mk_bench (Async Sysbm.MIN_MEM_SZ) d' m rep). split; [|exact (conj Hb' Hw)].
    cbn [run]. rewrite E1. cbn [mbind outcome_bind]. rewrite E2. reflexivity.
  - exact (run_async e sz d m rep Hb Hf).
  - exact (run_async_wait e sz t0 i d m rep Hb Hf Hef).
  - exact (run_sync e sz d m rep Hb Hf).
  - destruct (run_wait (Sync_wait sz t0 data) (Sync_ret sz t0) data d m rep Hb) as (d' & E & Hb' & Hw);
      [reflexivity | exact Hef | exact I | exact (conj Hs Hp) | reflexivity|].
    exists (mk_bench (Sync_ret sz t0) d' m rep). split; [|exact (conj Hb' Hw)]. destruct Hf as [Hsig _].
    cbn [run]. rewrite Hsig. cbn [effective b_phase b_dev] in Hef. rewrite Hef, E. reflexivity.
  - apply bench_inv_rest in Hb as [Hr _]; [|exact I]. destruct Hf as (_ & _ & _ & Ht).
    assert (exists line, Sysbm.sync_rates sz t0 (c_time e) = Some line) as [line El].
    { apply rates_some. cbn [b_phase] in Ht. lia. }
    cbn [b_phase size_ok lines_left b_report] in Hs, Hp. destruct (size_step sz Hs) as (_ & Ez & Hnext).
    rewrite Ez in Hp.
    destruct (run_new_id (Sync_ret sz t0) (Sync (Sysbm.next_sz sz)) d m rep (rep ++ [(sz, line)]) Hr)
      as (r & d' & E1 & E2 & Hb' & Hw); [exact I | | reflexivity|].
    { split; [exact Hnext|]. cbn [lines_left]. rewrite fmap_app, <- app_assoc. exact Hp. }
    exists (mk_bench (Sync (Sysbm.next_sz sz)) d' m (rep ++ [(sz, line)])). split; [|exact (conj Hb' Hw)].
    cbn [run]. rewrite El. cbn [mbind outcome_bind of_option]. rewrite E1. cbn [mbind outcome_bind].
    rewrite E2. reflexivity.
  - exact (run_cleanup e d m rep Hb).
  - discriminate Hef.
Qed.

Lemma run_ineffective e b :
  bench_inv b -> fair (Run e) b -> effective cs (Run e) b = false -> run cs rs bufs e b = Ok b.
Proof.
  intros Hb [Hsig _] Hef. destruct b as [ph d m rep]. destruct ph; try discriminate Hef;
    cbn [run]; cbn [effective b_phase b_dev b_done] in Hef.
  - rewrite Hsig, Hef. reflexivity.
  - apply orb_false_iff in Hef as [Hi Hz]. apply negb_false_iff in Hi. rewrite Hi. apply Z.ltb_lt in Hi.
    unfold try_wait. destruct (async_wait_ok _ _ _ _ _ _ Hb Hi) as [[E _]|[E _]];
      rewrite E in Hz |- *; [reflexivity | discriminate Hz].
  - rewrite Hsig, Hef. reflexivity.
  - reflexivity.
Qed.

(** Every event keeps the invariant; it takes one off the work, or it changes
    nothing. *)
Lemma bench_step_ok ev b :
  bench_inv b -> fair ev b ->
  exists b', bench_step mycb_addr cs rs bufs ev b = Ok b' /\ bench_inv b' /\
    (effective cs ev b = true -> work_left b = S (work_left b')) /\ (effective cs ev b = false -> b' = b).
Proof.
  intros Hb Hf. destruct ev as [e| |resp]; [|by apply read_ok | by apply answer_ok].
  destruct (effective cs (Run e) b) eqn:Hef.
  - destruct (run_effective e b Hb Hf Hef) as (b' & E & Hb' & Hw). exists b'.
    split; [exact E|]. split; [exact Hb'|]. split; [intros _; exact Hw | discriminate].
  - exists b. split; [exact (run_ineffective e b Hb Hf Hef)|]. split; [exact Hb|].
    split; [discriminate | reflexivity].
Qed.

(** A request that is with the module can be read or answered. *)
Lemma helper_can_work b :
  bench_inv b -> queued (b_dev b) <> [] -> exists ev, effective cs ev b = true /\ fair ev b.
Proof.
  intros Hb Hq. destruct (reqs (b_dev b)) as [|it l] eqn:Er.
  - destruct (rtdreqs (b_dev b)) as [|it l] eqn:Et.
    { exfalso. apply Hq. unfold queued. rewrite Er, Et. reflexivity. }
    assert (Hin : it_r it ∈ queued (b_dev b)) by (unfold queued; rewrite Et; left).
    destruct (queued_at b _ Hb Hin) as (_ & q & _ & [_ Hit] & _).
    exists (Answer (mk_ku_response (rq_id q) 0)). split; [|exact I].
    apply effective_answer. exists it, q. split; [rewrite Et; left|]. split; [exact Hit | reflexivity].
  - exists Read. split; [|exact I]. cbn [effective]. rewrite Er. reflexivity.
Qed.

Lemma fair_run_exists b : exists e, fair (Run e) b.
Proof.
  exists (mk_chance match b_phase b with
                    | Async_wait _ t0 _ | Sync_ret _ t0 => (t0.1, t0.2 + 10)
                    | _ => (0, 0)
                    end (Some (fresh (dom (sync_data (b_dev b))))) (Some <$> repeat 0 N) false).
  cbn [fair c_signal c_data c_items c_time]. split_and!; [reflexivity | | |].
  - eexists. split; [reflexivity|]. apply not_elem_of_dom, is_fresh.
  - exists (repeat 0 N). split; [reflexivity | apply repeat_length].
  - destruct (b_phase b); try exact I; unfold Sysbm.elapsed; cbn; lia.
Qed.

(** The benchmark is never stuck before its end. *)
Lemma bench_progress b :
  bench_inv b -> b_phase b <> Finished -> exists ev, effective cs ev b = true /\ fair ev b.
Proof.
  intros Hb Hph. destruct (fair_run_exists b) as [e He]. pose proof (bi_calls _ Hb) as Hc.
  assert (Hrun : effective cs (Run e) b = true -> exists ev, effective cs ev b = true /\ fair ev b)
    by eauto.
  assert (Hsync : forall data s, sync_data (b_dev b) !! data = Some (mk_sync (cs 0) (CB_client mycb_addr) s) ->
    queued (b_dev b) = take 1 rs /\ s = 0 \/ queued (b_dev b) = [] /\ s = 1 ->
    queued (b_dev b) <> [] \/ sync_may_resume (b_dev b) data false = true).
  { intros data s Es [[E _]|[_ ->]]; [left | right; unfold sync_may_resume; by rewrite Es].
    rewrite E. destruct batch_first as (r & l & -> & _). discriminate. }
  destruct b as [ph d m rep]. cbn [b_phase b_dev b_done] in *.
  destruct ph; try (apply Hrun; reflexivity); cbn [calls_ok] in Hc.
  - destruct Hc as (_ & s & Es & Hcase).
    destruct (Hsync _ _ Es Hcase); [by apply helper_can_work | by apply Hrun].
  - destruct (Z.ltb_spec i Sysbm.BATCH_NR) as [Hi|Hi].
    + destruct (async_wait_ok _ _ _ _ _ _ Hb Hi) as [[_ Hq]|[E _]]; [by apply helper_can_work|].
      apply Hrun. cbn [effective b_phase b_done]. rewrite E. apply orb_true_r.
    + apply Hrun. cbn [effective b_phase b_done]. by rewrite (proj2 (Z.ltb_ge _ _)).
  - destruct Hc as (_ & s & Es & Hcase).
    destruct (Hsync _ _ Es Hcase); [by apply helper_can_work | by apply Hrun].
  - by destruct Hph.
Qed.

Lemma runs_inv n b b' :
  runs mycb_addr cs rs bufs n b b' -> bench_inv b -> bench_inv b' /\ work_left b = (n + work_left b')%nat.
Proof.
  induction 1 as [b|n b b1 b2 ev Hr IH Hef Hf E]; intros Hb; [done|].
  destruct (IH Hb) as [Hb1 Hw1]. destruct (bench_step_ok ev b1 Hb1 Hf) as (b' & E' & Hb' & Hw & _).
  rewrite E in E'. injection E' as <-. split; [exact Hb'|]. specialize (Hw Hef). lia.
Qed.

Lemma finished_work b : bench_inv b -> b_phase b = Finished -> work_left b = 0%nat.
Proof.
  intros Hb E. pose proof (bi_calls _ Hb) as Hc. unfold work_left. rewrite E in *. destruct Hc as [_ Hq].
  destruct (queued_nil _ Hq) as [-> ->]. reflexivity.
Qed.

End inv.
