(* ===== verification/BenchThms.v ===== *)
(** * The benchmark from its preparation to its end

    The loop that prepares the requests of sysbm, which leaves the machine of
    Bench in a state of its invariant or stops at a refused allocation, the
    clean-up, and the theorem on the whole [minit]. *)

From S2P Require Import Prelude KgpuDefs UnitAlloc MemPool MmapArea Device Module Clients Bench BenchInv.

(** ** The buffers of the benchmark in the pool *)

Definition buf_units : Z := DIV_ROUND_UP Sysbm.MAX_MEM_SZ KGPU_BUF_UNIT_SIZE.

(** The blocks at [idxs] are buffers, and [base] are the others. *)
Record buffers (pool : kgpu_mempool) (idxs : list Z) (base : gmap Z Z) : Prop := {
  bu_wf : pool_wf pool;
  bu_nodup : NoDup idxs;
  bu_new k : k ∈ idxs -> base !! k = None;
  bu_blocks k : pool_blocks pool !! k = if bool_decide (k ∈ idxs) then Some buf_units else base !! k
}.

#[global] Instance buffers_proper pool : Proper ((≡ₚ) ==> (=) ==> iff) (buffers pool).
Proof.
  assert (forall l l' base, l ≡ₚ l' -> buffers pool l base -> buffers pool l' base) as Himp.
  { intros l l' base Hl []. split; [done | by rewrite <- Hl | intros k; rewrite <- Hl; auto |].
    intros k. rewrite bu_blocks0. erewrite bool_decide_ext; [done|]. by rewrite Hl. }
  intros l l' Hl base ? <-. split; apply Himp; by rewrite Hl.
Qed.

Section memory.
Context `{L : BitmapLib} {LL : BitmapLaws L}.

(** A buffer is refused and nothing changes, or it is one more block. *)
Lemma buffers_take pool idxs base :
  buffers pool idxs base ->
  exists pool' p, kgpu_vmalloc pool Sysbm.MAX_MEM_SZ = Ok (pool', p) /\
    kva pool' = kva pool /\ nunits pool' = nunits pool /\
    ((p = NULL /\ buffers pool' idxs base) \/
     p <> NULL /\ exists i, p = kva pool + i * KGPU_BUF_UNIT_SIZE /\ buffers pool' (i :: idxs) base).
Proof.
  intros [Hwf Hnd Hnew Hb].
  destruct (kgpu_vmalloc_step pool Sysbm.MAX_MEM_SZ Hwf) as (pool' & r & E & Hwf1 & Hst);
    [unfold vmalloc_max; rewrite unit_size_eq; by vm_compute|].
  pose proof (kgpu_vmalloc_same _ _ _ _ E) as (_ & Hk & _ & Hnu). rewrite E.
  eexists pool', _. split; [done|]. split; [done|]. split; [done|].
  destruct r as [i|]; simpl.
  2: { left. split; [done|]. assert (pool_blocks pool' = pool_blocks pool) as Eb by by inversion Hst.
       split; [done | done | done |]. by rewrite Eb. }
  right. split.
  { assert (FirstFit.fits (pool_blocks pool) (nunits pool) i buf_units) as [Hi _] by by inversion Hst.
    pose proof (pw_kva _ Hwf). rewrite unit_size_eq. unfold NULL. lia. }
  exists i. split; [done|].
  assert (FirstFit.fits (pool_blocks pool) (nunits pool) i buf_units /\
    pool_blocks pool' = <[i := buf_units]> (pool_blocks pool)) as [Hfit Hb'] by by inversion Hst.
  assert (Hi : pool_blocks pool !! i = None).
  { destruct (pw_units _ Hwf) as (bm & sz & _ & Ha & Hu). rewrite (pool_blocks_live _ _ Ha) in *.
    eapply (blocks_fits_new _ _ _ buf_units); [by vm_compute | done]. }
  rewrite Hb in Hi. case_bool_decide as Hin; [done|]. split; [done | by constructor | |].
  - intros k [->|?]%elem_of_cons; auto.
  - intros k. rewrite Hb', lookup_insert, Hb. case_decide as Hc.
    + subst k. rewrite bool_decide_eq_true_2; [done | left].
    + erewrite bool_decide_ext; [done|]. rewrite elem_of_cons. naive_solver.
Qed.

Lemma buffers_release pool i idxs base :
  buffers pool (i :: idxs) base ->
  exists pool', kgpu_vfree pool (kva pool + i * KGPU_BUF_UNIT_SIZE) = Ok pool' /\
    kva pool' = kva pool /\ buffers pool' idxs base.
Proof.
  intros [Hwf Hnd Hnew Hb]. apply NoDup_cons in Hnd as [Hi Hnd].
  destruct (kgpu_vfree_block pool i buf_units Hwf) as (pool' & E & Hwf' & (_ & Hk & _) & Hb').
  { rewrite Hb, bool_decide_eq_true_2; [done | left]. }
  exists pool'. split; [done|]. split; [done|]. split; [done | done | |].
  - intros k Hk'. apply Hnew. by right.
  - intros k. rewrite Hb', lookup_delete, Hb. case_decide as Hc.
    + subst k. rewrite bool_decide_eq_false_2 by done. symmetry. apply Hnew. left.
    + erewrite bool_decide_ext; [done|]. rewrite elem_of_cons. naive_solver.
Qed.

(** An address of the pool is not NULL. *)
Lemma buffer_not_null pool i idxs base :
  buffers pool idxs base -> i ∈ idxs -> kva pool + i * KGPU_BUF_UNIT_SIZE <> NULL.
Proof.
  intros [Hwf _ _ Hb] Hi. specialize (Hb i). rewrite bool_decide_eq_true_2 in Hb by done.
  destruct (pw_units _ Hwf) as (bm & sz & _ & Ha & Hu). rewrite (pool_blocks_live _ _ Ha) in Hb.
  apply lookup_blocks in Hb as (Hr & _). pose proof (pw_kva _ Hwf). rewrite unit_size_eq. unfold NULL. lia.
Qed.

(** The blocks of the buffers are disjoint and lie inside the pool. *)
Lemma buffers_fit pool idxs base :
  buffers pool idxs base -> Z.of_nat (length idxs) * buf_units <= nunits pool.
Proof.
  intros [Hwf Hnd _ Hb]. destruct (pw_units _ Hwf) as (bm & sz & _ & Ha & Hu).
  assert (Hblk : forall i, i ∈ idxs -> 0 <= i < nunits pool /\ nthZ sz i = buf_units).
  { intros i Hi. specialize (Hb i). rewrite bool_decide_eq_true_2, (pool_blocks_live _ _ Ha) in Hb by done.
    by apply lookup_blocks in Hb as (? & ? & _). }
  assert (Hmem : forall i y, i ∈ idxs -> y ∈ seqZ i buf_units -> i <= y < i + nthZ sz i).
  { intros i y Hi Hy%elem_of_seqZ. destruct (Hblk i Hi) as [_ ->]. lia. }
  assert (Hlen : length (idxs ≫= fun i => seqZ i buf_units) = (length idxs * Z.to_nat buf_units)%nat).
  { clear. induction idxs as [|i l IH]; [done|]. cbn [mbind list_bind].
    rewrite length_app, length_seqZ, IH. cbn [length]. lia. }
  pose proof (uw_n _ _ _ Hu) as Hn. unfold u32_range in Hn.
  assert (length (idxs ≫= fun i => seqZ i buf_units) <= length (seqZ 0 (nunits pool)))%nat as Hle.
  { apply submseteq_length, NoDup_submseteq.
    - apply NoDup_bind; [|intros; apply NoDup_seqZ | done].
      intros i j y Hi Hj Hyi Hyj. specialize (Hmem i y Hi Hyi) as H1. specialize (Hmem j y Hj Hyj) as H2.
      destruct (Hblk i Hi) as [Hri Hki], (Hblk j Hj) as [Hrj Hkj].
      pose proof (uw_disj _ _ _ Hu i j). pose proof (uw_disj _ _ _ Hu j i).
      assert (0 < buf_units) by by vm_compute. lia.
    - intros y (i & Hy & Hi)%list_elem_of_bind. specialize (Hmem i y Hi Hy). destruct (Hblk i Hi) as [Hri _].
      destruct (uw_block _ _ _ Hu i Hri). apply elem_of_seqZ. lia. }
  rewrite Hlen, length_seqZ in Hle. assert (0 < buf_units) by by vm_compute. nia.
Qed.

(** ** The clean-up *)

Section cleanup.
Context (rs bufs : list Z) (oidx : list (option Z)) (base : gmap Z Z) (at_ : Z).

(** The address of the buffer at an index, or NULL. *)
Definition buf_addr (o : option Z) : Z := from_option (fun i => at_ + i * KGPU_BUF_UNIT_SIZE) NULL o.

Context (Hrs : length rs = Z.to_nat Sysbm.BATCH_NR) (Hix : length oidx = Z.to_nat Sysbm.BATCH_NR).
Context (Hbufs : bufs = buf_addr <$> oidx).

Lemma cleanup_ok n i d :
  0 <= i -> i + Z.of_nat n = Sysbm.BATCH_NR -> kva (gmpool d) = at_ ->
  buffers (gmpool d) (omap id (drop (Z.to_nat i) oidx)) base ->
  exists d', Sysbm.cleanup n i rs bufs d = Ok d' /\
    d_state d' = d_state d /\ requests d' = requests d /\ queued d' = queued d /\
    req_free d' = reverse (filter (fun r => r <> NULL) (drop (Z.to_nat i) rs)) ++ req_free d /\
    buffers (gmpool d') [] base.
Proof.
  revert i d. induction n as [|n IH]; intros i d Hi Hn Hk Hb; cbn [Sysbm.cleanup].
  - exists d. rewrite !drop_ge in * by lia. done.
  - destruct (lookup_lt_is_Some_2 rs (Z.to_nat i)) as [r Hr]; [lia|].
    destruct (lookup_lt_is_Some_2 oidx (Z.to_nat i)) as [x Hx]; [lia|].
    rewrite (array_get_ok rs i r) by done. cbn [mbind outcome_bind].
    rewrite (array_get_ok bufs i (buf_addr x)); [|done|].
    2: { by rewrite Hbufs, list_lookup_fmap, Hx. }
    rewrite (drop_S _ _ _ Hx) in Hb. cbn [mbind outcome_bind].
    set (d1 := if r =? NULL then d else kgpu_free_request d r).
    assert (Hd1 : gmpool d1 = gmpool d /\ d_state d1 = d_state d /\ requests d1 = requests d /\
      queued d1 = queued d) by (unfold d1; by destruct (r =? NULL)).
    destruct Hd1 as (G1 & G2 & G3 & G4).
    assert (exists pool, (if buf_addr x =? NULL then mret (gmpool d1) else kgpu_vfree (gmpool d1) (buf_addr x)) =
        Ok pool /\ kva pool = at_ /\ buffers pool (omap id (drop (S (Z.to_nat i)) oidx)) base)
      as (pool & -> & Hk' & Hb').
    { rewrite G1. destruct x as [x|]; simpl in Hb |- *; [|by exists (gmpool d)].
      rewrite (proj2 (Z.eqb_neq _ NULL)); [|rewrite <- Hk; eapply buffer_not_null; [done | left]].
      destruct (buffers_release _ _ _ _ Hb) as (pool & E & Hk' & Hb'). rewrite Hk in E. exists pool.
      split; [done|]. split; [congruence | done]. }
    cbn [mbind outcome_bind]. replace (S (Z.to_nat i)) with (Z.to_nat (i + 1)) in Hb' by lia.
    destruct (IH (i + 1) (set_gmpool d1 pool)) as (d' & -> & F1 & F2 & F3 & F4 & F5);
      [lia | lia | done | done|].
    exists d'. split_and!; [done | simpl in F1; congruence | simpl in F2; congruence | | | done].
    { rewrite F3. change (queued (set_gmpool d1 pool)) with (queued d1). done. }
    rewrite F4, (drop_S _ _ _ Hr). replace (S (Z.to_nat i)) with (Z.to_nat (i + 1)) by lia.
    change (req_free (set_gmpool d1 pool)) with (req_free d1). unfold d1.
    destruct (Z.eqb_spec r NULL) as [->|Hr0].
    + by rewrite filter_cons_False by tauto.
    + rewrite filter_cons_True by done. by rewrite reverse_cons, <- app_assoc.
Qed.

End cleanup.
End memory.

(** ** The objects of the request cache *)

Definition free_ok (d : kgpu_dev) : Prop :=
  NoDup (req_free d) /\ forall x, x ∈ req_free d -> is_Some (requests d !! x).

(** There is no object at NULL, and all have a name of full size. *)
Definition reqs_named (d : kgpu_dev) : Prop :=
  requests d !! NULL = None /\
  forall x q, requests d !! x = Some q -> length (rq_service_name q) = 32%nat.

Lemma reqs_named_insert d r q :
  reqs_named d -> r <> NULL -> length (rq_service_name q) = 32%nat ->
  reqs_named (set_requests d (<[r := q]> (requests d))).
Proof.
  intros [H1 H2] Hr Hq. split; simpl; [by rewrite lookup_insert_ne|].
  intros x y [[_ <-]|[_ Hy]]%lookup_insert_Some; eauto.
Qed.

Lemma construct_named objs d : reqs_named d -> reqs_named (foldl kgpu_request_constructor d objs).
Proof.
  revert d. induction objs as [|a objs IH]; intros d Hd; [done|]. cbn [foldl]. apply IH.
  unfold kgpu_request_constructor. case_bool_decide as Ha; [done|].
  unfold kgpu_next_request_id. apply (reqs_named_insert (set_rid d _)); [exact Hd | done | done].
Qed.

Lemma alloc_named d ans : reqs_named d -> reqs_named (kgpu_alloc_request d ans).1.
Proof. intros Hd. destruct ans; [done | exact Hd | by apply (construct_named objs) in Hd]. Qed.

(** The answers of the slab allocator to a sequence of allocations. *)
Fixpoint slabs_ok (anss : list slab_answer) (d : kgpu_dev) : Prop :=
  match anss with
  | [] => True
  | ans :: anss => slab_ok d ans /\ slabs_ok anss (kgpu_alloc_request d ans).1
  end.

Lemma construct_effect objs d :
  let d' := foldl kgpu_request_constructor d objs in
  d_state d' = d_state d /\ reqs d' = reqs d /\ rtdreqs d' = rtdreqs d /\ gmpool d' = gmpool d /\
  req_free d' = req_free d /\ sync_data d' = sync_data d /\
  (forall x, x ∉ objs -> requests d' !! x = requests d !! x) /\
  (forall x, x <> NULL -> x ∈ objs -> is_Some (requests d' !! x)).
Proof.
  revert d. induction objs as [|a objs IH]; intros d.
  { cbn. split_and!; try done. intros x _ Hx. by apply not_elem_of_nil in Hx. }
  cbn [foldl]. destruct (IH (kgpu_request_constructor d a)) as (-> & -> & -> & -> & -> & -> & H1 & H2).
  unfold kgpu_request_constructor in *. case_bool_decide as Ha; cbn.
  - split_and!; try done; [intros x Hx; apply H1; set_solver|].
    intros x Hx [->|?]%elem_of_cons; [done | by apply H2].
  - split_and!; try done.
    + intros x Hx. rewrite H1 by set_solver. cbn. rewrite lookup_insert_ne; [done | set_solver].
    + intros x Hx Hin. destruct (decide (x ∈ objs)) as [Ho|Ho]; [by apply H2|].
      rewrite H1 by done. apply elem_of_cons in Hin as [->|?]; [|done]. cbn.
      rewrite lookup_insert_eq. eauto.
Qed.

(** An allocation that succeeds: the object is taken, objects that are not
    free stay so, and nothing else changes. *)
Record alloc_frame (d d' : kgpu_dev) (r : Z) : Prop := {
  af_free : free_ok d';
  af_taken : r ∉ req_free d';
  af_new x : is_Some (requests d !! x) -> x ∉ req_free d -> x <> r /\ x ∉ req_free d';
  af_old x : is_Some (requests d !! x) -> requests d' !! x = requests d !! x;
  af_live : is_Some (requests d' !! r);
  af_only x : is_Some (requests d' !! x) -> is_Some (requests d !! x) \/ x ∈ req_free d' \/ x = r;
  af_kept x : x ∈ req_free d -> x ∈ req_free d' \/ x = r;
  af_state : d_state d' = d_state d;
  af_queued : queued d' = queued d;
  af_pool : gmpool d' = gmpool d
}.

Lemma alloc_framed d ans d' r :
  free_ok d -> slab_ok d ans -> kgpu_alloc_request d ans = (d', r) -> r <> NULL -> alloc_frame d d' r.
Proof.
  intros [Hnd Hlive] Hok E Hr. destruct ans as [|a|objs a]; cbn in E; injection E as <- <-; [done| |].
  - split; try done; cbn.
    + split; cbn; [by apply NoDup_filter|]. intros x [_ Hx]%list_elem_of_filter. by apply Hlive.
    + rewrite list_elem_of_filter. naive_solver.
    + intros x _ Hx. split; [intros ->; by apply Hx|]. rewrite list_elem_of_filter. naive_solver.
    + by apply Hlive.
    + by left.
    + intros x Hx. rewrite list_elem_of_filter. destruct (decide (x = a)); naive_solver.
  - destruct Hok as (Ha & Hndo & Hnull & Hfresh).
    destruct (construct_effect objs d) as (F1 & F2 & F3 & F4 & F5 & _ & H1 & H2).
    set (dc := foldl kgpu_request_constructor d objs) in *.
    assert (Hold : forall x, is_Some (requests d !! x) -> x ∉ objs).
    { intros x [q Hq] Hin. by rewrite (Hfresh x Hin) in Hq. }
    split; cbn; rewrite ?F5; try done.
    + split; cbn.
      * rewrite ?F5. apply NoDup_app. split; [done|]. split; [|by apply NoDup_filter].
        intros x Hx [_ Hx']%list_elem_of_filter. by apply (Hold x); [apply Hlive|].
      * intros x. rewrite ?F5. intros [Hx|[_ Hx]%list_elem_of_filter]%elem_of_app.
        -- rewrite H1; [by apply Hlive | by apply Hold, Hlive].
        -- apply H2; [intros ->; done | done].
    + intros [Hx|[Hx _]%list_elem_of_filter]%elem_of_app; [|done]. by apply (Hold a); [apply Hlive|].
    + intros x Hs Hx. specialize (Hold x Hs). rewrite ?F5. split; [by intros ->|].
      intros [?|[_ ?]%list_elem_of_filter]%elem_of_app; done.
    + intros x Hs. by apply H1, Hold.
    + apply H2; [by intros -> | done].
    + intros x Hx. destruct (decide (x ∈ objs)) as [Hin|Hin].
      * right. destruct (decide (x = a)) as [->|]; [by right|]. left. rewrite ?F5. apply elem_of_app. right.
        by apply list_elem_of_filter.
      * left. by rewrite H1 in Hx.
    + intros x Hx. left. rewrite ?F5. apply elem_of_app. by left.
    + unfold queued. cbn. by rewrite F2, F3.
Qed.

(** What the answers of the allocator depend on. *)
Lemma slabs_ok_same anss d d' :
  req_free d' = req_free d -> (forall x, requests d' !! x = None <-> requests d !! x = None) ->
  slabs_ok anss d -> slabs_ok anss d'.
Proof.
  revert d d'. induction anss as [|ans anss IH]; intros d d' Hf Hn; [done|]. intros [Hok Hs]. split.
  - destruct ans; cbn in *; [done | by rewrite Hf|].
    destruct Hok as (? & ? & ? & Hx). split_and!; try done. intros x Ho. by apply Hn, Hx.
  - revert Hs. apply IH; destruct ans as [|a|objs a]; cbn; try (by rewrite Hf); try done.
    + destruct (construct_effect objs d) as (_ & _ & _ & _ & -> & _).
      destruct (construct_effect objs d') as (_ & _ & _ & _ & -> & _). by rewrite Hf.
    + destruct (construct_effect objs d) as (_ & _ & _ & _ & _ & _ & H1 & H2).
      destruct (construct_effect objs d') as (_ & _ & _ & _ & _ & _ & H3 & H4).
      intros x. destruct (decide (x ∈ objs)) as [Ho|Ho]; [|by rewrite H1, H3].
      destruct Hok as (_ & _ & Hnull & _). assert (x <> NULL) by congruence.
      rewrite !eq_None_not_Some. naive_solver.
Qed.

(** ** The preparation *)

Section prepare.
Context `{L : BitmapLib} {LL : BitmapLaws L} (mycb_addr : Z) (cs : Z -> Z).
Context (base : gmap Z Z) (at_ st nu : Z) (old : Z -> Prop).

Notation N := (Z.to_nat Sysbm.BATCH_NR).

(** The first [i] requests are ready. *)
Record ready (i : nat) (d : kgpu_dev) (rs bufs idxs : list Z) : Prop := {
  rd_len : length rs = N;
  rd_blen : length bufs = N;
  rd_ilen : length idxs = i;
  rd_nodup : NoDup (take i rs);
  rd_requests j r : (j < i)%nat -> rs !! j = Some r -> r <> NULL /\ r ∉ req_free d /\
    exists q, requests d !! r = Some q /\ rq_callback q = CB_client mycb_addr /\
      rq_kdata q = cs (Z.of_nat j);
  rd_bufs : take i bufs = (fun x => at_ + x * KGPU_BUF_UNIT_SIZE) <$> idxs;
  rd_pool : buffers (gmpool d) idxs base;
  rd_kva : kva (gmpool d) = at_;
  rd_free : free_ok d;
  rd_state : d_state d = st;
  rd_queued : queued d = [];
  rd_rest : drop i rs = replicate (N - i) NULL;
  rd_brest : drop i bufs = replicate (N - i) NULL;
  rd_named : reqs_named d;
  rd_units : nunits (gmpool d) = nu;
  rd_account x : is_Some (requests d !! x) -> x ∈ req_free d \/ x ∈ take i rs \/ old x
}.

Lemma drop_rest (l : list Z) i x :
  (i < N)%nat -> drop i l = replicate (N - i) NULL -> drop (S i) (<[i := x]> l) = replicate (N - S i) NULL.
Proof.
  intros Hi Hl. rewrite drop_insert_lt by lia. replace (S i) with (i + 1)%nat by lia.
  rewrite <- drop_drop, Hl, drop_replicate. f_equal. lia.
Qed.

Lemma take_insert_snoc (l : list Z) i x : (i < length l)%nat -> take (S i) (<[i := x]> l) = take i l ++ [x].
Proof. intros Hi. rewrite (take_S_r _ _ x), take_insert_ge by (by rewrite ?list_lookup_insert_eq by lia). done. Qed.

(** Every object after one more allocation. *)
Lemma alloc_account i d rs bufs idxs d1 r y :
  ready i d rs bufs idxs -> alloc_frame d d1 r -> is_Some (requests d1 !! y) ->
  y ∈ req_free d1 \/ y ∈ take i rs ++ [r] \/ old y.
Proof.
  intros Hrd Ha Hy. rewrite elem_of_app, list_elem_of_singleton.
  destruct (af_only _ _ _ Ha y Hy) as [Ho|[?|?]]; [|auto..].
  destruct (rd_account _ _ _ _ _ Hrd y Ho) as [Hf|[?|?]]; [|auto..].
  destruct (af_kept _ _ _ Ha y Hf); auto.
Qed.

(** One more request: allocated, with a buffer, and filled. *)
Lemma ready_step i d rs bufs idxs d1 r pool x q' :
  ready i d rs bufs idxs -> (i < N)%nat -> alloc_frame d d1 r -> r <> NULL ->
  kva pool = at_ -> nunits pool = nu -> buffers pool (x :: idxs) base ->
  reqs_named d1 -> length (rq_service_name q') = 32%nat ->
  rq_callback q' = CB_client mycb_addr -> rq_kdata q' = cs (Z.of_nat i) ->
  ready (S i) (set_requests (set_gmpool d1 pool) (<[r := q']> (requests d1)))
    (<[i := r]> rs) (<[i := at_ + x * KGPU_BUF_UNIT_SIZE]> bufs) (idxs ++ [x]).
Proof.
  intros [R1 R2 R3 R4 R5 R6 R7 R8 R9 R10 R11 R12 R13 R14 R15 R16] Hi Ha Hr Hk Hnu Hb Hdn Hqn Hcb Hkd.
  assert (Hprev : forall j y, (j < i)%nat -> rs !! j = Some y -> y <> r /\ y ∉ req_free d1).
  { intros j y Hj Hy. destruct (R5 j y Hj Hy) as (_ & Hf & p & Hp & _). apply (af_new _ _ _ Ha); eauto. }
  split; rewrite ?length_insert, ?length_app; try done; cbn.
  - rewrite R3. simpl. lia.
  - rewrite (take_S_r _ _ r), take_insert_ge by (by rewrite ?list_lookup_insert_eq by lia).
    apply NoDup_app. split; [done|]. split; [|apply NoDup_singleton].
    intros y (j & [Hj Hlt]%lookup_take_Some)%list_elem_of_lookup ->%list_elem_of_singleton.
    by destruct (Hprev j r Hlt Hj).
  - intros j y Hj Hy. destruct (decide (j = i)) as [->|Hne].
    + rewrite list_lookup_insert_eq in Hy by lia. injection Hy as <-. split; [done|].
      split; [apply (af_taken _ _ _ Ha)|]. exists q'. by rewrite lookup_insert_eq.
    + rewrite list_lookup_insert_ne in Hy by done. destruct (Hprev j y) as [Hy1 Hy2]; [lia | done|].
      destruct (R5 j y) as (Hn & _ & p & Hp & Hok); [lia | done|]. split; [done|]. split; [done|].
      exists p. rewrite lookup_insert_ne by done. by rewrite (af_old _ _ _ Ha) by eauto.
  - rewrite (take_S_r _ _ (at_ + x * KGPU_BUF_UNIT_SIZE)), take_insert_ge
      by (by rewrite ?list_lookup_insert_eq by lia). by rewrite fmap_app, R6.
  - by rewrite <- Permutation_cons_append.
  - destruct (af_free _ _ _ Ha) as [F1 F2]. split; cbn; [done|]. intros y Hy.
    rewrite lookup_insert. case_decide; [eauto | by apply F2].
  - by rewrite (af_state _ _ _ Ha).
  - rewrite <- R11, <- (af_queued _ _ _ Ha). done.
  - by apply drop_rest.
  - by apply drop_rest.
  - by apply (reqs_named_insert (set_gmpool d1 pool)).
  - intros y Hy. rewrite take_insert_snoc by lia.
    destruct (alloc_account i d rs bufs idxs d1 r y) as [?|[?| ?]]; auto.
    { by split. }
    revert Hy. rewrite lookup_insert. case_decide as Hc; [|done]. subst y. intros _. apply (af_live _ _ _ Ha).
Qed.

(** Where the preparation stops: the requests and the buffers it holds. *)
Record stopped (d : kgpu_dev) (rs bufs : list Z) (oidx : list (option Z)) : Prop := {
  sp_len : length rs = N;
  sp_ilen : length oidx = N;
  sp_bufs : bufs = buf_addr at_ <$> oidx;
  sp_pool : buffers (gmpool d) (omap id oidx) base;
  sp_kva : kva (gmpool d) = at_;
  sp_nodup : NoDup (filter (fun r => r <> NULL) rs ++ req_free d);
  sp_queued : queued d = [];
  sp_account x : is_Some (requests d !! x) -> x ∈ req_free d \/ x ∈ filter (fun r => r <> NULL) rs \/ old x
}.

Lemma filter_not_null (l : list Z) : NULL ∉ l -> filter (fun r => r <> NULL) l = l.
Proof.
  induction l as [|x l IH]; [done|]. rewrite not_elem_of_cons. intros [Hx Hl].
  by rewrite filter_cons_True, IH.
Qed.

Lemma filter_nulls n : filter (fun r => r <> NULL) (replicate n NULL) = [].
Proof. induction n as [|n IH]; [done|]. cbn [replicate]. by rewrite filter_cons_False by tauto. Qed.

Lemma ready_taken i d rs bufs idxs r :
  ready i d rs bufs idxs -> r ∈ take i rs -> r <> NULL /\ r ∉ req_free d /\ is_Some (requests d !! r).
Proof.
  intros Hrd (j & [Hj Hlt]%lookup_take_Some)%list_elem_of_lookup.
  destruct (rd_requests _ _ _ _ _ Hrd j r Hlt Hj) as (? & ? & q & Hq & _). eauto.
Qed.

(** The buffers taken, and then none. *)
Definition taken_buffers (i : nat) (idxs : list Z) : list (option Z) :=
  (Some <$> idxs) ++ replicate (N - i) None.

Lemma taken_buffers_omap i idxs : omap id (taken_buffers i idxs) = idxs.
Proof.
  unfold taken_buffers. rewrite omap_app. assert (forall n, omap id (replicate n (@None Z)) = []) as ->.
  { intros n. by induction n. }
  rewrite app_nil_r. induction idxs as [|x l IH]; [done|]. rewrite fmap_cons. cbn. by rewrite IH.
Qed.

Lemma ready_buffers i d rs bufs idxs :
  (i <= N)%nat -> ready i d rs bufs idxs ->
  length (taken_buffers i idxs) = N /\ bufs = buf_addr at_ <$> taken_buffers i idxs.
Proof.
  intros Hi Hrd. unfold taken_buffers. split.
  - rewrite length_app, length_fmap, length_replicate, (rd_ilen _ _ _ _ _ Hrd). lia.
  - rewrite <- (take_drop i bufs), (rd_bufs _ _ _ _ _ Hrd), (rd_brest _ _ _ _ _ Hrd), fmap_app, fmap_replicate.
    by rewrite <- list_fmap_compose.
Qed.

(** No request: what is held is what is ready. *)
Lemma ready_stopped i d rs bufs idxs :
  (i <= N)%nat -> ready i d rs bufs idxs -> stopped d rs bufs (taken_buffers i idxs).
Proof.
  intros Hi Hrd. destruct (ready_buffers i d rs bufs idxs Hi Hrd) as [Hl Hb].
  assert (Hf : filter (fun r => r <> NULL) rs = take i rs).
  { rewrite <- (take_drop i rs) at 1. rewrite (rd_rest _ _ _ _ _ Hrd), filter_app, filter_nulls, app_nil_r.
    apply filter_not_null. intros Hn. by destruct (ready_taken _ _ _ _ _ _ Hrd Hn). }
  split; rewrite ?Hf, ?taken_buffers_omap; try done; try apply Hrd.
  apply NoDup_app. split; [apply Hrd|]. split; [|apply Hrd].
  intros x Hx. by destruct (ready_taken _ _ _ _ _ _ Hrd Hx) as (_ & ? & _).
Qed.

(** No buffer: the request is held as well. *)
Lemma alloc_stopped i d rs bufs idxs d1 r pool :
  (i < N)%nat -> ready i d rs bufs idxs -> alloc_frame d d1 r -> r <> NULL ->
  buffers pool idxs base -> kva pool = at_ ->
  stopped (set_gmpool d1 pool) (<[i := r]> rs) bufs (taken_buffers i idxs).
Proof.
  intros Hi Hrd Ha Hr Hb Hk. destruct (ready_buffers i d rs bufs idxs ltac:(lia) Hrd) as [Hl Hbu].
  pose proof (rd_len _ _ _ _ _ Hrd) as Hlen.
  assert (Hf : filter (fun r => r <> NULL) (<[i := r]> rs) = take i rs ++ [r]).
  { rewrite <- (take_drop (S i) (<[i := r]> rs)), drop_rest by (done || apply Hrd).
    rewrite take_insert_snoc, !filter_app, filter_nulls, app_nil_r by lia. f_equal.
    - apply filter_not_null. intros Hn. by destruct (ready_taken _ _ _ _ _ _ Hrd Hn).
    - by rewrite filter_cons_True. }
  split; rewrite ?Hf, ?taken_buffers_omap; try done.
  - by rewrite length_insert.
  - cbn. apply NoDup_app. split; [|split; [|apply (af_free _ _ _ Ha)]].
    + apply NoDup_app. split; [apply Hrd|]. split; [|apply NoDup_singleton].
      intros x Hx ->%list_elem_of_singleton. destruct (ready_taken _ _ _ _ _ _ Hrd Hx) as (_ & ? & ?).
      by destruct (af_new _ _ _ Ha r).
    + intros x [Hx| ->%list_elem_of_singleton]%elem_of_app; [|apply (af_taken _ _ _ Ha)].
      destruct (ready_taken _ _ _ _ _ _ Hrd Hx) as (_ & ? & ?). by destruct (af_new _ _ _ Ha x).
  - rewrite <- (rd_queued _ _ _ _ _ Hrd), <- (af_queued _ _ _ Ha). done.
  - intros x Hx. exact (alloc_account i d rs bufs idxs d1 r x Hrd Ha Hx).
Qed.

(** An allocation that fails changes nothing. *)
Lemma alloc_null d ans d1 :
  free_ok d -> reqs_named d -> slab_ok d ans -> kgpu_alloc_request d ans = (d1, NULL) -> d1 = d.
Proof.
  intros [_ Hf] [Hn _] Hok E. destruct ans as [|a|objs a]; cbn in E; injection E as <-; subst; try done.
  - apply Hf in Hok as [q Hq]. congruence.
  - by destruct Hok as (? & _ & ? & _).
Qed.

Lemma strcpy_fits dst src :
  (length src < length dst)%nat -> exists name, strcpy dst src = Ok name /\ length name = length dst.
Proof.
  intros Hl. unfold strcpy. rewrite bool_decide_eq_true_2 by done. eexists. split; [done|].
  rewrite length_app. cbn [length]. rewrite length_skipn. lia.
Qed.

(** The preparation returns, with all requests ready or with what it holds. *)
Lemma prepare_ok n i anss d rs bufs idxs :
  (i + n = N)%nat -> ready i d rs bufs idxs -> slabs_ok anss d ->
  exists d' rs' bufs' ok, Sysbm.prepare mycb_addr cs n (Z.of_nat i) anss d rs bufs = Ok (d', rs', bufs', ok) /\
    if ok then exists idxs', ready N d' rs' bufs' idxs' else exists oidx, stopped d' rs' bufs' oidx.
Proof.
  revert i anss d rs bufs idxs. induction n as [|n IH]; intros i anss d rs bufs idxs Hn Hrd Hs.
  - exists d, rs, bufs, true. split; [done|]. exists idxs. by replace N with i by lia.
  - pose proof Hrd as [R1 R2 R3 _ _ _ R7 R8 R9 _ _ R12 R13 R14 R15 _].
    assert (Hnull : forall l, length l = N -> drop i l = replicate (N - i) NULL -> <[i := NULL]> l = l).
    { intros l Hl Hd. apply list_insert_id. rewrite <- (Nat.add_0_r i), <- lookup_drop, Hd.
      apply lookup_replicate_2. lia. }
    cbn [Sysbm.prepare].
    assert (slab_ok d (default SlabNull (head anss)) /\
      slabs_ok (tail anss) (kgpu_alloc_request d (default SlabNull (head anss))).1) as [Hok Hs'].
    { by destruct anss. }
    destruct (kgpu_alloc_request d (default SlabNull (head anss))) as [d1 r] eqn:Ea. cbn [fst] in Hs'.
    rewrite array_set_ok, Nat2Z.id by lia. cbn [mbind outcome_bind].
    destruct (Z.eqb_spec r NULL) as [->|Hr].
    { rewrite (alloc_null d _ d1 R9 R14 Hok Ea), Hnull by done. eexists _, _, _, false. split; [done|].
      eexists. apply (ready_stopped i d rs bufs idxs); [lia | done]. }
    pose proof (alloc_framed d _ d1 r R9 Hok Ea Hr) as Ha.
    pose proof (alloc_named d (default SlabNull (head anss)) R14) as Hdn. rewrite Ea in Hdn. cbn in Hdn.
    destruct (buffers_take (gmpool d) idxs base R7) as (pool & p & Ev & Hk & Hnu & Hcase).
    rewrite (af_pool _ _ _ Ha), Ev. cbn [mbind outcome_bind].
    rewrite array_set_ok, Nat2Z.id by lia. cbn [mbind outcome_bind].
    destruct Hcase as [[-> Hb]|(Hp & x & -> & Hb)].
    { rewrite Hnull by done. eexists _, _, _, false. split; [done|]. eexists.
      apply (alloc_stopped i d rs bufs idxs d1 r pool); [lia | done | done | done | done | congruence]. }
    rewrite (proj2 (Z.eqb_neq _ _) Hp). destruct (af_live _ _ _ Ha) as [q Hq].
    rewrite (load_req_ok _ r q) by done. cbn [mbind outcome_bind].
    pose proof (proj2 Hdn r q Hq) as Hql.
    edestruct strcpy_fits as (name & E & Hname); [|rewrite E; clear E].
    { cbn [set_gmpool rq_service_name]. rewrite Hql. vm_compute. lia. }
    cbn [mbind outcome_bind]. unfold update_req. rewrite (load_req_ok _ r q) by done.
    cbn [mbind outcome_bind mret outcome_ret].
    replace (Z.of_nat i + 1) with (Z.of_nat (S i)) by lia.
    apply (IH (S i) _ _ _ _ (idxs ++ [x])); [lia | |].
    + rewrite R8. apply (ready_step i d rs bufs idxs d1 r pool x); try done; try lia; try congruence.
      cbn [Sysbm.fill rq_service_name]. by rewrite Hname.
    + revert Hs'. apply slabs_ok_same; [done|]. intros y. cbn. rewrite lookup_insert.
      case_decide as Hy; [|done]. subst y. by rewrite Hq.
Qed.

End prepare.

(** ** The whole of [minit] *)

(** The completions after the preparation, and the state in which the
    measurements start. *)
Definition prepared_completions (cs : Z -> Z) : gmap Z Z :=
  foldr (fun i => init_completion (cs i)) ∅ (seqZ 0 Sysbm.BATCH_NR).

Definition measuring (cs : Z -> Z) (d : kgpu_dev) : bench := mk_bench Warm d (prepared_completions cs) [].

Lemma prepared_quiet cs : quiet cs (prepared_completions cs).
Proof.
  intros j Hj. unfold prepared_completions.
  assert (j ∈ seqZ 0 Sysbm.BATCH_NR) as Hin by (apply elem_of_seqZ; lia). clear Hj. revert Hin.
  induction (seqZ 0 Sysbm.BATCH_NR) as [|i l IH]; intros Hj; [by apply not_elem_of_nil in Hj|].
  cbn. unfold init_completion at 1. rewrite lookup_insert. case_decide; [done|].
  apply IH. apply elem_of_cons in Hj as [->|?]; done.
Qed.

Lemma work_zero b : work_left b = 0%nat -> b_phase b = Finished.
Proof.
  unfold work_left, phase_work, async_work, sync_work. destruct (b_phase b); intros; try lia. done.
Qed.

Section measure.
Context `{L : BitmapLib} {LL : BitmapLaws L} (mycb_addr : Z) (cs : Z -> Z).
Context (Hcs : forall i j, 0 <= i < Sysbm.BATCH_NR -> 0 <= j < Sysbm.BATCH_NR -> cs i = cs j -> i = j).

(** What [minit] gives back: the blocks of the pool, and all requests that it
    has taken or that are new. *)
Definition gave_back (d0 d : kgpu_dev) : Prop :=
  queued d = [] /\ pool_blocks (gmpool d) = pool_blocks (gmpool d0) /\ NoDup (req_free d) /\
  forall x, is_Some (requests d !! x) -> x ∈ req_free d \/ is_Some (requests d0 !! x) /\ x ∉ req_free d0.

(** [minit] returns with everything given back, or the preparation
    establishes the invariant and what the clean-up needs. *)
Definition minit_leaves (d0 d : kgpu_dev) (rs bufs : list Z) : Prop :=
  let base := pool_blocks (gmpool d0) in
  length rs = Z.to_nat Sysbm.BATCH_NR /\ NoDup rs /\ NULL ∉ rs /\
  Sysbm.BATCH_NR * buf_units <= nunits (gmpool d0) /\
  (forall r, r ∈ rs -> r ∉ req_free d) /\ NoDup (req_free d) /\
  bench_inv mycb_addr cs rs (gmpool d) (req_free d) base (measuring cs d) /\
  forall d1, gmpool d1 = gmpool d -> exists d2,
    Sysbm.cleanup (Z.to_nat Sysbm.BATCH_NR) 0 rs bufs d1 = Ok d2 /\
    d_state d2 = d_state d1 /\ requests d2 = requests d1 /\ queued d2 = queued d1 /\
    (req_free d1 = req_free d -> cleaned rs (req_free d) base d2).

Notation ready_at d0 := (ready mycb_addr cs (pool_blocks (gmpool d0)) (kva (gmpool d0)) (d_state d0)
  (nunits (gmpool d0)) (fun x => is_Some (requests d0 !! x) /\ x ∉ req_free d0)).

Notation stopped_at d0 := (stopped (pool_blocks (gmpool d0)) (kva (gmpool d0))
  (fun x => is_Some (requests d0 !! x) /\ x ∉ req_free d0)).

Lemma stopped_cleanup d0 d rs bufs oidx :
  stopped_at d0 d rs bufs oidx ->
  exists d', Sysbm.cleanup (Z.to_nat Sysbm.BATCH_NR) 0 rs bufs d = Ok d' /\ gave_back d0 d'.
Proof.
  intros [S1 S2 S3 S4 S5 S6 S7 S8].
  destruct (cleanup_ok rs bufs oidx (pool_blocks (gmpool d0)) (kva (gmpool d0)) S1 S2 S3
    (Z.to_nat Sysbm.BATCH_NR) 0 d ltac:(lia) eq_refl S5) as (d' & E & F1 & F2 & F3 & F4 & [_ _ _ B4]).
  { by rewrite drop_0. }
  exists d'. split; [done|]. rewrite drop_0 in F4. split_and!.
  - congruence.
  - apply map_eq. intros k. rewrite B4. by rewrite bool_decide_eq_false_2 by apply not_elem_of_nil.
  - rewrite F4. by rewrite reverse_Permutation.
  - intros x. rewrite F2, F4, elem_of_app, elem_of_reverse. intros Hx. destruct (S8 x Hx) as [?|[?|?]]; auto.
Qed.

Lemma ready_leaves d0 d rs bufs idxs :
  d_state d0 <> KGPU_TERMINATED -> ready_at d0 (Z.to_nat Sysbm.BATCH_NR) d rs bufs idxs ->
  minit_leaves d0 d rs bufs.
Proof.
  intros Hst Hrd. pose proof Hrd as [R1 R2 R3 R4 R5 R6 R7 R8 [R9 R9'] R10 R11 _ _ _ R15 _].
  destruct (ready_buffers mycb_addr cs _ _ _ _ _ _ d rs bufs idxs (le_n _) Hrd) as [Hol Hob].
  rewrite take_ge in R4, R6 by lia.
  assert (Hreq : forall r, r ∈ rs -> r <> NULL /\ r ∉ req_free d).
  { intros r [j Hj]%list_elem_of_lookup. pose proof (lookup_lt_Some _ _ _ Hj).
    destruct (R5 j r) as (? & ? & _); [lia | done | done]. }
  assert (Hnull : NULL ∉ rs) by (intros Hin; by apply Hreq in Hin as [? _]).
  split_and!; [done | done | done | | intros r Hr; by apply Hreq | done | |].
  - apply buffers_fit in R7. rewrite R3, R15 in R7. exact R7.
  - apply bench_inv_rest; [exact I|]. split; [|split; [exact I | reflexivity]].
    split; [congruence | | apply prepared_quiet | done | done | done].
    intros j r Hj. pose proof (lookup_lt_Some _ _ _ Hj). apply (R5 j r); [lia | done].
  - intros d2 Hp.
    destruct (cleanup_ok rs bufs _ (pool_blocks (gmpool d0)) (kva (gmpool d0)) R1 Hol Hob
      (Z.to_nat Sysbm.BATCH_NR) 0 d2 ltac:(lia) eq_refl)
      as (d3 & E3 & F1 & F2 & F3 & F4 & [B1 _ _ B4]); [congruence | by rewrite Hp, drop_0, taken_buffers_omap|].
    exists d3. split_and!; [done..|]. intros Hfr. rewrite drop_0, filter_not_null in F4 by done.
    split; [done | | by rewrite F4, Hfr].
    apply map_eq. intros k. rewrite B4. by rewrite bool_decide_eq_false_2 by apply not_elem_of_nil.
Qed.

Lemma minit_ok d0 anss :
  free_ok d0 -> reqs_named d0 -> queued d0 = [] -> d_state d0 <> KGPU_TERMINATED -> pool_wf (gmpool d0) ->
  slabs_ok anss d0 ->
  exists d res, Sysbm.minit mycb_addr cs anss d0 = Ok (d, res) /\
    match res with
    | Sysbm.Returns code => code = 0 /\ gave_back d0 d
    | Sysbm.Measures rs bufs => minit_leaves d0 d rs bufs
    end.
Proof.
  intros Hf Hn Hq Hst Hwf Hs. unfold Sysbm.minit.
  set (zeros := replicate (Z.to_nat Sysbm.BATCH_NR) NULL).
  assert (Hrd : ready_at d0 0 d0 zeros zeros []).
  { split; cbn; try done.
    - constructor.
    - lia.
    - split; [done | constructor | intros k Hk; by apply not_elem_of_nil in Hk | done].
    - intros x Hx. destruct (decide (x ∈ req_free d0)); auto. }
  destruct (prepare_ok mycb_addr cs _ _ _ _ _ (Z.to_nat Sysbm.BATCH_NR) 0 anss d0 zeros zeros [] eq_refl Hrd Hs)
    as (d & rs & bufs & ok & E & Hok). change (Z.of_nat 0) with 0 in E. rewrite E. cbn [mbind outcome_bind].
  destruct ok.
  - destruct Hok as [idxs Hok]. eexists d, _. split; [done|]. by apply (ready_leaves d0 d rs bufs idxs).
  - destruct Hok as [oidx Hok]. destruct (stopped_cleanup d0 d rs bufs oidx Hok) as (d' & -> & Hg).
    eexists d', _. split; [done|]. by split.
Qed.

(** What a run of [minit] has done, and can do, after [n] events. *)
Definition measured (d0 : kgpu_dev) (rs bufs : list Z) (n : nat) (b : bench) : Prop :=
  (n + work_left b = 563)%nat /\
  (forall ev, fair ev b -> is_ok (bench_step mycb_addr cs rs bufs ev b) = true) /\
  (b_phase b <> Finished -> (0 < work_left b)%nat /\ exists ev, effective cs ev b = true /\ fair ev b) /\
  (b_phase b = Finished ->
     work_left b = 0%nat /\ (b_report b).*1 = all_sizes ++ all_sizes /\ queued (b_dev b) = [] /\
     pool_blocks (gmpool (b_dev b)) = pool_blocks (gmpool d0) /\
     NoDup (req_free (b_dev b)) /\ forall r, r ∈ rs -> r ∈ req_free (b_dev b)).

Lemma leaves_measured d0 d rs bufs n b :
  minit_leaves d0 d rs bufs -> runs mycb_addr cs rs bufs n (measuring cs d) b -> measured d0 rs bufs n b.
Proof.
  intros (Hlen & Hnd & Hnull & _ & Htaken & Hfree & Hb0 & Hclean) Hr.
  destruct (runs_inv mycb_addr cs rs bufs Hlen Hnd Hnull Hcs (gmpool d) (req_free d) _ Hclean n _ b Hr Hb0)
    as [Hb Hw]. split; [|split; [|split]].
  - rewrite <- Hw. apply (bench_inv_rest mycb_addr cs rs _ _ _ Warm) in Hb0 as [Hrest _]; [|exact I].
    unfold measuring. erewrite rest_work by eassumption. reflexivity.
  - intros ev Hev. destruct (bench_step_ok mycb_addr cs rs bufs Hlen Hnd Hnull Hcs _ _ _ Hclean ev b Hb Hev)
      as (b' & -> & _). reflexivity.
  - intros Hph. split; [|by eapply bench_progress].
    destruct (work_left b) eqn:Ew; [|lia]. by destruct Hph; apply work_zero.
  - intros Hph. split; [by eapply finished_work|]. destruct Hb as [_ _ Hc _ Hl Hmem]. rewrite Hph in *.
    cbn [lines_left] in Hl. rewrite app_nil_r in Hl. destruct Hmem as [C1 C2 C3], Hc as [_ Hc].
    split; [exact Hl|]. split; [exact Hc|]. split; [exact C2|]. rewrite C3. split.
    + apply NoDup_app. split; [by rewrite reverse_Permutation|]. split; [|exact Hfree].
      intros r Hin. rewrite elem_of_reverse in Hin. exact (Htaken r Hin).
    + intros r Hin. apply elem_of_app. left. apply elem_of_reverse. exact Hin.
Qed.

(** C6: the module sysbm always comes to an end.  Loaded in any reachable
    state of the kernel module that is not terminated and has nothing queued,
    whatever is reserved in the pool and whatever the slab allocator answers,
    [minit] does one of two things.  Either a request or a buffer is refused:
    it returns 0, its blocks of the pool are free again, and every request
    object is free or was in use before; this is what always happens when the
    pool has fewer units than the ten buffers of 32 MB need, as the pool of
    2 MB that the helper sets up.  Or all ten requests are ready and
    it measures.  Then, as long as no queue item and no record is refused, no
    signal is pending at a wait, and the clock advances by ten microseconds
    per measurement, and in whatever order the helper reads and answers, no
    event fails; each event that changes anything is one of exactly 563;
    until the last there is always one that can happen; and after the last
    [minit] has reported every size of both loops, nothing is with the
    module, and all buffers and requests are given back. *)
Theorem benchmark_measures m anss :
  reachable m -> queued (m_dev m) = [] -> d_state (m_dev m) <> KGPU_TERMINATED ->
  pool_wf (gmpool (m_dev m)) -> reqs_named (m_dev m) -> slabs_ok anss (m_dev m) ->
  exists d res, Sysbm.minit mycb_addr cs anss (m_dev m) = Ok (d, res) /\
    match res with
    | Sysbm.Returns code =>
        code = 0 /\ queued d = [] /\ pool_blocks (gmpool d) = pool_blocks (gmpool (m_dev m)) /\
        NoDup (req_free d) /\
        forall x, is_Some (requests d !! x) ->
          x ∈ req_free d \/ is_Some (requests (m_dev m) !! x) /\ x ∉ req_free (m_dev m)
    | Sysbm.Measures rs bufs =>
        Sysbm.BATCH_NR * DIV_ROUND_UP Sysbm.MAX_MEM_SZ KGPU_BUF_UNIT_SIZE <= nunits (gmpool (m_dev m)) /\
        forall n b, runs mycb_addr cs rs bufs n (measuring cs d) b ->
          (n + work_left b = 563)%nat /\
          (forall ev, fair ev b -> is_ok (bench_step mycb_addr cs rs bufs ev b) = true) /\
          (b_phase b <> Finished ->
             (0 < work_left b)%nat /\ exists ev, effective cs ev b = true /\ fair ev b) /\
          (b_phase b = Finished ->
             work_left b = 0%nat /\ (b_report b).*1 = all_sizes ++ all_sizes /\ queued (b_dev b) = [] /\
             pool_blocks (gmpool (b_dev b)) = pool_blocks (gmpool (m_dev m)) /\
             NoDup (req_free (b_dev b)) /\ forall r, r ∈ rs -> r ∈ req_free (b_dev b))
    end.
Proof.
  intros Hm Hq Hst Hwf Hn Hs. pose proof (reachable_inv m Hm) as Hi.
  assert (Hf : free_ok (m_dev m)) by (split; [apply (mi_free_nodup _ Hi) | apply (mi_free _ Hi)]).
  destruct (minit_ok (m_dev m) anss Hf Hn Hq Hst Hwf Hs) as (d & res & E & Hres).
  exists d, res. split; [exact E|]. destruct res as [code|rs bufs]; [exact Hres|].
  split; [by destruct Hres as (_ & _ & _ & ? & _)|].
  intros n b Hr. exact (leaves_measured _ _ _ _ _ _ Hres Hr).
Qed.

End measure.

(** ** Refused requests

    [minit] does not look at what [kgpu_call_async] returns: when no queue
    item can be allocated, nothing is queued, and it waits for a completion
    that nobody signals. *)

Section refused.
Context `{L : BitmapLib} (mycb_addr : Z) (cs : Z -> Z) (rs bufs : list Z).
Context (Hlen : length rs = Z.to_nat Sysbm.BATCH_NR) (Hnull : NULL ∉ rs).

Lemma submit_refused n i d :
  0 <= i -> i + Z.of_nat n = Sysbm.BATCH_NR -> submit rs n i [] d = Ok d.
Proof.
  revert i. induction n as [|n IH]; intros i Hi Hn; [done|]. cbn [submit].
  destruct (batch_get rs Hlen Hnull i) as (r & -> & _); [lia|]. cbn [mbind outcome_bind head].
  unfold kgpu_call_async. destruct (d_state d =? KGPU_TERMINATED); apply IH; lia.
Qed.

Theorem refused_batch_never_ends pool0 free0 d m rep sz e :
  at_rest mycb_addr cs rs pool0 free0 d m -> sz <= Sysbm.MAX_MEM_SZ -> c_items e = [] ->
  exists b, run cs rs bufs e (mk_bench (Async sz) d m rep) = Ok b /\
    b_phase b = Async_wait sz (c_time e) 0 /\ forall ev, effective cs ev b = false.
Proof.
  intros Hr Hsz Ei.
  destruct (set_sizes_ok rs Hlen Hnull (Z.to_nat Sysbm.BATCH_NR) 0 sz d) as (d1 & E1 & Ht);
    [lia | done | by eapply at_rest_live|].
  assert (queued d1 = []) as [Q1 Q2]%queued_nil by (rewrite (touched_queued _ _ Ht); apply Hr).
  exists (mk_bench (Async_wait sz (c_time e) 0) d1 m rep). split_and!; [|done|].
  - cbn [run]. rewrite (proj2 (Z.leb_le _ _)), E1, Ei by done. cbn [mbind outcome_bind].
    by rewrite submit_refused by (done || lia).
  - intros [e'| |resp]; cbn [effective b_phase b_dev b_done]; rewrite ?Q1, ?Q2; try done.
    by rewrite (ar_quiet _ _ _ _ _ _ _ Hr 0) by done.
Qed.

End refused.

(** ** A run

    A module with a pool of 320 MB, so that the buffers just fit. *)

Definition bench_pool : kgpu_mempool :=
  mk_mempool 4096 (2 ^ 32) (KLive []) (320 * 256) 320
    (KLive (replicate 320 false)) (KLive (replicate 320 0)).

Lemma bench_pool_wf : pool_wf bench_pool.
Proof.
  split; [simpl; lia | rewrite unit_size_eq; simpl; lia |].
  exists (replicate 320 false), (replicate 320 0). split; [done|]. split; [done|].
  apply units_wf_fresh; rewrite ?length_replicate; [unfold u32_range; simpl; lia | simpl; lia | simpl; lia | |];
    intros i Hi; cbn [nunits bench_pool] in Hi; unfold nthZ, test_bit;
    by rewrite lookup_replicate_2 by lia.
Qed.

Definition bench_module : module := set_mdev (mk_module dev_init ∅ 0) (set_gmpool dev_init bench_pool).

Lemma bench_module_reachable : reachable bench_module.
Proof.
  apply (R_step (mk_module dev_init ∅ 0)); [constructor | | simpl; lia].
  exact (S_memory (mk_module dev_init ∅ 0) bench_pool (vm dev_init)).
Qed.

(** A slab of ten objects, which are handed out one after the other. *)
Definition bench_slabs : list slab_answer :=
  SlabGrow (seqZ 1000 10) 1000 :: (SlabReuse <$> seqZ 1001 9).

Definition bench_cs (i : Z) : Z := 2 ^ 46 + 32 * i.

(** What the machine does next: the helper works when it can. *)
Definition next_event (b : bench) : event :=
  match reqs (b_dev b), rtdreqs (b_dev b) with
  | _ :: _, _ => Read
  | [], it :: _ => Answer (mk_ku_response (default 0 (rq_id <$> requests (b_dev b) !! it_r it)) 0)
  | [], [] =>
      Run (mk_chance match b_phase b with
                     | Async_wait _ t0 _ | Sync_ret _ t0 => (t0.1, t0.2 + 1000)
                     | _ => (0, 0)
                     end (Some 500) (Some <$> seqZ 2000 10) false)
  end.

Fixpoint drive (n : nat) (rs bufs : list Z) (b : bench) : outcome bench :=
  match n with
  | O => mret b
  | S n => b ← bench_step 77 bench_cs rs bufs (next_event b) b; drive n rs bufs b
  end.

(** After 563 events the benchmark is at its end, with thirty lines of report
    and an empty pool. *)
Example benchmark_run :
  match Sysbm.minit 77 bench_cs bench_slabs (m_dev bench_module) with
  | Ok (d, Sysbm.Measures rs bufs) =>
      match drive 563 rs bufs (measuring bench_cs d) with
      | Ok (mk_bench Finished d _ rep) =>
          (length rep =? 30)%nat && bool_decide (pool_blocks (gmpool d) = ∅) && (length (req_free d) =? 10)%nat
      | _ => false
      end
  | _ => false
  end = true.
Proof. by vm_compute. Qed.

Lemma slabs_reuse l d :
  NoDup l -> (forall x, x ∈ l -> x ∈ req_free d) -> slabs_ok (SlabReuse <$> l) d.
Proof.
  intros Hnd. revert d. induction Hnd as [|a l Ha _ IH]; intros d Hin; [done|]. rewrite fmap_cons. split.
  - apply Hin. left.
  - apply IH. intros x Hx. cbn. apply list_elem_of_filter. split; [congruence|]. apply Hin. by right.
Qed.

Lemma bench_slabs_ok : slabs_ok bench_slabs (m_dev bench_module).
Proof.
  unfold bench_slabs. split.
  - split_and!; [apply elem_of_seqZ; lia | apply NoDup_seqZ | unfold NULL; rewrite elem_of_seqZ; lia | done].
  - apply slabs_reuse; [apply NoDup_seqZ|].
    assert (req_free (kgpu_alloc_request (m_dev bench_module) (SlabGrow (seqZ 1000 10) 1000)).1 =
      seqZ 1001 9) as -> by by vm_compute. done.
Qed.

Lemma bench_cs_inj i j : bench_cs i = bench_cs j -> i = j.
Proof. unfold bench_cs. lia. Qed.

Lemma bench_prepared : exists d rs bufs,
  Sysbm.minit 77 bench_cs bench_slabs (m_dev bench_module) = Ok (d, Sysbm.Measures rs bufs).
Proof. eexists _, _, _. vm_compute. reflexivity. Qed.

(** No object exists before the first slab. *)
Lemma bench_module_named : reqs_named (m_dev bench_module).
Proof. by split. Qed.

Lemma benchmark_measures_witness :
  exists d rs bufs b,
    Sysbm.minit 77 bench_cs bench_slabs (m_dev bench_module) = Ok (d, Sysbm.Measures rs bufs) /\
    runs 77 bench_cs rs bufs 1 (measuring bench_cs d) b /\ work_left b = 562%nat.
Proof.
  destruct bench_prepared as (d & rs & bufs & E).
  destruct (benchmark_measures 77 bench_cs (fun i j _ _ => bench_cs_inj i j) bench_module
    bench_slabs bench_module_reachable eq_refl ltac:(discriminate) bench_pool_wf
    bench_module_named bench_slabs_ok) as (d' & res & E' & Hres).
  rewrite E in E'. injection E' as <- <-. destruct Hres as [_ Hthm].
  destruct (Hthm 0%nat _ (runs_here 77 bench_cs rs bufs (measuring bench_cs d))) as (_ & Hok & Hev & _).
  destruct Hev as (_ & ev & Hef & Hf); [discriminate|]. specialize (Hok ev Hf).
  destruct (bench_step 77 bench_cs rs bufs ev (measuring bench_cs d)) as [b|] eqn:Eb; [|discriminate Hok].
  pose proof (runs_step 77 bench_cs rs bufs 0 _ _ b ev (runs_here _ _ _ _ _) Hef Hf Eb) as Hr.
  exists d, rs, bufs, b. split; [exact E|]. split; [exact Hr|].
  destruct (Hthm 1%nat b Hr) as (Hw & _). lia.
Defined.
