(* ===== verification/ClientThms.v ===== *)
(** * The client modules in the whole system

    Any sequence of loads of the three client modules, then the helper: all
    their requests are answered, and all that they took is given back. *)

From Stdlib Require Import String.
From S2P Require Import Prelude KgpuDefs ListHead Ranges UnitAlloc MemPool MmapArea Layout Device Module.
From S2P Require Import GpuOps ItemList Services Helper HelperInv HelperLoop HelperThms HelperLive.
From S2P Require Import HelperMain Log System SystemThms Clients ClientInv ClientLoad.

(** Loading a module, with the results of the allocators of Linux. *)
Inductive client_load : Type :=
  | LoadCallgpu (ans : slab_answer) (item : option Z)
  | LoadCalg2 (ans : slab_answer) (page : Z) (item : option Z)
  | LoadSysbm (anss : list slab_answer).

(** The first allocation of a request, and the item of its submission. *)
Definition load_answer (c : client_load) : slab_answer :=
  match c with
  | LoadCallgpu ans _ | LoadCalg2 ans _ _ => ans
  | LoadSysbm anss => default SlabNull (head anss)
  end.

Definition has_item (c : client_load) : Prop :=
  match c with
  | LoadCallgpu _ item | LoadCalg2 _ _ item => is_Some item
  | LoadSysbm _ => True
  end.

Definition page_typed (c : client_load) : Prop :=
  match c with LoadCalg2 _ page _ => u64_range page | _ => True end.

Section loads.
Context `{L : BitmapLib} {LL : BitmapLaws L} `{V : VmLib} {VL : VmLaws V}.
Context (cg ca sb : Z) (Hcodes : cg <> ca /\ cg <> sb /\ ca <> sb) (__pa cs : Z -> Z).

Definition load_client (c : client_load) (m : module) : outcome module :=
  d ← match c with
      | LoadCallgpu ans item => '(d, _) ← Callgpu.minit cg ans item (m_dev m); mret d
      | LoadCalg2 ans page item => '(d, _) ← Calg2.minit ca __pa ans page item (m_dev m); mret d
      | LoadSysbm anss => '(d, _) ← Sysbm.minit sb cs anss (m_dev m); mret d
      end;
  mret (mk_module d (m_waiting m) (rid_sequence d)).

Fixpoint load_clients (l : list client_load) (m : module) : outcome module :=
  match l with
  | [] => mret m
  | c :: l => m ← load_client c m; load_clients l m
  end.

(** The allocators answer as they must, each in the state it is called in,
    and the identifiers do not wrap. *)
Definition loadable (c : client_load) (m : module) : Prop :=
  slab_ok (m_dev m) (load_answer c) /\ m_drawn m + constructed (load_answer c) < 2 ^ 31 /\
  page_typed c.

Fixpoint loadable_all (l : list client_load) (m : module) : Prop :=
  match l with
  | [] => True
  | c :: l =>
      loadable c m /\ match load_client c m with Ok m => loadable_all l m | Fault _ => True end
  end.

Section run.
Context (pool_at pool_units area_at : Z).
Hypothesis Hsmall : pool_units * KGPU_BUF_UNIT_SIZE < Sysbm.MAX_MEM_SZ.

Notation clients_at := (clients_at cg ca sb pool_at pool_units area_at).

Lemma clients_drawn o s t d w n :
  clients_at o s t (mk_module d w n) -> rid_sequence d = n.
Proof. intros [Hr _ _ _]. apply (io_seq _ _ (mi_ids _ (reachable_inv _ Hr))). Qed.

Lemma load_client_ok o s t c m :
  s <> KGPU_TERMINATED -> inserts_ok -> clients_at o s t m -> loadable c m -> has_item c ->
  exists m', load_client c m = Ok m' /\ clients_at o s t m'.
Proof.
  intros Hs Hins Hm (Hok & Hlt & Hty) Hit.
  enough (exists d m1, load_client c m = Ok (mk_module d (m_waiting m) (rid_sequence d)) /\
    m1 = mk_module d (m_waiting m) (m_drawn m + constructed (load_answer c)) /\ clients_at o s t m1)
    as (d & m1 & E & -> & Hd).
  { eexists. split; [done|]. by rewrite (clients_drawn _ _ _ _ _ _ Hd). }
  assert (Hno : forall item, is_Some item -> ~ refused s item).
  { intros item [a ->] [?|?]; done. }
  destruct c as [ans item|ans page item|anss]; simpl in *.
  - destruct (callgpu_minit_ok cg ca sb pool_at pool_units area_at o s t m ans item Hm Hok Hlt)
      as (d & E & [Hd|[Href _]]); [|by apply Hno in Href].
    eexists d, _. unfold load_client. rewrite E. done.
  - destruct (calg2_minit_ok cg ca sb pool_at pool_units area_at o s t m __pa ans page item Hm Hok Hlt Hty)
      as (d & E & [Hd|[[Hi _]|[Href _]]]); [|done|by apply Hno in Href].
    eexists d, _. unfold load_client. rewrite E. done.
  - destruct (sysbm_minit_ok cg ca sb pool_at pool_units area_at o s t m cs anss Hm Hok Hlt Hsmall)
      as (d & E & Hd). eexists d, _. unfold load_client. rewrite E. done.
Qed.

Lemma load_clients_ok o s t l m :
  s <> KGPU_TERMINATED -> inserts_ok -> clients_at o s t m -> loadable_all l m -> Forall has_item l ->
  exists m', load_clients l m = Ok m' /\ clients_at o s t m'.
Proof.
  intros Hs Hins. revert m. induction l as [|c l IH]; intros m Hm Hl Hit; [by exists m|].
  destruct Hl as [Hc Hl]. apply Forall_cons in Hit as [Hic Hit].
  destruct (load_client_ok o s t c m Hs Hins Hm Hc Hic) as (m1 & E & Hm1). rewrite E in Hl.
  destruct (IH m1 Hm1 Hl Hit) as (m2 & E2 & Hm2). exists m2. simpl. rewrite E. done.
Qed.

End run.

(** The holdings of others in a state where every request object is free. *)
Definition idle_holdings (d : kgpu_dev) : holdings :=
  mk_holdings (pool_blocks (gmpool d)) (area_blocks (vm d)) ∅.

Lemma idle_clients m :
  reachable m -> queued (m_dev m) = [] ->
  (forall r, is_Some (requests (m_dev m) !! r) -> r ∈ req_free (m_dev m)) ->
  pool_wf (gmpool (m_dev m)) -> area_wf (vm (m_dev m)) -> v_npages (vm (m_dev m)) < 2 ^ 20 ->
  clients_at cg ca sb (kva (gmpool (m_dev m))) (nunits (gmpool (m_dev m))) (v_start (vm (m_dev m)))
    (idle_holdings (m_dev m)) (d_state (m_dev m)) (rtdreqs (m_dev m)) m.
Proof.
  intros Hr Hq Hfree Hp Ha Hn. split; [done| |done..]. rewrite Hq. exists ∅, ∅.
  assert (Hle : forall b, leased b ∅ [] b).
  { intros b. split; [done..|]. intros i k. split; [by left|]. intros [?|(_ & r & ?)]; done. }
  split; simpl; try done; try apply Hle.
  - intros r Hr'. by apply elem_of_nil in Hr'.
  - intros r Hr'. by apply elem_of_nil in Hr'.
  - apply (mi_free_nodup _ (reachable_inv _ Hr)).
  - intros r Hs. right. left. by apply Hfree.
Qed.

(** The registry has neither of the services that [callgpu] and [calg2] ask
    for, as with the libraries of the repository. *)
Definition services_missing (reg : registry) : Prop :=
  assoc (text_bytes (lit "nonexist service")) (bindings reg) = NULL /\
  assoc (text_bytes (lit "test_service")) (bindings reg) = NULL.

Lemma clients_ask_missing p u a o reg :
  services_missing reg -> h_reqs o = ∅ ->
  clients_served (client_inv cg ca sb p u a o) (fun _ => False) reg.
Proof.
  intros [M1 M2] Ho l d r q (po & ar & Hst) Hr Hq s Hs. apply Hs. unfold s.
  destruct (cs_request _ _ _ _ _ _ _ _ _ _ _ Hst r Hr) as (q' & [_ Hq'] & Hl).
  rewrite Hq in Hq'. injection Hq' as <-. unfold request_leases, asks in Hl. rewrite Ho in Hl.
  destruct (rq_callback q);
    [destruct Hl as (_ & _ & Hl%elem_of_empty); done | destruct Hl as (_ & _ & Hl%elem_of_empty); done|].
  destruct Hl as [(_ & _ & -> & _)|[(_ & _ & _ & -> & _)|(_ & _ & _ & Hl%elem_of_empty)]]; done.
Qed.

Context `{!ServiceCode gpu_state, !ServiceLaws gpu_state, MallocLaws}.

#[local] Instance clients_file : DevFile kdev := kdev_file (client_callback cg ca sb).

Lemma clients_balanced m l hb hv reg (g : gpu_state) :
  reachable m -> d_state (m_dev m) <> KGPU_TERMINATED -> queued (m_dev m) = [] ->
  (forall r, is_Some (requests (m_dev m) !! r) -> r ∈ req_free (m_dev m)) ->
  pool_wf (gmpool (m_dev m)) ->
  nunits (gmpool (m_dev m)) * KGPU_BUF_UNIT_SIZE < Sysbm.MAX_MEM_SZ ->
  area_wf (vm (m_dev m)) -> v_npages (vm (m_dev m)) < 2 ^ 20 -> inserts_ok ->
  loadable_all l m -> Forall has_item l ->
  registry_wf reg -> services_missing reg -> gpu_wf g -> (forall i, stream_used g i = false) ->
  malloc_succeeds ->
  exists m' n h', load_clients l m = Ok m' /\ reachable m' /\
    kh_main_loop n (helper_start hb hv reg g (mk_kdev (m_dev m') [] [])) = Ok h' /\
    answers (devfd h') ≡ₚ rid (m_dev m') <$> queued (m_dev m') /\
    let d := kd (devfd h') in
    reqs d = [] /\ rtdreqs d = [] /\
    pool_blocks (gmpool d) = pool_blocks (gmpool (m_dev m)) /\
    area_blocks (vm d) = area_blocks (vm (m_dev m)) /\
    NoDup (req_free d) /\ forall r, is_Some (requests d !! r) -> r ∈ req_free d.
Proof.
  intros Hr Hst Hq Hfree Hp Hsmall Ha Hn Hins Hl Hit Hreg Hmiss Hg Hu Hmal.
  pose proof (idle_clients m Hr Hq Hfree Hp Ha Hn) as Hm. set (o := idle_holdings (m_dev m)) in *.
  destruct (load_clients_ok _ _ _ Hsmall o _ _ l m Hst Hins Hm Hl Hit) as (m' & El & [Hr' Hi Hs' Ht']).
  assert (rtdreqs (m_dev m) = []) as Ert.
  { unfold queued in Hq. by destruct (rtdreqs (m_dev m)). }
  set (inv := client_inv cg ca sb _ _ _ o) in Hi.
  pose (ids := rid (m_dev m') <$> queued (m_dev m')).
  assert (Claws : CallbackLaws (client_callback cg ca sb) inv) by by apply client_callback_laws.
  pose (spec := kdev_spec (client_callback cg ca sb) inv ids).
  set (h := helper_start hb hv reg g (mk_kdev (m_dev m') [] [])).
  assert (Hwf : helper_wf h).
  { apply helper_start_wf; [done..| | |done].
    - apply reachable_kdev; [done | congruence | done].
    - simpl. unfold kdev_out. simpl. by rewrite Ht', Ert. }
  assert (Hse : serving (fun _ => False) h).
  { apply (clients_serving (client_callback cg ca sb) inv ids). by apply clients_ask_missing. }
  destruct (loop_answers_all (fun _ => False) _ opencl_patient h Hwf Hse Hmal)
    as (n & h' & E & W' & _ & Hout & Hpe).
  destruct (kdev_finished (client_callback cg ca sb) inv ids (devfd h') (hw_dev h' W') Hout Hpe)
    as (A1 & A2 & A3 & (po & ar & [])).
  exists m', n, h'. cbv zeta. split_and!; try done.
  - by apply (leased_nil _ po).
  - by apply (leased_nil _ ar).
  - intros r [Hx|[?|Hx]]%cs_objects; [by apply elem_of_nil in Hx | done | by apply elem_of_empty in Hx].
Qed.

(** C5: load the client modules of the repository in any order and number, on
    a module in which every request object is free and whose pool is smaller
    than a buffer of [sysbm], and then run the helper with the OpenCL back
    end and a registry without the two services that [callgpu] and [calg2]
    ask for, which the libraries of the repository do not have.  Whatever
    slabs and pages Linux gives to the loads, provided that it gives each
    submission its queue item ([has_item]) and that mapping a page succeeds
    ([inserts_ok]; both failures leak), the loads do not fail and keep the
    module in a reachable state; the helper, when its [malloc] succeeds,
    answers all the requests they submitted, each once; and the callbacks,
    which free the memory and the requests, leave the module as it was: the
    same blocks of the pool are reserved and the same runs of pages mapped,
    and every request object is free again, once. *)
Theorem clients_give_everything_back m l hb hv reg (g : gpu_state) :
  reachable m -> d_state (m_dev m) <> KGPU_TERMINATED -> queued (m_dev m) = [] ->
  (forall r, is_Some (requests (m_dev m) !! r) -> r ∈ req_free (m_dev m)) ->
  pool_wf (gmpool (m_dev m)) ->
  nunits (gmpool (m_dev m)) * KGPU_BUF_UNIT_SIZE < Sysbm.MAX_MEM_SZ ->
  area_wf (vm (m_dev m)) -> v_npages (vm (m_dev m)) < 2 ^ 20 -> inserts_ok ->
  loadable_all l m -> Forall has_item l ->
  registry_wf reg -> services_missing reg -> gpu_wf g -> (forall i, stream_used g i = false) ->
  malloc_succeeds ->
  exists m' n h', load_clients l m = Ok m' /\ reachable m' /\
    kh_main_loop n (helper_start hb hv reg g (mk_kdev (m_dev m') [] [])) = Ok h' /\
    answers (devfd h') ≡ₚ rid (m_dev m') <$> queued (m_dev m') /\
    let d := kd (devfd h') in
    reqs d = [] /\ rtdreqs d = [] /\
    pool_blocks (gmpool d) = pool_blocks (gmpool (m_dev m)) /\
    area_blocks (vm d) = area_blocks (vm (m_dev m)) /\
    NoDup (req_free d) /\ forall r, is_Some (requests d !! r) -> r ∈ req_free d.
Proof. apply clients_balanced. Qed.

End loads.

(** ** An example

    The device after start-up; each of the three modules is loaded, with one
    slab of two requests. *)
Definition clients_module : module :=
  set_mdev (mk_module dev_init ∅ 0) (set_area (set_gmpool dev_init pool_example) vm_example).

Definition clients_loads : list client_load :=
  [LoadCallgpu (SlabGrow [1000; 1100] 1000) (Some 2000); LoadCalg2 (SlabReuse 1100) (2 ^ 40) (Some 2100);
   LoadSysbm [SlabNull]].

Lemma clients_module_reachable : reachable clients_module.
Proof.
  apply (R_step (mk_module dev_init ∅ 0)); [constructor | apply S_memory | done].
Qed.

(** Replaces the load in the goal by its result. *)
Ltac compute_load :=
  match goal with
  | |- context [load_client ?a ?b ?c ?d ?e ?f ?g] =>
      let x := constr:(load_client a b c d e f g) in
      let y := eval vm_compute in x in
      replace x with y by (by vm_compute); cbv iota
  end.

(** The allocations of [clients_loads] on a device without requests. *)
Ltac clients_loads_ok :=
  split; [split; [split_and!; [left | by apply (bool_decide_unpack _) | set_solver by done | done] | done]|];
  compute_load;
  split; [split; [left | split; [by vm_compute | unfold page_typed, u64_range; lia]]|];
  compute_load;
  split; [split; [exact I | by split; vm_compute]|];
  compute_load; exact I.

Lemma clients_loadable : loadable_all 1 2 3 id id clients_loads clients_module.
Proof. clients_loads_ok. Qed.

Lemma ref_inserts_ok : inserts_ok.
Proof. done. Qed.

Lemma registry_loaded_missing : services_missing registry_loaded.
Proof. by split; vm_compute. Qed.

Lemma clients_give_everything_back_witness :
  exists m' n h', load_clients 1 2 3 id id clients_loads clients_module = Ok m' /\
    queued (m_dev m') = [1000; 1100] /\
    kh_main_loop (H := kdev_file (client_callback 1 2 3)) n
      (helper_start sys_hostbuf sys_hostvma registry_loaded gpu_idle (mk_kdev (m_dev m') [] [])) =
      Ok h' /\
    answers (devfd h') ≡ₚ rid (m_dev m') <$> queued (m_dev m') /\
    pool_blocks (gmpool (kd (devfd h'))) = ∅ /\ area_blocks (vm (kd (devfd h'))) = ∅.
Proof.
  destruct (clients_give_everything_back 1 2 3 ltac:(lia) id id clients_module clients_loads
    sys_hostbuf sys_hostvma registry_loaded gpu_idle)
    as (m' & n & h' & El & _ & E & Ha & _ & _ & Hp & Hv & _).
  - exact clients_module_reachable.
  - discriminate.
  - reflexivity.
  - intros r [q Hq]. simpl in Hq. by rewrite lookup_empty in Hq.
  - exact pool_example_wf.
  - by vm_compute.
  - exact vm_example_wf.
  - by vm_compute.
  - exact ref_inserts_ok.
  - exact clients_loadable.
  - repeat (apply Forall_cons; split); simpl; eauto.
  - exact registry_loaded_wf.
  - exact registry_loaded_missing.
  - by vm_compute.
  - exact gpu_idle_unused.
  - exact fresh_malloc_succeeds.
  - exists m', n, h'. split; [exact El|]. split.
    { assert (Hq : match load_clients 1 2 3 id id clients_loads clients_module with
                   | Ok m => queued (m_dev m) = [1000; 1100] | Fault _ => False end)
        by by vm_compute.
      by rewrite El in Hq. }
    split; [exact E|]. split; [exact Ha|]. rewrite Hp, Hv. by split; vm_compute.
Defined.

(** The result of [kgpu_call_async] is ignored: when the module refuses the
    request of [callgpu], the request and its unit of the pool are lost. *)
Example callgpu_refused_leaks :
  match Callgpu.minit 1 (SlabGrow [1000; 1100] 1000) (Some 2000)
          (set_state (m_dev clients_module) KGPU_TERMINATED) with
  | Ok (d, ret) => ret = 0 /\ queued d = [] /\ pool_blocks (gmpool d) = {[0 := 1]} /\
      req_free d = [1100]
  | Fault _ => False
  end.
Proof. by vm_compute. Qed.

(** The loops of the benchmark measure fourteen sizes, from nothing to 32 MB. *)
Example sysbm_sizes :
  Sysbm.sizes 16 Sysbm.MIN_MEM_SZ =
    Some (0 :: ((fun k => 4096 * 2 ^ Z.of_nat k) <$> seq 0 14)).
Proof. by vm_compute. Qed.

(** A batch that takes less than ten microseconds is a division by zero. *)
Lemma sysbm_fast_batch_divides_by_zero sz s u v :
  0 <= v - u < 10 -> Sysbm.async_rates sz (s, u) (s, v) = None.
Proof.
  intros Ht. unfold Sysbm.async_rates, Sysbm.elapsed, Sysbm.rates. simpl.
  rewrite Z.quot_small; [done|]. change Sysbm.BATCH_NR with 10. lia.
Qed.

(** [calg2] asks for "test_service", and the test library registers
    "empty_service": its request is failed without device memory, and because
    its input is in the mapped area the helper aborts on CUDA when it unpins
    what was never pinned. *)
Example calg2_aborts_cuda_helper :
  match Calg2.minit 2 id (SlabGrow [1000; 1100] 1000) (2 ^ 40) (Some 2100) (m_dev clients_module) with
  | Ok (d, _) =>
      kh_main_loop (H := kdev_file (client_callback 1 2 3)) 2
        (helper_start sys_hostbuf sys_hostvma registry_loaded cuda_idle (mk_kdev d [] [])) = Fault Abort
  | Fault _ => False
  end.
Proof. by vm_compute. Qed.
