(* ===== verification/Startup.v ===== *)
(** * From the start of the system

    [kgpu_init] loads the module; the helper then opens the device, maps it
    ([kgpu_mmap]) and tells the module its buffer ([kgpu_ioctl]).  These calls
    establish what the theorems about clients and helper assume, but for the
    table of sizes of the pool, of which the driver clears only a part. *)

From S2P Require Import Prelude KgpuDefs Log ListHead Ranges UnitAlloc MemPool MmapArea Layout Device.
From S2P Require Import Lifecycle Module GpuOps ItemList Services Helper HelperInv HelperLoop HelperThms HelperLive.
From S2P Require Import OpenCLInit HelperMain System SystemThms Clients ClientInv ClientLoad ClientThms.

(** What Linux answers to the driver during the two calls: the area that it
    made for [mmap], the memory for the tables of the area and of the pool,
    and whether the argument of [ioctl] is accessible. *)
Record start_env : Type := mk_start_env {
  se_area : vm_area_struct;
  se_sizes : list Z;
  se_bitmap : list bool;
  se_setup : setup_env;
  se_access : access -> Z -> bool
}.

Section start.
Context `{L : BitmapLib} {LL : BitmapLaws L} (pt : page_tables).

(** The system calls of the helper on the device. *)
Definition sys_mmap (se : start_env) (d : kgpu_dev) : outcome (kgpu_dev * Z) :=
  '(v, e) ← kgpu_mmap (Some (se_sizes se)) (Some (se_bitmap se)) (se_area se) (vm d);
  mret (set_area d v, if e <? 0 then MAP_FAILED else vm_start (se_area se)).

Definition sys_set_bufs (se : start_env) (hb : kgpu_gpu_mem_info) (d : kgpu_dev) :
    outcome (kgpu_dev * Z) :=
  '(d, e) ← kgpu_ioctl pt (se_access se) (se_setup se) hb d KGPU_IOC_SET_GPU_BUFS;
  mret (d, (user_result e).1).

(** The allocations succeed, with any contents. *)
Record start_ok (se : start_env) : Prop := {
  so_start : 0 < vm_start (se_area se);
  so_page : vm_start (se_area se) mod PAGE_SIZE = 0;
  so_end : vm_end (se_area se) < 2 ^ 64;
  so_size : vm_end (se_area se) - vm_start (se_area se) = KGPU_BUF_SIZE;
  so_sizes : length (se_sizes se) = 512%nat;
  so_bitmap : length (se_bitmap se) = 512%nat;
  so_pages : exists pg, km_pages (se_setup se) = Some pg /\ length pg = 512%nat;
  so_pool_bitmap : exists bm, km_bitmap (se_setup se) = Some bm /\ (2 <= length bm)%nat;
  so_pool_sizes : exists sz, km_alloc_sz (se_setup se) = Some sz /\ (2 <= length sz)%nat;
  so_vmap : 0 < vmap_result (se_setup se);
  so_room : vmap_result (se_setup se) + KGPU_BUF_SIZE < 2 ^ 64;
  so_access : se_access se VERIFY_READ 16 = true
}.

(** The two entries of the table of sizes of the pool, as [kmalloc] gave them:
    what the driver does not clear (of the first two bytes of the first entry
    it does) is zero. *)
Definition table_clear (se : start_env) : Prop :=
  forall sz, km_alloc_sz (se_setup se) = Some sz -> rest_clear sz 2.

(** The device that clients and helper find: nothing is queued, there is no
    request object, the pool has the helper's buffer, in two units that are
    not marked, and the area is where the helper mapped it, and free. *)
Record started (d : kgpu_dev) (hb hv : kgpu_gpu_mem_info) : Prop := {
  sd_reachable : reachable (mk_module d ∅ 0);
  sd_state : d_state d = KGPU_OK;
  sd_queued : queued d = [];
  sd_requests : requests d = ∅;
  sd_units : nunits (gmpool d) = 2;
  sd_unmarked : exists bm, bitmap (gmpool d) = KLive bm /\ forall i, 0 <= i < 2 -> test_bit bm i = false;
  sd_shared : buffer_shared (gmpool d) hb;
  sd_area : area_wf (vm d);
  sd_npages : v_npages (vm d) = 512;
  sd_area_free : area_blocks (vm d) = ∅;
  sd_mapped : v_start (vm d) = mi_uva hv /\ v_npages (vm d) * PAGE_SIZE = mi_size hv
}.

Lemma set_bufs_ok se hb :
  start_ok se -> mi_size hb = KGPU_BUF_SIZE ->
  exists pool, set_gpu_mempool pt (se_setup se) hb mempool_zero = Ok (pool, 0) /\
    nunits pool = 2 /\ buffer_shared pool hb /\
    (exists bm, bitmap pool = KLive bm /\ forall i, 0 <= i < 2 -> test_bit bm i = false) /\
    (pool_wf pool /\ pool_blocks pool = ∅ <-> table_clear se).
Proof.
  intros [] Hs. destruct so_pages0 as (pg & Hpg & Lpg), so_pool_bitmap0 as (bm & Hbm & Lbm),
    so_pool_sizes0 as (sz & Hsz & Lsz).
  assert (Enp : wrap32 (mi_size hb / PAGE_SIZE) = 512) by (rewrite Hs; by vm_compute).
  destruct (set_gpu_mempool_ok pt (se_setup se) hb mempool_zero pg bm sz)
    as (pool & E & Hu & _ & Hn & Hnu & _ & Hbits & Hiff); rewrite ?Enp in *;
    change (512 / KGPU_BUF_NR_FRAMES_PER_UNIT) with 2 in *.
  - by rewrite Hpg.
  - lia.
  - by rewrite Hbm.
  - lia.
  - by rewrite Hsz.
  - lia.
  - done.
  - done.
  - exists pool. split; [done|]. split; [done|]. split; [split; [done | by rewrite Hs, Hn]|].
    split; [done|]. rewrite Hiff. unfold table_clear. rewrite Hsz. split; [by intros ? ? [= <-]|]. eauto.
Qed.

Lemma start_up_ok env se uva :
  Lifecycle.env_succeeds env = true -> start_ok se ->
  let hb := mk_mem_info uva KGPU_BUF_SIZE in
  let hv := mk_mem_info (vm_start (se_area se)) KGPU_BUF_SIZE in
  exists d1 d2, sys_mmap se (kgpudev (kgpu_init env module_zero).1) = Ok (d1, mi_uva hv) /\
    sys_set_bufs se hb d1 = Ok (d2, 0) /\ started d2 hb hv /\
    (pool_wf (gmpool d2) /\ pool_blocks (gmpool d2) = ∅ <-> table_clear se).
Proof.
  intros He Hse hb hv.
  assert (kgpudev (kgpu_init env module_zero).1 = dev_init) as ->.
  { destruct env as [[] [] [] c r a n]; try done. revert He. unfold Lifecycle.env_succeeds. simpl.
    rewrite !andb_true_iff, !Z.eqb_eq. intros (((-> & ->) & ->) & ->). done. }
  pose proof (so_size _ Hse) as Hsize. pose proof (so_start _ Hse). pose proof (so_end _ Hse).
  assert (Eb : KGPU_BUF_SIZE = 512 * 4096) by by vm_compute.
  destruct (kgpu_mmap_ok vma_zero (se_area se) (se_sizes se) (se_bitmap se) (so_start _ Hse)
    (so_page _ Hse) ltac:(lia) (so_sizes _ Hse) (so_bitmap _ Hse) Hsize)
    as (v & Ev & Hv & Hnp & Hvb & Hvs).
  destruct (set_bufs_ok se hb Hse eq_refl) as (pool & Ep & Hnu & Hsh & Hbits & Hiff).
  exists (set_area dev_init v), (set_gmpool (set_area dev_init v) pool).
  split; [|split; [|split; [|exact Hiff]]].
  - unfold sys_mmap. change (vm dev_init) with vma_zero. rewrite Ev. done.
  - unfold sys_set_bufs. rewrite ioctl_set_bufs, (so_access _ Hse).
    change (gmpool (set_area dev_init v)) with mempool_zero. by rewrite Ep.
  - split; try done; [|split; [done|]; simpl; by rewrite Hnp, Eb].
    apply (R_step (mk_module dev_init ∅ 0)); [constructor | | done].
    exact (S_memory (mk_module dev_init ∅ 0) pool v).
Qed.

(** C23: when the calls into Linux and OpenCL succeed, whatever the memory that
    they give holds, the start of the system comes to its end: after
    [kgpu_init], and the [mmap] and the [ioctl] of [kh_init], [kh_init] returns
    with the pinned buffer and the mapping, of KGPU_BUF_SIZE each, and eight
    free streams; the module has no request, its pool is the helper's buffer
    in two units that are not marked, and its area the 512 free pages that the
    helper has mapped.  The pool satisfies its invariant, without a block, if
    and only if the part of the table of sizes that the driver does not clear
    happened to be zero. *)
Theorem start_up_establishes env se cenv cp co fd :
  Lifecycle.env_succeeds env = true -> start_ok se ->
  OpenCLInit.env_succeeds cenv = true -> objects_ok co ->
  cp_status cp = CL_SUCCESS -> cp_host_status cp = CL_SUCCESS -> cp_host cp <> NULL -> 0 <= fd ->
  let p := vm_start (se_area se) in
  let hb := mk_mem_info (cp_host cp) KGPU_BUF_SIZE in
  let hv := mk_mem_info p KGPU_BUF_SIZE in
  exists d1 d2 s,
    sys_mmap se (kgpudev (kgpu_init env module_zero).1) = Ok (d1, p) /\
    kh_init cenv cp co (mk_kh_env fd 0 p 0) cl_start = Ok (hb, hv, s) /\
    sys_set_bufs se hb d1 = Ok (d2, 0) /\ started d2 hb hv /\
    (pool_wf (gmpool d2) /\ pool_blocks (gmpool d2) = ∅ <-> table_clear se) /\
    gpu_wf (cl_gpu s) /\ forall i, stream_used (cl_gpu s) i = false.
Proof.
  intros He Hse Hc Ho H1 H2 H3 Hfd p hb hv.
  destruct (start_up_ok env se (cp_host cp) He Hse) as (d1 & d2 & E1 & E2 & Hst & Hiff). simpl in E1.
  destruct (kh_init_success cenv cp co (mk_kh_env fd 0 p 0) Hc Ho) as (s & E3 & Hg & Hu).
  { pose proof (so_end _ Hse) as Hend. pose proof (so_size _ Hse) as Hsize.
    assert (KGPU_BUF_SIZE = 2097152) as Eb by by vm_compute.
    unfold calls_ok, p. simpl. split_and!; try done. unfold MAP_FAILED. lia. }
  exists d1, d2, s. split; [exact E1|]. split; [exact E3|]. split; [exact E2|].
  split; [exact Hst|]. split; [exact Hiff|]. done.
Qed.

(** ** A whole run *)

Section run.
Context `{V : VmLib} {VL : VmLaws V}.
Context (cg ca sb : Z) (Hcodes : cg <> ca /\ cg <> sb /\ ca <> sb) (__pa cs : Z -> Z).
Context `{!ServiceCode gpu_state, !ServiceLaws gpu_state, MallocLaws}.

#[local] Instance run_file : DevFile kdev := kdev_file (client_callback cg ca sb).

(** C4: a whole run with the OpenCL back end: the module is loaded, the helper
    starts, the client modules are loaded in any order and number, and the
    helper works on their requests.  The registry has neither of the services
    that [callgpu] and [calg2] ask for; the uncleared part of the table of
    sizes is zero ([table_clear]); mapping a page succeeds, every submission
    gets its queue item and the helper's [malloc] succeeds.  Then nothing
    fails on the way; every submitted request is answered once; and at the
    end the pool and the mapped area have no reserved block, both queues are
    empty, and every request object is free, once. *)
Theorem whole_run_balanced env se uva :
  Lifecycle.env_succeeds env = true -> start_ok se -> table_clear se -> inserts_ok -> malloc_succeeds ->
  let hb := mk_mem_info uva KGPU_BUF_SIZE in
  let hv := mk_mem_info (vm_start (se_area se)) KGPU_BUF_SIZE in
  exists d1 d2,
    sys_mmap se (kgpudev (kgpu_init env module_zero).1) = Ok (d1, mi_uva hv) /\
    sys_set_bufs se hb d1 = Ok (d2, 0) /\
    forall l reg (g : gpu_state),
      loadable_all cg ca sb __pa cs l (mk_module d2 ∅ 0) -> Forall has_item l ->
      registry_wf reg -> services_missing reg -> gpu_wf g -> (forall i, stream_used g i = false) ->
      exists m n h', load_clients cg ca sb __pa cs l (mk_module d2 ∅ 0) = Ok m /\
        kh_main_loop n (helper_start hb hv reg g (mk_kdev (m_dev m) [] [])) = Ok h' /\
        answers (devfd h') ≡ₚ rid (m_dev m) <$> queued (m_dev m) /\
        let d := kd (devfd h') in
        reqs d = [] /\ rtdreqs d = [] /\ pool_blocks (gmpool d) = ∅ /\ area_blocks (vm d) = ∅ /\
        NoDup (req_free d) /\ forall r, is_Some (requests d !! r) -> r ∈ req_free d.
Proof.
  intros He Hse Htab Hins Hmal hb hv.
  destruct (start_up_ok env se uva He Hse) as (d1 & d2 & E1 & E2 & [] & Hiff).
  destruct (proj2 Hiff Htab) as [Hpool Hfree].
  exists d1, d2. split; [done|]. split; [done|]. intros l reg g Hl Hit Hreg Hmiss Hg Hu.
  destruct (clients_balanced cg ca sb Hcodes __pa cs (mk_module d2 ∅ 0) l hb hv reg g)
    as (m & n & h' & El & _ & E & Ha & A1 & A2 & A3 & A4 & A5 & A6); try done.
  - simpl. by rewrite sd_state0.
  - simpl. intros r [q Hq]. by rewrite sd_requests0, lookup_empty in Hq.
  - simpl. rewrite sd_units0. by vm_compute.
  - simpl. rewrite sd_npages0. lia.
  - exists m, n, h'. simpl in A3, A4. rewrite Hfree in A3. rewrite sd_area_free0 in A4.
    cbv zeta. split_and!; done.
Qed.

End run.
End start.

(** ** An example

    The table of sizes holds what the driver clears and zeros. *)

Definition se_example : start_env :=
  mk_start_env (mk_vm_area (2 ^ 30) (2 ^ 30 + KGPU_BUF_SIZE) 0 ∅) (repeat 7 512) (repeat true 512)
    (env_example (Some [513; 0])) (fun _ _ => true).

Lemma se_example_ok : start_ok se_example.
Proof.
  split; try (by vm_compute); simpl; eauto.
  exists (repeat true 64). split; [done | simpl; lia].
Qed.

Lemma se_example_clear : table_clear se_example.
Proof.
  intros sz [= <-] i Hi Hr. assert (i = 0 \/ i = 1) as [-> | ->] by lia; by vm_compute.
Qed.

Lemma start_up_establishes_witness :
  exists d1 d2 s,
    sys_mmap se_example (kgpudev (kgpu_init env_good module_zero).1) = Ok (d1, 2 ^ 30) /\
    kh_init cl_env_good cp_good co_good (mk_kh_env 3 0 (2 ^ 30) 0) cl_start =
      Ok (sys_hostbuf, sys_hostvma, s) /\
    sys_set_bufs pt_example se_example sys_hostbuf d1 = Ok (d2, 0) /\
    started d2 sys_hostbuf sys_hostvma /\ pool_wf (gmpool d2).
Proof.
  destruct (start_up_establishes pt_example env_good se_example cl_env_good cp_good co_good 3)
    as (d1 & d2 & s & E1 & E2 & E3 & Hs & Hp & _).
  - reflexivity.
  - exact se_example_ok.
  - reflexivity.
  - split; [reflexivity|]. split; [reflexivity|]. vm_compute. lia.
  - reflexivity.
  - reflexivity.
  - discriminate.
  - lia.
  - exists d1, d2, s. split; [exact E1|]. split; [exact E2|]. split; [exact E3|]. split; [exact Hs|].
    exact (proj1 (proj2 Hp se_example_clear)).
Defined.

Lemma clients_loadable_from d1 d2 :
  sys_mmap se_example (kgpudev (kgpu_init env_good module_zero).1) = Ok (d1, 2 ^ 30) ->
  sys_set_bufs pt_example se_example (mk_mem_info 4096 KGPU_BUF_SIZE) d1 = Ok (d2, 0) ->
  loadable_all 1 2 3 id id clients_loads (mk_module d2 ∅ 0).
Proof.
  intros E1 E2. vm_compute in E1. injection E1 as <-. vm_compute in E2. injection E2 as <-.
  clients_loads_ok.
Qed.

Lemma whole_run_balanced_witness :
  exists d1 d2,
    sys_mmap se_example (kgpudev (kgpu_init env_good module_zero).1) = Ok (d1, 2 ^ 30) /\
    sys_set_bufs pt_example se_example sys_hostbuf d1 = Ok (d2, 0) /\
    exists m n h', load_clients 1 2 3 id id clients_loads (mk_module d2 ∅ 0) = Ok m /\
      kh_main_loop (H := kdev_file (client_callback 1 2 3)) n
        (helper_start sys_hostbuf sys_hostvma registry_loaded gpu_idle (mk_kdev (m_dev m) [] [])) =
        Ok h' /\
      pool_blocks (gmpool (kd (devfd h'))) = ∅ /\ area_blocks (vm (kd (devfd h'))) = ∅.
Proof.
  destruct (whole_run_balanced pt_example 1 2 3 ltac:(lia) id id env_good
    se_example 4096) as (d1 & d2 & E1 & E2 & Hrun).
  - reflexivity.
  - exact se_example_ok.
  - exact se_example_clear.
  - exact ref_inserts_ok.
  - exact fresh_malloc_succeeds.
  - exists d1, d2. split; [exact E1|]. split; [exact E2|].
    destruct (Hrun clients_loads registry_loaded gpu_idle)
      as (m & n & h' & El & E & _ & _ & _ & Hp & Hv & _).
    + exact (clients_loadable_from d1 d2 E1 E2).
    + repeat (apply Forall_cons; split); simpl; eauto.
    + exact registry_loaded_wf.
    + exact registry_loaded_missing.
    + by vm_compute.
    + exact gpu_idle_unused.
    + exists m, n, h'. split; [exact El|]. split; [exact E|]. split; [exact Hp | exact Hv].
Defined.
